(* ===== verification/_CoqProject ===== *)
-Q . S2P
Prelude.v
RustStr.v
NetAddr.v
SwssSerde.v
SwssSerdeTheory.v
Path.v
Proto.v
Json.v
Mux.v
MuxTheory.v
MuxWitness.v
Conn.v
ConnTheory.v
Edge.v
EdgeTheory.v
CoreClient.v
BusTheory.v
Actor.v
ActorTheory.v
ActorProps.v
ActorWitness.v
Link.v
LinkTheory.v
LinkProps.v
DriverProps.v
Bridge.v
BridgeTheory.v
BridgeWitness.v
HaTypes.v
HaRows.v
HaRowsTheory.v
HaJson.v
Derive.v
Log.v
Config.v
ConfigTheory.v
ConfigWitness.v
Container.v
ContainerTheory.v
Cli.v
CliTheory.v
CliShow.v
VDpuActor.v
DpuActor.v
HaSetActor.v
HaScopeActor.v
Hamgrd.v
HamgrdTheory.v
HamgrdWitness.v
HaTheory.v
HaProps.v
HaScopeProps.v
HaChain.v
HaAssembly.v
HaValue.v
HaWitness.v
HaChainWitness.v
HaActorTests.v
BusTests.v
ActorTests.v
RowTests.v
BridgeTests.v
TopoTests.v
