(* ===== verification/Prelude.v ===== *)
(** * sonic-dash-ha: a verification development

    sonic-dash-ha runs high availability for SONiC DASH smart switches. Its
    parts, under src/crates, and how they interact:

    - swbusd (swbusd, swbus-proto, swbus-core, swbus-config) is a message router.
      Every node runs one; they connect to each other over gRPC streams and route
      messages by the longest matching prefix of a service path.
    - swbus-edge is the router inside a client process: it delivers messages
      between the handlers of the process and exchanges the rest with swbusd.
      [SimpleSwbusEdgeClient] is a handler with a typed receive and send.
    - swbus-actor runs actors over simple clients: a message becomes an entry of
      the actor's incoming table, the actor's callback runs, and its writes and
      its queued messages take effect only if it succeeds.
    - swss-common-bridge relays SONiC tables: a consumer bridge sends the updates
      of a table to an actor, a producer bridge writes the updates it receives.
    - hamgrd is a set of actors - DPU, vDPU, HA set, HA scope - that turn SONiC
      configuration and DPU state into the tables the DPUs and the controller
      read. Actor creators start an actor on the first update of its row.
      swss-serde encodes the rows of these tables.
    - container starts and stops the containers of SONiC features; swbus-cli
      pings, traces and shows the state of swbusd and of actors.

    ** Files, and what they model

    Every file models code as total functions in the monad [M S E A] of this
    file: state [S], a Rust [Result] with error [E], panics as the outcome
    [Panicked], and exhausted fuel as [OutOfFuel]. A [Theory] or [Props] file
    holds theorems, a [Witness] file applies them to concrete runs.

    - Prelude: the monad, its reasoning principles ([preserves]: what a run can
      change; [runs_in]: it never panics; [wp]) with their tactics [frame] and
      [runs], machine integers, sorting.
    - RustStr, NetAddr: the methods of str and the addresses of std::net the code
      uses; decimal printing and parsing.
    - SwssSerde, SwssSerdeTheory: swss-serde/src (field_value.rs,
      field_values.rs, table.rs) over serde's data model; round trips.
    - Path: the service path of swbus-proto/src/swbus.rs and its text format.
    - Proto: the messages of swbus.proto, responses, errors, message ids. Json:
      the hand-written serializers and [normalize_msg] of swbus.rs.
    - Mux, MuxTheory, MuxWitness: swbus-core/src/mux/multiplexer.rs, nexthop.rs,
      conn_info.rs, conn_proxy.rs. [MuxState] is [SwbusMultiplexer] with the send
      queues of its connections; [route_message] is the routing loop.
    - Conn, ConnTheory: conn.rs, conn_store.rs, conn_worker.rs, service.rs.
      [NodeState] is a running swbusd: multiplexer, tracked connections, tasks.
    - Edge, EdgeTheory: swbus-edge/src. [EdgeState] is a runtime with its routes
      and queues, [SimpleClient] a client. CoreClient: the task of core_client.rs
      that receives from swbusd into the router's bounded queue.
    - BusTheory: edges and swbusd composed.
    - Actor, ActorTheory, ActorProps, ActorWitness: swbus-actor/src. [ActorSt] is
      an actor with its three state tables, its client and the databases; [Actor]
      is the callback trait, [ActorContract] what a callback may change, and
      [driver_run] the main loop over the events it sees.
    - Link, LinkTheory, LinkProps: two actors and the bus between them, composed
      from the drivers of Actor over a channel that keeps the order and may lose
      messages: [link_step] is every step of the sender, the receiver and the
      channel, and [published] the table of updates that the link specifies.
    - DriverProps: the driver over any sequence of events, against the actor
      contract alone: its invariant [resting], and the answers it owes.
    - Bridge, BridgeTheory, BridgeWitness: swss-common-bridge/src.
    - HaTypes, HaRows: hamgrd/src/db_structs.rs and ha_actor_messages.rs; the
      field-value encoding is the interface [FvCodec], which HaRows implements
      with SwssSerde.
    - HaRowsTheory: which rows can always be written. HaJson: what the JSON form of
      a message loses, the times of a DPU's state cut to whole seconds, and the
      laws of serde_json and chrono that say so.
    - Derive: the macro of sonicdb-derive/src/lib.rs that implements
      [SonicDbTable] for these rows from their attributes.
    - Log: sonic-common/src: logging, the handler of the SONiC log level, the
      panic hook.
    - Config, ConfigTheory, ConfigWitness: swbus-config/src/lib.rs, the choice of
      configuration in swbusd/src/main.rs, get_dpu_config_from_db of hamgrd.
    - Container, ContainerTheory: container/src.
    - Cli, CliTheory, CliShow: swbus-cli/src; CliShow the tables of
      show/hamgrd/actor.rs.
    - VDpuActor, DpuActor, HaSetActor, HaScopeActor: hamgrd/src/actors/*.rs, every
      handler in full, as instances of [Actor]; HaTheory shows that they meet
      [ActorContract]; HaProps, HaScopeProps and HaWitness what they do. HaChain
      composes the drivers of a DPU, a vDPU and an HA scope, HaAssembly those of
      the four actors when a vDPU and a scope are configured; HaChainWitness runs
      both. HaValue is the JSON value of a concrete message, written as the bytes
      of a tree of its fields, with a calendar that keeps whole seconds.
    - Hamgrd, HamgrdTheory, HamgrdWitness: hamgrd/src/actors.rs and main.rs,
      swbus-actor/src/runtime.rs: creators, bridges, start-up. [HamgrdSt] is the
      process with what it has spawned.
    - BusTests, TopoTests, ActorTests, BridgeTests, RowTests, HaActorTests: the
      tests of swbus-proto, swbus-core and swbus-edge; the topology of two swbusd
      of swbus-core/tests; swbus-actor's tests with their actors and JSON
      specifications; those of swss-common-bridge; of swss-serde, db_structs.rs,
      swbus-config, swbus-cli and sonicdb-derive; and hamgrd's harness
      (actors/test.rs) with the scenarios of its actors.

    ** What the theorems show

    - Routing: longest-prefix forwarding with the TTL decremented, exact export
      of the route table, where each entry of a reachable route table comes from
      ([route_table_well_formed]; a route may outlive its connection, as
      [late_registration_keeps_dead_route] shows), termination of
      [route_message] and the one case where it does not end.
    - Connections: the handshake gives both sides a live route, life and death of
      a worker, shutdown, which messages are rejected; the edge delivers to the
      most specific visible handler and keeps private handlers private.
    - The bus ([bus_delivers]): a message crosses the sender's edge, any number of
      swbusd and the receiver's edge as if the clients shared a channel.
    - Actors: commit and rollback of a callback (with what becomes of every table
      entry, written to, added or left alone), the life of an unacknowledged
      message, no panic in the bookkeeping of any actor that meets the contract.
      Between two events nothing is queued or uncommitted and what waits for an
      acknowledgement is recorded ([driver_invariant]); every readable request is
      answered exactly once, in order ([requests_answered]), until a callback does
      not return or a table refuses a write, which panics.
    - The link between two actors refines a table of published updates
      ([link_replicates]) and a round without loss brings the receiver up to date
      ([link_converges]), up to the updates the resend loop gives up after an hour,
      and if the sender waits for an acknowledgement before it sends the next
      update of a key; [stale_resend_diverges] shows what happens if it does not.
      The link assumes callbacks that return and, for the receiver to catch up,
      tables whose writes do not throw. The induction is over [link_step], with the invariant
      [link_inv] of LinkTheory.
    - Bridges: what a consumer bridge sends refines the table it reads, a
      producer bridge applies and answers every update, and the two together
      copy a table.
    - hamgrd: what it starts with, that the first update of a row spawns its actor
      and reaches it; what a DPU, vDPU, HA set and HA scope send and write in
      response to a message, that the DPU, vDPU and (once open) HA-scope handlers
      never panic, and the bookkeeping of pending operations. A new row of a DPU's
      state reaches, through the three actors, the row the controller reads
      ([dpu_state_reaches_controller]); and with a configured DPU and HA set, the
      rows of a vDPU and a scope make the four actors register with each other and
      open the scope ([chain_assembled]). Both say what the row holds with its times
      in whole seconds, as the messages between the actors carry them.
    - Configuration: what loading yields, that its values - endpoint, loopback
      addresses, routes and peers - are within their types,
      and that DPUs of one switch, or of switches that describe each other, are
      each other's peers.
    - Tools: what starting a container reads, decides and records, and that
      waiting with a fallback ends; that waiting for a response returns the first
      answer in time, a traceroute lists the hops of the way, and show prints the
      state of the actor it asks, column by column - for an internal table the
      backup of its values, which is not what was committed
      ([committed_row_is_stale]).
    - Foundations: what the derive macro yields, and that it yields the instances
      used here; what a change of the SONiC log level lets through.
    - Encodings: service paths, addresses, field values and structs survive a
      round trip, a struct if each of its values can be carried ([carries] says
      which cannot: Some of the text of None, a list of one empty string, ...); the
      normal form of a message sorts its route entries.
    - Conformance: the tests of the repository pass against the models, each
      evaluated to its end with the assertions of the source ([bus_tests_pass],
      [topo_tests_pass], [kvstore_passes], [row_tests_pass] and the like). They are
      the check of the definitions that the theorems do not give: the route table a
      real topology shows, or the dump of an actor after a thousand messages.
    - The theorems named after a defect ([route_message_noroute_loop],
      [reconnect_loses_route], [route_message_panics],
      [stale_backup_reverts_commit], [stale_resend_diverges],
      [late_registration_keeps_dead_route], [committed_row_is_stale],
      [ha_set_single_vdpu_panics], [enum_prefix_accepted],
      [deleted_actor_never_recreated], [second_bridge_ends_first],
      [creator_spawns_twice], [container_record_unread],
      [container_local_never_killed]) show that it occurs.

    ** Parameters and bounds

    serde_json ([Wire], [Codec]), serde_yaml, the tables of swss-common
    ([SwssTable], [HashTable], [ConfigDb], [Redis]), the docker daemon
    ([Docker]), UTF-8 validity ([Utf8]), chrono's time format ([Chrono]), tracing
    and the logger of swss-common ([Reload], [LogHost]), color_eyre and
    human_panic ([PanicHost]), what syn parses (an argument of the macro), the
    tables and dates printed by the command line tool ([Rendering]),
    [Uuid::new_v4], the clock (an argument, in nanoseconds), what the network
    answers the command line tool and the environment of hamgrd ([HaEnv]) are
    parameters, as are the header values of tonic ([Metadata]), with the laws a
    theorem needs in classes ([WireLaws], [MetadataLaws], [RedisLaws],
    [RenderingLaws], [ReloadLaws]). A table that takes a write can be read back
    ([SwssTableLaws], [ProducerTableLaws]); that no write throws is a law apart
    ([SwssTableWrites], [ProducerTableWrites]), used only where a theorem is about
    what follows successful writes. [Faithful] says that the JSON form of a type
    reads back, of types without times; the states of DPUs read back in whole
    seconds ([StateJson]), since that is what chrono's format keeps
    ([ChronoLaws]; [calendar_seconds] shows that the calendar meets it).
    HashMap iteration is that of the map model or, in CliShow, any; theorems about
    iteration hold for the order it gives, or for every order where they say so.

    Fuel appears in [route_message], whose answers are routed in turn: two units
    are enough unless both ends are unconnected local services, which
    [route_message_terminates] states; in what calls it (a connection worker); in
    the container tool's [wait_loop], for which the polls of the configured
    seconds are enough ([container_wait_falls_back]); in the producer bridge's
    loop, bounded by its queue; and in [wait_connected], where 102 polls are the
    ten seconds the tool waits. Everything else is structurally recursive.

    ** Concurrency

    A tokio task is a sequence of steps on the state it shares with others; the
    interleavings that matter (registration after the worker ended, reconnection
    before the old worker unregisters, two updates at one creator, two bridges at
    one address) are explicit sequences of operations.

    ** Not modelled

    The log messages of the other crates, the Windows variants of logging, floats
    in swss-serde, gRPC itself and the parsing of command line arguments. Of the
    tests: what they do with sockets, Redis and ZMQ, which are the parameters above;
    random data, which is an argument; the recording of test data; and the count up
    to which echo.rs, kvstore.rs and two JSON specifications run, which is an
    argument too. *)
From Stdlib Require Export Sorting.Sorted.
From stdpp Require Export base gmap strings list fin_maps pretty.
From Stdlib Require Export ZArith Lia Ascii.
From Stdlib Require Import String.

(** * Rust results, panics and shared state *)

(** [Result<A, E>]. *)
Inductive result (A E : Type) : Type :=
| Ok (a : A)
| Err (e : E).
Arguments Ok {A E} a.
Arguments Err {A E} e.

(** What running a piece of code can do: return, panic (the tokio task that
    runs it dies), or not return within the fuel of the model. *)
Inductive outcome (A : Type) : Type :=
| Done (a : A)
| Panicked (why : string)
| OutOfFuel.
Arguments Done {A} a.
Arguments Panicked {A} why.
Arguments OutOfFuel {A}.

#[export] Instance result_eq_dec {A E} `{EqDecision A} `{EqDecision E} : EqDecision (result A E).
Proof. solve_decision. Defined.
#[export] Instance outcome_eq_dec {A} `{EqDecision A} : EqDecision (outcome A).
Proof. solve_decision. Defined.

(** The monad of the development: state [S] (kept when an error is returned),
    a Rust [Result] with error [E], panics and fuel. *)
Definition M (S E A : Type) : Type := S → outcome (result A E * S).

Definition ret {S E A} (a : A) : M S E A := λ s, Done (Ok a, s).
Definition throw {S E A} (e : E) : M S E A := λ s, Done (Err e, s).
Definition panic {S E A} (why : string) : M S E A := λ _, Panicked why.
Definition out_of_fuel {S E A} : M S E A := λ _, OutOfFuel.
Definition get_state {S E} : M S E S := λ s, Done (Ok s, s).
Definition put_state {S E} (s : S) : M S E unit := λ _, Done (Ok tt, s).
Definition modify {S E} (f : S → S) : M S E unit := λ s, Done (Ok tt, f s).

Definition bind {S E A B} (m : M S E A) (k : A → M S E B) : M S E B :=
  λ s, match m s with
       | Done (Ok a, s') => k a s'
       | Done (Err e, s') => Done (Err e, s')
       | Panicked w => Panicked w
       | OutOfFuel => OutOfFuel
       end.

(** Run [m] and hand its [Result] to the caller instead of propagating it. *)
Definition attempt {S E E' A} (m : M S E A) : M S E' (result A E) :=
  λ s, match m s with
       | Done (r, s') => Done (Ok r, s')
       | Panicked w => Panicked w
       | OutOfFuel => OutOfFuel
       end.

Declare Scope rust_scope.
Delimit Scope rust_scope with rust.
Notation "'let*' x ':=' m 'in' k" := (bind m (λ x, k))
  (at level 10, x pattern, m at level 100, k at level 200) : rust_scope.
Notation "m ';;;' k" := (bind m (λ _, k))
  (at level 199, k at level 200, right associativity) : rust_scope.
Open Scope rust_scope.

(** [o.unwrap()] / [o.expect(why)] on an [Option]. *)
Definition unwrap {S E A} (why : string) (o : option A) : M S E A :=
  match o with Some a => ret a | None => panic why end.

(** [m.unwrap()] / [m.expect(why)] on a [Result]. *)
Definition unwrap_result {S E E' A} (why : string) (m : M S E A) : M S E' A :=
  let* r := attempt m in
  match r with Ok a => ret a | Err _ => panic why end.

(** [r?] on a [Result] value. *)
Definition of_result {S E A} (r : result A E) : M S E A :=
  match r with Ok a => ret a | Err e => throw e end.

(** [for x in l { f(x)?; }] *)
Fixpoint for_each {S E A} (f : A → M S E unit) (l : list A) : M S E unit :=
  match l with
  | [] => ret tt
  | x :: l' => f x;;; for_each f l'
  end.

(** [l.iter().map(f).collect::<Result<Vec<_>>>()] *)
Fixpoint map_m {S E A B} (f : A → M S E B) (l : list A) : M S E (list B) :=
  match l with
  | [] => ret []
  | x :: l' => let* y := f x in let* ys := map_m f l' in ret (y :: ys)
  end.

Definition when {S E} (b : bool) (m : M S E unit) : M S E unit :=
  if b then m else ret tt.

(** [m] finishes: no panic, and the fuel is enough. *)
Definition returns {A} (o : outcome A) : Prop := ∃ a, o = Done a.

(** ** Unfolding the monad *)

Lemma bind_ret {S E A B} (a : A) (k : A → M S E B) s : bind (ret a) k s = k a s.
Proof. reflexivity. Qed.
Lemma bind_throw {S E A B} (e : E) (k : A → M S E B) s : bind (throw e) k s = Done (Err e, s).
Proof. reflexivity. Qed.
Lemma bind_get {S E B} (k : S → M S E B) s : bind get_state k s = k s s.
Proof. reflexivity. Qed.
Lemma bind_modify {S E B} f (k : unit → M S E B) s : bind (modify f) k s = k tt (f s).
Proof. reflexivity. Qed.
Lemma bind_bind {S E A B C} (m : M S E A) (k : A → M S E B) (h : B → M S E C) s :
  bind (bind m k) h s = bind m (λ a, bind (k a) h) s.
Proof. unfold bind. by destruct (m s) as [[[a|e] s']| |]. Qed.
Lemma bind_done {S E A B} (m : M S E A) (k : A → M S E B) s a s' :
  m s = Done (Ok a, s') → bind m k s = k a s'.
Proof. unfold bind. by intros ->. Qed.
Lemma bind_err {S E A B} (m : M S E A) (k : A → M S E B) s e s' :
  m s = Done (Err e, s') → bind m k s = Done (Err e, s').
Proof. unfold bind. by intros ->. Qed.

Lemma bind_panicked {S E A B} (m : M S E A) (k : A → M S E B) s w : m s = Panicked w → bind m k s = Panicked w.
Proof. unfold bind. by intros ->. Qed.
Lemma unwrap_result_err {S E E' A} w (m : M S E A) s e s' :
  m s = Done (Err e, s') → unwrap_result (E':=E') w m s = Panicked w.
Proof. unfold unwrap_result, bind, attempt. by intros ->. Qed.

Lemma unwrap_result_ok {S E E' A} w (m : M S E A) s a s' :
  m s = Done (Ok a, s') → unwrap_result (E':=E') w m s = Done (Ok a, s').
Proof. unfold unwrap_result, bind, attempt. by intros ->. Qed.

Lemma bind_fuel {S E A B} (m : M S E A) (k : A → M S E B) s :
  bind m k s = OutOfFuel ↔
  m s = OutOfFuel ∨ ∃ a s', m s = Done (Ok a, s') ∧ k a s' = OutOfFuel.
Proof.
  unfold bind. destruct (m s) as [[[a|e] s']| |]; naive_solver.
Qed.

Lemma for_each_app {S E A} (f : A → M S E unit) l1 l2 s :
  for_each f (l1 ++ l2) s = bind (for_each f l1) (λ _, for_each f l2) s.
Proof.
  revert s. induction l1 as [|x l1 IH]; intros s; [done|].
  simpl. rewrite bind_bind. unfold bind. destruct (f x s) as [[[[]|e] s']| |]; [|done..].
  apply IH.
Qed.

Create HintDb rust.
Create Rewrite HintDb rust.
#[export] Hint Rewrite @bind_ret @bind_throw @bind_get @bind_modify : rust.

(** Run one monadic step whose result is in a hypothesis. *)
Ltac step_with H := erewrite bind_done by (exact H || apply H).

(** Split an equation [m s = Done ..] along its binds and case analyses. *)
Ltac inv_done :=
  repeat match goal with
  | H : Done _ = Done _ |- _ => injection H as H; subst
  | H : Ok _ = Ok _ |- _ => injection H as H; subst
  | H : Err _ = Err _ |- _ => injection H as H; subst
  | H : (_, _) = (_, _) |- _ => injection H as H; subst
  | H : Done _ = Panicked _ |- _ => discriminate H
  | H : Panicked _ = Done _ |- _ => discriminate H
  | H : OutOfFuel = Done _ |- _ => discriminate H
  | H : Done _ = OutOfFuel |- _ => discriminate H
  | H : Panicked _ = OutOfFuel |- _ => discriminate H
  | H : Ok _ = Err _ |- _ => discriminate H
  | H : Err _ = Ok _ |- _ => discriminate H
  | H : Some _ = Some _ |- _ => injection H as H; subst
  | H : Some _ = None |- _ => discriminate H
  | H : None = Some _ |- _ => discriminate H
  end.

(** * Machine integers *)

Definition u8_max : Z := 2 ^ 8 - 1.
Definition u32_max : Z := 2 ^ 32 - 1.
Definition u64_max : Z := 2 ^ 64 - 1.
Definition wrap_u8 (z : Z) : Z := z mod 2 ^ 8.
Definition wrap_u32 (z : Z) : Z := z mod 2 ^ 32.
Definition wrap_u64 (z : Z) : Z := z mod 2 ^ 64.

Lemma wrap_u64_bounds z : (0 ≤ wrap_u64 z ≤ u64_max)%Z.
Proof. unfold wrap_u64, u64_max. pose proof (Z.mod_pos_bound z (2 ^ 64)). lia. Qed.
Lemma wrap_u32_bounds z : (0 ≤ wrap_u32 z ≤ u32_max)%Z.
Proof. unfold wrap_u32, u32_max. pose proof (Z.mod_pos_bound z (2 ^ 32)). lia. Qed.
Lemma wrap_u32_small z : (0 ≤ z ≤ u32_max)%Z → wrap_u32 z = z.
Proof. unfold wrap_u32, u32_max. intros. apply Z.mod_small. lia. Qed.
Lemma wrap_u64_small z : (0 ≤ z ≤ u64_max)%Z → wrap_u64 z = z.
Proof. unfold wrap_u64, u64_max. intros. apply Z.mod_small. lia. Qed.

(** * Reasoning about the monad *)

(** [m] only changes the state along [R], whatever it returns. *)
Definition preserves {S E A} (R : S → S → Prop) (m : M S E A) : Prop :=
  ∀ s r s', m s = Done (r, s') → R s s'.

(** [m] never runs out of fuel. *)
Definition fuel_free {S E A} (m : M S E A) : Prop := ∀ s, m s ≠ OutOfFuel.

(** [m] runs to completion from [s], without panic, and its result satisfies [Q]. *)
Definition wp {S E A} (m : M S E A) (Q : result A E → S → Prop) (s : S) : Prop :=
  match m s with Done (r, s') => Q r s' | _ => False end.

Section Preserves.
Context {S : Type} (R : S → S → Prop) `{!Reflexive R, !Transitive R}.

Lemma preserves_ret {E A} (a : A) : preserves R (ret (E:=E) a).
Proof. intros s r s' H. unfold ret in H. inv_done. done. Qed.
Lemma preserves_throw {E A} (e : E) : preserves R (throw (A:=A) e).
Proof. intros s r s' H. unfold throw in H. inv_done. done. Qed.
Lemma preserves_panic {E A} w : preserves R (panic (S:=S) (E:=E) (A:=A) w).
Proof. intros s r s' H. discriminate H. Qed.
Lemma preserves_out_of_fuel {E A} : preserves R (out_of_fuel (S:=S) (E:=E) (A:=A)).
Proof. intros s r s' H. discriminate H. Qed.
Lemma preserves_get {E} : preserves R (get_state (S:=S) (E:=E)).
Proof. intros s r s' H. unfold get_state in H. inv_done. done. Qed.
Lemma preserves_modify {E} (f : S → S) : (∀ s, R s (f s)) → preserves R (modify (E:=E) f).
Proof. intros Hf s r s' H. unfold modify in H. inv_done. auto. Qed.
Lemma preserves_bind {E A B} (m : M S E A) (k : A → M S E B) :
  preserves R m → (∀ a, preserves R (k a)) → preserves R (bind m k).
Proof.
  intros Hm Hk s r s' H. unfold bind in H.
  destruct (m s) as [[[a|e] s1]| |] eqn:E1; try discriminate H.
  - transitivity s1; [by eapply Hm|by eapply Hk].
  - inv_done. by eapply Hm.
Qed.
Lemma preserves_attempt {E E' A} (m : M S E A) : preserves R m → preserves R (attempt (E':=E') m).
Proof.
  intros Hm s r s' H. unfold attempt in H.
  destruct (m s) as [[r1 s1]| |] eqn:E1; try discriminate H. inv_done. by eapply Hm.
Qed.
Lemma preserves_unwrap {E A} w (o : option A) : preserves R (unwrap (E:=E) w o).
Proof. destruct o; [apply preserves_ret|apply preserves_panic]. Qed.
Lemma preserves_unwrap_result {E E' A} w (m : M S E A) :
  preserves R m → preserves R (unwrap_result (E':=E') w m).
Proof.
  intros Hm. apply preserves_bind; [by apply preserves_attempt|].
  intros [a|e]; [apply preserves_ret|apply preserves_panic].
Qed.
Lemma preserves_of_result {E A} (x : result A E) : preserves R (of_result x).
Proof. destruct x; [apply preserves_ret|apply preserves_throw]. Qed.
Lemma preserves_for_each {E A} (f : A → M S E unit) l :
  (∀ x, preserves R (f x)) → preserves R (for_each f l).
Proof.
  intros Hf. induction l; simpl; [apply preserves_ret|]. by apply preserves_bind.
Qed.
Lemma preserves_map_m {E A B} (f : A → M S E B) l :
  (∀ x, preserves R (f x)) → preserves R (map_m f l).
Proof.
  intros Hf. induction l; simpl; [apply preserves_ret|].
  apply preserves_bind; [done|]. intros y. apply preserves_bind; [done|]. intros. apply preserves_ret.
Qed.
Lemma preserves_when {E} b (m : M S E unit) : preserves R m → preserves R (when b m).
Proof. destruct b; [done|]. intros _. apply preserves_ret. Qed.
End Preserves.

Create HintDb frame.
#[export] Hint Resolve preserves_ret preserves_throw preserves_panic preserves_out_of_fuel
  preserves_get preserves_attempt preserves_unwrap preserves_unwrap_result
  preserves_of_result preserves_for_each preserves_when : frame.

(** Split a [preserves] goal along the code: binds, matches, library steps. *)
Ltac frame_step :=
  match goal with
  | |- preserves _ (bind _ _) => apply preserves_bind; [typeclasses eauto| |intros ?]
  | |- preserves _ (unwrap_result _ _) => apply preserves_unwrap_result; try typeclasses eauto
  | |- preserves _ (attempt _) => apply preserves_attempt; try typeclasses eauto
  | |- preserves _ (when _ _) => apply preserves_when; try typeclasses eauto
  | |- preserves _ (match ?x with _ => _ end) => destruct x
  | |- preserves _ (if ?x then _ else _) => destruct x
  | |- preserves _ (let '(_, _) := ?x in _) => destruct x
  | |- preserves _ _ => solve [eauto with frame typeclass_instances]
  end.
Ltac frame := repeat (cbn zeta; frame_step).

Section FuelFree.
Context {S E : Type}.
Lemma fuel_free_bind {A B} (m : M S E A) (k : A → M S E B) :
  fuel_free m → (∀ a, fuel_free (k a)) → fuel_free (bind m k).
Proof.
  intros Hm Hk s H. unfold bind in H. specialize (Hm s).
  destruct (m s) as [[[a|e] s1]| |] eqn:E1; try done. by apply (Hk a s1).
Qed.
Lemma fuel_free_ret {A} (a : A) : fuel_free (ret (S:=S) (E:=E) a).
Proof. done. Qed.
Lemma fuel_free_throw {A} (e : E) : fuel_free (throw (S:=S) (A:=A) e).
Proof. done. Qed.
Lemma fuel_free_panic {A} w : fuel_free (panic (S:=S) (E:=E) (A:=A) w).
Proof. done. Qed.
Lemma fuel_free_unwrap_result {E' A} w (m : M S E' A) :
  fuel_free m → fuel_free (unwrap_result (E':=E) w m).
Proof.
  intros Hm s H. unfold unwrap_result, bind, attempt in H. specialize (Hm s).
  by destruct (m s) as [[[a|e] s1]| |].
Qed.
End FuelFree.

(** ** Running total programs *)

Lemma wp_bind {S E A B} (m : M S E A) (k : A → M S E B) Q s :
  wp m (λ r s', match r with Ok a => wp (k a) Q s' | Err e => Q (Err e) s' end) s →
  wp (bind m k) Q s.
Proof. unfold wp, bind. by destruct (m s) as [[[a|e] s1]| |]. Qed.
Lemma wp_attempt {S E E' A} (m : M S E A) Q s :
  wp m (λ r s', Q (Ok r) s') s → wp (attempt (E':=E') m) Q s.
Proof. unfold wp, attempt. by destruct (m s) as [[r s1]| |]. Qed.
Lemma wp_mono {S E A} (m : M S E A) (P Q : result A E → S → Prop) s :
  wp m P s → (∀ r s', P r s' → Q r s') → wp m Q s.
Proof. unfold wp. destruct (m s) as [[r s1]| |]; auto. Qed.
Lemma wp_done {S E A} (m : M S E A) Q s :
  wp m Q s ↔ ∃ r s', m s = Done (r, s') ∧ Q r s'.
Proof.
  unfold wp. split.
  - destruct (m s) as [[r s1]| |]; [|done..]. by eauto.
  - by intros (r & s' & -> & HQ).
Qed.

(** ** Code that never panics *)

(** From any state in [P], [m] returns - a value or an error - in a state in [P]. *)
Definition runs_in {S E A} (P : S → Prop) (m : M S E A) : Prop :=
  ∀ s, P s → ∃ r s', m s = Done (r, s') ∧ P s'.

Section RunsIn.
Context {S : Type} (P : S → Prop).

Lemma runs_ret {E A} (a : A) : runs_in P (ret (E:=E) a).
Proof. intros s Hs. by exists (Ok a), s. Qed.
Lemma runs_throw {E A} (e : E) : runs_in P (throw (A:=A) e).
Proof. intros s Hs. by exists (Err e), s. Qed.
Lemma runs_get {E} : runs_in P (get_state (S:=S) (E:=E)).
Proof. intros s Hs. by exists (Ok s), s. Qed.
Lemma runs_modify {E} (f : S → S) : (∀ s, P s → P (f s)) → runs_in P (modify (E:=E) f).
Proof. intros Hf s Hs. exists (Ok tt), (f s). auto. Qed.
Lemma runs_of_result {E A} (x : result A E) : runs_in P (of_result x).
Proof. destruct x; [apply runs_ret|apply runs_throw]. Qed.
Lemma runs_bind {E A B} (m : M S E A) (k : A → M S E B) :
  runs_in P m → (∀ a, runs_in P (k a)) → runs_in P (bind m k).
Proof.
  intros Hm Hk s Hs. destruct (Hm s Hs) as ([a|e] & s1 & Hrun & H1); unfold bind; rewrite Hrun.
  - by apply Hk.
  - by exists (Err e), s1.
Qed.
Lemma runs_attempt {E E' A} (m : M S E A) : runs_in P m → runs_in P (attempt (E':=E') m).
Proof.
  intros Hm s Hs. destruct (Hm s Hs) as (r & s1 & Hrun & H1). exists (Ok r), s1.
  split; [|done]. unfold attempt. by rewrite Hrun.
Qed.
Lemma runs_for_each {E A} (f : A → M S E unit) l : (∀ x, runs_in P (f x)) → runs_in P (for_each f l).
Proof. intros Hf. induction l; cbn [for_each]; [apply runs_ret|]. by apply runs_bind. Qed.
Lemma runs_map_m {E A B} (f : A → M S E B) l : (∀ x, runs_in P (f x)) → runs_in P (map_m f l).
Proof.
  intros Hf. induction l; cbn [map_m]; [apply runs_ret|].
  apply runs_bind; [done|]. intros y. apply runs_bind; [done|]. intros. apply runs_ret.
Qed.
Lemma runs_when {E} b (m : M S E unit) : runs_in P m → runs_in P (when b m).
Proof. destruct b; [done|]. intros _. apply runs_ret. Qed.
End RunsIn.

Create HintDb runs.
#[export] Hint Resolve runs_ret runs_throw runs_get runs_of_result runs_attempt runs_when : runs.

(** Split a [runs_in] goal along the code. *)
Ltac runs_step :=
  match goal with
  | |- runs_in _ (bind _ _) => apply runs_bind; [|intros ?]
  | |- runs_in _ (attempt _) => apply runs_attempt
  | |- runs_in _ (when _ _) => apply runs_when
  | |- runs_in _ (for_each _ _) => apply runs_for_each; intros ?
  | |- runs_in _ (map_m _ _) => apply runs_map_m; intros ?
  | |- runs_in _ (match ?x with _ => _ end) => destruct x
  | |- runs_in _ (if ?x then _ else _) => destruct x
  | |- runs_in _ (let '(_, _) := ?x in _) => destruct x
  | |- runs_in _ _ => solve [eauto with runs]
  end.
Ltac runs := repeat (cbn zeta; runs_step).

(** * Sorting *)

(** [sort_by], which is stable. *)
Fixpoint insert_sorted {A} (le : A → A → bool) (x : A) (l : list A) : list A :=
  match l with
  | [] => [x]
  | y :: l' => if le x y then x :: l else y :: insert_sorted le x l'
  end.
Fixpoint sort_by {A} (le : A → A → bool) (l : list A) : list A :=
  match l with [] => [] | x :: l' => insert_sorted le x (sort_by le l') end.

Lemma sort_by_perm {A} (le : A → A → bool) l : Permutation (sort_by le l) l.
Proof.
  assert (∀ x l, Permutation (insert_sorted le x l) (x :: l)) as Hins.
  { intros x l'. induction l' as [|y l' IH]; cbn [insert_sorted]; [done|]. destruct (le x y); [done|]. by rewrite IH, perm_swap. }
  induction l as [|x l IH]; cbn [sort_by]; [done|]. by rewrite Hins, IH.
Qed.
Lemma sort_by_sorted {A} (le : A → A → bool) l :
  (∀ x y, le x y = true ∨ le y x = true) → Sorted (λ x y, le x y = true) (sort_by le l).
Proof.
  intros Htotal. assert (∀ x l, Sorted (λ x y, le x y = true) l → Sorted (λ x y, le x y = true) (insert_sorted le x l)) as Hins.
  { intros x l'. induction l' as [|y l' IH]; cbn [insert_sorted]; [by repeat constructor|]. intros Hs.
    destruct (le x y) eqn:Hxy; [by constructor; [|constructor]|].
    apply Sorted_inv in Hs as [Hs Hhd]. specialize (IH Hs). constructor; [done|].
    destruct (Htotal x y) as [?|Hyx]; [congruence|]. destruct l' as [|z l']; cbn [insert_sorted]; [by constructor|].
    destruct (le x z); [by constructor|]. inversion Hhd; subst. by constructor. }
  induction l as [|x l IH]; cbn [sort_by]; [constructor|]. by apply Hins.
Qed.
