(* ===== verification/RustStr.v ===== *)
(** Rust string slices as Rocq strings: the methods of [str] the program uses
    ([split], [splitn], [split_once], [starts_with], [trim], [join]) and the
    lemmas about them that the service path and key formats need. *)
From S2P Require Import Prelude.
From Stdlib Require Import String.

Open Scope stdpp_scope.

(** [s.is_empty()] *)
Definition is_empty (s : string) : bool :=
  match s with EmptyString => true | String _ _ => false end.

(** [s.contains(c)] *)
Fixpoint has_char (c : ascii) (s : string) : bool :=
  match s with
  | EmptyString => false
  | String a s' => if decide (a = c) then true else has_char c s'
  end.

(** [s.starts_with(p)] *)
Definition starts_with (s p : string) : bool := String.prefix p s.

(** [s.split(c).collect()]: never empty, one piece more than separators. *)
Fixpoint split (c : ascii) (s : string) : list string :=
  match s with
  | EmptyString => [""]
  | String a s' =>
      if decide (a = c) then "" :: split c s'
      else match split c s' with
           | p :: ps => String a p :: ps
           | [] => [String a ""]
           end
  end.

(** [s.split_once(c)] *)
Fixpoint split_once (c : ascii) (s : string) : option (string * string) :=
  match s with
  | EmptyString => None
  | String a s' =>
      if decide (a = c) then Some ("", s')
      else match split_once c s' with
           | Some (x, y) => Some (String a x, y)
           | None => None
           end
  end.

(** [s.splitn(n, c).collect()] *)
Fixpoint splitn (n : nat) (c : ascii) (s : string) : list string :=
  match n with
  | 0 => []
  | 1 => [s]
  | S n' => match split_once c s with
            | Some (x, y) => x :: splitn n' c y
            | None => [s]
            end
  end.

(** [parts.join(sep)] *)
Fixpoint join_str (sep : string) (l : list string) : string :=
  match l with
  | [] => ""
  | [x] => x
  | x :: l' => x +:+ sep +:+ join_str sep l'
  end.

(** [iter.take_while(p)] *)
Fixpoint take_while {A} (p : A → bool) (l : list A) : list A :=
  match l with
  | [] => []
  | x :: l' => if p x then x :: take_while p l' else []
  end.

(** [iter.skip_while(p)] *)
Fixpoint skip_while {A} (p : A → bool) (l : list A) : list A :=
  match l with
  | [] => []
  | x :: l' => if p x then skip_while p l' else l
  end.

(** [s.trim()]; the white space considered is the ASCII one. *)
Fixpoint trim_start (s : string) : string :=
  match s with
  | String a s' => if Ascii.is_space a then trim_start s' else s
  | EmptyString => ""
  end.
Fixpoint trim_end (s : string) : string :=
  match s with
  | EmptyString => ""
  | String a s' =>
      match trim_end s' with
      | EmptyString => if Ascii.is_space a then "" else String a ""
      | String _ _ as t => String a t
      end
  end.
Definition trim (s : string) : string := trim_end (trim_start s).

(** [s.chars()]: each character with its continuation bytes. *)
Definition is_continuation (a : ascii) : bool := (128 <=? nat_of_ascii a) && (nat_of_ascii a <? 192).
Fixpoint chars (s : string) : list string :=
  match s with
  | EmptyString => []
  | String a s' =>
      match chars s' with
      | String b t :: cs =>
          if is_continuation b then String a (String b t) :: cs else String a "" :: String b t :: cs
      | cs => String a "" :: cs
      end
  end.

(** ** Lemmas *)

Lemma is_empty_spec s : is_empty s = true ↔ s = "".
Proof. destruct s; simpl; split; congruence. Qed.
Lemma is_empty_false s : is_empty s = false ↔ s ≠ "".
Proof. destruct s; simpl; split; congruence. Qed.

Lemma app_empty_r s : s +:+ "" = s.
Proof. induction s as [|a s IH]; [done|]. change (String a (s +:+ "") = String a s). by rewrite IH. Qed.

Lemma app_cons a s t : String a s +:+ t = String a (s +:+ t).
Proof. reflexivity. Qed.

Lemma chars_concat s : join_str "" (chars s) = s.
Proof.
  induction s as [|a s IH]; [done|]. cbn [chars].
  destruct (chars s) as [|[|b t] cs]; [by rewrite <- IH| |]; [by destruct cs; rewrite <- IH|].
  destruct (is_continuation a), (is_continuation b), cs; by rewrite <- IH.
Qed.

Lemma app_nil s : "" +:+ s = s.
Proof. reflexivity. Qed.

Lemma app_assoc_str s t u : (s +:+ t) +:+ u = s +:+ (t +:+ u).
Proof.
  induction s as [|a s IH]; [done|].
  change (String a ((s +:+ t) +:+ u) = String a (s +:+ (t +:+ u))). by rewrite IH.
Qed.

Lemma has_char_app c s t : has_char c (s +:+ t) = has_char c s || has_char c t.
Proof.
  induction s as [|a s IH]; [done|]. rewrite app_cons. simpl.
  by case_decide.
Qed.

Lemma has_char_cons c a s : has_char c (String a s) = (if decide (a = c) then true else has_char c s).
Proof. reflexivity. Qed.

Lemma split_no_char c s : has_char c s = false → split c s = [s].
Proof.
  induction s as [|a s IH]; [done|]. rewrite has_char_cons. simpl.
  case_decide; [done|]. intros Hs. by rewrite (IH Hs).
Qed.

Lemma split_app c s t :
  has_char c s = false → split c (s +:+ String c t) = s :: split c t.
Proof.
  induction s as [|a s IH]; rewrite ?app_cons, ?app_nil.
  - intros _. simpl. by rewrite decide_True.
  - rewrite has_char_cons. simpl. case_decide; [done|].
    intros Hs. by rewrite (IH Hs).
Qed.

Lemma split_once_app c s t :
  has_char c s = false → split_once c (s +:+ String c t) = Some (s, t).
Proof.
  induction s as [|a s IH]; rewrite ?app_cons, ?app_nil.
  - intros _. simpl. by rewrite decide_True.
  - rewrite has_char_cons. simpl. case_decide; [done|].
    intros Hs. by rewrite (IH Hs).
Qed.

Lemma split_once_none c s : has_char c s = false → split_once c s = None.
Proof.
  induction s as [|a s IH]; [done|]. rewrite has_char_cons. simpl.
  case_decide; [done|]. intros Hs. by rewrite (IH Hs).
Qed.

Lemma split_once_join c s x y :
  split_once c s = Some (x, y) → s = x +:+ String c y ∧ has_char c x = false.
Proof.
  revert x y. induction s as [|a s IH]; intros x y; simpl; [done|].
  case_decide as Ha; [intros [= <- <-]; by subst|].
  destruct (split_once c s) as [[x' y']|]; [|done].
  intros [= <- <-]. destruct (IH x' y' eq_refl) as [-> Hx].
  split; [done|]. simpl. by rewrite decide_False.
Qed.

(** Two strings cut at their first separator agree piecewise. *)
Lemma first_sep_inj c x1 y1 x2 y2 :
  has_char c x1 = false → has_char c x2 = false →
  x1 +:+ String c y1 = x2 +:+ String c y2 → x1 = x2 ∧ y1 = y2.
Proof.
  intros H1 H2 Heq.
  pose proof (split_once_app c x1 y1 H1) as E1.
  pose proof (split_once_app c x2 y2 H2) as E2.
  rewrite Heq in E1. rewrite E1 in E2. by inversion E2.
Qed.

Lemma starts_with_app p s : starts_with (p +:+ s) p = true.
Proof.
  unfold starts_with. induction p as [|a p IH]; [by destruct s|].
  rewrite app_cons. simpl. by destruct (Ascii.ascii_dec a a).
Qed.

Lemma starts_with_inv s p : starts_with s p = true → ∃ t, s = p +:+ t.
Proof.
  unfold starts_with. revert s. induction p as [|a p IH]; intros s; [by exists s|].
  destruct s as [|b s]; simpl; [done|].
  destruct (Ascii.ascii_dec a b) as [->|]; [|done].
  intros [t ->]%IH. by exists t.
Qed.

Lemma take_while_all {A} (p : A → bool) l : Forall (λ x, p x = true) l → take_while p l = l.
Proof. induction 1 as [|x l Hx _ IH]; [done|]. simpl. by rewrite Hx, IH. Qed.

Create HintDb rust_str.
Create Rewrite HintDb rust_str.
#[export] Hint Rewrite app_empty_r app_assoc_str has_char_app has_char_cons : rust_str.
#[export] Hint Resolve split_no_char split_once_none starts_with_app : rust_str.

(** Splitting what was joined. *)
Lemma split_join c ss :
  ss ≠ [] → Forall (λ s, has_char c s = false) ss → split c (join_str (String c "") ss) = ss.
Proof.
  intros Hne. induction 1 as [|s ss Hs Hss IH]; [done|].
  destruct ss as [|x ss]; [by apply split_no_char|].
  change (join_str (String c "") (s :: x :: ss)) with (s +:+ String c (join_str (String c "") (x :: ss))).
  rewrite split_app by done. by rewrite IH.
Qed.

(** * Integers in decimal *)

(** [n.to_string()] *)
Definition int_to_string (z : Z) : string := pretty z.

Definition digit_of (a : ascii) : option Z :=
  let n := Z.of_nat (nat_of_ascii a) in
  if ((48 <=? n) && (n <=? 57))%Z then Some (n - 48)%Z else None.

(** [s.parse()] for an integer type: decimal digits after an optional sign (a
    minus sign only for signed types), failing on overflow. *)
Fixpoint parse_digits (bound acc : Z) (s : string) : option Z :=
  match s with
  | "" => Some acc
  | String a s' =>
      match digit_of a with
      | Some d => let n := (acc * 10 + d)%Z in if (n <=? bound)%Z then parse_digits bound n s' else None
      | None => None
      end
  end.
Definition parse_int (lo hi : Z) (s : string) : option Z :=
  match s with
  | "" => None
  | String a s' =>
      if decide (a = "+"%char) then if is_empty s' then None else parse_digits hi 0 s'
      else if decide (a = "-"%char) then
        if (0 <=? lo)%Z || is_empty s' then None else Z.opp <$> parse_digits (- lo) 0 s'
      else parse_digits hi 0 s
  end.
Definition parse_u32 (s : string) : option Z := parse_int 0 u32_max s.

(** [s.is_char_boundary(3)] for a string of at least three bytes. *)
Definition boundary_at_3 (s : string) : bool :=
  match String.get 3 s with
  | Some a => let n := nat_of_ascii a in negb ((128 <=? n) && (n <=? 191))%nat
  | None => true
  end.

Lemma digit_of_pretty n : (n < 10)%N → digit_of (pretty_N_char n) = Some (Z.of_N n).
Proof.
  intros Hn. assert (n = 0 ∨ n = 1 ∨ n = 2 ∨ n = 3 ∨ n = 4 ∨ n = 5 ∨ n = 6 ∨ n = 7 ∨ n = 8 ∨ n = 9)%N
    as Hc by lia.
  repeat destruct Hc as [->|Hc]; [reflexivity..|]. by subst n.
Qed.

Lemma parse_digits_pretty bound n s :
  (Z.of_N n ≤ bound)%Z → parse_digits bound 0 (pretty_N_go n s) = parse_digits bound (Z.of_N n) s.
Proof.
  revert s. induction (N.lt_wf_0 n) as [n _ IH]; intros s Hb.
  destruct (decide (n = 0)%N) as [->|Hn]; [done|].
  rewrite pretty_N_go_step by lia. rewrite IH.
  - cbn [parse_digits]. rewrite digit_of_pretty by (apply N.mod_lt; lia).
    assert (Z.of_N (n `div` 10) * 10 + Z.of_N (n `mod` 10) = Z.of_N n)%Z as ->.
    { rewrite (N.div_mod n 10) at 3 by done. lia. }
    by rewrite (proj2 (Z.leb_le _ _)).
  - apply N.div_lt; lia.
  - transitivity (Z.of_N n); [|done]. apply N2Z.inj_le. apply N.Div0.div_le_upper_bound. lia.
Qed.

Lemma parse_digits_N bound n :
  (Z.of_N n ≤ bound)%Z → parse_digits bound 0 (pretty n) = Some (Z.of_N n).
Proof.
  intros Hb. unfold pretty, pretty_N. destruct (decide (n = 0)%N) as [->|Hn].
  - destruct bound; [done..|lia].
  - by rewrite parse_digits_pretty.
Qed.

(** A printed natural number starts with a digit. *)
Lemma pretty_N_digit (n : N) : ∃ a s, pretty n = String a s ∧ is_Some (digit_of a).
Proof.
  assert (∀ n s, (∃ a t, s = String a t ∧ is_Some (digit_of a)) ∨ (0 < n)%N →
    ∃ a t, pretty_N_go n s = String a t ∧ is_Some (digit_of a)) as Hgo.
  { clear n. intros n. induction (N.lt_wf_0 n) as [n _ IH]; intros s Hs.
    destruct (decide (n = 0)%N) as [->|Hn]; [destruct Hs; [done|lia]|].
    rewrite pretty_N_go_step by lia. apply IH; [apply N.div_lt; lia|]. left.
    eexists _, _. split; [done|]. rewrite digit_of_pretty by (apply N.mod_lt; lia). done. }
  unfold pretty, pretty_N. destruct (decide (n = 0)%N); [by eexists _, _|]. apply Hgo. right. lia.
Qed.

Lemma parse_int_to_string lo hi z : (lo ≤ z ≤ hi)%Z → parse_int lo hi (int_to_string z) = Some z.
Proof.
  intros Hz. unfold int_to_string. destruct z as [|p|p].
  - destruct hi; [done..|lia].
  - change (pretty (Z.pos p)) with (pretty (N.pos p)).
    destruct (pretty_N_digit (N.pos p)) as (a & s & Hs & [d Hd]). unfold parse_int. rewrite Hs.
    rewrite !decide_False by (intros ->; discriminate Hd). rewrite <- Hs.
    by rewrite parse_digits_N by lia.
  - change (pretty (Z.neg p)) with (String "-"%char (pretty (N.pos p))).
    destruct (pretty_N_digit (N.pos p)) as (a & s & Hs & _). cbn [parse_int].
    rewrite decide_False, decide_True by done. rewrite (proj2 (Z.leb_gt 0 lo)) by lia.
    rewrite Hs. cbn [is_empty orb]. rewrite <- Hs. rewrite parse_digits_N by lia. done.
Qed.
