(* ===== verification/NetAddr.v ===== *)
(** The addresses of std::net the configuration uses: [Ipv4Addr] and [Ipv6Addr]
    with their text formats ([Display] and [FromStr]), and that an address
    survives being printed and parsed. *)
From S2P Require Import Prelude RustStr.

Open Scope stdpp_scope.

(** * IPv4 *)

Record Ipv4Addr : Set := mkIpv4 { octet_a : Z; octet_b : Z; octet_c : Z; octet_d : Z }.

#[export] Instance ipv4_eq_dec : EqDecision Ipv4Addr.
Proof. solve_decision. Defined.

Definition octets (a : Ipv4Addr) : list Z := [octet_a a; octet_b a; octet_c a; octet_d a].
Definition ipv4_ok (a : Ipv4Addr) : Prop := Forall (λ z, 0 ≤ z ≤ 255)%Z (octets a).

Definition ipv4_to_string (a : Ipv4Addr) : string := join_str "." (int_to_string <$> octets a).

(** A decimal octet: up to three digits, without leading zeros. *)
Definition parse_octet (s : string) : option Z :=
  match s with
  | "" => None
  | String c s' =>
      if bool_decide (c = "0"%char) && negb (is_empty s') then None
      else if (String.length s <=? 3)%nat then parse_digits 255 0 s else None
  end.
Definition ipv4_of_string (s : string) : option Ipv4Addr :=
  match split "."%char s with
  | [a; b; c; d] =>
      a ← parse_octet a; b ← parse_octet b; c ← parse_octet c; d ← parse_octet d; Some (mkIpv4 a b c d)
  | _ => None
  end.

(** * IPv6 *)

(** The eight 16-bit segments. *)
Record Ipv6Addr : Set := mkIpv6 { segments : list Z }.

#[export] Instance ipv6_eq_dec : EqDecision Ipv6Addr.
Proof. solve_decision. Defined.

Definition ipv6_ok (a : Ipv6Addr) : Prop := length (segments a) = 8 ∧ Forall (λ z, 0 ≤ z < 65536)%Z (segments a).

Definition hex_char (d : Z) : ascii :=
  if (d <? 10)%Z then ascii_of_nat (48 + Z.to_nat d) else ascii_of_nat (87 + Z.to_nat d).
Definition hex_value (c : ascii) : option Z :=
  let n := Z.of_nat (nat_of_ascii c) in
  if ((48 <=? n) && (n <=? 57))%Z then Some (n - 48)%Z
  else if ((97 <=? n) && (n <=? 102))%Z then Some (n - 87)%Z
  else if ((65 <=? n) && (n <=? 70))%Z then Some (n - 55)%Z else None.

(** [{:x}] of a segment. *)
Fixpoint hex_digits (n : nat) (z : Z) (acc : string) : string :=
  match n with
  | O => acc
  | S n' => let acc := String (hex_char (z mod 16)) acc in
            if (z <? 16)%Z then acc else hex_digits n' (z / 16) acc
  end.
Definition segment_to_string (z : Z) : string := hex_digits 4 z "".

Fixpoint parse_hex (acc : Z) (s : string) : option Z :=
  match s with
  | "" => Some acc
  | String c s' => match hex_value c with Some d => parse_hex (acc * 16 + d) s' | None => None end
  end.
(** A group: one to four hexadecimal digits. *)
Definition parse_segment (s : string) : option Z :=
  if is_empty s then None else if (String.length s <=? 4)%nat then parse_hex 0 s else None.

(** The first longest run of zero segments, as start and length; [current] is
    the run that ends at segment [i]. *)
Fixpoint zero_run (segs : list Z) (i : nat) (current longest : nat * nat) : nat * nat :=
  match segs with
  | [] => longest
  | z :: segs' =>
      if (z =? 0)%Z then
        let current := (if (current.2 =? 0)%nat then i else current.1, S current.2) in
        zero_run segs' (S i) current (if (longest.2 <? current.2)%nat then current else longest)
      else zero_run segs' (S i) (0, 0) longest
  end.

Definition ipv4_of_segments (g h : Z) : Ipv4Addr := mkIpv4 (g / 256) (g mod 256) (h / 256) (h mod 256).
Definition join_segments (l : list Z) : string := join_str ":" (segment_to_string <$> l).

(** [to_ipv4_mapped]: the last two segments of ::ffff:0:0/96. *)
Definition ipv4_mapped (a : Ipv6Addr) : option (Z * Z) :=
  match take 6 (segments a), drop 6 (segments a) with
  | pre, [g; h] => if decide (pre = [0; 0; 0; 0; 0; 65535]%Z) then Some (g, h) else None
  | _, _ => None
  end.
Definition ipv6_plain_text (segs : list Z) : string :=
  let '(start, len) := zero_run segs 0 (0, 0) (0, 0) in
  if (1 <? len)%nat then join_segments (take start segs) +:+ "::" +:+ join_segments (drop (start + len) segs)
  else join_segments segs.
Definition ipv6_to_string (a : Ipv6Addr) : string :=
  match ipv4_mapped a with
  | Some (g, h) => "::ffff:" +:+ ipv4_to_string (ipv4_of_segments g h)
  | None => ipv6_plain_text (segments a)
  end.

(** Split at the first "::". *)
Fixpoint split_dcolon (s : string) : option (string * string) :=
  match s with
  | String a (String b t as s') =>
      if decide (a = ":"%char ∧ b = ":"%char) then Some ("", t)
      else match split_dcolon s' with Some (h, u) => Some (String a h, u) | None => None end
  | _ => None
  end.

(** Groups separated by colons; the last may be an IPv4 address. *)
Fixpoint parse_pieces (v4 : bool) (l : list string) : option (list Z) :=
  match l with
  | [] => Some []
  | [p] =>
      match parse_segment p with
      | Some z => Some [z]
      | None => if v4 then a ← ipv4_of_string p; Some [octet_a a * 256 + octet_b a; octet_c a * 256 + octet_d a]%Z else None
      end
  | p :: l' => z ← parse_segment p; zs ← parse_pieces v4 l'; Some (z :: zs)
  end.
Definition parse_groups (v4 : bool) (s : string) : option (list Z) :=
  if is_empty s then Some [] else parse_pieces v4 (split ":"%char s).

Definition ipv6_of_string (s : string) : option Ipv6Addr :=
  match split_dcolon s with
  | None => zs ← parse_groups true s; if (length zs =? 8)%nat then Some (mkIpv6 zs) else None
  | Some (h, t) =>
      hs ← parse_groups false h; ts ← parse_groups true t;
      if (length hs + length ts <=? 7)%nat
      then Some (mkIpv6 (hs ++ replicate (8 - length hs - length ts) 0%Z ++ ts)) else None
  end.

(** * IpAddr *)

Inductive IpAddr : Set := V4 (a : Ipv4Addr) | V6 (a : Ipv6Addr).

#[export] Instance ip_addr_eq_dec : EqDecision IpAddr.
Proof. solve_decision. Defined.

Definition ip_to_string (a : IpAddr) : string :=
  match a with V4 a => ipv4_to_string a | V6 a => ipv6_to_string a end.
Definition ip_of_string (s : string) : option IpAddr :=
  match ipv4_of_string s with
  | Some a => Some (V4 a)
  | None => V6 <$> ipv6_of_string s
  end.

(** * Printing and parsing *)

Lemma octet_table (z : Z) :
  (0 ≤ z ≤ 255)%Z → parse_octet (int_to_string z) = Some z ∧ has_char "."%char (int_to_string z) = false ∧
    has_char ":"%char (int_to_string z) = false ∧ int_to_string z ≠ "".
Proof.
  assert (Forall (λ z, parse_octet (int_to_string z) = Some z ∧ has_char "."%char (int_to_string z) = false ∧
    has_char ":"%char (int_to_string z) = false ∧ int_to_string z ≠ "") (seqZ 0 256)) as Hall.
  { apply (bool_decide_unpack _). vm_compute. exact I. }
  intros Hz. rewrite Forall_forall in Hall. apply Hall, elem_of_seqZ. lia.
Qed.

Lemma ipv4_roundtrip a : ipv4_ok a → ipv4_of_string (ipv4_to_string a) = Some a.
Proof.
  intros Ha. unfold ipv4_of_string, ipv4_to_string. rewrite (split_join "."%char).
  - destruct a as [a b c d]. unfold ipv4_ok, octets in *. cbn [octet_a octet_b octet_c octet_d] in *.
    rewrite !Forall_cons in Ha. destruct Ha as (Ha & Hb & Hc & Hd & _). cbn [fmap list_fmap].
    rewrite (proj1 (octet_table a Ha)), (proj1 (octet_table b Hb)), (proj1 (octet_table c Hc)), (proj1 (octet_table d Hd)). done.
  - by destruct a.
  - apply Forall_fmap. eapply Forall_impl; [exact Ha|]. intros z Hz. cbn. apply (octet_table z Hz).
Qed.

(** ** Segments *)

Lemma hex_char_spec d : (0 ≤ d < 16)%Z → hex_value (hex_char d) = Some d ∧ hex_char d ≠ ":"%char ∧ hex_char d ≠ "."%char.
Proof.
  assert (Forall (λ d, hex_value (hex_char d) = Some d ∧ hex_char d ≠ ":"%char ∧ hex_char d ≠ "."%char) (seqZ 0 16)) as Hall.
  { apply (bool_decide_unpack _). vm_compute. exact I. }
  intros Hd. rewrite Forall_forall in Hall. apply Hall, elem_of_seqZ. lia.
Qed.

(** [acc] read after [z] in hexadecimal. *)
Lemma parse_hex_digits n z acc :
  (0 ≤ z < 16 ^ Z.of_nat n)%Z → parse_hex 0 (hex_digits n z acc) = parse_hex z acc.
Proof.
  revert z acc. induction n as [|n IH]; intros z acc Hz.
  - cbn in Hz. assert (z = 0%Z) as -> by lia. done.
  - cbn [hex_digits]. rewrite Nat2Z.inj_succ, Z.pow_succ_r in Hz by lia.
    destruct (hex_char_spec (z mod 16)) as [Hval _]; [apply Z.mod_pos_bound; lia|].
    destruct (z <? 16)%Z eqn:Hs.
    + apply Z.ltb_lt in Hs. cbn [parse_hex]. rewrite Hval. f_equal. rewrite Z.mod_small by lia. lia.
    + rewrite IH.
      * cbn [parse_hex]. rewrite Hval. f_equal. pose proof (Z.div_mod z 16). lia.
      * split; [apply Z.div_pos; lia|]. apply Z.div_lt_upper_bound; lia.
Qed.

Lemma length_append s t : String.length (s +:+ t) = String.length s + String.length t.
Proof. induction s as [|a s IH]; [done|]. rewrite app_cons. cbn [String.length]. by rewrite IH. Qed.

Lemma hex_digits_shape n z acc :
  (0 ≤ z)%Z → ∃ p, hex_digits n z acc = p +:+ acc ∧ String.length p ≤ n ∧ (0 < n → p ≠ "") ∧
    has_char ":"%char p = false ∧ has_char "."%char p = false.
Proof.
  revert z acc. induction n as [|n IH]; intros z acc Hz; [exists ""; split_and!; (done || lia)|]. cbn [hex_digits].
  destruct (hex_char_spec (z mod 16)) as (_ & Hcol & Hdot); [apply Z.mod_pos_bound; lia|].
  destruct (z <? 16)%Z.
  - exists (String (hex_char (z mod 16)) ""). cbn [String.length has_char]. rewrite !decide_False by done.
    split_and!; [done|lia|done|done|done].
  - destruct (IH (z / 16)%Z (String (hex_char (z mod 16)) acc)) as (p & -> & Hl & _ & H1 & H2); [apply Z.div_pos; lia|].
    exists (p +:+ String (hex_char (z mod 16)) ""). split; [by rewrite app_assoc_str|].
    split; [rewrite length_append; cbn; lia|]. split; [intros _; by destruct p|].
    rewrite !has_char_app, H1, H2. cbn [has_char orb]. by rewrite !decide_False.
Qed.

Lemma segment_text z :
  (0 ≤ z < 65536)%Z → parse_segment (segment_to_string z) = Some z ∧ segment_to_string z ≠ "" ∧
    has_char ":"%char (segment_to_string z) = false ∧ has_char "."%char (segment_to_string z) = false.
Proof.
  intros Hz. destruct (hex_digits_shape 4 z "") as (p & Hp & Hl & Hne & H1 & H2); [lia|]. rewrite app_empty_r in Hp.
  assert (p ≠ "") as Hp0 by (apply Hne; lia). unfold segment_to_string. rewrite Hp. split_and!; [|done..].
  unfold parse_segment. rewrite (proj2 (is_empty_false p) Hp0), (proj2 (Nat.leb_le _ 4)) by done.
  rewrite <- Hp, parse_hex_digits by (cbn; lia). done.
Qed.

(** ** Groups *)

Definition seg_ok (z : Z) : Prop := (0 ≤ z < 65536)%Z.

Lemma parse_pieces_segments v4 l : Forall seg_ok l → parse_pieces v4 (segment_to_string <$> l) = Some l.
Proof.
  induction 1 as [|z l Hz Hl IH]; [done|]. rewrite fmap_cons. destruct (segment_text z Hz) as (Hp & _).
  destruct l as [|z' l]; [cbn [fmap list_fmap parse_pieces]; by rewrite Hp|]. rewrite fmap_cons in IH |- *. cbn [parse_pieces] in IH |- *.
  rewrite Hp. cbn [mbind option_bind]. by rewrite IH.
Qed.

Lemma join_segments_empty l : Forall seg_ok l → is_empty (join_segments l) = bool_decide (l = []).
Proof.
  destruct 1 as [|z l Hz Hl]; [done|]. destruct (segment_text z Hz) as (_ & Hne & _).
  rewrite bool_decide_eq_false_2 by done. unfold join_segments. rewrite fmap_cons.
  destruct (segment_to_string z) as [|a s]; [done|]. by destruct (segment_to_string <$> l).
Qed.

Lemma parse_join_segments v4 l : Forall seg_ok l → parse_groups v4 (join_segments l) = Some l.
Proof.
  intros Hl. unfold parse_groups. rewrite join_segments_empty by done. destruct l as [|z l]; [done|].
  rewrite bool_decide_eq_false_2 by done. unfold join_segments. rewrite (split_join ":"%char).
  - by apply parse_pieces_segments.
  - done.
  - apply Forall_fmap. eapply Forall_impl; [exact Hl|]. intros z' Hz'. apply (segment_text z' Hz').
Qed.

(** ** Finding the double colon *)

Lemma split_dcolon_step a b t :
  split_dcolon (String a (String b t)) =
    if decide (a = ":"%char ∧ b = ":"%char) then Some ("", t)
    else match split_dcolon (String b t) with Some (h, u) => Some (String a h, u) | None => None end.
Proof. reflexivity. Qed.
Lemma split_dcolon_cons a s :
  a ≠ ":"%char → split_dcolon (String a s) =
    match split_dcolon s with Some (h, u) => Some (String a h, u) | None => None end.
Proof. intros Ha. destruct s as [|b t]; [done|]. rewrite split_dcolon_step. by destruct (decide _) as [[? ?]|]. Qed.
Lemma split_dcolon_app p s :
  has_char ":"%char p = false →
  split_dcolon (p +:+ s) = match split_dcolon s with Some (h, u) => Some (p +:+ h, u) | None => None end.
Proof.
  induction p as [|a p IH]; intros Hp; [change ("" +:+ s) with s; by destruct (split_dcolon s) as [[h u]|]|].
  rewrite has_char_cons in Hp. destruct (decide (a = ":"%char)) as [|Ha]; [done|].
  rewrite app_cons, split_dcolon_cons, IH by done. by destruct (split_dcolon s) as [[h u]|].
Qed.
Lemma split_dcolon_colon s b : b ≠ ":"%char → split_dcolon (String ":"%char (String b s)) =
  match split_dcolon (String b s) with Some (h, u) => Some (String ":"%char h, u) | None => None end.
Proof. intros Hb. rewrite split_dcolon_step. by destruct (decide _) as [[? ?]|]. Qed.

(** Over the text of segments, followed by nothing or by a double colon. *)
Lemma split_dcolon_segments l u :
  Forall seg_ok l →
  split_dcolon (join_segments l +:+ "::" +:+ u) = Some (join_segments l, u) ∧ split_dcolon (join_segments l) = None.
Proof.
  unfold join_segments. induction 1 as [|z l Hz Hl IH]; [done|]. destruct (segment_text z Hz) as (_ & Hne & Hcol & _).
  rewrite fmap_cons. destruct Hl as [|z' l Hz' Hl].
  - cbn [fmap list_fmap join_str]. split.
    + rewrite split_dcolon_app by done. change (split_dcolon ("::" +:+ u)) with (Some ("", u)). cbv beta iota. by rewrite app_empty_r.
    + rewrite <- (app_empty_r (segment_to_string z)), split_dcolon_app by done. done.
  - destruct IH as [IH1 IH2]. set (s := segment_to_string <$> z' :: l) in *.
    assert (∃ b t, join_str ":" s = String b t ∧ b ≠ ":"%char) as (b & t & Hs & Hb).
    { destruct (segment_text z' Hz') as (_ & Hne' & Hcol' & _). subst s. rewrite fmap_cons.
      destruct (segment_to_string z') as [|b t]; [done|]. exists b.
      rewrite has_char_cons in Hcol'. destruct (decide (b = ":"%char)); [done|].
      destruct (segment_to_string <$> l); [by exists t|]. cbn [join_str]. by eexists. }
    assert (join_str ":" (segment_to_string z :: s) = segment_to_string z +:+ ":" +:+ join_str ":" s) as ->.
    { subst s. by rewrite fmap_cons. }
    split.
    + rewrite !app_assoc_str, split_dcolon_app by done. rewrite Hs in IH1 |- *. change (":" +:+ String b t +:+ "::" +:+ u) with (String ":"%char (String b (t +:+ "::" +:+ u))).
      rewrite split_dcolon_colon by done. rewrite app_cons in IH1. by rewrite IH1.
    + rewrite split_dcolon_app by done. rewrite Hs in IH2 |- *. change (":" +:+ String b t) with (String ":"%char (String b t)).
      rewrite split_dcolon_colon by done. by rewrite IH2.
Qed.

(** ** The zero run *)

(** The segments [s .. s + n) of [l] exist and are zero. *)
Definition zeros_at (l : list Z) (r : nat * nat) : Prop := ∀ j, r.1 ≤ j < r.1 + r.2 → l !! j = Some 0%Z.

Lemma zero_run_spec pre segs current longest :
  zeros_at (pre ++ segs) longest → zeros_at (pre ++ segs) current → (current.2 = 0 ∨ current.1 + current.2 = length pre) →
  zeros_at (pre ++ segs) (zero_run segs (length pre) current longest).
Proof.
  revert pre current longest. induction segs as [|z segs IH]; intros pre current longest Hl Hc Hend; [done|].
  cbn [zero_run]. destruct (z =? 0)%Z eqn:Hz.
  - apply Z.eqb_eq in Hz. subst z. set (c := (if current.2 =? 0 then length pre else current.1, S current.2)).
    assert (zeros_at (pre ++ 0%Z :: segs) c ∧ c.1 + c.2 = S (length pre)) as [Hc' Hend'].
    { subst c. cbn [fst snd]. destruct (current.2 =? 0)%nat eqn:H0.
      - apply Nat.eqb_eq in H0. rewrite H0. split; [|lia]. intros j Hj. cbn [fst snd] in Hj.
        assert (j = length pre) as -> by lia. by apply list_lookup_middle.
      - apply Nat.eqb_neq in H0. destruct Hend as [|Hend]; [done|]. split; [|lia]. intros j Hj. cbn [fst snd] in Hj.
        destruct (decide (j = length pre)) as [->|]; [by apply list_lookup_middle|]. apply Hc. lia. }
    clearbody c. replace (pre ++ 0%Z :: segs) with ((pre ++ [0%Z]) ++ segs) in * by (by rewrite <- app_assoc).
    replace (S (length pre)) with (length (pre ++ [0%Z])) by (rewrite length_app; cbn; lia).
    apply IH; [by destruct (_ <? _)%nat|done|]. right. rewrite length_app. cbn. lia.
  - replace (pre ++ z :: segs) with ((pre ++ [z]) ++ segs) in * by (by rewrite <- app_assoc).
    replace (S (length pre)) with (length (pre ++ [z])) by (rewrite length_app; cbn; lia).
    apply IH; [done| |by left]. intros j Hj. cbn in Hj. lia.
Qed.

(** A zero run can be cut out and put back. *)
Lemma zeros_cut l s n :
  zeros_at l (s, n) → s + n ≤ length l ∨ n = 0 → s ≤ length l → take s l ++ replicate n 0%Z ++ drop (s + n) l = l.
Proof.
  intros Hz Hn Hs. rewrite <- (take_drop s l) at 3. f_equal. rewrite <- (take_drop n (drop s l)), drop_drop. f_equal.
  apply list_eq. intros j. destruct (decide (j < n)) as [Hj|Hj].
  - rewrite lookup_replicate_2, lookup_take_lt, lookup_drop by done. symmetry. apply Hz. cbn. lia.
  - rewrite !lookup_ge_None_2; [done|rewrite length_take; lia|rewrite length_replicate; lia].
Qed.
Lemma zeros_inside l s n : zeros_at l (s, n) → 0 < n → s + n ≤ length l.
Proof.
  intros Hz Hn. pose proof (Hz (s + n - 1)) as Hlast. cbn in Hlast. specialize (Hlast ltac:(lia)).
  apply lookup_lt_Some in Hlast. lia.
Qed.

(** ** Round trips *)

Lemma ipv4_has_no_segment a v4 : ipv4_ok a →
  parse_pieces v4 [segment_to_string 65535; ipv4_to_string a] =
    if v4 then Some [65535; octet_a a * 256 + octet_b a; octet_c a * 256 + octet_d a]%Z else None.
Proof.
  intros Ha. cbn [parse_pieces]. rewrite (proj1 (segment_text 65535 ltac:(lia))). cbn [mbind option_bind].
  assert (parse_segment (ipv4_to_string a) = None) as ->.
  { unfold parse_segment. destruct (is_empty (ipv4_to_string a)) eqn:He; [done|].
    destruct (String.length _ <=? 4)%nat; [|done].
    assert (∀ s acc, has_char "."%char s = true → parse_hex acc s = None) as Hdot.
    { clear. induction s as [|c s IH]; intros acc Hs; [done|]. rewrite has_char_cons in Hs. cbn [parse_hex].
      destruct (decide (c = "."%char)) as [->|]; [done|]. destruct (hex_value c); [by apply IH|done]. }
    apply Hdot. unfold ipv4_to_string. destruct a. cbn [octets fmap list_fmap join_str].
    by rewrite !has_char_app, orb_true_r. }
  destruct v4; [|done]. by rewrite ipv4_roundtrip.
Qed.

Lemma ipv6_mapped_roundtrip g h :
  seg_ok g → seg_ok h →
  ipv6_of_string ("::ffff:" +:+ ipv4_to_string (ipv4_of_segments g h)) = Some (mkIpv6 [0; 0; 0; 0; 0; 65535; g; h]%Z).
Proof.
  intros Hg Hh. set (a := ipv4_of_segments g h).
  assert (ipv4_ok a) as Ha.
  { unfold seg_ok in *. repeat constructor; cbn; try apply Z.mod_pos_bound; try lia;
      [apply Z.div_pos; lia|apply Z.lt_succ_r, Z.div_lt_upper_bound; lia| |apply Z.div_pos; lia|apply Z.lt_succ_r, Z.div_lt_upper_bound; lia|];
      apply Z.lt_succ_r, Z.mod_pos_bound; lia. }
  unfold ipv6_of_string.
  change (split_dcolon ("::ffff:" +:+ ipv4_to_string a)) with (Some ("", "ffff:" +:+ ipv4_to_string a)). cbv beta iota.
  assert (parse_groups true ("ffff:" +:+ ipv4_to_string a) = Some [65535; g; h]%Z) as ->; [|done].
  unfold parse_groups. change (is_empty ("ffff:" +:+ ipv4_to_string a)) with false. cbv iota.
  change ("ffff:" +:+ ipv4_to_string a) with (join_str ":" [segment_to_string 65535; ipv4_to_string a]).
  rewrite (split_join ":"%char); [|done|].
  - rewrite (ipv4_has_no_segment a true Ha). subst a. unfold ipv4_of_segments. cbn [octet_a octet_b octet_c octet_d].
    repeat f_equal; rewrite Z.mul_comm; symmetry; apply Z.div_mod; lia.
  - apply List.Forall_cons; [done|]. apply List.Forall_cons; [|constructor]. unfold ipv4_to_string.
    destruct a as [o1 o2 o3 o4]. unfold ipv4_ok, octets in *. cbn [octet_a octet_b octet_c octet_d fmap list_fmap join_str] in *.
    rewrite !Forall_cons in Ha. destruct Ha as (H1 & H2 & H3 & H4 & _).
    destruct (octet_table o1 H1) as (_ & _ & C1 & _), (octet_table o2 H2) as (_ & _ & C2 & _),
      (octet_table o3 H3) as (_ & _ & C3 & _), (octet_table o4 H4) as (_ & _ & C4 & _).
    by rewrite !has_char_app, C1, C2, C3, C4.
Qed.

Lemma ipv6_plain_roundtrip segs :
  length segs = 8 → Forall seg_ok segs → ipv6_of_string (ipv6_plain_text segs) = Some (mkIpv6 segs).
Proof.
  intros Hlen Hok. unfold ipv6_plain_text.
  assert (zeros_at segs (zero_run segs 0 (0, 0) (0, 0))) as Hz.
  { apply (zero_run_spec []); [intros j Hj; cbn in Hj; lia..|by left]. }
  destruct (zero_run segs 0 (0, 0) (0, 0)) as [s n]. unfold ipv6_of_string. destruct (1 <? n)%nat eqn:Hn.
  - apply Nat.ltb_lt in Hn. pose proof (zeros_inside _ _ _ Hz ltac:(lia)) as Hin.
    rewrite (proj1 (split_dcolon_segments _ _ (Forall_take _ _ _ Hok))).
    rewrite !parse_join_segments by (by apply Forall_take || by apply Forall_drop). cbn [mbind option_bind].
    rewrite length_take, length_drop, (proj2 (Nat.leb_le _ _)) by lia. do 2 f_equal.
    replace (8 - s `min` length segs - (length segs - (s + n))) with n by lia. apply zeros_cut; [done|lia|lia].
  - rewrite (proj2 (split_dcolon_segments segs "" Hok)), parse_join_segments by done. cbn [mbind option_bind].
    by rewrite Hlen.
Qed.

Lemma ipv6_roundtrip a : ipv6_ok a → ipv6_of_string (ipv6_to_string a) = Some a.
Proof.
  destruct a as [segs]. intros [Hlen Hok]. cbn [segments] in *. unfold ipv6_to_string.
  destruct (ipv4_mapped (mkIpv6 segs)) as [[g h]|] eqn:Hm; [|by apply ipv6_plain_roundtrip].
  unfold ipv4_mapped in Hm. cbn [segments] in Hm. destruct (drop 6 segs) as [|g' [|h' [|]]] eqn:Hd; try done.
  destruct (decide _) as [Ht|]; [|done]. injection Hm as -> ->.
  rewrite <- (take_drop 6 segs), Ht, Hd in Hok |- *. cbn [app] in *.
  rewrite !Forall_cons in Hok. destruct Hok as (_ & _ & _ & _ & _ & _ & Hg & Hh & _). by apply ipv6_mapped_roundtrip.
Qed.

(** The text of an IPv6 address is no IPv4 address: it has a colon. *)
Lemma ipv4_no_colon s : has_char ":"%char s = true → ipv4_of_string s = None.
Proof.
  intros Hc. destruct (ipv4_of_string s) as [a|] eqn:Ha; [|done]. exfalso. unfold ipv4_of_string in Ha.
  assert (∀ s, has_char ":"%char s = true → Exists (λ p, has_char ":"%char p = true) (split "."%char s)) as Hsplit.
  { clear. induction s as [|c s IH]; intros Hs; [done|]. rewrite has_char_cons in Hs. cbn [split].
    destruct (decide (c = "."%char)) as [->|Hdot].
    - right. by apply IH.
    - destruct (decide (c = ":"%char)) as [->|Hcol].
      + destruct (split "."%char s); left; by rewrite has_char_cons, decide_True.
      + specialize (IH Hs). destruct (split "."%char s) as [|p ps]; [by apply Exists_nil in IH|].
        apply Exists_cons in IH as [IH|IH]; [left|by right]. rewrite has_char_cons. by rewrite decide_False. }
  assert (∀ p z, parse_octet p = Some z → has_char ":"%char p = false) as Hoct.
  { clear. intros p z Hp. destruct (has_char ":"%char p) eqn:Hc; [|done]. exfalso. revert Hp. unfold parse_octet.
    destruct p as [|c p']; [done|]. destruct (_ && _); [done|]. destruct (_ <=? _)%nat; [|done].
    assert (∀ s acc, has_char ":"%char s = true → parse_digits 255 acc s = None) as Hd.
    { clear. induction s as [|c s IH]; intros acc Hs; [done|]. rewrite has_char_cons in Hs. cbn [parse_digits].
      destruct (decide (c = ":"%char)) as [->|]; [done|]. destruct (digit_of c); [|done].
      destruct (_ <=? _)%Z; [by apply IH|done]. }
    by rewrite Hd. }
  apply Hsplit in Hc. destruct (split "."%char s) as [|p1 [|p2 [|p3 [|p4 [|]]]]]; try done.
  destruct (parse_octet p1) eqn:E1; [|done]. destruct (parse_octet p2) eqn:E2; [|done].
  destruct (parse_octet p3) eqn:E3; [|done]. destruct (parse_octet p4) eqn:E4; [|done].
  apply Hoct in E1, E2, E3, E4. rewrite !Exists_cons, Exists_nil in Hc. intuition congruence.
Qed.

Definition ip_ok (a : IpAddr) : Prop := match a with V4 a => ipv4_ok a | V6 a => ipv6_ok a end.

(** * What is parsed is an address *)

Lemma digit_of_bounds c d : digit_of c = Some d → (0 ≤ d)%Z.
Proof. unfold digit_of. destruct (_ && _)%bool eqn:H; [|done]. apply andb_prop in H as [H _]. apply Z.leb_le in H. intros [= <-]. lia. Qed.
Lemma parse_digits_bounds bound acc s z : (0 ≤ acc ≤ bound)%Z → parse_digits bound acc s = Some z → (0 ≤ z ≤ bound)%Z.
Proof.
  revert acc. induction s as [|c s IH]; intros acc Hacc; cbn [parse_digits]; [by intros [= <-]|].
  destruct (digit_of c) as [d|] eqn:Hd; [|done]. apply digit_of_bounds in Hd.
  destruct (_ <=? bound)%Z eqn:Hb; [|done]. apply Z.leb_le in Hb. apply IH. lia.
Qed.
Lemma ipv4_of_string_ok s a : ipv4_of_string s = Some a → ipv4_ok a.
Proof.
  assert (∀ p z, parse_octet p = Some z → (0 ≤ z ≤ 255)%Z) as Hoct.
  { clear. intros p z. unfold parse_octet. destruct p; [done|]. destruct (_ && _); [done|]. destruct (_ <=? _)%nat; [|done].
    apply parse_digits_bounds. lia. }
  unfold ipv4_of_string. destruct (split _ s) as [|p1 [|p2 [|p3 [|p4 [|]]]]]; try done.
  destruct (parse_octet p1) eqn:E1; [|done]. destruct (parse_octet p2) eqn:E2; [|done].
  destruct (parse_octet p3) eqn:E3; [|done]. destruct (parse_octet p4) eqn:E4; [|done].
  apply Hoct in E1, E2, E3, E4. intros [= <-]. unfold ipv4_ok, octets. by rewrite !Forall_cons.
Qed.

Lemma hex_value_bounds c d : hex_value c = Some d → (0 ≤ d < 16)%Z.
Proof.
  unfold hex_value. set (n := Z.of_nat (nat_of_ascii c)). clearbody n.
  destruct ((48 <=? n) && (n <=? 57))%Z eqn:H1; [|destruct ((97 <=? n) && (n <=? 102))%Z eqn:H2;
    [|destruct ((65 <=? n) && (n <=? 70))%Z eqn:H3; [|done]]]; intros [= <-]; lia.
Qed.
Lemma parse_hex_bounds s acc z :
  (0 ≤ acc)%Z → parse_hex acc s = Some z → (0 ≤ z < (acc + 1) * 16 ^ Z.of_nat (String.length s))%Z.
Proof.
  revert acc. induction s as [|c s IH]; intros acc Hacc; cbn [parse_hex String.length]; [intros [= <-]; cbn; lia|].
  destruct (hex_value c) as [d|] eqn:Hd; [|done]. apply hex_value_bounds in Hd.
  intros Hz%IH; [|lia]. rewrite Nat2Z.inj_succ, Z.pow_succ_r by lia.
  assert (0 < 16 ^ Z.of_nat (String.length s))%Z by (apply Z.pow_pos_nonneg; lia). nia.
Qed.
Lemma parse_segment_ok p z : parse_segment p = Some z → seg_ok z.
Proof.
  unfold parse_segment. destruct (is_empty p); [done|]. destruct (_ <=? 4)%nat eqn:Hl; [|done]. apply Nat.leb_le in Hl.
  intros Hz%parse_hex_bounds; [|lia]. unfold seg_ok.
  assert (16 ^ Z.of_nat (String.length p) ≤ 16 ^ 4)%Z by (apply Z.pow_le_mono_r; lia). lia.
Qed.
Lemma parse_pieces_ok v4 l zs : parse_pieces v4 l = Some zs → Forall seg_ok zs.
Proof.
  revert zs. induction l as [|p l IH]; intros zs; [by intros [= <-]|]. destruct l as [|p' l].
  - cbn [parse_pieces]. destruct (parse_segment p) as [z|] eqn:Hp; [intros [= <-]; by apply Forall_singleton, (parse_segment_ok p)|].
    destruct v4; [|done]. destruct (ipv4_of_string p) as [a|] eqn:Ha; [|done]. apply ipv4_of_string_ok in Ha.
    unfold ipv4_ok, octets in Ha. rewrite !Forall_cons in Ha. intros [= <-]. apply List.Forall_cons; [unfold seg_ok; lia|].
    apply Forall_singleton. unfold seg_ok. lia.
  - cbn [parse_pieces] in *. destruct (parse_segment p) as [z|] eqn:Hp; [|done]. cbn [mbind option_bind].
    destruct (match l with [] => _ | _ => _ end) as [zs'|]; [|done]. intros [= <-].
    apply Forall_cons. split; [by apply (parse_segment_ok p)|by apply IH].
Qed.
Lemma parse_groups_ok v4 s zs : parse_groups v4 s = Some zs → Forall seg_ok zs.
Proof. unfold parse_groups. destruct (is_empty s); [intros [= <-]; constructor|]. apply parse_pieces_ok. Qed.
Lemma ipv6_of_string_ok s a : ipv6_of_string s = Some a → ipv6_ok a.
Proof.
  unfold ipv6_of_string. destruct (split_dcolon s) as [[h t]|].
  - destruct (parse_groups false h) as [hs|] eqn:Hh; [|done]. destruct (parse_groups true t) as [ts|] eqn:Ht; [|done].
    cbn [mbind option_bind]. destruct (_ <=? 7)%nat eqn:Hl; [|done]. apply Nat.leb_le in Hl. intros [= <-].
    apply parse_groups_ok in Hh, Ht. split; cbn [segments].
    + rewrite !length_app, length_replicate. lia.
    + rewrite !Forall_app. split; [done|]. split; [|done]. apply Forall_replicate. lia.
  - destruct (parse_groups true s) as [zs|] eqn:Hs; [|done]. cbn [mbind option_bind].
    destruct (_ =? 8)%nat eqn:Hl; [|done]. apply Nat.eqb_eq in Hl. intros [= <-]. split; [done|]. by apply parse_groups_ok in Hs.
Qed.
Lemma ip_of_string_ok s a : ip_of_string s = Some a → ip_ok a.
Proof.
  unfold ip_of_string. destruct (ipv4_of_string s) as [b|] eqn:Hb.
  - intros [= <-]. by apply ipv4_of_string_ok in Hb.
  - destruct (ipv6_of_string s) as [b|] eqn:Hs; [|done]. intros [= <-]. by apply ipv6_of_string_ok in Hs.
Qed.

Lemma ipv6_text_colon a : ipv6_ok a → has_char ":"%char (ipv6_to_string a) = true.
Proof.
  destruct a as [segs]. intros [Hlen _]. cbn [segments] in Hlen. unfold ipv6_to_string.
  destruct (ipv4_mapped _) as [[g h]|]; [done|]. unfold ipv6_plain_text. cbn [segments].
  destruct (zero_run segs 0 (0, 0) (0, 0)) as [s n]. destruct (1 <? n)%nat.
  - rewrite !has_char_app. by rewrite orb_true_r.
  - destruct segs as [|z1 [|z2 segs]]; try done. unfold join_segments. rewrite !fmap_cons. cbn [join_str].
    rewrite !has_char_app. by rewrite orb_true_r.
Qed.
Lemma ip_roundtrip a : ip_ok a → ip_of_string (ip_to_string a) = Some a.
Proof.
  destruct a as [a|a]; intros Ha; unfold ip_of_string; cbn [ip_to_string].
  - by rewrite ipv4_roundtrip.
  - by rewrite ipv4_no_colon, ipv6_roundtrip by (done || by apply ipv6_text_colon).
Qed.
