(* ===== verification/SwssSerde.v ===== *)
(** swss-serde: Rust values as the field values of SONiC tables and back.
    Models crates/swss-serde/src (field_value.rs, field_values.rs, table.rs).
    serde's data model is [SerdeValue]; the shape a derived [Deserialize] asks
    the deserializer for is [Shape], and a derived struct is the list of its
    fields with their serde attributes. Floats are left out (no table has one);
    field values are taken to be valid UTF-8. *)
From S2P Require Import Prelude RustStr.
From Stdlib Require Import String.

Open Scope stdpp_scope.

(** * One field value *)

(** What a [Serialize] implementation hands to the serializer; [SUnsupported]
    stands for chars, structs, maps, tuples and the like. *)
Inductive SerdeValue : Set :=
| SBool (b : bool)
| SInt (z : Z)
| SStr (s : string)
| SNone
| SSome (v : SerdeValue)
| SSeq (l : list SerdeValue)
| SVariant (name : string)
| SUnsupported.

Definition bool_string (b : bool) : string := if b then "true" else "false".

Definition lower (a : ascii) : ascii :=
  let n := nat_of_ascii a in if ((65 <=? n) && (n <=? 90))%nat then ascii_of_nat (n + 32) else a.
(** [to_lowercase] of an ASCII name. *)
Fixpoint to_lowercase (s : string) : string :=
  match s with "" => "" | String a s' => String (lower a) (to_lowercase s') end.

(** [FieldValueSeqSerializer::end]: every element followed by a comma, less
    the last comma. *)
Definition seq_end (elements : list string) : string :=
  let buf := foldr (λ s acc, s +:+ "," +:+ acc) "" elements in
  if is_empty buf then buf else String.substring 0 (String.length buf - 1) buf.

Fixpoint serialize_field_value (v : SerdeValue) : result string string :=
  match v with
  | SBool b => Ok (bool_string b)
  | SInt z => Ok (int_to_string z)
  | SStr s => Ok s
  | SNone => Ok "none"
  | SSome v => serialize_field_value v
  | SSeq l =>
      match (fix elements (l : list SerdeValue) : result (list string) string :=
        match l with
        | [] => Ok []
        | x :: l' =>
            match serialize_field_value x with
            | Ok s => match elements l' with Ok ss => Ok (s :: ss) | Err e => Err e end
            | Err e => Err e
            end
        end) l with
      | Ok ss => Ok (seq_end ss)
      | Err e => Err e
      end
  | SVariant name => Ok (to_lowercase name)
  | SUnsupported => Err "unsupported field value type"
  end.

(** The type a field is deserialized into. *)
Inductive Shape : Set :=
| ShBool
| ShInt (lo hi : Z)
| ShStr
| ShEnum (variants : list string)
| ShOpt (sh : Shape)
| ShSeq (sh : Shape)
| ShUnsupported.

Definition parse_bool (s : string) : option bool :=
  if decide (s = "true") then Some true else if decide (s = "false") then Some false else None.

Definition eq_ignore_case (a b : ascii) : bool := bool_decide (lower a = lower b).
(** [streq_case_insensitive]: up to the shorter of the two. *)
Fixpoint streq_case_insensitive (a b : string) : bool :=
  match a, b with
  | String x a', String y b' => eq_ignore_case x y && streq_case_insensitive a' b'
  | _, _ => true
  end.

(** A derived [visit_enum]: the name must be that of a variant. *)
Definition visit_enum (variants : list string) (name : string) : result SerdeValue string :=
  if decide (name ∈ variants) then Ok (SVariant name) else Err ("unknown variant `" +:+ name +:+ "`").

Definition deserialize_enum (variants : list string) (s : string) : result SerdeValue string :=
  visit_enum variants (default s (List.find (streq_case_insensitive s) variants)).

Definition invalid_value {A} (s : string) : result A string := Err ("invalid value: " +:+ s).

(** [FieldValueDeserializer], for a field that may be missing. *)
Fixpoint deserialize_field_value (sh : Shape) (data : option string) : result SerdeValue string :=
  match sh with
  | ShOpt sh' =>
      match data with
      | None => Ok SNone
      | Some s => if decide (s = "none") then Ok SNone
                  else match deserialize_field_value sh' (Some s) with
                       | Ok v => Ok (SSome v)
                       | Err e => Err e
                       end
      end
  | ShUnsupported => Err "deserializing an unsupported type"
  | _ =>
      match data with
      | None => Err "field is missing"
      | Some s =>
          match sh with
          | ShBool => match parse_bool s with Some b => Ok (SBool b) | None => invalid_value s end
          | ShInt lo hi => match parse_int lo hi s with Some z => Ok (SInt z) | None => invalid_value s end
          | ShStr => Ok (SStr s)
          | ShEnum variants => deserialize_enum variants s
          | ShSeq sh' =>
              match (fix elements (l : list string) : result (list SerdeValue) string :=
                match l with
                | [] => Ok []
                | x :: l' =>
                    match deserialize_field_value sh' (Some x) with
                    | Ok v => match elements l' with Ok vs => Ok (v :: vs) | Err e => Err e end
                    | Err e => Err e
                    end
                end) (if is_empty s then [] else split ","%char s) with
              | Ok vs => Ok (SSeq vs)
              | Err e => Err e
              end
          | _ => Err "deserializing an unsupported type"
          end
      end
  end.

(** * Structs *)

(** A field of a derived struct: its name, the shape it is read as, the
    conversions of its [serialize_with] / [deserialize_with] / [serde_as]
    attributes, its [serde(default)] and [skip_serializing_none]. *)
Record Field : Type := mkField {
  f_name : string;
  f_shape : Shape;
  f_encode : SerdeValue → result SerdeValue string;
  f_decode : SerdeValue → result SerdeValue string;
  f_default : option SerdeValue;
  f_skip_none : bool;
}.

Definition is_none (v : SerdeValue) : bool := match v with SNone => true | _ => false end.

(** A field without conversions. *)
Definition plain (name : string) (sh : Shape) : Field := mkField name sh Ok Ok None false.

Definition encode_field (f : Field) (v : SerdeValue) : result string string :=
  match f_encode f v with Ok w => serialize_field_value w | Err e => Err e end.
Definition decode_field (f : Field) (data : option string) : result SerdeValue string :=
  match deserialize_field_value (f_shape f) data with Ok w => f_decode f w | Err e => Err e end.

(** [FieldValuesStructSerializer] *)
Fixpoint serialize_struct (fields : list Field) (vals : list SerdeValue) (fvs : gmap string string)
    : result (gmap string string) string :=
  match fields, vals with
  | f :: fields', v :: vals' =>
      if f_skip_none f && is_none v then serialize_struct fields' vals' fvs
      else match encode_field f v with
           | Ok s => serialize_struct fields' vals' (<[f_name f := s]> fvs)
           | Err e => Err ("serializing field '" +:+ f_name f +:+ "': " +:+ e)
           end
  | _, _ => Ok fvs
  end.

Definition find_field (fields : list Field) (k : string) : option Field :=
  List.find (λ f, bool_decide (f_name f = k)) fields.

(** A derived [visit_map] over the entries in iteration order: unknown fields
    are skipped, the first error ends it. *)
Fixpoint visit_map (fields : list Field) (entries : list (string * string))
    : result (list (string * SerdeValue)) string :=
  match entries with
  | [] => Ok []
  | (k, s) :: entries' =>
      match find_field fields k with
      | None => visit_map fields entries'
      | Some f =>
          match decode_field f (Some s) with
          | Err e => Err e
          | Ok v => match visit_map fields entries' with Ok seen => Ok ((k, v) :: seen) | Err e => Err e end
          end
      end
  end.

Definition missing_field (f : Field) : result SerdeValue string :=
  match f_default f, f_shape f with
  | Some d, _ => Ok d
  | None, ShOpt _ => Ok SNone
  | None, _ => Err ("missing field `" +:+ f_name f +:+ "`")
  end.

Fixpoint collect_fields (fields : list Field) (seen : list (string * SerdeValue)) : result (list SerdeValue) string :=
  match fields with
  | [] => Ok []
  | f :: fields' =>
      match match snd <$> List.find (λ e, bool_decide (e.1 = f_name f)) seen with
            | Some v => Ok v
            | None => missing_field f
            end with
      | Err e => Err e
      | Ok v => match collect_fields fields' seen with Ok vs => Ok (v :: vs) | Err e => Err e end
      end
  end.

Definition deserialize_struct (fields : list Field) (entries : list (string * string)) : result (list SerdeValue) string :=
  match visit_map fields entries with
  | Ok seen => collect_fields fields seen
  | Err e => Err e
  end.

(** [to_field_values] and [from_field_values] of a struct. *)
Definition struct_to_field_values (fields : list Field) (vals : list SerdeValue) : result (gmap string string) string :=
  serialize_struct fields vals ∅.
Definition struct_from_field_values (fields : list Field) (fvs : gmap string string) : result (list SerdeValue) string :=
  deserialize_struct fields (map_to_list fvs).

(** * Tables *)

(** swss-common: the fields of a key of a table. *)
Class HashTable (Tab : Type) := {
  hget : Tab → string → string → result (option string) string;
  hset : Tab → string → string → string → result Tab string;
}.

Section Table.
Context {Tab : Type} `{!HashTable Tab}.

(** [TableSerializer]: field after field, up to the first error. *)
Fixpoint serialize_to_table (fields : list Field) (vals : list SerdeValue) (key : string) (t : Tab)
    : result unit string * Tab :=
  match fields, vals with
  | f :: fields', v :: vals' =>
      if f_skip_none f && is_none v then serialize_to_table fields' vals' key t
      else match encode_field f v with
           | Err e => (Err e, t)
           | Ok s => match hset t key (f_name f) s with
                     | Err e => (Err e, t)
                     | Ok t' => serialize_to_table fields' vals' key t'
                     end
           end
  | _, _ => (Ok tt, t)
  end.

(** [TableSeqDeserializer]: one [hget] per field; a field the table does not
    have is given to the field's deserializer as missing, defaults are not used. *)
Fixpoint deserialize_from_table (fields : list Field) (key : string) (t : Tab) : result (list SerdeValue) string :=
  match fields with
  | [] => Ok []
  | f :: fields' =>
      match hget t key (f_name f) with
      | Err e => Err e
      | Ok data =>
          match decode_field f data with
          | Err e => Err (f_name f +:+ ": " +:+ e)
          | Ok v => match deserialize_from_table fields' key t with Ok vs => Ok (v :: vs) | Err e => Err e end
          end
      end
  end.
End Table.
