(* ===== verification/SwssSerdeTheory.v ===== *)
(** Theorems about swss-serde: which values survive being written to field
    values, structs and tables and read back, and what its enum matching
    accepts. *)
From S2P Require Import Prelude RustStr SwssSerde.
From Stdlib Require Import String.

Open Scope stdpp_scope.

(** * The loops over elements *)

Definition map_result {A B} (f : A → result B string) : list A → result (list B) string :=
  fix go l := match l with
              | [] => Ok []
              | x :: l' => match f x with
                           | Ok y => match go l' with Ok ys => Ok (y :: ys) | Err e => Err e end
                           | Err e => Err e
                           end
              end.

Lemma serialize_seq l :
  serialize_field_value (SSeq l) =
    match map_result serialize_field_value l with Ok ss => Ok (seq_end ss) | Err e => Err e end.
Proof. reflexivity. Qed.
Lemma deserialize_seq sh s :
  deserialize_field_value (ShSeq sh) (Some s) =
    match map_result (λ x, deserialize_field_value sh (Some x)) (if is_empty s then [] else split ","%char s) with
    | Ok vs => Ok (SSeq vs)
    | Err e => Err e
    end.
Proof. reflexivity. Qed.

Lemma map_result_ok {A B} (f : A → result B string) l ys :
  Forall2 (λ x y, f x = Ok y) l ys → map_result f l = Ok ys.
Proof. induction 1 as [|x y l ys Hx _ IH]; [done|]. cbn. rewrite Hx. fold (map_result f). by rewrite IH. Qed.

(** The elements of a sequence, joined by commas. *)
Lemma substring_app s t : String.substring 0 (String.length s) (s +:+ t) = s.
Proof.
  induction s as [|a s IH]; [by destruct t|]. change (String a s +:+ t) with (String a (s +:+ t)).
  cbn. by rewrite IH.
Qed.
Lemma length_app_str s t : String.length (s +:+ t) = (String.length s + String.length t)%nat.
Proof. induction s as [|a s IH]; [done|]. change (String a s +:+ t) with (String a (s +:+ t)). cbn. by rewrite IH. Qed.

Lemma join_buf s ss :
  foldr (λ s acc, s +:+ "," +:+ acc) "" (s :: ss) = join_str "," (s :: ss) +:+ ",".
Proof.
  revert s. induction ss as [|x ss IH]; intros s; [by cbn|].
  change (foldr _ _ (s :: x :: ss)) with (s +:+ "," +:+ foldr (λ s acc, s +:+ "," +:+ acc) "" (x :: ss)).
  rewrite IH. change (join_str "," (s :: x :: ss)) with (s +:+ "," +:+ join_str "," (x :: ss)).
  by rewrite !app_assoc_str.
Qed.

Lemma seq_end_join ss : seq_end ss = join_str "," ss.
Proof.
  unfold seq_end. destruct ss as [|s ss]; [done|]. rewrite join_buf.
  assert (is_empty (join_str "," (s :: ss) +:+ ",") = false) as ->
    by (apply is_empty_false; by destruct (join_str "," (s :: ss))).
  rewrite length_app_str. cbn [String.length]. rewrite Nat.add_sub. apply substring_app.
Qed.

(** * Enum matching *)

Fixpoint str_take (n : nat) (s : string) : string :=
  match n, s with S n', String a s' => String a (str_take n' s') | _, _ => "" end.

Lemma streq_spec a b :
  streq_case_insensitive a b = true ↔
    to_lowercase (str_take (String.length b) a) = to_lowercase (str_take (String.length a) b).
Proof.
  revert b. induction a as [|x a IH]; intros [|y b]; [done..|].
  cbn. unfold eq_ignore_case. rewrite andb_true_iff, bool_decide_eq_true, IH.
  split; [intros [-> ->]; done|by intros [= -> ->]].
Qed.

(** Two names the enum matching does not tell apart: equal up to the shorter of
    the two, ignoring case. *)
Definition alike (a b : string) : Prop :=
  to_lowercase (str_take (String.length b) a) = to_lowercase (str_take (String.length a) b).

Lemma lower_twice a : lower (lower a) = lower a.
Proof. destruct a as [[] [] [] [] [] [] [] []]; reflexivity. Qed.
Lemma to_lowercase_twice s : to_lowercase (to_lowercase s) = to_lowercase s.
Proof. induction s as [|a s IH]; [done|]. cbn. by rewrite lower_twice, IH. Qed.
Lemma length_lowercase s : String.length (to_lowercase s) = String.length s.
Proof. induction s as [|a s IH]; [done|]. cbn. by rewrite IH. Qed.
Lemma lowercase_take n s : to_lowercase (str_take n s) = str_take n (to_lowercase s).
Proof. revert s. induction n as [|n IH]; intros [|a s]; [done..|]. cbn. by rewrite IH. Qed.
Lemma alike_lowercase a b : alike (to_lowercase a) b ↔ alike a b.
Proof. unfold alike. by rewrite length_lowercase, !lowercase_take, to_lowercase_twice. Qed.
Lemma alike_refl a : alike a a.
Proof. done. Qed.

Lemma find_variant variants1 variants2 v s :
  Forall (λ u, ¬ alike s u) variants1 → alike s v →
  List.find (streq_case_insensitive s) (variants1 ++ v :: variants2) = Some v.
Proof.
  intros Hno Hv. induction Hno as [|u us Hu _ IH]; cbn; [by rewrite (proj2 (streq_spec _ _) Hv)|].
  destruct (streq_case_insensitive s u) eqn:E; [by apply streq_spec in E|done].
Qed.

(** * Field values *)

(** The values a shape can carry through a field value: integers in range,
    names of variants that no earlier variant is like, no [Some] that prints
    as none, no commas inside sequences, no sequence of one empty string. *)
Fixpoint fits (sh : Shape) (v : SerdeValue) : Prop :=
  match sh, v with
  | ShBool, SBool _ => True
  | ShInt lo hi, SInt z => (lo ≤ z ≤ hi)%Z
  | ShStr, SStr _ => True
  | ShEnum variants, SVariant n =>
      ∃ variants1 variants2, variants = variants1 ++ n :: variants2 ∧ Forall (λ u, ¬ alike n u) variants1
  | ShOpt sh', SNone => True
  | ShOpt sh', SSome w => fits sh' w ∧ serialize_field_value w ≠ Ok "none"
  | ShSeq sh', SSeq l =>
      Forall (λ w, fits sh' w ∧ ∀ s, serialize_field_value w = Ok s → has_char ","%char s = false) l ∧
      map_result serialize_field_value l ≠ Ok [""]
  | _, _ => False
  end.

(** A value that fits its shape is written as a field value and read back
    as itself: booleans, integers of any width, strings, enum variants
    whatever their case, options (None as "none") and sequences. *)
Theorem field_value_roundtrip sh v :
  fits sh v →
  ∃ s, serialize_field_value v = Ok s ∧ deserialize_field_value sh (Some s) = Ok v.
Proof.
  revert v. induction sh as [|lo hi| |variants|sh IH|sh IH|]; intros [] Hfits; try done; cbn in Hfits.
  - exists (bool_string b). split; [done|]. by destruct b.
  - exists (int_to_string z). split; [done|]. cbn. by rewrite parse_int_to_string.
  - by exists s.
  - exists (to_lowercase name). split; [done|]. destruct Hfits as (vs1 & vs2 & -> & Hno).
    cbn. unfold deserialize_enum, visit_enum.
    rewrite (find_variant vs1 vs2 name); [| |by apply alike_lowercase, alike_refl].
    { cbn. rewrite decide_True by (clear; set_solver). done. }
    eapply Forall_impl; [exact Hno|]. intros u Hu Ha. by apply Hu, alike_lowercase.
  - exists "none". split; done.
  - destruct Hfits as [Hw Hne]. destruct (IH _ Hw) as (s & Hs & Hd). exists s. split; [done|].
    cbn. rewrite decide_False by congruence. by rewrite Hd.
  - destruct Hfits as [Hall Hne].
    assert (∃ ss, Forall2 (λ w s, serialize_field_value w = Ok s) l ss ∧
      Forall2 (λ s w, deserialize_field_value sh (Some s) = Ok w) ss l ∧
      Forall (λ s, has_char ","%char s = false) ss) as (ss & Hser & Hde & Hcomma).
    { clear Hne. induction Hall as [|w l [Hw Hc] _ IHl]; [by exists []|].
      destruct IHl as (ss & H1 & H2 & H3), (IH _ Hw) as (s & Hs & Hd).
      exists (s :: ss). split_and!; constructor; auto. }
    rewrite serialize_seq, (map_result_ok _ _ _ Hser), seq_end_join.
    rewrite (map_result_ok _ _ _ Hser) in Hne. eexists. split; [done|]. rewrite deserialize_seq.
    assert ((if is_empty (join_str "," ss) then [] else split "," (join_str "," ss)) = ss) as ->.
    { destruct ss as [|s ss]; [done|]. rewrite split_join by done.
      assert (is_empty (join_str "," (s :: ss)) = false) as ->; [|done].
      apply is_empty_false. destruct ss as [|x ss]; [by intros Hs; apply Hne; cbn in Hs; rewrite Hs|].
      by destruct s. }
    by rewrite (map_result_ok _ _ _ Hde).
Qed.

(** ** Enum matching, beyond the names themselves *)

(** Reading an enum takes the first variant that agrees with the string up
    to the shorter of the two, ignoring case - not the variant the string
    spells: the empty string is the first variant, and a prefix or an
    extension of a variant's name is accepted as that variant. *)
Theorem enum_prefix_accepted variants1 variants2 v s :
  Forall (λ u, ¬ alike s u) variants1 → alike s v →
  deserialize_field_value (ShEnum (variants1 ++ v :: variants2)) (Some s) = Ok (SVariant v).
Proof.
  intros Hno Hv. cbn. unfold deserialize_enum, visit_enum. rewrite find_variant by done. cbn. by rewrite decide_True by (clear; set_solver).
Qed.

(** * Structs *)

Definition skipped (f : Field) (v : SerdeValue) : bool := f_skip_none f && is_none v.

(** A value a field can carry. One that is left out is a [None] and missing
    reads as [None]: the field is an option and has no default. Any other is
    turned by the field's conversions into a value that fits the field's
    shape, and back. *)
Definition carries (f : Field) (v : SerdeValue) : Prop :=
  if skipped f v then v = SNone ∧ f_default f = None ∧ ∃ sh, f_shape f = ShOpt sh
  else ∃ w, f_encode f v = Ok w ∧ f_decode f w = Ok v ∧ fits (f_shape f) w.

(** Left out and missing reads as none, or written and read back as itself. *)
Definition field_reads (f : Field) (v : SerdeValue) : Prop :=
  if skipped f v then v = SNone ∧ missing_field f = Ok SNone
  else ∃ s, encode_field f v = Ok s ∧ decode_field f (Some s) = Ok v.

Lemma carries_reads f v : carries f v → field_reads f v.
Proof.
  unfold carries, field_reads. destruct (skipped f v).
  - intros (-> & Hd & sh & Hs). split; [done|]. unfold missing_field. by rewrite Hd, Hs.
  - intros (w & He & Hd & Hfits). destruct (field_value_roundtrip _ _ Hfits) as (s & Hs & Hr). exists s.
    unfold encode_field, decode_field. by rewrite He, Hr.
Qed.

(** The fields of [vals] are in [fvs], and the ones left out are not. *)
Definition written (fvs : gmap string string) (f : Field) (v : SerdeValue) : Prop :=
  if skipped f v then fvs !! f_name f = None
  else ∃ s, encode_field f v = Ok s ∧ fvs !! f_name f = Some s.

Lemma serialize_struct_spec fields vals fvs :
  NoDup (f_name <$> fields) → Forall2 field_reads fields vals →
  (∀ f, f ∈ fields → fvs !! f_name f = None) →
  ∃ fvs', serialize_struct fields vals fvs = Ok fvs' ∧ Forall2 (written fvs') fields vals ∧
    ∀ k, k ∉ f_name <$> fields → fvs' !! k = fvs !! k.
Proof.
  intros Hnd Hok. revert fvs. induction Hok as [|f v fields vals Hf Hok IH]; intros fvs Hno; [by exists fvs|].
  cbn in Hnd. apply NoDup_cons in Hnd as [Hnew Hnd]. cbn [serialize_struct]. fold (skipped f v).
  unfold field_reads in Hf. destruct (skipped f v) eqn:Hsk.
  - destruct (IH Hnd fvs) as (fvs' & Hs & Hall & Hrest); [intros; apply Hno; by right|].
    exists fvs'. split; [done|]. split.
    + constructor; [|done]. unfold written. rewrite Hsk, Hrest by done. apply Hno. by left.
    + intros k Hk. apply Hrest. intros Hin. apply Hk. by right.
  - destruct Hf as (s & Hs & _). rewrite Hs.
    destruct (IH Hnd (<[f_name f := s]> fvs)) as (fvs' & Hser & Hall & Hrest).
    { intros g Hg. rewrite lookup_insert_ne; [apply Hno; by right|]. intros Heq. apply Hnew. rewrite Heq.
      by apply list_elem_of_fmap_2. }
    exists fvs'. split; [done|]. split.
    + constructor; [|done]. unfold written. rewrite Hsk. exists s. split; [done|].
      by rewrite Hrest, lookup_insert_eq.
    + intros k Hk. rewrite Hrest by (intros Hin; apply Hk; by right). apply lookup_insert_ne.
      intros <-. apply Hk. by left.
Qed.

Lemma find_field_spec fields f :
  NoDup (f_name <$> fields) → f ∈ fields → find_field fields (f_name f) = Some f.
Proof.
  unfold find_field. induction fields as [|g fields IH]; intros Hnd Hf; [by apply elem_of_nil in Hf|].
  cbn in Hnd. apply NoDup_cons in Hnd as [Hnew Hnd]. cbn. apply elem_of_cons in Hf as [->|Hf].
  - by rewrite bool_decide_eq_true_2.
  - rewrite bool_decide_eq_false_2; [by apply IH|]. intros Heq. apply Hnew. rewrite Heq.
    by apply list_elem_of_fmap_2.
Qed.

Lemma visit_map_spec fields entries :
  (∀ k s f, (k, s) ∈ entries → find_field fields k = Some f → ∃ v, decode_field f (Some s) = Ok v) →
  ∃ seen, visit_map fields entries = Ok seen ∧
    ∀ k v, (k, v) ∈ seen ↔ ∃ s f, (k, s) ∈ entries ∧ find_field fields k = Some f ∧ decode_field f (Some s) = Ok v.
Proof.
  induction entries as [|[k s] entries IH]; intros Hdec.
  - exists []. split; [done|]. intros k v. split; [by intros ?%elem_of_nil|by intros (s & f & ?%elem_of_nil & _)].
  - destruct IH as (seen & Hseen & Hspec); [intros; eapply Hdec; [by right|done]|]. cbn [visit_map].
    destruct (find_field fields k) as [f|] eqn:Hf.
    + destruct (Hdec k s f) as [v Hv]; [by left|done|]. rewrite Hv, Hseen. exists ((k, v) :: seen). split; [done|].
      intros k' v'. rewrite elem_of_cons, Hspec. split.
      * intros [[= -> ->]|(s' & f' & Hin & Hf' & Hv')]; [exists s, f|exists s', f']; split_and!; try done; by constructor.
      * intros (s' & f' & [[= -> ->]|Hin]%elem_of_cons & Hf' & Hv'); [left|right]; [|by exists s', f'].
        rewrite Hf in Hf'. injection Hf' as <-. rewrite Hv in Hv'. by injection Hv' as <-.
    + rewrite Hseen. exists seen. split; [done|]. intros k' v'. rewrite Hspec. split.
      * intros (s' & f' & Hin & Hrest). exists s', f'. split; [by right|done].
      * intros (s' & f' & [[= -> ->]|Hin]%elem_of_cons & Hf' & Hv'); [congruence|by exists s', f'].
Qed.

(** What a field of the struct becomes, given what was seen. *)
Lemma collect_fields_ok fields vals seen :
  Forall2 (λ f v, (∀ v', (f_name f, v') ∈ seen → v' = v) ∧
    ((∃ v', (f_name f, v') ∈ seen) ∨ missing_field f = Ok v)) fields vals →
  collect_fields fields seen = Ok vals.
Proof.
  induction 1 as [|f v fields vals [Huniq Hex] _ IH]; [done|]. cbn [collect_fields].
  destruct (List.find _ seen) as [[k v']|] eqn:Hfind; cbn [fmap option_fmap option_map].
  - apply find_some in Hfind as [Hin Hk%bool_decide_eq_true_1]. cbn in Hk. subst k.
    rewrite <- (Huniq v' (proj2 (list_elem_of_In _ _) Hin)). by rewrite IH.
  - destruct Hex as [[v' Hv']|Hm]; [|by rewrite Hm, IH].
    apply list_elem_of_In, (find_none _ _ Hfind) in Hv'. cbn in Hv'. by rewrite bool_decide_eq_true_2 in Hv'.
Qed.

(** C28: A struct written to field values is read back as itself from any field
    values that extend what was written - whatever the iteration order of the
    hash map and whatever other fields it has - if each of its values can be
    carried: a value left out by skip_serializing_none is a [None] of an option
    without default whose field is not there; every other one is, after the
    field's conversion attributes (which must undo each other on it), an
    integer in range, a variant no earlier variant is like up to the shorter
    name and case, no [Some] printed as "none", no sequence with a comma in an
    element or of one empty string. *)
Theorem struct_roundtrip fields vals fvs fvs' entries :
  NoDup (f_name <$> fields) → Forall2 carries fields vals →
  struct_to_field_values fields vals = Ok fvs → fvs ⊆ fvs' →
  Forall2 (λ f v, skipped f v = true → fvs' !! f_name f = None) fields vals →
  entries ≡ₚ map_to_list fvs' →
  deserialize_struct fields entries = Ok vals.
Proof.
  intros Hnd Hcar Hser Hsub Hskip Hperm.
  pose proof (Forall2_impl _ _ _ _ Hcar carries_reads) as Hok.
  destruct (serialize_struct_spec fields vals ∅ Hnd Hok) as (fvs0 & Hser0 & Hw & _); [intros; apply lookup_empty|].
  unfold struct_to_field_values in Hser. rewrite Hser in Hser0. injection Hser0 as <-.
  assert (Forall2 (λ f v, ∀ s, (f_name f, s) ∈ entries → skipped f v = false ∧ decode_field f (Some s) = Ok v)
    fields vals) as Hdec.
  { apply Forall2_same_length_lookup. split; [by eapply Forall2_length|]. intros i f v Hf Hv s Hin.
    pose proof (Forall2_lookup_lr _ _ _ _ _ _ Hok Hf Hv) as Hfok.
    pose proof (Forall2_lookup_lr _ _ _ _ _ _ Hw Hf Hv) as Hfw.
    pose proof (Forall2_lookup_lr _ _ _ _ _ _ Hskip Hf Hv) as Hfs. cbn beta in Hfs.
    rewrite Hperm in Hin. apply elem_of_map_to_list in Hin. unfold field_reads, written in *.
    destruct (skipped f v); [by rewrite Hfs in Hin|]. split; [done|].
    destruct Hfok as (s1 & He & Hd), Hfw as (s2 & He2 & Hl). rewrite He in He2. injection He2 as <-.
    apply (lookup_weaken _ _ _ _ Hl) in Hsub. by rewrite Hin in Hsub; injection Hsub as <-. }
  assert (∀ k f, find_field fields k = Some f → f ∈ fields ∧ f_name f = k) as Hfind.
  { intros k f [Hin Hk%bool_decide_eq_true_1]%find_some. split; [by apply list_elem_of_In|done]. }
  destruct (visit_map_spec fields entries) as (seen & Hseen & Hspec).
  { intros k s f Hin [Hf <-]%Hfind. apply list_elem_of_lookup_1 in Hf as [i Hf].
    destruct (Forall2_lookup_l _ _ _ _ _ Hdec Hf) as (v & _ & Hv). exists v. by apply Hv. }
  unfold deserialize_struct. rewrite Hseen. apply collect_fields_ok.
  apply Forall2_same_length_lookup. split; [by eapply Forall2_length|]. intros i f v Hf Hv. split.
  - intros v' (s & g & Hin & Hg & Hd)%Hspec.
    rewrite find_field_spec in Hg by (first [done|by eapply list_elem_of_lookup_2]). injection Hg as <-.
    pose proof (Forall2_lookup_lr _ _ _ _ _ _ Hdec Hf Hv s Hin) as [_ Hd']. congruence.
  - pose proof (Forall2_lookup_lr _ _ _ _ _ _ Hok Hf Hv) as Hfok.
    pose proof (Forall2_lookup_lr _ _ _ _ _ _ Hw Hf Hv) as Hfw. unfold field_reads, written in *.
    destruct (skipped f v); [by destruct Hfok as [-> ?]; right|]. left.
    destruct Hfok as (s1 & He & Hd), Hfw as (s2 & He2 & Hl). rewrite He in He2. injection He2 as <-.
    exists v. apply Hspec. exists s1, f. split; [|split; [|done]].
    + rewrite Hperm. apply elem_of_map_to_list. by apply (lookup_weaken _ _ _ _ Hl).
    + apply find_field_spec; [done|]. by eapply list_elem_of_lookup_2.
Qed.

(** * Witnesses *)

Lemma field_value_roundtrip_witness :
  ∃ s, serialize_field_value (SSome (SSeq [SInt (-5); SInt 255])) = Ok s ∧
    deserialize_field_value (ShOpt (ShSeq (ShInt (-128) 255))) (Some s) = Ok (SSome (SSeq [SInt (-5); SInt 255])).
Proof.
  apply field_value_roundtrip. cbn. split; [split|].
  - repeat constructor; try lia; intros s [= <-]; reflexivity.
  - discriminate.
  - discriminate.
Defined.

Definition demo_fields : list Field :=
  [plain "a" (ShInt (-2147483648) 2147483647); plain "b" ShStr;
   mkField "d" (ShOpt (ShInt 0 100)) Ok Ok None true;
   plain "e" (ShEnum ["Up"; "Down"; "Unknown"]); plain "l" (ShOpt (ShSeq ShStr))].
Definition demo_values : list SerdeValue :=
  [SInt (-5); SStr "none"; SNone; SVariant "Unknown"; SSome (SSeq [SStr "x"; SStr ""; SStr "y z"])].
Definition demo_written : gmap string string :=
  {["a" := "-5"; "b" := "none"; "e" := "unknown"; "l" := "x,,y z"]}.

Lemma struct_roundtrip_witness :
  deserialize_struct demo_fields (map_to_list (<["f" := "123"]> demo_written)) = Ok demo_values.
Proof.
  apply (struct_roundtrip demo_fields demo_values demo_written (<["f" := "123"]> demo_written)).
  - cbn. repeat constructor; set_solver.
  - repeat apply List.Forall2_cons; [..|apply List.Forall2_nil].
    + exists (SInt (-5)). split; [reflexivity|]. split; [reflexivity|]. cbn. lia.
    + exists (SStr "none"). split; [reflexivity|]. split; reflexivity.
    + split; [reflexivity|]. split; [reflexivity|]. by exists (ShInt 0 100).
    + exists (SVariant "Unknown"). split; [reflexivity|]. split; [reflexivity|]. exists ["Up"; "Down"], [].
      split; [reflexivity|]. repeat constructor; discriminate.
    + eexists. split; [reflexivity|]. split; [reflexivity|]. cbn. split; [|discriminate].
      split; [|discriminate]. repeat constructor; intros s [= <-]; reflexivity.
  - vm_cast_no_check (eq_refl (A:=result (gmap string string) string) (Ok demo_written)).
  - apply insert_subseteq. reflexivity.
  - repeat apply List.Forall2_cons; [..|apply List.Forall2_nil];
      [by intros [=]|by intros [=]|intros _; vm_compute; reflexivity|by intros [=]..].
  - done.
Defined.

Lemma enum_prefix_accepted_witness :
  deserialize_field_value (ShEnum ["up"; "down"; "unknown"]) (Some "") = Ok (SVariant "up").
Proof. apply (enum_prefix_accepted [] ["down"; "unknown"] "up" ""); [constructor|reflexivity]. Defined.
