(* ===== verification/Path.v ===== *)
(** The service path of a swbus endpoint ([ServicePath] of
    crates/swbus-proto/src/swbus.rs): its fields, the strings it is printed to
    and parsed from, and the prefixes the multiplexer uses as route keys. *)
From S2P Require Import Prelude RustStr.

Open Scope stdpp_scope.

Definition DOT : ascii := "."%char.
Definition SLASH : ascii := "/"%char.

Record ServicePath : Type := mkPath {
  region_id : string;
  cluster_id : string;
  node_id : string;
  service_type : string;
  service_id : string;
  resource_type : string;
  resource_id : string;
}.

#[export] Instance path_eq_dec : EqDecision ServicePath.
Proof. solve_decision. Defined.

Definition path_fields (sp : ServicePath) : list string :=
  [region_id sp; cluster_id sp; node_id sp; service_type sp; service_id sp;
   resource_type sp; resource_id sp].

Definition path_of_fields (l : list string) : option ServicePath :=
  match l with
  | [r; c; n; st; si; rt; ri] => Some (mkPath r c n st si rt ri)
  | _ => None
  end.

#[export] Program Instance path_countable : Countable ServicePath :=
  inj_countable path_fields path_of_fields _.
Next Obligation. by intros []. Qed.

(** ** Constructors *)

Definition with_region (region service_type service_id resource_type resource_id : string) : ServicePath :=
  mkPath region "" "" service_type service_id resource_type resource_id.

Definition with_cluster (region cluster service_type service_id resource_type resource_id : string) : ServicePath :=
  mkPath region cluster "" service_type service_id resource_type resource_id.

Definition with_node
    (region cluster node service_type service_id resource_type resource_id : string) : ServicePath :=
  mkPath region cluster node service_type service_id resource_type resource_id.

(** ** Parsing *)

(** [from_string] never fails: the code returns [Ok] on every input. *)
Definition from_string {E} (service_path : string) : result ServicePath E :=
  let parts := resize 5 "" (split SLASH service_path) in
  let loc_parts := resize 3 "" (splitn 3 DOT (nth 0 parts "")) in
  Ok (mkPath (nth 0 loc_parts "") (nth 1 loc_parts "") (nth 2 loc_parts "")
         (nth 1 parts "") (nth 2 parts "") (nth 3 parts "") (nth 4 parts "")).

(** ** Printing *)

Definition to_regional_prefix (sp : ServicePath) : string := region_id sp.

Definition to_cluster_prefix (sp : ServicePath) : string :=
  region_id sp +:+ "." +:+ cluster_id sp.

Definition to_node_prefix (sp : ServicePath) : string :=
  region_id sp +:+ "." +:+ cluster_id sp +:+ "." +:+ node_id sp.

Definition to_service_prefix (sp : ServicePath) : string :=
  region_id sp +:+ "." +:+ cluster_id sp +:+ "." +:+ node_id sp
  +:+ "/" +:+ service_type sp +:+ "/" +:+ service_id sp.

Definition to_swbusd_service_path (sp : ServicePath) : ServicePath :=
  mkPath (region_id sp) (cluster_id sp) (node_id sp) "" "" "" "".

Definition to_longest_path (sp : ServicePath) : string :=
  let loc_str := join_str "." (take_while (λ x, negb (is_empty x))
                   [region_id sp; cluster_id sp; node_id sp]) in
  let rsc_str := join_str "/" (take_while (λ x, negb (is_empty x))
                   [service_type sp; service_id sp; resource_type sp; resource_id sp]) in
  if is_empty rsc_str then loc_str else loc_str +:+ "/" +:+ rsc_str.

(** [fmt::Display]: [to_string]. *)
Definition to_string (sp : ServicePath) : string :=
  let rsc := service_type sp +:+ "/" +:+ service_id sp +:+ "/"
             +:+ resource_type sp +:+ "/" +:+ resource_id sp in
  if negb (is_empty (node_id sp)) then
    region_id sp +:+ "." +:+ cluster_id sp +:+ "." +:+ node_id sp +:+ "/" +:+ rsc
  else if negb (is_empty (cluster_id sp)) then
    region_id sp +:+ "." +:+ cluster_id sp +:+ "/" +:+ rsc
  else region_id sp +:+ "/" +:+ rsc.

(** [RouteScope] of swbus.proto, in the order of its values 0..4. *)
Inductive RouteScope : Set := ScopeClient | ScopeLocal | ScopeCluster | ScopeRegion | ScopeGlobal.

#[export] Instance scope_eq_dec : EqDecision RouteScope.
Proof. solve_decision. Defined.

Definition scope_code (s : RouteScope) : Z :=
  match s with
  | ScopeClient => 0 | ScopeLocal => 1 | ScopeCluster => 2 | ScopeRegion => 3 | ScopeGlobal => 4
  end.

(** The derived [PartialOrd] of the enum: [a >= b]. *)
Definition scope_ge (a b : RouteScope) : bool := (scope_code b <=? scope_code a)%Z.

Definition route_scope (sp : ServicePath) : RouteScope :=
  if is_empty (cluster_id sp) then ScopeGlobal
  else if is_empty (node_id sp) then ScopeRegion
  else if is_empty (service_id sp) then ScopeCluster
  else ScopeClient.

(** [join]: the zip / skip_while / for_each of the code, on the field lists. *)
Fixpoint join_fields (skipping : bool) (self other : list string) : list string :=
  match self, other with
  | a :: self', b :: other' =>
      if skipping && is_empty b then a :: join_fields true self' other'
      else b :: join_fields false self' other'
  | _, _ => self
  end.

Definition join_path (self other : ServicePath) : ServicePath :=
  default self (path_of_fields (join_fields true (path_fields self) (path_fields other))).

(** ** Well-formed paths *)

(** No separator inside a field: what [from_string] produces, except that a
    node id may contain dots (it holds an IP address). *)
Definition wf_path (sp : ServicePath) : bool :=
  forallb (λ f, negb (has_char SLASH f)) (path_fields sp)
  && negb (has_char DOT (region_id sp)) && negb (has_char DOT (cluster_id sp)).

(** The location and resource fields up to the first empty one. *)
Definition longest_loc (sp : ServicePath) : list string :=
  take_while (λ x, negb (is_empty x)) [region_id sp; cluster_id sp; node_id sp].
Definition longest_rsc (sp : ServicePath) : list string :=
  take_while (λ x, negb (is_empty x))
    [service_type sp; service_id sp; resource_type sp; resource_id sp].

(** What [to_longest_path] keeps of a path: each group is cut at its first
    empty field and the rest of the group is blank. *)
Definition canon (sp : ServicePath) : ServicePath :=
  let l := longest_loc sp in
  let q := longest_rsc sp in
  mkPath (nth 0 l "") (nth 1 l "") (nth 2 l "")
         (nth 0 q "") (nth 1 q "") (nth 2 q "") (nth 3 q "").

Record wf_spec (sp : ServicePath) : Prop := {
  wf_r : has_char SLASH (region_id sp) = false;
  wf_c : has_char SLASH (cluster_id sp) = false;
  wf_n : has_char SLASH (node_id sp) = false;
  wf_st : has_char SLASH (service_type sp) = false;
  wf_si : has_char SLASH (service_id sp) = false;
  wf_rt : has_char SLASH (resource_type sp) = false;
  wf_ri : has_char SLASH (resource_id sp) = false;
  wf_rd : has_char DOT (region_id sp) = false;
  wf_cd : has_char DOT (cluster_id sp) = false;
}.

Lemma wf_path_spec sp : wf_path sp = true → wf_spec sp.
Proof.
  unfold wf_path. simpl. rewrite !andb_true_iff, !negb_true_iff.
  intros H. destruct_and?. by split.
Qed.

(** ** The parser on strings of known shape *)

(** A location and a list of resource fields, as [from_string] splits them. *)
Lemma split_loc_rsc loc rest :
  has_char SLASH loc = false →
  split SLASH (loc +:+ "/" +:+ rest) = loc :: split SLASH rest.
Proof. intros H. by apply split_app. Qed.

Lemma splitn_node r c n :
  has_char DOT r = false → has_char DOT c = false →
  splitn 3 DOT (r +:+ "." +:+ c +:+ "." +:+ n) = [r; c; n].
Proof.
  intros Hr Hc. cbn [splitn].
  change (r +:+ "." +:+ c +:+ "." +:+ n) with (r +:+ String DOT (c +:+ "." +:+ n)).
  rewrite split_once_app by done.
  change (c +:+ "." +:+ n) with (c +:+ String DOT n).
  by rewrite split_once_app.
Qed.

Lemma splitn_cluster r c :
  has_char DOT r = false → has_char DOT c = false →
  splitn 3 DOT (r +:+ "." +:+ c) = [r; c].
Proof.
  intros Hr Hc. cbn [splitn].
  change (r +:+ "." +:+ c) with (r +:+ String DOT c).
  rewrite split_once_app by done. by rewrite split_once_none.
Qed.

Lemma splitn_region r : has_char DOT r = false → splitn 3 DOT r = [r].
Proof. intros Hr. cbn [splitn]. by rewrite split_once_none. Qed.

Lemma no_slash_loc3 r c n :
  has_char SLASH r = false → has_char SLASH c = false → has_char SLASH n = false →
  has_char SLASH (r +:+ "." +:+ c +:+ "." +:+ n) = false.
Proof. intros Hr Hc Hn. by rewrite !has_char_app, Hr, Hc, Hn. Qed.

Lemma no_slash_loc2 r c :
  has_char SLASH r = false → has_char SLASH c = false →
  has_char SLASH (r +:+ "." +:+ c) = false.
Proof. intros Hr Hc. by rewrite !has_char_app, Hr, Hc. Qed.

Lemma split_rsc4 st si rt ri :
  has_char SLASH st = false → has_char SLASH si = false →
  has_char SLASH rt = false → has_char SLASH ri = false →
  split SLASH (st +:+ "/" +:+ si +:+ "/" +:+ rt +:+ "/" +:+ ri) = [st; si; rt; ri].
Proof. intros. rewrite !split_loc_rsc by done. by rewrite split_no_char. Qed.

#[export] Hint Resolve no_slash_loc3 no_slash_loc2 : rust_str.

(** [from_string] on a string whose pieces are known. *)
Lemma from_string_pieces {E} loc st si rt ri lp s :
  split SLASH s = loc :: [st; si; rt; ri] →
  splitn 3 DOT loc = lp →
  from_string (E:=E) s =
    Ok (mkPath (nth 0 (resize 3 "" lp) "") (nth 1 (resize 3 "" lp) "") (nth 2 (resize 3 "" lp) "")
           st si rt ri).
Proof. intros Hs Hl. unfold from_string. by rewrite Hs, <- Hl. Qed.

(** Regrouping the location part of a printed path. *)
Lemma regroup_loc3 r c n x :
  r +:+ "." +:+ c +:+ "." +:+ n +:+ x = (r +:+ "." +:+ c +:+ "." +:+ n) +:+ x.
Proof. by rewrite !app_assoc_str. Qed.
Lemma regroup_loc2 r c x : r +:+ "." +:+ c +:+ x = (r +:+ "." +:+ c) +:+ x.
Proof. by rewrite !app_assoc_str. Qed.

(** [from_string] on a location followed by four resource fields. *)
Lemma from_string_loc3 {E} r c n st si rt ri :
  wf_spec (mkPath r c n st si rt ri) →
  from_string (E:=E) (r +:+ "." +:+ c +:+ "." +:+ n +:+ "/" +:+
    st +:+ "/" +:+ si +:+ "/" +:+ rt +:+ "/" +:+ ri) = Ok (mkPath r c n st si rt ri).
Proof.
  intros []; cbn in *. rewrite regroup_loc3.
  erewrite from_string_pieces; cycle 1.
  { rewrite split_loc_rsc by auto with rust_str. by rewrite split_rsc4. }
  { by apply splitn_node. }
  done.
Qed.

Lemma from_string_loc2 {E} r c st si rt ri :
  wf_spec (mkPath r c "" st si rt ri) →
  from_string (E:=E) (r +:+ "." +:+ c +:+ "/" +:+
    st +:+ "/" +:+ si +:+ "/" +:+ rt +:+ "/" +:+ ri) = Ok (mkPath r c "" st si rt ri).
Proof.
  intros []; cbn in *. rewrite regroup_loc2.
  erewrite from_string_pieces; cycle 1.
  { rewrite split_loc_rsc by auto with rust_str. by rewrite split_rsc4. }
  { by apply splitn_cluster. }
  done.
Qed.

Lemma from_string_loc1 {E} r st si rt ri :
  wf_spec (mkPath r "" "" st si rt ri) →
  from_string (E:=E) (r +:+ "/" +:+
    st +:+ "/" +:+ si +:+ "/" +:+ rt +:+ "/" +:+ ri) = Ok (mkPath r "" "" st si rt ri).
Proof.
  intros []; cbn in *.
  erewrite from_string_pieces; cycle 1.
  { rewrite split_loc_rsc by done. by rewrite split_rsc4. }
  { by apply splitn_region. }
  done.
Qed.

(** Display round trip. *)
Lemma from_to_string {E} sp : wf_spec sp → from_string (E:=E) (to_string sp) = Ok sp.
Proof.
  intros Hwf. destruct sp as [r c n st si rt ri]. unfold to_string; cbn -[is_empty].
  destruct (is_empty n) eqn:Hn; cbn [negb]; [|by apply from_string_loc3].
  apply is_empty_spec in Hn as ->.
  destruct (is_empty c) eqn:Hc; cbn [negb]; [|by apply from_string_loc2].
  apply is_empty_spec in Hc as ->. by apply from_string_loc1.
Qed.

(** ** [to_longest_path] *)

Lemma join_nonempty sep x l : x ≠ "" → is_empty (join_str sep (x :: l)) = false.
Proof. intros Hx. destruct x as [|a x]; [done|]. by destruct l. Qed.

Lemma nth_replicate {A} (n i : nat) (d : A) : nth i (replicate n d) d = d.
Proof. revert i. induction n as [|n IH]; intros [|i]; simpl; auto. Qed.

Lemma nth_resize {A} (n i : nat) (d : A) l :
  i < n → nth i (resize n d l) d = nth i l d.
Proof.
  revert i l. induction n as [|n IH]; intros i l Hi; [lia|].
  destruct l as [|x l], i as [|i]; simpl; try done.
  - apply nth_replicate.
  - apply IH. lia.
Qed.

Lemma Forall_take_while {A} (P : A → Prop) p l : Forall P l → Forall P (take_while p l).
Proof. induction 1; simpl; [done|]. case_match; by constructor. Qed.

Lemma take_while_prop {A} (p : A → bool) l : Forall (λ x, p x = true) (take_while p l).
Proof. induction l; simpl; [done|]. case_match; by constructor. Qed.

(** Parsing the joined location gives the location back. *)
Lemma splitn_longest_loc sp i :
  wf_spec sp → i < 3 →
  nth i (resize 3 "" (splitn 3 DOT (join_str "." (longest_loc sp)))) "" = nth i (longest_loc sp) "".
Proof.
  intros [] Hi. rewrite nth_resize by done. unfold longest_loc. cbn -[is_empty splitn].
  destruct (is_empty (region_id sp)); cbn -[splitn is_empty]; [by destruct i as [|[|[]]]|].
  destruct (is_empty (cluster_id sp)); cbn -[splitn is_empty].
  { by rewrite splitn_region. }
  destruct (is_empty (node_id sp)); cbn -[splitn is_empty].
  { by rewrite splitn_cluster. }
  by rewrite splitn_node.
Qed.

Lemma no_slash_longest_loc sp : wf_spec sp → has_char SLASH (join_str "." (longest_loc sp)) = false.
Proof.
  intros []. unfold longest_loc. cbn -[is_empty].
  destruct (is_empty (region_id sp)); cbn -[is_empty]; [done|].
  destruct (is_empty (cluster_id sp)); cbn -[is_empty]; [done|].
  destruct (is_empty (node_id sp)); cbn -[is_empty]; auto with rust_str.
Qed.

Lemma from_string_longest {E} sp :
  wf_spec sp → from_string (E:=E) (to_longest_path sp) = Ok (canon sp).
Proof.
  intros Hwf. unfold from_string.
  assert (split SLASH (to_longest_path sp) =
          join_str "." (longest_loc sp) :: longest_rsc sp) as ->.
  { unfold to_longest_path. fold (longest_loc sp). fold (longest_rsc sp).
    assert (Forall (λ x, has_char SLASH x = false) (longest_rsc sp)) as Hno.
    { destruct Hwf. apply Forall_take_while. by repeat constructor. }
    pose proof (take_while_prop (λ x, negb (is_empty x))
      [service_type sp; service_id sp; resource_type sp; resource_id sp]) as Hne.
    fold (longest_rsc sp) in Hne.
    destruct (longest_rsc sp) as [|x l] eqn:Hr.
    - simpl. rewrite split_no_char by by apply no_slash_longest_loc. done.
    - apply Forall_cons_1 in Hne as [Hx%negb_true_iff%is_empty_false _].
      rewrite join_nonempty by done.
      rewrite split_loc_rsc by by apply no_slash_longest_loc.
      by rewrite split_join. }
  unfold canon. rewrite !nth_resize by lia. cbn [nth].
  pose proof (splitn_longest_loc sp) as H.
  assert (∀ i, i < 3 → nth i (splitn 3 DOT (join_str "." (longest_loc sp))) "" =
    nth i (longest_loc sp) "") as H'.
  { intros i Hi. by rewrite <- (H i Hwf Hi), nth_resize. }
  by rewrite !H' by lia.
Qed.

Lemma canon_idemp sp : canon (canon sp) = canon sp.
Proof.
  unfold canon, longest_loc, longest_rsc. destruct sp as [r c n st si rt ri]. cbn -[is_empty].
  destruct (is_empty r) eqn:?, (is_empty c) eqn:?, (is_empty n) eqn:?; cbn -[is_empty];
  destruct (is_empty st) eqn:?; cbn -[is_empty]; try destruct (is_empty si) eqn:?; cbn -[is_empty];
  try destruct (is_empty rt) eqn:?; cbn -[is_empty]; try destruct (is_empty ri) eqn:?; cbn -[is_empty];
  repeat (match goal with H : is_empty _ = _ |- _ => rewrite H end; cbn -[is_empty]); try done.
Qed.

(** ** Prefixes as keys *)

Definition service_part (sp : ServicePath) : ServicePath :=
  mkPath (region_id sp) (cluster_id sp) (node_id sp) (service_type sp) (service_id sp) "" "".
Definition cluster_part (sp : ServicePath) : ServicePath :=
  mkPath (region_id sp) (cluster_id sp) "" "" "" "" "".
Definition region_part (sp : ServicePath) : ServicePath :=
  mkPath (region_id sp) "" "" "" "" "" "".

Lemma from_service_prefix {E} sp :
  wf_spec sp → from_string (E:=E) (to_service_prefix sp) = Ok (service_part sp).
Proof.
  intros []. unfold from_string, to_service_prefix. rewrite regroup_loc3.
  rewrite !split_loc_rsc, split_no_char by auto with rust_str.
  change (nth 0 (resize 5 "" ?l) "") with (nth 0 l ""). cbn [nth].
  by rewrite splitn_node.
Qed.

Lemma from_node_prefix {E} sp :
  wf_spec sp → from_string (E:=E) (to_node_prefix sp) = Ok (to_swbusd_service_path sp).
Proof.
  intros []. unfold from_string, to_node_prefix.
  rewrite split_no_char by auto with rust_str.
  change (nth 0 (resize 5 "" ?l) "") with (nth 0 l ""). cbn [nth].
  by rewrite splitn_node.
Qed.

Lemma from_cluster_prefix {E} sp :
  wf_spec sp → from_string (E:=E) (to_cluster_prefix sp) = Ok (cluster_part sp).
Proof.
  intros []. unfold from_string, to_cluster_prefix.
  rewrite split_no_char by auto with rust_str.
  change (nth 0 (resize 5 "" ?l) "") with (nth 0 l ""). cbn [nth].
  by rewrite splitn_cluster.
Qed.

Lemma from_regional_prefix {E} sp :
  wf_spec sp → from_string (E:=E) (to_regional_prefix sp) = Ok (region_part sp).
Proof.
  intros []. unfold from_string, to_regional_prefix.
  rewrite split_no_char by auto with rust_str.
  change (nth 0 (resize 5 "" ?l) "") with (nth 0 l ""). cbn [nth].
  by rewrite splitn_region.
Qed.

(** Prefixes are injective on the fields they print. *)
Lemma service_prefix_inj sp1 sp2 :
  wf_spec sp1 → wf_spec sp2 → to_service_prefix sp1 = to_service_prefix sp2 →
  service_part sp1 = service_part sp2.
Proof.
  intros H1 H2 Heq. pose proof (from_service_prefix (E:=unit) sp1 H1) as E1.
  rewrite Heq, (from_service_prefix sp2 H2) in E1. congruence.
Qed.

Lemma node_prefix_inj sp1 sp2 :
  wf_spec sp1 → wf_spec sp2 → to_node_prefix sp1 = to_node_prefix sp2 →
  to_swbusd_service_path sp1 = to_swbusd_service_path sp2.
Proof.
  intros H1 H2 Heq. pose proof (from_node_prefix (E:=unit) sp1 H1) as E1.
  rewrite Heq, (from_node_prefix sp2 H2) in E1. congruence.
Qed.

(** Keys of different stages never collide. *)
Lemma service_prefix_slash sp : has_char SLASH (to_service_prefix sp) = true.
Proof. unfold to_service_prefix. rewrite !has_char_app. cbn. by rewrite !orb_true_r. Qed.

Lemma node_prefix_no_slash sp : wf_spec sp → has_char SLASH (to_node_prefix sp) = false.
Proof. intros []. by apply no_slash_loc3. Qed.

Lemma cluster_prefix_no_slash sp : wf_spec sp → has_char SLASH (to_cluster_prefix sp) = false.
Proof. intros []. by apply no_slash_loc2. Qed.

Lemma node_cluster_prefix_ne sp1 sp2 :
  wf_spec sp1 → wf_spec sp2 → to_node_prefix sp1 ≠ to_cluster_prefix sp2.
Proof.
  intros H1 H2 Heq. unfold to_node_prefix, to_cluster_prefix in Heq.
  apply (first_sep_inj DOT) in Heq as [_ Heq]; [|apply H1|apply H2].
  pose proof (wf_cd _ H2) as Hc. rewrite <- Heq in Hc.
  rewrite !has_char_app in Hc. cbn in Hc. by rewrite orb_true_r in Hc.
Qed.

Lemma dotted_regional_ne sp2 x y : wf_spec sp2 → x +:+ "." +:+ y ≠ to_regional_prefix sp2.
Proof.
  intros H2 Heq. pose proof (wf_rd _ H2) as Hc. unfold to_regional_prefix in Heq.
  rewrite <- Heq, !has_char_app in Hc. cbn in Hc. by rewrite orb_true_r in Hc.
Qed.

(** ** [join] *)

Lemma join_fields_nth skipping self other i :
  length self = length other →
  nth i (join_fields skipping self other) "" =
    if skipping && forallb is_empty (take (S i) other) then nth i self ""
    else nth i other "".
Proof.
  revert skipping self i. induction other as [|b other IH]; intros skipping self i Hlen;
    destruct self as [|a self]; try done.
  { destruct skipping; by destruct i. }
  simpl in Hlen. cbn [join_fields]. destruct skipping; cbn [andb].
  - destruct (is_empty b) eqn:Hb; destruct i as [|i]; cbn [nth take forallb];
      rewrite ?Hb; cbn [andb]; try done.
    + rewrite IH by lia. done.
    + rewrite IH by lia. done.
  - destruct i as [|i]; cbn [nth]; [done|]. rewrite IH by lia. done.
Qed.

(** * Properties *)

(** C34: a well-formed service path survives printing and parsing: [Display]
    round-trips exactly, and [to_longest_path] round-trips up to the fields it
    drops (everything after the first empty field of a group), a
    normalisation that is idempotent. *)
Theorem path_print_parse_roundtrip (E : Type) (sp : ServicePath) :
  wf_path sp = true →
  from_string (E:=E) (to_string sp) = Ok sp ∧
  from_string (E:=E) (to_longest_path sp) = Ok (canon sp) ∧
  canon (canon sp) = canon sp.
Proof.
  intros Hwf%wf_path_spec.
  split; [by apply from_to_string|]. split; [by apply from_string_longest|apply canon_idemp].
Qed.

Definition example_path : ServicePath :=
  mkPath "region-a" "cluster-a" "10.0.0.1-dpu0" "hamgrd" "0" "ha-set" "".

Lemma path_print_parse_roundtrip_witness :
  wf_path example_path = true ∧
  from_string (E:=unit) (to_string example_path) = Ok example_path.
Proof.
  split; [reflexivity|].
  apply (path_print_parse_roundtrip unit example_path). reflexivity.
Defined.

(** The prefixes used as route keys identify the fields they print: two
    well-formed paths with the same service (node) prefix agree on those
    fields, and a key of one stage is never a key of another stage. *)
Theorem route_prefixes_injective_and_disjoint (sp1 sp2 : ServicePath) :
  wf_path sp1 = true → wf_path sp2 = true →
  (to_service_prefix sp1 = to_service_prefix sp2 → service_part sp1 = service_part sp2) ∧
  (to_node_prefix sp1 = to_node_prefix sp2 →
   to_swbusd_service_path sp1 = to_swbusd_service_path sp2) ∧
  to_service_prefix sp1 ≠ to_node_prefix sp2 ∧
  to_service_prefix sp1 ≠ to_cluster_prefix sp2 ∧
  to_service_prefix sp1 ≠ to_regional_prefix sp2 ∧
  to_node_prefix sp1 ≠ to_cluster_prefix sp2 ∧
  to_node_prefix sp1 ≠ to_regional_prefix sp2 ∧
  to_cluster_prefix sp1 ≠ to_regional_prefix sp2.
Proof.
  intros H1%wf_path_spec H2%wf_path_spec.
  pose proof (service_prefix_slash sp1) as Hs.
  split_and!.
  - by apply service_prefix_inj.
  - by apply node_prefix_inj.
  - intros Heq. by rewrite Heq, node_prefix_no_slash in Hs.
  - intros Heq. by rewrite Heq, cluster_prefix_no_slash in Hs.
  - by apply dotted_regional_ne.
  - by apply node_cluster_prefix_ne.
  - by apply dotted_regional_ne.
  - by apply dotted_regional_ne.
Qed.

Lemma route_prefixes_witness :
  wf_path example_path = true ∧
  to_node_prefix example_path ≠ to_cluster_prefix example_path.
Proof.
  split; [reflexivity|].
  apply (route_prefixes_injective_and_disjoint example_path example_path); reflexivity.
Defined.

(** [join] keeps the fields of [self] up to the first non-empty field of
    [other] and takes the fields of [other] from there on. *)
Theorem join_path_spec (self other : ServicePath) (i : nat) :
  nth i (path_fields (join_path self other)) "" =
    if forallb is_empty (take (S i) (path_fields other))
    then nth i (path_fields self) "" else nth i (path_fields other) "".
Proof.
  pose proof (join_fields_nth true (path_fields self) (path_fields other) i eq_refl) as Hnth.
  cbn [andb] in Hnth. rewrite <- Hnth. clear Hnth. unfold join_path.
  destruct (join_fields true (path_fields self) (path_fields other)) as
    [|r [|c [|n [|st [|si [|rt [|ri [|? ?]]]]]]]] eqn:Hj; try done;
  apply (f_equal length) in Hj; revert Hj; unfold path_fields; cbn -[is_empty];
  repeat case_match; cbn; lia.
Qed.
