(* ===== verification/Proto.v ===== *)
(** The swbus protocol: error codes and [SwbusError] (with the contracts of
    its constructors), connection types, messages and the response builder.
    Models crates/swbus-proto/src/result.rs, swbus.rs, message_id_generator.rs
    and the enums and messages of proto/swbus.proto. *)
From S2P Require Import Prelude RustStr Path.

Open Scope stdpp_scope.

(** * Metadata of a stream *)

(** tonic: a header value from a string, if the string can be one. *)
Class Metadata := { metadata_from_str : string → option string }.
Definition visible_ascii (s : string) : bool :=
  forallb (λ a, (32 <=? nat_of_ascii a) && (nat_of_ascii a <? 127))%nat (String.list_ascii_of_string s).
(** A string of visible ASCII characters can be one. *)
Class MetadataLaws `{!Metadata} : Prop := {
  metadata_visible s : visible_ascii s = true → metadata_from_str s = Some s;
}.

(** * Error codes *)

Inductive SwbusErrorCode : Set :=
| UnknownError | CodeOk
| ConnectionErrorMin | ConnectionError | Timeout | ConnectionErrorMax
| InputErrorMin | InvalidArgs | InvalidDestination | InvalidSource
| InvalidHeader | InvalidPayload | InputErrorMax
| RouteErrorMin | NoRoute | QueueFull | Unreachable | ServiceNotFound
| ResourceNotFound | RouteErrorMax
| InternalErrorMin | CodeFail | InternalErrorMax.

#[export] Instance error_code_eq_dec : EqDecision SwbusErrorCode.
Proof. solve_decision. Defined.

(** [code as i32] *)
Definition error_code_i32 (c : SwbusErrorCode) : Z :=
  match c with
  | UnknownError => 0 | CodeOk => 1
  | ConnectionErrorMin => 100 | ConnectionError => 101 | Timeout => 102 | ConnectionErrorMax => 199
  | InputErrorMin => 200 | InvalidArgs => 201 | InvalidDestination => 202 | InvalidSource => 203
  | InvalidHeader => 210 | InvalidPayload => 211 | InputErrorMax => 299
  | RouteErrorMin => 300 | NoRoute => 301 | QueueFull => 302 | Unreachable => 303
  | ServiceNotFound => 370 | ResourceNotFound => 380 | RouteErrorMax => 399
  | InternalErrorMin => 900 | CodeFail => 901 | InternalErrorMax => 999
  end.

Definition all_error_codes : list SwbusErrorCode :=
  [UnknownError; CodeOk; ConnectionErrorMin; ConnectionError; Timeout; ConnectionErrorMax;
   InputErrorMin; InvalidArgs; InvalidDestination; InvalidSource; InvalidHeader; InvalidPayload;
   InputErrorMax; RouteErrorMin; NoRoute; QueueFull; Unreachable; ServiceNotFound;
   ResourceNotFound; RouteErrorMax; InternalErrorMin; CodeFail; InternalErrorMax].

(** [SwbusErrorCode::try_from(i32)] *)
Definition error_code_of_i32 (z : Z) : option SwbusErrorCode :=
  List.find (λ c, (error_code_i32 c =? z)%Z) all_error_codes.

(** The derived order of the enum, [a < b]. *)
Definition code_lt (a b : SwbusErrorCode) : bool := (error_code_i32 a <? error_code_i32 b)%Z.

(** * SwbusError *)

Inductive SwbusError : Set :=
| ConnectionErr (code : SwbusErrorCode) (detail : string)
| InputErr (code : SwbusErrorCode) (detail : string)
| RouteErr (code : SwbusErrorCode) (detail : string)
| InternalErr (code : SwbusErrorCode) (detail : string).

#[export] Instance swbus_error_eq_dec : EqDecision SwbusError.
Proof. solve_decision. Defined.

(** The constructors carry [#[requires(..)]] contracts, checked by an
    assertion that panics: each returns the error value or panics. *)
Definition requires {S E A} (cond : bool) (m : M S E A) : M S E A :=
  if cond then m else panic "pre-condition violated".

Definition connection {S E} (code : SwbusErrorCode) (detail : string) : M S E SwbusError :=
  requires (code_lt ConnectionErrorMin code && code_lt code ConnectionErrorMax)
    (ret (ConnectionErr code detail)).
Definition input {S E} (code : SwbusErrorCode) (detail : string) : M S E SwbusError :=
  requires (code_lt InputErrorMin code && code_lt code InputErrorMax)
    (ret (InputErr code detail)).
Definition route {S E} (code : SwbusErrorCode) (detail : string) : M S E SwbusError :=
  requires (code_lt RouteErrorMin code && code_lt code RouteErrorMax)
    (ret (RouteErr code detail)).
Definition internal {S E} (code : SwbusErrorCode) (detail : string) : M S E SwbusError :=
  requires (code_lt InternalErrorMin code && code_lt code InternalErrorMax)
    (ret (InternalErr code detail)).

Definition throw_input {S A} (code : SwbusErrorCode) (detail : string) : M S SwbusError A :=
  let* e := input code detail in throw e.
Definition throw_route {S A} (code : SwbusErrorCode) (detail : string) : M S SwbusError A :=
  let* e := route code detail in throw e.
Definition throw_connection {S A} (code : SwbusErrorCode) (detail : string) : M S SwbusError A :=
  let* e := connection code detail in throw e.

(** * Connection types and management requests *)

Inductive ConnectionType : Set := ConnClient | ConnLocal | ConnCluster | ConnRegion | ConnGlobal.

#[export] Instance connection_type_eq_dec : EqDecision ConnectionType.
Proof. solve_decision. Defined.

Definition connection_type_i32 (c : ConnectionType) : Z :=
  match c with
  | ConnClient => 0 | ConnLocal => 1 | ConnCluster => 2 | ConnRegion => 3 | ConnGlobal => 4
  end.

Inductive ManagementRequestType : Set := SwbusdGetRoutes | HamgrdGetActorState.

#[export] Instance mgmt_type_eq_dec : EqDecision ManagementRequestType.
Proof. solve_decision. Defined.

(** [ManagementRequestType::try_from(i32)] *)
Definition mgmt_type_of_i32 (z : Z) : option ManagementRequestType :=
  if (z =? 0)%Z then Some SwbusdGetRoutes
  else if (z =? 1)%Z then Some HamgrdGetActorState else None.

Record ManagementRequest : Set := mkMgmt {
  mgmt_request : Z;
  mgmt_arguments : list (string * string);
}.

#[export] Instance mgmt_request_eq_dec : EqDecision ManagementRequest.
Proof. solve_decision. Defined.

(** * Messages *)

Record RouteQueryResultEntry : Set := mkRouteEntry {
  entry_service_path : option ServicePath;
  entry_nh_id : string;
  entry_nh_service_path : option ServicePath;
  entry_nh_scope : Z;
  entry_hop_count : Z;
}.

Inductive ResponseBody : Set :=
| RouteQueryResult (entries : list RouteQueryResultEntry)
| ManagementQueryResult (value : string).

Record RequestResponse : Set := mkResponse {
  request_id : Z;
  error_code : Z;
  error_message : string;
  response_body : option ResponseBody;
}.

Inductive Body : Set :=
| Response (r : RequestResponse)
| RegistrationQueryRequest
| RegistrationQueryResponse
| PingRequest
| TraceRouteRequest
| BodyManagementRequest (m : ManagementRequest)
| DataRequest (payload : list Z).

Record SwbusMessageHeader : Set := mkHeader {
  version : Z;
  id : Z;
  flag : Z;
  ttl : Z;
  source : option ServicePath;
  destination : option ServicePath;
}.

Record SwbusMessage : Set := mkMessage {
  header : option SwbusMessageHeader;
  body : option Body;
}.

#[export] Instance route_entry_eq_dec : EqDecision RouteQueryResultEntry.
Proof. solve_decision. Defined.
#[export] Instance response_body_eq_dec : EqDecision ResponseBody.
Proof. solve_decision. Defined.
#[export] Instance response_eq_dec : EqDecision RequestResponse.
Proof. solve_decision. Defined.
#[export] Instance body_eq_dec : EqDecision Body.
Proof. solve_decision. Defined.
#[export] Instance header_eq_dec : EqDecision SwbusMessageHeader.
Proof. solve_decision. Defined.
#[export] Instance message_eq_dec : EqDecision SwbusMessage.
Proof. solve_decision. Defined.

(** [SwbusMessageHeader::new] *)
Definition header_new (src dst : ServicePath) (mid : Z) : SwbusMessageHeader :=
  mkHeader 1 mid 0 64 (Some src) (Some dst).

(** [RequestResponse::ok] and [RequestResponse::infra_error] *)
Definition response_ok (rid : Z) : RequestResponse :=
  mkResponse rid (error_code_i32 CodeOk) "" None.
Definition infra_error (rid : Z) (code : SwbusErrorCode) (msg : string) : RequestResponse :=
  mkResponse rid (error_code_i32 code) msg None.

(** [SwbusMessage::new] *)
Definition message_new (h : SwbusMessageHeader) (b : Body) : SwbusMessage :=
  mkMessage (Some h) (Some b).

(** [SwbusMessage::new_response]: answer the sender of [request]; without an
    explicit [src] the response comes from the request's destination. *)
Definition new_response {S E} (request : SwbusMessage) (src : option ServicePath)
    (code : SwbusErrorCode) (msg : string) (rid : Z) (rbody : option ResponseBody)
    : M S E SwbusMessage :=
  let* h := unwrap "request without a header" (header request) in
  let rr := match code with
            | CodeOk => response_ok (id h)
            | _ => infra_error (id h) code msg
            end in
  let rr := match rbody with
            | Some _ => mkResponse (request_id rr) (error_code rr) (error_message rr) rbody
            | None => rr
            end in
  let* src_sp := match src with
                 | Some sp => ret sp
                 | None => unwrap "missing dest service_path" (destination h)
                 end in
  let* dst_sp := unwrap "missing source service_path" (source h) in
  ret (mkMessage (Some (header_new src_sp dst_sp rid)) (Some (Response rr))).

(** * Message ids *)

(** [MessageIdGenerator]: the next id, starting at the start-up time in epoch
    nanoseconds truncated to 64 bits. *)
Record MessageIdGenerator : Set := mkIdGen { next_id : Z }.

Definition id_generator_new (startup_epoch_nanos : Z) : MessageIdGenerator :=
  mkIdGen (wrap_u64 startup_epoch_nanos).

(** [fetch_add(1)]: returns the current value, wraps at 2^64. *)
Definition id_generate (g : MessageIdGenerator) : Z * MessageIdGenerator :=
  (next_id g, mkIdGen (wrap_u64 (next_id g + 1))).

Fixpoint id_generate_n (n : nat) (g : MessageIdGenerator) : list Z :=
  match n with
  | 0 => []
  | S n' => let '(i, g') := id_generate g in i :: id_generate_n n' g'
  end.

(** * Lemmas *)

Lemma error_code_round_trip c : error_code_of_i32 (error_code_i32 c) = Some c.
Proof. by destruct c. Qed.

Lemma throw_input_run {S A} code detail (s : S) :
  code_lt InputErrorMin code && code_lt code InputErrorMax = true →
  throw_input (A:=A) code detail s = Done (Err (InputErr code detail), s).
Proof. unfold throw_input, input, requires. by intros ->. Qed.

Lemma throw_route_run {S A} code detail (s : S) :
  code_lt RouteErrorMin code && code_lt code RouteErrorMax = true →
  throw_route (A:=A) code detail s = Done (Err (RouteErr code detail), s).
Proof. unfold throw_route, route, requires. by intros ->. Qed.

(** The message [new_response] builds when the request has both paths. *)
Definition response_to (h : SwbusMessageHeader) (src_sp dst_sp : ServicePath)
    (code : SwbusErrorCode) (msg : string) (rid : Z) (rbody : option ResponseBody) : SwbusMessage :=
  mkMessage (Some (header_new src_sp dst_sp rid))
    (Some (Response (mkResponse (id h) (error_code_i32 code)
      (if decide (code = CodeOk) then "" else msg) rbody))).

Lemma new_response_run {S E} h b src code msg rid rbody d sp (s : S) :
  destination h = Some d → source h = Some sp →
  new_response (E:=E) (mkMessage (Some h) b) src code msg rid rbody s =
    Done (Ok (response_to h (default d src) sp code msg rid rbody), s).
Proof.
  intros Hd Hs. unfold new_response, response_to. cbn.
  destruct src; cbn; rewrite ?Hd; cbn; rewrite Hs; cbn;
    destruct code, rbody; reflexivity.
Qed.

Lemma id_generate_n_length n g : length (id_generate_n n g) = n.
Proof. revert g. induction n; intros g; simpl; auto. Qed.

Lemma id_generate_n_nth n g (i : nat) :
  (0 ≤ next_id g ≤ u64_max)%Z → i < n →
  id_generate_n n g !! i = Some (wrap_u64 (next_id g + Z.of_nat i)).
Proof.
  revert g i. induction n as [|n IH]; intros g i Hg Hi; [lia|].
  destruct i as [|i]; simpl.
  - by rewrite Z.add_0_r, wrap_u64_small.
  - rewrite IH; [|apply wrap_u64_bounds|lia]. cbn. f_equal.
    unfold wrap_u64. rewrite Zplus_mod_idemp_l. f_equal. lia.
Qed.

Lemma wrap_u64_inj a i j :
  (0 ≤ i < 2 ^ 64)%Z → (0 ≤ j < 2 ^ 64)%Z → wrap_u64 (a + i) = wrap_u64 (a + j) → i = j.
Proof.
  unfold wrap_u64. intros Hi Hj Heq.
  rewrite <- (Z.mod_small i (2 ^ 64)), <- (Z.mod_small j (2 ^ 64)) by lia.
  replace i with (a + i - a)%Z by lia. replace j with (a + j - a)%Z by lia.
  by rewrite <- Zminus_mod_idemp_l, Heq, Zminus_mod_idemp_l.
Qed.

(** * Properties *)

(** The ids of the first 2^64 messages of a generator are pairwise
    distinct 64-bit numbers, whatever the start-up time, and the i-th is
    start + i modulo 2^64. *)
Theorem message_ids_distinct (startup : Z) (n : nat) :
  (Z.of_nat n ≤ 2 ^ 64)%Z →
  NoDup (id_generate_n n (id_generator_new startup)) ∧
  ∀ i, i < n →
    id_generate_n n (id_generator_new startup) !! i = Some (wrap_u64 (startup + Z.of_nat i)).
Proof.
  intros Hn. set (g := id_generator_new startup).
  assert (0 ≤ next_id g ≤ u64_max)%Z as Hg by apply wrap_u64_bounds.
  split.
  - apply NoDup_alt. intros i j x Hi Hj.
    pose proof (lookup_lt_Some _ _ _ Hi) as Hil. pose proof (lookup_lt_Some _ _ _ Hj) as Hjl.
    rewrite id_generate_n_length in Hil, Hjl.
    rewrite id_generate_n_nth in Hi, Hj by done. rewrite <- Hi in Hj. injection Hj as Hj.
    apply Nat2Z.inj. symmetry. apply (wrap_u64_inj (next_id g)); [lia|lia|done].
  - intros i Hi. rewrite id_generate_n_nth by done. f_equal.
    unfold wrap_u64, g. cbn. unfold wrap_u64. by rewrite Zplus_mod_idemp_l.
Qed.

Lemma message_ids_distinct_witness :
  (Z.of_nat 3 ≤ 2 ^ 64)%Z ∧ NoDup (id_generate_n 3 (id_generator_new u64_max)).
Proof.
  split; [vm_compute; discriminate|].
  apply (message_ids_distinct u64_max 3). vm_compute. discriminate.
Defined.

(** A response is addressed to the sender of the request, carries the
    request's id, a fresh header (version 1, ttl 64), comes from [src] or else
    from the request's destination, and an [Ok] response has no message. *)
Theorem new_response_addressing (S E : Type) (s : S) h b src code msg rid rbody d sp :
  destination h = Some d → source h = Some sp →
  ∃ resp, new_response (E:=E) (mkMessage (Some h) b) src code msg rid rbody s = Done (Ok resp, s) ∧
    header resp = Some (mkHeader 1 rid 0 64 (Some (default d src)) (Some sp)) ∧
    body resp = Some (Response (mkResponse (id h) (error_code_i32 code)
      (if decide (code = CodeOk) then "" else msg) rbody)).
Proof. intros Hd Hs. eexists. split; [by apply new_response_run|done]. Qed.

Definition example_request : SwbusMessage :=
  mkMessage (Some (mkHeader 1 7 0 63 (Some example_path) (Some (to_swbusd_service_path example_path))))
    (Some PingRequest).

Lemma new_response_addressing_witness :
  ∃ resp, new_response (S:=unit) (E:=SwbusError) example_request None NoRoute "Route not found" 9 None tt
    = Done (Ok resp, tt) ∧ body resp = Some (Response (infra_error 7 NoRoute "Route not found")).
Proof.
  destruct (new_response_addressing unit SwbusError tt
    (mkHeader 1 7 0 63 (Some example_path) (Some (to_swbusd_service_path example_path)))
    (Some PingRequest) None NoRoute "Route not found" 9 None
    (to_swbusd_service_path example_path) example_path eq_refl eq_refl) as (resp & H1 & _ & H3).
  exists resp. split; [exact H1|]. rewrite H3. reflexivity.
Defined.
