(* ===== verification/Json.v ===== *)
(** The hand-written part of the JSON form of messages: service paths as strings,
    route entries sorted, and the normal form tests compare messages in. Models
    the serializers of crates/swbus-proto/src/swbus.rs with the attributes
    crates/swbus-proto/build.rs puts on the generated types. The derived
    implementations are taken to read back what they write. *)
From S2P Require Import Prelude RustStr Path Proto.

Open Scope stdpp_scope.

(** A JSON string, or null. *)
Definition serialize_service_path_opt (sp_option : option ServicePath) : option string :=
  match sp_option with Some sp => Some (to_longest_path sp) | None => None end.
Definition deserialize_service_path (json : option string) : result ServicePath string :=
  match json with
  | None => Err "invalid type: null, expected a string"
  | Some s => match from_string (E:=SwbusError) s with
              | Ok sp => Ok sp
              | Err _ => Err ("Failed to parse service path from string: " +:+ s)
              end
  end.
Definition deserialize_service_path_opt (json : option string) : result (option ServicePath) string :=
  match deserialize_service_path json with Ok sp => Ok (Some sp) | Err e => Err e end.

(** * The order of route entries *)

Fixpoint compare_fields (a b : list string) : comparison :=
  match a, b with
  | [], [] => Eq
  | [], _ :: _ => Lt
  | _ :: _, [] => Gt
  | x :: a', y :: b' => match String.compare x y with Eq => compare_fields a' b' | c => c end
  end.
(** The derived order of [ServicePath] and of an [Option] of it. *)
Definition compare_path (a b : ServicePath) : comparison := compare_fields (path_fields a) (path_fields b).
Definition compare_option (a b : option ServicePath) : comparison :=
  match a, b with
  | None, None => Eq
  | None, Some _ => Lt
  | Some _, None => Gt
  | Some x, Some y => compare_path x y
  end.
Definition compare_entry (a b : RouteQueryResultEntry) : comparison :=
  match compare_option (entry_service_path a) (entry_service_path b) with
  | Eq => (entry_hop_count a ?= entry_hop_count b)%Z
  | c => c
  end.
Definition entry_le (a b : RouteQueryResultEntry) : bool := match compare_entry a b with Gt => false | _ => true end.

(** [sorted_vec_serializer] on route entries: what each is written as, without
    its [nh_id]. *)
Record JsonEntry : Type := mkJsonEntry {
  je_service_path : option string;
  je_nh_service_path : option string;
  je_nh_scope : Z;
  je_hop_count : Z;
}.
Definition serialize_entry (e : RouteQueryResultEntry) : JsonEntry :=
  mkJsonEntry (serialize_service_path_opt (entry_service_path e)) (serialize_service_path_opt (entry_nh_service_path e))
    (entry_nh_scope e) (entry_hop_count e).
Definition sorted_vec_serializer (entries : list RouteQueryResultEntry) : list JsonEntry :=
  serialize_entry <$> sort_by entry_le entries.

(** * [normalize_msg] *)

Section Normalize.
Abbreviation N := (M unit string).

Definition deserialize_entry (j : JsonEntry) : N RouteQueryResultEntry :=
  let* sp := of_result (deserialize_service_path_opt (je_service_path j)) in
  let* nh := of_result (deserialize_service_path_opt (je_nh_service_path j)) in
  ret (mkRouteEntry sp "" nh (je_nh_scope j) (je_hop_count j)).
Definition normalize_header (h : SwbusMessageHeader) : N SwbusMessageHeader :=
  let* src := of_result (deserialize_service_path_opt (serialize_service_path_opt (source h))) in
  let* dst := of_result (deserialize_service_path_opt (serialize_service_path_opt (destination h))) in
  ret (mkHeader (version h) 0 (flag h) (ttl h) src dst).
Definition normalize_body (b : Body) : N Body :=
  match b with
  | Response r =>
      match response_body r with
      | Some (RouteQueryResult entries) =>
          let* entries := map_m deserialize_entry (sorted_vec_serializer entries) in
          ret (Response (mkResponse (request_id r) (error_code r) (error_message r) (Some (RouteQueryResult entries))))
      | _ => ret b
      end
  | _ => ret b
  end.
(** Writing a message and reading it back; both are unwrapped. *)
Definition normalize_msg (msg : SwbusMessage) : N SwbusMessage :=
  unwrap_result "from_str"
    (let* h := match header msg with
               | Some h => let* h := normalize_header h in ret (Some h)
               | None => ret None
               end in
     let* b := match body msg with
               | Some b => let* b := normalize_body b in ret (Some b)
               | None => ret None
               end in
     ret (mkMessage h b)).
End Normalize.

(** * Lemmas *)

Lemma compare_fields_antisym a b : compare_fields b a = CompOpp (compare_fields a b).
Proof.
  revert b. induction a as [|x a IH]; intros [|y b]; cbn [compare_fields]; [done..|].
  rewrite String.compare_antisym. destruct (String.compare x y); cbn; [apply IH|done..].
Qed.
Lemma entry_le_total a b : entry_le a b = true ∨ entry_le b a = true.
Proof.
  unfold entry_le, compare_entry, compare_option, compare_path.
  destruct (entry_service_path a) as [p|], (entry_service_path b) as [q|]; try (by left); try (by right).
  - rewrite (compare_fields_antisym (path_fields p) (path_fields q)).
    destruct (compare_fields _ _); cbn; [|by left|by right]. rewrite (Z.compare_antisym (entry_hop_count a)).
    destruct (entry_hop_count a ?= entry_hop_count b)%Z; cbn; [by left|by left|by right].
  - rewrite (Z.compare_antisym (entry_hop_count a)).
    destruct (entry_hop_count a ?= entry_hop_count b)%Z; cbn; [by left|by left|by right].
Qed.

(** What is written of a table of routes: every entry once, in order. *)
Lemma sorted_vec_serializer_spec entries :
  ∃ l, sorted_vec_serializer entries = serialize_entry <$> l ∧ Permutation l entries ∧ Sorted (λ x y, entry_le x y = true) l.
Proof.
  exists (sort_by entry_le entries). split; [done|]. split; [apply sort_by_perm|]. apply sort_by_sorted, entry_le_total.
Qed.

(** A present path is read back in its normal form; an absent one is not read
    back at all. *)
Lemma service_path_opt_roundtrip (sp : ServicePath) :
  wf_path sp = true →
  deserialize_service_path_opt (serialize_service_path_opt (Some sp)) = Ok (Some (canon sp)) ∧
  ∃ e, deserialize_service_path_opt (serialize_service_path_opt None) = Err e.
Proof.
  intros Hwf%wf_path_spec. split; [|by eexists]. unfold deserialize_service_path_opt, deserialize_service_path. cbn [serialize_service_path_opt].
  by rewrite from_string_longest.
Qed.

Definition path_present (o : option ServicePath) : Prop := ∃ sp, o = Some sp ∧ wf_path sp = true.
Lemma path_present_run o : path_present o → ∃ sp, o = Some sp ∧ ∀ s,
  of_result (deserialize_service_path_opt (serialize_service_path_opt o)) s = Done (Ok (Some (canon sp)), s : unit).
Proof. intros (sp & -> & Hwf). exists sp. split; [done|]. intros s. by rewrite (proj1 (service_path_opt_roundtrip sp Hwf)). Qed.

Definition normal_entry (e : RouteQueryResultEntry) : RouteQueryResultEntry :=
  mkRouteEntry (canon <$> entry_service_path e) "" (canon <$> entry_nh_service_path e) (entry_nh_scope e) (entry_hop_count e).

(** The normal form of a message. If its paths are present and well-formed,
    normalising it succeeds: the id is 0, the paths are in their longest form,
    and a table of routes has the same entries in the order of path and hop
    count, without their next-hop ids; nothing else changes. If a path is
    missing it panics. *)
Theorem normalize_msg_spec (msg : SwbusMessage) h b :
  header msg = Some h → body msg = Some b →
  match b with
  | Response r => match response_body r with
                  | Some (RouteQueryResult entries) => Forall (λ e, path_present (entry_service_path e) ∧ path_present (entry_nh_service_path e)) entries
                  | _ => True
                  end
  | _ => True
  end →
  (path_present (source h) → path_present (destination h) →
   ∃ b', normalize_msg msg tt =
     Done (Ok (mkMessage (Some (mkHeader (version h) 0 (flag h) (ttl h) (canon <$> source h) (canon <$> destination h))) (Some b')), tt) ∧
     match b with
     | Response r => match response_body r with
                     | Some (RouteQueryResult entries) => ∃ l, Permutation l entries ∧ Sorted (λ x y, entry_le x y = true) l ∧
                         b' = Response (mkResponse (request_id r) (error_code r) (error_message r) (Some (RouteQueryResult (normal_entry <$> l))))
                     | _ => b' = b
                     end
     | _ => b' = b
     end) ∧
  (source h = None ∨ destination h = None → ∃ w, normalize_msg msg tt = Panicked w).
Proof.
  intros Hh Hb Hent. unfold normalize_msg. rewrite Hh, Hb. split.
  - intros Hs Hd. destruct (path_present_run _ Hs) as (src & Hsrc & Hrs), (path_present_run _ Hd) as (dst & Hdst & Hrd).
    assert (∃ b', normalize_body b tt = Done (Ok b', tt) ∧
      match b with
      | Response r => match response_body r with
                      | Some (RouteQueryResult entries) => ∃ l, Permutation l entries ∧ Sorted (λ x y, entry_le x y = true) l ∧
                          b' = Response (mkResponse (request_id r) (error_code r) (error_message r) (Some (RouteQueryResult (normal_entry <$> l))))
                      | _ => b' = b
                      end
      | _ => b' = b
      end) as (b' & Hrun & Hb').
    { destruct b as [r| | | | | |]; try (by eexists). destruct (response_body r) as [[entries|v]|] eqn:Hr; cbn [normalize_body]; rewrite ?Hr; [|by eexists..].
      destruct (sorted_vec_serializer_spec entries) as (l & Heq & Hp & Hsort). eexists. rewrite Heq.
      rewrite (bind_done _ _ _ (normal_entry <$> l) tt); [split; [reflexivity|by exists l]|].
      assert (Forall (λ e, path_present (entry_service_path e) ∧ path_present (entry_nh_service_path e)) l) as Hl
        by (eapply Forall_forall; intros e He; rewrite Hp in He; by eapply Forall_forall in Hent).
      clear -Hl. induction Hl as [|e l [He1 He2] Hl IH]; [done|]. cbn [fmap list_fmap map_m].
      destruct (path_present_run _ He1) as (p1 & Hp1 & Hr1), (path_present_run _ He2) as (p2 & Hp2 & Hr2).
      unfold deserialize_entry at 1. cbn [serialize_entry je_service_path je_nh_service_path je_nh_scope je_hop_count].
      rewrite bind_bind, (bind_done _ _ _ _ _ (Hr1 tt)), bind_bind, (bind_done _ _ _ _ _ (Hr2 tt)), bind_ret.
      rewrite (bind_done _ _ _ _ _ IH). unfold normal_entry. by rewrite Hp1, Hp2. }
    exists b'. split; [|done]. apply unwrap_result_ok. unfold normalize_header.
    rewrite !bind_bind, (bind_done _ _ _ _ _ (Hrs tt)), bind_bind, (bind_done _ _ _ _ _ (Hrd tt)), !bind_ret.
    rewrite bind_bind, (bind_done _ _ _ _ _ Hrun), bind_ret. by rewrite Hsrc, Hdst.
  - intros Hnone. unfold unwrap_result, bind, attempt, normalize_header, of_result, deserialize_service_path_opt, deserialize_service_path.
    destruct Hnone as [->| ->]; cbn; [by eexists|]. destruct (source h); cbn; by eexists.
Qed.
