(* ===== verification/Mux.v ===== *)
(** The swbusd multiplexer: connection descriptors, next hops and the route
    table with message forwarding. Models
    crates/swbus-core/src/mux/{conn_info,conn_proxy,nexthop,multiplexer}.rs. *)
From S2P Require Import Prelude RustStr Path Proto.

Open Scope stdpp_scope.

(** * Outgoing queues *)

(** [tokio::sync::mpsc::error::TrySendError] *)
Inductive TrySendError : Set := Full | Closed.

(** The bounded channel of a connection is tokio's: the model only knows that
    [try_send] either takes the message or reports why not. *)
Class Mpsc (Chan : Type) : Type := {
  try_send : Chan → SwbusMessage → result Chan TrySendError;
}.

(** What tokio documents of it: [queued] is what the receiver will get. *)
Class MpscLaws (Chan : Type) `{Mpsc Chan} : Type := {
  queued : Chan → list SwbusMessage;
  try_send_queued c m c' : try_send c m = Ok c' → queued c' = queued c ++ [m];
}.

(** A concrete bounded channel, to evaluate the model. *)
Record BoundedChan : Type := mkChan {
  chan_capacity : nat;
  chan_queue : list SwbusMessage;
  chan_closed : bool;
}.

#[export] Instance bounded_mpsc : Mpsc BoundedChan := {|
  try_send c m :=
    if chan_closed c then Err Closed
    else if decide (length (chan_queue c) < chan_capacity c)
    then Ok (mkChan (chan_capacity c) (chan_queue c ++ [m]) false)
    else Err Full
|}.

#[export] Program Instance bounded_mpsc_laws : MpscLaws BoundedChan := {|
  queued := chan_queue
|}.
Next Obligation.
  intros c m c' H. cbn in H. destruct (chan_closed c); [done|].
  case_decide; [|done]. by injection H as <-.
Qed.

(** * Connections *)

Record SocketAddr : Set := mkAddr { ip : string; port : Z }.

#[export] Instance socket_addr_eq_dec : EqDecision SocketAddr.
Proof. solve_decision. Defined.

Inductive SwbusConnMode : Set := ModeClient | ModeServer.

#[export] Instance conn_mode_eq_dec : EqDecision SwbusConnMode.
Proof. solve_decision. Defined.

Record SwbusConnInfo : Set := mkConnInfo {
  conn_id : string;
  mode : SwbusConnMode;
  remote_addr : SocketAddr;
  connection_type : ConnectionType;
  local_service_path : option ServicePath;
  remote_service_path : ServicePath;
}.

#[export] Instance conn_info_eq_dec : EqDecision SwbusConnInfo.
Proof. solve_decision. Defined.

Definition new_client (conn_type : ConnectionType) (addr : SocketAddr)
    (remote_sp local_sp : ServicePath) : SwbusConnInfo :=
  mkConnInfo ("swbs-to://" +:+ ip addr +:+ ":" +:+ pretty (port addr)) ModeClient addr conn_type
    (Some local_sp) remote_sp.

Definition new_server (conn_type : ConnectionType) (addr : SocketAddr)
    (remote_sp : ServicePath) : SwbusConnInfo :=
  mkConnInfo ("swbs-from://" +:+ ip addr +:+ ":" +:+ pretty (port addr)) ModeServer addr conn_type
    None remote_sp.

(** A proxy is a handle on the send queue of a connection. *)
Record SwbusConnProxy : Set := mkProxy { send_queue_tx : nat }.

(** * Next hops *)

Inductive NextHopType : Set := HopLocal | HopRemote.

#[export] Instance hop_type_eq_dec : EqDecision NextHopType.
Proof. solve_decision. Defined.

Record SwbusNextHop : Set := mkNextHop {
  nh_type : NextHopType;
  nh_conn_info : option SwbusConnInfo;
  conn_proxy : option SwbusConnProxy;
  hop_count : Z;
}.

Definition new_remote (ci : SwbusConnInfo) (proxy : SwbusConnProxy) (hops : Z) : SwbusNextHop :=
  mkNextHop HopRemote (Some ci) (Some proxy) hops.

Definition new_local : SwbusNextHop := mkNextHop HopLocal None None 0.

(** [RouteConfig] of crates/swbus-config. *)
Record RouteConfig : Set := mkRouteConfig { route_key_path : ServicePath; scope : RouteScope }.

#[export] Instance route_config_eq_dec : EqDecision RouteConfig.
Proof. solve_decision. Defined.

(** * The multiplexer *)

Section Mux.
Context {Chan : Type} `{Mpsc Chan}.

(** The state of the multiplexer and the send queues its proxies point to.
    [my_routes] is a set; the list is its iteration order. *)
Record MuxState : Type := mkMux {
  routes : gmap string SwbusNextHop;
  id_generator : MessageIdGenerator;
  my_routes : list RouteConfig;
  send_queues : gmap nat Chan;
}.

Definition with_routes (f : gmap string SwbusNextHop → gmap string SwbusNextHop)
    (m : MuxState) : MuxState :=
  mkMux (f (routes m)) (id_generator m) (my_routes m) (send_queues m).

Definition with_queue (q : nat) (c : Chan) (m : MuxState) : MuxState :=
  mkMux (routes m) (id_generator m) (my_routes m) (<[q := c]> (send_queues m)).

Definition mux_new (startup : Z) : MuxState :=
  mkMux ∅ (id_generator_new startup) [] ∅.

Definition generate_message_id {E} : M MuxState E Z :=
  λ m, let '(i, g) := id_generate (id_generator m) in
       Done (Ok i, mkMux (routes m) g (my_routes m) (send_queues m)).

(** The key a connection is registered under. *)
Definition route_key (ci : SwbusConnInfo) : string :=
  let path := remote_service_path ci in
  match connection_type ci with
  | ConnGlobal => to_regional_prefix path
  | ConnRegion => to_cluster_prefix path
  | ConnCluster => to_node_prefix path
  | ConnLocal => to_service_prefix path
  | ConnClient => to_string path
  end.

Definition update_route (key : string) (nexthop : SwbusNextHop) (m : MuxState) : MuxState :=
  match routes m !! key with
  | Some route_entry =>
      if (hop_count nexthop <? hop_count route_entry)%Z
      then with_routes <[key := nexthop]> m
      else m
  | None => with_routes <[key := nexthop]> m
  end.

Definition register (ci : SwbusConnInfo) (proxy : SwbusConnProxy) (m : MuxState) : MuxState :=
  update_route (route_key ci) (new_remote ci proxy 1) m.

Definition unregister (ci : SwbusConnInfo) (m : MuxState) : MuxState :=
  with_routes (delete (route_key ci)) m.

Definition insert_my_route (r : RouteConfig) (m : MuxState) : MuxState :=
  if decide (r ∈ my_routes m) then m
  else mkMux (routes m) (id_generator m) (my_routes m ++ [r]) (send_queues m).

Fixpoint set_my_routes (rs : list RouteConfig) (m : MuxState) : MuxState :=
  match rs with
  | [] => m
  | r :: rs' =>
      let m := if decide (scope r = ScopeCluster)
               then update_route (to_node_prefix (route_key_path r)) new_local m else m in
      set_my_routes rs' (insert_my_route r m)
  end.

Definition get_my_service_path {E} : M MuxState E ServicePath :=
  let* m := get_state in
  let* r := unwrap "My route is not set" (head (my_routes m)) in
  ret (route_key_path r).

(** [SwbusConnProxy::try_queue] *)
Definition try_queue (proxy : SwbusConnProxy) (message : SwbusMessage) : M MuxState SwbusError unit :=
  let* m := get_state in
  let* c := unwrap "dangling send queue" (send_queues m !! send_queue_tx proxy) in
  match try_send c message with
  | Ok c' => put_state (with_queue (send_queue_tx proxy) c' m)
  | Err Full => throw_route QueueFull "no available capacity"
  | Err Closed => throw_route NoRoute "channel closed"
  end.

(** ** Exporting the route table *)

Definition export_filter (sc : option RouteScope) (entry : string * SwbusNextHop)
    : M MuxState SwbusError bool :=
  match nh_type entry.2 with
  | HopLocal => ret false
  | HopRemote =>
      let* sp := unwrap_result "from_string" (E:=SwbusError) (of_result (from_string entry.1)) in
      ret (match sc with
           | Some s => scope_ge (route_scope sp) s && scope_ge (route_scope sp) ScopeCluster
           | None => true
           end)
  end.

Definition export_entry (entry : string * SwbusNextHop) : M MuxState SwbusError RouteQueryResultEntry :=
  let* sp := unwrap_result "Not expecting service_path in route table to be invalid" (E:=SwbusError)
               (of_result (from_string entry.1)) in
  let* ci := unwrap "remote next hop without conn_info" (nh_conn_info entry.2) in
  ret (mkRouteEntry (Some sp) (conn_id ci) (Some (remote_service_path ci))
         (connection_type_i32 (connection_type ci)) (hop_count entry.2)).

Fixpoint export_entries (sc : option RouteScope) (l : list (string * SwbusNextHop))
    : M MuxState SwbusError (list RouteQueryResultEntry) :=
  match l with
  | [] => ret []
  | e :: l' =>
      let* keep := export_filter sc e in
      if keep : bool then
        let* x := export_entry e in
        let* xs := export_entries sc l' in ret (x :: xs)
      else export_entries sc l'
  end.

Definition export_routes (sc : option RouteScope) : M MuxState SwbusError (list RouteQueryResultEntry) :=
  let* m := get_state in
  export_entries sc (map_to_list (routes m)).

(** ** Local processing *)

Definition process_ping_request (message : SwbusMessage) : M MuxState SwbusError SwbusMessage :=
  let* mid := generate_message_id in
  new_response message None CodeOk "" mid None.

Definition process_mgmt_request (message : SwbusMessage) (req : ManagementRequest)
    : M MuxState SwbusError SwbusMessage :=
  match mgmt_type_of_i32 (mgmt_request req) with
  | None => throw_input InvalidArgs "Invalid management request"
  | Some SwbusdGetRoutes =>
      let* rs := export_routes None in
      let* mid := generate_message_id in
      new_response message None CodeOk "" mid (Some (RouteQueryResult rs))
  | Some _ => throw_input InvalidArgs "Invalid management request"
  end.

Definition process_local_message (message : SwbusMessage)
    : M MuxState SwbusError (option SwbusMessage) :=
  let* h := unwrap "no header" (header message) in
  let* dest_sp := unwrap "no destination" (destination h) in
  if negb (is_empty (service_type dest_sp)) then
    let* mid := generate_message_id in
    let* response := new_response message None NoRoute "Route not found" mid None in
    ret (Some response)
  else
    match body message with
    | Some PingRequest =>
        let* response := unwrap_result "ping" (process_ping_request message) in
        ret (Some response)
    | Some (BodyManagementRequest req) =>
        let* response := unwrap_result "mgmt" (process_mgmt_request message req) in
        ret (Some response)
    | _ => ret None
    end.

(** ** Forwarding *)

(** [header.ttl -= 1] on a [u32] (release build: wraps). *)
Definition dec_ttl (h : SwbusMessageHeader) : SwbusMessageHeader :=
  mkHeader (version h) (id h) (flag h) (wrap_u32 (ttl h - 1)) (source h) (destination h).

Definition queue_message (nh : SwbusNextHop) (message : SwbusMessage)
    : M MuxState SwbusError (option SwbusMessage) :=
  match nh_type nh with
  | HopLocal => process_local_message message
  | HopRemote =>
      let* h := unwrap "missing header" (header message) in
      let message := mkMessage (Some (dec_ttl h)) (body message) in
      if decide (ttl (dec_ttl h) = 0%Z) then
        let* my_sp := get_my_service_path in
        let* mid := generate_message_id in
        let* response := new_response message (Some my_sp) Unreachable "TTL expired" mid None in
        ret (Some response)
      else
        let* proxy := unwrap "conn_proxy shouldn't be None in remote nexthop" (conn_proxy nh) in
        try_queue proxy message;;;
        ret None
  end.

Inductive RouteStage : Set := StageGlobal | StageRegion | StageCluster | StageLocal.

Definition ROUTE_STAGES : list RouteStage := [StageLocal; StageCluster; StageRegion; StageGlobal].

Definition stage_key (stage : RouteStage) (dest : ServicePath) : string :=
  match stage with
  | StageLocal => to_service_prefix dest
  | StageCluster => to_node_prefix dest
  | StageRegion => to_cluster_prefix dest
  | StageGlobal => to_regional_prefix dest
  end.

(** The first stage whose key is in the table. *)
Fixpoint find_route (rs : gmap string SwbusNextHop) (dest : ServicePath)
    (stages : list RouteStage) : option SwbusNextHop :=
  match stages with
  | [] => None
  | st :: stages' =>
      match rs !! stage_key st dest with
      | Some nh => Some nh
      | None => find_route rs dest stages'
      end
  end.

(** [route_message]. The recursion is the [Box::pin(self.route_message(..))] of
    the responses the routing itself produces; [fuel] bounds their nesting. *)
Fixpoint route_message (fuel : nat) (message : SwbusMessage) : M MuxState SwbusError unit :=
  match fuel with
  | 0 => out_of_fuel
  | S fuel' =>
      match header message with
      | None => throw_input InvalidHeader "missing message header"
      | Some h =>
          match destination h with
          | None => throw_input InvalidDestination "missing message destination"
          | Some dest =>
              let* m := get_state in
              match find_route (routes m) dest ROUTE_STAGES with
              | Some nexthop =>
                  let* response := unwrap_result "queue_message" (queue_message nexthop message) in
                  match response with
                  | Some response => unwrap_result "route_message" (route_message fuel' response)
                  | None => ret tt
                  end
              | None =>
                  let* my_sp := get_my_service_path in
                  let* mid := generate_message_id in
                  let* response := new_response message (Some my_sp) NoRoute "Route not found" mid None in
                  unwrap_result "route_message" (route_message fuel' response)
              end
          end
      end
  end.

End Mux.

Arguments MuxState Chan : clear implicits.
