(* ===== verification/MuxTheory.v ===== *)
(** Theorems about the multiplexer of Mux.v: the route table invariant over all
    interleavings of its operations, longest-prefix forwarding, TTL handling,
    termination (and the one case of non-termination) of [route_message], and
    the export of the table. *)
From S2P Require Import Prelude RustStr Path Proto Mux.

Open Scope stdpp_scope.

Section Theory.
Context {Chan : Type} `{Mpsc Chan}.
Implicit Types (m : MuxState Chan) (nh : SwbusNextHop).

(** * Frame: routing does not touch the table *)

Definition same_table m m' : Prop :=
  routes m' = routes m ∧ my_routes m' = my_routes m ∧
  dom (send_queues m') = dom (send_queues m).

#[local] Instance same_table_refl : Reflexive same_table.
Proof. done. Qed.
#[local] Instance same_table_trans : Transitive same_table.
Proof. intros a b c (?&?&?) (?&?&?). repeat split; congruence. Qed.

Lemma generate_frame {E} : preserves same_table (generate_message_id (E:=E)).
Proof. intros s r s' Hs. unfold generate_message_id in Hs. destruct id_generate. by inv_done. Qed.

Lemma throw_input_frame {A} c d : preserves same_table (throw_input (A:=A) c d).
Proof. unfold throw_input, input, requires. frame. Qed.

Lemma throw_route_frame {A} c d : preserves same_table (throw_route (A:=A) c d).
Proof. unfold throw_route, route, requires. frame. Qed.

Lemma new_response_frame {E} q src c t i b :
  preserves same_table (new_response (S:=MuxState Chan) (E:=E) q src c t i b).
Proof. unfold new_response. frame. Qed.

Lemma my_sp_frame {E} : preserves same_table (get_my_service_path (Chan:=Chan) (E:=E)).
Proof. unfold get_my_service_path. frame. Qed.

Hint Resolve generate_frame throw_input_frame throw_route_frame new_response_frame my_sp_frame : frame.

Lemma try_queue_frame p msg : preserves same_table (try_queue p msg).
Proof.
  intros m r m' Hm. unfold try_queue in Hm. rewrite bind_get in Hm.
  destruct (send_queues m !! send_queue_tx p) as [c|] eqn:Hc; [|discriminate Hm].
  simpl in Hm. unfold bind, ret in Hm. destruct (try_send c msg) as [c'|[]].
  - unfold put_state in Hm. inv_done. repeat split; [done..|]. cbn.
    apply dom_insert_lookup_L. eauto.
  - by eapply throw_route_frame.
  - by eapply throw_route_frame.
Qed.

Lemma export_entries_frame sc l : preserves same_table (export_entries (Chan:=Chan) sc l).
Proof.
  induction l as [|e l IH]; cbn [export_entries]; [frame|].
  unfold export_filter, export_entry. frame.
Qed.

Hint Resolve try_queue_frame export_entries_frame : frame.

Lemma process_mgmt_frame msg req : preserves same_table (process_mgmt_request (Chan:=Chan) msg req).
Proof. unfold process_mgmt_request, export_routes. frame. Qed.

Hint Resolve process_mgmt_frame : frame.

Lemma queue_message_frame nh msg : preserves same_table (queue_message nh msg).
Proof.
  unfold queue_message, process_local_message, process_ping_request. frame.
Qed.

Hint Resolve queue_message_frame : frame.

Lemma route_message_frame fuel msg : preserves same_table (route_message fuel msg).
Proof. revert msg. induction fuel as [|fuel IH]; intros msg; cbn [route_message]; frame. Qed.

(** * The route table invariant *)

(** What every entry of the table is: the local next hop, or the remote next
    hop of a connection registered under its own route key, with a handle to a
    send queue - which may be closed by now. *)
Definition wf_entry (qs : gmap nat Chan) (key : string) nh : Prop :=
  nh = new_local ∨
  ∃ ci p, nh = new_remote ci p 1 ∧ key = route_key ci ∧ is_Some (qs !! send_queue_tx p).

Definition wf_mux m : Prop :=
  ∀ key nh, routes m !! key = Some nh → wf_entry (send_queues m) key nh.

(** One operation on the multiplexer, from any task of the process. *)
Inductive MuxEvent : Type :=
| MuxOpened (q : nat) (c : Chan)
| MuxQueue (q : nat) (c : Chan)
| MuxRegistered (ci : SwbusConnInfo) (p : SwbusConnProxy)
| MuxUnregistered (ci : SwbusConnInfo)
| MuxMyRoutes (rs : list RouteConfig)
| MuxRouted (fuel : nat) (msg : SwbusMessage).

(** The receiving end of a queue can do anything to it: take messages, and close
    it when its task ends. The handles of the table stay. *)
Inductive mux_event : MuxEvent → MuxState Chan → MuxState Chan → Prop :=
| step_open q c m : send_queues m !! q = None → mux_event (MuxOpened q c) m (with_queue q c m)
| step_queue q c m : is_Some (send_queues m !! q) → mux_event (MuxQueue q c) m (with_queue q c m)
| step_register ci p m :
    is_Some (send_queues m !! send_queue_tx p) → mux_event (MuxRegistered ci p) m (register ci p m)
| step_unregister ci m : mux_event (MuxUnregistered ci) m (unregister ci m)
| step_set_my_routes rs m : mux_event (MuxMyRoutes rs) m (set_my_routes rs m)
| step_route fuel msg r m m' :
    route_message fuel msg m = Done (r, m') → mux_event (MuxRouted fuel msg) m m'.
Definition mux_step m m' : Prop := ∃ ev, mux_event ev m m'.

(** A run, with what happened in it. *)
Inductive mux_trace m0 : list MuxEvent → MuxState Chan → Prop :=
| trace_start : mux_trace m0 [] m0
| trace_step evs ev m m' : mux_trace m0 evs m → mux_event ev m m' → mux_trace m0 (evs ++ [ev]) m'.

Lemma wf_update_route key nh m :
  wf_entry (send_queues m) key nh → wf_mux m → wf_mux (update_route key nh m).
Proof.
  intros Hnh Hm. assert (wf_mux (with_routes <[key := nh]> m)) as Hins.
  { intros k nh'. cbn. rewrite lookup_insert. case_decide; [|apply Hm].
    subst. intros [= <-]. done. }
  unfold update_route. repeat case_match; done.
Qed.

Lemma wf_insert_my_route r m : wf_mux m → wf_mux (insert_my_route r m).
Proof. unfold insert_my_route. by case_decide. Qed.

Lemma wf_set_my_routes rs m : wf_mux m → wf_mux (set_my_routes rs m).
Proof.
  revert m. induction rs as [|r rs IH]; intros m Hm; [done|]. cbn [set_my_routes].
  apply IH, wf_insert_my_route. case_decide; [|done].
  apply wf_update_route; [by left|done].
Qed.

Lemma wf_unregister ci m : wf_mux m → wf_mux (unregister ci m).
Proof.
  intros Hm k nh. cbn. rewrite lookup_delete. case_decide; [done|apply Hm].
Qed.

Lemma wf_same_table m m' : same_table m m' → wf_mux m → wf_mux m'.
Proof.
  intros (Hr & _ & Hd) Hm k nh. rewrite Hr. intros [->|(ci & p & -> & -> & Hq)]%Hm; [by left|].
  right. exists ci, p. repeat split; [done..|].
  apply elem_of_dom. rewrite Hd. by apply elem_of_dom.
Qed.

Lemma wf_mux_step m m' : mux_step m m' → wf_mux m → wf_mux m'.
Proof.
  intros [ev Hstep] Hm.
  assert (∀ q c, wf_mux (with_queue q c m)) as Hqueue.
  { intros q c k nh Hk. destruct (Hm k nh Hk) as [->|(ci & p & -> & -> & Hp)]; [by left|].
    right. exists ci, p. repeat split; [done..|]. cbn.
    rewrite lookup_insert. by case_decide. }
  destruct Hstep as [q c m Hq|q c m Hq|ci p m Hp|ci m|rs m|fuel msg r m m' Hrun].
  - apply Hqueue.
  - apply Hqueue.
  - apply wf_update_route; [|done]. right. by exists ci, p.
  - by apply wf_unregister.
  - by apply wf_set_my_routes.
  - eapply wf_same_table; [|done]. by eapply route_message_frame.
Qed.

Lemma wf_mux_new startup : wf_mux (mux_new startup).
Proof. intros k nh Hk. cbn in Hk. by rewrite lookup_empty in Hk. Qed.

Lemma wf_reachable startup m : rtc mux_step (mux_new startup) m → wf_mux m.
Proof.
  intros Hrtc. cut (wf_mux (mux_new startup)); [|apply wf_mux_new].
  induction Hrtc; eauto using wf_mux_step.
Qed.

(** ** Where the entries come from *)

Lemma trace_reaches m0 evs m : mux_trace m0 evs m → rtc mux_step m0 m.
Proof. induction 1 as [|evs ev m m' _ IH Hstep]; [done|]. eapply rtc_r; [exact IH|by exists ev]. Qed.

(** An entry is there for a Cluster route of this swbusd, or for a connection that
    was registered under its key, since when nothing of that key was unregistered. *)
Definition entry_origin (evs : list MuxEvent) m (key : string) nh : Prop :=
  (nh = new_local ∧ ∃ r, r ∈ my_routes m ∧ scope r = ScopeCluster ∧ key = to_node_prefix (route_key_path r)) ∨
  ∃ ci p before after, nh = new_remote ci p 1 ∧ key = route_key ci ∧ evs = before ++ MuxRegistered ci p :: after ∧
    (∀ ci', MuxUnregistered ci' ∈ after → route_key ci' ≠ key).
Definition origins (evs : list MuxEvent) m : Prop := ∀ key nh, routes m !! key = Some nh → entry_origin evs m key nh.

Lemma origin_later evs ev m m' key nh :
  entry_origin evs m key nh → my_routes m ⊆ my_routes m' → (∀ ci, ev = MuxUnregistered ci → route_key ci ≠ key) →
  entry_origin (evs ++ [ev]) m' key nh.
Proof.
  intros [[-> (r & Hr & Hsc & ->)]|(ci & p & before & after & -> & -> & -> & Hafter)] Hmy Hev.
  - left. split; [done|]. exists r. split; [by apply Hmy|done].
  - right. exists ci, p, before, (after ++ [ev]). rewrite <- app_assoc. split_and!; [done..|].
    intros ci' [Hin|Hin%list_elem_of_singleton]%elem_of_app; [by apply Hafter|by apply Hev].
Qed.

Lemma update_route_cases key nh m k nh' :
  routes (update_route key nh m) !! k = Some nh' → (k = key ∧ nh' = nh) ∨ routes m !! k = Some nh'.
Proof.
  assert (routes (with_routes <[key := nh]> m) !! k = Some nh' → (k = key ∧ nh' = nh) ∨ routes m !! k = Some nh') as Hins.
  { cbn. rewrite lookup_insert. case_decide; [intros [= <-]; by left|by right]. }
  unfold update_route. repeat case_match; auto.
Qed.

Lemma set_my_routes_kept rs m : my_routes m ⊆ my_routes (set_my_routes rs m).
Proof.
  revert m. induction rs as [|r rs IH]; intros m x Hx; [done|]. cbn [set_my_routes]. apply IH.
  unfold insert_my_route. case_decide; [|cbn; apply elem_of_app; left].
  all: repeat case_decide; try done; unfold update_route; repeat case_match; done.
Qed.
Lemma set_my_routes_cases rs m k nh :
  routes (set_my_routes rs m) !! k = Some nh →
  routes m !! k = Some nh ∨
  (nh = new_local ∧ ∃ r, r ∈ my_routes (set_my_routes rs m) ∧ scope r = ScopeCluster ∧ k = to_node_prefix (route_key_path r)).
Proof.
  revert m. induction rs as [|r rs IH]; intros m Hk; [by left|]. cbn [set_my_routes] in *.
  set (m1 := if decide _ then _ else _) in *.
  destruct (IH _ Hk) as [Hk'|?]; [|by right].
  assert (routes (insert_my_route r m1) = routes m1) as Heq by (unfold insert_my_route; by case_decide). rewrite Heq in Hk'.
  unfold m1 in Hk'. case_decide as Hsc; [|by left].
  apply update_route_cases in Hk' as [[-> ->]|?]; [|by left]. right. split; [done|]. exists r. split; [|done].
  apply set_my_routes_kept. unfold insert_my_route. case_decide; [done|]. cbn. apply elem_of_app. right. by left.
Qed.

Lemma origins_event evs ev m m' : mux_event ev m m' → origins evs m → origins (evs ++ [ev]) m'.
Proof.
  intros Hstep Hm key nh Hk. destruct Hstep as [q c m Hq|q c m Hq|ci p m Hp|ci m|rs m|fuel msg r m m' Hrun].
  - by apply (origin_later evs _ m); [apply Hm| |].
  - by apply (origin_later evs _ m); [apply Hm| |].
  - apply update_route_cases in Hk as [[-> ->]|Hk].
    + right. exists ci, p, evs, []. split_and!; [done..|]. by intros ci' ?%not_elem_of_nil.
    + apply (origin_later evs _ m); [by apply Hm| |done]. unfold register, update_route. by repeat case_match.
  - cbn in Hk. apply lookup_delete_Some in Hk as [Hne Hk].
    apply (origin_later evs _ m); [by apply Hm|done|]. by intros ci' [= <-].
  - apply set_my_routes_cases in Hk as [Hk|Hloc]; [|by left].
    apply (origin_later evs _ m); [by apply Hm|apply set_my_routes_kept|done].
  - destruct (route_message_frame fuel msg m r m' Hrun) as (Hr & Hmy & _). rewrite Hr in Hk.
    apply (origin_later evs _ m); [by apply Hm|by rewrite Hmy|done].
Qed.
Lemma trace_origins startup evs m : mux_trace (mux_new startup) evs m → origins evs m.
Proof.
  intros Ht. remember (mux_new startup) as m0. induction Ht as [|evs ev m m' _ IH Hstep].
  - subst m0. intros key nh Hk. cbn in Hk. by rewrite lookup_empty in Hk.
  - by eapply origins_event; [|apply IH].
Qed.

(** * Exporting *)

(** The entry exported for a row of the table, if the filter keeps it. *)
Definition export_spec (sc : option RouteScope) (e : string * SwbusNextHop)
    : option RouteQueryResultEntry :=
  match from_string (E:=SwbusError) e.1, nh_type e.2, nh_conn_info e.2 with
  | Ok sp, HopRemote, Some ci =>
      if match sc with
         | Some s => scope_ge (route_scope sp) s && scope_ge (route_scope sp) ScopeCluster
         | None => true
         end
      then Some (mkRouteEntry (Some sp) (conn_id ci) (Some (remote_service_path ci))
                   (connection_type_i32 (connection_type ci)) (hop_count e.2))
      else None
  | _, _, _ => None
  end.

Lemma export_entries_run qs sc l m :
  (∀ e, e ∈ l → wf_entry qs e.1 e.2) →
  export_entries sc l m = Done (Ok (omap (export_spec sc) l), m).
Proof.
  induction l as [|[key nh] l IH]; intros Hl; [done|].
  specialize (IH (λ e He, Hl e (list_elem_of_further _ _ _ He))).
  destruct (Hl (key, nh) (list_elem_of_here _ _)) as [Hnh|(ci & p & Hnh & _ & _)];
    cbn [fst snd] in Hnh; subst nh; cbn [export_entries].
  - etrans; [by apply bind_done with (a:=false) (s':=m)|]. cbn. exact IH.
  - unfold export_spec. cbn -[from_string export_entries scope_ge].
    unfold bind, export_filter, export_entry, unwrap_result, attempt, of_result, from_string, ret.
    cbn -[export_entries scope_ge]. destruct sc as [s|]; cbn -[export_entries scope_ge];
      [destruct (_ && _)|]; rewrite IH; done.
Qed.

Lemma export_routes_run sc m :
  wf_mux m → export_routes sc m = Done (Ok (omap (export_spec sc) (map_to_list (routes m))), m).
Proof.
  intros Hm. unfold export_routes. rewrite bind_get.
  apply (export_entries_run (send_queues m)). intros [k nh] Hk. apply Hm. by apply elem_of_map_to_list.
Qed.

(** * Runs of the forwarding code *)

Definition bump m : MuxState Chan :=
  mkMux (routes m) (mkIdGen (wrap_u64 (next_id (id_generator m) + 1))) (my_routes m) (send_queues m).
Definition fresh m : Z := next_id (id_generator m).

Lemma bind_generate {E B} (k : Z → M (MuxState Chan) E B) m :
  bind generate_message_id k m = k (fresh m) (bump m).
Proof. reflexivity. Qed.

(** The service path of this swbusd, when one of its routes is set. *)
Definition my_path m : option ServicePath := route_key_path <$> head (my_routes m).

Lemma bind_my_sp {E B} (k : ServicePath → M (MuxState Chan) E B) m p :
  my_path m = Some p → bind get_my_service_path k m = k p m.
Proof.
  unfold my_path, get_my_service_path, bind, get_state, unwrap, ret.
  destruct (head (my_routes m)) as [r|]; cbn; [|done]. by intros [= <-].
Qed.

Definition dest_route m (d : ServicePath) : option SwbusNextHop :=
  find_route (routes m) d ROUTE_STAGES.

(** A request with both paths. *)
Definition addressed (msg : SwbusMessage) (h : SwbusMessageHeader) (s d : ServicePath) : Prop :=
  header msg = Some h ∧ destination h = Some d ∧ source h = Some s.

Lemma response_addressed h src_sp dst_sp c t rid b :
  addressed (response_to h src_sp dst_sp c t rid b) (header_new src_sp dst_sp rid) src_sp dst_sp.
Proof. done. Qed.

(** [route_message] with a next hop, after the checks on the header. *)
Lemma route_hit n msg h s d nh m :
  addressed msg h s d → dest_route m d = Some nh →
  route_message (S n) msg m =
    bind (unwrap_result "queue_message" (queue_message nh msg)) (λ response,
      match response with
      | Some response => unwrap_result "route_message" (route_message n response)
      | None => ret tt
      end) m.
Proof.
  intros (Hh & Hd & _) Hr. cbn [route_message]. rewrite Hh, Hd, bind_get.
  unfold dest_route in Hr. by rewrite Hr.
Qed.

(** [route_message] without one: answer NoRoute from this swbusd's path. *)
Lemma route_miss n msg h s d p m :
  addressed msg h s d → dest_route m d = None → my_path m = Some p →
  route_message (S n) msg m =
    unwrap_result "route_message" (route_message n
      (response_to h p s NoRoute "Route not found" (fresh m) None)) (bump m).
Proof.
  intros (Hh & Hd & Hs) Hr Hp. cbn [route_message]. rewrite Hh, Hd, bind_get.
  unfold dest_route in Hr. rewrite Hr.
  rewrite (bind_my_sp _ _ _ Hp), bind_generate.
  destruct msg as [hd bd]. cbn in Hh. subst hd.
  by rewrite (bind_done _ _ _ _ _ (new_response_run _ _ (Some p) _ _ _ _ _ _ _ Hd Hs)).
Qed.



Lemma unwrap_result_fuel {E E' A} w (c : M (MuxState Chan) E A) m :
  unwrap_result (E':=E') w c m = OutOfFuel ↔ c m = OutOfFuel.
Proof. unfold unwrap_result, bind, attempt. by destruct (c m) as [[[?|?] ?]| |]. Qed.

(** ** The local next hop *)

(** A message for a service of this node that has no route of its own is
    answered NoRoute on behalf of that service. *)
Lemma local_service_run msg h s d m :
  addressed msg h s d → service_type d ≠ "" →
  queue_message new_local msg m =
    Done (Ok (Some (response_to h d s NoRoute "Route not found" (fresh m) None)), bump m).
Proof.
  intros (Hh & Hd & Hs) Ht. unfold queue_message, process_local_message. cbn [nh_type new_local].
  rewrite Hh. cbn [unwrap]. rewrite bind_ret, Hd. cbn [unwrap]. rewrite bind_ret.
  apply is_empty_false in Ht. rewrite Ht. cbn [negb]. rewrite bind_generate.
  destruct msg as [hd bd]. cbn in Hh. subst hd.
  by rewrite (bind_done _ _ _ _ _ (new_response_run _ _ None _ _ _ _ _ _ _ Hd Hs)).
Qed.

(** A message for swbusd itself is dispatched on its body. *)
Lemma local_swbusd_run msg h s d m :
  addressed msg h s d → service_type d = "" →
  queue_message new_local msg m =
    match body msg with
    | Some PingRequest =>
        Done (Ok (Some (response_to h d s CodeOk "" (fresh m) None)), bump m)
    | Some (BodyManagementRequest req) =>
        bind (unwrap_result "mgmt" (process_mgmt_request msg req)) (λ r, ret (Some r)) m
    | _ => Done (Ok None, m)
    end.
Proof.
  intros (Hh & Hd & Hs) Ht. unfold queue_message, process_local_message. cbn [nh_type new_local].
  rewrite Hh. cbn [unwrap]. rewrite bind_ret, Hd. cbn [unwrap]. rewrite bind_ret, Ht. cbn [is_empty negb].
  destruct msg as [hd [[]|]]; cbn in Hh; subst hd; try reflexivity.
  cbn [body].
  erewrite bind_done; [reflexivity|]. apply unwrap_result_ok. unfold process_ping_request.
  rewrite bind_generate. by rewrite (new_response_run _ _ None _ _ _ _ _ _ _ Hd Hs).
Qed.

(** ** The remote next hop *)

Lemma remote_expired_run ci p hops msg h s d my m :
  addressed msg h s d → ttl (dec_ttl h) = 0%Z → my_path m = Some my →
  queue_message (new_remote ci p hops) msg m =
    Done (Ok (Some (response_to h my s Unreachable "TTL expired" (fresh m) None)), bump m).
Proof.
  intros (Hh & Hd & Hs) Ht Hp. unfold queue_message. cbn [nh_type new_remote].
  rewrite Hh. cbn [unwrap]. rewrite bind_ret, decide_True by done.
  rewrite (bind_my_sp _ _ _ Hp), bind_generate.
  rewrite (bind_done _ _ _ _ _ (new_response_run (dec_ttl h) _ (Some my) _ _ _ _ _ _ _ Hd Hs)).
  done.
Qed.

Definition forwarded (msg : SwbusMessage) (h : SwbusMessageHeader) : SwbusMessage :=
  mkMessage (Some (dec_ttl h)) (body msg).

Lemma remote_forward_run ci p hops msg h m c :
  header msg = Some h → ttl (dec_ttl h) ≠ 0%Z → send_queues m !! send_queue_tx p = Some c →
  queue_message (new_remote ci p hops) msg m =
    match try_send c (forwarded msg h) with
    | Ok c' => Done (Ok None, with_queue (send_queue_tx p) c' m)
    | Err Full => Done (Err (RouteErr QueueFull "no available capacity"), m)
    | Err Closed => Done (Err (RouteErr NoRoute "channel closed"), m)
    end.
Proof.
  intros Hh Ht Hc. unfold queue_message. cbn [nh_type new_remote conn_proxy].
  rewrite Hh. cbn [unwrap]. rewrite bind_ret, decide_False by done. rewrite bind_ret.
  unfold try_queue. rewrite bind_bind, bind_get, Hc. cbn [unwrap]. rewrite bind_bind, bind_ret.
  fold (forwarded msg h). by destruct (try_send c (forwarded msg h)) as [c'|[]].
Qed.

Lemma remote_fuel_free ci p hops msg m :
  queue_message (new_remote ci p hops) msg m ≠ OutOfFuel.
Proof.
  unfold queue_message. cbn [nh_type new_remote]. destruct (header msg) as [h|]; cbn [unwrap]; [|done].
  rewrite bind_ret. case_decide.
  - unfold bind, get_my_service_path, get_state, unwrap, generate_message_id, new_response, bind, ret, panic.
    cbn. destruct (head (my_routes m)); cbn; [|done]. by destruct (source h).
  - unfold try_queue, bind, get_state, unwrap, ret, panic. cbn.
    destruct (send_queues m !! send_queue_tx p); cbn; [|done]. by destruct (try_send _ _) as [|[]].
Qed.

(** * Termination of [route_message] *)

(** Who gets a message for [d]. *)
Definition local_service m (d : ServicePath) : Prop :=
  dest_route m d = Some new_local ∧ service_type d ≠ "".
Definition local_swbusd m (d : ServicePath) : Prop :=
  dest_route m d = Some new_local ∧ service_type d = "".

(** This swbusd is reachable at the path it answers from. *)
Definition home m (p : ServicePath) : Prop := my_path m = Some p ∧ local_swbusd m p.

Lemma dest_route_entry rs d stages nh :
  find_route rs d stages = Some nh → ∃ st, rs !! stage_key st d = Some nh.
Proof. induction stages as [|st stages IH]; [done|]. cbn. case_match; naive_solver. Qed.

Lemma dest_cases m d :
  wf_mux m →
  dest_route m d = None ∨ local_swbusd m d ∨ local_service m d ∨
  ∃ ci p, dest_route m d = Some (new_remote ci p 1).
Proof.
  intros Hm. destruct (dest_route m d) as [nh|] eqn:Hd; [|by left].
  pose proof Hd as Hd'. apply dest_route_entry in Hd' as [st Hst].
  destruct (Hm _ _ Hst) as [->|(ci & p & -> & _)]; [|naive_solver].
  destruct (decide (service_type d = "")); [right; left|right; right; left]; done.
Qed.

(** Every fresh response from [src] to [dst] is routed within [n] levels. *)
Definition settles n m (src dst : ServicePath) : Prop :=
  ∀ h c t rid b k, route_message (n + k) (response_to h src dst c t rid b) m ≠ OutOfFuel.

Lemma settles_mono n n' m src dst : n ≤ n' → settles n m src dst → settles n' m src dst.
Proof.
  intros Hn Hs h c t rid b k. replace (n' + k) with (n + ((n' - n) + k)) by lia. apply Hs.
Qed.

Lemma remote_no_response ci p hops msg h m r m' :
  header msg = Some h → ttl (dec_ttl h) ≠ 0%Z →
  queue_message (new_remote ci p hops) msg m = Done (Ok r, m') → r = None.
Proof.
  intros Hh Ht Hq. unfold queue_message in Hq. cbn [nh_type new_remote conn_proxy] in Hq.
  rewrite Hh in Hq. cbn [unwrap] in Hq. rewrite bind_ret, decide_False, bind_ret in Hq by done.
  unfold bind in Hq. destruct (try_queue _ _ _) as [[[[]|e] s1]| |]; try discriminate Hq.
  unfold ret in Hq. by inv_done.
Qed.

Lemma settles_remote m src dst ci p :
  dest_route m dst = Some (new_remote ci p 1) → settles 1 m src dst.
Proof.
  intros Hr h c t rid b k Hf. rewrite Nat.add_1_l in Hf.
  erewrite route_hit in Hf; [|apply response_addressed|exact Hr].
  apply bind_fuel in Hf as [Hf|(r & m' & Hq & Hf)].
  - apply unwrap_result_fuel in Hf. by apply remote_fuel_free in Hf.
  - unfold unwrap_result, attempt, bind in Hq.
    destruct (queue_message _ _ _) as [[[r'|e] s1]| |] eqn:Hq'; try discriminate Hq.
    unfold ret in Hq. inv_done.
    apply remote_no_response with (h := header_new src dst rid) in Hq' as ->; done.
Qed.

Lemma settles_local_swbusd m src dst : local_swbusd m dst → settles 1 m src dst.
Proof.
  intros [Hr Ht] h c t rid b k. rewrite Nat.add_1_l.
  erewrite route_hit; [|apply response_addressed|exact Hr].
  rewrite (bind_done _ _ _ None m); [done|]. apply unwrap_result_ok.
  etrans; [by eapply local_swbusd_run; [apply response_addressed|]|reflexivity].
Qed.

Lemma settles_local_service n m src dst :
  local_service m dst → settles n (bump m) dst src → settles (S n) m src dst.
Proof.
  intros [Hr Ht] Hs h c t rid b k Hf. cbn [Nat.add] in Hf.
  erewrite route_hit in Hf; [|apply response_addressed|exact Hr].
  erewrite bind_done in Hf;
    [|eapply unwrap_result_ok, local_service_run; [apply response_addressed|done]].
  cbn beta iota in Hf. apply unwrap_result_fuel in Hf. by eapply Hs.
Qed.

Lemma settles_miss n m src dst p :
  dest_route m dst = None → my_path m = Some p → settles n (bump m) p src →
  settles (S n) m src dst.
Proof.
  intros Hr Hp Hs h c t rid b k Hf. cbn [Nat.add] in Hf.
  erewrite route_miss in Hf; [|apply response_addressed|exact Hr|exact Hp].
  apply unwrap_result_fuel in Hf. by eapply Hs.
Qed.

Lemma settles_from_home m p dst : wf_mux m → home m p → settles 2 m p dst.
Proof.
  intros Hm [Hp Hl]. destruct (dest_cases m dst Hm) as [Hn|[Hd|[Hd|(ci & q & Hd)]]].
  - eapply settles_miss; [done..|]. by apply settles_local_swbusd.
  - eapply settles_mono; [|by apply settles_local_swbusd]. lia.
  - eapply settles_local_service; [done|]. by apply settles_local_swbusd.
  - eapply settles_mono; [|by eapply settles_remote]. lia.
Qed.

Lemma settles_any m p src dst :
  wf_mux m → home m p → ¬ (local_service m src ∧ local_service m dst) → settles 4 m src dst.
Proof.
  intros Hm Hh Hboth. destruct (dest_cases m dst Hm) as [Hn|[Hd|[Hd|(ci & q & Hd)]]].
  - eapply settles_miss; [done|apply Hh|]. eapply settles_mono; [|by apply (settles_from_home (bump m))]. lia.
  - eapply settles_mono; [|by apply settles_local_swbusd]. lia.
  - eapply settles_local_service; [done|].
    destruct (dest_cases m src Hm) as [Hs|[Hs|[Hs|(ci & q & Hs)]]].
    + eapply settles_miss; [done|apply Hh|]. by apply (settles_from_home (bump (bump m))).
    + eapply settles_mono; [|by apply settles_local_swbusd]. lia.
    + naive_solver.
    + eapply settles_mono; [|by eapply settles_remote]. lia.
  - eapply settles_mono; [|by eapply settles_remote]. lia.
Qed.

(** What the local next hop answers to a management request: nothing that the
    caller sees (a panic), or a response to the sender. *)
Lemma mgmt_run msg h s d m req r m' :
  wf_mux m → addressed msg h s d → process_mgmt_request msg req m = Done (Ok r, m') →
  m' = bump m ∧ ∃ b, r = response_to h d s CodeOk "" (fresh m) b.
Proof.
  intros Hm (Hh & Hd & Hs) Hr. unfold process_mgmt_request in Hr.
  destruct (mgmt_type_of_i32 _) as [[]|]; [|discriminate Hr..].
  rewrite (bind_done _ _ _ _ _ (export_routes_run None m Hm)), bind_generate in Hr.
  destruct msg as [hd bd]. cbn in Hh. subst hd.
  rewrite (new_response_run _ _ None _ _ _ _ _ _ _ Hd Hs) in Hr. inv_done. eauto.
Qed.

Lemma mgmt_fuel_free msg h s d m req :
  wf_mux m → addressed msg h s d → process_mgmt_request msg req m ≠ OutOfFuel.
Proof.
  intros Hm (Hh & Hd & Hs) Hr. unfold process_mgmt_request in Hr.
  destruct (mgmt_type_of_i32 _) as [[]|]; [|discriminate Hr..].
  rewrite (bind_done _ _ _ _ _ (export_routes_run None m Hm)), bind_generate in Hr.
  destruct msg as [hd bd]. cbn in Hh. subst hd.
  by rewrite (new_response_run _ _ None _ _ _ _ _ _ _ Hd Hs) in Hr.
Qed.

(** What a next hop hands back to the router: nothing, or a fresh response to
    the sender, from the destination or from this swbusd. *)
Lemma queue_message_response m p nh msg h s d r m' :
  wf_mux m → my_path m = Some p → addressed msg h s d → dest_route m d = Some nh →
  queue_message nh msg m = Done (Ok (Some r), m') →
  m' = bump m ∧ ∃ src c t b, r = response_to h src s c t (fresh m) b ∧
    ((src = d ∧ nh = new_local) ∨ src = p).
Proof.
  intros Hm Hp Ha Hd Hq.
  destruct (dest_cases m d Hm) as [Hn|[[Hl Ht]|[[Hl Ht]|(ci & q & Hr)]]]; [congruence|..].
  - assert (nh = new_local) as -> by congruence.
    rewrite (local_swbusd_run _ _ _ _ _ Ha Ht) in Hq.
    destruct (body msg) as [[]|]; inv_done; try by eauto 10.
    unfold unwrap_result, bind, attempt in Hq.
    destruct (process_mgmt_request _ _ _) as [[[r'|e] s1]| |] eqn:Hr; try discriminate Hq.
    unfold ret in Hq. inv_done.
    destruct (mgmt_run _ _ _ _ _ _ _ _ Hm Ha Hr) as [-> [b ->]]. eauto 10.
  - assert (nh = new_local) as -> by congruence.
    rewrite (local_service_run _ _ _ _ _ Ha Ht) in Hq. inv_done. eauto 10.
  - assert (nh = new_remote ci q 1) as -> by congruence.
    destruct (decide (ttl (dec_ttl h) = 0%Z)) as [Hz|Hz].
    + rewrite (remote_expired_run _ _ _ _ _ _ _ _ _ Ha Hz Hp) in Hq. inv_done. eauto 10.
    + destruct Ha as (Hh & _ & _).
      pose proof (remote_no_response _ _ _ _ _ _ _ _ Hh Hz Hq). done.
Qed.

Lemma queue_message_fuel_free m msg h s d nh :
  wf_mux m → addressed msg h s d → dest_route m d = Some nh → queue_message nh msg m ≠ OutOfFuel.
Proof.
  intros Hm Ha Hd Hf.
  destruct (dest_cases m d Hm) as [Hn|[[Hl Ht]|[[Hl Ht]|(ci & q & Hr)]]]; [congruence|..].
  - assert (nh = new_local) as -> by congruence.
    rewrite (local_swbusd_run _ _ _ _ _ Ha Ht) in Hf.
    destruct (body msg) as [[]|]; try discriminate Hf.
    apply bind_fuel in Hf as [Hf|(?&?&?&Hf)]; [|discriminate Hf].
    apply unwrap_result_fuel in Hf. by eapply mgmt_fuel_free.
  - assert (nh = new_local) as -> by congruence.
    by rewrite (local_service_run _ _ _ _ _ Ha Ht) in Hf.
  - assert (nh = new_remote ci q 1) as -> by congruence. by apply remote_fuel_free in Hf.
Qed.

Lemma route_message_terminates_at m p msg h s d k :
  wf_mux m → home m p → addressed msg h s d →
  ¬ (local_service m s ∧ local_service m d) → route_message (5 + k) msg m ≠ OutOfFuel.
Proof.
  intros Hm Hh Ha Hboth Hf. cbn [Nat.add] in Hf.
  destruct (dest_route m d) as [nh|] eqn:Hd.
  - erewrite route_hit in Hf by done.
    apply bind_fuel in Hf as [Hf|(r & m' & Hq & Hf)].
    { apply unwrap_result_fuel in Hf. by eapply queue_message_fuel_free. }
    unfold unwrap_result, attempt, bind in Hq.
    destruct (queue_message _ _ _) as [[[r'|e] s1]| |] eqn:Hq'; try discriminate Hq.
    unfold ret in Hq. inv_done. destruct r as [r|]; [|discriminate Hf].
    apply unwrap_result_fuel in Hf.
    destruct (queue_message_response _ _ _ _ _ _ _ _ _ Hm (proj1 Hh) Ha Hd Hq')
      as (-> & src & c & t & b & -> & [[-> ->]| ->]).
    + revert Hf. apply (settles_any (bump m) p d s); [done..|]. tauto.
    + revert Hf. change (S (S (S (S k)))) with (2 + (2 + k)).
      by apply (settles_from_home (bump m) p s).
  - erewrite route_miss in Hf; [|done|done|apply Hh]. apply unwrap_result_fuel in Hf.
    revert Hf. change (S (S (S (S k)))) with (2 + (2 + k)). by apply (settles_from_home (bump m) p s).
Qed.

(** When neither end is running, the two NoRoute answers chase each other. *)
Lemma route_message_diverges_at n m msg h s d :
  addressed msg h s d → local_service m s → local_service m d →
  route_message n msg m = OutOfFuel.
Proof.
  revert m msg h s d. induction n as [|n IH]; intros m msg h s d Ha Hs Hd; [done|].
  erewrite route_hit; [|done|apply Hd].
  erewrite bind_done; [|eapply unwrap_result_ok, local_service_run; [done|apply Hd]].
  cbn beta iota. apply unwrap_result_fuel.
  eapply (IH (bump m)); [apply response_addressed|done|done].
Qed.

(** * Longest-prefix lookup *)

Definition stage_rank (st : RouteStage) : nat :=
  match st with StageLocal => 0 | StageCluster => 1 | StageRegion => 2 | StageGlobal => 3 end.

Lemma dest_route_longest m d st nh :
  routes m !! stage_key st d = Some nh →
  (∀ st', stage_rank st' < stage_rank st → routes m !! stage_key st' d = None) →
  dest_route m d = Some nh.
Proof.
  intros Hst Hless. unfold dest_route, ROUTE_STAGES. cbn [find_route].
  destruct st;
    try rewrite (Hless StageLocal) by (cbn; lia);
    try rewrite (Hless StageCluster) by (cbn; lia);
    try rewrite (Hless StageRegion) by (cbn; lia);
    by rewrite Hst.
Qed.

Lemma dest_route_longest_inv m d nh :
  dest_route m d = Some nh →
  ∃ st, routes m !! stage_key st d = Some nh ∧
    ∀ st', stage_rank st' < stage_rank st → routes m !! stage_key st' d = None.
Proof.
  unfold dest_route, ROUTE_STAGES. cbn [find_route]. intros Hf.
  repeat case_match; simplify_eq;
    [exists StageLocal|exists StageCluster|exists StageRegion|exists StageGlobal];
    (split; [done|]); intros [] Hrank; cbn in Hrank; try lia; done.
Qed.

Lemma dec_ttl_pred h : (1 ≤ ttl h ≤ u32_max)%Z → ttl (dec_ttl h) = (ttl h - 1)%Z.
Proof. intros Ht. cbn. apply wrap_u32_small. lia. Qed.

Lemma update_route_vacant key nh m :
  routes m !! key = None → update_route key nh m = with_routes <[key := nh]> m.
Proof. intros Hk. unfold update_route. by rewrite Hk. Qed.

Lemma update_route_keep key old nh m :
  routes m !! key = Some old → (hop_count old ≤ hop_count nh)%Z → update_route key nh m = m.
Proof.
  intros Hk Hh. unfold update_route. rewrite Hk.
  by rewrite (proj2 (Z.ltb_ge _ _) Hh).
Qed.

(** The stage at which a connection of a type is looked up; none for Client. *)
Definition conn_stage (c : ConnectionType) : option RouteStage :=
  match c with
  | ConnGlobal => Some StageGlobal | ConnRegion => Some StageRegion
  | ConnCluster => Some StageCluster | ConnLocal => Some StageLocal | ConnClient => None
  end.

Lemma route_key_stage ci st :
  conn_stage (connection_type ci) = Some st → route_key ci = stage_key st (remote_service_path ci).
Proof. unfold route_key. destruct (connection_type ci); intros [= <-]; done. Qed.

Lemma to_string_split sp :
  wf_spec sp → ∃ loc, split SLASH (to_string sp) =
    [loc; service_type sp; service_id sp; resource_type sp; resource_id sp].
Proof.
  intros []. unfold to_string. destruct (is_empty (node_id sp)); cbn [negb].
  - destruct (is_empty (cluster_id sp)); cbn [negb].
    + eexists. rewrite split_loc_rsc by done. by rewrite split_rsc4.
    + rewrite regroup_loc2. eexists.
      rewrite split_loc_rsc by auto with rust_str. by rewrite split_rsc4.
  - rewrite regroup_loc3. eexists.
    rewrite split_loc_rsc by auto with rust_str. by rewrite split_rsc4.
Qed.

Lemma stage_key_split st d :
  wf_spec d → length (split SLASH (stage_key st d)) ≤ 3.
Proof.
  intros Hd. pose proof Hd as []. destruct st; cbn [stage_key].
  - unfold to_regional_prefix. rewrite split_no_char by done. cbn. lia.
  - rewrite split_no_char by by apply cluster_prefix_no_slash. cbn. lia.
  - rewrite split_no_char by by apply node_prefix_no_slash. cbn. lia.
  - unfold to_service_prefix. rewrite regroup_loc3.
    rewrite !split_loc_rsc, split_no_char by auto with rust_str. cbn. lia.
Qed.

Lemma to_string_not_stage_key sp st d :
  wf_spec sp → wf_spec d → to_string sp ≠ stage_key st d.
Proof.
  intros Hsp Hd Heq. destruct (to_string_split sp Hsp) as [loc Hs].
  pose proof (stage_key_split st d Hd) as Hl. rewrite <- Heq, Hs in Hl. cbn in Hl. lia.
Qed.

End Theory.

(** * Properties *)

Section Properties.
Context {Chan : Type} `{Mpsc Chan}.
Implicit Types (m : MuxState Chan).

(** C16: Where each entry of the route table comes from. In every state the
    multiplexer can reach from start-up, by any interleaving of connections
    opening, registering and unregistering, of their tasks emptying and closing
    their queues, of local routes being set and of messages being routed, an
    entry is either the local next hop, under the node prefix of a Cluster route
    of this swbusd; or a one-hop remote next hop with its connection info and a
    handle to a send queue, open or closed, under the key of that very
    connection, which was registered in this run with that queue, and since
    then no connection with that key was unregistered. *)
Theorem route_table_well_formed (startup : Z) evs m key nh :
  mux_trace (mux_new startup) evs m → routes m !! key = Some nh →
  (nh = new_local ∧ ∃ r, r ∈ my_routes m ∧ scope r = ScopeCluster ∧ key = to_node_prefix (route_key_path r)) ∨
  ∃ ci p before after, nh = new_remote ci p 1 ∧ key = route_key ci ∧ is_Some (send_queues m !! send_queue_tx p) ∧
    evs = before ++ MuxRegistered ci p :: after ∧ ∀ ci', MuxUnregistered ci' ∈ after → route_key ci' ≠ key.
Proof.
  intros Ht Hk. destruct (trace_origins startup evs m Ht key nh Hk) as [?|(ci & p & before & after & -> & -> & Hevs & Hafter)]; [by left|].
  right. exists ci, p, before, after. split; [done|]. split; [done|]. split; [|done].
  destruct (wf_reachable startup m (trace_reaches _ _ _ Ht) _ _ Hk) as [Heq|(ci' & p' & [= <- <-] & _ & Hq)]; [discriminate Heq|exact Hq].
Qed.

(** [export_routes] on a reachable table never panics, leaves the
    multiplexer unchanged, and returns exactly one entry per remote route in
    scope: with no scope all of them, with a scope those whose key parses to
    a path of that scope or wider (and never narrower than Cluster). *)
Theorem export_routes_exact (startup : Z) m sc :
  rtc mux_step (mux_new startup) m →
  ∃ es, export_routes sc m = Done (Ok es, m) ∧
    ∀ e, e ∈ es ↔
      ∃ ci p sp, routes m !! route_key ci = Some (new_remote ci p 1) ∧
        from_string (E:=SwbusError) (route_key ci) = Ok sp ∧
        match sc with
        | Some s => (scope_code s ≤ scope_code (route_scope sp))%Z ∧ (2 ≤ scope_code (route_scope sp))%Z
        | None => True
        end ∧
        e = mkRouteEntry (Some sp) (conn_id ci) (Some (remote_service_path ci))
              (connection_type_i32 (connection_type ci)) 1.
Proof.
  intros Hr. pose proof (wf_reachable startup m Hr) as Hm.
  eexists. split; [by apply export_routes_run|]. intros e. rewrite list_elem_of_omap. split.
  - intros ([key nh] & Hin%elem_of_map_to_list & Hx).
    destruct (Hm _ _ Hin) as [->|(ci & p & -> & -> & _)]; [discriminate Hx|].
    unfold export_spec in Hx. cbn -[from_string scope_ge] in Hx.
    destruct (from_string (route_key ci)) as [sp|] eqn:Hsp; [|done].
    exists ci, p, sp. destruct sc as [s|]; cbn -[scope_ge] in Hx.
    + destruct (scope_ge (route_scope sp) s && _) eqn:Hsc; [|done].
      apply andb_true_iff in Hsc as [H1%Z.leb_le H2%Z.leb_le]. by simplify_eq.
    + by simplify_eq.
  - intros (ci & p & sp & Hk & Hsp & Hsc & ->).
    exists (route_key ci, new_remote ci p 1). split; [by apply elem_of_map_to_list|].
    unfold export_spec. cbn -[from_string scope_ge]. rewrite Hsp. destruct sc as [s|]; [|done].
    destruct Hsc as [H1%Z.leb_le H2%Z.leb_le]. unfold scope_ge. cbn [scope_code].
    by rewrite H1, H2.
Qed.

(** C1: a message goes to the most specific route of its destination: if the
    table has a live remote route at some stage (service, node, cluster,
    region) and none at a more specific stage, and the queue takes the message,
    routing returns Ok, appends to that connection's queue exactly the message
    with its TTL decremented, and changes nothing else. *)
Theorem route_message_longest_prefix `{!MpscLaws Chan} n m msg h s d st ci p c c' :
  addressed msg h s d → (2 ≤ ttl h ≤ u32_max)%Z →
  routes m !! stage_key st d = Some (new_remote ci p 1) →
  (∀ st', stage_rank st' < stage_rank st → routes m !! stage_key st' d = None) →
  send_queues m !! send_queue_tx p = Some c →
  try_send c (forwarded msg h) = Ok c' →
  route_message (S n) msg m = Done (Ok tt, with_queue (send_queue_tx p) c' m) ∧
  queued c' = queued c ++ [mkMessage
    (Some (mkHeader (version h) (id h) (flag h) (ttl h - 1) (source h) (destination h))) (body msg)].
Proof.
  intros Ha Ht Hst Hless Hq Hsend.
  assert (ttl (dec_ttl h) = (ttl h - 1)%Z) as Hdec by (apply dec_ttl_pred; lia).
  split.
  - erewrite route_hit; [|done|by eapply dest_route_longest].
    rewrite (bind_done _ _ _ None (with_queue (send_queue_tx p) c' m)); [done|].
    apply unwrap_result_ok. rewrite (remote_forward_run _ _ _ _ h _ c); [by rewrite Hsend|apply Ha|lia|done].
  - rewrite (try_send_queued _ _ _ Hsend). unfold forwarded. do 3 f_equal.
    unfold dec_ttl in *. cbn in Hdec. by rewrite Hdec.
Qed.

(** C32: TTL handling at a remote next hop. A TTL of 1 is not forwarded: the
    sender is answered Unreachable with a fresh TTL of 64. A TTL in 2..2^32-1
    leaves decremented. A TTL of 0, which the wire format allows, wraps to
    2^32-1 and is forwarded as the longest-lived message there is. *)
Theorem remote_ttl ci p m msg h s d my c :
  addressed msg h s d → (0 ≤ ttl h ≤ u32_max)%Z → my_path m = Some my →
  send_queues m !! send_queue_tx p = Some c →
  (ttl h = 1%Z →
     queue_message (new_remote ci p 1) msg m =
       Done (Ok (Some (response_to h my s Unreachable "TTL expired" (fresh m) None)), bump m)) ∧
  (ttl h ≠ 1%Z → ∀ c', try_send c (forwarded msg h) = Ok c' →
     queue_message (new_remote ci p 1) msg m = Done (Ok None, with_queue (send_queue_tx p) c' m)) ∧
  ttl (dec_ttl h) = (if decide (ttl h = 0%Z) then u32_max else ttl h - 1)%Z.
Proof.
  intros Ha Ht Hmy Hq.
  assert (ttl (dec_ttl h) = (if decide (ttl h = 0%Z) then u32_max else ttl h - 1)%Z) as Hdec.
  { case_decide as Hz; [by cbn; rewrite Hz|apply dec_ttl_pred; lia]. }
  split_and!; [| |done].
  - intros H1. apply (remote_expired_run _ _ _ _ _ s d); [done| |done]. rewrite Hdec, decide_False by lia. lia.
  - intros H1 c' Hsend. rewrite (remote_forward_run _ _ _ _ h _ c); [by rewrite Hsend|apply Ha| |done].
    rewrite Hdec. unfold u32_max. case_decide; lia.
Qed.


(** C35: if both the source and the destination of a message are services of
    this node without a route of their own (the local next hop gets both),
    no amount of fuel is enough: each NoRoute answer is itself answered
    NoRoute. The local next hop never looks at the TTL. *)
Theorem route_message_noroute_loop m msg h s d :
  addressed msg h s d → local_service m s → local_service m d →
  ∀ fuel, route_message fuel msg m = OutOfFuel.
Proof. intros Ha Hs Hd fuel. by eapply route_message_diverges_at. Qed.

(** A route registered for a connection of type Client is never used: its
    key, the full path, differs from every key that [route_message] looks up,
    for any destination. *)
Theorem client_route_unreachable ci p m d :
  connection_type ci = ConnClient →
  wf_path (remote_service_path ci) = true → wf_path d = true →
  dest_route (register ci p m) d = dest_route m d.
Proof.
  intros Hc Hci%wf_path_spec Hd%wf_path_spec.
  assert (∀ st, route_key ci ≠ stage_key st d) as Hne.
  { intros st. unfold route_key. rewrite Hc. by apply to_string_not_stage_key. }
  assert (∀ st, routes (register ci p m) !! stage_key st d = routes m !! stage_key st d) as Hsame.
  { intros st. unfold register, update_route. specialize (Hne st).
    repeat case_match; cbn; rewrite ?lookup_insert_ne by done; done. }
  unfold dest_route, ROUTE_STAGES. cbn [find_route]. by rewrite !Hsame.
Qed.

(** C36: a reconnecting peer can lose its route. If a second connection with
    the same route key registers before the first one is unregistered, the
    table keeps pointing at the first; when the first then unregisters, the
    key has no route at all although the second connection is up. *)
Theorem reconnect_loses_route ci1 p1 ci2 p2 m :
  route_key ci1 = route_key ci2 → routes m !! route_key ci1 = None →
  let m2 := register ci2 p2 (register ci1 p1 m) in
  routes m2 !! route_key ci2 = Some (new_remote ci1 p1 1) ∧
  routes (unregister ci1 m2) !! route_key ci2 = None.
Proof.
  intros Hk Hv. cbv zeta. rewrite <- Hk.
  assert (register ci2 p2 (register ci1 p1 m) = register ci1 p1 m) as ->.
  { unfold register at 1. rewrite <- Hk. apply update_route_keep with (old := new_remote ci1 p1 1); [|done].
    unfold register. rewrite update_route_vacant by done. apply lookup_insert_eq. }
  split; [|apply lookup_delete_eq].
  unfold register. rewrite update_route_vacant by done. apply lookup_insert_eq.
Qed.

(** Two inputs that make routing panic, killing the worker task of the
    connection the message came from: a management request other than
    SwbusdGetRoutes addressed to swbusd itself, and a full or closed queue of
    the next hop, whose error is unwrapped rather than returned. *)
Theorem route_message_panics n m msg h s d :
  addressed msg h s d →
  (local_swbusd m d → ∀ req, body msg = Some (BodyManagementRequest req) →
     mgmt_request req ≠ 0%Z → route_message (S n) msg m = Panicked "mgmt") ∧
  (∀ ci p hops c e, dest_route m d = Some (new_remote ci p hops) → ttl (dec_ttl h) ≠ 0%Z →
     send_queues m !! send_queue_tx p = Some c → try_send c (forwarded msg h) = Err e →
     route_message (S n) msg m = Panicked "queue_message").
Proof.
  intros Ha. split.
  - intros [Hr Ht] req Hb Hq. erewrite route_hit by done.
    unfold bind at 1, unwrap_result, bind, attempt.
    rewrite (local_swbusd_run _ _ _ _ _ Ha Ht), Hb.
    unfold process_mgmt_request, mgmt_type_of_i32.
    rewrite (proj2 (Z.eqb_neq _ _) Hq). by destruct (mgmt_request req =? 1)%Z.
  - intros ci p hops c e Hr Ht Hq Hsend. erewrite route_hit by done.
    unfold bind at 1, unwrap_result, bind, attempt.
    rewrite (remote_forward_run _ _ _ _ h _ c), Hsend; [|apply Ha|done..]. by destruct e.
Qed.

End Properties.
