(* ===== verification/MuxWitness.v ===== *)
(** The multiplexer theorems at a concrete swbusd: one local route, one peer
    of the same cluster, bounded queues. *)
From S2P Require Import Prelude RustStr Path Proto Mux MuxTheory.

Open Scope stdpp_scope.

Definition demo_home : ServicePath := mkPath "region-a" "cluster-a" "10.0.0.2-dpu0" "" "" "" "".
Definition demo_peer : ServicePath := mkPath "region-a" "cluster-a" "10.0.0.1-dpu0" "" "" "" "".
Definition demo_peer_svc : ServicePath :=
  mkPath "region-a" "cluster-a" "10.0.0.1-dpu0" "hamgrd" "0" "dpu" "dpu0".
Definition demo_local_svc : ServicePath :=
  mkPath "region-a" "cluster-a" "10.0.0.2-dpu0" "hamgrd" "0" "dpu" "dpu0".
Definition demo_conn : SwbusConnInfo :=
  new_client ConnCluster (mkAddr "10.0.0.1" 23606) demo_peer demo_home.
Definition demo_conn2 : SwbusConnInfo := new_server ConnCluster (mkAddr "10.0.0.1" 50001) demo_peer.
(** Header values: the visible ASCII strings. *)
#[export] Instance ascii_metadata : Metadata := { metadata_from_str s := if visible_ascii s then Some s else None }.
#[export] Instance ascii_metadata_laws : MetadataLaws.
Proof. split. intros s Hs. unfold metadata_from_str, ascii_metadata. by rewrite Hs. Defined.

Definition demo_chan : BoundedChan := mkChan 16 [] false.

Definition demo0 : MuxState BoundedChan :=
  with_queue 0 demo_chan (set_my_routes [mkRouteConfig demo_home ScopeCluster] (mux_new 100)).
Definition demo : MuxState BoundedChan := register demo_conn (mkProxy 0) demo0.

Definition demo_header (t : Z) (src dst : ServicePath) : SwbusMessageHeader :=
  mkHeader 1 7 0 t (Some src) (Some dst).
Definition demo_msg (t : Z) (src dst : ServicePath) (b : Body) : SwbusMessage :=
  mkMessage (Some (demo_header t src dst)) (Some b).

Lemma demo_reachable : rtc mux_step (mux_new 100) demo.
Proof.
  eapply rtc_l; [eexists; apply (step_set_my_routes [mkRouteConfig demo_home ScopeCluster])|].
  eapply rtc_l; [eexists; apply (step_open 0 demo_chan); reflexivity|].
  eapply rtc_l; [eexists; apply (step_register demo_conn (mkProxy 0)); by eexists|]. apply rtc_refl.
Defined.
(** The same, after which the connection's task has ended: its queue is closed, and
    the route still there. *)
Definition demo_stale : MuxState BoundedChan := with_queue 0 (mkChan 16 [] true) demo.
Definition demo_trace_events : list MuxEvent :=
  [MuxMyRoutes [mkRouteConfig demo_home ScopeCluster]; MuxOpened 0 demo_chan; MuxRegistered demo_conn (mkProxy 0);
   MuxQueue 0 (mkChan 16 [] true)].
Lemma demo_trace : mux_trace (mux_new 100) demo_trace_events demo_stale.
Proof.
  eapply (trace_step _ [_; _; _]); [|apply step_queue; by eexists].
  eapply (trace_step _ [_; _]); [|apply step_register; by eexists].
  eapply (trace_step _ [_]); [|apply step_open; reflexivity].
  eapply (trace_step _ []); [constructor|apply step_set_my_routes].
Defined.

Lemma demo_addressed t src dst b : addressed (demo_msg t src dst b) (demo_header t src dst) src dst.
Proof. done. Defined.

Lemma route_table_well_formed_witness :
  ∃ ci p before after, new_remote demo_conn (mkProxy 0) 1 = new_remote ci p 1 ∧
    "region-a.cluster-a.10.0.0.1-dpu0" = route_key ci ∧ is_Some (send_queues demo_stale !! send_queue_tx p) ∧
    demo_trace_events = before ++ MuxRegistered ci p :: after ∧
    ∀ ci', MuxUnregistered ci' ∈ after → route_key ci' ≠ "region-a.cluster-a.10.0.0.1-dpu0".
Proof.
  destruct (route_table_well_formed 100 demo_trace_events demo_stale "region-a.cluster-a.10.0.0.1-dpu0"
    (new_remote demo_conn (mkProxy 0) 1) demo_trace) as [[Hl _]|Hr].
  - vm_compute. reflexivity.
  - discriminate Hl.
  - exact Hr.
Defined.

Lemma export_routes_exact_witness :
  ∃ es, export_routes (Some ScopeCluster) demo = Done (Ok es, demo) ∧ length es = 1.
Proof.
  destruct (export_routes_exact 100 demo (Some ScopeCluster) demo_reachable) as (es & Hrun & _).
  exists es. split; [exact Hrun|]. revert Hrun. vm_compute. by intros [= <-].
Defined.

Lemma route_message_longest_prefix_witness :
  ∃ m', route_message 1 (demo_msg 63 demo_local_svc demo_peer_svc PingRequest) demo = Done (Ok tt, m').
Proof.
  eexists.
  apply (route_message_longest_prefix (Chan:=BoundedChan) 0 demo
    (demo_msg 63 demo_local_svc demo_peer_svc PingRequest)
    (demo_header 63 demo_local_svc demo_peer_svc) demo_local_svc demo_peer_svc
    StageCluster demo_conn (mkProxy 0) demo_chan
    (mkChan 16 [forwarded (demo_msg 63 demo_local_svc demo_peer_svc PingRequest)
                  (demo_header 63 demo_local_svc demo_peer_svc)] false)).
  - done.
  - unfold u32_max. cbn. lia.
  - vm_compute. reflexivity.
  - intros [] Hr; cbn in Hr; try lia. vm_compute. reflexivity.
  - vm_compute. reflexivity.
  - vm_compute. reflexivity.
Defined.

Lemma remote_ttl_witness :
  ttl (dec_ttl (demo_header 0 demo_local_svc demo_peer_svc)) = u32_max.
Proof.
  destruct (remote_ttl (Chan:=BoundedChan) demo_conn (mkProxy 0) demo
    (demo_msg 0 demo_local_svc demo_peer_svc PingRequest)
    (demo_header 0 demo_local_svc demo_peer_svc) demo_local_svc demo_peer_svc demo_home demo_chan)
    as (_ & _ & Ht).
  - done.
  - unfold u32_max. cbn. lia.
  - reflexivity.
  - reflexivity.
  - rewrite Ht. reflexivity.
Defined.


Lemma route_message_noroute_loop_witness :
  route_message 100 (demo_msg 63 demo_local_svc demo_local_svc PingRequest) demo = OutOfFuel.
Proof.
  apply (route_message_noroute_loop demo _ (demo_header 63 demo_local_svc demo_local_svc)
    demo_local_svc demo_local_svc).
  - done.
  - split; [vm_compute; reflexivity|done].
  - split; [vm_compute; reflexivity|done].
Defined.

Lemma client_route_unreachable_witness :
  dest_route (register (new_server ConnClient (mkAddr "10.0.0.9" 4000) demo_peer_svc) (mkProxy 0) demo0)
    demo_peer_svc = None.
Proof.
  etransitivity.
  - apply (client_route_unreachable (new_server ConnClient (mkAddr "10.0.0.9" 4000) demo_peer_svc));
      reflexivity.
  - vm_compute. reflexivity.
Defined.

Lemma reconnect_loses_route_witness :
  routes (unregister demo_conn (register demo_conn2 (mkProxy 1) (register demo_conn (mkProxy 0) demo0)))
    !! route_key demo_conn2 = None.
Proof.
  apply (reconnect_loses_route demo_conn (mkProxy 0) demo_conn2 (mkProxy 1) demo0).
  - vm_compute. reflexivity.
  - vm_compute. reflexivity.
Defined.

Lemma route_message_panics_witness :
  route_message 1 (demo_msg 63 demo_peer_svc demo_home (BodyManagementRequest (mkMgmt 1 []))) demo
    = Panicked "mgmt".
Proof.
  apply (route_message_panics 0 demo _ (demo_header 63 demo_peer_svc demo_home) demo_peer_svc demo_home)
    with (req := mkMgmt 1 []).
  - done.
  - split; [vm_compute; reflexivity|done].
  - done.
  - done.
Defined.
