(* ===== verification/Conn.v ===== *)
(** swbusd connections: the connection store, the worker that reads a
    connection and the service entry points. Models
    crates/swbus-core/src/mux/{conn,conn_store,conn_worker,service}.rs. gRPC and
    tokio (streams, tasks, cancellation) are outside: what a stream delivers
    and whether a connection attempt succeeds are inputs of the operations. *)
From S2P Require Import Prelude RustStr Path Proto Mux.

Open Scope stdpp_scope.

(** * State *)

#[export] Program Instance conn_type_countable : Countable ConnectionType :=
  inj_countable connection_type_i32
    (λ z, if (z =? 0)%Z then Some ConnClient else if (z =? 1)%Z then Some ConnLocal
          else if (z =? 2)%Z then Some ConnCluster else if (z =? 3)%Z then Some ConnRegion
          else Some ConnGlobal) _.
Next Obligation. by intros []. Qed.

Definition conn_info_key (c : SwbusConnInfo) :=
  (conn_id c, match mode c with ModeClient => true | ModeServer => false end,
   (ip (remote_addr c), port (remote_addr c)), connection_type c,
   local_service_path c, remote_service_path c).

#[export] Program Instance conn_info_countable : Countable SwbusConnInfo :=
  inj_countable conn_info_key
    (λ '(i, m, (a, p), t, l, r),
       Some (mkConnInfo i (if m : bool then ModeClient else ModeServer) (mkAddr a p) t l r)) _.
Next Obligation. by intros [? [] [] ? ? ?]. Qed.

(** [SwbusConn]: its descriptor, the cancellation token of its worker and the
    send queue its proxies share. *)
Record SwbusConn : Set := mkConn {
  conn_info : SwbusConnInfo;
  shutdown_ct : nat;
  conn_queue : nat;
}.

Definition new_proxy (c : SwbusConn) : SwbusConnProxy := mkProxy (conn_queue c).

Inductive ConnTracker : Set :=
| TrackConn (c : SwbusConn)
| TrackTask (token : nat).

Record PeerConfig : Set := mkPeer {
  peer_id : ServicePath;
  peer_endpoint : SocketAddr;
  peer_conn_type : ConnectionType;
}.

(** A spawned connection task: what it connects to and its retry interval. *)
Record ConnectTask : Set := mkTask { task_info : SwbusConnInfo; retry_interval_ms : Z }.

Section Conn.
Context {Chan : Type} `{Mpsc Chan}.

(** [SwbusConnStore] with the multiplexer it shares, the spawned connection
    tasks and the cancelled tokens; [next_token] is the next token to create. *)
Record NodeState : Type := mkNode {
  mux : MuxState Chan;
  connections : gmap SwbusConnInfo ConnTracker;
  store_routes : list RouteConfig;
  tasks : gmap nat ConnectTask;
  cancelled : gset nat;
  next_token : nat;
}.

Definition with_mux (f : MuxState Chan → MuxState Chan) (n : NodeState) : NodeState :=
  mkNode (f (mux n)) (connections n) (store_routes n) (tasks n) (cancelled n) (next_token n).

Definition with_connections (f : gmap SwbusConnInfo ConnTracker → gmap SwbusConnInfo ConnTracker)
    (n : NodeState) : NodeState :=
  mkNode (mux n) (f (connections n)) (store_routes n) (tasks n) (cancelled n) (next_token n).

Definition cancel (token : nat) (n : NodeState) : NodeState :=
  mkNode (mux n) (connections n) (store_routes n) (tasks n) ({[token]} ∪ cancelled n) (next_token n).

Definition lift_mux {E A} (m : M (MuxState Chan) E A) : M NodeState E A :=
  λ n, match m (mux n) with
       | Done (r, x) => Done (r, with_mux (λ _, x) n)
       | Panicked w => Panicked w
       | OutOfFuel => OutOfFuel
       end.

(** * The connection store *)

Definition start_connect_task (ci : SwbusConnInfo) (reconnect : bool) (n : NodeState) : NodeState :=
  let token := next_token n in
  mkNode (mux n) (<[ci := TrackTask token]> (connections n)) (store_routes n)
    (<[token := mkTask ci (if reconnect then 1 else 1000)]> (tasks n)) (cancelled n) (S token).

Definition add_my_route (r : RouteConfig) (n : NodeState) : NodeState :=
  mkNode (mux n) (connections n)
    (if decide (r ∈ store_routes n) then store_routes n else store_routes n ++ [r])
    (tasks n) (cancelled n) (next_token n).

Definition add_peer {E} (peer : PeerConfig) : M NodeState E unit :=
  let* n := get_state in
  let* my_route := unwrap "My service path is not set" (head (store_routes n)) in
  modify (start_connect_task
    (new_client (peer_conn_type peer) (peer_endpoint peer) (peer_id peer) (route_key_path my_route)) false).

Definition conn_lost (ci : SwbusConnInfo) (n : NodeState) : NodeState :=
  let n := with_connections (delete ci) n in
  match mode ci with
  | ModeClient => start_connect_task ci true n
  | ModeServer => n
  end.

Definition conn_established (c : SwbusConn) (n : NodeState) : NodeState :=
  with_connections <[conn_info c := TrackConn c]>
    (with_mux (register (conn_info c) (new_proxy c)) n).

(** One round of the task spawned by [start_connect_task]: [conn] is the result
    of [SwbusConn::connect]. The task ends when cancelled or connected. *)
Definition connect_task_round (token : nat) (conn : option SwbusConn) (n : NodeState) : NodeState :=
  if decide (token ∈ cancelled n) then
    mkNode (mux n) (connections n) (store_routes n) (delete token (tasks n)) (cancelled n) (next_token n)
  else
    match conn with
    | Some c =>
        let n := conn_established c n in
        mkNode (mux n) (connections n) (store_routes n) (delete token (tasks n)) (cancelled n) (next_token n)
    | None => n
    end.

Definition tracker_token (t : ConnTracker) : nat :=
  match t with TrackConn c => shutdown_ct c | TrackTask token => token end.

Definition store_shutdown (n : NodeState) : NodeState :=
  let n := foldr (λ e n, cancel (tracker_token e.2) n) n (map_to_list (connections n)) in
  with_connections (λ _, ∅) n.

(** * The connection worker *)

Definition validate_message_common (message : SwbusMessage) : M NodeState SwbusError unit :=
  match header message with
  | None => throw_input InvalidHeader "Message missing header"
  | Some h =>
      if decide (version h < 1)%Z then throw_input InvalidHeader "Message version too low"
      else match source h with
      | None => throw_input InvalidHeader "Message missing source"
      | Some _ =>
      match destination h with
      | None => throw_input InvalidHeader "Message missing destination"
      | Some _ =>
      match body message with
      | None => throw_input InvalidHeader "Message missing body"
      | Some _ => ret tt
      end end end
  end.

(** [debug] says whether debug-level spans are enabled: the span of
    [process_data_message] then reads the header before anything else. *)
Definition process_data_message (debug : bool) (fuel : nat) (message : SwbusMessage)
    : M NodeState SwbusError unit :=
  when debug (let* _ := unwrap "span field message.id" (header message) in ret tt);;;
  validate_message_common message;;;
  match body message with
  | Some TraceRouteRequest =>
      let* mid := lift_mux generate_message_id in
      let* my_sp := lift_mux get_my_service_path in
      let* response := new_response message (Some my_sp) CodeOk "" mid None in
      lift_mux (route_message fuel response);;;
      let* h := unwrap "no header" (header message) in
      let* dest := unwrap "no destination" (destination h) in
      when (negb (bool_decide (dest = my_sp))) (lift_mux (route_message fuel message))
  | _ => lift_mux (route_message fuel message)
  end.

(** What the worker's [select!] sees next. *)
Inductive WorkerEvent : Set :=
| EvShutdown
| EvMessage (m : SwbusMessage)
| EvStreamError (status : string)
| EvStreamClosed.

(** The worker loop over the events it sees; with no event left the loop is
    still waiting, which the model reports like missing fuel. *)
Fixpoint run_worker_loop (debug : bool) (fuel : nat) (events : list WorkerEvent) : M NodeState SwbusError unit :=
  match events with
  | [] => out_of_fuel
  | EvShutdown :: _ => ret tt
  | EvMessage message :: events' =>
      let* _ := attempt (E:=SwbusError) (process_data_message debug fuel message) in
      run_worker_loop debug fuel events'
  | EvStreamError status :: _ => throw_connection ConnectionError status
  | EvStreamClosed :: _ => throw_connection ConnectionError "Message stream closed."
  end.

Definition run (debug : bool) (fuel : nat) (ci : SwbusConnInfo) (events : list WorkerEvent)
    : M NodeState SwbusError unit :=
  let* result := attempt (E:=SwbusError) (run_worker_loop debug fuel events) in
  modify (with_mux (unregister ci));;;
  (match result with Err _ => modify (conn_lost ci) | Ok _ => ret tt end);;;
  of_result result.

(** * The service *)

(** [ConnectionType::from_str_name] / [as_str_name] *)
Definition connection_type_str (c : ConnectionType) : string :=
  match c with
  | ConnClient => "CONNECTION_TYPE_CLIENT" | ConnLocal => "CONNECTION_TYPE_LOCAL"
  | ConnCluster => "CONNECTION_TYPE_CLUSTER" | ConnRegion => "CONNECTION_TYPE_REGION"
  | ConnGlobal => "CONNECTION_TYPE_GLOBAL"
  end.
Definition connection_type_of_str (s : string) : option ConnectionType :=
  List.find (λ c, bool_decide (connection_type_str c = s))
    [ConnClient; ConnLocal; ConnCluster; ConnRegion; ConnGlobal].

(** [SwbusConn::new]: a token of its own; [q] is its send queue. *)
Definition conn_new {E} (ci : SwbusConnInfo) (q : nat) : M NodeState E SwbusConn :=
  let* n := get_state in
  modify (λ n, mkNode (mux n) (connections n) (store_routes n) (tasks n) (cancelled n) (S (next_token n)));;;
  ret (mkConn ci (next_token n) q).

(** The server's side of a connection; its worker is spawned ([run]). *)
Definition start_server_worker_task {E} (ci : SwbusConnInfo) (q : nat) : M NodeState E SwbusConn := conn_new ci q.
Definition from_incoming_stream {E} (ci : SwbusConnInfo) (q : nat) : M NodeState E SwbusConn := start_server_worker_task ci q.

(** [stream_messages]: [client_path] and [conn_type] are the request metadata,
    [q] the send queue made for the connection, which starts as [c]. *)
Definition stream_messages (addr : SocketAddr) (client_path conn_type : option string)
    (q : nat) (c : Chan) : M NodeState string SwbusConn :=
  match client_path with
  | None => throw "Client service path not found"
  | Some path =>
      let* service_path :=
        match from_string (E:=SwbusError) path with
        | Ok sp => ret sp
        | Err _ => throw "Invalid client service path"
        end in
      match conn_type with
      | None => throw "service path scope not set"
      | Some ct =>
          match connection_type_of_str ct with
          | None => throw ("Invalid connection_type: " +:+ ct)
          | Some ct =>
              modify (with_mux (with_queue q c));;;
              let* conn := from_incoming_stream (new_server ct addr service_path) q in
              modify (conn_established conn);;;
              ret conn
          end
      end
  end.

(** The metadata a client worker sends ([start_client_worker_task]). *)
Definition client_metadata `{!Metadata} {E} (ci : SwbusConnInfo) : M NodeState E (string * string) :=
  let* sp := unwrap "missing local service path" (local_service_path ci) in
  let* path := unwrap "InvalidMetadataValue" (metadata_from_str (to_string sp)) in
  let* ct := unwrap "InvalidMetadataValue" (metadata_from_str (connection_type_str (connection_type ci))) in
  ret (path, ct).

(** [SwbusConn::connect]: [endpoint] and [dial] tell whether the address parses and
    the dial succeeds, [serve] what the server answers to the metadata; [q] is
    the new send queue, which starts as [c]. *)
Definition start_client_worker_task `{!Metadata} (ci : SwbusConnInfo) (serve : string * string → result unit string) (q : nat) (c : Chan)
    : M NodeState SwbusError SwbusConn :=
  modify (with_mux (with_queue q c));;;
  let* conn := conn_new ci q in
  let* meta := client_metadata ci in
  match serve meta with
  | Err e => throw_connection ConnectionError e
  | Ok _ => ret conn
  end.
Definition connect `{!Metadata} (ci : SwbusConnInfo) (endpoint dial : result unit string) (serve : string * string → result unit string)
    (q : nat) (c : Chan) : M NodeState SwbusError SwbusConn :=
  match endpoint with
  | Err e => throw_input InvalidArgs ("Failed to create endpoint: " +:+ e +:+ ".")
  | Ok _ =>
      match dial with
      | Err e => throw_connection ConnectionError e
      | Ok _ => start_client_worker_task ci serve q c
      end
  end.

(** [SwbusServiceHost::start] up to serving: [routes] and [peers] of the
    configuration. *)
Definition start (cfg_routes : list RouteConfig) (peers : list PeerConfig) : M NodeState SwbusError unit :=
  match cfg_routes with
  | [] => throw_input InvalidArgs "No routes found in the configuration."
  | _ =>
      modify (with_mux (set_my_routes cfg_routes));;;
      for_each (λ r, modify (add_my_route r)) cfg_routes;;;
      for_each add_peer peers
  end.

End Conn.

Arguments NodeState Chan : clear implicits.
