(* ===== verification/ConnTheory.v ===== *)
(** Theorems about the connection layer of Conn.v: message validation, the life
    of a connection worker, the handshake between two processes, start-up and
    shutdown of the connection store, each with a concrete instance. *)
From S2P Require Import Prelude RustStr Path Proto Mux MuxTheory MuxWitness Conn.

Open Scope stdpp_scope.

Section ConnTheory.
Context {Chan : Type} `{Mpsc Chan}.
Implicit Types (n : NodeState Chan).

(** * Lifted multiplexer operations *)

(** Only the multiplexer of the node may change, and its table does not. *)
Definition same_node n n' : Prop :=
  same_table (mux n) (mux n') ∧ connections n' = connections n ∧ store_routes n' = store_routes n ∧
  tasks n' = tasks n ∧ cancelled n' = cancelled n ∧ next_token n' = next_token n.

#[local] Instance same_node_refl : Reflexive same_node.
Proof. done. Qed.
#[local] Instance same_node_trans : Transitive same_node.
Proof. intros a b c ((?&?&?)&?&?&?&?&?) ((?&?&?)&?&?&?&?&?). repeat split; congruence. Qed.

Lemma lift_frame {E A} (m : M (MuxState Chan) E A) :
  preserves same_table m → preserves same_node (lift_mux m).
Proof.
  intros Hm n r n' Hn. unfold lift_mux in Hn.
  destruct (m (mux n)) as [[r1 x]| |] eqn:E1; try discriminate Hn. inv_done.
  split; [by eapply Hm|done].
Qed.

Lemma throw_input_node {A} c d : preserves same_node (throw_input (A:=A) c d).
Proof. unfold throw_input, input, requires. frame. Qed.
Lemma new_response_node {E} q src c t i b :
  preserves same_node (new_response (S:=NodeState Chan) (E:=E) q src c t i b).
Proof. unfold new_response. frame. Qed.

Hint Resolve lift_frame throw_input_node new_response_node generate_frame my_sp_frame
  route_message_frame : frame.

Lemma process_data_frame debug fuel msg : preserves same_node (process_data_message debug fuel msg).
Proof. unfold process_data_message, validate_message_common. frame. Qed.

(** Processing the messages of a stream one after the other, errors logged. *)
Definition deliver (debug : bool) (fuel : nat) (ms : list SwbusMessage)
    : M (NodeState Chan) SwbusError unit :=
  for_each (λ m, let* _ := attempt (E:=SwbusError) (process_data_message debug fuel m) in ret tt) ms.

Lemma deliver_frame debug fuel ms : preserves same_node (deliver debug fuel ms).
Proof.
  unfold deliver. apply preserves_for_each; try typeclasses eauto. intros m.
  pose proof (process_data_frame debug fuel m). frame.
Qed.

Lemma worker_loop_deliver debug fuel ms events n :
  run_worker_loop debug fuel ((EvMessage <$> ms) ++ events) n
  = (deliver debug fuel ms;;; run_worker_loop debug fuel events) n.
Proof.
  revert n. induction ms as [|m ms IH]; intros n; [done|].
  cbn [fmap list_fmap app run_worker_loop]. unfold deliver, bind, attempt, ret in *. cbn [for_each].
  unfold bind. destruct (process_data_message debug fuel m n) as [[r n1]| |]; [|done..].
  exact (IH n1).
Qed.

(** * Valid messages *)

Definition valid_message (msg : SwbusMessage) : Prop :=
  ∃ h, header msg = Some h ∧ (1 ≤ version h)%Z ∧ is_Some (source h) ∧ is_Some (destination h) ∧
       is_Some (body msg).

Lemma validate_ok msg n : valid_message msg → validate_message_common msg n = Done (Ok tt, n).
Proof.
  intros (h & Hh & Hv & [s Hs] & [d Hd] & [b Hb]).
  unfold validate_message_common. rewrite Hh, Hs, Hd, Hb.
  rewrite decide_False by lia. done.
Qed.

Lemma validate_err msg n :
  ¬ valid_message msg →
  ∃ w, validate_message_common msg n = Done (Err (InputErr InvalidHeader w), n).
Proof.
  intros Hbad. unfold validate_message_common.
  destruct (header msg) as [h|] eqn:Hh; [|by eexists].
  case_decide as Hv; [by eexists|].
  destruct (source h) as [s|] eqn:Hs; [|by eexists].
  destruct (destination h) as [d|] eqn:Hd; [|by eexists].
  destruct (body msg) as [b|] eqn:Hb; [|by eexists].
  destruct Hbad. exists h. rewrite Hs, Hd, Hb. repeat split; solve [eauto|lia].
Qed.

(** * The connection table *)

Lemma lookup_conn_lost ci n :
  connections (conn_lost ci n) !! ci =
    match mode ci with ModeClient => Some (TrackTask (next_token n)) | ModeServer => None end.
Proof.
  unfold conn_lost. destruct (mode ci); cbn; [apply lookup_insert_eq|apply lookup_delete_eq].
Qed.

Lemma lookup_conn_lost_ne ci ci' n :
  ci ≠ ci' → connections (conn_lost ci n) !! ci' = connections n !! ci'.
Proof.
  intros Hne. unfold conn_lost. destruct (mode ci); cbn;
    rewrite ?lookup_insert_ne by done; by rewrite lookup_delete_ne.
Qed.

(** Cancelling every tracked token. *)
Lemma cancelled_foldr (l : list (SwbusConnInfo * ConnTracker)) n e :
  e ∈ l → tracker_token e.2 ∈ cancelled (foldr (λ e n, cancel (tracker_token e.2) n) n l).
Proof.
  induction l as [|x l IH]; intros He; [by apply not_elem_of_nil in He|].
  cbn. apply elem_of_cons in He as [->|He]; set_solver.
Qed.

Lemma foldr_cancel_frame (l : list (SwbusConnInfo * ConnTracker)) n :
  let n' := foldr (λ e n, cancel (tracker_token e.2) n) n l in
  mux n' = mux n ∧ tasks n' = tasks n ∧ next_token n' = next_token n ∧ store_routes n' = store_routes n.
Proof. induction l as [|x l IH]; [done|]. cbn in *. naive_solver. Qed.

(** ** The handshake *)

Lemma connection_type_str_inv t : connection_type_of_str (connection_type_str t) = Some t.
Proof. by destruct t. Qed.

(** The connection a valid stream request creates, and the node it leaves. *)
Definition accepted addr ct sp q n : SwbusConn := mkConn (new_server ct addr sp) (next_token n) q.
Definition accepting q (c : Chan) n : NodeState Chan :=
  mkNode (with_queue q c (mux n)) (connections n) (store_routes n) (tasks n) (cancelled n) (S (next_token n)).

Lemma stream_messages_run addr path sp ct q c n :
  from_string (E:=SwbusError) path = Ok sp →
  stream_messages addr (Some path) (Some (connection_type_str ct)) q c n =
    Done (Ok (accepted addr ct sp q n), conn_established (accepted addr ct sp q n) (accepting q c n)).
Proof.
  intros Hp. unfold stream_messages. rewrite Hp, bind_ret, connection_type_str_inv. reflexivity.
Qed.

(** An established connection on a free route key is the next hop of every
    destination with that key and no more specific route. *)
Lemma established_route (c : SwbusConn) n st d :
  conn_stage (connection_type (conn_info c)) = Some st →
  routes (mux n) !! route_key (conn_info c) = None →
  stage_key st d = stage_key st (remote_service_path (conn_info c)) →
  (∀ st', stage_rank st' < stage_rank st → routes (mux n) !! stage_key st' d = None) →
  (∀ st', stage_rank st' < stage_rank st → stage_key st' d ≠ route_key (conn_info c)) →
  dest_route (mux (conn_established c n)) d = Some (new_remote (conn_info c) (new_proxy c) 1).
Proof.
  intros Hst Hfree Hd Hless Hne. pose proof (route_key_stage _ _ Hst) as Hk.
  cbn. unfold register. rewrite update_route_vacant by done.
  apply dest_route_longest with (st := st).
  - rewrite Hd, <- Hk. apply lookup_insert_eq.
  - intros st' Hr. cbn. rewrite lookup_insert_ne by (by apply not_eq_sym, Hne). by apply Hless.
Qed.

Lemma more_specific_key_ne st st' d sp :
  wf_spec d → wf_spec sp → stage_rank st' < stage_rank st → stage_key st' d ≠ stage_key st sp.
Proof.
  intros Hd Hsp Hr Heq. destruct st', st; cbn in Hr; try lia; cbn [stage_key] in Heq.
  - by apply (dotted_regional_ne sp) in Heq.
  - unfold to_node_prefix in Heq. by apply (dotted_regional_ne sp) in Heq.
  - by apply node_cluster_prefix_ne in Heq.
  - pose proof (service_prefix_slash d) as Hs. rewrite Heq in Hs.
    unfold to_regional_prefix in Hs. destruct Hsp. congruence.
  - pose proof (service_prefix_slash d) as Hs. rewrite Heq in Hs.
    rewrite cluster_prefix_no_slash in Hs by done. done.
  - pose proof (service_prefix_slash d) as Hs. rewrite Heq in Hs.
    rewrite node_prefix_no_slash in Hs by done. done.
Qed.

(** ** Start-up *)

(** The descriptor [add_peer] dials a peer with. *)
Definition peer_info (local : ServicePath) (peer : PeerConfig) : SwbusConnInfo :=
  new_client (peer_conn_type peer) (peer_endpoint peer) (peer_id peer) local.

(** Every spawned task has a token already handed out. *)
Definition tokens_used n : Prop := ∀ t, is_Some (tasks n !! t) → t < next_token n.

(** [ci] is being dialled by a live task its tracker can cancel. *)
Definition dialling ci (ms : Z) n : Prop :=
  ∃ t, connections n !! ci = Some (TrackTask t) ∧ tasks n !! t = Some (mkTask ci ms).

Lemma start_task_used ci b n : tokens_used n → tokens_used (start_connect_task ci b n).
Proof.
  intros Hn t. cbn. rewrite lookup_insert. case_decide; [lia|]. intros Ht%Hn. lia.
Qed.

Lemma start_task_dialling ci ci' b ms n :
  tokens_used n → dialling ci' ms n → ci ≠ ci' → dialling ci' ms (start_connect_task ci b n).
Proof.
  intros Hn (t & Hc & Ht) Hne. exists t. cbn. rewrite lookup_insert_ne by done. split; [done|].
  rewrite lookup_insert_ne; [done|]. assert (t < next_token n) by (apply Hn; eauto). lia.
Qed.

Lemma start_task_new ci b n :
  dialling ci (if b : bool then 1 else 1000) (start_connect_task ci b n).
Proof. exists (next_token n). cbn. rewrite !lookup_insert_eq. by destruct b. Qed.

Lemma add_my_routes_run {E} rs n :
  for_each (E:=E) (λ r, modify (add_my_route r)) rs n = Done (Ok tt, foldl (flip add_my_route) n rs).
Proof. revert n. induction rs as [|r rs IH]; intros n; [done|]. exact (IH (add_my_route r n)). Qed.

Lemma add_my_routes_frame rs n :
  let n' := foldl (flip add_my_route) n rs in
  mux n' = mux n ∧ connections n' = connections n ∧ tasks n' = tasks n ∧ next_token n' = next_token n ∧
  (store_routes n ≠ [] → head (store_routes n') = head (store_routes n)).
Proof.
  revert n. induction rs as [|r rs IH]; intros n; [done|]. cbn.
  destruct (IH (add_my_route r n)) as (-> & -> & -> & -> & Hh). repeat split.
  intros Hne. assert (head (store_routes (add_my_route r n)) = head (store_routes n)) as <-.
  { cbn. case_decide; [done|]. by destruct (store_routes n). }
  apply Hh. cbn. case_decide; [done|]. by destruct (store_routes n).
Qed.

Lemma add_peers_run {E} r ps n :
  head (store_routes n) = Some r →
  for_each (E:=E) add_peer ps n =
    Done (Ok tt, foldl (λ n p, start_connect_task (peer_info (route_key_path r) p) false n) n ps).
Proof.
  revert n. induction ps as [|p ps IH]; intros n Hr; [done|]. cbn [for_each foldl].
  rewrite (bind_done _ _ _ tt (start_connect_task (peer_info (route_key_path r) p) false n)).
  - by apply IH.
  - unfold add_peer. by rewrite bind_get, Hr.
Qed.

Lemma start_tasks_dialling local ps n :
  tokens_used n →
  let n' := foldl (λ n p, start_connect_task (peer_info local p) false n) n ps in
  tokens_used n' ∧ mux n' = mux n ∧
  (∀ ci, dialling ci 1000 n → dialling ci 1000 n') ∧
  (∀ p, p ∈ ps → dialling (peer_info local p) 1000 n').
Proof.
  revert n. induction ps as [|p ps IH]; intros n Hn.
  - cbn. split_and!; [done..|]. intros p Hp. by apply not_elem_of_nil in Hp.
  - cbn [foldl]. destruct (IH (start_connect_task (peer_info local p) false n)) as (H1 & H2 & H3 & H4);
      [by apply start_task_used|]. split_and!; [done..| |].
    + intros ci Hci. apply H3. destruct (decide (peer_info local p = ci)) as [<-|Hne].
      * apply (start_task_new _ false).
      * by apply start_task_dialling.
    + intros p' [->|Hp']%elem_of_cons; [|by apply H4]. apply H3, (start_task_new _ false).
Qed.

End ConnTheory.

(** * Properties *)

Section ConnProperties.
Context {Chan : Type} `{Mpsc Chan}.
Implicit Types (n : NodeState Chan).

(** A connection worker routes a message exactly when it has a header of
    version 1 or more, a source, a destination and a body; anything else is an
    [InvalidHeader] error that changes nothing - except that with debug-level
    spans enabled a message without header panics the worker before the
    validation. A trace route request is answered with [CodeOk] from this
    swbusd first, and then routed on unless this swbusd is its destination. *)
Theorem data_message_validation debug fuel msg n :
  (¬ valid_message msg → debug = false ∨ is_Some (header msg) →
     ∃ w, process_data_message debug fuel msg n = Done (Err (InputErr InvalidHeader w), n)) ∧
  (header msg = None → ∃ w, process_data_message true fuel msg n = Panicked w) ∧
  (valid_message msg → body msg ≠ Some TraceRouteRequest →
     process_data_message debug fuel msg n = lift_mux (route_message fuel msg) n) ∧
  (valid_message msg → body msg = Some TraceRouteRequest → ∀ h s d my,
     addressed msg h s d → my_path (mux n) = Some my →
     process_data_message debug fuel msg n =
       (lift_mux (route_message fuel (response_to h my s CodeOk "" (fresh (mux n)) None));;;
        if decide (d = my) then ret tt else lift_mux (route_message fuel msg))
       (with_mux bump n)).
Proof.
  split_and!.
  - intros Hbad Hd. destruct (validate_err msg n Hbad) as [w Hw]. exists w.
    unfold process_data_message. rewrite (bind_done _ _ _ tt n); [by apply bind_err|].
    destruct Hd as [->|[h Hh]]; [done|]. rewrite Hh. by destruct debug.
  - intros Hh. exists "span field message.id". unfold process_data_message. by rewrite Hh.
  - intros Hv Hb. unfold process_data_message.
    rewrite (bind_done _ _ _ tt n); [|by destruct debug, Hv as (h & -> & _)].
    rewrite (bind_done _ _ _ tt n) by by apply validate_ok. by destruct (body msg) as [[]|].
  - intros Hv Hb h s d my (Hh & Hd & Hs) Hmy. unfold process_data_message.
    rewrite (bind_done _ _ _ tt n); [|by destruct debug; rewrite ?Hh].
    rewrite (bind_done _ _ _ tt n) by by apply validate_ok. rewrite Hb.
    rewrite (bind_done _ _ _ (fresh (mux n)) (with_mux bump n)) by done.
    rewrite (bind_done _ _ _ my (with_mux bump n)).
    2: { unfold lift_mux. cbn. unfold get_my_service_path. unfold my_path in Hmy. cbn.
         unfold bind, get_state. cbn. destruct (head (my_routes (mux n))); naive_solver. }
    destruct msg as [hd b]. cbn in Hh, Hb. subst hd b.
    rewrite (bind_done _ _ _ _ _ (new_response_run _ _ _ _ _ _ _ _ _ _ Hd Hs)). cbn [default].
    unfold bind. destruct (lift_mux _ _) as [[[[]|e] n1]| |]; [|done..].
    cbn. rewrite Hd. cbn. by destruct (decide (d = my)) as [->|Hne];
      [rewrite bool_decide_eq_true_2|rewrite bool_decide_eq_false_2].
Qed.

(** C17: the life of a connection worker. Whatever messages its stream carries,
    as long as their routing does not panic, the worker processes them all and
    then, when the stream fails or closes, removes the route of the connection
    and forgets the connection; a client connection is dialled again with a
    1 ms retry interval, a server connection is not. When the worker is told to
    shut down it only removes the route. *)
Theorem worker_lifetime debug fuel ci ms last n n1 :
  deliver debug fuel ms n = Done (Ok tt, n1) →
  (if last is EvMessage _ then False else True) →
  ∃ r n', run debug fuel ci ((EvMessage <$> ms) ++ [last]) n = Done (r, n') ∧
    routes (mux n') = delete (route_key ci) (routes (mux n)) ∧
    (∀ ci', ci ≠ ci' → connections n' !! ci' = connections n !! ci') ∧
    match last with
    | EvShutdown => r = Ok tt ∧ connections n' = connections n
    | _ => (∃ w, r = Err (ConnectionErr ConnectionError w)) ∧
        match mode ci with
        | ModeClient => dialling ci 1 n'
        | ModeServer => connections n' !! ci = None
        end
    end.
Proof.
  intros Hms Hlast. pose proof (deliver_frame _ _ _ _ _ _ Hms) as ((Hr & _) & Hc & _).
  assert (∀ r, run_worker_loop debug fuel [last] n1 = Done (r, n1) →
    run debug fuel ci ((EvMessage <$> ms) ++ [last]) n =
      Done (r, match r with Ok _ => with_mux (unregister ci) n1
               | Err _ => conn_lost ci (with_mux (unregister ci) n1) end)) as Hrun.
  { intros r Hloop. unfold run.
    rewrite (bind_done _ _ _ r n1) by (unfold attempt; by rewrite worker_loop_deliver, (bind_done _ _ _ _ _ Hms), Hloop).
    rewrite bind_modify. by destruct r as [[]|e]. }
  assert (∀ w, ∃ r n', Done (Err (ConnectionErr ConnectionError w), conn_lost ci (with_mux (unregister ci) n1)) = Done (r, n') ∧
    routes (mux n') = delete (route_key ci) (routes (mux n)) ∧
    (∀ ci', ci ≠ ci' → connections n' !! ci' = connections n !! ci') ∧
    (∃ w, r = Err (A:=unit) (ConnectionErr ConnectionError w)) ∧
      match mode ci with ModeClient => dialling ci 1 n' | ModeServer => connections n' !! ci = None end) as Hlost.
  { intros w. do 2 eexists. split; [done|]. split_and!.
    - unfold conn_lost. rewrite <- Hr. by destruct (mode ci).
    - intros ci' Hne. rewrite lookup_conn_lost_ne by done. cbn. by rewrite Hc.
    - by eexists.
    - unfold conn_lost. destruct (mode ci); [apply (start_task_new _ true)|apply lookup_delete_eq]. }
  destruct last as [|m|status|]; [|done|..].
  - exists (Ok tt), (with_mux (unregister ci) n1). split; [by apply Hrun|]. cbn. by rewrite Hr, Hc.
  - rewrite (Hrun (Err (ConnectionErr ConnectionError status))) by done. apply Hlost.
  - rewrite (Hrun (Err (ConnectionErr ConnectionError "Message stream closed."))) by done. apply Hlost.
Qed.

(** The server [n] as the dialling side sees it: does it accept the metadata? *)
Definition serves addr q c (n : NodeState Chan) (meta : string * string) : result unit string :=
  match stream_messages addr (Some meta.1) (Some meta.2) q c n with
  | Done (Ok _, _) => Ok tt
  | Done (Err e, _) => Err e
  | _ => Err "unavailable"
  end.


(** A worker that ends before its connection is registered (the task that
    dials spawns the worker first) leaves the route of the dead connection
    behind: it stays in the table and the connection that is dialled next does
    not replace it. *)
Theorem late_registration_keeps_dead_route debug fuel (c c2 : SwbusConn) n :
  mode (conn_info c) = ModeClient → conn_info c2 = conn_info c →
  ∃ e n1, run debug fuel (conn_info c) [EvStreamClosed] n = Done (Err e, n1) ∧
    dialling (conn_info c) 1 n1 ∧
    let n2 := conn_established c2 (conn_established c n1) in
    routes (mux n2) !! route_key (conn_info c) = Some (new_remote (conn_info c) (new_proxy c) 1).
Proof.
  intros Hmode Heq.
  exists (ConnectionErr ConnectionError "Message stream closed."),
    (conn_lost (conn_info c) (with_mux (unregister (conn_info c)) n)).
  split; [reflexivity|]. unfold conn_lost. rewrite Hmode. split; [apply (start_task_new _ true)|].
  cbn. unfold register. rewrite Heq, (update_route_vacant _ _ (unregister (conn_info c) (mux n)))
    by apply lookup_delete_eq.
  erewrite update_route_keep; [apply lookup_insert_eq|apply lookup_insert_eq|]. cbn. lia.
Qed.

(** Shutting the store down empties the connection table and cancels every
    connection and dialling task it tracked: such a task ends at its next round
    without registering anything. *)
Theorem store_shutdown_stops n :
  connections (store_shutdown n) = ∅ ∧ mux (store_shutdown n) = mux n ∧
  ∀ ci t, connections n !! ci = Some t →
    tracker_token t ∈ cancelled (store_shutdown n) ∧
    ∀ conn, let n' := connect_task_round (tracker_token t) conn (store_shutdown n) in
      tasks n' = delete (tracker_token t) (tasks n) ∧ mux n' = mux n ∧ connections n' = ∅.
Proof.
  destruct (foldr_cancel_frame (map_to_list (connections n)) n) as (Hm & Ht & _).
  split; [done|]. split; [done|]. intros ci t Hci.
  assert (tracker_token t ∈ cancelled (store_shutdown n)) as Hin.
  { unfold store_shutdown. cbn. apply (cancelled_foldr _ _ (ci, t)). by apply elem_of_map_to_list. }
  split; [done|]. intros conn. unfold connect_task_round. rewrite decide_True by done.
  cbn. by rewrite Ht.
Qed.

(** Starting a fresh service. Without routes in the configuration it is an
    [InvalidArgs] error; otherwise the routes are set and every peer of the
    configuration is being dialled, from the path of the first route, once per
    second until it answers or the store is shut down. *)
Theorem start_dials_peers rs ps startup :
  let n0 := mkNode (mux_new startup) ∅ [] ∅ ∅ 0 in
  match rs with
  | [] => ∃ w, start (Chan:=Chan) [] ps n0 = Done (Err (InputErr InvalidArgs w), n0)
  | r :: _ => ∃ n', start rs ps n0 = Done (Ok tt, n') ∧
      mux n' = set_my_routes rs (mux_new startup) ∧
      ∀ p, p ∈ ps → dialling (peer_info (route_key_path r) p) 1000 n'
  end.
Proof.
  intros n0. destruct rs as [|r rs]; [by eexists|].
  set (n1 := with_mux (set_my_routes (r :: rs)) n0).
  set (n2 := foldl (flip add_my_route) n1 (r :: rs)).
  destruct (add_my_routes_frame rs (add_my_route r n1)) as (Hm & _ & Ht & Hn & Hh).
  assert (head (store_routes n2) = Some r) as Hr by by apply Hh.
  destruct (start_tasks_dialling (route_key_path r) ps n2) as (_ & Hmux & _ & Hp).
  { intros t. unfold n2. cbn [foldl flip]. rewrite Ht. cbn. by intros [? ?%lookup_empty_Some]. }
  eexists. split; [|split; [|exact Hp]].
  - unfold start. rewrite bind_modify, (bind_done _ _ _ _ _ (add_my_routes_run _ _)). by apply add_peers_run.
  - rewrite Hmux. unfold n2. cbn [foldl flip]. by rewrite Hm.
Qed.

End ConnProperties.

(** * Concrete instances *)

Definition demo_node : NodeState BoundedChan := mkNode demo ∅ [mkRouteConfig demo_home ScopeCluster] ∅ ∅ 0.
Definition demo_ping : SwbusMessage := demo_msg 63 demo_local_svc demo_peer_svc PingRequest.
Definition demo_bad : SwbusMessage := mkMessage None (Some PingRequest).

Lemma data_message_validation_witness :
  ∃ w, process_data_message false 5 demo_bad demo_node = Done (Err (InputErr InvalidHeader w), demo_node).
Proof.
  apply (data_message_validation false 5 demo_bad demo_node).
  - intros (h & Hh & _). discriminate Hh.
  - by left.
Defined.

Definition demo_delivered : NodeState BoundedChan :=
  match deliver false 5 [demo_bad; demo_ping] demo_node with Done (_, n) => n | _ => demo_node end.

Lemma worker_lifetime_witness :
  ∃ r n', run false 5 demo_conn [EvMessage demo_bad; EvMessage demo_ping; EvStreamClosed] demo_node
    = Done (r, n') ∧ dialling demo_conn 1 n'.
Proof.
  destruct (worker_lifetime false 5 demo_conn [demo_bad; demo_ping] EvStreamClosed demo_node demo_delivered)
    as (r & n' & Hrun & _ & _ & _ & Hd); [vm_compute; reflexivity|exact I|].
  exists r, n'. split; [exact Hrun|exact Hd].
Defined.

Definition demo_dialler : SwbusConnInfo :=
  new_client ConnCluster (mkAddr "10.0.0.2" 23606) demo_home
    (mkPath "region-a" "cluster-a" "10.0.0.3-dpu0" "" "" "" "").


Lemma late_registration_keeps_dead_route_witness :
  ∃ e n1, run false 0 demo_conn [EvStreamClosed] demo_node = Done (Err e, n1).
Proof.
  destruct (late_registration_keeps_dead_route false 0 (mkConn demo_conn 3 0) (mkConn demo_conn 4 1) demo_node)
    as (e & n1 & Hrun & _); [reflexivity..|]. by exists e, n1.
Defined.

Definition demo_peer_config : PeerConfig := mkPeer demo_peer (mkAddr "10.0.0.1" 23606) ConnCluster.
Definition demo_store : NodeState BoundedChan := start_connect_task demo_conn false demo_node.

Lemma store_shutdown_stops_witness :
  tasks (connect_task_round 0 None (store_shutdown demo_store)) = ∅.
Proof.
  destruct (proj2 (proj2 (store_shutdown_stops demo_store)) demo_conn (TrackTask 0)) as [_ Hround].
  - apply lookup_insert_eq.
  - destruct (Hround None) as [Ht _]. etrans; [exact Ht|]. vm_compute. reflexivity.
Defined.

Lemma start_dials_peers_witness :
  ∃ n', start (Chan:=BoundedChan) [mkRouteConfig demo_home ScopeCluster] [demo_peer_config]
    (mkNode (mux_new 0) ∅ [] ∅ ∅ 0) = Done (Ok tt, n') ∧ dialling demo_conn 1000 n'.
Proof.
  destruct (start_dials_peers (Chan:=BoundedChan) [mkRouteConfig demo_home ScopeCluster] [demo_peer_config] 0)
    as (n' & Hrun & _ & Hp).
  exists n'. split; [exact Hrun|]. apply (Hp demo_peer_config). by apply list_elem_of_here.
Defined.
