(* ===== verification/Edge.v ===== *)
(** The swbus edge: the message router of a client process, its handlers, the
    core client that talks to swbusd, and the simplified client the actors and
    bridges use. Models crates/swbus-edge/src. Channels are the lists of what
    was sent on them, with a flag for a dropped receiver; a send that waits for
    room in a bounded channel is a send that has got it. *)
From S2P Require Import Prelude RustStr Path Proto.

Open Scope stdpp_scope.

(** * Channels *)

Record MsgChan : Set := mkMsgChan { delivered : list SwbusMessage; receiver_open : bool }.

Definition chan_send (c : MsgChan) (m : SwbusMessage) : option MsgChan :=
  if receiver_open c then Some (mkMsgChan (delivered c ++ [m]) true) else None.

(** [SwbusMessageHandlerProxy]: the sending side of a handler's channel. *)
Record SwbusMessageHandlerProxy : Set := mkHandler { tx : nat }.

(** * The route map *)

Inductive Privacy : Set := Public | Private.

#[export] Instance privacy_eq_dec : EqDecision Privacy.
Proof. solve_decision. Defined.

Definition RouteMap : Type := gmap ServicePath (SwbusMessageHandlerProxy * Privacy).

Definition route_map_insert (svc_path : ServicePath) (handler : SwbusMessageHandlerProxy)
    (privacy : Privacy) (rs : RouteMap) : RouteMap := <[svc_path := (handler, privacy)]> rs.

Definition route_map_get (svc_path : ServicePath) (message_privacy : Privacy) (rs : RouteMap)
    : option SwbusMessageHandlerProxy :=
  match rs !! svc_path with
  | Some (handler, route_privacy) =>
      if bool_decide (route_privacy = Private) && bool_decide (message_privacy = Public)
      then None else Some handler
  | None => None
  end.

(** * The edge runtime *)

(** [SwbusEdgeRuntime] with its router: the route map, the channels of the
    handlers, the queue to the router, and the queue to swbusd while it is
    connected ([send_queue_tx]). *)
Record EdgeState : Type := mkEdge {
  base_sp : ServicePath;
  edge_routes : RouteMap;
  handlers : gmap nat MsgChan;
  sender_to_message_router : MsgChan;
  core_queue : option MsgChan;
}.

Definition edge_new (sp : ServicePath) : EdgeState :=
  mkEdge sp ∅ ∅ (mkMsgChan [] true) None.

Definition with_handler (h : nat) (c : MsgChan) (s : EdgeState) : EdgeState :=
  mkEdge (base_sp s) (edge_routes s) (<[h := c]> (handlers s)) (sender_to_message_router s) (core_queue s).

Definition new_sp (resource_type resource_id : string) (s : EdgeState) : ServicePath :=
  let b := base_sp s in
  mkPath (region_id b) (cluster_id b) (node_id b) (service_type b) (service_id b) resource_type resource_id.

Definition add_route (privacy : Privacy) (svc_path : ServicePath) (h : nat) (s : EdgeState) : EdgeState :=
  mkEdge (base_sp s) (route_map_insert svc_path (mkHandler h) privacy (edge_routes s)) (handlers s)
    (sender_to_message_router s) (core_queue s).

Definition add_handler (svc_path : ServicePath) (h : nat) : EdgeState → EdgeState :=
  add_route Public svc_path h.
Definition add_private_handler (svc_path : ServicePath) (h : nat) : EdgeState → EdgeState :=
  add_route Private svc_path h.

(** [SwbusEdgeRuntime::send] *)
Definition edge_send (message : SwbusMessage) : M EdgeState SwbusError unit :=
  let* s := get_state in
  match chan_send (sender_to_message_router s) message with
  | Some c => put_state (mkEdge (base_sp s) (edge_routes s) (handlers s) c (core_queue s))
  | None => throw_connection ConnectionError "Message router channel is broken"
  end.

Definition swbusd_connected (s : EdgeState) : bool := if core_queue s is Some _ then true else false.

(** [SwbusMessageHandlerProxy::send] *)
Definition handler_send (p : SwbusMessageHandlerProxy) (message : SwbusMessage)
    : M EdgeState SwbusError unit :=
  let* s := get_state in
  let* c := unwrap "dangling handler" (handlers s !! tx p) in
  match chan_send c message with
  | Some c' => put_state (with_handler (tx p) c' s)
  | None => throw_connection ConnectionError "Message handler channel is broken"
  end.

(** [SwbusCoreClient::send] *)
Definition core_send (message : SwbusMessage) : M EdgeState SwbusError unit :=
  let* s := get_state in
  match core_queue s with
  | None => throw_connection ConnectionError "Not connected to swbusd"
  | Some q =>
      match chan_send q message with
      | Some q' => put_state (mkEdge (base_sp s) (edge_routes s) (handlers s)
                                (sender_to_message_router s) (Some q'))
      | None => throw_connection ConnectionError "channel closed"
      end
  end.

(** The outcome of one dial of [spawn_connect_task]: connected, with a fresh
    queue to swbusd, or not. The task retries in both cases, after the
    receiving task has ended and the queue was dropped. *)
Definition swbusd_dialled (connected : bool) (s : EdgeState) : EdgeState :=
  if connected then
    mkEdge (base_sp s) (edge_routes s) (handlers s) (sender_to_message_router s) (Some (mkMsgChan [] true))
  else s.
Definition swbusd_lost (s : EdgeState) : EdgeState :=
  mkEdge (base_sp s) (edge_routes s) (handlers s) (sender_to_message_router s) None.

(** The metadata [connect] sends. *)
Definition connect_metadata `{!Metadata} {E} : M EdgeState E (string * string) :=
  let* s := get_state in
  let* path := unwrap "InvalidMetadataValue" (metadata_from_str (to_service_prefix (base_sp s))) in
  let* ct := unwrap "InvalidMetadataValue" (metadata_from_str "CONNECTION_TYPE_LOCAL") in
  ret (path, ct).

(** ** Routing *)

Definition try_route (dest : ServicePath) (privacy : Privacy) (message : SwbusMessage)
    : M EdgeState SwbusError bool :=
  let* s := get_state in
  match route_map_get dest privacy (edge_routes s) with
  | Some handler =>
      let* _ := attempt (E:=SwbusError) (handler_send handler message) in
      ret true
  | None => ret false
  end.

Definition clear_resource_id (sp : ServicePath) : ServicePath :=
  mkPath (region_id sp) (cluster_id sp) (node_id sp) (service_type sp) (service_id sp)
    (resource_type sp) "".
Definition clear_resource_type (sp : ServicePath) : ServicePath :=
  mkPath (region_id sp) (cluster_id sp) (node_id sp) (service_type sp) (service_id sp)
    "" (resource_id sp).

(** [SwbusMessageRouter::route_message]: errors are logged. *)
Definition edge_route_message (message : SwbusMessage) (privacy : Privacy) : M EdgeState SwbusError unit :=
  match header message with
  | None => ret tt
  | Some h =>
      match destination h with
      | None => ret tt
      | Some dest =>
          let* hit := try_route dest privacy message in
          if hit : bool then ret tt else
          let partial_dest := clear_resource_id dest in
          let* hit := try_route partial_dest privacy message in
          if hit : bool then ret tt else
          let partial_dest := clear_resource_type partial_dest in
          let* hit := try_route partial_dest privacy message in
          if hit : bool then ret tt else
          let* _ := attempt (E:=SwbusError) (core_send message) in
          ret tt
      end
  end.

(** What the router task receives: from a client of this process, or from swbusd. *)
Definition route_task (msgs : list (SwbusMessage * Privacy)) : M EdgeState SwbusError unit :=
  for_each (λ e, edge_route_message e.1 e.2) msgs.

(** * The simple client *)

Inductive MessageBody : Type :=
| BodyRequest (payload : list Z)
| BodyResponse (rid : Z) (code : SwbusErrorCode) (msg : string) (rbody : option string)
| BodyManagement (request : ManagementRequestType) (args : gmap string string).

Record IncomingMessage : Type := mkIncoming {
  in_id : Z;
  in_source : ServicePath;
  in_destination : ServicePath;
  in_body : MessageBody;
}.

Record OutgoingMessage : Type := mkOutgoing { out_destination : ServicePath; out_body : MessageBody }.

(** [SimpleSwbusEdgeClient]: [handler_rx] holds what the router delivered,
    [router] is the queue [rt.send] writes to. *)
Record SimpleClient : Type := mkClient {
  client_source : ServicePath;
  client_sink : bool;
  client_ids : MessageIdGenerator;
  handler_rx : list SwbusMessage;
  router : MsgChan;
}.

Definition client_generate {E} : M SimpleClient E Z :=
  λ c, let '(i, g) := id_generate (client_ids c) in
       Done (Ok i, mkClient (client_source c) (client_sink c) g (handler_rx c) (router c)).

Inductive HandleReceivedMessage : Type :=
| PassToActor (m : IncomingMessage)
| Respond (m : SwbusMessage)
| Ignore.

Definition handle_received_message {E} (msg : SwbusMessage) : M SimpleClient E HandleReceivedMessage :=
  let* h := unwrap "header" (header msg) in
  let mid := id h in
  let* src := unwrap "source" (source h) in
  let* dst := unwrap "destination" (destination h) in
  let* b := unwrap "body" (body msg) in
  let* self := get_state in
  if client_sink self && negb (bool_decide (dst = client_source self)) then
    let* i := client_generate in
    ret (Respond (message_new (header_new (client_source self) src i)
           (Response (infra_error mid NoRoute "Route not found"))))
  else
    match b with
    | DataRequest payload => ret (PassToActor (mkIncoming mid src dst (BodyRequest payload)))
    | Response r =>
        ret (PassToActor (mkIncoming mid src dst
          (BodyResponse (request_id r) (default UnknownError (error_code_of_i32 (error_code r)))
             (error_message r) None)))
    | PingRequest | TraceRouteRequest =>
        let* i := client_generate in
        ret (Respond (message_new (header_new dst src i) (Response (response_ok mid))))
    | BodyManagementRequest req =>
        match mgmt_type_of_i32 (mgmt_request req) with
        | Some t => ret (PassToActor (mkIncoming mid src dst
                      (BodyManagement t (list_to_map (reverse (mgmt_arguments req))))))
        | None => ret Ignore
        end
    | _ => ret Ignore
    end.

(** [rt.send(msg)] of the client. *)
Definition client_send_raw (msg : SwbusMessage) : M SimpleClient SwbusError unit :=
  let* c := get_state in
  match chan_send (router c) msg with
  | Some q => put_state (mkClient (client_source c) (client_sink c) (client_ids c) (handler_rx c) q)
  | None => throw_connection ConnectionError "Message router channel is broken"
  end.

(** The [recv] loop over [queue], the messages waiting in [handler_rx]: [None]
    when it would wait for more. *)
Fixpoint recv_loop (queue : list SwbusMessage) : M SimpleClient SwbusError (option IncomingMessage) :=
  modify (λ c, mkClient (client_source c) (client_sink c) (client_ids c) (tail queue) (router c));;;
  match queue with
  | [] => ret None
  | msg :: queue' =>
      let* x := handle_received_message msg in
      match x with
      | PassToActor m => ret (Some m)
      | Respond m => unwrap_result "rt.send" (client_send_raw m);;; recv_loop queue'
      | Ignore => recv_loop queue'
      end
  end.

Definition recv : M SimpleClient SwbusError (option IncomingMessage) :=
  let* c := get_state in recv_loop (handler_rx c).

Definition outgoing_message_to_swbus_message {E} (msg : OutgoingMessage) : M SimpleClient E (Z * SwbusMessage) :=
  let* i := client_generate in
  let* c := get_state in
  let* b := match out_body msg with
            | BodyRequest payload => ret (DataRequest payload)
            | BodyResponse rid code m rbody =>
                ret (Response (mkResponse rid (error_code_i32 code) m (ManagementQueryResult <$> rbody)))
            | BodyManagement _ _ => panic "not implemented"
            end in
  ret (i, mkMessage (Some (header_new (client_source c) (out_destination msg) i)) (Some b)).

(** [SimpleSwbusEdgeClient::send] *)
Definition client_send (msg : OutgoingMessage) : M SimpleClient SwbusError Z :=
  let* x := outgoing_message_to_swbus_message msg in
  client_send_raw x.2;;;
  ret x.1.

(** * Registering and dropping handlers *)

(** [SimpleSwbusEdgeClient::new]: a fresh channel, and a route to it. *)
Definition client_new {E} (src : ServicePath) (public : bool) : M EdgeState E nat :=
  let* s := get_state in
  let h := fresh (dom (handlers s)) in
  put_state ((if public then add_handler else add_private_handler) src h
    (with_handler h (mkMsgChan [] true) s));;;
  ret h.

(** The receiver of handler [h] is dropped. *)
Definition receiver_dropped (h : nat) (s : EdgeState) : EdgeState :=
  match handlers s !! h with
  | Some c => with_handler h (mkMsgChan (delivered c) false) s
  | None => s
  end.

(** The sender of a handler lives in the routes only: when none is left,
    [Receiver::recv] returns [None] once the channel is empty. *)
Definition senders_dropped (h : nat) (s : EdgeState) : bool :=
  forallb (λ e : ServicePath * (SwbusMessageHandlerProxy * Privacy), negb (tx e.2.1 =? h)) (map_to_list (edge_routes s)).
