(* ===== verification/EdgeTheory.v ===== *)
(** Theorems about the swbus edge of Edge.v: which handler a message reaches,
    privacy of handlers, reachability of an actor from swbusd, and the
    messages the simple client answers by itself. *)
From S2P Require Import Prelude RustStr Path Proto Mux MuxTheory MuxWitness Conn ConnTheory Edge.

Open Scope stdpp_scope.

(** * The router *)

(** The route keys tried for a destination, most specific first. *)
Definition candidates (d : ServicePath) : list ServicePath :=
  [d; clear_resource_id d; clear_resource_type (clear_resource_id d)].

Fixpoint find_handler (privacy : Privacy) (rs : RouteMap) (cs : list ServicePath)
    : option SwbusMessageHandlerProxy :=
  match cs with
  | [] => None
  | c :: cs' =>
      match route_map_get c privacy rs with
      | Some h => Some h
      | None => find_handler privacy rs cs'
      end
  end.

(** Every handler of the route map has a channel. *)
Definition wf_edge (s : EdgeState) : Prop :=
  ∀ sp h p, edge_routes s !! sp = Some (h, p) → is_Some (handlers s !! tx h).

(** Delivering to a handler whose receiver may be gone. *)
Definition deliver_to (h : nat) (ch : MsgChan) (msg : SwbusMessage) (s : EdgeState) : EdgeState :=
  if receiver_open ch then with_handler h (mkMsgChan (delivered ch ++ [msg]) true) s else s.

(** Handing over to swbusd, if it is connected. *)
Definition to_swbusd (msg : SwbusMessage) (s : EdgeState) : EdgeState :=
  match core_queue s with
  | Some q => if receiver_open q
              then mkEdge (base_sp s) (edge_routes s) (handlers s) (sender_to_message_router s)
                     (Some (mkMsgChan (delivered q ++ [msg]) true))
              else s
  | None => s
  end.

Lemma try_route_miss d p msg s :
  route_map_get d p (edge_routes s) = None → try_route d p msg s = Done (Ok false, s).
Proof. intros Hd. unfold try_route. by rewrite bind_get, Hd. Qed.

Lemma try_route_hit d p msg s h ch :
  route_map_get d p (edge_routes s) = Some h → handlers s !! tx h = Some ch →
  try_route d p msg s = Done (Ok true, deliver_to (tx h) ch msg s).
Proof.
  intros Hd Hh. unfold try_route. rewrite bind_get, Hd. unfold bind at 1, attempt, handler_send.
  rewrite bind_get, Hh. cbn. unfold chan_send, deliver_to. by destruct (receiver_open ch).
Qed.

Lemma core_send_run {B} msg s (k : result unit SwbusError → M EdgeState SwbusError B) :
  ∃ r, bind (attempt (core_send msg)) k s = k r (to_swbusd msg s).
Proof.
  unfold bind, attempt, core_send, bind, get_state, to_swbusd, chan_send, put_state.
  destruct (core_queue s) as [q|]; [destruct (receiver_open q)|]; by eexists.
Qed.

Lemma edge_route_run msg h d p s :
  header msg = Some h → destination h = Some d →
  edge_route_message msg p s =
    match find_handler p (edge_routes s) (candidates d) with
    | Some hd => match handlers s !! tx hd with
                 | Some ch => Done (Ok tt, deliver_to (tx hd) ch msg s)
                 | None => Panicked "dangling handler"
                 end
    | None => Done (Ok tt, to_swbusd msg s)
    end.
Proof.
  intros Hh Hd. unfold edge_route_message, candidates. rewrite Hh, Hd. cbn [find_handler].
  assert (∀ d' (k : bool → M EdgeState SwbusError unit),
    bind (try_route d' p msg) k s = match route_map_get d' p (edge_routes s) with
      | Some hd => match handlers s !! tx hd with
                   | Some ch => k true (deliver_to (tx hd) ch msg s)
                   | None => Panicked "dangling handler" end
      | None => k false s end) as Hstep.
  { intros d' k. destruct (route_map_get d' p _) as [hd|] eqn:Hg.
    - destruct (handlers s !! tx hd) as [ch|] eqn:Hc.
      + by rewrite (bind_done _ _ _ _ _ (try_route_hit _ _ _ _ _ _ Hg Hc)).
      + unfold try_route, bind, get_state. rewrite Hg. unfold attempt, handler_send, bind, get_state.
        by rewrite Hc.
    - by rewrite (bind_done _ _ _ _ _ (try_route_miss _ _ _ _ Hg)). }
  rewrite Hstep. destruct (route_map_get d p _); [by case_match|].
  rewrite Hstep. destruct (route_map_get (clear_resource_id d) p _); [by case_match|].
  rewrite Hstep. destruct (route_map_get (clear_resource_type _) p _); [by case_match|].
  by destruct (core_send_run msg s (λ _, ret tt)) as [r ->].
Qed.

Lemma find_handler_inv p rs cs h :
  find_handler p rs cs = Some h → ∃ c q, c ∈ cs ∧ rs !! c = Some (h, q) ∧ (p = Public → q = Public).
Proof.
  induction cs as [|c cs IH]; [done|]. cbn. unfold route_map_get.
  destruct (rs !! c) as [[h' q]|] eqn:Hc.
  - destruct (bool_decide _ && _) eqn:Hb.
    + intros (c' & q' & Hin & Hr)%IH. exists c', q'. split; [by apply list_elem_of_further|done].
    + intros [= <-]. exists c, q. split; [by apply list_elem_of_here|]. split; [done|].
      intros ->. destruct q; [done|]. by rewrite !bool_decide_eq_true_2 in Hb.
  - intros (c' & q' & Hin & Hr)%IH. exists c', q'. split; [by apply list_elem_of_further|done].
Qed.

Lemma find_handler_first p rs cs i c h :
  cs !! i = Some c → route_map_get c p rs = Some h →
  (∀ j c', j < i → cs !! j = Some c' → route_map_get c' p rs = None) →
  find_handler p rs cs = Some h.
Proof.
  revert i. induction cs as [|c0 cs IH]; intros i Hi Hc Hless; [done|].
  destruct i as [|i]; cbn.
  - cbn in Hi. injection Hi as ->. by rewrite Hc.
  - rewrite (Hless 0 c0) by (done || lia). apply (IH i); [done..|].
    intros j c' Hj. apply (Hless (S j) c'). lia.
Qed.

Lemma find_handler_none p rs cs :
  (∀ c, c ∈ cs → route_map_get c p rs = None) → find_handler p rs cs = None.
Proof.
  induction cs as [|c cs IH]; intros Hc; [done|]. cbn.
  rewrite (Hc c) by by apply list_elem_of_here. apply IH. intros c' Hin.
  by apply Hc, list_elem_of_further.
Qed.

(** Routing keeps the route map and the set of channels. *)
Definition same_routes (s s' : EdgeState) : Prop :=
  edge_routes s' = edge_routes s ∧ base_sp s' = base_sp s ∧ dom (handlers s') = dom (handlers s).

Lemma same_routes_wf s s' : same_routes s s' → wf_edge s → wf_edge s'.
Proof.
  intros (Hr & _ & Hd) Hwf sp h p. rewrite Hr. intros Hs%Hwf.
  apply elem_of_dom. rewrite Hd. by apply elem_of_dom.
Qed.

(** One message on an edge whose handlers all exist: the router returns, and
    the channel of a handler that is only registered privately is untouched by
    a public message. *)
Lemma edge_route_total msg p s :
  wf_edge s → ∃ s', edge_route_message msg p s = Done (Ok tt, s') ∧ same_routes s s' ∧
    ∀ h, (∀ sp q, edge_routes s !! sp = Some (mkHandler h, q) → q = Private) → p = Public →
      handlers s' !! h = handlers s !! h.
Proof.
  intros Hwf. destruct (header msg) as [hd|] eqn:Hh; [|exists s; split; [|done]].
  2: { unfold edge_route_message. by rewrite Hh. }
  destruct (destination hd) as [d|] eqn:Hd; [|exists s; split; [|done]].
  2: { unfold edge_route_message. by rewrite Hh, Hd. }
  rewrite (edge_route_run _ _ _ _ _ Hh Hd).
  destruct (find_handler p (edge_routes s) (candidates d)) as [h|] eqn:Hf.
  - destruct (find_handler_inv _ _ _ _ Hf) as (c & q & _ & Hc & Hpub).
    destruct (Hwf _ _ _ Hc) as [ch Hch]. rewrite Hch. eexists. split; [done|].
    unfold deliver_to. destruct (receiver_open ch); [|done]. split.
    + split_and!; [done..|]. cbn. apply dom_insert_lookup_L. eauto.
    + intros h' Hpriv Hp. cbn. rewrite lookup_insert_ne; [done|]. intros <-.
      destruct h as [h]. rewrite (Hpub Hp) in Hc. by apply Hpriv in Hc.
  - eexists. split; [done|]. unfold to_swbusd. repeat case_match; done.
Qed.

(** * The simple client *)

(** The client state after taking an id and queueing a response. *)
Definition after_answer (c : SimpleClient) (r : SwbusMessage) : SimpleClient :=
  mkClient (client_source c) (client_sink c) (id_generate (client_ids c)).2 (handler_rx c)
    (mkMsgChan (delivered (router c) ++ [r]) true).

Definition answer (c : SimpleClient) (src dst : ServicePath) (r : RequestResponse) : SwbusMessage :=
  message_new (header_new src dst (next_id (client_ids c))) (Response r).

Definition set_rx (q : list SwbusMessage) (c : SimpleClient) : SimpleClient :=
  mkClient (client_source c) (client_sink c) (client_ids c) q (router c).

(** What [recv] answers by itself, for a client that is not a sink: pings and
    trace routes. *)
Definition infra_request (m : SwbusMessage) : option (Z * ServicePath * ServicePath) :=
  match header m, body m with
  | Some h, Some PingRequest | Some h, Some TraceRouteRequest =>
      match source h, destination h with
      | Some s, Some d => Some (id h, s, d)
      | _, _ => None
      end
  | _, _ => None
  end.

Lemma handle_infra {E} m i s d (c : SimpleClient) :
  client_sink c = false → infra_request m = Some (i, s, d) →
  handle_received_message (E:=E) m c =
    Done (Ok (Respond (answer c d s (response_ok i))),
          mkClient (client_source c) (client_sink c) (id_generate (client_ids c)).2 (handler_rx c) (router c)).
Proof.
  destruct c as [cs sk ci hr ro]. cbn [client_sink]. intros ->.
  unfold infra_request, handle_received_message.
  destruct (header m) as [h|]; [|by destruct (body m)]. destruct (body m) as [b|]; [|done].
  destruct b; try done;
    destruct (source h) eqn:Hs, (destination h) eqn:Hd; try done;
    intros [= <- <- <-]; cbn; rewrite Hs, Hd; reflexivity.
Qed.

Lemma recv_infra m i s d q (c : SimpleClient) :
  client_sink c = false → receiver_open (router c) = true → infra_request m = Some (i, s, d) →
  recv_loop (m :: q) c = recv_loop q (after_answer (set_rx q c) (answer c d s (response_ok i))).
Proof.
  intros Hsink Hopen Hm. cbn [recv_loop]. rewrite bind_modify. cbn [tail].
  change (mkClient _ _ _ q _) with (set_rx q c).
  rewrite (bind_done _ _ _ _ _ (handle_infra m i s d (set_rx q c) Hsink Hm)).
  unfold unwrap_result, bind, attempt, client_send_raw, bind, get_state, chan_send. cbn.
  by rewrite Hopen.
Qed.

(** A request for an actor. *)
Definition data_message (i : Z) (s d : ServicePath) (payload : list Z) : SwbusMessage :=
  mkMessage (Some (header_new s d i)) (Some (DataRequest payload)).

Lemma recv_data i s d payload q (c : SimpleClient) :
  client_sink c = false →
  recv_loop (data_message i s d payload :: q) c =
    Done (Ok (Some (mkIncoming i s d (BodyRequest payload))), set_rx q c).
Proof. destruct c as [cs sk ci hr ro]. cbn [client_sink]. by intros ->. Qed.

(** The client on a message with everything set, the sink test left open. *)
Lemma handle_message_new {E} src dst i bd (c : SimpleClient) :
  handle_received_message (E:=E) (mkMessage (Some (header_new src dst i)) (Some bd)) c =
  (if client_sink c && negb (bool_decide (dst = client_source c)) then
     let* j := client_generate in
     ret (Respond (message_new (header_new (client_source c) src j)
            (Response (infra_error i NoRoute "Route not found"))))
   else match bd with
   | DataRequest payload => ret (PassToActor (mkIncoming i src dst (BodyRequest payload)))
   | Response r => ret (PassToActor (mkIncoming i src dst (BodyResponse (request_id r)
       (default UnknownError (error_code_of_i32 (error_code r))) (error_message r) None)))
   | PingRequest | TraceRouteRequest =>
       let* j := client_generate in
       ret (Respond (message_new (header_new dst src j) (Response (response_ok i))))
   | BodyManagementRequest req =>
       match mgmt_type_of_i32 (mgmt_request req) with
       | Some t => ret (PassToActor (mkIncoming i src dst
                     (BodyManagement t (list_to_map (reverse (mgmt_arguments req))))))
       | None => ret Ignore
       end
   | _ => ret Ignore
   end) c.
Proof. reflexivity. Qed.

(** * Properties *)

(** C13: the edge router delivers a message to the handler of the most specific
    candidate route the message may see (full path, then without resource id,
    then without resource type), and to nobody else; a message no candidate
    serves goes to swbusd, when connected, with everything else unchanged. *)
Theorem edge_routing msg h d privacy s :
  header msg = Some h → destination h = Some d →
  (∀ i c hd ch, candidates d !! i = Some c → route_map_get c privacy (edge_routes s) = Some hd →
     (∀ j c', j < i → candidates d !! j = Some c' → route_map_get c' privacy (edge_routes s) = None) →
     handlers s !! tx hd = Some ch → receiver_open ch = true →
     edge_route_message msg privacy s =
       Done (Ok tt, with_handler (tx hd) (mkMsgChan (delivered ch ++ [msg]) true) s)) ∧
  ((∀ c, c ∈ candidates d → route_map_get c privacy (edge_routes s) = None) →
     edge_route_message msg privacy s = Done (Ok tt, to_swbusd msg s)).
Proof.
  intros Hh Hd. split.
  - intros i c hd ch Hi Hc Hless Hch Hopen. rewrite (edge_route_run _ _ _ _ _ Hh Hd).
    rewrite (find_handler_first _ _ _ _ _ _ Hi Hc Hless), Hch. unfold deliver_to. by rewrite Hopen.
  - intros Hnone. by rewrite (edge_route_run _ _ _ _ _ Hh Hd), find_handler_none.
Qed.

(** Privacy. However many messages swbusd delivers to an edge, the router
    handles them all, and a handler that is only registered privately never
    receives one of them. *)
Theorem private_handlers_unreachable msgs s :
  wf_edge s →
  ∃ s', route_task ((λ m, (m, Public)) <$> msgs) s = Done (Ok tt, s') ∧
    ∀ h, (∀ sp q, edge_routes s !! sp = Some (mkHandler h, q) → q = Private) →
      handlers s' !! h = handlers s !! h.
Proof.
  unfold route_task. revert s. induction msgs as [|m msgs IH]; intros s Hwf; [by exists s|].
  cbn [fmap list_fmap for_each fst snd].
  destruct (edge_route_total m Public s Hwf) as (s1 & Hrun & Hsame & Hpriv).
  destruct (IH s1 (same_routes_wf _ _ Hsame Hwf)) as (s' & Hrun' & Hpriv').
  exists s'. split; [by rewrite (bind_done _ _ _ _ _ Hrun)|].
  intros h Hh. rewrite Hpriv'; [by apply Hpriv|]. by rewrite (proj1 Hsame).
Qed.

(** An actor is reachable from swbusd. The metadata an edge connects with
    is accepted by swbusd, which then forwards every message for a resource of
    that edge to its connection; and the edge delivers it to the public
    handler registered for the resource. *)
Theorem actor_reachable `{Mpsc Chan} `{!Metadata} `{!MetadataLaws} (n : NodeState Chan) s addr q c rt rid hd ch msg h :
  wf_path (base_sp s) = true → visible_ascii (to_service_prefix (base_sp s)) = true →
  routes (mux n) !! to_service_prefix (base_sp s) = None →
  edge_routes s !! new_sp rt rid s = Some (mkHandler hd, Public) →
  handlers s !! hd = Some ch → receiver_open ch = true →
  header msg = Some h → destination h = Some (new_sp rt rid s) →
  ∃ meta conn n',
    connect_metadata (E:=SwbusError) s = Done (Ok meta, s) ∧
    stream_messages addr (Some meta.1) (Some meta.2) q c n = Done (Ok conn, n') ∧
    dest_route (mux n') (new_sp rt rid s) = Some (new_remote (conn_info conn) (new_proxy conn) 1) ∧
    send_queues (mux n') !! q = Some c ∧ send_queue_tx (new_proxy conn) = q ∧
    edge_route_message msg Public s =
      Done (Ok tt, with_handler hd (mkMsgChan (delivered ch ++ [msg]) true) s).
Proof.
  intros Hwf%wf_path_spec Hvis Hfree Hroute Hch Hopen Hh Hd.
  set (conn := accepted addr ConnLocal (service_part (base_sp s)) q n).
  exists (to_service_prefix (base_sp s), connection_type_str ConnLocal), conn, (conn_established conn (accepting q c n)).
  assert (find_handler Public (edge_routes s) (candidates (new_sp rt rid s)) = Some (mkHandler hd)) as Hf.
  { cbn. unfold route_map_get. by rewrite Hroute. }
  split_and!.
  - unfold connect_metadata. rewrite bind_get, metadata_visible by done. cbn [unwrap].
    rewrite bind_ret, (metadata_visible "CONNECTION_TYPE_LOCAL") by done. reflexivity.
  - cbn [fst snd]. apply stream_messages_run. by apply from_service_prefix.
  - apply (established_route _ _ StageLocal); [done| |done|..].
    + exact Hfree.
    + intros [] Hr; cbn in Hr; lia.
    + intros [] Hr; cbn in Hr; lia.
  - cbn. unfold register, update_route. repeat case_match; cbn; apply lookup_insert_eq.
  - done.
  - rewrite (edge_route_run _ _ _ _ _ Hh Hd), Hf. cbn. rewrite Hch. unfold deliver_to. by rewrite Hopen.
Qed.

(** [recv] answers, in order, every ping and trace route waiting in front
    of a data request, each with an [Ok] response to its sender carrying the
    id of the request, and returns the data request unchanged. *)
Theorem recv_answers_pings (reqs : list SwbusMessage) i s d payload rest (c : SimpleClient) :
  client_sink c = false → receiver_open (router c) = true →
  Forall (λ m, is_Some (infra_request m)) reqs →
  handler_rx c = reqs ++ data_message i s d payload :: rest →
  ∃ c' rs, recv c = Done (Ok (Some (mkIncoming i s d (BodyRequest payload))), c') ∧
    handler_rx c' = rest ∧ delivered (router c') = delivered (router c) ++ rs ∧
    Forall2 (λ m r, ∃ mid, infra_request m = Some mid ∧
      ∃ rid, r = message_new (header_new mid.2 mid.1.2 rid) (Response (response_ok mid.1.1))) reqs rs.
Proof.
  intros Hsink Hopen Hall Hrx. unfold recv. rewrite bind_get, Hrx. clear Hrx.
  revert c Hsink Hopen. induction Hall as [|m reqs [[[mi ms] md] Hm] Hall IH]; intros c Hsink Hopen.
  - cbn [app]. rewrite recv_data by done. exists (set_rx rest c), [].
    split_and!; [done..|by rewrite app_nil_r|constructor].
  - cbn [app]. rewrite (recv_infra _ mi ms md) by done.
    set (r := answer c md ms (response_ok mi)).
    set (q := reqs ++ data_message i s d payload :: rest).
    destruct (IH (after_answer (set_rx q c) r)) as (c' & rs & Hrun & Hrest & Hdel & Hrs); [done..|].
    exists c', (r :: rs). split_and!; [done..| |].
    + rewrite Hdel. cbn. by rewrite <- app_assoc.
    + constructor; [|done]. exists (mi, ms, md). split; [done|]. by exists (next_id (client_ids c)).
Qed.

(** What one simple client sends, another receives: a request arrives with
    its payload, a response with its request id, code and message (its body is
    not passed on), both with the sender's path and the id the sender got. *)
Theorem client_messages_roundtrip (E : Type) (a b : SimpleClient) dst body :
  client_sink b = false ∨ client_source b = dst →
  match body with BodyManagement _ _ => False | _ => True end →
  ∃ i msg a', outgoing_message_to_swbus_message (E:=E) (mkOutgoing dst body) a = Done (Ok (i, msg), a') ∧
    i = next_id (client_ids a) ∧
    handle_received_message (E:=E) msg b =
      Done (Ok (PassToActor (mkIncoming i (client_source a) dst
        match body with BodyResponse rid code m _ => BodyResponse rid code m None | x => x end)), b).
Proof.
  intros Hb Hbody.
  assert (client_sink b && negb (bool_decide (dst = client_source b)) = false) as Hs.
  { destruct Hb as [->| <-]; [done|]. rewrite bool_decide_eq_true_2 by done. apply andb_false_r. }
  destruct body as [payload|rid code m rb|]; [| |done];
    do 3 eexists; (split; [reflexivity|]; split; [reflexivity|]);
    rewrite handle_message_new; cbn [out_destination client_source]; rewrite Hs; [done|].
  cbn -[error_code_of_i32 error_code_i32]. by rewrite error_code_round_trip.
Qed.

(** The sink answers any message that is not for itself with [NoRoute],
    and such answers die out: the answer to the answer is addressed to the
    sink itself, which hands it over instead of answering again. *)
Theorem sink_bounce_ends (E : Type) (c : SimpleClient) msg h src dst b :
  client_sink c = true → header msg = Some h → source h = Some src → destination h = Some dst →
  body msg = Some b → src ≠ client_source c → dst ≠ client_source c →
  ∃ r1 c1 r2 c2 i,
    handle_received_message (E:=E) msg c = Done (Ok (Respond r1), c1) ∧
    addressed r1 (header_new (client_source c) src (next_id (client_ids c))) (client_source c) src ∧
    handle_received_message (E:=E) r1 c1 = Done (Ok (Respond r2), c2) ∧
    handle_received_message (E:=E) r2 c2 =
      Done (Ok (PassToActor (mkIncoming i (client_source c) (client_source c)
        (BodyResponse (next_id (client_ids c)) NoRoute "Route not found" None))), c2).
Proof.
  destruct c as [cs sk ci hr ro]. cbn [client_sink client_source client_ids handler_rx router].
  intros -> Hh Hs Hd Hb Hsrc Hdst. set (c := mkClient cs true ci hr ro).
  set (g := (id_generate (client_ids c)).2).
  exists (answer c (client_source c) src (infra_error (id h) NoRoute "Route not found")).
  exists (mkClient (client_source c) true g (handler_rx c) (router c)).
  exists (message_new (header_new (client_source c) (client_source c) (next_id g))
    (Response (infra_error (next_id (client_ids c)) NoRoute "Route not found"))).
  exists (mkClient (client_source c) true (id_generate g).2 (handler_rx c) (router c)), (next_id g).
  split_and!.
  - unfold handle_received_message. rewrite Hh, Hb. cbn. rewrite Hs, Hd. cbn.
    by rewrite bool_decide_eq_false_2.
  - done.
  - unfold answer, message_new. rewrite handle_message_new. cbn [client_sink client_source andb].
    by rewrite bool_decide_eq_false_2.
  - unfold message_new. rewrite handle_message_new. cbn [client_sink client_source andb].
    rewrite bool_decide_eq_true_2 by done. cbn -[error_code_of_i32 error_code_i32].
    by rewrite error_code_round_trip.
Qed.

(** * Concrete instances *)

Definition demo_edge_base : ServicePath := mkPath "region-a" "cluster-a" "10.0.0.2-dpu0" "hamgrd" "0" "" "".
Definition demo_edge_chan : MsgChan := mkMsgChan [] true.
(** A hamgrd edge with a public actor (0) and a private bridge (1). *)
Definition demo_edge : EdgeState :=
  with_handler 1 demo_edge_chan (with_handler 0 demo_edge_chan
    (add_private_handler (mkPath "region-a" "cluster-a" "10.0.0.2-dpu0" "hamgrd" "0" "swss-common-bridge" "X") 1
      (add_handler demo_local_svc 0 (edge_new demo_edge_base)))).

Lemma demo_edge_wf : wf_edge demo_edge.
Proof.
  assert (map_Forall (λ _ (e : SwbusMessageHandlerProxy * Privacy), is_Some (handlers demo_edge !! tx e.1))
    (edge_routes demo_edge)) as Hall by (apply (bool_decide_unpack _); vm_compute; exact I).
  intros sp h p Hs. exact (Hall sp (h, p) Hs).
Defined.

Lemma edge_routing_witness :
  edge_route_message (demo_msg 63 demo_peer_svc demo_local_svc PingRequest) Public demo_edge =
    Done (Ok tt, with_handler 0 (mkMsgChan [demo_msg 63 demo_peer_svc demo_local_svc PingRequest] true) demo_edge).
Proof.
  apply (proj1 (edge_routing (demo_msg 63 demo_peer_svc demo_local_svc PingRequest) (demo_header 63 demo_peer_svc demo_local_svc) demo_local_svc Public demo_edge
    eq_refl eq_refl)) with (i := 0) (c := demo_local_svc) (hd := mkHandler 0) (ch := demo_edge_chan);
    [reflexivity|vm_compute; reflexivity| |reflexivity|reflexivity].
  intros j c' Hj. lia.
Defined.

Lemma private_handlers_unreachable_witness :
  ∃ s', route_task [(demo_msg 63 demo_peer_svc
      (mkPath "region-a" "cluster-a" "10.0.0.2-dpu0" "hamgrd" "0" "swss-common-bridge" "X") PingRequest, Public)]
    demo_edge = Done (Ok tt, s').
Proof.
  destruct (private_handlers_unreachable [demo_msg 63 demo_peer_svc
      (mkPath "region-a" "cluster-a" "10.0.0.2-dpu0" "hamgrd" "0" "swss-common-bridge" "X") PingRequest]
    demo_edge demo_edge_wf) as (s' & Hrun & _).
  exists s'. exact Hrun.
Defined.

Lemma actor_reachable_witness :
  ∃ meta conn n', connect_metadata (E:=SwbusError) demo_edge = Done (Ok meta, demo_edge) ∧
    stream_messages (mkAddr "10.0.0.2" 50002) (Some meta.1) (Some meta.2) 5 demo_chan demo_node = Done (Ok conn, n').
Proof.
  destruct (actor_reachable demo_node demo_edge (mkAddr "10.0.0.2" 50002) 5 demo_chan "dpu" "dpu0" 0
    demo_edge_chan (demo_msg 63 demo_peer_svc demo_local_svc PingRequest)
    (demo_header 63 demo_peer_svc demo_local_svc)) as (meta & conn & n' & Hmeta & Hrun & _);
    [vm_compute; reflexivity..|]. by exists meta, conn, n'.
Defined.

Definition demo_client : SimpleClient :=
  mkClient demo_local_svc false (mkIdGen 100)
    [demo_msg 63 demo_peer_svc demo_local_svc PingRequest; data_message 8 demo_peer_svc demo_local_svc [1; 2]%Z]
    (mkMsgChan [] true).

Lemma recv_answers_pings_witness :
  ∃ c', recv demo_client = Done (Ok (Some (mkIncoming 8 demo_peer_svc demo_local_svc (BodyRequest [1; 2]%Z))), c').
Proof.
  destruct (recv_answers_pings [demo_msg 63 demo_peer_svc demo_local_svc PingRequest] 8 demo_peer_svc
    demo_local_svc [1; 2]%Z [] demo_client) as (c' & rs & Hrun & _); [done|done| |done|by exists c'].
  apply Forall_singleton. by eexists.
Defined.

Lemma client_messages_roundtrip_witness :
  ∃ msg a', outgoing_message_to_swbus_message (E:=unit)
    (mkOutgoing demo_local_svc (BodyResponse 3 NoRoute "x" None)) demo_client = Done (Ok (100, msg)%Z, a').
Proof.
  destruct (client_messages_roundtrip unit demo_client demo_client demo_local_svc (BodyResponse 3 NoRoute "x" None))
    as (i & msg & a' & Hrun & -> & _); [by left|done|]. by exists msg, a'.
Defined.

Definition demo_sink : SimpleClient := mkClient demo_edge_base true (mkIdGen 1) [] (mkMsgChan [] true).

Lemma sink_bounce_ends_witness :
  ∃ r1 c1, handle_received_message (E:=unit) (demo_msg 63 demo_peer_svc demo_local_svc PingRequest) demo_sink
    = Done (Ok (Respond r1), c1).
Proof.
  destruct (sink_bounce_ends unit demo_sink (demo_msg 63 demo_peer_svc demo_local_svc PingRequest)
    (demo_header 63 demo_peer_svc demo_local_svc) demo_peer_svc demo_local_svc PingRequest)
    as (r1 & c1 & r2 & c2 & i & Hrun & _); [reflexivity..|discriminate|discriminate|]. by exists r1, c1.
Defined.
