(* ===== verification/CoreClient.v ===== *)
(** The receiving half of the edge's core client: the task that reads the stream
    of swbusd and hands its messages to the router's bounded queue, and the
    loop that dials again. Models run_recv_stream_task, process_incoming_message
    and spawn_connect_task of crates/swbus-edge/src/core_client.rs. *)
From S2P Require Import Prelude RustStr Path Proto Mux Edge.

Open Scope stdpp_scope.

(** What the stream delivers next. *)
Inductive StreamItem : Type :=
| StreamMessage (m : SwbusMessage)
| StreamError (status : string)
| StreamClosed.
(** How the task ends. *)
Inductive StreamEnd : Type :=
| EndOk
| EndErr (e : SwbusError)
| EndPanic (why : string).

Section CoreClient.
Context {Chan : Type} `{!Mpsc Chan}.

(** [None] is the [todo!] of a queue that is full or closed. *)
Definition process_incoming_message (message : SwbusMessage) (message_processor_tx : Chan) : option Chan :=
  match try_send message_processor_tx message with
  | Ok c => Some c
  | Err _ => None
  end.

(** The loop, over what the stream delivers; [None] while it waits for more. *)
Fixpoint run_recv_stream_task (items : list StreamItem) (message_processor_tx : Chan) : option StreamEnd * Chan :=
  match items with
  | [] => (None, message_processor_tx)
  | StreamClosed :: _ => (Some EndOk, message_processor_tx)
  | StreamError e :: _ => (Some (EndErr (ConnectionErr ConnectionError e)), message_processor_tx)
  | StreamMessage message :: items' =>
      match process_incoming_message message message_processor_tx with
      | Some c => run_recv_stream_task items' c
      | None => (Some (EndPanic "not yet implemented: Reply with queue full message using send_queue_tx."), message_processor_tx)
      end
  end.

(** One round of the loop of [spawn_connect_task]: a dial that succeeds, with what
    its stream delivers, or one that fails. When the receiving task has ended,
    however it did, the queue to swbusd is dropped. *)
Definition connect_round (dial : option (list StreamItem)) (s : EdgeState * Chan) : EdgeState * Chan :=
  match dial with
  | None => (swbusd_dialled false s.1, s.2)
  | Some items =>
      let connected := swbusd_dialled true s.1 in
      match run_recv_stream_task items s.2 with
      | (Some _, c) => (swbusd_lost connected, c)
      | (None, c) => (connected, c)
      end
  end.

(** ** What the router gets *)

Fixpoint stream_messages_of (items : list StreamItem) : list SwbusMessage :=
  match items with StreamMessage m :: items' => m :: stream_messages_of items' | _ => [] end.
Definition stream_ends (items : list StreamItem) : option StreamEnd :=
  match drop (length (stream_messages_of items)) items with
  | StreamClosed :: _ => Some EndOk
  | StreamError e :: _ => Some (EndErr (ConnectionErr ConnectionError e))
  | _ => None
  end.

(** The router gets a prefix of the stream's messages, in order. Either it is all
    of them, and the task ends as the stream does; or the next message found
    the queue full or closed, the task panicked and the rest is lost. *)
Lemma recv_stream_delivers `{!MpscLaws Chan} items c :
  ∃ got lost c', stream_messages_of items = got ++ lost ∧ queued c' = queued c ++ got ∧
    ((lost = [] ∧ run_recv_stream_task items c = (stream_ends items, c')) ∨
     (∃ m rest e why, lost = m :: rest ∧ try_send c' m = Err e ∧ run_recv_stream_task items c = (Some (EndPanic why), c'))).
Proof.
  revert c. induction items as [|[m|e|] items IH]; intros c; cbn [run_recv_stream_task stream_messages_of].
  - exists [], [], c. split; [done|]. split; [by rewrite app_nil_r|]. left. split; reflexivity.
  - unfold process_incoming_message. destruct (try_send c m) as [c1|e] eqn:Hs.
    + destruct (IH c1) as (got & lost & c' & -> & Hq & Hcase). exists (m :: got), lost, c'. split; [done|].
      split; [by rewrite Hq, (try_send_queued _ _ _ Hs), <- app_assoc|]. exact Hcase.
    + exists [], (m :: stream_messages_of items), c. split; [done|]. split; [by rewrite app_nil_r|]. right.
      by eexists m, _, e, _.
  - exists [], [], c. split; [done|]. split; [by rewrite app_nil_r|]. left. split; reflexivity.
  - exists [], [], c. split; [done|]. split; [by rewrite app_nil_r|]. left. split; reflexivity.
Qed.
End CoreClient.

(** A queue with room for one: the second message of the stream panics the task,
    and the edge dials again. *)
Example full_queue_panics m :
  (run_recv_stream_task [StreamMessage m; StreamMessage m; StreamClosed] (mkChan 1 [] false)).2 = mkChan 1 [m] false.
Proof. reflexivity. Qed.
