(* ===== verification/BusTheory.v ===== *)
(** The bus as its clients see it: a message one client sends travels through
    its edge, any number of swbusd and the edge of the receiver, and arrives as
    if the two clients shared a channel. Composes Edge.v, Conn.v and Mux.v. *)
From S2P Require Import Prelude RustStr Path Proto Mux MuxTheory MuxWitness Conn ConnTheory Edge EdgeTheory.

Open Scope stdpp_scope.

Section Bus.
Context {Chan : Type} `{!Mpsc Chan} `{!MpscLaws Chan} (debug : bool) (fuel : nat).

(** A swbusd on the way, and the connection its route to the receiver takes. *)
Record hop : Type := mkHop { hop_node : NodeState Chan; hop_conn : SwbusConnInfo; hop_queue : nat; hop_chan : Chan }.

(** The longest route of [d] there is this connection, and it has room. *)
Definition on_way (d : ServicePath) (x : hop) : Prop :=
  (∃ st, routes (mux (hop_node x)) !! stage_key st d = Some (new_remote (hop_conn x) (mkProxy (hop_queue x)) 1) ∧
     ∀ st', stage_rank st' < stage_rank st → routes (mux (hop_node x)) !! stage_key st' d = None) ∧
  send_queues (mux (hop_node x)) !! hop_queue x = Some (hop_chan x) ∧
  ∀ m, ∃ c, try_send (hop_chan x) m = Ok c.

(** The worker there reads [m] and only queues [m'] for the next one. *)
Definition forwards (x : hop) (m m' : SwbusMessage) : Prop :=
  ∃ c, process_data_message debug (S fuel) m (hop_node x) = Done (Ok tt, with_mux (with_queue (hop_queue x) c) (hop_node x)) ∧
    queued c = queued (hop_chan x) ++ [m'].

(** What is queued at one swbusd is what the worker of the next one reads. *)
Inductive travels : list hop → SwbusMessage → SwbusMessage → Prop :=
| travels_nil m : travels [] m m
| travels_cons x xs m m1 m2 : forwards x m m1 → travels xs m1 m2 → travels (x :: xs) m m2.

(** A message of a client as it looks with [t] hops left. *)
Definition in_transit (src dst : ServicePath) (i t : Z) (b : Body) : SwbusMessage :=
  mkMessage (Some (mkHeader 1 i 0 t (Some src) (Some dst))) (Some b).

Lemma hop_forwards x src dst i t b :
  on_way dst x → (2 ≤ t ≤ u32_max)%Z → b ≠ TraceRouteRequest →
  forwards x (in_transit src dst i t b) (in_transit src dst i (t - 1) b).
Proof.
  intros ((st & Hst & Hless) & Hq & Hroom) Ht Hb. set (m := in_transit src dst i t b).
  set (h := mkHeader 1 i 0 t (Some src) (Some dst)). destruct (Hroom (forwarded m h)) as [c Hc].
  assert (ttl (dec_ttl h) = (t - 1)%Z) as Hdec by (apply dec_ttl_pred; cbn; lia).
  exists c. split.
  - assert (valid_message m) as Hv by (exists h; split_and!; [done|cbn; lia|by eexists..]).
    assert (addressed m h src dst) as Ha by done.
    assert (route_message (S fuel) m (mux (hop_node x)) = Done (Ok tt, with_queue (hop_queue x) c (mux (hop_node x)))) as Hroute.
    { erewrite route_hit; [|exact Ha|by eapply dest_route_longest].
      rewrite (bind_done _ _ _ None (with_queue (hop_queue x) c (mux (hop_node x)))); [done|]. apply unwrap_result_ok.
      rewrite (remote_forward_run _ _ _ _ h _ (hop_chan x)); [by rewrite Hc|done|lia|done]. }
    unfold process_data_message.
    rewrite (bind_done _ _ _ tt (hop_node x)) by (by destruct debug).
    rewrite (bind_done _ _ _ _ _ (validate_ok m _ Hv)). cbn [m in_transit body].
    assert (lift_mux (route_message (S fuel) m) (hop_node x) =
      Done (Ok tt, with_mux (with_queue (hop_queue x) c) (hop_node x))) as Hlift by (unfold lift_mux; by rewrite Hroute).
    by destruct b.
  - rewrite (try_send_queued _ _ _ Hc). unfold forwarded, in_transit. do 4 f_equal. unfold dec_ttl in *. cbn in Hdec |- *.
    by rewrite Hdec.
Qed.

Lemma travels_run xs src dst i t b :
  Forall (on_way dst) xs → (Z.of_nat (length xs) < t ≤ u32_max)%Z → b ≠ TraceRouteRequest →
  travels xs (in_transit src dst i t b) (in_transit src dst i (t - Z.of_nat (length xs)) b).
Proof.
  intros Hxs. revert t. induction Hxs as [|x xs Hx Hxs IH]; intros t Ht Hb.
  - cbn. rewrite Z.sub_0_r. constructor.
  - cbn [length] in *. econstructor; [apply hop_forwards; [done|lia|done]|].
    replace (t - Z.of_nat (S (length xs)))%Z with (t - 1 - Z.of_nat (length xs))%Z by lia. apply IH; [lia|done].
Qed.

(** What a client receives of a message in transit. *)
Lemma client_receives src dst i t (mb : MessageBody) (b : SimpleClient) sw :
  client_sink b = false ∨ client_source b = dst →
  match mb with
  | BodyRequest payload => sw = DataRequest payload
  | BodyResponse rid code m rb => sw = Response (mkResponse rid (error_code_i32 code) m (ManagementQueryResult <$> rb))
  | BodyManagement _ _ => False
  end →
  handle_received_message (E:=SwbusError) (in_transit src dst i t sw) b =
    Done (Ok (PassToActor (mkIncoming i src dst
      match mb with BodyResponse rid code m _ => BodyResponse rid code m None | x => x end)), b).
Proof.
  intros Hb Hbody.
  assert (client_sink b && negb (bool_decide (dst = client_source b)) = false) as Hs.
  { destruct Hb as [->| <-]; [done|]. rewrite bool_decide_eq_true_2 by done. apply andb_false_r. }
  unfold handle_received_message, in_transit, bind, get_state, unwrap, ret. cbn [header body source destination].
  rewrite Hs. destruct mb as [payload|rid code m rb|]; [by subst sw| |done]. subst sw.
  cbn -[error_code_of_i32 error_code_i32]. by rewrite error_code_round_trip.
Qed.

(** C2: The bus implements a channel between two clients. A request or response
    that client [a] sends to [dst], which is not in its own process, goes to
    swbusd; it passes every swbusd whose longest route leads on, at most 63 of
    them; and the edge at the end hands it to the most specific public handler,
    whose client gets the payload, the sender's path and the id [a] was told. *)
Theorem bus_delivers (a b : SimpleClient) dst (mb : MessageBody) (e1 e2 : EdgeState) q xs hd ch :
  receiver_open (router a) = true → match mb with BodyManagement _ _ => False | _ => True end →
  find_handler Private (edge_routes e1) (candidates dst) = None →
  core_queue e1 = Some q → receiver_open q = true →
  Forall (on_way dst) xs → length xs ≤ 63 →
  find_handler Public (edge_routes e2) (candidates dst) = Some (mkHandler hd) →
  handlers e2 !! hd = Some ch → receiver_open ch = true →
  client_sink b = false ∨ client_source b = dst →
  ∃ a' e1' msg msg' i, i = next_id (client_ids a) ∧
    client_send (mkOutgoing dst mb) a = Done (Ok i, a') ∧ delivered (router a') = delivered (router a) ++ [msg] ∧
    edge_route_message msg Private e1 = Done (Ok tt, e1') ∧ core_queue e1' = Some (mkMsgChan (delivered q ++ [msg]) true) ∧
    travels xs msg msg' ∧
    edge_route_message msg' Public e2 = Done (Ok tt, with_handler hd (mkMsgChan (delivered ch ++ [msg']) true) e2) ∧
    handle_received_message (E:=SwbusError) msg' b = Done (Ok (PassToActor (mkIncoming i (client_source a) dst
      match mb with BodyResponse rid code m _ => BodyResponse rid code m None | x => x end)), b).
Proof.
  intros Ha Hbody Hlocal Hq Hqo Hxs Hlen Hf Hch Ho Hb. set (i := next_id (client_ids a)).
  assert (∃ sw a', sw ≠ TraceRouteRequest ∧ client_send (mkOutgoing dst mb) a = Done (Ok i, a') ∧
    delivered (router a') = delivered (router a) ++ [in_transit (client_source a) dst i 64 sw] ∧
    match mb with
    | BodyRequest payload => sw = DataRequest payload
    | BodyResponse rid code m rb => sw = Response (mkResponse rid (error_code_i32 code) m (ManagementQueryResult <$> rb))
    | BodyManagement _ _ => False
    end) as (sw & a' & Hsw & Hsend & Hdel & Hmatch).
  { destruct mb as [payload|rid code m rb|]; [| |done]; eexists _, _; (split; [|split; [|split; [|reflexivity]]]); [done| | |done| |];
      try (unfold client_send, outgoing_message_to_swbus_message, client_generate, bind, get_state, ret, client_send_raw,
             bind, get_state, chan_send; cbn -[error_code_i32]; rewrite Ha; reflexivity); reflexivity. }
  set (t := (64 - Z.of_nat (length xs))%Z).
  set (msg := in_transit (client_source a) dst i 64 sw). set (msg' := in_transit (client_source a) dst i t sw).
  exists a', (to_swbusd msg e1), msg, msg', i. split_and!; [done..| | | | |].
  - by rewrite (edge_route_run msg _ dst _ _ eq_refl eq_refl), Hlocal.
  - unfold to_swbusd. by rewrite Hq, Hqo.
  - apply travels_run; [done|unfold u32_max; lia|done].
  - rewrite (edge_route_run msg' _ dst _ _ eq_refl eq_refl), Hf. cbn [tx]. rewrite Hch. unfold deliver_to. by rewrite Ho.
  - by apply client_receives.
Qed.

End Bus.

(** * A concrete route: edge, two swbusd, edge *)

Definition demo_far_node : NodeState BoundedChan :=
  mkNode (register (new_server ConnLocal (mkAddr "10.0.0.1" 50007) (mkPath "region-a" "cluster-a" "10.0.0.1-dpu0" "hamgrd" "0" "" ""))
    (mkProxy 3) (with_queue 3 demo_chan (mux_new 7))) ∅ [] ∅ ∅ 0.
Definition demo_hops : list (hop (Chan:=BoundedChan)) :=
  [mkHop demo_node demo_conn 0 demo_chan;
   mkHop demo_far_node (new_server ConnLocal (mkAddr "10.0.0.1" 50007) (mkPath "region-a" "cluster-a" "10.0.0.1-dpu0" "hamgrd" "0" "" "")) 3 demo_chan].
Definition demo_near_edge : EdgeState := swbusd_dialled true (edge_new demo_edge_base).
Definition demo_far_edge : EdgeState :=
  with_handler 0 demo_edge_chan (add_handler demo_peer_svc 0
    (edge_new (mkPath "region-a" "cluster-a" "10.0.0.1-dpu0" "hamgrd" "0" "" ""))).
Definition demo_far_client : SimpleClient := mkClient demo_peer_svc false (mkIdGen 5) [] (mkMsgChan [] true).

Lemma demo_room (m : SwbusMessage) : ∃ c, try_send demo_chan m = Ok c.
Proof. by eexists. Defined.

Lemma demo_hops_on_way : Forall (on_way demo_peer_svc) demo_hops.
Proof.
  apply List.Forall_cons; [|apply List.Forall_cons; [|constructor]].
  - split; [|split; [reflexivity|apply demo_room]]. exists StageCluster. split; [vm_compute; reflexivity|].
    intros [] Hr; cbn in Hr; try lia. vm_compute. reflexivity.
  - split; [|split; [reflexivity|apply demo_room]]. exists StageLocal. split; [vm_compute; reflexivity|].
    intros [] Hr; cbn in Hr; lia.
Defined.

Lemma bus_delivers_witness :
  ∃ a' msg msg', client_send (mkOutgoing demo_peer_svc (BodyRequest [1; 2]%Z)) demo_client = Done (Ok 100%Z, a') ∧
    travels false 0 demo_hops msg msg' ∧
    handle_received_message (E:=SwbusError) msg' demo_far_client =
      Done (Ok (PassToActor (mkIncoming 100 demo_local_svc demo_peer_svc (BodyRequest [1; 2]%Z))), demo_far_client).
Proof.
  destruct (bus_delivers false 0 demo_client demo_far_client demo_peer_svc (BodyRequest [1; 2]%Z) demo_near_edge demo_far_edge
    (mkMsgChan [] true) demo_hops 0 demo_edge_chan) as (a' & e1' & msg & msg' & i & Hi & Hsend & _ & _ & _ & Htr & _ & Hrecv).
  - reflexivity.
  - exact I.
  - vm_compute. reflexivity.
  - reflexivity.
  - reflexivity.
  - exact demo_hops_on_way.
  - cbn. lia.
  - vm_compute. reflexivity.
  - reflexivity.
  - reflexivity.
  - left. reflexivity.
  - exists a', msg, msg'. subst i. split; [exact Hsend|]. split; [exact Htr|exact Hrecv].
Defined.
