(* ===== verification/Actor.v ===== *)
(** The actor framework: the incoming, internal and outgoing state tables of an
    actor and the driver that runs it. Models crates/swbus-actor/src
    (actor_message.rs, state.rs, state/incoming.rs, state/internal.rs,
    state/outgoing.rs, driver.rs, lib.rs). JSON values and their byte encoding
    (serde_json), SWSS tables (swss-common) and the actor's own callbacks are
    parameters; the time is an argument, in nanoseconds since the epoch. *)
From S2P Require Import Prelude RustStr Path Proto Edge.

Open Scope stdpp_scope.

(** * What the framework uses of its libraries *)

(** [FieldValues = HashMap<String, CxxString>] *)
Abbreviation FieldValues := (gmap string string).

Record ActorMessage (V : Type) : Type := mkActorMsg { msg_key : string; msg_data : V }.
Arguments mkActorMsg {V}. Arguments msg_key {V}. Arguments msg_data {V}.

(** serde_json: an [ActorMessage] as bytes. *)
Class Wire (V : Type) := {
  to_vec : ActorMessage V → list Z;
  from_slice : list Z → result (ActorMessage V) string;
}.
(** [from_slice] inverts [to_vec]: what serde_json documents for derived
    implementations without skipped fields. *)
Class WireLaws (V : Type) `{Wire V} := {
  from_to_slice (m : ActorMessage V) : from_slice (to_vec m) = Ok m;
}.

(** serde_json: a Rust type as a JSON value. *)
Class Codec (V T : Type) := {
  to_value : T → result V string;
  from_value : V → result T string;
}.
(** swss-common: the tables of the databases, by table name and key. *)
Class SwssTable (Db : Type) := {
  table_get : Db → string → string → result (option FieldValues) string;
  table_set : Db → string → string → FieldValues → result Db string;
}.

(** [get_unix_time], and the seconds elapsed since a [SystemTime]. *)
Definition unix_secs (now : Z) : Z := (now / 1000000000)%Z.
Definition get_elapsed_time (sent now : Z) : Z := Z.max 0 ((now - sent) / 1000000000).

(** The [Debug] name of an error code. *)
Definition error_code_debug (c : SwbusErrorCode) : string :=
  match c with
  | UnknownError => "UnknownError" | CodeOk => "Ok"
  | ConnectionErrorMin => "ConnectionErrorMin" | ConnectionError => "ConnectionError"
  | Timeout => "Timeout" | ConnectionErrorMax => "ConnectionErrorMax"
  | InputErrorMin => "InputErrorMin" | InvalidArgs => "InvalidArgs"
  | InvalidDestination => "InvalidDestination" | InvalidSource => "InvalidSource"
  | InvalidHeader => "InvalidHeader" | InvalidPayload => "InvalidPayload"
  | InputErrorMax => "InputErrorMax" | RouteErrorMin => "RouteErrorMin" | NoRoute => "NoRoute"
  | QueueFull => "QueueFull" | Unreachable => "Unreachable" | ServiceNotFound => "ServiceNotFound"
  | ResourceNotFound => "ResourceNotFound" | RouteErrorMax => "RouteErrorMax"
  | InternalErrorMin => "InternalErrorMin" | CodeFail => "Fail" | InternalErrorMax => "InternalErrorMax"
  end.

Definition response_text (code : SwbusErrorCode) (msg : string) : string :=
  error_code_debug code +:+ " (" +:+ msg +:+ ")".

(** * Table entries *)

Record IncomingTableEntry (V : Type) : Type := mkIncEntry {
  inc_msg : ActorMessage V;
  inc_source : ServicePath;
  inc_request_id : Z;
  inc_version : Z;
  inc_created_time : Z;
  inc_last_updated_time : Z;
  inc_response : string;
  inc_acked : bool;
}.
Arguments mkIncEntry {V}. Arguments inc_msg {V}. Arguments inc_source {V}.
Arguments inc_request_id {V}. Arguments inc_version {V}. Arguments inc_created_time {V}.
Arguments inc_last_updated_time {V}. Arguments inc_response {V}. Arguments inc_acked {V}.

Record InternalTableEntry : Type := mkIntEntry {
  swss_table_name : string;
  swss_key : string;
  fvs : FieldValues;
  mutated : bool;
  backup_fvs : FieldValues;
  int_last_updated : option Z;
}.

Record UnackedMessage (V : Type) : Type := mkUnacked {
  actor_message : ActorMessage V;
  swbus_message : SwbusMessage;
  time_sent : Z;
}.
Arguments mkUnacked {V}. Arguments actor_message {V}. Arguments swbus_message {V}. Arguments time_sent {V}.

Record SentMessageEntry (V : Type) : Type := mkSent {
  sent_msg : ActorMessage V;
  sent_id : Z;
  sent_created : Z;
  sent_last_updated : Z;
  sent_last_sent : Z;
  sent_version : Z;
  sent_acked : bool;
  sent_response : option string;
  sent_response_source : option ServicePath;
}.
Arguments mkSent {V}. Arguments sent_msg {V}. Arguments sent_id {V}. Arguments sent_created {V}.
Arguments sent_last_updated {V}. Arguments sent_last_sent {V}. Arguments sent_version {V}.
Arguments sent_acked {V}. Arguments sent_response {V}. Arguments sent_response_source {V}.

(** ** Operations on entries *)

Section Entries.
Context {V : Type}.

Definition inc_new (now : Z) (msg : ActorMessage V) (src : ServicePath) (rid : Z) : IncomingTableEntry V :=
  mkIncEntry msg src rid 1 (unix_secs now) (unix_secs now) "" false.

Definition update_received (now : Z) (msg : ActorMessage V) (src : ServicePath) (rid : Z)
    (e : IncomingTableEntry V) : IncomingTableEntry V :=
  mkIncEntry msg src rid (wrap_u64 (inc_version e + 1)) (inc_created_time e) (unix_secs now)
    (inc_response e) (inc_acked e).

Definition update_handled (code : SwbusErrorCode) (msg : string) (e : IncomingTableEntry V)
    : IncomingTableEntry V :=
  let '(response, acked) :=
    if decide (code = CodeOk) then ("Ok", true) else (response_text code msg, false) in
  mkIncEntry (inc_msg e) (inc_source e) (inc_request_id e) (inc_version e) (inc_created_time e)
    (inc_last_updated_time e) response acked.

Definition sent_new (now : Z) (msg : ActorMessage V) (i : Z) : SentMessageEntry V :=
  mkSent msg i (unix_secs now) (unix_secs now) (unix_secs now) 1 false None None.

Definition new_message_sent (now : Z) (msg : ActorMessage V) (i : Z) (e : SentMessageEntry V)
    : SentMessageEntry V :=
  mkSent msg i (sent_created e) (unix_secs now) (unix_secs now) (wrap_u64 (sent_version e + 1))
    false None None.

Definition message_resent (now : Z) (e : SentMessageEntry V) : SentMessageEntry V :=
  mkSent (sent_msg e) (sent_id e) (sent_created e) (sent_last_updated e) (unix_secs now)
    (sent_version e) (sent_acked e) (sent_response e) (sent_response_source e).

Definition response_received (rid : Z) (code : SwbusErrorCode) (msg : string) (src : ServicePath)
    (e : SentMessageEntry V) : SentMessageEntry V :=
  if decide (rid = sent_id e) then
    let '(acked, response) :=
      if decide (code = CodeOk) then (true, "Ok") else (false, response_text code msg) in
    mkSent (sent_msg e) (sent_id e) (sent_created e) (sent_last_updated e) (sent_last_sent e)
      (sent_version e) acked (Some response) (Some src)
  else e.

Definition unacked_key (u : UnackedMessage V) : string := msg_key (actor_message u).

End Entries.

(** [fvs_mut]: the values become writable; the first time since the last
    commit or rollback they are saved. *)
Definition fvs_mut (f : FieldValues → FieldValues) (e : InternalTableEntry) : InternalTableEntry :=
  mkIntEntry (swss_table_name e) (swss_key e) (f (fvs e)) true
    (if mutated e then backup_fvs e else fvs e) (int_last_updated e).

Definition entry_drop_changes (e : InternalTableEntry) : InternalTableEntry :=
  mkIntEntry (swss_table_name e) (swss_key e) (backup_fvs e) false (backup_fvs e) (int_last_updated e).

Definition entry_committed (now : Z) (e : InternalTableEntry) : InternalTableEntry :=
  mkIntEntry (swss_table_name e) (swss_key e) (fvs e) false (backup_fvs e) (Some (unix_secs now)).

(** * The state of a running actor *)

(** What an actor and its driver own: the actor's own fields [A], the three
    state tables, its swbus client, the databases its tables live in, and the
    [stopped] flag of its [Context]. *)
Record ActorSt (V Db A : Type) : Type := mkActorSt {
  actor : A;
  internal_table : gmap string InternalTableEntry;
  incoming_table : gmap string (IncomingTableEntry V);
  unacked_messages : gmap Z (UnackedMessage V);
  queued_messages : list (UnackedMessage V);
  sent_messages : gmap string (SentMessageEntry V);
  swbus_client : SimpleClient;
  databases : Db;
  stopped : bool;
}.
Arguments mkActorSt {V Db A}. Arguments actor {V Db A}. Arguments internal_table {V Db A}.
Arguments incoming_table {V Db A}. Arguments unacked_messages {V Db A}.
Arguments queued_messages {V Db A}. Arguments sent_messages {V Db A}.
Arguments swbus_client {V Db A}. Arguments databases {V Db A}. Arguments stopped {V Db A}.

Section Actor.
Context {V Db A : Type} `{Wire V} `{SwssTable Db}.
Abbreviation St := (ActorSt V Db A).
Implicit Types (s : St).

Definition set_actor (a : A) s : St :=
  mkActorSt a (internal_table s) (incoming_table s) (unacked_messages s) (queued_messages s)
    (sent_messages s) (swbus_client s) (databases s) (stopped s).
Definition set_internal t s : St :=
  mkActorSt (actor s) t (incoming_table s) (unacked_messages s) (queued_messages s)
    (sent_messages s) (swbus_client s) (databases s) (stopped s).
Definition set_incoming t s : St :=
  mkActorSt (actor s) (internal_table s) t (unacked_messages s) (queued_messages s)
    (sent_messages s) (swbus_client s) (databases s) (stopped s).
Definition set_unacked t s : St :=
  mkActorSt (actor s) (internal_table s) (incoming_table s) t (queued_messages s)
    (sent_messages s) (swbus_client s) (databases s) (stopped s).
Definition set_queued q s : St :=
  mkActorSt (actor s) (internal_table s) (incoming_table s) (unacked_messages s) q
    (sent_messages s) (swbus_client s) (databases s) (stopped s).
Definition set_sent t s : St :=
  mkActorSt (actor s) (internal_table s) (incoming_table s) (unacked_messages s) (queued_messages s)
    t (swbus_client s) (databases s) (stopped s).
Definition set_client c s : St :=
  mkActorSt (actor s) (internal_table s) (incoming_table s) (unacked_messages s) (queued_messages s)
    (sent_messages s) c (databases s) (stopped s).
Definition set_databases d s : St :=
  mkActorSt (actor s) (internal_table s) (incoming_table s) (unacked_messages s) (queued_messages s)
    (sent_messages s) (swbus_client s) d (stopped s).

(** [context.stop()] *)
Definition context_stop s : St :=
  mkActorSt (actor s) (internal_table s) (incoming_table s) (unacked_messages s) (queued_messages s)
    (sent_messages s) (swbus_client s) (databases s) true.

(** An operation of the swbus client. *)
Definition lift_client {E B} (m : M SimpleClient E B) : M St E B :=
  λ s, match m (swbus_client s) with
       | Done (r, c) => Done (r, set_client c s)
       | Panicked w => Panicked w
       | OutOfFuel => OutOfFuel
       end.

(** ** Messages with typed data *)

(** [ActorMessage::new] and [deserialize_data] *)
Definition actor_msg_new {T} `{Codec V T} {S} (k : string) (t : T) : M S string (ActorMessage V) :=
  let* d := of_result (to_value t) in ret (mkActorMsg k d).
Definition deserialize_data {T} `{Codec V T} {S} (m : ActorMessage V) : M S string T :=
  of_result (from_value (msg_data m)).

(** ** Incoming *)

Definition incoming_get_entry (k : string) : M St string (IncomingTableEntry V) :=
  let* s := get_state in
  match incoming_table s !! k with
  | Some e => ret e
  | None => throw ("Incoming state table has no key '" +:+ k +:+ "'")
  end.

Definition incoming_get (k : string) : M St string (ActorMessage V) :=
  let* e := incoming_get_entry k in ret (inc_msg e).

(** [get_by_prefix]: in the iteration order of the table. *)
Definition incoming_get_by_prefix (prefix : string) s : list (IncomingTableEntry V) :=
  snd <$> filter (λ e, starts_with e.1 prefix) (map_to_list (incoming_table s)).

Definition incoming_insert (now : Z) (msg : ActorMessage V) (src : ServicePath) (rid : Z) s : St :=
  set_incoming
    (<[msg_key msg := match incoming_table s !! msg_key msg with
                      | Some e => update_received now msg src rid e
                      | None => inc_new now msg src rid
                      end]> (incoming_table s)) s.

Definition handle_request (now : Z) (rid : Z) (src : ServicePath) (payload : list Z) : M St string string :=
  match from_slice payload with
  | Ok actor_msg =>
      modify (incoming_insert now actor_msg src rid);;;
      ret (msg_key actor_msg)
  | Err e =>
      let* _ := unwrap_result "invalid ActorMessage received, but failed to send error response swbus message"
        (lift_client (client_send (mkOutgoing src (BodyResponse rid InvalidPayload e None)))) in
      throw ("invalid ActorMessage received: " +:+ e)
  end.

Definition request_handled (k : string) (code : SwbusErrorCode) (msg : string) : M St string (Z * ServicePath) :=
  let* s := get_state in
  let* e := unwrap "request_handled" (incoming_table s !! k) in
  let e := update_handled code msg e in
  put_state (set_incoming (<[k := e]> (incoming_table s)) s);;;
  ret (inc_request_id e, inc_source e).

(** ** Internal *)

Definition internal_get (k : string) : M St string FieldValues :=
  let* s := get_state in
  let* e := unwrap "Invalid internal table key" (internal_table s !! k) in
  ret (fvs e).

(** [get_mut], with what the caller does to the borrowed values. *)
Definition internal_get_mut (k : string) (f : FieldValues → FieldValues) : M St string unit :=
  let* s := get_state in
  let* e := unwrap "Invalid internal table key" (internal_table s !! k) in
  put_state (set_internal (<[k := fvs_mut f e]> (internal_table s)) s).

Definition internal_has_entry (k sk : string) s : bool :=
  match internal_table s !! k with
  | Some e => bool_decide (swss_key e = sk)
  | None => false
  end.

Definition internal_add (k tname sk : string) : M St string unit :=
  let* s := get_state in
  let* hydrated := unwrap_result "Table::get threw an exception"
    (of_result (table_get (databases s) tname sk)) in
  let v := default ∅ hydrated in
  put_state (set_internal (<[k := mkIntEntry tname sk v false v None]> (internal_table s)) s).

Definition drop_changes s : St := set_internal (entry_drop_changes <$> internal_table s) s.

(** [commit_changes] of one entry: the values are written to the table. *)
Definition commit_entry (now : Z) (k : string) : M St string unit :=
  let* s := get_state in
  let* e := unwrap "commit_changes" (internal_table s !! k) in
  let* d := unwrap_result "Table::set threw an exception"
    (of_result (table_set (databases s) (swss_table_name e) (swss_key e) (fvs e))) in
  put_state (set_databases d (set_internal (<[k := entry_committed now e]> (internal_table s)) s)).

Definition commit_changes (now : Z) : M St string unit :=
  let* s := get_state in
  for_each (commit_entry now) (map_to_list (internal_table s)).*1.

(** ** Outgoing *)

Definition RESEND_TIME : Z := 60.

Definition actor_msg_to_swbus_msg (msg : ActorMessage V) (dest : ServicePath) : M St string SwbusMessage :=
  let* x := lift_client (outgoing_message_to_swbus_message (mkOutgoing dest (BodyRequest (to_vec msg)))) in
  ret x.2.

Definition outgoing_send (now : Z) (dest : ServicePath) (msg : ActorMessage V) : M St string unit :=
  let* swbus_msg := actor_msg_to_swbus_msg msg dest in
  modify (λ s, set_queued (queued_messages s ++ [mkUnacked msg swbus_msg now]) s).

Definition send_one (now : Z) (u : UnackedMessage V) : M St string unit :=
  unwrap_result "Sending swbus message failed" (lift_client (client_send_raw (swbus_message u)));;;
  let* h := unwrap "header" (header (swbus_message u)) in
  let mid := id h in
  modify (λ s, set_sent (<[unacked_key u := match sent_messages s !! unacked_key u with
                           | Some e => new_message_sent now (actor_message u) mid e
                           | None => sent_new now (actor_message u) mid
                           end]> (sent_messages s)) s);;;
  modify (λ s, set_unacked (<[mid := u]> (unacked_messages s)) s).

(** [drain(..)]: the queue is empty whatever happens. *)
Definition send_queued_messages (now : Z) : M St string unit :=
  let* s := get_state in
  put_state (set_queued [] s);;;
  for_each (send_one now) (queued_messages s).

Definition drop_queued_messages s : St := set_queued [] s.

Definition handle_response (rid : Z) (code : SwbusErrorCode) (msg : string) (src : ServicePath)
    : M St string unit :=
  let* s := get_state in
  match unacked_messages s !! rid with
  | None => ret tt
  | Some u =>
      let* e := unwrap "sent_messages" (sent_messages s !! unacked_key u) in
      put_state (set_sent (<[unacked_key u := response_received rid code msg src e]> (sent_messages s)) s);;;
      when (bool_decide (code = CodeOk))
        (modify (λ s, set_unacked (delete rid (unacked_messages s)) s))
  end.

Definition resend_one (now : Z) (u : UnackedMessage V) : M St string unit :=
  when (RESEND_TIME <=? get_elapsed_time (time_sent u) now)%Z
    (unwrap_result "Sending swbus message failed" (lift_client (client_send_raw (swbus_message u)));;;
     let* s := get_state in
     let* e := unwrap "sent_messages" (sent_messages s !! unacked_key u) in
     put_state (set_sent (<[unacked_key u := message_resent now e]> (sent_messages s)) s)).

(** One tick of [drive_resend_loop]. *)
Definition resend_tick (now : Z) : M St string unit :=
  modify (λ s, set_unacked (filter (λ e, (get_elapsed_time (time_sent e.2) now < 3600)%Z)
                              (unacked_messages s)) s);;;
  let* s := get_state in
  for_each (resend_one now) (map_to_list (unacked_messages s)).*2.

Definition from_my_sp (resource_type resource_id : string) s : ServicePath :=
  let b := client_source (swbus_client s) in
  mkPath (region_id b) (cluster_id b) (node_id b) (service_type b) (service_id b) resource_type resource_id.

(** [common_bridge_sp::<T>], for a table [tname] of the database [dbname]. *)
Definition outgoing_common_bridge_sp (dbname tname : string) s : ServicePath :=
  from_my_sp "swss-common-bridge" (dbname +:+ "|" +:+ tname) s.

(** [dump_state]: the tables [GetActorState] reports. *)
Record ActorStateDump : Type := mkDump {
  dump_incoming : gmap string (IncomingTableEntry V);
  dump_internal : gmap string InternalTableEntry;
  dump_queued : list (UnackedMessage V);
  dump_sent : gmap string (SentMessageEntry V);
}.

Definition dump_state s : ActorStateDump :=
  mkDump (incoming_table s) (internal_table s) (queued_messages s) (sent_messages s).

(** * The driver *)

(** [trait Actor]: the callbacks of an actor at a given time. *)
Class Actor := {
  actor_init : Z → M St string unit;
  handle_message : Z → string → M St string unit;
}.

Section Driver.
Context `{!Actor} (dump_to_string : ActorStateDump → string).

Definition driver_send (msg : OutgoingMessage) : M St string unit :=
  let* _ := unwrap_result "failed to send swbus message" (lift_client (client_send msg)) in ret tt.

Definition handle_actor_message (now : Z) (k : string) : M St string unit :=
  let* res := attempt (E:=string) (handle_message now k) in
  let* r := match res with
            | Ok _ =>
                commit_changes now;;;
                send_queued_messages now;;;
                ret (CodeOk, "")
            | Err e =>
                modify drop_changes;;;
                modify drop_queued_messages;;;
                ret (CodeFail, e)
            end in
  let* _ := request_handled k r.1 r.2 in
  ret tt.

Definition handle_management_request (rid : Z) (src : ServicePath) (request : ManagementRequestType)
    : M St string unit :=
  match request with
  | HamgrdGetActorState =>
      let* s := get_state in
      driver_send (mkOutgoing src (BodyResponse rid CodeOk "" (Some (dump_to_string (dump_state s)))))
  | SwbusdGetRoutes =>
      driver_send (mkOutgoing src
        (BodyResponse rid InvalidArgs "Unsupported request type: SwbusdGetRoutes" None))
  end.

Definition handle_swbus_message (now : Z) (msg : IncomingMessage) : M St string unit :=
  let rid := in_id msg in
  let src := in_source msg in
  match in_body msg with
  | BodyRequest payload =>
      match from_slice payload with
      | Err _ => ret tt
      | Ok _ =>
          let* res := attempt (E:=string) (handle_request now rid src payload) in
          let '(code, m) := match res with Ok _ => (CodeOk, "") | Err e => (CodeFail, e) end in
          driver_send (mkOutgoing src (BodyResponse rid code m None));;;
          match res with
          | Ok k => handle_actor_message now k
          | Err _ => ret tt
          end
      end
  | BodyResponse request_id code m _ => handle_response request_id code m src
  | BodyManagement request _ => handle_management_request rid src request
  end.

(** What wakes the driver up: a message, a resend tick, or the end of its
    channel (which it ignores). *)
Inductive DriverEvent : Type :=
| EvMsg (now : Z) (msg : IncomingMessage)
| EvTick (now : Z)
| EvRecvNone.

Definition driver_step (ev : DriverEvent) : M St string unit :=
  match ev with
  | EvMsg now msg => handle_swbus_message now msg
  | EvTick now => resend_tick now
  | EvRecvNone => ret tt
  end.

(** The main loop over the events it sees, up to the one that stops the actor;
    [false] when it is still waiting after the last event. [EvTick] is handled
    inside the [select!] of the code, which then keeps waiting. *)
Fixpoint driver_loop (evs : list DriverEvent) : M St string bool :=
  match evs with
  | [] => ret false
  | ev :: evs' =>
      driver_step ev;;;
      let* s := get_state in
      match ev with
      | EvMsg _ _ => if stopped s then ret true else driver_loop evs'
      | _ => driver_loop evs'
      end
  end.

Definition driver_run (now : Z) (evs : list DriverEvent) : M St string bool :=
  unwrap_result "init" (actor_init now);;;
  commit_changes now;;;
  send_queued_messages now;;;
  driver_loop evs.

End Driver.
End Actor.
