(* ===== verification/ActorTheory.v ===== *)
(** Theorems about the actor framework of Actor.v: commit and rollback of a
    callback, the bookkeeping of unacknowledged messages, resending, and the
    versions of the incoming table. *)
From S2P Require Import Prelude RustStr Path Proto Edge EdgeTheory Actor.

Open Scope stdpp_scope.

(** swss-common: a table write that succeeds keeps the written fields readable,
    and does not touch other keys. A row written without fields need not be
    there afterwards. *)
Class SwssTableLaws (Db : Type) `{SwssTable Db} := {
  table_set_reads (d : Db) n k f d' : table_set d n k f = Ok d' →
    (∃ g, table_get d' n k = Ok g ∧ f ⊆ default ∅ g) ∧
    ∀ n' k', (n', k') ≠ (n, k) → table_get d' n' k' = table_get d n' k';
}.
(** The normal path: no write throws. Only the theorems about callbacks that are
    committed assume it; what a write that throws does is in DriverProps.v. *)
Class SwssTableWrites (Db : Type) `{SwssTable Db} :=
  table_set_writes (d : Db) n k f : ∃ d', table_set d n k f = Ok d'.

Section ActorTheory.
Context {V Db A : Type} `{Wire V} `{SwssTable Db}.
Implicit Types (s : ActorSt V Db A).

(** * The contract of a callback *)

(** How a callback may change an internal entry: write to it, any number of
    times. *)
Definition entry_written (e e' : InternalTableEntry) : Prop :=
  swss_table_name e' = swss_table_name e ∧ swss_key e' = swss_key e ∧
  int_last_updated e' = int_last_updated e ∧
  (e' = e ∨ mutated e' = true ∧ backup_fvs e' = (if mutated e then backup_fvs e else fvs e)).

(** Or put a new one in its place, or under a new key ([Internal::add]): it has
    the values its table holds, to which the callback may then write. *)
Definition entry_hydrated (d : Db) (e' : InternalTableEntry) : Prop :=
  ∃ o, table_get d (swss_table_name e') (swss_key e') = Ok o ∧ int_last_updated e' = None ∧
    backup_fvs e' = default ∅ o ∧ (mutated e' = false → fvs e' = default ∅ o).

(** What a callback queues: requests from [src]. *)
Definition queued_request (src : ServicePath) (u : UnackedMessage V) : Prop :=
  (∃ payload, body (swbus_message u) = Some (DataRequest payload)) ∧
  ∃ i d, header (swbus_message u) = Some (header_new src d i).

(** What the public interface of [State] lets a callback do: its own fields,
    writes to internal entries, new internal entries, queued requests and the
    stop flag; ids are taken from the client, but nothing is sent. *)
Record api s s' : Prop := {
  api_internal k e' : internal_table s' !! k = Some e' →
    (∃ e, internal_table s !! k = Some e ∧ entry_written e e') ∨ entry_hydrated (databases s) e';
  api_kept k : is_Some (internal_table s !! k) → is_Some (internal_table s' !! k);
  api_incoming : incoming_table s' = incoming_table s;
  api_unacked : unacked_messages s' = unacked_messages s;
  api_sent : sent_messages s' = sent_messages s;
  api_queued : ∃ q, queued_messages s' = queued_messages s ++ q ∧ Forall (queued_request (client_source (swbus_client s))) q;
  api_router : router (swbus_client s') = router (swbus_client s);
  api_source : client_source (swbus_client s') = client_source (swbus_client s);
  api_sink : client_sink (swbus_client s') = client_sink (swbus_client s);
  api_databases : databases s' = databases s;
}.

Lemma entry_written_refl e : entry_written e e.
Proof. by repeat split; [..|left]. Qed.

Lemma entry_written_trans e1 e2 e3 : entry_written e1 e2 → entry_written e2 e3 → entry_written e1 e3.
Proof.
  intros (N1 & K1 & L1 & H1) (N2 & K2 & L2 & H2). repeat split; [congruence..|].
  destruct H2 as [->|[M2 B2]]; [exact H1|]. right. split; [done|].
  destruct H1 as [->|[M1 B1]]; [done|]. rewrite M1 in B2. congruence.
Qed.

Lemma entry_hydrated_written d e1 e2 : entry_hydrated d e1 → entry_written e1 e2 → entry_hydrated d e2.
Proof.
  intros (o & Hg & Hl & Hb & Hf) (Ht & Hk & Hl2 & Hw). unfold entry_hydrated. rewrite Ht, Hk, Hl2. exists o. split; [done|]. split; [done|].
  destruct Hw as [->|[Hm Hb2]]; [done|]. rewrite Hm, Hb2. split; [|done]. destruct (mutated e1); auto.
Qed.

#[export] Instance api_refl : Reflexive api.
Proof.
  intros s. split; try done; [|by exists []; rewrite app_nil_r].
  intros k e He. left. exists e. split; [done|apply entry_written_refl].
Qed.
#[export] Instance api_trans : Transitive api.
Proof.
  intros s1 s2 s3 H1 H2. split.
  - intros k e He. destruct (api_internal _ _ H2 k e He) as [(e2 & He2 & Hw2)|Hh].
    + destruct (api_internal _ _ H1 k e2 He2) as [(e1 & He1 & Hw1)|Hh].
      * left. exists e1. split; [done|]. by eapply entry_written_trans.
      * right. by eapply entry_hydrated_written.
    + right. by rewrite <- (api_databases _ _ H1).
  - intros k Hk. by apply (api_kept _ _ H2), (api_kept _ _ H1).
  - rewrite (api_incoming _ _ H2). apply (api_incoming _ _ H1).
  - rewrite (api_unacked _ _ H2). apply (api_unacked _ _ H1).
  - rewrite (api_sent _ _ H2). apply (api_sent _ _ H1).
  - destruct (api_queued _ _ H1) as (q1 & Hq1 & Hr1), (api_queued _ _ H2) as (q2 & Hq2 & Hr2).
    exists (q1 ++ q2). rewrite Hq2, Hq1, app_assoc. split; [done|]. apply Forall_app. split; [done|].
    by rewrite <- (api_source _ _ H1).
  - rewrite (api_router _ _ H2). apply (api_router _ _ H1).
  - rewrite (api_source _ _ H2). apply (api_source _ _ H1).
  - rewrite (api_sink _ _ H2). apply (api_sink _ _ H1).
  - rewrite (api_databases _ _ H2). apply (api_databases _ _ H1).
Qed.

(** ** The operations of the interface meet it *)

Lemma api_modify_actor {E} (f : ActorSt V Db A → A) :
  preserves api (modify (E:=E) (λ s, set_actor (f s) s)).
Proof. apply preserves_modify. intros s. destruct (api_refl s). by split. Qed.

Lemma api_stop {E} : preserves api (modify (E:=E) (context_stop (V:=V) (Db:=Db) (A:=A))).
Proof. apply preserves_modify. intros s. destruct (api_refl s). by split. Qed.

Lemma api_get_mut k f : preserves api (internal_get_mut (V:=V) (Db:=Db) (A:=A) k f).
Proof.
  intros s r s' Hrun. unfold internal_get_mut in Hrun. rewrite bind_get in Hrun.
  destruct (internal_table s !! k) as [e|] eqn:He; [|discriminate Hrun].
  cbn in Hrun. unfold bind, ret, put_state in Hrun. inv_done. destruct (api_refl s). split; try done.
  - cbn. intros k' e'. rewrite lookup_insert. case_decide as Hk; [subst k'; intros [= <-]|by auto].
    left. exists e. split; [done|]. repeat split. right. split; done.
  - cbn. intros k'. rewrite lookup_insert. case_decide; [by eexists|done].
Qed.

Lemma api_add k t sk : preserves api (internal_add (V:=V) (Db:=Db) (A:=A) k t sk).
Proof.
  intros s r s' Hrun. unfold internal_add in Hrun. rewrite bind_get in Hrun.
  unfold unwrap_result, bind, attempt in Hrun.
  destruct (table_get (databases s) t sk) as [v|e] eqn:Hg; cbn in Hrun; [|discriminate Hrun].
  unfold put_state in Hrun. inv_done. destruct (api_refl s). split; try done.
  - cbn. intros k' e'. rewrite lookup_insert. case_decide as Hk; [intros [= <-]|by auto].
    right. by exists v.
  - cbn. intros k'. rewrite lookup_insert. case_decide; [by eexists|done].
Qed.

(** The message a request becomes, and the client after taking its id. *)
Definition request_message (msg : ActorMessage V) dest s : SwbusMessage :=
  mkMessage (Some (header_new (client_source (swbus_client s)) dest (next_id (client_ids (swbus_client s)))))
    (Some (DataRequest (to_vec msg))).
Definition client_bumped s : ActorSt V Db A :=
  set_client (mkClient (client_source (swbus_client s)) (client_sink (swbus_client s))
    (id_generate (client_ids (swbus_client s))).2 (handler_rx (swbus_client s)) (router (swbus_client s))) s.

Lemma outgoing_send_run now msg dest s :
  outgoing_send now dest msg s = Done (Ok tt,
    set_queued (queued_messages s ++ [mkUnacked msg (request_message msg dest s) now]) (client_bumped s)).
Proof. reflexivity. Qed.

Lemma api_outgoing_send now dest msg : preserves api (outgoing_send (V:=V) (Db:=Db) (A:=A) now dest msg).
Proof.
  intros s r s' Hrun. rewrite outgoing_send_run in Hrun. inv_done.
  destruct (api_refl s). split; try done. eexists. split; [done|]. apply Forall_singleton. split; [by eexists|by eexists _, _].
Qed.

Lemma api_incoming_get_entry k : preserves api (incoming_get_entry (V:=V) (Db:=Db) (A:=A) k).
Proof. unfold incoming_get_entry. frame. Qed.
Lemma api_incoming_get k : preserves api (incoming_get (V:=V) (Db:=Db) (A:=A) k).
Proof. pose proof (api_incoming_get_entry k). unfold incoming_get. frame. Qed.
Lemma api_internal_get k : preserves api (internal_get (V:=V) (Db:=Db) (A:=A) k).
Proof. unfold internal_get. frame. Qed.
Lemma api_actor_msg_new {T} `{Codec V T} k (t : T) : preserves api (actor_msg_new (V:=V) k t).
Proof. unfold actor_msg_new. frame. Qed.
Lemma api_deserialize_data {T} `{Codec V T} (m : ActorMessage V) :
  preserves api (deserialize_data (T:=T) m).
Proof. unfold deserialize_data. frame. Qed.

End ActorTheory.

#[export] Hint Resolve api_modify_actor api_stop api_get_mut api_add api_outgoing_send api_incoming_get_entry
  api_incoming_get api_internal_get api_actor_msg_new api_deserialize_data : frame.

(** The contract of the callbacks of an actor: they only use the interface. *)
Class ActorContract {V Db A} `{!SwssTable Db} (Act : Actor (V:=V) (Db:=Db) (A:=A)) := {
  actor_init_api now : preserves api (actor_init (Actor:=Act) now);
  handle_message_api now k : preserves api (handle_message (Actor:=Act) now k);
}.

(** * Running the driver *)

Section DriverTheory.
Context {V Db A : Type} `{Wire V} `{!SwssTable Db}.
Implicit Types (s : ActorSt V Db A) (u : UnackedMessage V).

Definition router_open s : Prop := receiver_open (router (swbus_client s)) = true.
Definition sent_out s : list SwbusMessage := delivered (router (swbus_client s)).

(** Writing to the router of an open edge. *)
Definition pushed (m : SwbusMessage) s : ActorSt V Db A :=
  let c := swbus_client s in
  set_client (mkClient (client_source c) (client_sink c) (client_ids c) (handler_rx c)
    (mkMsgChan (delivered (router c) ++ [m]) true)) s.

Lemma push_run {E B} w m (k : unit → M (ActorSt V Db A) E B) s :
  router_open s → bind (unwrap_result w (lift_client (client_send_raw m))) k s = k tt (pushed m s).
Proof.
  intros Ho. unfold unwrap_result, bind, attempt, lift_client, client_send_raw, bind, get_state, chan_send.
  unfold router_open in Ho. by rewrite Ho.
Qed.

(** ** Sending the queue *)

Definition mid_of u : Z := from_option id 0%Z (header (swbus_message u)).

Definition record_sent (now : Z) (m : gmap string (SentMessageEntry V)) u :=
  <[unacked_key u := match m !! unacked_key u with
                     | Some e => new_message_sent now (actor_message u) (mid_of u) e
                     | None => sent_new now (actor_message u) (mid_of u)
                     end]> m.

Record after_send (now : Z) (q : list (UnackedMessage V)) s s' : Prop := {
  as_out : sent_out s' = sent_out s ++ (swbus_message <$> q);
  as_open : router_open s';
  as_internal : internal_table s' = internal_table s;
  as_incoming : incoming_table s' = incoming_table s;
  as_queued : queued_messages s' = queued_messages s;
  as_databases : databases s' = databases s;
  as_stopped : stopped s' = stopped s;
  as_unacked : unacked_messages s' = foldl (λ m u, <[mid_of u := u]> m) (unacked_messages s) q;
  as_sent : sent_messages s' = foldl (record_sent now) (sent_messages s) q;
  as_actor : actor s' = actor s;
}.

Lemma send_all_run now q s :
  router_open s → Forall (λ u, is_Some (header (swbus_message u))) q →
  ∃ s', for_each (send_one now) q s = Done (Ok tt, s') ∧ after_send now q s s'.
Proof.
  intros Ho Hq. revert s Ho. induction Hq as [|u q [h Hh] Hq IH]; intros s Ho.
  - exists s. split; [done|]. split; try done. by rewrite app_nil_r.
  - assert (send_one now u s = Done (Ok tt,
      set_unacked (<[mid_of u := u]> (unacked_messages s))
        (set_sent (record_sent now (sent_messages s) u) (pushed (swbus_message u) s)))) as H1.
    { unfold send_one. rewrite push_run by done. unfold record_sent, mid_of. rewrite Hh. reflexivity. }
    destruct (IH _ (eq_refl : router_open (set_unacked (<[mid_of u := u]> (unacked_messages s))
      (set_sent (record_sent now (sent_messages s) u) (pushed (swbus_message u) s)))))
      as (s' & Hrun & [Ho1 Ho2 Hi Hin Hqu Hdb Hst Hun Hse Hac]).
    exists s'. split; [cbn [for_each]; by rewrite (bind_done _ _ _ _ _ H1)|].
    split; try done. rewrite Ho1. unfold sent_out. cbn. by rewrite <- app_assoc.
Qed.

Lemma foldl_insert_notin {K} `{Countable K} {B} (f : B → K) (q : list B) (m : gmap K B) k :
  (∀ x, x ∈ q → f x ≠ k) → foldl (λ m x, <[f x := x]> m) m q !! k = m !! k.
Proof.
  revert m. induction q as [|x q IH]; intros m Hk; [done|]. cbn. rewrite IH.
  - rewrite lookup_insert_ne; [done|]. apply Hk. by apply list_elem_of_here.
  - intros v Hv. apply Hk. by apply list_elem_of_further.
Qed.

Lemma foldl_insert_in {K} `{Countable K} {B} (f : B → K) (q : list B) (m : gmap K B) x :
  NoDup (f <$> q) → x ∈ q → foldl (λ m x, <[f x := x]> m) m q !! f x = Some x.
Proof.
  revert m. induction q as [|v q IH]; intros m Hnd Hu; [by apply not_elem_of_nil in Hu|].
  cbn in Hnd. apply NoDup_cons in Hnd as [Hv Hnd]. cbn.
  apply elem_of_cons in Hu as [->|Hu]; [|by apply IH].
  rewrite foldl_insert_notin; [apply lookup_insert_eq|].
  intros w Hw Heq. apply Hv. rewrite <- Heq. by apply list_elem_of_fmap_2.
Qed.

Lemma record_sent_dom now (q : list (UnackedMessage V)) m k :
  is_Some (m !! k) → is_Some (foldl (record_sent now) m q !! k).
Proof.
  revert m. induction q as [|u q IH]; intros m Hk; [done|]. cbn. apply IH.
  unfold record_sent. rewrite lookup_insert. by case_decide.
Qed.

Lemma record_sent_notin now (q : list (UnackedMessage V)) m k :
  (∀ u, u ∈ q → unacked_key u ≠ k) → foldl (record_sent now) m q !! k = m !! k.
Proof.
  revert m. induction q as [|u q IH]; intros m Hk; [done|]. cbn. rewrite IH.
  - unfold record_sent. rewrite lookup_insert_ne; [done|]. apply Hk. by apply list_elem_of_here.
  - intros v Hv. apply Hk. by apply list_elem_of_further.
Qed.

(** The entry of the last message with a key describes that message. *)
Lemma record_sent_last now (q1 q2 : list (UnackedMessage V)) m u :
  (∀ v, v ∈ q2 → unacked_key v ≠ unacked_key u) →
  ∃ e, foldl (record_sent now) m (q1 ++ u :: q2) !! unacked_key u = Some e ∧
    sent_msg e = actor_message u ∧ sent_id e = mid_of u ∧ sent_acked e = false ∧ sent_response e = None.
Proof.
  intros Hlast. rewrite foldl_app. cbn. rewrite record_sent_notin by done.
  unfold record_sent at 1. rewrite lookup_insert_eq. eexists. split; [done|].
  by destruct (foldl _ _ _ !! _).
Qed.

Lemma send_queued_run now s :
  router_open s → Forall (λ u, is_Some (header (swbus_message u))) (queued_messages s) →
  ∃ s', send_queued_messages now s = Done (Ok tt, s') ∧
    after_send now (queued_messages s) (set_queued [] s) s'.
Proof.
  intros Ho Hq. unfold send_queued_messages. rewrite bind_get.
  rewrite (bind_done _ _ _ tt (set_queued [] s)) by done.
  exact (send_all_run now _ (set_queued [] s) Ho Hq).
Qed.

(** ** Resending *)

Definition due (now : Z) u : Prop := (RESEND_TIME ≤ get_elapsed_time (time_sent u) now)%Z.
#[export] Instance due_dec now u : Decision (due now u).
Proof. unfold due. apply _. Defined.

Lemma resend_one_run now u e s :
  router_open s → sent_messages s !! unacked_key u = Some e →
  resend_one now u s = Done (Ok tt,
    if decide (due now u)
    then set_sent (<[unacked_key u := message_resent now e]> (sent_messages s)) (pushed (swbus_message u) s)
    else s).
Proof.
  intros Ho He. unfold resend_one, when.
  destruct (decide (due now u)) as [Hd|Hd].
  - rewrite (proj2 (Z.leb_le _ _) Hd), push_run, bind_get by done. cbn. by rewrite He.
  - apply Z.nle_gt, Z.leb_gt in Hd. by rewrite Hd.
Qed.

Lemma resend_all_run now q s :
  router_open s → (∀ u, u ∈ q → is_Some (sent_messages s !! unacked_key u)) →
  ∃ s', for_each (resend_one now) q s = Done (Ok tt, s') ∧
    sent_out s' = sent_out s ++ (swbus_message <$> filter (due now) q) ∧
    unacked_messages s' = unacked_messages s ∧ queued_messages s' = queued_messages s ∧
    databases s' = databases s.
Proof.
  revert s. induction q as [|u q IH]; intros s Ho Hall; [exists s; by rewrite app_nil_r|].
  destruct (Hall u (list_elem_of_here _ _)) as [e He].
  cbn [for_each]. rewrite (bind_done _ _ _ _ _ (resend_one_run now u e s Ho He)).
  rewrite filter_cons. destruct (decide (due now u)) as [Hd|Hd].
  - destruct (IH (set_sent (<[unacked_key u := message_resent now e]> (sent_messages s))
      (pushed (swbus_message u) s))) as (s' & Hrun & Hout & Hrest); [done| |].
    + intros v Hv. cbn. rewrite lookup_insert. destruct (decide _); [eauto|].
      by apply Hall, list_elem_of_further.
    + exists s'. split; [done|]. split; [|done]. rewrite Hout. unfold sent_out. cbn. by rewrite <- app_assoc.
  - apply IH; [done|]. intros v Hv. by apply Hall, list_elem_of_further.
Qed.

(** ** Committing the internal table *)

Definition reads_back (d : Db) (e : InternalTableEntry) : Prop :=
  ∃ g, table_get d (swss_table_name e) (swss_key e) = Ok g ∧ fvs e ⊆ default ∅ g.

Definition table_of (e : InternalTableEntry) : string * string := (swss_table_name e, swss_key e).

(** The entries of the internal table are backed by different table keys. *)
Definition separate s : Prop :=
  ∀ k1 k2 e1 e2, internal_table s !! k1 = Some e1 → internal_table s !! k2 = Some e2 →
    table_of e1 = table_of e2 → k1 = k2.

Context `{!SwssTableLaws Db, !SwssTableWrites Db}.

Lemma commit_keys_run now (ks : list string) s :
  NoDup ks → (∀ k, k ∈ ks → is_Some (internal_table s !! k)) → separate s →
  ∃ s', for_each (commit_entry now) ks s = Done (Ok tt, s') ∧
    (∃ t d, s' = set_databases d (set_internal t s)) ∧
    (∀ k, internal_table s' !! k =
       if decide (k ∈ ks) then entry_committed now <$> internal_table s !! k else internal_table s !! k) ∧
    (∀ k e, k ∈ ks → internal_table s !! k = Some e → reads_back (databases s') e) ∧
    (∀ n k, (∀ k' e, k' ∈ ks → internal_table s !! k' = Some e → table_of e ≠ (n, k)) →
       table_get (databases s') n k = table_get (databases s) n k).
Proof.
  intros Hnd. revert s. induction Hnd as [|k ks Hk Hnd IH]; intros s Hin Hsep.
  - exists s. split; [done|]. split; [by exists (internal_table s), (databases s); destruct s|].
    split_and!; [done| |done]. intros k e He. by apply not_elem_of_nil in He.
  - destruct (Hin k (list_elem_of_here _ _)) as [e He].
    destruct (table_set_writes (databases s) (swss_table_name e) (swss_key e) (fvs e)) as [d Hd].
    destruct (table_set_reads _ _ _ _ _ Hd) as [(g & Hg & Hfg) Hother].
    set (s1 := set_databases d (set_internal (<[k := entry_committed now e]> (internal_table s)) s)).
    assert (commit_entry now k s = Done (Ok tt, s1)) as H1.
    { unfold commit_entry. rewrite bind_get, He. cbn. unfold unwrap_result, bind, attempt, of_result, ret.
      by rewrite Hd. }
    assert (∀ k', k' ≠ k → internal_table s1 !! k' = internal_table s !! k') as Hne.
    { intros k' Hk'. cbn. by rewrite lookup_insert_ne. }
    assert (separate s1) as Hsep1.
    { assert (∀ k' e', internal_table s1 !! k' = Some e' → ∃ e'', internal_table s !! k' = Some e'' ∧
        table_of e'' = table_of e') as Hback.
      { intros k' e'. cbn. rewrite lookup_insert. case_decide; [|by eauto].
        subst k'. intros [= <-]. by exists e. }
      intros k1 k2 e1 e2 (e1' & H1' & <-)%Hback (e2' & H2' & <-)%Hback. by apply Hsep. }
    destruct (IH s1) as (s' & Hrun & (t & d' & ->) & Htab & Hread & Hrest); [|done|].
    { intros k' Hk'. cbn. rewrite lookup_insert. case_decide; [done|].
      apply Hin. by apply list_elem_of_further. }
    assert (∀ k' e', k' ∈ ks → internal_table s !! k' = Some e' → table_of e' ≠ table_of e) as Hdiff.
    { intros k' e' Hk' He' Heq. apply Hk. by rewrite <- (Hsep _ _ _ _ He' He Heq). }
    eexists. split; [cbn [for_each]; rewrite (bind_done _ _ _ _ _ H1); exact Hrun|].
    split; [by exists t, d'|]. split_and!.
    + intros k'. rewrite Htab. cbn. rewrite lookup_insert.
      destruct (decide (k = k')) as [<-|Hkk].
      * rewrite (decide_False (P := k ∈ ks)) by done.
        by rewrite decide_True, He by by apply list_elem_of_here.
      * destruct (decide (k' ∈ ks)) as [Hk'|Hk'].
        -- by rewrite decide_True by by apply list_elem_of_further.
        -- rewrite decide_False; [done|]. by intros [->|?]%elem_of_cons.
    + intros k' e' [->|Hk']%elem_of_cons He'.
      * rewrite He in He'. injection He' as <-. exists g. split; [|done]. rewrite Hrest; [exact Hg|].
        intros k'' e''. cbn. intros Hk'' He''. rewrite lookup_insert_ne in He'' by (by intros ->).
        by apply (Hdiff k'' e'').
      * apply (Hread k' e' Hk'). rewrite Hne; [done|]. by intros ->.
    + intros n k' Hn. rewrite Hrest.
      * cbn. apply Hother. intros Heq. apply (Hn k e); [by apply list_elem_of_here|done|]. by rewrite Heq.
      * intros k'' e'' Hk'' He''. apply (Hn k'' e''); [by apply list_elem_of_further|].
        rewrite <- He''. symmetry. apply Hne. by intros ->.
Qed.

Lemma commit_changes_run now s :
  separate s →
  ∃ s', commit_changes now s = Done (Ok tt, s') ∧ (∃ d, s' =
      set_databases d (set_internal (entry_committed now <$> internal_table s) s)) ∧
    (∀ k e, internal_table s !! k = Some e → reads_back (databases s') e).
Proof.
  intros Hsep. unfold commit_changes. rewrite bind_get.
  assert (∀ k, k ∈ (map_to_list (internal_table s)).*1 ↔ is_Some (internal_table s !! k)) as Hdom.
  { intros k. rewrite list_elem_of_fmap. split.
    - intros ([k' e] & -> & He%elem_of_map_to_list). by exists e.
    - intros [e He]. exists (k, e). split; [done|]. by apply elem_of_map_to_list. }
  destruct (commit_keys_run now (map_to_list (internal_table s)).*1 s) as
    (s' & Hrun & (t & d & ->) & Htab & Hread & _); [apply NoDup_fst_map_to_list|by intros k Hk%Hdom|done|].
  eexists. split; [exact Hrun|]. split.
  - exists d. cbn in Htab |- *. do 2 f_equal. apply map_eq. intros k. rewrite Htab, lookup_fmap.
    case_decide as Hk; [done|]. rewrite Hdom in Hk. apply eq_None_not_Some in Hk. by rewrite Hk.
  - intros k e He. apply (Hread k e); [|done]. apply Hdom. by eexists.
Qed.

End DriverTheory.

(** ** Bookkeeping of unacknowledged messages *)

Section Tracking.
Context {V Db A : Type} `{Wire V} `{!SwssTable Db}.
Implicit Types (s : ActorSt V Db A) (u : UnackedMessage V).

(** Every unacknowledged message has an entry in the sent table. *)
Definition tracked s : Prop :=
  ∀ i u, unacked_messages s !! i = Some u → is_Some (sent_messages s !! unacked_key u).

Definition keeps_tracked s s' : Prop := tracked s → tracked s'.
#[local] Instance keeps_refl : Reflexive keeps_tracked.
Proof. intros s Hs; exact Hs. Qed.
#[local] Instance keeps_trans : Transitive keeps_tracked.
Proof. intros a b c. unfold keeps_tracked. auto. Qed.

Lemma tracked_same s s' :
  unacked_messages s' = unacked_messages s → sent_messages s' = sent_messages s → keeps_tracked s s'.
Proof. intros Hu Hs Ht i u. rewrite Hu, Hs. apply Ht. Qed.

Lemma api_tracked {E B} (m : M (ActorSt V Db A) E B) : preserves api m → preserves keeps_tracked m.
Proof. intros Hm s r s' Hrun. destruct (Hm _ _ _ Hrun). by apply tracked_same. Qed.

Lemma lift_client_tracked {E B} (m : M SimpleClient E B) :
  preserves keeps_tracked (lift_client (V:=V) (Db:=Db) (A:=A) m).
Proof.
  intros s r s' Hrun. unfold lift_client in Hrun.
  destruct (m (swbus_client s)) as [[r1 c]| |]; try discriminate Hrun. inv_done. by apply tracked_same.
Qed.

Lemma keeps_modify {E} (f : ActorSt V Db A → ActorSt V Db A) :
  (∀ s, unacked_messages (f s) = unacked_messages s) → (∀ s, sent_messages (f s) = sent_messages s) →
  preserves keeps_tracked (modify (E:=E) f).
Proof. intros Hu Hs. apply preserves_modify. intros s. by apply tracked_same. Qed.

Lemma send_one_tracked now u : preserves keeps_tracked (send_one (V:=V) (Db:=Db) (A:=A) now u).
Proof.
  unfold send_one. apply preserves_bind; [apply _|apply preserves_unwrap_result, lift_client_tracked; apply _|].
  intros []. apply preserves_bind; [apply _|frame|]. intros h s r s' Hrun.
  rewrite !bind_modify in Hrun. unfold modify in Hrun. inv_done. intros Ht i v. cbn.
  rewrite lookup_insert. case_decide.
  - intros [= <-]. rewrite lookup_insert_eq. eauto.
  - intros Hv%Ht. rewrite lookup_insert. by case_decide.
Qed.

Lemma commit_entry_tracked now k : preserves keeps_tracked (commit_entry (V:=V) (Db:=Db) (A:=A) now k).
Proof.
  intros s r s' Hrun. unfold commit_entry in Hrun. rewrite bind_get in Hrun.
  destruct (internal_table s !! k) as [e|]; [|discriminate Hrun]. cbn in Hrun.
  unfold unwrap_result, bind, attempt, of_result, ret in Hrun.
  destruct (table_set _ _ _ _); [|discriminate Hrun]. unfold put_state, throw in Hrun. inv_done.
  by apply tracked_same.
Qed.

Lemma request_handled_tracked k c m : preserves keeps_tracked (request_handled (V:=V) (Db:=Db) (A:=A) k c m).
Proof.
  intros s r s' Hrun. unfold request_handled in Hrun. rewrite bind_get in Hrun.
  destruct (incoming_table s !! k); [|discriminate Hrun]. cbn in Hrun.
  unfold bind, ret, put_state in Hrun. inv_done. by apply tracked_same.
Qed.

Hint Resolve lift_client_tracked send_one_tracked commit_entry_tracked request_handled_tracked : frame.

Lemma send_queued_tracked now : preserves keeps_tracked (send_queued_messages (V:=V) (Db:=Db) (A:=A) now).
Proof.
  intros s r s' Hrun. unfold send_queued_messages in Hrun. rewrite bind_get in Hrun.
  assert (preserves keeps_tracked (for_each (send_one now) (queued_messages s))) as Hf by frame.
  transitivity (set_queued [] s); [by apply tracked_same|]. by eapply Hf.
Qed.

Lemma commit_changes_tracked now : preserves keeps_tracked (commit_changes (V:=V) (Db:=Db) (A:=A) now).
Proof. unfold commit_changes. frame. Qed.

Lemma handle_response_tracked rid c m src :
  preserves keeps_tracked (handle_response (V:=V) (Db:=Db) (A:=A) rid c m src).
Proof.
  intros s r s' Hrun. unfold handle_response in Hrun. rewrite bind_get in Hrun.
  destruct (unacked_messages s !! rid) as [u|] eqn:Hu; [|by unfold ret in Hrun; inv_done].
  destruct (sent_messages s !! unacked_key u) as [e|] eqn:He; [|discriminate Hrun].
  cbn in Hrun. unfold bind, ret, put_state, when, modify in Hrun. intros Ht.
  assert (∀ v : UnackedMessage V, is_Some (sent_messages s !! unacked_key v) →
    is_Some (<[unacked_key u := response_received rid c m src e]> (sent_messages s) !! unacked_key v)) as Hd.
  { intros v Hv. rewrite lookup_insert. destruct (decide (unacked_key u = unacked_key v)); eauto. }
  destruct (bool_decide (c = CodeOk)); cbn in Hrun; unfold ret in Hrun; inv_done; intros i v; cbn; [rewrite lookup_delete; case_decide; [done|]|];
    intros Hv%Ht; by apply Hd.
Qed.

Lemma resend_one_tracked now u : preserves keeps_tracked (resend_one (V:=V) (Db:=Db) (A:=A) now u).
Proof.
  unfold resend_one. apply preserves_when; [apply _|].
  apply preserves_bind; [apply _|apply preserves_unwrap_result, lift_client_tracked; apply _|].
  intros [] s r s' Hrun. rewrite bind_get in Hrun.
  destruct (sent_messages s !! unacked_key u) as [e|]; [|discriminate Hrun].
  cbn in Hrun. unfold bind, ret, put_state in Hrun. inv_done. intros Ht i v. cbn. intros Hv%Ht.
  rewrite lookup_insert. by case_decide.
Qed.

Hint Resolve send_queued_tracked commit_changes_tracked handle_response_tracked resend_one_tracked : frame.

Lemma resend_tick_tracked now : preserves keeps_tracked (resend_tick (V:=V) (Db:=Db) (A:=A) now).
Proof.
  unfold resend_tick. apply preserves_bind; [apply _| |intros []; frame].
  apply preserves_modify. intros s Ht i u Hu. cbn in Hu.
  apply map_lookup_filter_Some in Hu as [Hu _]. by eapply Ht.
Qed.

Lemma handle_request_tracked now rid src payload :
  preserves keeps_tracked (handle_request (V:=V) (Db:=Db) (A:=A) now rid src payload).
Proof.
  unfold handle_request. destruct (from_slice payload); [|frame].
  apply preserves_bind; [apply _|by apply keeps_modify|intros; frame].
Qed.

Hint Resolve resend_tick_tracked handle_request_tracked : frame.

Context `{!Actor (V:=V) (Db:=Db) (A:=A)} (dump : ActorStateDump (V:=V) → string).
Context `{!ActorContract Actor0}.

Lemma handle_actor_message_tracked now k : preserves keeps_tracked (handle_actor_message now k).
Proof.
  pose proof (api_tracked _ (handle_message_api now k)). unfold handle_actor_message.
  apply preserves_bind; [apply _|by apply preserves_attempt|]. intros [[]|e].
  - frame.
  - assert (preserves (E:=string) keeps_tracked (modify drop_changes)) by by apply keeps_modify.
    assert (preserves (E:=string) keeps_tracked (modify drop_queued_messages)) by by apply keeps_modify.
    frame.
Qed.

Hint Resolve handle_actor_message_tracked : frame.

Lemma driver_send_tracked msg : preserves keeps_tracked (driver_send (V:=V) (Db:=Db) (A:=A) msg).
Proof. unfold driver_send. frame. Qed.

Hint Resolve driver_send_tracked : frame.

Lemma driver_loop_tracked evs : preserves keeps_tracked (driver_loop dump evs).
Proof.
  induction evs as [|ev evs IH]; cbn [driver_loop]; [frame|].
  apply preserves_bind; [apply _| |intros []; frame].
  unfold driver_step, handle_swbus_message, handle_management_request. frame.
Qed.

Lemma driver_run_tracked now evs : preserves keeps_tracked (driver_run dump now evs).
Proof.
  pose proof (api_tracked _ (actor_init_api now)). pose proof driver_loop_tracked.
  unfold driver_run. frame.
Qed.

End Tracking.
