(* ===== verification/ActorProps.v ===== *)
(** The properties of the actor framework: what the driver of Actor.v does
    with the tables, the queue and the databases, proved with the lemmas of
    ActorTheory.v; each with a concrete actor. *)
From S2P Require Import Prelude RustStr Path Proto Edge EdgeTheory Actor ActorTheory.

Open Scope stdpp_scope.

Section ActorProps.
Context {V Db A : Type} `{Wire V} `{!SwssTable Db} `{!SwssTableLaws Db, !SwssTableWrites Db}.
Context `{!Actor (V:=V) (Db:=Db) (A:=A)}.
Implicit Types (s : ActorSt V Db A) (u : UnackedMessage V).

Definition has_header u : Prop := is_Some (header (swbus_message u)).

(** What a failed callback leaves behind. *)
Lemma failed_callback_run now k s s1 err e0 :
  handle_message now k s = Done (Err err, s1) → incoming_table s1 !! k = Some e0 →
  handle_actor_message now k s = Done (Ok tt,
    set_incoming (<[k := update_handled CodeFail err e0]> (incoming_table s1))
      (drop_queued_messages (drop_changes s1))).
Proof.
  intros Hrun Hk. unfold handle_actor_message.
  rewrite (bind_done _ _ _ (Err err) s1) by (unfold attempt; by rewrite Hrun).
  rewrite (bind_done _ _ _ (CodeFail, err) (drop_queued_messages (drop_changes s1))) by done.
  unfold request_handled. rewrite bind_bind, bind_get. cbn. by rewrite Hk.
Qed.

(** What a successful callback leaves behind. *)
Lemma committed_run now k s s1 e0 :
  handle_message now k s = Done (Ok tt, s1) → router_open s1 → separate s1 →
  incoming_table s1 !! k = Some e0 → Forall has_header (queued_messages s1) →
  ∃ d s3, handle_actor_message now k s = Done (Ok tt, set_incoming (<[k := update_handled CodeOk "" e0]> (incoming_table s3)) s3) ∧
    after_send now (queued_messages s1)
      (set_queued [] (set_databases d (set_internal (entry_committed now <$> internal_table s1) s1))) s3 ∧
    ∀ k' e, internal_table s1 !! k' = Some e → reads_back d e.
Proof.
  intros Hrun Ho Hsep Hk Hq.
  destruct (commit_changes_run now s1 Hsep) as (sc & Hc & (d & ->) & Hread).
  destruct (send_queued_run now (set_databases d (set_internal (entry_committed now <$> internal_table s1) s1))
    Ho Hq) as (s3 & Hs & Has). exists d, s3. split; [|done].
  unfold handle_actor_message. rewrite (bind_done _ _ _ (Ok tt) s1) by (unfold attempt; by rewrite Hrun).
  rewrite bind_bind, (bind_done _ _ _ _ _ Hc), bind_bind, (bind_done _ _ _ _ _ Hs), bind_ret.
  unfold request_handled. rewrite bind_bind, bind_get. pose proof (as_incoming _ _ _ _ Has) as Hinc. cbn in Hinc |- *.
  by rewrite Hinc, Hk.
Qed.

(** C3: commit. When the callback succeeds, the driver writes every internal
    entry through to its table, sends the queued messages in order and records
    each as unacknowledged under its id and as the latest message of its key,
    and marks the request as handled. *)
Theorem callback_commit now k s s1 e0 :
  handle_message now k s = Done (Ok tt, s1) → router_open s1 → separate s1 →
  incoming_table s1 !! k = Some e0 → Forall has_header (queued_messages s1) →
  NoDup (mid_of <$> queued_messages s1) →
  ∃ s2, handle_actor_message now k s = Done (Ok tt, s2) ∧
    sent_out s2 = sent_out s1 ++ (swbus_message <$> queued_messages s1) ∧ queued_messages s2 = [] ∧
    (∀ u, u ∈ queued_messages s1 → unacked_messages s2 !! mid_of u = Some u) ∧
    (∀ i, i ∉ mid_of <$> queued_messages s1 → unacked_messages s2 !! i = unacked_messages s1 !! i) ∧
    (∀ q1 u q2, queued_messages s1 = q1 ++ u :: q2 → (∀ v, v ∈ q2 → unacked_key v ≠ unacked_key u) →
       ∃ e, sent_messages s2 !! unacked_key u = Some e ∧ sent_msg e = actor_message u ∧
         sent_id e = mid_of u ∧ sent_acked e = false ∧ sent_response e = None) ∧
    (∀ k' e, internal_table s1 !! k' = Some e →
       internal_table s2 !! k' = Some (entry_committed now e) ∧ reads_back (databases s2) e) ∧
    incoming_table s2 = <[k := update_handled CodeOk "" e0]> (incoming_table s1).
Proof.
  intros Hrun Ho Hsep Hk Hq Hnd.
  destruct (committed_run now k s s1 e0 Hrun Ho Hsep Hk Hq) as (d & s3 & Hdrive & [Hout _ Hint Hinc Hqu Hdb _ Hun Hse _] & Hread).
  cbn in Hun, Hse, Hinc, Hint, Hdb. eexists. split; [exact Hdrive|].
  cbn. rewrite Hun, Hse, Hinc, Hint, Hdb, Hqu. split_and!.
  - exact Hout.
  - done.
  - intros u Hu. by apply foldl_insert_in.
  - intros i Hi. apply foldl_insert_notin. intros u Hu <-. by apply Hi, list_elem_of_fmap_2.
  - intros q1 u q2 -> Hlast. by apply record_sent_last.
  - intros k' e He. split; [by rewrite lookup_fmap, He|by apply (Hread k')].
  - done.
Qed.

(** C9: Rollback. When the callback of an actor that only uses the [State]
    interface fails, nothing was sent and nothing reaches the databases, the
    queue is emptied and the request is recorded as failed. Every internal entry
    is there, without uncommitted change. It keeps its table and key and, if the
    callback wrote to it, has its values from before the callback, if not, its
    last backup, whether or not it was ever committed; or it was added in this
    callback, and has the values its table holds. *)
Theorem callback_rollback `{!ActorContract Actor0} now k s s1 err e0 :
  handle_message now k s = Done (Err err, s1) → incoming_table s !! k = Some e0 →
  (∀ k' e, internal_table s !! k' = Some e → mutated e = false) →
  ∃ s2, handle_actor_message now k s = Done (Ok tt, s2) ∧
    sent_out s2 = sent_out s ∧ databases s2 = databases s ∧ queued_messages s2 = [] ∧
    unacked_messages s2 = unacked_messages s ∧ sent_messages s2 = sent_messages s ∧
    incoming_table s2 = <[k := update_handled CodeFail err e0]> (incoming_table s) ∧
    (∀ k', is_Some (internal_table s !! k') → is_Some (internal_table s1 !! k')) ∧
    ∀ k', match internal_table s1 !! k', internal_table s2 !! k' with
          | Some e1, Some e2 =>
              mutated e2 = false ∧ table_of e2 = table_of e1 ∧ int_last_updated e2 = int_last_updated e1 ∧
              ((∃ e, internal_table s !! k' = Some e ∧ table_of e1 = table_of e ∧ int_last_updated e1 = int_last_updated e ∧
                  fvs e2 = if mutated e1 then fvs e else backup_fvs e) ∨
               (∃ o, table_get (databases s) (swss_table_name e1) (swss_key e1) = Ok o ∧ int_last_updated e1 = None ∧
                  fvs e2 = default ∅ o))
          | None, None => True
          | _, _ => False
          end.
Proof.
  intros Hrun Hk Hmut. pose proof (handle_message_api now k _ _ _ Hrun) as Hapi.
  destruct Hapi as [Hint Hkept Hinc Hun Hse _ Hro _ _ Hdb].
  eexists. split; [eapply failed_callback_run; [exact Hrun|by rewrite Hinc]|]. cbn.
  unfold sent_out. cbn. rewrite Hinc, Hro. split_and!; [done..|].
  intros k'. rewrite lookup_fmap. destruct (internal_table s1 !! k') as [e1|] eqn:He1; [|done]. cbn.
  split_and!; [done..|]. destruct (Hint k' e1 He1) as [(e & He & Ht & Hk' & Hl & Hw)|(o & Hg & Hl & Hb & _)].
  - left. exists e. unfold table_of. rewrite Ht, Hk', Hl. split_and!; [done..|].
    destruct Hw as [->|[Hm Hb]]; [by rewrite (Hmut k' e He)|by rewrite Hm, Hb, (Hmut k' e He)].
  - right. by exists o.
Qed.

(** C38: committed values are not saved as the new backup. After a callback that
    wrote [f (fvs e)] to an entry was committed to the database, a later
    callback that fails without touching the entry brings the old values back
    into the actor's copy - while the table keeps the committed ones - and the
    next successful callback writes the old values to the table. *)
Theorem stale_backup_reverts_commit now now2 k k2 t s s1 s2 e f err e2 :
  internal_table s !! t = Some e → mutated e = false →
  handle_message now k s = Done (Ok tt, s1) → internal_table s1 !! t = Some (fvs_mut f e) →
  router_open s1 → separate s1 → is_Some (incoming_table s1 !! k) → Forall has_header (queued_messages s1) →
  handle_actor_message now k s = Done (Ok tt, s2) →
  handle_message now2 k2 s2 = Done (Err err, s2) → incoming_table s2 !! k2 = Some e2 →
  reads_back (databases s2) (fvs_mut f e) ∧
  ∃ s3 e3, handle_actor_message now2 k2 s2 = Done (Ok tt, s3) ∧ databases s3 = databases s2 ∧
    internal_table s3 !! t = Some e3 ∧ fvs e3 = fvs e ∧
    ∃ s4, commit_changes now2 s3 = Done (Ok tt, s4) ∧ reads_back (databases s4) e3.
Proof.
  intros Ht Hmut Hrun Ht1 Ho Hsep [e0 Hk] Hq Hdrive Hfail Hk2.
  destruct (committed_run now k s s1 e0 Hrun Ho Hsep Hk Hq) as (d & s5 & Hrun5 & [_ _ Hint Hinc _ Hdb _ _ _] & Hread).
  cbn in Hinc, Hint, Hdb. rewrite Hrun5 in Hdrive. injection Hdrive as <-.
  cbn. rewrite Hdb. split; [by apply (Hread t)|].
  set (e3 := entry_drop_changes (entry_committed now (fvs_mut f e))).
  assert (fvs e3 = fvs e) as He3 by (cbn; by rewrite Hmut).
  pose proof (failed_callback_run now2 k2 _ _ err e2 Hfail Hk2) as Hroll.
  match type of Hroll with _ = Done (_, ?x) => set (s3 := x) in * end.
  exists s3, e3. split; [exact Hroll|]. split; [done|]. split.
  { cbn. by rewrite Hint, !lookup_fmap, Ht1. }
  split; [done|]. destruct (commit_changes_run now2 s3) as (s4 & Hc4 & _ & Hread4).
  2: { exists s4. split; [exact Hc4|]. apply (Hread4 t). cbn. by rewrite Hint, !lookup_fmap, Ht1. }
  intros k1 k3 x1 x3. cbn. rewrite Hint, !lookup_fmap.
  destruct (internal_table s1 !! k1) as [y1|] eqn:E1; [|done].
  destruct (internal_table s1 !! k3) as [y3|] eqn:E3; [|done].
  intros [= <-] [= <-]. by apply (Hsep _ _ _ _ E1 E3).
Qed.

(** The answer to an actor request. A payload that is no actor message is
    dropped without an answer; any other request is first stored in the
    incoming table and answered with [Ok] - before the callback runs, and
    whatever it returns - and then handled under its key. *)
Theorem request_answered_first (dump : ActorStateDump (V:=V) → string) now rid src dst payload s :
  router_open s →
  match from_slice (V:=V) payload with
  | Err _ => handle_swbus_message dump now (mkIncoming rid src dst (BodyRequest payload)) s = Done (Ok tt, s)
  | Ok m => ∃ s1 answer_id, 
      handle_swbus_message dump now (mkIncoming rid src dst (BodyRequest payload)) s =
        handle_actor_message now (msg_key m) s1 ∧
      sent_out s1 = sent_out s ++ [message_new (header_new (client_source (swbus_client s)) src answer_id)
                                     (Response (response_ok rid))] ∧
      incoming_table s1 = incoming_table (incoming_insert now m src rid s) ∧
      internal_table s1 = internal_table s ∧ unacked_messages s1 = unacked_messages s
  end.
Proof.
  intros Ho. unfold handle_swbus_message. cbn [in_body in_id in_source].
  destruct (from_slice payload) as [m|e] eqn:Hm; [|done].
  eexists _, (next_id (client_ids (swbus_client s))). split; [|split_and!].
  - unfold handle_request. rewrite Hm. unfold bind at 1, attempt at 1. cbn.
    unfold driver_send, unwrap_result, bind, attempt, lift_client, client_send. cbn.
    unfold client_send_raw, bind, get_state, chan_send. cbn. unfold router_open in Ho. rewrite Ho.
    reflexivity.
  - done.
  - done.
  - done.
  - done.
Qed.

(** No response and no resend timer can panic an actor. From an empty table
    of unacknowledged messages, through any run of the driver of an actor that
    only uses the [State] interface, handling any response and any tick of the
    resend loop succeed while the edge is up. *)
Theorem bookkeeping_never_panics `{!ActorContract Actor0} (dump : ActorStateDump (V:=V) → string)
    now evs s0 b s now' rid code msg src :
  unacked_messages s0 = ∅ → driver_run dump now evs s0 = Done (Ok b, s) → router_open s →
  (∃ s', handle_response rid code msg src s = Done (Ok tt, s')) ∧
  (∃ s', resend_tick now' s = Done (Ok tt, s')).
Proof.
  intros H0 Hrun Ho.
  assert (tracked s) as Ht.
  { apply (driver_run_tracked dump now evs _ _ _ Hrun). intros i u. by rewrite H0, lookup_empty. }
  split.
  - unfold handle_response. rewrite bind_get.
    destruct (unacked_messages s !! rid) as [u|] eqn:Hu; [|by eexists].
    destruct (Ht rid u Hu) as [e He]. rewrite He. cbn.
    unfold bind, ret, put_state, when. destruct (bool_decide _); by eexists.
  - unfold resend_tick. rewrite bind_modify, bind_get.
    set (s1 := set_unacked _ s).
    assert (∀ u, u ∈ (map_to_list (unacked_messages s1)).*2 → is_Some (sent_messages s1 !! unacked_key u)) as Hall.
    { intros u ([i v] & -> & Hv%elem_of_map_to_list)%list_elem_of_fmap. cbn in Hv.
      apply map_lookup_filter_Some in Hv as [Hv _]. by apply (Ht i). }
    destruct (resend_all_run now' (map_to_list (unacked_messages s1)).*2 s1) as (s' & Hres & _);
      [exact Ho|exact Hall|by exists s'].
Qed.

(** The life of an unacknowledged message. A response is recorded on the
    latest message of its key; only an [Ok] response ends the resending. A tick
    of the resend loop forgets what was first sent an hour ago or more, and
    sends again, unchanged, exactly the remaining messages that are a minute
    old. *)
Theorem unacked_lifecycle now rid code msg src u e s :
  tracked s → router_open s → unacked_messages s !! rid = Some u →
  sent_messages s !! unacked_key u = Some e →
  (∃ s', handle_response rid code msg src s = Done (Ok tt, s') ∧ sent_out s' = sent_out s ∧
     unacked_messages s' = (if decide (code = CodeOk) then delete rid (unacked_messages s) else unacked_messages s) ∧
     ∃ e', sent_messages s' !! unacked_key u = Some e' ∧
       (sent_id e = rid → sent_acked e' = bool_decide (code = CodeOk) ∧ sent_response_source e' = Some src) ∧
       (sent_id e ≠ rid → e' = e)) ∧
  ∃ s', resend_tick now s = Done (Ok tt, s') ∧
    (∀ i v, unacked_messages s' !! i = Some v ↔
       unacked_messages s !! i = Some v ∧ (get_elapsed_time (time_sent v) now < 3600)%Z) ∧
    sent_out s' = sent_out s ++ (swbus_message <$> filter (due now) (map_to_list (unacked_messages s')).*2).
Proof.
  intros Ht Ho Hu He. split.
  - unfold handle_response. rewrite bind_get, Hu. rewrite (bind_done _ _ _ e s) by by rewrite He.
    unfold bind, put_state, when, ret, modify.
    assert (∀ P : SentMessageEntry V → Prop, P (response_received rid code msg src e) →
      ∃ e', <[unacked_key u := response_received rid code msg src e]> (sent_messages s) !! unacked_key u = Some e' ∧ P e')
      as Hsent by (intros P HP; eexists; split; [apply lookup_insert_eq|done]).
    destruct (decide (code = CodeOk)) as [->|Hne];
      [rewrite bool_decide_eq_true_2 by done|rewrite bool_decide_eq_false_2 by done];
      (eexists; split; [done|]; split; [done|]; split; [done|]; apply Hsent; unfold response_received;
       split; [intros ->; rewrite decide_True by done|intros Hid; by rewrite decide_False by congruence]).
    + done.
    + by rewrite decide_False.
  - unfold resend_tick. rewrite bind_modify, bind_get. set (s1 := set_unacked _ s).
    destruct (resend_all_run now (map_to_list (unacked_messages s1)).*2 s1) as (s' & Hres & Hout & Hun & _).
    { exact Ho. }
    { intros v ([i w] & -> & Hw%elem_of_map_to_list)%list_elem_of_fmap. cbn in Hw.
      apply map_lookup_filter_Some in Hw as [Hw _]. by apply (Ht i). }
    exists s'. split; [done|]. rewrite Hun. split; [|done].
    intros i v. cbn. by rewrite map_lookup_filter_Some.
Qed.

(** Versions of the incoming table. After any sequence of requests, a key
    that was not in the table has an entry exactly when some request carried
    it: that of the last one, created by the first, and with the number of
    those requests (modulo 2^64) as its version. *)
Theorem incoming_versions (reqs : list (Z * ActorMessage V * ServicePath * Z)) s k :
  incoming_table s !! k = None →
  let s' := foldl (λ s r, incoming_insert r.1.1.1 r.1.1.2 r.1.2 r.2 s) s reqs in
  let mine := filter (λ r, msg_key r.1.1.2 = k) reqs in
  match head mine, last mine with
  | Some first, Some final => ∃ e, incoming_table s' !! k = Some e ∧
      inc_version e = wrap_u64 (Z.of_nat (length mine)) ∧ inc_msg e = final.1.1.2 ∧
      inc_source e = final.1.2 ∧ inc_request_id e = final.2 ∧
      inc_created_time e = unix_secs first.1.1.1 ∧ inc_last_updated_time e = unix_secs final.1.1.1
  | _, _ => incoming_table s' !! k = None
  end.
Proof.
  intros Hk. cbn zeta. induction reqs as [|r reqs IH] using rev_ind; [done|].
  rewrite foldl_app, filter_app, head_app, last_app, length_app. cbn [foldl]. rewrite filter_cons, filter_nil.
  set (mine := filter _ reqs) in *. set (s1 := foldl _ s reqs) in *. clearbody s1.
  destruct r as [[[now m] src] rid]. cbn [fst snd]. cbn.
  destruct (decide (msg_key m = k)) as [<-|Hne]; cbn [last head length].
  - rewrite lookup_insert_eq. destruct mine as [|f mine']; cbn [head length].
    + cbn in IH. rewrite IH. eexists. split; [done|]. done.
    + destruct (last (f :: mine')) as [l|] eqn:Hl; [|by apply last_None in Hl].
      destruct IH as (e & He & Hv & _ & _ & _ & Hc & _). rewrite He. eexists. split; [done|].
      cbn. rewrite Hv, Hc. split_and!; try done. unfold wrap_u64.
      rewrite Zplus_mod_idemp_l. f_equal. cbn. lia.
  - rewrite lookup_insert_ne by done. rewrite Nat.add_0_r. by destruct (head mine).
Qed.

End ActorProps.
