(* ===== verification/ActorWitness.v ===== *)
(** A concrete actor over concrete tables, for the properties of ActorProps.v:
    "set" writes its table entry and notifies a peer, "fail" fails. *)
From S2P Require Import Prelude RustStr Path Proto Mux MuxWitness Edge EdgeTheory Actor ActorTheory ActorProps.
From Stdlib Require String.

Open Scope stdpp_scope.

(** JSON values as strings, messages as the bytes of key and data. *)
Definition str_bytes (s : string) : list Z := (λ a, Z.of_nat (nat_of_ascii a)) <$> String.list_ascii_of_string s.
Definition bytes_str (l : list Z) : string := String.string_of_list_ascii ((λ z, ascii_of_nat (Z.to_nat z)) <$> l).

Lemma bytes_str_bytes s : bytes_str (str_bytes s) = s.
Proof.
  unfold bytes_str, str_bytes. induction s as [|a s IH]; [done|]. cbn. by rewrite Nat2Z.id, ascii_nat_embedding, IH.
Qed.

#[export] Instance demo_wire : Wire string := {
  to_vec m := Z.of_nat (String.length (msg_key m)) :: str_bytes (msg_key m) ++ str_bytes (msg_data m);
  from_slice l := match l with
                  | n :: l' => if (n <? 0)%Z then Err "not an actor message"
                               else Ok (mkActorMsg (bytes_str (take (Z.to_nat n) l')) (bytes_str (drop (Z.to_nat n) l')))
                  | [] => Err "not an actor message"
                  end;
}.
#[export] Instance demo_wire_laws : WireLaws string.
Proof.
  split. intros [k d]. unfold to_vec, from_slice, demo_wire. cbn [msg_key msg_data].
  rewrite (proj2 (Z.ltb_ge _ _)) by lia. rewrite Nat2Z.id.
  assert (length (str_bytes k) = String.length k) as Hl.
  { unfold str_bytes. rewrite length_fmap. clear. induction k; cbn; auto. }
  by rewrite take_app_length', drop_app_length', !bytes_str_bytes by done.
Defined.

(** Tables that merge what is written, like Redis hashes. *)
Definition DemoDb : Type := gmap (string * string) FieldValues.
#[export] Instance demo_tables : SwssTable DemoDb := {
  table_get d n k := Ok (d !! (n, k));
  table_set d n k f := Ok (<[(n, k) := f ∪ default ∅ (d !! (n, k))]> d);
}.
#[export] Instance demo_tables_laws : SwssTableLaws DemoDb.
Proof.
  split. intros d n k f d' [= <-]. split.
  - exists (Some (f ∪ default ∅ (d !! (n, k)))). split; [|apply map_union_subseteq_l].
    unfold table_get, demo_tables. f_equal. apply lookup_insert_eq.
  - intros n' k' Hne. unfold table_get, demo_tables. f_equal. apply lookup_insert_ne. congruence.
Defined.
#[export] Instance demo_tables_writes : SwssTableWrites DemoDb.
Proof. intros d n k f. by eexists. Defined.

Abbreviation DemoSt := (ActorSt string DemoDb nat).

#[export] Instance demo_actor : Actor (V:=string) (Db:=DemoDb) (A:=nat) := {
  actor_init _ := internal_add "T" "DEMO_TABLE" "demo";
  handle_message now k :=
    if decide (k = "fail") then throw "failed"
    else internal_get_mut "T" <["value" := k]>;;;
         outgoing_send now demo_peer_svc (mkActorMsg "notify" k);;;
         modify (λ s, set_actor (S (actor s)) s);;;
         ret tt;
}.
#[export] Instance demo_contract : ActorContract demo_actor.
Proof.
  split; [intros now; apply api_add|]. intros now k. cbn.
  destruct (decide (k = "fail")); frame.
Defined.

Definition demo_entry : InternalTableEntry :=
  mkIntEntry "DEMO_TABLE" "demo" {["value" := "old"]} false {["value" := "old"]} None.
Definition demo_incoming (k : string) : IncomingTableEntry string :=
  inc_new 0 (mkActorMsg k "data") demo_peer_svc 5.
Definition demo_state : DemoSt :=
  mkActorSt 0 {["T" := demo_entry]} {["set" := demo_incoming "set"; "fail" := demo_incoming "fail"]}
    ∅ [] ∅ demo_client {[("DEMO_TABLE", "demo") := {["value" := "old"]}]} false.

Definition done_state {S E A} (s : S) (o : outcome (result A E * S)) : S :=
  match o with Done (_, s') => s' | _ => s end.
Definition done_result {S E A} (o : outcome (result A E * S)) : option (result A E) :=
  match o with Done (r, _) => Some r | _ => None end.

(** A run is known by its result, without writing its final state out. *)
Lemma done_state_run {S E A} (s : S) (o : outcome (result A E * S)) r :
  done_result o = Some r → o = Done (r, done_state s o).
Proof. destruct o as [[r' s']| |]; [|done..]. by intros [= ->]. Defined.

Definition demo_called : DemoSt := done_state demo_state (handle_message 0 "set" demo_state).
Definition demo_committed : DemoSt := done_state demo_state (handle_actor_message 0 "set" demo_state).

Lemma demo_called_separate : separate demo_called.
Proof.
  intros k1 k2 e1 e2 H1 H2 _.
  assert (∀ k e, internal_table demo_called !! k = Some e → k = "T") as Hk; [|by rewrite (Hk _ _ H1), (Hk _ _ H2)].
  intros k e He. destruct (decide (k = "T")) as [|Hne]; [done|].
  assert (internal_table demo_called !! k = None) as Hn; [|congruence].
  change (internal_table demo_called) with
    (<["T" := fvs_mut <["value" := "set"]> demo_entry]> ({["T" := demo_entry]} : gmap string InternalTableEntry)).
  by rewrite lookup_insert_ne, lookup_singleton_ne.
Defined.

Lemma demo_called_headers : Forall has_header (queued_messages demo_called).
Proof. apply Forall_singleton. by eexists. Defined.

Lemma callback_commit_witness :
  ∃ s2, handle_actor_message 0 "set" demo_state = Done (Ok tt, s2) ∧ queued_messages s2 = [].
Proof.
  destruct (callback_commit 0 "set" demo_state demo_called (demo_incoming "set")) as (s2 & Hrun & _ & Hq & _).
  - reflexivity.
  - reflexivity.
  - exact demo_called_separate.
  - vm_compute. reflexivity.
  - exact demo_called_headers.
  - apply NoDup_singleton.
  - exists s2. split; [exact Hrun|exact Hq].
Defined.

(** A callback that queues a message, writes to an entry never committed and to
    one that was, adds a third, writes to it too, and then fails. A fourth it
    leaves alone. *)
Definition clumsy_actor : Actor (V:=string) (Db:=DemoDb) (A:=nat) := {|
  actor_init _ := ret tt;
  handle_message now k :=
    outgoing_send now demo_peer_svc (mkActorMsg "notify" k);;;
    internal_get_mut "T" <["value" := "half"]>;;;
    internal_get_mut "C" (λ _, ∅);;;
    internal_add "N" "DEMO_TABLE" "demo";;;
    internal_get_mut "N" <["value" := "half"]>;;;
    throw "failed";
|}.
Lemma clumsy_contract : ActorContract clumsy_actor.
Proof. split; [intros ?|intros ? ?]; cbn; frame. Qed.

Definition clumsy_state : DemoSt :=
  mkActorSt 0
    {["T" := demo_entry;
      "C" := mkIntEntry "DEMO_TABLE" "c" {["n" := "2"]} false {["n" := "1"]} (Some 5%Z);
      "U" := mkIntEntry "DEMO_TABLE" "u" {["n" := "2"]} false {["n" := "1"]} (Some 5%Z)]}
    {["fail" := demo_incoming "fail"]} ∅ [] ∅ demo_client {[("DEMO_TABLE", "demo") := {["value" := "old"]}]} false.
Definition clumsy_called : DemoSt := done_state clumsy_state (handle_message (Actor:=clumsy_actor) 0 "fail" clumsy_state).

Lemma callback_rollback_witness :
  ∃ s2, handle_actor_message (H1:=clumsy_actor) 0 "fail" clumsy_state = Done (Ok tt, s2) ∧
    databases s2 = databases clumsy_state ∧ queued_messages s2 = [] ∧
    (∃ e, internal_table s2 !! "T" = Some e ∧ fvs e = {["value" := "old"]}) ∧
    (∃ e, internal_table s2 !! "C" = Some e ∧ fvs e = {["n" := "2"]}).
Proof.
  destruct (callback_rollback (Actor0:=clumsy_actor) (ActorContract0:=clumsy_contract) 0 "fail" clumsy_state clumsy_called
    "failed" (demo_incoming "fail")) as (s2 & Hrun & _ & Hdb & Hq & _ & _ & _ & _ & Hint).
  - apply done_state_run. vm_compute. reflexivity.
  - vm_compute. reflexivity.
  - assert (∀ m : gmap string InternalTableEntry, map_Forall (λ _ e, mutated e = false) m →
      ∀ k e, m !! k = Some e → mutated e = false) as Hall by (intros m Hm k e; apply Hm).
    apply Hall. unfold clumsy_state. cbn [internal_table]. repeat apply map_Forall_insert_2; [done..|apply map_Forall_empty].
  - exists s2. split; [exact Hrun|]. split; [exact Hdb|]. split; [exact Hq|]. split.
    + specialize (Hint "T").
      assert (internal_table clumsy_called !! "T" = Some (fvs_mut <["value" := "half"]> demo_entry)) as H1 by (vm_compute; reflexivity).
      rewrite H1 in Hint. destruct (internal_table s2 !! "T") as [e|]; [|destruct Hint]. exists e. split; [done|].
      destruct Hint as (_ & _ & _ & [(e' & He' & _ & _ & Hf)|(o & Ho & _ & Hf)]).
      * assert (internal_table clumsy_state !! "T" = Some demo_entry) as H0 by (vm_compute; reflexivity).
        rewrite H0 in He'. injection He' as <-. exact Hf.
      * assert (table_get (databases clumsy_state) "DEMO_TABLE" "demo" = Ok (Some {["value" := "old"]})) as H0 by (vm_compute; reflexivity).
        cbn [swss_table_name swss_key fvs_mut demo_entry] in Ho. rewrite H0 in Ho. injection Ho as <-. exact Hf.
    + specialize (Hint "C").
      set (c := mkIntEntry "DEMO_TABLE" "c" {["n" := "2"]} false {["n" := "1"]} (Some 5%Z)).
      assert (internal_table clumsy_called !! "C" = Some (fvs_mut (λ _, ∅) c)) as H1 by (vm_compute; reflexivity).
      rewrite H1 in Hint. destruct (internal_table s2 !! "C") as [e|]; [|destruct Hint]. exists e. split; [done|].
      destruct Hint as (_ & _ & _ & [(e' & He' & _ & _ & Hf)|(o & _ & Hl & _)]); [|discriminate Hl].
      assert (internal_table clumsy_state !! "C" = Some c) as H0 by (vm_compute; reflexivity).
      rewrite H0 in He'. injection He' as <-. exact Hf.
Defined.

Lemma demo_fails now (s : DemoSt) : handle_message now "fail" s = Done (Err "failed", s).
Proof. reflexivity. Defined.

Lemma stale_backup_reverts_commit_witness :
  ∃ s3 e3, handle_actor_message 9 "fail" demo_committed = Done (Ok tt, s3) ∧
    internal_table s3 !! "T" = Some e3 ∧ fvs e3 = {["value" := "old"]}.
Proof.
  destruct (stale_backup_reverts_commit 0 9 "set" "fail" "T" demo_state demo_called demo_committed
    demo_entry <["value" := "set"]> "failed" (demo_incoming "fail")) as (_ & s3 & e3 & Hrun & _ & He & Hf & _).
  - reflexivity.
  - reflexivity.
  - reflexivity.
  - vm_compute. reflexivity.
  - reflexivity.
  - exact demo_called_separate.
  - vm_compute. by eexists.
  - exact demo_called_headers.
  - apply done_state_run. vm_compute. reflexivity.
  - apply demo_fails.
  - vm_compute. reflexivity.
  - exists s3, e3. split; [exact Hrun|]. split; [exact He|exact Hf].
Defined.

Lemma request_answered_first_witness :
  handle_swbus_message (λ _, "") 0 (mkIncoming 3 demo_peer_svc demo_local_svc (BodyRequest [])) demo_state
    = Done (Ok tt, demo_state).
Proof.
  exact (request_answered_first (λ _, "") 0 3 demo_peer_svc demo_local_svc []%Z demo_state eq_refl).
Defined.

Definition demo_start : DemoSt := mkActorSt 0 ∅ ∅ ∅ [] ∅ demo_client ∅ false.
Definition demo_events : list DriverEvent :=
  [EvMsg 1 (mkIncoming 3 demo_peer_svc demo_local_svc (BodyRequest (to_vec (mkActorMsg "set" "x"))));
   EvTick 61000000000].

Definition demo_ran : DemoSt := done_state demo_start (driver_run (λ _, "") 0 demo_events demo_start).

Lemma demo_ran_run : driver_run (λ _, "") 0 demo_events demo_start = Done (Ok false, demo_ran).
Proof. apply done_state_run. vm_compute. reflexivity. Defined.

Lemma bookkeeping_never_panics_witness :
  ∃ s', handle_response 100 CodeOk "" demo_peer_svc demo_ran = Done (Ok tt, s').
Proof.
  refine (proj1 (bookkeeping_never_panics (λ _, "") 0 demo_events demo_start false demo_ran 0
    100 CodeOk "" demo_peer_svc _ _ _)).
  - reflexivity.
  - exact demo_ran_run.
  - vm_compute. reflexivity.
Defined.

Definition demo_unacked : UnackedMessage string :=
  mkUnacked (mkActorMsg "notify" "x") (demo_msg 64 demo_local_svc demo_peer_svc (DataRequest [])) 0.
Definition demo_waiting : DemoSt :=
  mkActorSt 0 ∅ ∅ {[7%Z := demo_unacked]} [] {["notify" := sent_new 0 (mkActorMsg "notify" "x") 7]}
    demo_client ∅ false.

Lemma unacked_lifecycle_witness :
  ∃ s', handle_response 7 CodeOk "" demo_peer_svc demo_waiting = Done (Ok tt, s').
Proof.
  destruct (unacked_lifecycle 0 7 CodeOk "" demo_peer_svc demo_unacked
    (sent_new 0 (mkActorMsg "notify" "x") 7) demo_waiting) as ((s' & Hrun & _) & _).
  - intros i u. unfold demo_waiting. cbn [unacked_messages sent_messages].
    intros [_ <-]%lookup_singleton_Some. vm_compute. by eexists.
  - reflexivity.
  - vm_compute. reflexivity.
  - vm_compute. reflexivity.
  - by exists s'.
Defined.

Lemma incoming_versions_witness :
  ∃ e, incoming_table (incoming_insert 0 (mkActorMsg "k" "v2") demo_peer_svc 2
      (incoming_insert 0 (mkActorMsg "k" "v1") demo_peer_svc 1 demo_start)) !! "k" = Some e ∧ inc_version e = 2%Z.
Proof.
  destruct (incoming_versions [(0%Z, mkActorMsg "k" "v1", demo_peer_svc, 1%Z);
    (0%Z, mkActorMsg "k" "v2", demo_peer_svc, 2%Z)] demo_start "k" eq_refl) as (e & He & Hv & _).
  exists e. split; [exact He|]. rewrite Hv. reflexivity.
Defined.
