(* ===== verification/Link.v ===== *)
(** Two actors and the bus between them, seen from the updates one sends to the
    other: the sender's outgoing table, its unacknowledged messages and resend
    timer, the receiver's incoming table and its answers. Composes the drivers
    of Actor.v (crates/swbus-actor/src/driver.rs, state/outgoing.rs,
    state/incoming.rs) over a channel that keeps the order and may lose
    messages. *)
From S2P Require Import Prelude RustStr Path Proto Edge EdgeTheory Actor ActorTheory.

Open Scope stdpp_scope.

Section Receive.
Context {V Db A : Type} `{Wire V} `{!SwssTable Db} `{!Actor (V:=V) (Db:=Db) (A:=A)}.
Context (dump_to_string : ActorStateDump (V:=V) → string).

(** One round of the driver's loop for the message next in the channel: the client
    receives it and, unless it deals with it by itself, the driver handles it. *)
Definition receive_message (now : Z) (msg : SwbusMessage) : M (ActorSt V Db A) string unit := λ s,
  match recv_loop [msg] (swbus_client s) with
  | Done (Ok (Some m), c) => handle_swbus_message dump_to_string now m (set_client c s)
  | Done (_, c) => Done (Ok tt, set_client c s)
  | Panicked w => Panicked w
  | OutOfFuel => OutOfFuel
  end.

(** What a run has given to the edge. *)
Definition given (s s' : ActorSt V Db A) : list SwbusMessage := drop (length (sent_out s)) (sent_out s').
End Receive.

Definition dest_of (m : SwbusMessage) : option ServicePath := header m ≫= destination.
Definition is_data_request (m : SwbusMessage) : bool := match body m with Some (DataRequest _) => true | _ => false end.
Definition is_response (m : SwbusMessage) : bool := match body m with Some (Response _) => true | _ => false end.

Section Link.
Context {V Db A B : Type} `{Wire V} `{!SwssTable Db}.
Context `{!Actor (V:=V) (Db:=Db) (A:=A)} `{!Actor (V:=V) (Db:=Db) (A:=B)}.
Context (dump_to_string : ActorStateDump (V:=V) → string) (sp rp : ServicePath).

(** The sender at [sp], the receiver at [rp], the updates and the answers on their
    way; and, as the specification, what was last published under each key, with
    the id of the message, and the ids the sender gave up on: the resend loop
    forgets what has waited for an hour. *)
Record LinkSt : Type := mkLink {
  sender : ActorSt V Db A;
  receiver : ActorSt V Db B;
  wire : list SwbusMessage;
  back : list SwbusMessage;
  published : gmap string (Z * ActorMessage V);
  expired : gset Z;
}.

Definition updates_of (l : list SwbusMessage) : list SwbusMessage :=
  filter (λ m, dest_of m = Some rp ∧ is_data_request m = true) l.
Definition answers_of (l : list SwbusMessage) : list SwbusMessage :=
  filter (λ m, dest_of m = Some sp ∧ is_response m = true) l.

(** The sender has run from its state in [l] to [s']. *)
Definition sender_ran (s' : ActorSt V Db A) (l : LinkSt) : LinkSt :=
  mkLink s' (receiver l) (wire l ++ updates_of (given (sender l) s')) (back l) (published l) (expired l).
Definition publish (i : Z) (msg : ActorMessage V) (l : LinkSt) : LinkSt :=
  mkLink (sender l) (receiver l) (wire l) (back l) (<[msg_key msg := (i, msg)]> (published l)) (expired l).

(** No update to the receiver with this key waits for its acknowledgement. *)
Definition none_pending (k : string) (s : ActorSt V Db A) : Prop :=
  ∀ i u, unacked_messages s !! i = Some u → unacked_key u = k → dest_of (swbus_message u) ≠ Some rp.
(** The messages that have waited for less than an hour, and the ids of the others. *)
Definition still_waiting (now : Z) (un : gmap Z (UnackedMessage V)) : gmap Z (UnackedMessage V) :=
  filter (λ e, (get_elapsed_time (time_sent e.2) now < 3600)%Z) un.
Definition expiring (now : Z) (s : ActorSt V Db A) : gset Z :=
  dom (unacked_messages s) ∖ dom (still_waiting now (unacked_messages s)).
Definition expire (now : Z) (l : LinkSt) : LinkSt :=
  mkLink (sender l) (receiver l) (wire l) (back l) (published l) (expired l ∪ expiring now (sender l)).

(** What the sender does besides: it takes ids, and sends, resends and completes
    messages to others. *)
Record sender_other (s s' : ActorSt V Db A) : Prop := {
  so_unacked i u : dest_of (swbus_message u) = Some rp →
    unacked_messages s' !! i = Some u ↔ unacked_messages s !! i = Some u;
  so_others i u : unacked_messages s' !! i = Some u → unacked_messages s !! i = Some u ∨
    (next_id (client_ids (swbus_client s)) ≤ i < next_id (client_ids (swbus_client s')))%Z;
  so_tracked : tracked s → tracked s';
  so_queued : queued_messages s' = queued_messages s;
  so_ids : (next_id (client_ids (swbus_client s)) ≤ next_id (client_ids (swbus_client s')))%Z;
  so_source : client_source (swbus_client s') = client_source (swbus_client s);
  so_sink : client_sink (swbus_client s') = client_sink (swbus_client s);
  so_open : router_open s → router_open s';
}.
(** What the receiver does besides: it handles messages of others, under keys the
    sender has not published. *)
Record receiver_other (pub : gmap string (Z * ActorMessage V)) (r r' : ActorSt V Db B) : Prop := {
  ro_incoming k : is_Some (pub !! k) → incoming_table r' !! k = incoming_table r !! k;
  ro_others k e : incoming_table r' !! k = Some e → incoming_table r !! k = Some e ∨ inc_source e ≠ sp;
  ro_queued : queued_messages r' = queued_messages r;
  ro_source : client_source (swbus_client r') = client_source (swbus_client r);
  ro_sink : client_sink (swbus_client r') = client_sink (swbus_client r);
  ro_open : router_open r → router_open r';
}.

(** The steps. [may_send] says when the sender's callback sends an update: whenever
    it likes, or with a discipline. *)
Inductive link_step (may_send : string → ActorSt V Db A → Prop) (l : LinkSt) : LinkSt → Prop :=
| step_send now msg s' :
    may_send (msg_key msg) (sender l) →
    (next_id (client_ids (swbus_client (sender l))) < u64_max)%Z →
    (outgoing_send now rp msg;;; send_queued_messages now) (sender l) = Done (Ok tt, s') →
    link_step may_send l (publish (next_id (client_ids (swbus_client (sender l)))) msg (sender_ran s' l))
| step_tick now s' :
    resend_tick now (sender l) = Done (Ok tt, s') →
    link_step may_send l (sender_ran s' (expire now l))
| step_deliver now m w res r' :
    wire l = m :: w →
    receive_message dump_to_string now m (receiver l) = Done (res, r') →
    link_step may_send l (mkLink (sender l) r' w (back l ++ answers_of (given (receiver l) r')) (published l) (expired l))
| step_answer now m b res s' :
    back l = m :: b →
    receive_message dump_to_string now m (sender l) = Done (res, s') →
    link_step may_send l (mkLink s' (receiver l) (wire l) b (published l) (expired l))
| step_lose w1 m w2 :
    wire l = w1 ++ m :: w2 →
    link_step may_send l (mkLink (sender l) (receiver l) (w1 ++ w2) (back l) (published l) (expired l))
| step_lose_answer b1 m b2 :
    back l = b1 ++ m :: b2 →
    link_step may_send l (mkLink (sender l) (receiver l) (wire l) (b1 ++ b2) (published l) (expired l))
| step_sender_other s' :
    sender_other (sender l) s' →
    link_step may_send l (mkLink s' (receiver l) (wire l) (back l) (published l) (expired l))
| step_receiver_other r' :
    receiver_other (published l) (receiver l) r' →
    link_step may_send l (mkLink (sender l) r' (wire l) (back l) (published l) (expired l)).

(** Where a link starts: nothing published, nothing on its way. *)
Record link_start (l : LinkSt) : Prop := {
  ls_published : published l = ∅;
  ls_wire : wire l = [];
  ls_back : back l = [];
  ls_unacked : unacked_messages (sender l) = ∅;
  ls_queued : queued_messages (sender l) = [];
  ls_ids : (0 ≤ next_id (client_ids (swbus_client (sender l))))%Z;
  ls_rqueued : queued_messages (receiver l) = [];
  ls_source : client_source (swbus_client (sender l)) = sp;
  ls_sink : client_sink (swbus_client (sender l)) = false;
  ls_open : router_open (sender l);
  ls_rsource : client_source (swbus_client (receiver l)) = rp;
  ls_rsink : client_sink (swbus_client (receiver l)) = false;
  ls_ropen : router_open (receiver l);
  ls_incoming k e : incoming_table (receiver l) !! k = Some e → inc_source e ≠ sp;
}.
End Link.
Arguments mkLink {V Db A B}. Arguments sender {V Db A B}. Arguments receiver {V Db A B}.
Arguments wire {V Db A B}. Arguments back {V Db A B}. Arguments published {V Db A B}. Arguments expired {V Db A B}.
