(* ===== verification/LinkTheory.v ===== *)
(** Lemmas about two actors and the bus between them: what a driver does with one
    update or answer, and the invariant of a link whose sender never has two
    updates of one key waiting: the receiver holds every acknowledged update. *)
From S2P Require Import Prelude RustStr Path Proto Mux Edge EdgeTheory Actor ActorTheory Link.

Open Scope stdpp_scope.

(** * What the driver does to the client *)

Section Client.
Context {V Db A : Type} `{Wire V} `{!SwssTable Db}.
Implicit Types (s : ActorSt V Db A) (u : UnackedMessage V).

(** The client stays who it is and connected. *)
Record keeps_client s s' : Prop := {
  kc_source : client_source (swbus_client s') = client_source (swbus_client s);
  kc_sink : client_sink (swbus_client s') = client_sink (swbus_client s);
  kc_open : router_open s → router_open s';
}.
#[export] Instance keeps_client_refl : Reflexive keeps_client.
Proof. by split. Qed.
#[export] Instance keeps_client_trans : Transitive keeps_client.
Proof. intros s1 s2 s3 [? ? ?] [? ? ?]. split; [congruence..|auto]. Qed.

(** And takes no ids. *)
Definition ids_of s : Z := next_id (client_ids (swbus_client s)).
Record keeps_line s s' : Prop := { kl_client : keeps_client s s'; kl_ids : ids_of s' = ids_of s }.
#[export] Instance keeps_line_refl : Reflexive keeps_line.
Proof. by split. Qed.
#[export] Instance keeps_line_trans : Transitive keeps_line.
Proof. intros s1 s2 s3 [? ?] [? ?]. split; [by transitivity s2|congruence]. Qed.

(** And sends nothing. *)
Record keeps_comms s s' : Prop := {
  km_client : swbus_client s' = swbus_client s;
  km_queued : queued_messages s' = queued_messages s;
  km_incoming : incoming_table s' = incoming_table s;
  km_unacked : unacked_messages s' = unacked_messages s;
}.
#[export] Instance keeps_comms_refl : Reflexive keeps_comms.
Proof. by split. Qed.
#[export] Instance keeps_comms_trans : Transitive keeps_comms.
Proof. intros s1 s2 s3 [] []. split; congruence. Qed.

Lemma commit_entry_comms now k : preserves keeps_comms (commit_entry (V:=V) (Db:=Db) (A:=A) now k).
Proof.
  intros s r s' Hrun. unfold commit_entry in Hrun. rewrite bind_get in Hrun.
  destruct (internal_table s !! k) as [e|]; [|discriminate Hrun]. cbn in Hrun.
  unfold unwrap_result, bind, attempt, of_result, ret in Hrun.
  destruct (table_set _ _ _ _); [|discriminate Hrun]. unfold put_state, throw in Hrun. inv_done. by split.
Qed.
Lemma commit_changes_comms now : preserves keeps_comms (commit_changes (V:=V) (Db:=Db) (A:=A) now).
Proof. pose proof commit_entry_comms. unfold commit_changes. frame. Qed.

Lemma send_raw_line w m : preserves keeps_line (unwrap_result (E':=string) w (lift_client (V:=V) (Db:=Db) (A:=A) (client_send_raw m))).
Proof.
  apply preserves_unwrap_result; [apply _..|]. intros s r s' Hrun. unfold lift_client, client_send_raw, bind, get_state, chan_send in Hrun.
  destruct (receiver_open (router (swbus_client s))) eqn:Ho; cbn in Hrun; inv_done; by split.
Qed.
Lemma send_one_line now u : preserves keeps_line (send_one (V:=V) (Db:=Db) (A:=A) now u).
Proof.
  unfold send_one. apply preserves_bind; [apply _|apply send_raw_line|]. intros [].
  apply preserves_bind; [apply _|frame|]. intros h. apply preserves_bind; [apply _| |intros []]; by apply preserves_modify.
Qed.
Lemma send_queued_line now : preserves keeps_line (send_queued_messages (V:=V) (Db:=Db) (A:=A) now).
Proof.
  intros s r s' Hrun. unfold send_queued_messages in Hrun. rewrite bind_get in Hrun.
  assert (preserves keeps_line (for_each (send_one now) (queued_messages s))) as Hf
    by (pose proof send_one_line; frame).
  transitivity (set_queued [] s); [by split|]. by eapply Hf.
Qed.
Lemma resend_tick_line now : preserves keeps_line (resend_tick (V:=V) (Db:=Db) (A:=A) now).
Proof.
  unfold resend_tick. apply preserves_bind; [apply _|by apply preserves_modify|]. intros [].
  apply preserves_bind; [apply _|frame|]. intros s. apply preserves_for_each; [apply _..|]. intros u.
  unfold resend_one. apply preserves_when; [apply _|]. apply preserves_bind; [apply _|apply send_raw_line|].
  intros [] s1 r s2 Hrun. rewrite bind_get in Hrun. destruct (sent_messages s1 !! unacked_key u); [|discriminate Hrun].
  cbn in Hrun. unfold bind, ret, put_state in Hrun. inv_done. by split.
Qed.
Lemma api_client s s' : api s s' → keeps_client s s'.
Proof. intros Ha. split; [apply Ha|apply Ha|]. unfold router_open. by rewrite (api_router _ _ Ha). Qed.
End Client.

(** * A request at the receiver *)

Section Receiver.
Context {V Db B : Type} `{Wire V} `{!WireLaws V} `{!SwssTable Db} `{!Actor (V:=V) (Db:=Db) (A:=B)} `{!ActorContract Actor0}.
Context (dump : ActorStateDump (V:=V) → string).
Implicit Types (r : ActorSt V Db B).

Definition is_request_message (m : SwbusMessage) : Prop := ∃ payload, body m = Some (DataRequest payload).

(** The state in which the callback for a request runs: it is in the table and
    answered. *)
Definition answer_message (src : ServicePath) (rid : Z) r : SwbusMessage :=
  message_new (header_new (client_source (swbus_client r)) src (next_id (client_ids (swbus_client r)))) (Response (response_ok rid)).
Definition request_stored (now : Z) (m : ActorMessage V) (src : ServicePath) (rid : Z) r : ActorSt V Db B :=
  pushed (answer_message src rid r) (client_bumped (incoming_insert now m src rid r)).

Lemma request_slice_run now rid src dst payload m r :
  router_open r → from_slice payload = Ok m →
  handle_swbus_message dump now (mkIncoming rid src dst (BodyRequest payload)) r =
    handle_actor_message now (msg_key m) (request_stored now m src rid r).
Proof.
  intros Ho Hm. unfold handle_swbus_message. cbn [in_body in_id in_source].
  rewrite Hm. unfold handle_request. rewrite Hm.
  unfold bind at 1, attempt at 1. cbn.
  unfold driver_send, unwrap_result, bind, attempt, lift_client, client_send. cbn.
  unfold client_send_raw, bind, get_state, chan_send. cbn. unfold router_open in Ho. by rewrite Ho.
Qed.
Lemma request_run now rid src dst m r :
  router_open r →
  handle_swbus_message dump now (mkIncoming rid src dst (BodyRequest (to_vec m))) r =
    handle_actor_message now (msg_key m) (request_stored now m src rid r).
Proof. intros Ho. apply request_slice_run; [done|apply from_to_slice]. Qed.

(** The receiver handles an update: it is stored and answered, and the callback runs. *)
Lemma receive_run now i sp rp m r :
  client_sink (swbus_client r) = false → router_open r →
  receive_message dump now (data_message i sp rp (to_vec m)) r =
    handle_actor_message now (msg_key m) (request_stored now m sp i (set_client (set_rx [] (swbus_client r)) r)).
Proof. intros Hs Ho. unfold receive_message. rewrite recv_data by done. by apply request_run. Qed.

(** What the callback and its commit or rollback can do to the communication. *)
Record handled (k : string) r r' : Prop := {
  hd_client : keeps_client r r';
  hd_queued : queued_messages r' = [];
  hd_out : ∃ outs, sent_out r' = sent_out r ++ outs ∧ Forall is_request_message outs;
  hd_incoming : ∃ e code txt, incoming_table r !! k = Some e ∧ incoming_table r' = <[k := update_handled code txt e]> (incoming_table r);
}.

Lemma request_handled_done k code txt r res r' :
  (let* _ := request_handled k code txt in ret tt) r = Done (res : result unit string, r') →
  ∃ e, incoming_table r !! k = Some e ∧ r' = set_incoming (<[k := update_handled code txt e]> (incoming_table r)) r.
Proof.
  unfold request_handled. rewrite bind_bind, bind_get. destruct (incoming_table r !! k) as [e|]; [|discriminate].
  intros Hrun. injection Hrun as _ <-. by exists e.
Qed.

Lemma commit_changes_ok now r res r' : commit_changes now r = Done (res, r') → res = Ok tt.
Proof.
  unfold commit_changes. rewrite bind_get. generalize (map_to_list (internal_table r)).*1. intros ks.
  revert r. induction ks as [|k ks IH]; intros r; cbn [for_each]; [by intros [= <- _]|].
  unfold bind at 1. destruct (commit_entry now k r) as [[[[]|e] r1]| |] eqn:Hc; [apply IH| |discriminate..].
  unfold commit_entry in Hc. rewrite bind_get in Hc. destruct (internal_table r !! k); [|discriminate Hc]. cbn in Hc.
  unfold unwrap_result, bind, attempt, of_result, ret in Hc. destruct (table_set _ _ _ _); discriminate Hc.
Qed.

Lemma handled_done now k r res r' :
  router_open r → queued_messages r = [] → handle_actor_message now k r = Done (res, r') → handled k r r'.
Proof.
  intros Ho Hq Hrun. unfold handle_actor_message in Hrun. unfold bind at 1, attempt in Hrun.
  destruct (handle_message now k r) as [[res1 r1]| |] eqn:Hcb; [|discriminate Hrun..].
  pose proof (handle_message_api now k _ _ _ Hcb) as Hapi. pose proof (api_client _ _ Hapi) as Hcl1.
  destruct (api_queued _ _ Hapi) as (q & Hq1 & Hreq). rewrite Hq in Hq1. cbn in Hq1.
  assert (sent_out r1 = sent_out r) as Hout1 by (unfold sent_out; by rewrite (api_router _ _ Hapi)).
  destruct res1 as [[]|err].
  - rewrite bind_bind in Hrun. unfold bind at 1 in Hrun.
    destruct (commit_changes now r1) as [[res2 r2]| |] eqn:Hc; [|discriminate Hrun..].
    rewrite (commit_changes_ok _ _ _ _ Hc) in *. destruct (commit_changes_comms now _ _ _ Hc) as [Hcl Hcq Hci _].
    destruct (send_queued_run now r2) as (r3 & Hs & Has).
    { unfold router_open. rewrite Hcl. by apply Hcl1. }
    { rewrite Hcq, Hq1. eapply Forall_impl; [exact Hreq|]. intros u (_ & i & d & Hh). by rewrite Hh. }
    rewrite bind_bind, (bind_done _ _ _ _ _ Hs), bind_ret in Hrun.
    apply request_handled_done in Hrun as (e & He & ->). cbn.
    pose proof (kl_client _ _ (send_queued_line now _ _ _ Hs)) as Hcl3. split.
    + transitivity r1; [done|]. transitivity r3; [|by split]. split.
      * rewrite (kc_source _ _ Hcl3). by rewrite Hcl.
      * rewrite (kc_sink _ _ Hcl3). by rewrite Hcl.
      * intros H1. apply Hcl3. unfold router_open in *. by rewrite Hcl.
    + apply (as_queued _ _ _ _ Has).
    + exists (swbus_message <$> q). split.
      * change (sent_out (set_incoming (<[k := update_handled CodeOk "" e]> (incoming_table r3)) r3)) with (sent_out r3).
        rewrite (as_out _ _ _ _ Has), Hcq, Hq1, <- Hout1. unfold sent_out. cbn. by rewrite Hcl.
      * apply Forall_fmap. eapply Forall_impl; [exact Hreq|]. intros u [Hb _]. exact Hb.
    + exists e, CodeOk, "". cbn in He. rewrite (as_incoming _ _ _ _ Has) in He |- *. cbn in He |- *.
      rewrite Hci, (api_incoming _ _ Hapi) in He |- *. done.
  - rewrite bind_bind, bind_modify, bind_bind, bind_modify, bind_ret in Hrun.
    apply request_handled_done in Hrun as (e & He & ->). cbn in He |- *. split.
    + transitivity r1; [done|by split].
    + done.
    + exists []. by rewrite app_nil_r, <- Hout1.
    + exists e, CodeFail, err. by rewrite <- (api_incoming _ _ Hapi).
Qed.

(** The driver itself always returns, but for two things: the callback, which can
    panic or not return, and a write to a table, whose failure it does not handle. *)
Definition callback_returns now k r : Prop := ∃ res r', handle_message now k r = Done (res, r').
(** The values of some entry of the internal table are refused by its table. *)
Definition write_fails r : Prop :=
  ∃ k e (d : Db) err, internal_table r !! k = Some e ∧ table_set d (swss_table_name e) (swss_key e) (fvs e) = Err err.
Definition SET_THREW : string := "Table::set threw an exception".

(** The entries are those of [r0], some of them committed. *)
Definition values_of r0 r : Prop :=
  ∀ k e, internal_table r !! k = Some e →
    ∃ e0, internal_table r0 !! k = Some e0 ∧ table_of e = table_of e0 ∧ fvs e = fvs e0.

Lemma commit_all_outcome now (ks : list string) r0 r :
  (∀ k, k ∈ ks → is_Some (internal_table r !! k)) → values_of r0 r →
  (∃ r', for_each (commit_entry now) ks r = Done (Ok tt, r')) ∨
  (for_each (commit_entry now) ks r = Panicked SET_THREW ∧ write_fails r0).
Proof.
  revert r. induction ks as [|k ks IH]; intros r Hin Hv; [left; by eexists|]. destruct (Hin k (list_elem_of_here _ _)) as [e He].
  cbn [for_each]. destruct (table_set (databases r) (swss_table_name e) (swss_key e) (fvs e)) as [d|err] eqn:Hd.
  - rewrite (bind_done _ _ _ tt
      (set_databases d (set_internal (<[k := entry_committed now e]> (internal_table r)) r))).
    + apply IH; cbn.
      * intros k' Hk'. rewrite lookup_insert. destruct (decide (k = k')); [by eexists|]. apply Hin. by right.
      * intros k' e'. cbn. rewrite lookup_insert. destruct (decide (k = k')) as [<-|]; [|apply Hv].
        intros [= <-]. by apply (Hv k e).
    + unfold commit_entry. rewrite bind_get, He. cbn [unwrap]. by rewrite bind_ret, Hd.
  - right. split.
    + apply bind_panicked. unfold commit_entry. rewrite bind_get, He. cbn [unwrap]. by rewrite bind_ret, Hd.
    + destruct (Hv k e He) as (e0 & He0 & Ht & Hf). injection Ht as Hn Hk. exists k, e0, (databases r), err.
      split; [done|]. by rewrite <- Hn, <- Hk, <- Hf.
Qed.
Lemma commit_changes_outcome now r :
  (∃ r', commit_changes now r = Done (Ok tt, r')) ∨ (commit_changes now r = Panicked SET_THREW ∧ write_fails r).
Proof.
  unfold commit_changes. rewrite bind_get. apply commit_all_outcome.
  - intros k ([k' e] & -> & He%elem_of_map_to_list)%list_elem_of_fmap. by exists e.
  - intros k e He. by exists e.
Qed.
Lemma handled_outcome now k r :
  router_open r → queued_messages r = [] → is_Some (incoming_table r !! k) → callback_returns now k r →
  (∃ res r', handle_actor_message now k r = Done (res, r')) ∨
  (∃ r1, handle_message now k r = Done (Ok tt, r1) ∧ write_fails r1 ∧ handle_actor_message now k r = Panicked SET_THREW).
Proof.
  intros Ho Hq [e He] (res & r1 & Hcb). unfold handle_actor_message.
  pose proof (handle_message_api now k _ _ _ Hcb) as Hapi. pose proof (api_client _ _ Hapi) as Hcl.
  destruct (api_queued _ _ Hapi) as (q & Hq1 & Hreq). rewrite Hq in Hq1. cbn in Hq1.
  rewrite (bind_done _ _ _ res r1) by (unfold attempt; by rewrite Hcb). destruct res as [[]|err].
  - destruct (commit_changes_outcome now r1) as [[r2 Hc]|[Hc Hw]].
    2:{ right. exists r1. split; [done|]. split; [done|]. by rewrite bind_bind, (bind_panicked _ _ _ _ Hc). }
    left. destruct (commit_changes_comms now _ _ _ Hc) as [Hc1 Hc2 Hc3 _].
    destruct (send_queued_run now r2) as (r3 & Hsend & Has).
    { unfold router_open. rewrite Hc1. by apply Hcl. }
    { rewrite Hc2, Hq1. eapply Forall_impl; [exact Hreq|]. intros u (_ & i & d & Hh). by rewrite Hh. }
    rewrite bind_bind, (bind_done _ _ _ _ _ Hc), bind_bind, (bind_done _ _ _ _ _ Hsend), bind_ret.
    unfold request_handled. rewrite bind_bind, bind_get, (as_incoming _ _ _ _ Has). cbn [incoming_table set_queued].
    rewrite Hc3, (api_incoming _ _ Hapi), He. by eexists _, _.
  - left. rewrite bind_bind, bind_modify, bind_bind, bind_modify, bind_ret. unfold request_handled. rewrite bind_bind, bind_get.
    cbn [incoming_table drop_queued_messages set_queued drop_changes set_internal]. rewrite (api_incoming _ _ Hapi), He. by eexists _, _.
Qed.
Lemma no_write_fails `{!SwssTableWrites Db} r : ¬ write_fails r.
Proof. intros (k & e & d & err & _ & Hd). destruct (table_set_writes d (swss_table_name e) (swss_key e) (fvs e)). congruence. Qed.
Lemma handled_total `{!SwssTableWrites Db} now k r :
  router_open r → queued_messages r = [] → is_Some (incoming_table r !! k) → callback_returns now k r →
  ∃ res r', handle_actor_message now k r = Done (res, r').
Proof.
  intros Ho Hq He Hcb. destruct (handled_outcome now k r Ho Hq He Hcb) as [?|(r1 & _ & []%no_write_fails & _)]; done.
Qed.

(** The answer that carries [rid] from [rp] to [sp]. *)
Definition ok_answer (rp sp : ServicePath) (j rid : Z) : SwbusMessage :=
  message_new (header_new rp sp j) (Response (response_ok rid)).

(** An update is stored under its key, answered once, and the rest of the table is
    as it was, whatever the callback does. *)
Record update_received_by (i : Z) (sp : ServicePath) (m : ActorMessage V) r r' : Prop := {
  ur_client : keeps_client r r';
  ur_queued : queued_messages r' = [];
  ur_answers : ∃ j, answers_of sp (given r r') = [ok_answer (client_source (swbus_client r)) sp j i];
  ur_stored : ∃ e, incoming_table r' !! msg_key m = Some e ∧ inc_msg e = m ∧ inc_source e = sp ∧ inc_request_id e = i;
  ur_others k : k ≠ msg_key m → incoming_table r' !! k = incoming_table r !! k;
}.

Lemma answers_of_requests sp l : Forall is_request_message l → answers_of sp l = [].
Proof.
  induction 1 as [|m l [payload Hb] _ IH]; [done|]. unfold answers_of. rewrite filter_cons_False; [exact IH|].
  unfold is_response. rewrite Hb. by intros [_ ?].
Qed.

Lemma receive_update now i sp rp m r res r' :
  client_sink (swbus_client r) = false → router_open r → queued_messages r = [] →
  receive_message dump now (data_message i sp rp (to_vec m)) r = Done (res, r') →
  update_received_by i sp m r r'.
Proof.
  intros Hs Ho Hq Hrun. rewrite receive_run in Hrun by done.
  set (r0 := set_client (set_rx [] (swbus_client r)) r) in Hrun.
  destruct (handled_done now (msg_key m) (request_stored now m sp i r0) res r' eq_refl Hq Hrun) as [Hcl Hq' (outs & Hout & Hreq) (e & code & txt & He & Hin)].
  cbn in He. rewrite lookup_insert_eq in He. injection He as He.
  split.
  - transitivity (request_stored now m sp i r0); [by split|done].
  - done.
  - exists (next_id (client_ids (swbus_client r))). unfold given. rewrite Hout. unfold sent_out at 2. cbn.
    rewrite <- app_assoc, drop_app_length. cbn [app]. unfold answers_of. rewrite filter_cons_True by done.
    fold (answers_of sp outs). by rewrite answers_of_requests.
  - rewrite Hin, lookup_insert_eq. eexists. split; [done|]. rewrite <- He. unfold update_handled.
    destruct (decide (code = CodeOk)); by destruct (incoming_table r !! msg_key m).
  - intros k Hk. rewrite Hin, lookup_insert_ne by done. cbn. by rewrite lookup_insert_ne.
Qed.
End Receiver.

(** * Updates and answers at the sender *)

Section Sender.
Context {V Db A : Type} `{Wire V} `{!SwssTable Db} `{!Actor (V:=V) (Db:=Db) (A:=A)}.
Context (dump : ActorStateDump (V:=V) → string) (sp rp : ServicePath).
Implicit Types (s : ActorSt V Db A) (u : UnackedMessage V).

Definition update_message (i : Z) (m : ActorMessage V) : SwbusMessage := data_message i sp rp (to_vec m).

(** The sender's bookkeeping is as before but for [unacked] and the ids up to [n]. *)
Record sender_moved (n : Z) (unacked : gmap Z (UnackedMessage V)) s s' : Prop := {
  sm_client : keeps_client s s';
  sm_queued : queued_messages s' = queued_messages s;
  sm_tracked : tracked s → tracked s';
  sm_unacked : unacked_messages s' = unacked;
  sm_ids : ids_of s' = n;
}.

Lemma send_update_run now msg s s' :
  client_source (swbus_client s) = sp → router_open s → queued_messages s = [] → (0 ≤ ids_of s < u64_max)%Z →
  (outgoing_send now rp msg;;; send_queued_messages now) s = Done (Ok tt, s') →
  sender_moved (ids_of s + 1) (<[ids_of s := mkUnacked msg (update_message (ids_of s) msg) now]> (unacked_messages s)) s s' ∧
  given s s' = [update_message (ids_of s) msg].
Proof.
  intros Hsrc Ho Hq Hid Hrun. rewrite (bind_done _ _ _ _ _ (outgoing_send_run now msg rp s)), Hq in Hrun. cbn [app] in Hrun.
  assert (request_message msg rp s = update_message (ids_of s) msg) as Hm
    by (unfold update_message, data_message, request_message; by rewrite Hsrc).
  rewrite Hm in Hrun.
  pose proof (send_queued_tracked now _ _ _ Hrun) as Htr.
  unfold send_queued_messages in Hrun. rewrite bind_get in Hrun. cbn [for_each queued_messages set_queued] in Hrun.
  unfold put_state in Hrun. rewrite (bind_done _ _ _ tt _ eq_refl) in Hrun. unfold send_one in Hrun.
  rewrite bind_bind, push_run, bind_bind in Hrun by exact Ho.
  cbn [unwrap header swbus_message update_message data_message] in Hrun. rewrite bind_ret, bind_bind, bind_modify, bind_modify in Hrun.
  injection Hrun as <-. unfold given, sent_out. cbn. rewrite drop_app_length. split; [|done]. split; [by split|done|exact Htr|done|]. unfold ids_of. cbn. apply wrap_u64_small.
  unfold ids_of in Hid. lia.
Qed.

Definition resent (now : Z) s : list (UnackedMessage V) :=
  filter (due now) (map_to_list (still_waiting now (unacked_messages s))).*2.
Lemma still_waiting_Some now (un : gmap Z (UnackedMessage V)) i u :
  still_waiting now un !! i = Some u ↔ un !! i = Some u ∧ (get_elapsed_time (time_sent u) now < 3600)%Z.
Proof. unfold still_waiting. by rewrite map_lookup_filter_Some. Qed.
Lemma elem_of_resent now s u :
  u ∈ resent now s ↔ due now u ∧ (get_elapsed_time (time_sent u) now < 3600)%Z ∧ ∃ i, unacked_messages s !! i = Some u.
Proof.
  unfold resent. rewrite list_elem_of_filter, list_elem_of_fmap. split; intros [Hd Hu]; (split; [done|]).
  - destruct Hu as ([i w] & -> & [Hw Ht]%elem_of_map_to_list%still_waiting_Some). split; [done|]. by exists i.
  - destruct Hu as [Ht [i Hu]]. exists (i, u). split; [done|]. by apply elem_of_map_to_list, still_waiting_Some.
Qed.
Lemma not_expiring now s i :
  still_waiting now (unacked_messages s) !! i = None → i ∉ expiring now s → unacked_messages s !! i = None.
Proof. unfold expiring. rewrite elem_of_difference, <- !not_elem_of_dom. tauto. Qed.

Lemma tick_run now s s' :
  tracked s → router_open s → resend_tick now s = Done (Ok tt, s') →
  sender_moved (ids_of s) (still_waiting now (unacked_messages s)) s s' ∧
  given s s' = swbus_message <$> resent now s.
Proof.
  intros Ht Ho Hrun. destruct (resend_tick_line now _ _ _ Hrun) as [Hc Hi].
  pose proof (resend_tick_tracked now _ _ _ Hrun) as Htr.
  unfold resend_tick in Hrun. rewrite bind_modify, bind_get in Hrun.
  fold (still_waiting now (unacked_messages s)) in Hrun.
  set (s1 := set_unacked _ s) in Hrun.
  destruct (resend_all_run now (map_to_list (unacked_messages s1)).*2 s1) as (s2 & Hres & Hout & Hun & Hqu & _); [exact Ho| |].
  { intros u ([i w] & -> & [Hw _]%elem_of_map_to_list%still_waiting_Some)%list_elem_of_fmap. by apply (Ht i). }
  rewrite Hres in Hrun. injection Hrun as <-. split; [by split|]. unfold given. rewrite Hout. apply drop_app_length.
Qed.

Lemma tick_total now s : tracked s → router_open s → ∃ s', resend_tick now s = Done (Ok tt, s').
Proof.
  intros Ht Ho. unfold resend_tick. rewrite bind_modify, bind_get. set (s1 := set_unacked _ s).
  destruct (resend_all_run now (map_to_list (unacked_messages s1)).*2 s1) as (s2 & Hres & _); [exact Ho| |by eexists].
  intros u ([i w] & -> & Hw%elem_of_map_to_list)%list_elem_of_fmap. cbn in Hw. apply map_lookup_filter_Some in Hw as [Hw _].
  by apply (Ht i).
Qed.

Lemma send_update_total now msg s :
  router_open s → queued_messages s = [] → ∃ s', (outgoing_send now rp msg;;; send_queued_messages now) s = Done (Ok tt, s').
Proof.
  intros Ho Hq. rewrite (bind_done _ _ _ _ _ (outgoing_send_run now msg rp s)).
  destruct (send_queued_run now (set_queued (queued_messages s ++ [mkUnacked msg (request_message msg rp s) now]) (client_bumped s)))
    as (s' & Hrun & _); [exact Ho|cbn; rewrite Hq; by apply Forall_singleton|by exists s'].
Qed.

Lemma recv_ok_answer j rid q (c : SimpleClient) :
  client_sink c = false →
  recv_loop (ok_answer rp sp j rid :: q) c = Done (Ok (Some (mkIncoming j rp sp (BodyResponse rid CodeOk "" None))), set_rx q c).
Proof. destruct c as [cs sk ci hr ro]. cbn [client_sink]. by intros ->. Qed.

Lemma answer_total now j rid s :
  client_sink (swbus_client s) = false → tracked s → ∃ res s', receive_message dump now (ok_answer rp sp j rid) s = Done (res, s').
Proof.
  intros Hsink Ht. unfold receive_message. rewrite recv_ok_answer by done. unfold handle_swbus_message. cbn [in_body in_id in_source].
  unfold handle_response. rewrite bind_get. cbn [unacked_messages set_client].
  destruct (unacked_messages s !! rid) as [u|] eqn:Hu; [|by eexists _, _].
  destruct (Ht rid u Hu) as [e He]. cbn [sent_messages set_client]. rewrite He. by eexists _, _.
Qed.

(** An acknowledgement ends the wait of its message, if it still waits. *)
Lemma answer_run now j rid s res s' :
  client_sink (swbus_client s) = false → tracked s →
  receive_message dump now (ok_answer rp sp j rid) s = Done (res, s') →
  sender_moved (ids_of s) (delete rid (unacked_messages s)) s s'.
Proof.
  intros Hsink Ht Hrun. unfold receive_message in Hrun. rewrite recv_ok_answer in Hrun by done.
  set (s0 := set_client (set_rx [] (swbus_client s)) s) in Hrun. cbn [handle_swbus_message] in Hrun.
  unfold handle_swbus_message in Hrun. cbn [in_body in_id in_source] in Hrun.
  pose proof (handle_response_tracked rid CodeOk "" rp _ _ _ Hrun) as Htr.
  unfold handle_response in Hrun. rewrite bind_get in Hrun. cbn [unacked_messages s0 set_client] in Hrun.
  destruct (unacked_messages s !! rid) as [u|] eqn:Hu.
  - destruct (Ht rid u Hu) as [e He]. cbn [sent_messages s0 set_client] in Hrun. rewrite He in Hrun. cbn [unwrap] in Hrun.
    rewrite bind_ret in Hrun. unfold put_state, when in Hrun. rewrite (bind_done _ _ _ tt _ eq_refl) in Hrun.
    rewrite bool_decide_eq_true_2 in Hrun by done. unfold modify in Hrun. injection Hrun as _ <-. by split.
  - injection Hrun as _ <-. split; [by split|done|done| |done]. symmetry. cbn. by apply delete_id.
Qed.
End Sender.

(** * The invariant *)

Section KeyInv.
Context {V : Type} (sp : ServicePath).
Implicit Types (un : gmap Z (UnackedMessage V)) (X : gset Z) (inc : gmap string (IncomingTableEntry V)) (W : list (Z * ActorMessage V)) (R : list (Z * Z)).

(** The receiver holds the update [c] of the sender. *)
Definition stored inc (k : string) (c : Z) (m : ActorMessage V) : Prop :=
  ∃ e, inc !! k = Some e ∧ inc_msg e = m ∧ inc_source e = sp ∧ inc_request_id e = c.
Definition of_key (k : string) W : list (Z * ActorMessage V) := filter (λ p, msg_key p.2 = k) W.

(** A published update, with the updates [W] and the answers [R] on their way:
    those of its key are older ones and then copies of it; once the receiver
    holds it there are no older ones left, and it does if it neither waits nor
    expired, or if its acknowledgement is on the way. *)
Definition key_inv un X inc W R (k : string) (c : Z) (m : ActorMessage V) : Prop :=
  ∃ older copies, of_key k W = older ++ copies ∧ Forall (λ p, p.1 ≠ c) older ∧ Forall (λ p, p = (c, m)) copies ∧
    (stored inc k c m → older = []) ∧ ((un !! c = None ∧ c ∉ X) ∨ c ∈ R.*2 → stored inc k c m).

Lemma key_inv_mono un un' X X' inc inc' W R R' k c m :
  (un' !! c = None → c ∉ X' → (un !! c = None ∧ c ∉ X) ∨ c ∈ R.*2) → (c ∈ R'.*2 → c ∈ R.*2) → inc' !! k = inc !! k →
  key_inv un X inc W R k c m → key_inv un' X' inc' W R' k c m.
Proof.
  intros Hu HR Hk (o & w & HW & Ho & Hw & H1 & H2). exists o, w. unfold stored in *. rewrite Hk.
  split_and!; try done. intros [[H HX]|H]; apply H2; [by apply Hu|right; by apply HR].
Qed.
Lemma key_inv_app un X inc W W2 R k c m :
  Forall (λ p, msg_key p.2 = k → p = (c, m)) W2 → key_inv un X inc W R k c m → key_inv un X inc (W ++ W2) R k c m.
Proof.
  intros H2 (o & w & HW & Ho & Hw & Hs). exists o, (w ++ of_key k W2). unfold of_key in *. rewrite filter_app, HW, app_assoc.
  split_and!; try done; [|apply Hs..]. apply Forall_app. split; [done|]. apply Forall_forall. intros p [Hk Hp]%list_elem_of_filter.
  by apply (proj1 (Forall_forall _ _) H2).
Qed.
Lemma key_inv_lose un X inc W1 p W2 R k c m : key_inv un X inc (W1 ++ p :: W2) R k c m → key_inv un X inc (W1 ++ W2) R k c m.
Proof.
  intros (o & w & HW & Ho & Hw & H1 & H2). unfold key_inv, of_key in *. rewrite filter_app, filter_cons in *.
  destruct (decide (msg_key p.2 = k)) as [Hk|Hk]; [|by exists o, w].
  symmetry in HW. apply app_eq_inv in HW as [(l & Hl1 & Hl2)|(l & Hl1 & Hl2)].
  - destruct l as [|x l]; cbn in Hl2; [rewrite app_nil_r in Hl1|injection Hl2 as <- Hl2].
    + exists (filter (λ p, msg_key p.2 = k) W1), (filter (λ p, msg_key p.2 = k) W2). subst o w. split; [done|]. split; [done|].
      split; [by apply Forall_cons_1 in Hw as [_ ?]|]. done.
    + exists (filter (λ p, msg_key p.2 = k) W1 ++ l), w. rewrite Hl2, app_assoc. split; [done|]. subst o.
      apply Forall_app in Ho as [Ho1 Ho2]. apply Forall_cons_1 in Ho2 as [_ Ho2]. split; [by apply Forall_app|]. split; [done|].
      split; [|done]. intros Hst. specialize (H1 Hst). by destruct (filter _ W1).
  - exists o, (l ++ filter (λ p, msg_key p.2 = k) W2). rewrite Hl1, <- app_assoc. split; [done|]. split; [done|]. subst w.
    apply Forall_app in Hw as [Hw1 Hw2]. apply Forall_cons_1 in Hw2 as [_ Hw2]. split; [by apply Forall_app|done].
Qed.

Lemma key_inv_deliver un X inc inc' i m' W R j k c m :
  (i = c → msg_key m' = k) → stored inc' (msg_key m') i m' → (∀ k', k' ≠ msg_key m' → inc' !! k' = inc !! k') →
  key_inv un X inc ((i, m') :: W) R k c m → key_inv un X inc' W (R ++ [(j, i)]) k c m.
Proof.
  intros Hik Hst Hoth (o & w & HW & Ho & Hw & H1 & H2). unfold of_key in HW. rewrite filter_cons in HW. cbn [snd] in HW.
  assert (i ≠ c → c ∈ (R ++ [(j, i)]).*2 → c ∈ R.*2) as HR.
  { intros Hic. rewrite fmap_app. intros [?| ->%list_elem_of_singleton]%elem_of_app; done. }
  destruct (decide (msg_key m' = k)) as [<-|Hk].
  - destruct o as [|x o]; [destruct w as [|x w]|]; cbn in HW; [done| |]; injection HW as <- HW.
    + apply Forall_cons_1 in Hw as [Heq Hw]. injection Heq as -> ->. exists [], w. split_and!; done.
    + apply Forall_cons_1 in Ho as [Hic Ho]. cbn in Hic. exists o, w. split_and!; [done..| |].
      * intros (e & He & _ & _ & Hid). destruct Hst as (e' & He' & _ & _ & Hid'). congruence.
      * intros Hc. assert ((un !! c = None ∧ c ∉ X) ∨ c ∈ R.*2) as Hc' by (destruct Hc as [?|Hc]; [by left|right; by apply HR]).
        by specialize (H1 (H2 Hc')).
  - apply (key_inv_mono un un X X inc inc' W R); [by left|apply HR; intros Hic; by apply Hk, Hik|by apply Hoth|]. by exists o, w.
Qed.

Lemma key_inv_fresh un X inc W R k c m :
  msg_key m = k → Forall (λ p, (p.1 < c)%Z) W → (∀ e, inc !! k = Some e → inc_source e = sp → (inc_request_id e < c)%Z) →
  is_Some (un !! c) → c ∉ R.*2 → key_inv un X inc (W ++ [(c, m)]) R k c m.
Proof.
  intros Hk HW Hinc [u Hu] HR. exists (of_key k W), [(c, m)]. split_and!.
  - unfold of_key. by rewrite filter_app, filter_cons_True.
  - apply Forall_forall. intros p [_ Hp]%list_elem_of_filter. pose proof (proj1 (Forall_forall _ _) HW p Hp). cbn in *. lia.
  - by apply Forall_singleton.
  - intros (e & He & _ & Hs & Hid). specialize (Hinc e He Hs). lia.
  - intros [[H _]|H]; [congruence|done].
Qed.
End KeyInv.

Section Invariant.
Context {V Db A B : Type} `{Wire V} `{!WireLaws V} `{!SwssTable Db}.
Context `{!Actor (V:=V) (Db:=Db) (A:=A)} `{!Actor (V:=V) (Db:=Db) (A:=B)} `{!ActorContract Actor1}.
Context (dump : ActorStateDump (V:=V) → string) (sp rp : ServicePath).
Implicit Types (l : LinkSt (V:=V) (Db:=Db) (A:=A) (B:=B)) (W : list (Z * ActorMessage V)) (R : list (Z * Z)).

Definition at_rest {X} (p : ServicePath) (s : ActorSt V Db X) : Prop :=
  client_source (swbus_client s) = p ∧ client_sink (swbus_client s) = false ∧ router_open s ∧ queued_messages s = [].

(** [W] are the updates on the wire, [R] the answers on the way back. *)
Record link_inv l W R : Prop := {
  li_sender : at_rest sp (sender l) ∧ tracked (sender l) ∧ (0 ≤ ids_of (sender l))%Z;
  li_receiver : at_rest rp (receiver l);
  li_wire : wire l = (λ p, update_message sp rp p.1 p.2) <$> W;
  li_back : back l = (λ p, ok_answer rp sp p.1 p.2) <$> R;
  li_wire_ids : Forall (λ p, (p.1 < ids_of (sender l))%Z) W;
  li_back_ids : Forall (λ p, (p.2 < ids_of (sender l))%Z) R;
  li_incoming k e : incoming_table (receiver l) !! k = Some e → inc_source e = sp → (inc_request_id e < ids_of (sender l))%Z;
  li_pending i u : unacked_messages (sender l) !! i = Some u → (i < ids_of (sender l))%Z ∧
    (dest_of (swbus_message u) = Some rp →
       swbus_message u = update_message sp rp i (actor_message u) ∧ published l !! unacked_key u = Some (i, actor_message u));
  li_published k c m : published l !! k = Some (c, m) → msg_key m = k ∧ (c < ids_of (sender l))%Z;
  li_own k c m u : published l !! k = Some (c, m) → unacked_messages (sender l) !! c = Some u → dest_of (swbus_message u) = Some rp;
  li_inj k1 k2 c m1 m2 : published l !! k1 = Some (c, m1) → published l !! k2 = Some (c, m2) → k1 = k2;
  li_keys p k m : p ∈ W → published l !! k = Some (p.1, m) → msg_key p.2 = k;
  li_key k c m : published l !! k = Some (c, m) →
    key_inv sp (unacked_messages (sender l)) (expired l) (incoming_table (receiver l)) W R k c m;
}.

Lemma link_start_inv l : link_start sp rp l → link_inv l [] [].
Proof.
  intros [Hpub Hw Hb Hun Hq Hrq Hids ? ? ? ? ? ? Hinc]. split.
  - split; [done|]. split; [|done]. intros i u. by rewrite Hun, lookup_empty.
  - done.
  - by rewrite Hw.
  - by rewrite Hb.
  - constructor.
  - constructor.
  - intros k e He Hs. by destruct (Hinc k e He).
  - intros i u. by rewrite Hun, lookup_empty.
  - intros k c m. by rewrite Hpub, lookup_empty.
  - intros k c m u. by rewrite Hpub, lookup_empty.
  - intros k1 k2 c m1 m2. by rewrite Hpub, lookup_empty.
  - intros p k m. by rewrite Hpub, lookup_empty.
  - intros k c m. by rewrite Hpub, lookup_empty.
Qed.

Lemma at_rest_kept {X} (p : ServicePath) (s s' : ActorSt V Db X) :
  keeps_client s s' → queued_messages s' = queued_messages s → at_rest p s → at_rest p s'.
Proof. intros [H1 H2 H3] Hq (? & ? & ? & ?). split_and!; [congruence..|auto|congruence]. Qed.

Lemma updates_of_update i m : updates_of rp [update_message sp rp i m] = [update_message sp rp i m].
Proof. unfold updates_of. by rewrite filter_cons_True. Qed.

Lemma inv_send l W R now msg s' :
  link_inv l W R → none_pending rp (msg_key msg) (sender l) → (ids_of (sender l) < u64_max)%Z →
  (outgoing_send now rp msg;;; send_queued_messages now) (sender l) = Done (Ok tt, s') →
  link_inv (publish (ids_of (sender l)) msg (sender_ran rp s' l)) (W ++ [(ids_of (sender l), msg)]) R.
Proof.
  intros [Hs Hr Hw Hb Hwi Hbi Hinc Hpen Hpub Hown Hinj Hkeys Hkey] Hnone Hmax Hrun.
  destruct Hs as ((Hsrc & Hsink & Ho & Hq) & Ht & Hpos). set (n := ids_of (sender l)) in *.
  destruct (send_update_run sp rp now msg (sender l) s' Hsrc Ho Hq ltac:(lia) Hrun) as ([Hcl Hqu Htr Hun Hids] & Hgiven).
  fold n in Hun, Hids, Hgiven.
  assert (∀ k c m, published l !! k = Some (c, m) → c ≠ n) as Hfresh by (intros k c m Hk; apply Hpub in Hk; lia).
  assert (∀ k c m, <[msg_key msg := (n, msg)]> (published l) !! k = Some (c, m) →
    (k = msg_key msg ∧ c = n ∧ m = msg) ∨ (k ≠ msg_key msg ∧ published l !! k = Some (c, m) ∧ c ≠ n)) as Hcase.
  { intros k c m. rewrite lookup_insert. destruct (decide (msg_key msg = k)) as [<-|Hne]; [intros [= <- <-]; by left|].
    intros Hk. right. split; [congruence|]. split; [done|by eapply Hfresh]. }
  split; cbn [publish sender_ran sender receiver wire back published expired]; rewrite ?Hun, ?Hids.
  - split; [by apply (at_rest_kept sp (sender l))|]. split; [by apply Htr|lia].
  - done.
  - rewrite Hgiven, updates_of_update, Hw, fmap_app. done.
  - done.
  - apply Forall_app. split; [|by apply Forall_singleton; cbn; lia]. eapply Forall_impl; [exact Hwi|]. cbn. lia.
  - eapply Forall_impl; [exact Hbi|]. cbn. lia.
  - intros k e He Hse. specialize (Hinc k e He Hse). lia.
  - intros i u. rewrite lookup_insert. destruct (decide (n = i)) as [<-|Hne].
    + intros [= <-]. split; [lia|]. intros _. split; [done|]. by rewrite lookup_insert_eq.
    + intros Hu. destruct (Hpen i u Hu) as [Hi Hours]. split; [lia|]. intros Hd. destruct (Hours Hd) as [Hm Hp]. split; [done|].
      rewrite lookup_insert_ne; [done|]. intros Heq. by apply (Hnone i u Hu).
  - intros k c m [(-> & -> & ->)|(_ & Hk & _)]%Hcase; [split; [done|lia]|]. destruct (Hpub _ _ _ Hk). split; [done|lia].
  - intros k c m u [(-> & -> & ->)|(_ & Hk & Hne)]%Hcase.
    + rewrite lookup_insert_eq. by intros [= <-].
    + rewrite lookup_insert_ne by congruence. by eapply Hown.
  - intros k1 k2 c m1 m2 [(-> & -> & ->)|(_ & Hk1 & Hne1)]%Hcase [(-> & ? & ->)|(_ & Hk2 & Hne2)]%Hcase; [done|congruence..|by eapply Hinj].
  - intros p k m [Hp| ->%list_elem_of_singleton]%elem_of_app [(-> & Hc & ->)|(Hkn & Hk & Hc)]%Hcase; cbn in *; [|by eapply Hkeys|done|done].
    pose proof (proj1 (Forall_forall _ _) Hwi p Hp). cbn in *. lia.
  - intros k c m [(-> & -> & ->)|(Hkn & Hk & Hne)]%Hcase.
    + apply key_inv_fresh; [done|done|..].
      * intros e He Hse. by apply (Hinc (msg_key msg) e).
      * rewrite lookup_insert_eq. by eexists.
      * intros ([j c] & -> & Hc)%list_elem_of_fmap. pose proof (proj1 (Forall_forall _ _) Hbi _ Hc). cbn in *. lia.
    + apply key_inv_app; [apply Forall_singleton; cbn; congruence|].
      eapply key_inv_mono; [..|by apply Hkey]; [|done|done]. rewrite lookup_insert_ne by congruence. by left.
Qed.

Lemma updates_of_unacked l W R q :
  link_inv l W R → (∀ u, u ∈ q → ∃ i, unacked_messages (sender l) !! i = Some u) →
  ∃ W2, updates_of rp (swbus_message <$> q) = (λ p, update_message sp rp p.1 p.2) <$> W2 ∧
    Forall (λ p, published l !! msg_key p.2 = Some p) W2 ∧
    ∀ u i, u ∈ q → unacked_messages (sender l) !! i = Some u → dest_of (swbus_message u) = Some rp → (i, actor_message u) ∈ W2.
Proof.
  intros Hinv. induction q as [|u q IH]; intros Hq; [exists []; split_and!; [done|constructor|by intros u i ?%not_elem_of_nil]|].
  destruct IH as (W2 & HW2 & Hp & Hall); [by intros v Hv; apply Hq; right|].
  unfold updates_of in *. cbn [fmap list_fmap]. rewrite filter_cons.
  destruct (decide _) as [[Hd Hr]|Hno].
  2:{ exists W2. split_and!; [done..|]. intros v i [->|Hv]%elem_of_cons Hu Hd; [|by apply Hall]. exfalso. apply Hno. split; [done|].
      by rewrite (proj1 (proj2 (li_pending _ _ _ Hinv i u Hu) Hd)). }
  destruct (Hq u (list_elem_of_here _ _)) as [i Hu]. destruct (li_pending _ _ _ Hinv i u Hu) as [_ Hours].
  destruct (Hours Hd) as [Hm Hpu]. exists ((i, actor_message u) :: W2). cbn [fmap list_fmap]. rewrite <- HW2, Hm. split; [done|].
  split; [by constructor|]. intros v i' [->|Hv]%elem_of_cons Hu' Hd'; [|right; by apply Hall].
  destruct (proj2 (li_pending _ _ _ Hinv i' u Hu') Hd') as [_ Hpu']. rewrite Hpu in Hpu'. injection Hpu' as <-. by left.
Qed.

Lemma inv_tick l W R now s' :
  link_inv l W R → resend_tick now (sender l) = Done (Ok tt, s') →
  ∃ W2, link_inv (sender_ran rp s' (expire now l)) (W ++ W2) R ∧
    ∀ u i, unacked_messages (sender l) !! i = Some u → (get_elapsed_time (time_sent u) now < 3600)%Z → due now u →
      dest_of (swbus_message u) = Some rp → (i, actor_message u) ∈ W2.
Proof.
  intros Hinv Hrun. pose proof Hinv as [Hs Hr Hw Hb Hwi Hbi Hinc Hpen Hpub Hown Hinj Hkeys Hkey].
  destruct Hs as (Hrest & Ht & Hpos). pose proof Hrest as (_ & _ & Ho & _).
  destruct (tick_run now (sender l) s' Ht Ho Hrun) as ([Hcl Hqu Htr Hun Hids] & Hgiven).
  destruct (updates_of_unacked l W R (resent now (sender l)) Hinv (λ u Hu, proj2 (proj2 (proj1 (elem_of_resent now _ u) Hu)))) as (W2 & HW2 & Hpw & Hall). exists W2.
  assert (∀ p, p ∈ W2 → published l !! msg_key p.2 = Some p) as Hpw' by (intros p; by apply (proj1 (Forall_forall _ _) Hpw)).
  split; [|intros u i Hu Hy Hd; apply Hall; [|done]; apply elem_of_resent; split; [done|split; [done|by eexists]]].
  split; cbn [sender_ran expire sender receiver wire back published expired]; rewrite ?Hun, ?Hids; try done.
  - split; [by apply (at_rest_kept sp (sender l))|]. by split; [apply Htr|].
  - by rewrite Hgiven, HW2, Hw, fmap_app.
  - apply Forall_app. split; [done|]. apply Forall_forall. intros [c m] Hp%Hpw'. by apply Hpub in Hp as [_ ?].
  - intros i u [Hu _]%still_waiting_Some. by apply Hpen.
  - intros k c m u Hk [Hu _]%still_waiting_Some. by eapply Hown.
  - intros p k m [Hp|Hp]%elem_of_app Hk; [by eapply Hkeys|]. destruct p as [c m']. by apply (Hinj _ _ c m' m (Hpw' _ Hp)).
  - intros k c m Hk. apply key_inv_app; [apply Forall_forall; intros p Hp Hpk; apply Hpw' in Hp; congruence|].
    eapply key_inv_mono; [|done|done|by apply Hkey]. rewrite not_elem_of_union. intros Hn [HX He]. left.
    split; [by eapply not_expiring|done].
Qed.

Lemma inv_deliver_update l W R now i msg res r' :
  link_inv l ((i, msg) :: W) R → receive_message dump now (update_message sp rp i msg) (receiver l) = Done (res, r') →
  ∃ j, link_inv (mkLink (sender l) r' ((λ p, update_message sp rp p.1 p.2) <$> W) (back l ++ answers_of sp (given (receiver l) r')) (published l) (expired l))
         W (R ++ [(j, i)]) ∧
    update_received_by i sp msg (receiver l) r'.
Proof.
  intros [Hs Hr Hw Hb Hwi Hbi Hinc Hpen Hpub Hown Hinj Hkeys Hkey] Hrun. pose proof Hr as (Hrs & Hsink & Ho & Hq).
  pose proof (receive_update dump now i sp rp msg (receiver l) res r' Hsink Ho Hq Hrun) as Hrec.
  pose proof Hrec as [Hcl Hq' [j Hans] Hst Hoth]. apply Forall_cons_1 in Hwi as [Hi Hwi]. cbn in Hi.
  exists j. split; [|done]. split; cbn [sender receiver wire back published expired]; try done.
  - apply (at_rest_kept rp (receiver l)); [done|congruence|done].
  - by rewrite Hans, Hb, Hrs, fmap_app.
  - apply Forall_app. split; [done|]. by apply Forall_singleton.
  - intros k e He Hse. destruct (decide (k = msg_key msg)) as [->|Hk].
    + destruct Hst as (e' & He' & _ & _ & Hid). congruence.
    + rewrite Hoth in He by done. by eapply Hinc.
  - intros p k m Hp. apply Hkeys. by right.
  - intros k c m Hk. eapply key_inv_deliver; [|done|done|by apply Hkey]. intros ->.
    apply (Hkeys (c, msg) k m); [by left|done].
Qed.
Lemma inv_deliver l W R now m w res r' :
  link_inv l W R → wire l = m :: w → receive_message dump now m (receiver l) = Done (res, r') →
  ∃ W' R', link_inv (mkLink (sender l) r' w (back l ++ answers_of sp (given (receiver l) r')) (published l) (expired l)) W' R'.
Proof.
  intros Hinv Hm Hrun. rewrite (li_wire _ _ _ Hinv) in Hm. destruct W as [|[i msg] W]; [done|].
  cbn [fmap list_fmap fst snd] in Hm. injection Hm as <- <-.
  destruct (inv_deliver_update _ _ _ _ _ _ _ _ Hinv Hrun) as (j & ? & _). by eexists _, _.
Qed.

Lemma inv_answer l W R now m b res s' :
  link_inv l W R → back l = m :: b → receive_message dump now m (sender l) = Done (res, s') →
  ∃ R', link_inv (mkLink s' (receiver l) (wire l) b (published l) (expired l)) W R'.
Proof.
  intros [Hs Hr Hw Hb Hwi Hbi Hinc Hpen Hpub Hown Hinj Hkeys Hkey] Hm Hrun.
  rewrite Hb in Hm. destruct R as [|[j rid] R]; [done|]. cbn [fmap list_fmap fst snd] in Hm. injection Hm as <- <-.
  destruct Hs as (Hrest & Ht & Hpos). pose proof Hrest as (_ & Hsink & _ & _).
  destruct (answer_run dump sp rp now j rid (sender l) res s' Hsink Ht Hrun) as [Hcl Hqu Htr Hun Hids].
  apply Forall_cons_1 in Hbi as [_ Hbi]. exists R. split; cbn [sender receiver wire back published expired]; rewrite ?Hun, ?Hids; try done.
  - split; [by apply (at_rest_kept sp (sender l))|]. by split; [apply Htr|].
  - intros i u [_ Hu]%lookup_delete_Some. by apply Hpen.
  - intros k c m u Hk [_ Hu]%lookup_delete_Some. by eapply Hown.
  - intros k c m Hk. eapply key_inv_mono; [| |done|by apply Hkey].
    + rewrite lookup_delete_None. intros [<-|?] ?; [right; by left|by left].
    + intros Hc. by right.
Qed.

Lemma inv_lose l W R w1 m w2 :
  link_inv l W R → wire l = w1 ++ m :: w2 →
  ∃ W', link_inv (mkLink (sender l) (receiver l) (w1 ++ w2) (back l) (published l) (expired l)) W' R.
Proof.
  intros [Hs Hr Hw Hb Hwi Hbi Hinc Hpen Hpub Hown Hinj Hkeys Hkey] Hm. rewrite Hw in Hm.
  apply fmap_app_inv in Hm as (W1 & W2' & -> & Hm & ->). destruct W2' as [|p W2]; [done|]. injection Hm as -> ->.
  assert (∀ p', p' ∈ W1 ++ W2 → p' ∈ W1 ++ p :: W2) as Hsub by (intros p'; rewrite !elem_of_app; intros [?|?]; [by left|right; by right]).
  exists (W1 ++ W2). split; cbn [sender receiver wire back published expired]; try done.
  - by rewrite fmap_app.
  - apply Forall_forall. intros p' Hp. by apply (proj1 (Forall_forall _ _) Hwi), Hsub.
  - intros p' k m' Hp. by apply Hkeys, Hsub.
  - intros k c m' Hk. eapply key_inv_lose. by apply Hkey.
Qed.

Lemma inv_lose_answer l W R b1 m b2 :
  link_inv l W R → back l = b1 ++ m :: b2 →
  ∃ R', link_inv (mkLink (sender l) (receiver l) (wire l) (b1 ++ b2) (published l) (expired l)) W R'.
Proof.
  intros [Hs Hr Hw Hb Hwi Hbi Hinc Hpen Hpub Hown Hinj Hkeys Hkey] Hm. rewrite Hb in Hm.
  apply fmap_app_inv in Hm as (R1 & R2' & -> & Hm & ->). destruct R2' as [|p R2]; [done|]. injection Hm as -> ->.
  assert (∀ p', p' ∈ R1 ++ R2 → p' ∈ R1 ++ p :: R2) as Hsub by (intros p'; rewrite !elem_of_app; intros [?|?]; [by left|right; by right]).
  exists (R1 ++ R2). split; cbn [sender receiver wire back published expired]; try done.
  - by rewrite fmap_app.
  - apply Forall_forall. intros p' Hp. by apply (proj1 (Forall_forall _ _) Hbi), Hsub.
  - intros k c m' Hk. eapply key_inv_mono; [by left| |done|by apply Hkey].
    intros (p' & -> & Hp)%list_elem_of_fmap. by apply list_elem_of_fmap_2, Hsub.
Qed.

Lemma inv_sender_other l W R s' :
  link_inv l W R → sender_other rp (sender l) s' → link_inv (mkLink s' (receiver l) (wire l) (back l) (published l) (expired l)) W R.
Proof.
  intros [Hs Hr Hw Hb Hwi Hbi Hinc Hpen Hpub Hown Hinj Hkeys Hkey] [Oun Ooth Otr Oqu Oids Osrc Osink Oopen].
  fold (ids_of (sender l)) (ids_of s') in *. destruct Hs as (Hrest & Ht & Hpos).
  assert (∀ k c m u, published l !! k = Some (c, m) → unacked_messages s' !! c = Some u → unacked_messages (sender l) !! c = Some u) as Hold.
  { intros k c m u Hk Hu. destruct (Ooth c u Hu) as [?|[Hc _]]; [done|]. apply Hpub in Hk. lia. }
  split; cbn [sender receiver wire back published expired]; try done.
  - split; [by apply (at_rest_kept sp (sender l))|]. split; [by apply Otr|lia].
  - eapply Forall_impl; [exact Hwi|]. cbn. lia.
  - eapply Forall_impl; [exact Hbi|]. cbn. lia.
  - intros k e He Hse. specialize (Hinc k e He Hse). lia.
  - intros i u Hu. split.
    + destruct (Ooth i u Hu) as [Hu'|?]; [|lia]. apply Hpen in Hu'. lia.
    + intros Hd. apply Oun in Hu; [|done]. by apply (Hpen i u Hu).
  - intros k c m Hk. apply Hpub in Hk. split; [by apply Hk|lia].
  - intros k c m u Hk Hu. eapply Hown; [done|]. by eapply Hold.
  - intros k c m Hk. eapply key_inv_mono; [| |done|by apply Hkey]; [|done].
    intros Hn HX. destruct (unacked_messages (sender l) !! c) as [u|] eqn:Hu; [|by left].
    apply (Oun c u) in Hu; [congruence|]. by eapply Hown.
Qed.

Lemma inv_receiver_other l W R r' :
  link_inv l W R → receiver_other sp (published l) (receiver l) r' →
  link_inv (mkLink (sender l) r' (wire l) (back l) (published l) (expired l)) W R.
Proof.
  intros [Hs Hr Hw Hb Hwi Hbi Hinc Hpen Hpub Hown Hinj Hkeys Hkey] [Oinc Ooth Oqu Osrc Osink Oopen].
  split; cbn [sender receiver wire back published expired]; try done.
  - by apply (at_rest_kept rp (receiver l)).
  - intros k e He Hse. destruct (Ooth k e He) as [He'|?]; [by eapply Hinc|done].
  - intros k c m Hk. eapply key_inv_mono; [by left|done| |by apply Hkey]. apply Oinc. by eexists.
Qed.

Lemma inv_step l l' W R :
  link_inv l W R → link_step dump sp rp (none_pending rp) l l' → ∃ W' R', link_inv l' W' R'.
Proof.
  intros Hinv [now msg s' Hnone Hmax Hrun|now s' Hrun|now m w res r' Hm Hrun|now m b res s' Hm Hrun|w1 m w2 Hm|b1 m b2 Hm|s' Ho|r' Ho].
  - eexists _, _. by eapply inv_send.
  - destruct (inv_tick _ _ _ _ _ Hinv Hrun) as (W2 & ? & _). by eexists _, _.
  - by eapply inv_deliver.
  - destruct (inv_answer _ _ _ _ _ _ _ _ Hinv Hm Hrun) as [R' ?]. by eexists _, _.
  - destruct (inv_lose _ _ _ _ _ _ Hinv Hm) as [W' ?]. by eexists _, _.
  - destruct (inv_lose_answer _ _ _ _ _ _ Hinv Hm) as [R' ?]. by eexists _, _.
  - eexists _, _. by apply inv_sender_other.
  - eexists _, _. by apply inv_receiver_other.
Qed.
Lemma inv_reachable l0 l :
  link_start sp rp l0 → rtc (link_step dump sp rp (none_pending rp)) l0 l → ∃ W R, link_inv l W R.
Proof.
  intros Hs Hl. assert (∃ W R, link_inv l0 W R) as Hinv by (eexists _, _; by apply link_start_inv). clear Hs.
  induction Hl as [|l0 l1 l2 Hstep _ IH]; [done|]. destruct Hinv as (W & R & Hinv). apply IH. by eapply inv_step.
Qed.
End Invariant.
