(* ===== verification/LinkProps.v ===== *)
(** The properties of the link of Link.v: it implements a table of published
    updates under the sender's discipline, a round without loss brings the
    receiver up to date, and without the discipline the two can diverge; with a
    concrete link. *)
From S2P Require Import Prelude RustStr Path Proto Mux MuxWitness Edge EdgeTheory Actor ActorTheory ActorProps ActorWitness Link LinkTheory.

Open Scope stdpp_scope.

Section LinkProps.
Context {V Db A B : Type} `{Wire V} `{!WireLaws V} `{!SwssTable Db}.
Context `{!Actor (V:=V) (Db:=Db) (A:=A)} `{!Actor (V:=V) (Db:=Db) (A:=B)} `{!ActorContract Actor1}.
Context (dump : ActorStateDump (V:=V) → string) (sp rp : ServicePath).
Implicit Types (l : LinkSt (V:=V) (Db:=Db) (A:=A) (B:=B)) (W : list (Z * ActorMessage V)) (R : list (Z * Z)).

(** ** A round without loss *)

Context `{!SwssTableWrites Db} (Hreturns : ∀ now k (r : ActorSt V Db B), ∃ res r', handle_message (Actor:=Actor1) now k r = Done (res, r')).

(** The receiver holds the update, or it is on the wire. *)
Definition told l W (k : string) (c : Z) (m : ActorMessage V) : Prop :=
  stored sp (incoming_table (receiver l)) k c m ∨ (c, m) ∈ W.

Lemma receive_total now i msg (r : ActorSt V Db B) :
  at_rest rp r → ∃ res r', receive_message dump now (update_message sp rp i msg) r = Done (res, r').
Proof.
  intros (_ & Hsink & Ho & Hq). unfold update_message. rewrite receive_run by done. apply handled_total; [done|done| |apply Hreturns]. cbn. rewrite lookup_insert_eq. by eexists.
Qed.

Lemma deliver_one l W R i msg :
  link_inv sp rp l ((i, msg) :: W) R →
  ∃ l' R', link_step dump sp rp (none_pending rp) l l' ∧ link_inv sp rp l' W R' ∧ published l' = published l ∧ expired l' = expired l ∧
    ∀ k c m, published l !! k = Some (c, m) → told l ((i, msg) :: W) k c m → told l' W k c m.
Proof.
  intros Hinv. destruct (receive_total 0 i msg _ (li_receiver _ _ _ _ _ Hinv)) as (res & r' & Hrec).
  destruct (inv_deliver_update dump sp rp _ _ _ _ _ _ _ _ Hinv Hrec) as (j & Hinv' & Hup).
  eexists _, _. split; [|split; [exact Hinv'|split; [done|split; [done|]]]].
  - eapply step_deliver; [|exact Hrec]. by rewrite (li_wire _ _ _ _ _ Hinv).
  - intros k c m Hk Ht. destruct (li_published _ _ _ _ _ Hinv _ _ _ Hk) as [Hkey _]. unfold told. cbn [receiver].
    destruct Ht as [Hst|[[= <- <-]|Hin]%elem_of_cons]; [|left; rewrite <- Hkey; apply (ur_stored _ _ _ _ _ Hup)|by right].
    left. destruct (decide (k = msg_key msg)) as [->|Hne].
    2:{ unfold stored. by rewrite (ur_others _ _ _ _ _ Hup). }
    destruct (li_key _ _ _ _ _ Hinv _ _ _ Hk) as (o & w & HW & _ & Hw & H1 & _). rewrite (H1 Hst) in HW.
    unfold of_key in HW. rewrite filter_cons_True in HW by done. cbn [app] in HW. subst w.
    apply Forall_cons_1 in Hw as [[= -> ->] _]. apply (ur_stored _ _ _ _ _ Hup).
Qed.

Lemma deliver_all l W R :
  link_inv sp rp l W R →
  ∃ l' R', rtc (link_step dump sp rp (none_pending rp)) l l' ∧ link_inv sp rp l' [] R' ∧ published l' = published l ∧ expired l' = expired l ∧
    ∀ k c m, published l !! k = Some (c, m) → told l W k c m → told l' [] k c m.
Proof.
  revert l R. induction W as [|[i msg] W IH]; intros l R Hinv; [by exists l, R|].
  destruct (deliver_one _ _ _ _ _ Hinv) as (l1 & R1 & Hstep & Hinv1 & Hp1 & Hx1 & Ht1).
  destruct (IH _ _ Hinv1) as (l2 & R2 & Hsteps & Hinv2 & Hp2 & Hx2 & Ht2).
  exists l2, R2. split; [by eapply rtc_l|]. split; [done|]. split; [congruence|]. split; [congruence|]. intros k c m Hk Ht.
  apply Ht2; [congruence|by apply Ht1].
Qed.

Lemma round_delivers now l W R :
  link_inv sp rp l W R →
  (∀ i u, unacked_messages (sender l) !! i = Some u → dest_of (swbus_message u) = Some rp → due now u) →
  ∃ l', rtc (link_step dump sp rp (none_pending rp)) l l' ∧ published l' = published l ∧
    expired l' = expired l ∪ expiring now (sender l) ∧ wire l' = [] ∧
    ∀ k c m, published l !! k = Some (c, m) → c ∉ expired l' → stored sp (incoming_table (receiver l')) k c m.
Proof.
  intros Hinv Hdue. pose proof (li_sender _ _ _ _ _ Hinv) as ((_ & _ & Ho & _) & Ht & _).
  destruct (tick_total now (sender l) Ht Ho) as [s' Htick].
  destruct (inv_tick sp rp _ _ _ _ _ Hinv Htick) as (W2 & Hinv1 & Hall).
  destruct (deliver_all _ _ _ Hinv1) as (l2 & R2 & Hsteps & Hinv2 & Hp2 & Hx2 & Htold).
  exists l2. split; [eapply rtc_l; [by eapply step_tick|done]|]. split; [done|]. split; [done|]. split; [apply (li_wire _ _ _ _ _ Hinv2)|].
  rewrite Hx2. cbn [sender_ran expire expired]. intros k c m Hk [HX He]%not_elem_of_union.
  destruct (Htold k c m Hk) as [Hst|Hin]; [|done|by apply not_elem_of_nil in Hin].
  destruct (still_waiting now (unacked_messages (sender l)) !! c) as [u|] eqn:Hu.
  - apply still_waiting_Some in Hu as [Hu Hy]. right. apply elem_of_app. right. pose proof (li_own _ _ _ _ _ Hinv _ _ _ _ Hk Hu) as Hd.
    pose proof (proj2 (proj2 (li_pending _ _ _ _ _ Hinv _ _ Hu) Hd)) as Hpu.
    pose proof (li_inj _ _ _ _ _ Hinv _ _ _ _ _ Hpu Hk) as Hkk. rewrite Hkk, Hk in Hpu. injection Hpu as ->.
    apply (Hall u c Hu Hy (Hdue _ _ Hu Hd) Hd).
  - left. destruct (li_key _ _ _ _ _ Hinv _ _ _ Hk) as (o & w & _ & _ & _ & _ & H2). apply H2. left.
    split; [by eapply not_expiring|done].
Qed.

(** * Theorems *)

(** C11: Under the discipline that an update is published only when no earlier one
    of its key still waits for its acknowledgement - the code does not enforce
    it, and [stale_resend_diverges] shows what happens without - the link implements a table of
    published updates. Whatever is lost, resent or forgotten, and whatever else
    the two actors do, every published update is held by the receiver under its
    key, or it still waits at the sender, which will send it again, or the
    sender's resend loop gave it up an hour after it was sent. *)
Theorem link_replicates l0 l k i m :
  link_start sp rp l0 → rtc (link_step dump sp rp (none_pending rp)) l0 l → published l !! k = Some (i, m) →
  (∃ e, incoming_table (receiver l) !! k = Some e ∧ inc_msg e = m ∧ inc_source e = sp) ∨
  (∃ u, unacked_messages (sender l) !! i = Some u ∧ swbus_message u = data_message i sp rp (to_vec m)) ∨
  i ∈ expired l.
Proof.
  intros Hs Hl Hk. destruct (inv_reachable dump sp rp _ _ Hs Hl) as (W & R & Hinv).
  destruct (unacked_messages (sender l) !! i) as [u|] eqn:Hu.
  - right. left. exists u. split; [done|]. pose proof (li_own _ _ _ _ _ Hinv _ _ _ _ Hk Hu) as Hd.
    destruct (proj2 (li_pending _ _ _ _ _ Hinv _ _ Hu) Hd) as [Hm Hpu].
    pose proof (li_inj _ _ _ _ _ Hinv _ _ _ _ _ Hpu Hk) as Hkk. rewrite Hkk, Hk in Hpu. injection Hpu as ->. exact Hm.
  - destruct (decide (i ∈ expired l)) as [HX|HX]; [by right; right|]. left.
    destruct (li_key _ _ _ _ _ Hinv _ _ _ Hk) as (o & w & _ & _ & _ & _ & H2).
    destruct (H2 (or_introl (conj Hu HX))) as (e & ? & ? & ? & _). by exists e.
Qed.

(** C12: Under the same discipline, and if the receiver's callbacks return and its
    table writes do not throw, a round without loss brings the receiver up to
    date. When the resend timer fires while every waiting update is a minute old,
    and what is on the wire then arrives, the receiver holds every published
    update but those given up: the ones forgotten before, and the ones at least
    an hour old that this very tick forgets instead of sending them. *)
Theorem link_converges now l0 l :
  link_start sp rp l0 → rtc (link_step dump sp rp (none_pending rp)) l0 l →
  (∀ i u, unacked_messages (sender l) !! i = Some u → dest_of (swbus_message u) = Some rp → due now u) →
  ∃ l', rtc (link_step dump sp rp (none_pending rp)) l l' ∧ published l' = published l ∧ wire l' = [] ∧
    expired l' = expired l ∪ expiring now (sender l) ∧
    ∀ k i m, published l !! k = Some (i, m) → i ∉ expired l' →
      ∃ e, incoming_table (receiver l') !! k = Some e ∧ inc_msg e = m ∧ inc_source e = sp ∧ inc_request_id e = i.
Proof.
  intros Hs Hl Hdue. destruct (inv_reachable dump sp rp _ _ Hs Hl) as (W & R & Hinv).
  destruct (round_delivers now _ _ _ Hinv Hdue) as (l' & Hl' & Hp & Hx & Hw & Hst). by exists l'.
Qed.

(** ** Without the discipline *)

Abbreviation any_time := (λ (_ : string) (_ : ActorSt V Db A), True).

Record sender_at (n : Z) (un : gmap Z (UnackedMessage V)) (s : ActorSt V Db A) : Prop := {
  sa_rest : at_rest sp s; sa_tracked : tracked s; sa_ids : ids_of s = n; sa_unacked : unacked_messages s = un;
}.
Lemma sender_at_moved n n' un un' s s' : sender_at n un s → sender_moved n' un' s s' → sender_at n' un' s'.
Proof. intros [] []. split; [by apply (at_rest_kept sp s)|auto|done|done]. Qed.

(** A send, an update that is lost or arrives, an answer that does, and a tick. *)
Lemma any_send n un (now : Z) msg s r w b pub ex :
  sender_at n un s → (0 ≤ n < u64_max)%Z →
  ∃ s', link_step dump sp rp any_time (mkLink s r w b pub ex) (mkLink s' r (w ++ [update_message sp rp n msg]) b (<[msg_key msg := (n, msg)]> pub) ex) ∧
    sender_at (n + 1) (<[n := mkUnacked msg (update_message sp rp n msg) now]> un) s'.
Proof.
  intros Hat Hn. pose proof Hat as [(Hsrc & Hsink & Ho & Hq) Ht <- <-].
  destruct (send_update_total rp now msg s Ho Hq) as [s' Hrun].
  destruct (send_update_run sp rp now msg _ _ Hsrc Ho Hq Hn Hrun) as [Hmv Hg]. exists s'.
  split; [|by eapply sender_at_moved].
  pose proof (step_send dump sp rp any_time (mkLink s r w b pub ex) now msg s' I (proj2 Hn) Hrun) as Hstep.
  unfold publish, sender_ran in Hstep. cbn [sender receiver wire back published expired] in Hstep.
  by rewrite Hg, updates_of_update in Hstep.
Qed.
Lemma any_deliver (now : Z) i msg s r w b pub ex :
  at_rest rp r →
  ∃ r' j, link_step dump sp rp any_time (mkLink s r (update_message sp rp i msg :: w) b pub ex) (mkLink s r' w (b ++ [ok_answer rp sp j i]) pub ex) ∧
    at_rest rp r' ∧ stored sp (incoming_table r') (msg_key msg) i msg.
Proof.
  intros Hr. destruct (receive_total now i msg _ Hr) as (res & r' & Hrun). pose proof Hr as (Hrs & Hsink & Ho & Hq).
  destruct (receive_update dump now i sp rp msg r res r' Hsink Ho Hq Hrun) as [Hcl Hq' [j Hans] Hst _].
  exists r', j. pose proof (step_deliver dump sp rp any_time (mkLink s r _ b pub ex) now _ w res r' eq_refl Hrun) as Hstep.
  cbn [sender receiver wire back published expired] in Hstep. rewrite Hans, Hrs in Hstep.
  split; [exact Hstep|]. split; [apply (at_rest_kept rp r); [done|congruence|done]|done].
Qed.
Lemma any_answer (now n : Z) un j i s r w b pub ex :
  sender_at n un s →
  ∃ s', link_step dump sp rp any_time (mkLink s r w (ok_answer rp sp j i :: b) pub ex) (mkLink s' r w b pub ex) ∧ sender_at n (delete i un) s'.
Proof.
  intros Hat. pose proof Hat as [(_ & Hsink & _ & _) Ht <- <-].
  destruct (answer_total dump sp rp now j i s Hsink Ht) as (res & s' & Hrun).
  exists s'. split; [by eapply (step_answer _ _ _ _ (mkLink s r w _ pub ex))|]. eapply sender_at_moved; [exact Hat|]. by eapply answer_run.
Qed.
Lemma any_tick (now n : Z) i u s r w b pub ex :
  sender_at n {[i := u]} s → (60 ≤ get_elapsed_time (time_sent u) now < 3600)%Z →
  swbus_message u = update_message sp rp i (actor_message u) →
  ∃ s', link_step dump sp rp any_time (mkLink s r w b pub ex) (mkLink s' r (w ++ [update_message sp rp i (actor_message u)]) b pub ex) ∧
    sender_at n {[i := u]} s'.
Proof.
  intros Hat Hdue Hm. pose proof Hat as [(_ & _ & Ho & _) Ht <- Hun].
  destruct (tick_total now s Ht Ho) as [s' Hrun].
  assert (still_waiting now ({[i := u]} : gmap Z (UnackedMessage V)) = {[i := u]}) as Hkeep
    by (unfold still_waiting; rewrite map_filter_singleton_True; [done|cbn; lia]).
  destruct (tick_run now _ _ Ht Ho Hrun) as [Hmv Hg]. rewrite Hun, Hkeep in Hmv.
  pose proof (step_tick dump sp rp any_time (mkLink s r w b pub ex) now s' Hrun) as Hstep. unfold sender_ran, expire, expiring in Hstep.
  cbn [sender receiver wire back published expired] in Hstep. rewrite Hun, Hkeep, difference_diag_L, union_empty_r_L in Hstep.
  assert (resent now s = [u]) as Hre.
  { unfold resent. rewrite Hun, Hkeep, map_to_list_singleton. cbn [fmap list_fmap snd]. rewrite filter_cons_True; [done|]. unfold due, RESEND_TIME. lia. }
  rewrite Hg, Hre in Hstep. cbn [fmap list_fmap] in Hstep. rewrite Hm, updates_of_update in Hstep.
  exists s'. split; [exact Hstep|]. by eapply sender_at_moved.
Qed.

(** C37: Nothing keeps the actors to that discipline, and without it a resent update
    can undo a newer one for good. From any start, an update [old] can be lost, a
    later one [new] of its key be received and acknowledged, and then [old] be
    resent after a minute, received and acknowledged: nothing is on its way or
    waits any more, what was published last is [new], and the receiver holds
    [old]. *)
Theorem stale_resend_diverges l0 old new :
  link_start sp rp l0 → msg_key new = msg_key old → (ids_of (sender l0) + 1 < u64_max)%Z →
  ∃ l, rtc (link_step dump sp rp (λ _ _, True)) l0 l ∧
    published l !! msg_key old = Some ((ids_of (sender l0) + 1)%Z, new) ∧
    unacked_messages (sender l) = ∅ ∧ wire l = [] ∧ back l = [] ∧
    ∃ e, incoming_table (receiver l) !! msg_key old = Some e ∧ inc_msg e = old ∧ inc_source e = sp.
Proof.
  intros Hs Hkey Hmax. destruct (link_start_inv sp rp _ Hs) as [[Hrest [Ht Hpos]] Hr Hw Hb _ _ _ _ _ _ _ _ _].
  destruct l0 as [s0 r0 w0 b0 pub0 ex0]. cbn [sender receiver wire back published fmap list_fmap] in *. subst w0 b0.
  set (n := ids_of s0) in *. assert (sender_at n ∅ s0) as A0 by (split; [done..|apply (ls_unacked _ _ _ Hs)]).
  destruct (any_send n _ 0 old s0 r0 [] [] pub0 ex0 A0) as (s1 & H1 & A1); [lia|]. rewrite insert_empty in A1.
  pose proof (step_lose dump sp rp any_time (mkLink s1 r0 [update_message sp rp n old] [] (<[msg_key old := (n, old)]> pub0) ex0) [] (update_message sp rp n old) [] eq_refl) as H2.
  destruct (any_send (n + 1) _ 1000000000 new s1 r0 [] [] (<[msg_key old := (n, old)]> pub0) ex0 A1) as (s3 & H3 & A3); [lia|].
  set (pub3 := <[msg_key new := _]> _) in H3.
  destruct (any_deliver 1000000000 (n + 1) new s3 r0 [] [] pub3 ex0 Hr) as (r4 & j4 & H4 & Hr4 & _).
  destruct (any_answer 1000000000 _ _ j4 (n + 1) s3 r4 [] [] pub3 ex0 A3) as (s5 & H5 & A5).
  rewrite delete_insert_id in A5 by (rewrite lookup_singleton_ne; [done|lia]).
  destruct (any_tick 60000000000 _ _ _ s5 r4 [] [] pub3 ex0 A5) as (s6 & H6 & A6); [split; vm_compute; congruence|done|].
  destruct (any_deliver 60000000000 n old s6 r4 [] [] pub3 ex0 Hr4) as (r7 & j7 & H7 & _ & (e & He & Hm & Hsp & _)).
  destruct (any_answer 60000000000 _ _ j7 n s6 r7 [] [] pub3 ex0 A6) as (s8 & H8 & [_ _ _ A8]).
  exists (mkLink s8 r7 [] [] pub3 ex0). split.
  { do 7 (eapply rtc_l; [eassumption|]). by apply rtc_once. }
  cbn [sender receiver wire back published expired]. split; [unfold pub3; by rewrite Hkey, lookup_insert_eq|].
  split; [by rewrite A8, delete_singleton_eq|]. split; [done|]. split; [done|]. by exists e.
Qed.
End LinkProps.

(** * A concrete link *)

#[export] Instance echo_actor : Actor (V:=string) (Db:=DemoDb) (A:=unit) := { actor_init _ := ret tt; handle_message _ _ := ret tt }.
#[export] Instance echo_contract : ActorContract echo_actor.
Proof. split; [intros now|intros now k]; apply preserves_ret; apply _. Defined.
Lemma echo_returns now k (r : ActorSt string DemoDb unit) : ∃ res r', handle_message (Actor:=echo_actor) now k r = Done (res, r').
Proof. by eexists _, _. Qed.

Definition demo_sender : DemoSt := mkActorSt 0 ∅ ∅ ∅ [] ∅ demo_client ∅ false.
Definition demo_receiver : ActorSt string DemoDb unit :=
  mkActorSt tt ∅ ∅ ∅ [] ∅ (mkClient demo_peer_svc false (mkIdGen 500) [] (mkMsgChan [] true)) ∅ false.
Definition demo_link : LinkSt (V:=string) (Db:=DemoDb) (A:=nat) (B:=unit) := mkLink demo_sender demo_receiver [] [] ∅ ∅.
Definition demo_up : ActorMessage string := mkActorMsg "state" "up".
Definition demo_down : ActorMessage string := mkActorMsg "state" "down".

Lemma demo_link_start : link_start demo_local_svc demo_peer_svc demo_link.
Proof. split; try reflexivity; [discriminate|]. intros k e He. discriminate (eq_trans (eq_sym (lookup_empty k)) He). Defined.

(** The link after one update. *)
Lemma demo_link_sent :
  ∃ l : LinkSt (V:=string) (Db:=DemoDb) (A:=nat) (B:=unit), rtc (link_step (λ _, "dump") demo_local_svc demo_peer_svc (none_pending demo_peer_svc)) demo_link l ∧
    published l !! "state" = Some (100%Z, demo_up) ∧
    unacked_messages (sender l) = {[100%Z := mkUnacked demo_up (update_message demo_local_svc demo_peer_svc 100 demo_up) 0]} ∧
    expired l = ∅.
Proof.
  destruct (send_update_total demo_peer_svc 0 demo_up demo_sender eq_refl eq_refl) as [s' Hrun].
  destruct (send_update_run demo_local_svc demo_peer_svc 0 demo_up demo_sender s' eq_refl eq_refl eq_refl) as [[_ _ _ Hun _] _];
    [split; vm_compute; congruence|exact Hrun|].
  eexists. split; [|split].
  - apply rtc_once. eapply step_send; [|reflexivity|exact Hrun]. intros i u Hu.
    discriminate (eq_trans (eq_sym (lookup_empty i)) Hu).
  - cbn [publish published]. apply lookup_insert_eq.
  - cbn [publish sender_ran sender]. rewrite Hun. split; [apply insert_empty|done].
Qed.

Lemma link_replicates_witness :
  ∃ l : LinkSt (V:=string) (Db:=DemoDb) (A:=nat) (B:=unit), published l !! "state" = Some (100%Z, demo_up) ∧
    ((∃ e, incoming_table (receiver l) !! "state" = Some e ∧ inc_msg e = demo_up ∧ inc_source e = demo_local_svc) ∨
     (∃ u, unacked_messages (sender l) !! 100%Z = Some u ∧ swbus_message u = data_message 100 demo_local_svc demo_peer_svc (to_vec demo_up)) ∨
     100%Z ∈ expired l).
Proof.
  destruct demo_link_sent as (l & Hl & Hpub & _ & _). exists l. split; [exact Hpub|].
  exact (link_replicates (λ _, "dump") demo_local_svc demo_peer_svc demo_link l "state" 100 demo_up demo_link_start Hl Hpub).
Defined.

Lemma link_converges_witness :
  ∃ (l' : LinkSt (V:=string) (Db:=DemoDb) (A:=nat) (B:=unit)) e, incoming_table (receiver l') !! "state" = Some e ∧ inc_msg e = demo_up.
Proof.
  destruct demo_link_sent as (l & Hl & Hpub & Hun & Hex).
  destruct (link_converges (λ _, "dump") demo_local_svc demo_peer_svc echo_returns
    60000000000 demo_link l demo_link_start Hl) as (l' & _ & _ & _ & Hex' & Hheld).
  - intros i u. rewrite Hun. intros [_ <-]%lookup_singleton_Some _. unfold due. vm_compute. congruence.
  - assert (100%Z ∉ expired l') as Hkept.
    { rewrite Hex', Hex. unfold expiring. rewrite Hun. unfold still_waiting. rewrite map_filter_singleton_True by reflexivity.
      set_solver. }
    destruct (Hheld "state" 100%Z demo_up Hpub Hkept) as (e & He & Hm & _). exists l', e. split; [exact He|exact Hm].
Defined.

Lemma stale_resend_diverges_witness :
  ∃ (l : LinkSt (V:=string) (Db:=DemoDb) (A:=nat) (B:=unit)) e,
    published l !! "state" = Some (101%Z, demo_down) ∧ unacked_messages (sender l) = ∅ ∧ wire l = [] ∧
    incoming_table (receiver l) !! "state" = Some e ∧ inc_msg e = demo_up.
Proof.
  destruct (stale_resend_diverges (λ _, "dump") demo_local_svc demo_peer_svc echo_returns
    demo_link demo_up demo_down demo_link_start eq_refl eq_refl) as (l & _ & Hpub & Hun & Hw & _ & (e & He & Hm & _)).
  exists l, e. split; [exact Hpub|]. split; [exact Hun|]. split; [exact Hw|]. split; [exact He|exact Hm].
Defined.
