(* ===== verification/DriverProps.v ===== *)
(** What holds of every run of the driver of Actor.v, for any actor that keeps to
    the [State] interface: the invariant of an actor between two events, and that
    each request is answered exactly once and in order. *)
From S2P Require Import Prelude RustStr Path Proto Mux MuxWitness Edge EdgeTheory Actor ActorTheory ActorProps ActorWitness Link LinkTheory LinkProps.

Open Scope stdpp_scope.

Section DriverProps.
Context {V Db A : Type} `{Wire V} `{!SwssTable Db} `{!Actor (V:=V) (Db:=Db) (A:=A)} `{!ActorContract Actor0}.
Context (dump : ActorStateDump (V:=V) → string).
Implicit Types (s : ActorSt V Db A) (u : UnackedMessage V).

(** * The invariant *)

(** An actor between two events: connected, with nothing queued and no uncommitted
    change; what waits for an acknowledgement is a request of this actor, was
    sent, and is recorded under its id and as sent under its key. *)
Record resting (p : ServicePath) s : Prop := {
  rs_source : client_source (swbus_client s) = p;
  rs_open : router_open s;
  rs_queued : queued_messages s = [];
  rs_committed k e : internal_table s !! k = Some e → mutated e = false;
  rs_tracked : tracked s;
  rs_unacked i u : unacked_messages s !! i = Some u →
    mid_of u = i ∧ queued_request p u ∧ swbus_message u ∈ sent_out s;
}.

(** What a step adds to the messages sent. *)
Definition sends s s' (l : list SwbusMessage) : Prop := sent_out s' = sent_out s ++ l.
Lemma sends_trans s1 s2 s3 l1 l2 : sends s1 s2 l1 → sends s2 s3 l2 → sends s1 s3 (l1 ++ l2).
Proof. unfold sends. intros H1 H2. by rewrite H2, H1, app_assoc. Qed.

(** ** Committing *)

Lemma commit_entry_table now k s s' :
  commit_entry now k s = Done (Ok tt, s') →
  ∃ e, internal_table s !! k = Some e ∧ internal_table s' = <[k := entry_committed now e]> (internal_table s).
Proof.
  unfold commit_entry. rewrite bind_get. destruct (internal_table s !! k) as [e|]; [|discriminate]. cbn [unwrap].
  rewrite bind_ret. unfold unwrap_result, bind, attempt, of_result. destruct (table_set _ _ _ _); [|discriminate].
  cbn. intros [= <-]. by exists e.
Qed.
Lemma commit_all_table now (ks : list string) s s' :
  for_each (commit_entry now) ks s = Done (Ok tt, s') →
  ∀ k e, internal_table s' !! k = Some e → mutated e = false ∨ k ∉ ks ∧ internal_table s !! k = Some e.
Proof.
  revert s. induction ks as [|k ks IH]; intros s Hrun k' e He; cbn [for_each] in Hrun.
  - injection Hrun as <-. right. split; [apply not_elem_of_nil|done].
  - unfold bind in Hrun. destruct (commit_entry now k s) as [[[[]|] s1]| |] eqn:Hc; [|discriminate..].
    apply commit_entry_table in Hc as (e1 & He1 & Ht). destruct (IH _ Hrun k' e He) as [Hm|[Hn Hs]]; [by left|].
    rewrite Ht, lookup_insert in Hs. case_decide as Hk; [left; by simplify_eq|].
    right. split; [|done]. rewrite not_elem_of_cons. split; [congruence|done].
Qed.
Lemma commit_changes_committed now s s' :
  commit_changes now s = Done (Ok tt, s') → ∀ k e, internal_table s' !! k = Some e → mutated e = false.
Proof.
  unfold commit_changes. rewrite bind_get. intros Hrun k e He.
  destruct (commit_all_table now _ s s' Hrun k e He) as [Hm|[Hn Hs]]; [done|]. exfalso. apply Hn.
  apply list_elem_of_fmap. exists (k, e). split; [done|]. by apply elem_of_map_to_list.
Qed.

(** ** Sending *)

Lemma foldl_insert_elem (q : list (UnackedMessage V)) (m : gmap Z (UnackedMessage V)) i u :
  foldl (λ m u, <[mid_of u := u]> m) m q !! i = Some u → m !! i = Some u ∨ u ∈ q ∧ mid_of u = i.
Proof.
  revert m. induction q as [|v q IH]; intros m; [by left|]. cbn. intros [Hl|[Hu Hi]]%IH.
  - rewrite lookup_insert in Hl. case_decide; [simplify_eq; right; split; [apply list_elem_of_here|done]|by left].
  - right. split; [by right|done].
Qed.

(** The queue of requests [q] is sent in a state that is resting but for the queue. *)
Lemma send_queue_rest p now q s s1 s' r :
  queued_messages s1 = q → Forall (queued_request p) q → resting p s →
  client_source (swbus_client s1) = p → router_open s1 → sent_out s1 = sent_out s → unacked_messages s1 = unacked_messages s →
  tracked s1 → (∀ k e, internal_table s1 !! k = Some e → mutated e = false) →
  send_queued_messages now s1 = Done (r, s') →
  r = Ok tt ∧ resting p s' ∧ sends s s' (swbus_message <$> q) ∧ incoming_table s' = incoming_table s1.
Proof.
  intros Hq Hreq [Hsrc _ _ _ _ Hun] Hsrc1 Ho Hout Hu1 Ht1 Hc1 Hrun.
  destruct (send_queued_run now s1 Ho) as (s2 & Hs2 & Has).
  { rewrite Hq. eapply Forall_impl; [exact Hreq|]. intros u (_ & i & d & Hh). by eexists. }
  pose proof (send_queued_tracked now _ _ _ Hs2) as Ht2. pose proof (kl_client _ _ (send_queued_line now _ _ _ Hs2)) as Hcl.
  rewrite Hs2 in Hrun. injection Hrun as <- <-. destruct Has as [Aout Aopen Aint Ainc Aqu _ _ Aun _ _]. cbn in Aint, Ainc, Aun, Aqu.
  assert (sends s s2 (swbus_message <$> q)) as Hsends by (unfold sends; rewrite Aout; unfold sent_out in *; cbn; by rewrite Hout, Hq).
  split; [done|]. split; [|by split]. split.
  - by rewrite (kc_source _ _ Hcl).
  - done.
  - done.
  - intros k e. rewrite Aint. apply Hc1.
  - by apply Ht2.
  - intros i u. rewrite Aun, Hq, Hu1. intros [Hi|[Hu Hi]]%foldl_insert_elem.
    + destruct (Hun i u Hi) as (Hm & Hqr & Hin). split; [done|]. split; [done|]. rewrite Hsends. apply elem_of_app. by left.
    + split; [done|]. split; [by apply (proj1 (Forall_forall _ _) Hreq)|]. rewrite Hsends. apply elem_of_app. right.
      by apply list_elem_of_fmap_2.
Qed.

(** ** The steps of the driver *)

Lemma resting_same p s s' :
  swbus_client s' = swbus_client s → queued_messages s' = queued_messages s → internal_table s' = internal_table s →
  unacked_messages s' = unacked_messages s → (∀ k, is_Some (sent_messages s !! k) → is_Some (sent_messages s' !! k)) →
  resting p s → resting p s'.
Proof.
  intros Hc Hq Hi Hu Hs []. unfold router_open, sent_out in *.
  split; unfold router_open, sent_out, tracked; rewrite ?Hc, ?Hq, ?Hi, ?Hu; try done. intros i u Hiu. apply Hs. by eapply rs_tracked0.
Qed.
Lemma resting_pushed p m s : resting p s → resting p (pushed m s).
Proof.
  intros []. split; try done. intros i u Hu. destruct (rs_unacked0 i u Hu) as (? & ? & ?). split; [done|]. split; [done|].
  apply elem_of_app. by left.
Qed.
Lemma resting_bumped p s : resting p s → resting p (client_bumped s).
Proof. by intros []. Qed.

Lemma request_handled_ok k code txt s (res : result unit string) s' :
  (let* _ := request_handled k code txt in ret tt) s = Done (res, s') → res = Ok tt.
Proof. unfold request_handled. rewrite bind_bind, bind_get. by destruct (incoming_table s !! k); intros [= <- _]. Qed.

Lemma handled_rest p now k s res s' :
  resting p s → handle_actor_message now k s = Done (res, s') →
  res = Ok tt ∧ resting p s' ∧ ∃ l, sends s s' l ∧ Forall is_request_message l.
Proof.
  intros Hr Hrun. unfold handle_actor_message in Hrun. unfold bind at 1, attempt in Hrun.
  destruct (handle_message now k s) as [[res1 s1]| |] eqn:Hcb; [|discriminate Hrun..].
  pose proof (handle_message_api now k _ _ _ Hcb) as Hapi. pose proof (api_client _ _ Hapi) as Hcl.
  destruct (api_queued _ _ Hapi) as (q & Hq & Hreq). rewrite (rs_queued _ _ Hr) in Hq. rewrite (rs_source _ _ Hr) in Hreq.
  pose proof (api_tracked _ (handle_message_api now k) _ _ _ Hcb (rs_tracked _ _ Hr)) as Ht.
  assert (sent_out s1 = sent_out s) as Hout by (unfold sent_out; by rewrite (api_router _ _ Hapi)).
  destruct res1 as [[]|err].
  - rewrite bind_bind in Hrun. unfold bind at 1 in Hrun.
    destruct (commit_changes now s1) as [[res2 s2]| |] eqn:Hc; [|discriminate Hrun..].
    pose proof (commit_changes_ok _ _ _ _ Hc) as ->. destruct (commit_changes_comms now _ _ _ Hc) as [Kc Kq Ki Ku].
    rewrite bind_bind in Hrun. unfold bind at 1 in Hrun.
    destruct (send_queued_messages now s2) as [[res3 s3]| |] eqn:Hs; [|discriminate Hrun..].
    destruct (send_queue_rest p now q s s2 s3 res3) as (-> & Hr3 & Hsends & _); try done.
    { by rewrite Kq, Hq. }
    { by rewrite Kc, (kc_source _ _ Hcl), (rs_source _ _ Hr). }
    { unfold router_open. rewrite Kc. by apply Hcl, (rs_open _ _ Hr). }
    { unfold sent_out in *. by rewrite Kc. }
    { by rewrite Ku, (api_unacked _ _ Hapi). }
    { by apply (commit_changes_tracked now _ _ _ Hc). }
    { by eapply commit_changes_committed. }
    rewrite bind_ret in Hrun. destruct (request_handled_done _ _ _ _ _ _ Hrun) as (e & _ & ->).
    pose proof (request_handled_ok _ _ _ _ _ _ Hrun) as ->.
    split; [done|]. split; [by apply (resting_same p s3)|]. exists (swbus_message <$> q). split; [exact Hsends|].
    apply Forall_fmap. eapply Forall_impl; [exact Hreq|]. intros u [Hb _]. exact Hb.
  - rewrite bind_bind, bind_modify, bind_bind, bind_modify, bind_ret in Hrun.
    destruct (request_handled_done _ _ _ _ _ _ Hrun) as (e & _ & ->).
    pose proof (request_handled_ok _ _ _ _ _ _ Hrun) as ->.
    split; [done|]. split; [|exists []; split; [by unfold sends; rewrite app_nil_r|constructor]].
    destruct Hr as [H1 H2 H3 H4 H5 H6]. split.
    + change (client_source (swbus_client s1) = p). by rewrite (kc_source _ _ Hcl).
    + change (router_open s1). by apply Hcl.
    + done.
    + intros k' e'. cbn. rewrite lookup_fmap. destruct (internal_table s1 !! k'); [|done]. by intros [= <-].
    + done.
    + intros i u. change (unacked_messages s1 !! i = Some u → mid_of u = i ∧ queued_request p u ∧ swbus_message u ∈ sent_out s1).
      rewrite (api_unacked _ _ Hapi), Hout. apply H6.
Qed.

(** * Answers *)

(** The answer a message is: to whom, for which request. *)
Definition response_of (m : SwbusMessage) : option (ServicePath * Z) :=
  match body m, header m with
  | Some (Response r), Some h => (λ d, (d, request_id r)) <$> destination h
  | _, _ => None
  end.

(** Who is to be answered for an event, and under which id: the sender of a request
    that can be read and of a management request. *)
Definition answer_due (ev : DriverEvent) : option (ServicePath * Z) :=
  match ev with
  | EvMsg _ msg =>
      match in_body msg with
      | BodyRequest payload => match from_slice (V:=V) payload with Ok _ => Some (in_source msg, in_id msg) | Err _ => None end
      | BodyManagement _ _ => Some (in_source msg, in_id msg)
      | BodyResponse _ _ _ _ => None
      end
  | _ => None
  end.

Lemma requests_no_response l : Forall is_request_message l → omap response_of l = [].
Proof. induction 1 as [|m l [payload Hb] _ IH]; [done|]. cbn. unfold response_of at 1. by rewrite Hb. Qed.

Lemma driver_send_run p dst rid code txt b s :
  resting p s → ∃ m, driver_send (mkOutgoing dst (BodyResponse rid code txt b)) s = Done (Ok tt, pushed m (client_bumped s)) ∧
    response_of m = Some (dst, rid).
Proof.
  intros Hr. eexists. split.
  - unfold driver_send, unwrap_result, bind, attempt, lift_client, client_send. cbn.
    unfold client_send_raw, bind, get_state, chan_send. cbn.
    pose proof (rs_open _ _ Hr) as Ho. unfold router_open in Ho. rewrite Ho. reflexivity.
  - done.
Qed.

(** Bookkeeping events answer nothing. *)
Lemma response_rest p rid code txt src s res s' :
  resting p s → handle_response rid code txt src s = Done (res, s') → res = Ok tt ∧ resting p s' ∧ sends s s' [].
Proof.
  intros Hr Hrun. unfold handle_response in Hrun. rewrite bind_get in Hrun.
  destruct (unacked_messages s !! rid) as [u|] eqn:Hu.
  2:{ injection Hrun as <- <-. split; [done|]. split; [done|]. unfold sends. by rewrite app_nil_r. }
  destruct (rs_tracked _ _ Hr rid u Hu) as [e He]. rewrite He in Hrun. cbn [unwrap] in Hrun. rewrite bind_ret in Hrun.
  set (s1 := set_sent _ s) in Hrun.
  assert (resting p s1) as Hr1.
  { apply (resting_same p s); try done. intros k Hk. cbn. rewrite lookup_insert. destruct (decide (unacked_key u = k)); [by eexists|done]. }
  unfold bind, put_state, when in Hrun. destruct (bool_decide _); injection Hrun as <- <-; (split; [done|]);
    (split; [|by unfold sends; rewrite app_nil_r]); [|done].
  destruct Hr1. split; try done.
  - intros i w Hi. cbn in Hi. apply lookup_delete_Some in Hi as [_ Hi]. by eapply rs_tracked0.
  - intros i w Hi. cbn in Hi. apply lookup_delete_Some in Hi as [_ Hi]. by apply rs_unacked0.
Qed.

Lemma resend_all_rest p now q s :
  resting p s → (∀ u, u ∈ q → ∃ i, unacked_messages s !! i = Some u) →
  ∃ s', for_each (resend_one now) q s = Done (Ok tt, s') ∧ resting p s' ∧ ∃ l, sends s s' l ∧ Forall is_request_message l.
Proof.
  revert s. induction q as [|u q IH]; intros s Hr Hq.
  { exists s. split; [done|]. split; [done|]. exists []. split; [by unfold sends; rewrite app_nil_r|constructor]. }
  destruct (Hq u (list_elem_of_here _ _)) as [i Hu]. destruct (rs_tracked _ _ Hr i u Hu) as [e He].
  destruct (rs_unacked _ _ Hr i u Hu) as (_ & [Hb _] & _).
  cbn [for_each]. rewrite (bind_done _ _ _ _ _ (resend_one_run now u e s (rs_open _ _ Hr) He)). case_decide as Hd.
  - set (s1 := set_sent _ _). assert (resting p s1) as Hr1.
    { apply (resting_same p (pushed (swbus_message u) s)); [done..| |by apply resting_pushed].
      intros k Hk. cbn. rewrite lookup_insert. destruct (decide (unacked_key u = k)); [by eexists|done]. }
    destruct (IH s1 Hr1) as (s' & Hrun & Hr' & l & Hl & Hreq); [intros v Hv; apply Hq; by right|].
    exists s'. split; [done|]. split; [done|]. exists (swbus_message u :: l). split; [|by constructor].
    unfold sends in *. rewrite Hl. cbn. by rewrite <- app_assoc.
  - apply IH; [done|]. intros v Hv. apply Hq. by right.
Qed.
Lemma tick_rest p now s :
  resting p s → ∃ s', resend_tick now s = Done (Ok tt, s') ∧ resting p s' ∧ ∃ l, sends s s' l ∧ Forall is_request_message l.
Proof.
  intros Hr. unfold resend_tick. rewrite bind_modify, bind_get. set (s1 := set_unacked _ s).
  apply (resend_all_rest p now _ s1).
  - destruct Hr. split; try done.
    + intros i w [Hi _]%map_lookup_filter_Some. by eapply rs_tracked0.
    + intros i w [Hi _]%map_lookup_filter_Some. by apply rs_unacked0.
  - intros u ([i w] & -> & Hw%elem_of_map_to_list)%list_elem_of_fmap. by exists i.
Qed.

(** One event: the invariant is kept and what is due is answered, first. *)
Lemma step_rest p ev s res s' :
  resting p s → driver_step dump ev s = Done (res, s') →
  res = Ok tt ∧ resting p s' ∧ ∃ l, sends s s' l ∧ omap response_of l = option_list (answer_due ev).
Proof.
  intros Hr Hrun. destruct ev as [now [rid src dst bd]|now|].
  - cbn [driver_step] in Hrun. destruct bd as [payload|rid' code txt b|request args].
    + cbn [answer_due in_body in_source in_id]. destruct (from_slice payload) as [m|e] eqn:Hm.
      * rewrite (request_slice_run dump now rid src dst payload m s (rs_open _ _ Hr) Hm) in Hrun.
        assert (resting p (request_stored now m src rid s)) as Hr1
          by (apply resting_pushed, resting_bumped; by apply (resting_same p s)).
        destruct (handled_rest p now _ _ _ _ Hr1 Hrun) as (-> & Hr' & l & Hl & Hreq).
        split; [done|]. split; [done|]. exists (answer_message src rid (incoming_insert now m src rid s) :: l).
        split; [unfold sends in *; rewrite Hl; cbn; by rewrite <- app_assoc|].
        cbn. by rewrite requests_no_response.
      * unfold handle_swbus_message in Hrun. cbn [in_body] in Hrun. rewrite Hm in Hrun. injection Hrun as <- <-.
        split; [done|]. split; [done|]. exists []. split; [unfold sends; by rewrite app_nil_r|done].
    + destruct (response_rest p rid' code txt src s res s' Hr Hrun) as (-> & Hr' & Hl). split; [done|]. split; [done|]. by exists [].
    + destruct (driver_send_run p src rid (match request with HamgrdGetActorState => CodeOk | _ => InvalidArgs end)
        (match request with HamgrdGetActorState => "" | _ => "Unsupported request type: SwbusdGetRoutes" end)
        (match request with HamgrdGetActorState => Some (dump (dump_state s)) | _ => None end) s Hr) as (m & Hsend & Hm).
      assert (driver_step dump (EvMsg now (mkIncoming rid src dst (BodyManagement request args))) s = Done (Ok tt, pushed m (client_bumped s))) as Hrun'
        by (rewrite <- Hsend; by destruct request).
      cbn [driver_step] in Hrun'. rewrite Hrun in Hrun'. injection Hrun' as -> ->.
      split; [done|]. split; [by apply resting_pushed, resting_bumped|]. exists [m]. split; [done|]. cbn. by rewrite Hm.
  - cbn [driver_step] in Hrun. destruct (tick_rest p now s Hr) as (s1 & Ht & Hr1 & l & Hl & Hreq). rewrite Ht in Hrun. injection Hrun as <- <-.
    split; [done|]. split; [done|]. exists l. split; [done|]. by apply requests_no_response.
  - injection Hrun as <- <-. split; [done|]. split; [done|]. exists []. split; [by unfold sends; rewrite app_nil_r|done].
Qed.

(** What can keep the driver from an event: the callback of a request does not
    return, or it succeeds and the driver panics because a table refuses one of
    the entries it commits. *)
Definition stuck (ev : DriverEvent) s : Prop :=
  match ev with
  | EvMsg now msg =>
      match in_body msg with
      | BodyRequest payload =>
          match from_slice payload with
          | Ok m =>
              let s1 := request_stored now m (in_source msg) (in_id msg) s in
              ¬ callback_returns now (msg_key m) s1 ∨
              ∃ s2, handle_message now (msg_key m) s1 = Done (Ok tt, s2) ∧ write_fails s2 ∧
                driver_step dump ev s = Panicked SET_THREW
          | Err _ => False
          end
      | _ => False
      end
  | _ => False
  end.

Lemma step_outcome p ev s : resting p s → (∃ res s', driver_step dump ev s = Done (res, s')) ∨ stuck ev s.
Proof.
  intros Hr. destruct ev as [now [rid src dst bd]|now|]; cbn [driver_step].
  - destruct bd as [payload|rid' code txt b|request args].
    + cbn [stuck in_body in_source in_id driver_step]. destruct (from_slice payload) as [m|e] eqn:Hm.
      * rewrite (request_slice_run dump now rid src dst payload m s (rs_open _ _ Hr) Hm).
        set (s1 := request_stored now m src rid s).
        destruct (handle_message now (msg_key m) s1) as [[res s2]| |] eqn:Hcb.
        2,3: right; left; intros (? & ? & ?); congruence.
        destruct (handled_outcome now (msg_key m) s1) as [?|(s3 & H1 & H2 & H3)]; [done|apply (rs_queued _ _ Hr)| | |by left|].
        { cbn. by rewrite lookup_insert_eq. }
        { by exists res, s2. }
        right. right. exists s3. by rewrite <- Hcb.
      * left. unfold handle_swbus_message. cbn [in_body]. rewrite Hm. by eexists _, _.
    + left. unfold handle_swbus_message. cbn [in_body]. unfold handle_response. rewrite bind_get.
      destruct (unacked_messages s !! rid') as [u|] eqn:Hu; [|by eexists _, _].
      destruct (rs_tracked _ _ Hr rid' u Hu) as [e He]. rewrite He. cbn [unwrap]. rewrite bind_ret.
      unfold bind, put_state, when. destruct (bool_decide _); by eexists _, _.
    + left. destruct (driver_send_run p src rid (match request with HamgrdGetActorState => CodeOk | _ => InvalidArgs end)
        (match request with HamgrdGetActorState => "" | _ => "Unsupported request type: SwbusdGetRoutes" end)
        (match request with HamgrdGetActorState => Some (dump (dump_state s)) | _ => None end) s Hr) as (m & Hsend & _).
      eexists _, _. destruct request; exact Hsend.
  - left. destruct (tick_rest p now s Hr) as (s1 & -> & _). by eexists _, _.
  - left. by eexists _, _.
Qed.

(** A run of the loop: the events before the one that stops the actor, or before
    the one whose callback does not return. *)
Lemma loop_rest p evs s :
  resting p s →
  ∃ b evs1 evs2 s' l, evs = evs1 ++ evs2 ∧ driver_loop dump evs1 s = Done (Ok b, s') ∧ resting p s' ∧
    sends s s' l ∧ omap response_of l = omap answer_due evs1 ∧
    (driver_loop dump evs s = Done (Ok b, s') ∧ (b = false → evs2 = []) ∨
     b = false ∧ ∃ ev rest, evs2 = ev :: rest ∧ stuck ev s').
Proof.
  revert s. induction evs as [|ev evs IH]; intros s Hr.
  { exists false, [], [], s, []. split_and!; try done; [by unfold sends; rewrite app_nil_r|by left]. }
  destruct (driver_step dump ev s) as [[res1 s1]| |] eqn:Hs.
  2,3: exists false, [], (ev :: evs), s, []; split_and!; try done; [by unfold sends; rewrite app_nil_r|];
    right; split; [done|]; exists ev, evs; split; [done|]; destruct (step_outcome p ev s Hr) as [(? & ? & ?)|?]; [congruence|done].
  destruct (step_rest p ev s res1 s1 Hr Hs) as (-> & Hr1 & l1 & Hl1 & Hans).
  assert (omap answer_due (ev :: []) = option_list (answer_due ev)) as Hdue by (cbn; by destruct (answer_due ev)).
  assert (∀ evs', driver_loop dump (ev :: evs') s = driver_loop dump evs' s1 ∨
                  ∀ evs'', driver_loop dump (ev :: evs'') s = Done (Ok true, s1)) as Hloop.
  { intros evs'. cbn [driver_loop]. setoid_rewrite (bind_done _ _ _ _ _ Hs). setoid_rewrite bind_get.
    destruct ev; [destruct (stopped s1)|..]; first [by left|by right]. }
  destruct (Hloop evs) as [Hgo|Hstop].
  2:{ exists true, [ev], evs, s1, l1. split_and!; try done. left. by split. }
  destruct (IH s1 Hr1) as (b & evs1 & evs2 & s' & l2 & -> & Hrun & Hr' & Hl2 & Hans2 & Hend).
  destruct (Hloop evs1) as [Hgo1|Hstop1]; [|by exists true, [ev], (evs1 ++ evs2), s1, l1; split_and!; try done; left; split].
  exists b, (ev :: evs1), evs2, s', (l1 ++ l2). split_and!; try done; [congruence|by eapply sends_trans| |by rewrite Hgo].
  rewrite omap_app, Hans, Hans2, <- Hdue. cbn. by destruct (answer_due ev).
Qed.

Lemma loop_resting p evs s res s' :
  resting p s → driver_loop dump evs s = Done (res, s') → ∃ b, res = Ok b ∧ resting p s'.
Proof.
  revert s. induction evs as [|ev evs IH]; intros s Hr Hrun; [injection Hrun as <- <-; by eexists|].
  cbn [driver_loop] in Hrun. unfold bind at 1 in Hrun. destruct (driver_step dump ev s) as [[res1 s1]| |] eqn:Hs; [|discriminate Hrun..].
  destruct (step_rest p ev s res1 s1 Hr Hs) as (-> & Hr1 & _). rewrite bind_get in Hrun.
  destruct ev; [destruct (stopped s1)|..]; try (by eapply IH). injection Hrun as <- <-. by eexists.
Qed.

(** * From the start *)

(** An actor as it is created: registered under [p], with no message sent or queued. *)
Record fresh (p : ServicePath) s : Prop := {
  fr_source : client_source (swbus_client s) = p;
  fr_open : router_open s;
  fr_queued : queued_messages s = [];
  fr_unacked : unacked_messages s = ∅;
}.

(** What [init] leaves is committed and sent. *)
Lemma start_rest p now s res s' :
  fresh p s →
  (unwrap_result "init" (actor_init now);;; commit_changes now;;; send_queued_messages now) s = Done (res : result unit string, s') →
  res = Ok tt ∧ resting p s'.
Proof.
  intros [Hsrc Ho Hq Hu] Hrun. unfold unwrap_result, bind at 1 2, attempt in Hrun.
  destruct (actor_init now s) as [[[[]|err] s1]| |] eqn:Hi; [|discriminate Hrun..].
  pose proof (actor_init_api now _ _ _ Hi) as Hapi. pose proof (api_client _ _ Hapi) as Hcl.
  destruct (api_queued _ _ Hapi) as (q & Hq1 & Hreq). rewrite Hq in Hq1. rewrite Hsrc in Hreq. cbn in Hq1, Hrun.
  unfold bind in Hrun. destruct (commit_changes now s1) as [[res2 s2]| |] eqn:Hc; [|discriminate Hrun..].
  pose proof (commit_changes_ok _ _ _ _ Hc) as ->. destruct (commit_changes_comms now _ _ _ Hc) as [Kc Kq Ki Ku].
  set (s0 := set_internal ∅ s).
  assert (resting p s0) as Hr0
    by (split; try done; unfold s0, tracked; cbn; rewrite ?Hu; intros ? ?; rewrite lookup_empty; discriminate).
  destruct (send_queue_rest p now q s0 s2 s' res) as (-> & Hr & _); try done.
  - by rewrite Kq, Hq1.
  - by rewrite Kc, (kc_source _ _ Hcl).
  - unfold router_open. rewrite Kc. by apply Hcl.
  - unfold sent_out. by rewrite Kc, (api_router _ _ Hapi).
  - by rewrite Ku, (api_unacked _ _ Hapi).
  - apply (commit_changes_tracked now _ _ _ Hc). intros i u. by rewrite (api_unacked _ _ Hapi), Hu, lookup_empty.
  - by eapply commit_changes_committed.
Qed.

(** C10: the state of an actor between two events. Of any actor whose callbacks
    only use the [State] interface: whenever the driver returns from [init] or
    from an event, no error has come up, the actor is connected under its
    address, nothing is queued and no change of its internal tables is
    uncommitted, and every message that waits for an acknowledgement is a
    request of this actor that was sent, kept under the id it was sent with, with
    its record in the table of sent messages. *)
Theorem driver_invariant p now evs s res s' :
  fresh p s → driver_run dump now evs s = Done (res, s') → ∃ b, res = Ok b ∧ resting p s'.
Proof.
  intros Hf Hrun.
  assert (driver_run dump now evs s = ((unwrap_result "init" (actor_init now);;; commit_changes now;;; send_queued_messages now);;;
    driver_loop dump evs) s) as Heq.
  { unfold driver_run, bind. destruct (unwrap_result "init" (actor_init now) s) as [[[[]|] s1]| |]; [|done..].
    by destruct (commit_changes now s1) as [[[[]|] s2]| |]. }
  rewrite Heq in Hrun. unfold bind at 1 in Hrun.
  destruct ((unwrap_result "init" (actor_init now);;; commit_changes now;;; send_queued_messages now) s) as [[res1 s1]| |] eqn:H1; [|discriminate Hrun..].
  destruct (start_rest p now s res1 s1 Hf H1) as [-> Hr]. by eapply loop_resting.
Qed.

(** C8: Every request is answered exactly once. An actor between two events, its
    edge up, sees
    any events: its driver handles them up to the one that stops the actor, or
    up to a request whose callback does not return or whose committed entries a
    table refuses to write, which panics; nothing else keeps it from returning.
    Of all the messages it sends meanwhile (its own requests, resent
    ones, answers) the responses are exactly one for each request that can be
    read and each management request, in the order they came in, each to its
    sender and under its id; responses, undecodable requests, resend ticks and
    the end of the channel are answered by nothing. *)
Theorem requests_answered p evs s :
  resting p s →
  ∃ b evs1 evs2 s' l, evs = evs1 ++ evs2 ∧ driver_loop dump evs1 s = Done (Ok b, s') ∧ sends s s' l ∧
    omap response_of l = omap answer_due evs1 ∧
    (driver_loop dump evs s = Done (Ok b, s') ∧ (b = false → evs2 = []) ∨
     b = false ∧ ∃ ev rest, evs2 = ev :: rest ∧ stuck ev s').
Proof.
  intros Hr. destruct (loop_rest p evs s Hr) as (b & evs1 & evs2 & s' & l & He & Hrun & _ & Hl & Ha & Hend).
  by exists b, evs1, evs2, s', l.
Qed.
End DriverProps.

Lemma demo_fresh : fresh demo_local_svc demo_start.
Proof. split; reflexivity. Defined.

Lemma driver_invariant_witness : resting demo_local_svc demo_ran.
Proof.
  destruct (driver_invariant (λ _, "") demo_local_svc 0 demo_events demo_start (Ok false) demo_ran demo_fresh demo_ran_run) as (b & _ & Hr).
  exact Hr.
Defined.

Lemma demo_resting : resting demo_local_svc demo_start.
Proof.
  split; [reflexivity..| | |].
  - intros k e He. cbn in He. by rewrite lookup_empty in He.
  - intros i u Hu. cbn in Hu. by rewrite lookup_empty in Hu.
  - intros i u Hu. cbn in Hu. by rewrite lookup_empty in Hu.
Defined.

(** Two requests, one of which fails in the callback, an unreadable one and a
    management request. *)
Definition demo_requests : list DriverEvent :=
  [EvMsg 1 (mkIncoming 3 demo_peer_svc demo_local_svc (BodyRequest (to_vec (mkActorMsg "fail" "x"))));
   EvMsg 2 (mkIncoming 4 demo_peer_svc demo_local_svc (BodyRequest []));
   EvMsg 3 (mkIncoming 5 demo_peer_svc demo_local_svc (BodyManagement HamgrdGetActorState ∅));
   EvMsg 4 (mkIncoming 6 demo_peer_svc demo_local_svc (BodyRequest (to_vec (mkActorMsg "fail" "y"))))].

Lemma requests_answered_witness :
  ∃ s' l, driver_loop (λ _, "") demo_requests demo_start = Done (Ok false, s') ∧
    omap response_of l = [(demo_peer_svc, 3); (demo_peer_svc, 5); (demo_peer_svc, 6)]%Z.
Proof.
  destruct (requests_answered (λ _, "") demo_local_svc demo_requests demo_start demo_resting)
    as (b & evs1 & evs2 & s' & l & He & Hrun & _ & Ha & Hend).
  assert (∀ ev (s : DemoSt), ev ∈ demo_requests → ¬ stuck (λ _, "") ev s) as Hdue.
  { assert (∀ now d rid src dst (s : DemoSt), ¬ stuck (λ _, "") (EvMsg now (mkIncoming rid src dst (BodyRequest (to_vec (mkActorMsg "fail" d))))) s) as Hfail.
    { intros now d rid src dst s. unfold stuck. cbn [in_body]. rewrite from_to_slice. intros [Hn|(s2 & Hs2 & _)].
      - apply Hn. eexists _, _. apply demo_fails.
      - cbn [msg_key] in Hs2. rewrite demo_fails in Hs2. discriminate Hs2. }
    intros ev s. unfold demo_requests. rewrite !elem_of_cons, elem_of_nil. intros [->|[->|[->|[->|[]]]]]; [apply Hfail|intros []|intros []|apply Hfail]. }
  destruct Hend as [[Hrun' Hb]|(-> & ev & rest & -> & Hstuck)].
  - exists s', l. assert (b = false) as ->.
    { assert (done_result (driver_loop (λ _, "") demo_requests demo_start) = Some (Ok false)) as Hb' by (vm_compute; reflexivity).
      rewrite Hrun' in Hb'. by injection Hb'. }
    split; [exact Hrun'|]. rewrite (Hb eq_refl), app_nil_r in He. rewrite Ha, <- He. vm_compute. reflexivity.
  - exfalso. refine (Hdue ev s' _ Hstuck). rewrite He, elem_of_app. right. by left.
Defined.
