(* ===== verification/Bridge.v ===== *)
(** swss-common-bridge: a consumer bridge sends the updates of a SONiC table to
    an actor, a producer bridge applies the updates it receives to a table.
    Models crates/swss-common-bridge/src (consumer.rs, producer.rs). The tables
    of swss-common are parameters: their updates are a sequence of events. *)
From S2P Require Import Prelude RustStr Path Proto Edge Actor.

Open Scope stdpp_scope.

(** * swss-common updates *)

Inductive KeyOperation : Set := KopSet | KopDel.

#[export] Instance key_operation_eq_dec : EqDecision KeyOperation.
Proof. solve_decision. Defined.

Record KeyOpFieldValues : Type := mkKfv {
  kfv_key : string;
  kfv_operation : KeyOperation;
  kfv_field_values : FieldValues;
}.

#[export] Instance kfv_eq_dec : EqDecision KeyOpFieldValues.
Proof. solve_decision. Defined.

(** * The table cache *)

(** [TableCache] *)
Abbreviation TableCache := (gmap string FieldValues).

(** [TableCache::merge_kfv]: the update with the whole row, and the cache. *)
Definition merge_kfv (kfv : KeyOpFieldValues) (cache : TableCache) : KeyOpFieldValues * TableCache :=
  match kfv_operation kfv with
  | KopSet =>
      let field_values := kfv_field_values kfv ∪ default ∅ (cache !! kfv_key kfv) in
      (mkKfv (kfv_key kfv) KopSet field_values, <[kfv_key kfv := field_values]> cache)
  | KopDel => (kfv, delete (kfv_key kfv) cache)
  end.

(** * The consumer bridge *)

(** A consumer bridge: its own address, the table it subscribes to, where it
    sends an update and under which key, and which updates it sends ([None]:
    the selector panics). *)
Record ConsumerBridge : Type := mkBridge {
  br_addr : ServicePath;
  br_table : string;
  br_dest : KeyOpFieldValues → ServicePath * string;
  br_selector : KeyOpFieldValues → option bool;
}.


(** The task of a consumer bridge: its cache and its client. *)
Record ConsumerSt : Type := mkConsumerSt { table_cache : TableCache; consumer_client : SimpleClient }.

(** What wakes it up: updates of the table, [recv] after [msgs] were delivered
    to the bridge, the end of the bus. *)
Inductive ConsumerEvent : Type :=
| EvUpdates (kfvs : list KeyOpFieldValues)
| EvReceive (msgs : list SwbusMessage)
| EvSwbusDown.

Section Consumer.
Context {V : Type} `{Wire V} `{!Codec V KeyOpFieldValues} (b : ConsumerBridge).

Definition lift_consumer {E B} (m : M SimpleClient E B) : M ConsumerSt E B :=
  λ s, match m (consumer_client s) with
       | Done (r, c) => Done (r, mkConsumerSt (table_cache s) c)
       | Panicked w => Panicked w
       | OutOfFuel => OutOfFuel
       end.

(** The closure [send_kfv]. *)
Definition send_kfv (kfv : KeyOpFieldValues) : M ConsumerSt string unit :=
  let* s := get_state in
  let kfv' := (merge_kfv kfv (table_cache s)).1 in
  put_state (mkConsumerSt (merge_kfv kfv (table_cache s)).2 (consumer_client s));;;
  let* selected := unwrap "selector" (br_selector b kfv') in
  if negb selected then ret tt
  else
    let '(destination, key) := br_dest b kfv' in
    let* msg := unwrap_result "encoding ActorMessage" (actor_msg_new (V:=V) key kfv') in
    let* _ := unwrap_result "Sending swbus message"
      (lift_consumer (client_send (mkOutgoing destination (BodyRequest (to_vec msg))))) in
    ret tt.

(** [rehydrate]: every key of the table as an update, an empty row for a key
    that has gone in between. *)
Fixpoint rehydrate_rows (get : string → result (option FieldValues) string) (keys : list string)
    : M ConsumerSt string (list KeyOpFieldValues) :=
  match keys with
  | [] => ret []
  | key :: keys' =>
      let* row := unwrap_result "Table::get" (of_result (get key)) in
      let* out := rehydrate_rows get keys' in
      ret (mkKfv key KopSet (default ∅ row) :: out)
  end.
Definition rehydrate (can_rehydrate : bool) (keys : result (list string) string)
    (get : string → result (option FieldValues) string) : M ConsumerSt string (list KeyOpFieldValues) :=
  if can_rehydrate then
    let* keys := unwrap_result "Table::get_keys" (of_result keys) in
    rehydrate_rows get keys
  else ret [].

Definition deliver_to_client (msgs : list SwbusMessage) (c : SimpleClient) : SimpleClient :=
  mkClient (client_source c) (client_sink c) (client_ids c) (handler_rx c ++ msgs) (router c).

(** The main loop over the events it sees; [false] when it would wait for more.
    Messages to the bridge are received and dropped. *)
Fixpoint consumer_loop (evs : list ConsumerEvent) : M ConsumerSt string bool :=
  match evs with
  | [] => ret false
  | EvUpdates kfvs :: evs' => for_each send_kfv kfvs;;; consumer_loop evs'
  | EvReceive msgs :: evs' =>
      let* _ := attempt (E:=SwbusError) (lift_consumer (modify (deliver_to_client msgs);;; recv)) in
      consumer_loop evs'
  | EvSwbusDown :: _ => ret true
  end.

Definition run_consumer_bridge (can_rehydrate : bool) (keys : result (list string) string)
    (get : string → result (option FieldValues) string) (evs : list ConsumerEvent) : M ConsumerSt string bool :=
  let* kfvs := rehydrate can_rehydrate keys get in
  for_each send_kfv kfvs;;;
  consumer_loop evs.

End Consumer.

(** * The producer bridge *)

(** [ProducerTable]: writes to a table of swss-common. *)
Class ProducerTable (Tab : Type) := {
  producer_set : Tab → string → FieldValues → result Tab string;
  producer_del : Tab → string → result Tab string;
}.

Record ProducerSt (Tab : Type) : Type := mkProducerSt { producer_table : Tab; producer_client : SimpleClient }.
Arguments mkProducerSt {Tab}. Arguments producer_table {Tab}. Arguments producer_client {Tab}.

Section Producer.
Context {V Tab : Type} `{Wire V} `{!Codec V KeyOpFieldValues} `{!ProducerTable Tab}.

Definition lift_producer {E B} (m : M SimpleClient E B) : M (ProducerSt Tab) E B :=
  λ s, match m (producer_client s) with
       | Done (r, c) => Done (r, mkProducerSt (producer_table s) c)
       | Panicked w => Panicked w
       | OutOfFuel => OutOfFuel
       end.

(** [apply_kfv] *)
Definition apply_kfv (kfv : KeyOpFieldValues) (t : Tab) : result Tab string :=
  match kfv_operation kfv with
  | KopSet => producer_set t (kfv_key kfv) (kfv_field_values kfv)
  | KopDel => producer_del t (kfv_key kfv)
  end.

(** One message [recv] returned. *)
Definition producer_handle (msg : IncomingMessage) : M (ProducerSt Tab) SwbusError unit :=
  match in_body msg with
  | BodyRequest payload =>
      let* answer :=
        match from_slice (V:=V) payload with
        | Ok actor_msg =>
            match from_value (T:=KeyOpFieldValues) (msg_data actor_msg) with
            | Ok kfv =>
                let* s := get_state in
                let* t := unwrap_result (E:=string) "table threw an exception" (of_result (apply_kfv kfv (producer_table s))) in
                put_state (mkProducerSt t (producer_client s));;;
                ret (CodeOk, "")
            | Err e => ret (InvalidPayload, "Invalid KeyOpFieldValues: " +:+ e)
            end
        | Err e => ret (InvalidPayload, "Invalid ActorMessage: " +:+ e)
        end in
      let* _ := unwrap_result (E:=SwbusError) "Sending swbus message"
        (lift_producer (client_send (mkOutgoing (in_source msg) (BodyResponse (in_id msg) answer.1 answer.2 None)))) in
      ret tt
  | _ => ret tt
  end.

(** The loop, until [recv] would wait: at most one message of the queue of the
    client is consumed per round, so its length is enough fuel. *)
Fixpoint producer_loop (fuel : nat) : M (ProducerSt Tab) SwbusError unit :=
  match fuel with
  | O => out_of_fuel
  | S fuel' =>
      let* m := lift_producer recv in
      match m with
      | None => ret tt
      | Some msg => producer_handle msg;;; producer_loop fuel'
      end
  end.

End Producer.
