(* ===== verification/BridgeTheory.v ===== *)
(** Theorems about the bridges: what a consumer bridge sends lets its receiver
    replicate the table, and a producer bridge applies and answers every
    request it receives. *)
From S2P Require Import Prelude RustStr Path Proto Edge EdgeTheory Actor Bridge.

Open Scope stdpp_scope.

(** * Specification: a table and its replicas *)

(** What an update does to a SONiC table: a set writes its fields into the row,
    a delete removes the row. *)
Definition table_apply (kfv : KeyOpFieldValues) (t : TableCache) : TableCache :=
  match kfv_operation kfv with
  | KopSet => <[kfv_key kfv := kfv_field_values kfv ∪ default ∅ (t !! kfv_key kfv)]> t
  | KopDel => delete (kfv_key kfv) t
  end.
Definition table_after (us : list KeyOpFieldValues) (t : TableCache) : TableCache :=
  foldl (λ t u, table_apply u t) t us.

(** What a receiver does that keeps the last row it was told of. *)
Definition replica_apply (kfv : KeyOpFieldValues) (t : TableCache) : TableCache :=
  match kfv_operation kfv with
  | KopSet => <[kfv_key kfv := kfv_field_values kfv]> t
  | KopDel => delete (kfv_key kfv) t
  end.
Definition replica_after (us : list KeyOpFieldValues) (t : TableCache) : TableCache :=
  foldl (λ t u, replica_apply u t) t us.

(** The whole rows a consumer bridge makes of a sequence of updates. *)
Fixpoint snapshots (us : list KeyOpFieldValues) (t : TableCache) : list KeyOpFieldValues :=
  match us with
  | [] => []
  | u :: us' => (merge_kfv u t).1 :: snapshots us' (merge_kfv u t).2
  end.

Lemma merge_kfv_cache u t : (merge_kfv u t).2 = table_apply u t.
Proof. unfold merge_kfv, table_apply. by destruct (kfv_operation u). Qed.
Lemma merge_kfv_replica u t : replica_apply (merge_kfv u t).1 t = table_apply u t.
Proof.
  unfold merge_kfv, replica_apply, table_apply. destruct (kfv_operation u) eqn:E; cbn; [done|]. by rewrite E.
Qed.

(** A replica that starts from the cache stays equal to it. *)
Lemma replica_snapshots us t : replica_after (snapshots us t) t = table_after us t.
Proof.
  revert t. induction us as [|u us IH]; intros t; [done|].
  unfold replica_after, table_after in *. cbn [snapshots foldl].
  by rewrite merge_kfv_replica, merge_kfv_cache, IH.
Qed.

(** Applying whole rows as field-wise writes changes nothing more: a snapshot
    has every field of the row it replaces. *)
Lemma table_snapshots us t : table_after (snapshots us t) t = table_after us t.
Proof.
  revert t. induction us as [|u us IH]; intros t; [done|].
  unfold table_after in *. cbn [snapshots foldl].
  assert (table_apply (merge_kfv u t).1 t = table_apply u t) as ->; [|by rewrite merge_kfv_cache, IH].
  unfold merge_kfv, table_apply. destruct (kfv_operation u) eqn:E; cbn; [|by rewrite E].
  f_equal. by rewrite <- map_union_assoc, map_union_idemp.
Qed.

(** * The client of a bridge *)

Definition request_from (c : SimpleClient) (dst : ServicePath) (payload : list Z) : SwbusMessage :=
  mkMessage (Some (header_new (client_source c) dst (next_id (client_ids c)))) (Some (DataRequest payload)).
Definition response_from (c : SimpleClient) (dst : ServicePath) (rid : Z) (code : SwbusErrorCode) (msg : string)
    : SwbusMessage :=
  mkMessage (Some (header_new (client_source c) dst (next_id (client_ids c))))
    (Some (Response (mkResponse rid (error_code_i32 code) msg None))).
(** The client after sending [m]. *)
Definition client_sent (m : SwbusMessage) (c : SimpleClient) : SimpleClient :=
  mkClient (client_source c) (client_sink c) (id_generate (client_ids c)).2 (handler_rx c)
    (mkMsgChan (delivered (router c) ++ [m]) true).

Lemma client_send_request c dst payload :
  receiver_open (router c) = true →
  client_send (mkOutgoing dst (BodyRequest payload)) c =
    Done (Ok (next_id (client_ids c)), client_sent (request_from c dst payload) c).
Proof.
  intros Ho. unfold client_send, outgoing_message_to_swbus_message, client_generate, bind, get_state, ret,
    client_send_raw, get_state, bind, chan_send. cbn. rewrite Ho. reflexivity.
Qed.
Lemma client_send_response c dst rid code msg :
  receiver_open (router c) = true →
  client_send (mkOutgoing dst (BodyResponse rid code msg None)) c =
    Done (Ok (next_id (client_ids c)), client_sent (response_from c dst rid code msg) c).
Proof.
  intros Ho. unfold client_send, outgoing_message_to_swbus_message, client_generate, bind, get_state, ret,
    client_send_raw, get_state, bind, chan_send. cbn -[error_code_i32]. rewrite Ho. reflexivity.
Qed.

(** ** What [recv] does with one message *)

(** All four parts of a message are there, as swbusd checks before it routes one. *)
Definition well_addressed (m : SwbusMessage) : bool :=
  match header m, body m with
  | Some h, Some _ => bool_decide (is_Some (source h)) && bool_decide (is_Some (destination h))
  | _, _ => false
  end.

(** The id, the sender and the payload of a request. *)
Definition data_request (m : SwbusMessage) : option (Z * ServicePath * list Z) :=
  match header m, body m with
  | Some h, Some (DataRequest payload) =>
      match source h, destination h with Some s, Some _ => Some (id h, s, payload) | _, _ => None end
  | _, _ => None
  end.

(** A client that is no sink answers [m] and goes on, skips it, or returns it. *)
Inductive recv_case (m : SwbusMessage) (q : list SwbusMessage) (c : SimpleClient) : Prop :=
| RecvAnswers i s d :
    infra_request m = Some (i, s, d) → data_request m = None →
    recv_loop (m :: q) c = recv_loop q (after_answer (set_rx q c) (answer c d s (response_ok i))) →
    recv_case m q c
| RecvSkips :
    infra_request m = None → data_request m = None →
    recv_loop (m :: q) c = recv_loop q (set_rx q c) → recv_case m q c
| RecvReturns inc :
    infra_request m = None → recv_loop (m :: q) c = Done (Ok (Some inc), set_rx q c) →
    match data_request m with
    | Some (i, s, p) => in_id inc = i ∧ in_source inc = s ∧ in_body inc = BodyRequest p
    | None => ∀ p, in_body inc ≠ BodyRequest p
    end → recv_case m q c.

Lemma recv_one m q c :
  client_sink c = false → receiver_open (router c) = true → well_addressed m = true → recv_case m q c.
Proof.
  intros Hsink Ho Hm.
  destruct (infra_request m) as [[[i s] d]|] eqn:Hi.
  - apply (RecvAnswers m q c i s d Hi); [|by apply recv_infra].
    unfold infra_request in Hi. unfold data_request. destruct (header m), (body m) as [[]|]; done.
  - destruct m as [[h|] [b|]]; try done. unfold well_addressed in Hm. cbn [header body] in Hm.
    apply andb_prop in Hm as [[s Hs]%bool_decide_eq_true [d Hd]%bool_decide_eq_true].
    destruct c as [src sk ids rx rt]. cbn in Hsink. subst sk.
    destruct h as [v i f t src' dst']. cbn in Hs, Hd. subst src' dst'.
    destruct b as [r| | | | |req|p]; try discriminate Hi.
    + eapply RecvReturns; [done|reflexivity|]. cbn -[error_code_of_i32]. done.
    + by apply RecvSkips.
    + by apply RecvSkips.
    + destruct (mgmt_type_of_i32 (mgmt_request req)) as [ty|] eqn:Ht.
      * apply (RecvReturns _ _ _ (mkIncoming i s d (BodyManagement ty (list_to_map (reverse (mgmt_arguments req))))));
          [done| |done].
        cbn [recv_loop]. unfold handle_received_message, bind. cbn -[mgmt_type_of_i32 list_to_map reverse]. by rewrite Ht.
      * apply RecvSkips; [done..|]. cbn [recv_loop]. unfold handle_received_message, bind. cbn -[mgmt_type_of_i32 list_to_map reverse]. by rewrite Ht.
    + by eapply RecvReturns; [done|reflexivity|].
Qed.

(** * The consumer bridge *)

(** An update survives the JSON encoding: serde documents this for derived
    implementations. *)
Class KfvLaws (V : Type) `{Codec V KeyOpFieldValues} := {
  kfv_to_from (kfv : KeyOpFieldValues) : ∃ v, to_value kfv = Ok v ∧ from_value v = Ok kfv;
}.

Section Consumer.
Context {V : Type} `{!Wire V} `{!WireLaws V} `{!Codec V KeyOpFieldValues} `{!KfvLaws V} (b : ConsumerBridge).

(** The update, its key and destination in a message of the bridge. *)
Definition update_in (m : SwbusMessage) : option (ServicePath * string * KeyOpFieldValues) :=
  match header m, body m with
  | Some h, Some (DataRequest payload) =>
      match destination h, from_slice (V:=V) payload with
      | Some dst, Ok msg => match from_value (msg_data msg) with Ok kfv => Some (dst, msg_key msg, kfv) | Err _ => None end
      | _, _ => None
      end
  | _, _ => None
  end.

Definition chosen (kfv : KeyOpFieldValues) : bool := default false (br_selector b kfv).

(** Receiving drops or answers what is queued, and adds no update to what the
    client sends. *)
Lemma recv_adds_no_update q c :
  client_sink c = false → receiver_open (router c) = true → Forall (λ m, well_addressed m = true) q →
  ∃ r c', recv_loop q c = Done (Ok r, c') ∧ client_sink c' = false ∧ receiver_open (router c') = true ∧
    Forall (λ m, well_addressed m = true) (handler_rx c') ∧
    omap update_in (delivered (router c')) = omap update_in (delivered (router c)) ∧
    (Forall (λ m, well_addressed m = true) (delivered (router c)) →
     Forall (λ m, well_addressed m = true) (delivered (router c'))).
Proof.
  intros Hsink Ho Hq. revert c Hsink Ho. induction Hq as [|m q Hm Hq IH]; intros c Hsink Ho.
  - exists None, (set_rx [] c). by split_and!.
  - destruct (recv_one m q c Hsink Ho Hm) as [i s d _ _ ->|_ _ ->|inc _ -> _].
    + destruct (IH (after_answer (set_rx q c) (answer c d s (response_ok i)))) as (r & c' & Hrun & ? & ? & ? & Hd & Hw);
        [done..|]. exists r, c'. split_and!; [done..| |].
      { rewrite Hd. cbn. rewrite omap_app. cbn. by rewrite app_nil_r. }
      intros Hsent. apply Hw. apply Forall_app. split; [done|]. by apply Forall_singleton.
    + destruct (IH (set_rx q c)) as (r & c' & ?); [done..|]. by exists r, c'.
    + exists (Some inc), (set_rx q c). by split_and!.
Qed.

(** The invariant of the task of the bridge. *)
Definition bridge_ready (s : ConsumerSt) : Prop :=
  client_sink (consumer_client s) = false ∧ receiver_open (router (consumer_client s)) = true ∧
  Forall (λ m, well_addressed m = true) (handler_rx (consumer_client s)) ∧
  Forall (λ m, well_addressed m = true) (delivered (router (consumer_client s))).

(** The updates among the events up to the end of the bus. *)
Fixpoint updates_of (evs : list ConsumerEvent) : list KeyOpFieldValues :=
  match evs with
  | [] | EvSwbusDown :: _ => []
  | EvUpdates us :: evs' => us ++ updates_of evs'
  | EvReceive _ :: evs' => updates_of evs'
  end.
Definition ends (evs : list ConsumerEvent) : bool := existsb (λ e, if e is EvSwbusDown then true else false) evs.
Definition event_ok (e : ConsumerEvent) : Prop :=
  match e with EvReceive msgs => Forall (λ m, well_addressed m = true) msgs | _ => True end.

(** What the bridge has sent: updates with their destination and key. *)
Definition sent_updates (s : ConsumerSt) : list (ServicePath * string * KeyOpFieldValues) :=
  omap update_in (delivered (router (consumer_client s))).
Definition addressed (kfv : KeyOpFieldValues) : ServicePath * string * KeyOpFieldValues := (br_dest b kfv, kfv).

(** The bridge on the updates [us] went from [s] to [s']. *)
Definition relayed (us : list KeyOpFieldValues) (s s' : ConsumerSt) : Prop :=
  bridge_ready s' ∧ table_cache s' = table_after us (table_cache s) ∧
  sent_updates s' = sent_updates s ++ map addressed (filter (λ k, chosen k = true) (snapshots us (table_cache s))).

Lemma snapshots_app us1 us2 t : snapshots (us1 ++ us2) t = snapshots us1 t ++ snapshots us2 (table_after us1 t).
Proof.
  revert t. induction us1 as [|u us1 IH]; intros t; [done|]. cbn [snapshots app]. f_equal.
  rewrite IH, merge_kfv_cache. done.
Qed.
Lemma relayed_app us1 us2 s s1 s2 : relayed us1 s s1 → relayed us2 s1 s2 → relayed (us1 ++ us2) s s2.
Proof.
  intros (_ & Hc1 & Hs1) (Hr & Hc2 & Hs2). split; [done|]. split.
  - rewrite Hc2, Hc1. unfold table_after. by rewrite foldl_app.
  - rewrite Hs2, Hs1, snapshots_app, filter_app, map_app, Hc1. by rewrite <- app_assoc.
Qed.

Lemma send_kfv_run u s :
  bridge_ready s → is_Some (br_selector b (merge_kfv u (table_cache s)).1) →
  ∃ s', send_kfv b u s = Done (Ok tt, s') ∧ relayed [u] s s'.
Proof.
  intros (Hsink & Ho & Hq & Hsent) [sel Hsel]. unfold send_kfv. rewrite bind_get.
  set (k := (merge_kfv u (table_cache s)).1) in *. rewrite merge_kfv_cache.
  set (s1 := mkConsumerSt (table_apply u (table_cache s)) (consumer_client s)).
  unfold put_state at 1. rewrite (bind_done _ _ _ tt s1) by done.
  rewrite Hsel. cbn [unwrap]. rewrite bind_ret. destruct sel; cbn [negb].
  - destruct (br_dest b k) as [dst key] eqn:Hdst, (kfv_to_from k) as (v & Hv & Hback).
    unfold actor_msg_new. rewrite Hv. cbn [of_result].
    erewrite (bind_done (unwrap_result "encoding ActorMessage" _)); [|reflexivity].
    set (m := request_from (consumer_client s) dst (to_vec (mkActorMsg key v))).
    exists (mkConsumerSt (table_cache s1) (client_sent m (consumer_client s))).
    split. { unfold unwrap_result, bind, attempt, lift_consumer. cbn [consumer_client s1].
      by rewrite client_send_request. }
    split. { split_and!; [done..|]. apply Forall_app. split; [done|]. by apply Forall_singleton. }
    split; [done|]. unfold sent_updates. cbn [consumer_client client_sent router delivered snapshots]. rewrite omap_app. f_equal. fold k. rewrite filter_cons_True by (unfold chosen; by rewrite Hsel).
    rewrite filter_nil. cbn [omap list_omap map]. unfold update_in at 1, m, request_from.
    cbn [header body header_new destination]. rewrite from_to_slice. cbn [msg_data msg_key]. rewrite Hback.
    unfold addressed. by rewrite Hdst.
  - exists s1. split; [done|]. split; [by split_and!|]. split; [done|]. cbn [snapshots].
    fold k. rewrite filter_cons_False by (unfold chosen; by rewrite Hsel). by rewrite filter_nil, app_nil_r.
Qed.

Lemma send_all_kfvs_run us s :
  bridge_ready s → Forall (λ k, is_Some (br_selector b k)) (snapshots us (table_cache s)) →
  ∃ s', for_each (send_kfv b) us s = Done (Ok tt, s') ∧ relayed us s s'.
Proof.
  revert s. induction us as [|u us IH]; intros s Hr Hsel.
  - exists s. split; [done|]. split; [done|]. split; [done|]. cbn. by rewrite app_nil_r.
  - cbn [snapshots] in Hsel. apply Forall_cons in Hsel as [Hu Hus].
    destruct (send_kfv_run u s Hr Hu) as (s1 & Hrun & Hs1). pose proof Hs1 as (Hr1 & Hcache & _).
    rewrite merge_kfv_cache in Hus. cbn in Hcache. rewrite <- Hcache in Hus.
    destruct (IH s1 Hr1 Hus) as (s2 & Hrun2 & Hs2).
    exists s2. cbn [for_each]. rewrite (bind_done _ _ _ _ _ Hrun). split; [done|].
    by apply (relayed_app [u] us s s1 s2).
Qed.

Lemma consumer_loop_run evs s :
  bridge_ready s → Forall event_ok evs →
  Forall (λ k, is_Some (br_selector b k)) (snapshots (updates_of evs) (table_cache s)) →
  ∃ s', consumer_loop b evs s = Done (Ok (ends evs), s') ∧ relayed (updates_of evs) s s'.
Proof.
  revert s. induction evs as [|e evs IH]; intros s Hr Hok Hsel.
  - exists s. split; [done|]. split; [done|]. split; [done|]. cbn. by rewrite app_nil_r.
  - apply Forall_cons in Hok as [He Hok]. destruct e as [us|msgs|]; cbn [consumer_loop updates_of ends existsb orb] in *.
    + rewrite snapshots_app in Hsel. apply Forall_app in Hsel as [Hus Hsel].
      destruct (send_all_kfvs_run us s Hr Hus) as (s1 & Hrun & Hs1). pose proof Hs1 as (Hr1 & Hcache & _).
      rewrite <- Hcache in Hsel. destruct (IH s1 Hr1 Hok Hsel) as (s2 & Hrun2 & Hs2).
      exists s2. rewrite (bind_done _ _ _ _ _ Hrun). split; [done|]. by apply (relayed_app _ _ s s1 s2).
    + destruct Hr as (Hsink & Ho & Hq & Hsent).
      set (c1 := deliver_to_client msgs (consumer_client s)).
      destruct (recv_adds_no_update (handler_rx c1) c1) as (r & c2 & Hrecv & Hsink2 & Ho2 & Hq2 & Hd2 & Hw2);
        [done|done|by apply Forall_app|].
      set (s1 := mkConsumerSt (table_cache s) c2).
      destruct (IH s1) as (s2 & Hrun2 & Hr2 & Hc2 & Hs2); [split_and!; [done..|by apply Hw2]|done|done|].
      exists s2. split.
      { unfold attempt, lift_consumer, bind at 1 2, modify. fold c1.
        unfold recv. rewrite bind_get, Hrecv. exact Hrun2. }
      split; [done|]. split; [done|]. rewrite Hs2. unfold sent_updates at 1. cbn [consumer_client s1].
      by rewrite Hd2.
    + exists s. split; [done|]. split; [done|]. split; [done|]. cbn. by rewrite app_nil_r.
Qed.

(** Rehydration reads the table [t]. *)
Lemma rehydrate_rows_run get keys (t : TableCache) s :
  (∀ k, get k = Ok (t !! k)) →
  rehydrate_rows get keys s = Done (Ok ((λ k, mkKfv k KopSet (default ∅ (t !! k))) <$> keys), s).
Proof.
  intros Hget. induction keys as [|k keys IH]; [done|]. cbn [rehydrate_rows]. rewrite Hget. cbn [of_result].
  erewrite (bind_done (unwrap_result _ _)) by reflexivity. by rewrite (bind_done _ _ _ _ _ IH).
Qed.

End Consumer.

(** The rows of [t] as updates, from a part of [t], give [t] at the keys. *)
Definition row_updates (t : TableCache) (keys : list string) : list KeyOpFieldValues :=
  (λ k, mkKfv k KopSet (default ∅ (t !! k))) <$> keys.
Lemma table_after_rows (t t0 : TableCache) keys :
  (∀ k, k ∈ keys → is_Some (t !! k)) → t0 ⊆ t →
  table_after (row_updates t keys) t0 ⊆ t ∧
  t0 ⊆ table_after (row_updates t keys) t0 ∧
  ∀ k, k ∈ keys → table_after (row_updates t keys) t0 !! k = t !! k.
Proof.
  revert t0. induction keys as [|k keys IH]; intros t0 Hkeys Ht0.
  - split_and!; [done..|]. by intros k ?%elem_of_nil.
  - destruct (Hkeys k) as [row Hrow]; [left|].
    assert (∀ old, t0 !! k = Some old → old = row) as Hold.
    { intros old Ho. eapply lookup_weaken in Ho; [|done]. congruence. }
    assert (table_apply (mkKfv k KopSet (default ∅ (t !! k))) t0 = <[k := row]> t0) as Happ.
    { unfold table_apply. cbn [kfv_operation kfv_key kfv_field_values]. rewrite Hrow. cbn [default]. f_equal.
      destruct (t0 !! k) as [old|] eqn:Ho; cbn; [rewrite (Hold old) by done; apply map_union_idemp|apply map_union_empty]. }
    unfold row_updates, table_after in *. cbn [fmap list_fmap foldl]. rewrite Happ.
    destruct (IH (<[k := row]> t0)) as (H1 & H2 & H3).
    + intros k' Hk'. apply Hkeys. by right.
    + by apply insert_subseteq_l.
    + assert (t0 ⊆ <[k := row]> t0) as Hsub.
      { apply map_subseteq_spec. intros i x Hi. destruct (decide (i = k)) as [->|].
        - rewrite lookup_insert_eq. by rewrite (Hold x).
        - by rewrite lookup_insert_ne. }
      split_and!; [done|by etransitivity|]. intros k' [->|Hk']%elem_of_cons; [|by apply H3].
      rewrite Hrow. eapply lookup_weaken; [|done]. apply lookup_insert_eq.
Qed.
Lemma table_after_rehydration (t : TableCache) keys :
  (∀ k, k ∈ keys ↔ is_Some (t !! k)) → table_after (row_updates t keys) ∅ = t.
Proof.
  intros Hkeys. destruct (table_after_rows t ∅ keys) as (Hsub & _ & Hat); [naive_solver|apply map_empty_subseteq|].
  apply map_eq. intros k. destruct (t !! k) as [row|] eqn:Hk.
  - rewrite <- Hk. apply Hat, Hkeys. rewrite Hk. by eexists.
  - destruct (table_after (row_updates t keys) ∅ !! k) as [r|] eqn:Hr; [|done]. eapply lookup_weaken in Hr; [|done]. congruence.
Qed.

(** What a replica holds at a key depends on the updates of that key alone. *)
Lemma replica_filter (P : KeyOpFieldValues → Prop) `{!∀ k, Decision (P k)} key us t1 t2 :
  Forall (λ u, kfv_key u = key → P u) us → t1 !! key = t2 !! key →
  replica_after (filter P us) t1 !! key = replica_after us t2 !! key.
Proof.
  intros Hus. revert t1 t2. induction Hus as [|u us Hu Hus IH]; intros t1 t2 Ht; [done|].
  unfold replica_after in *. rewrite filter_cons. cbn [foldl].
  destruct (decide (P u)); cbn [foldl]; apply IH; unfold replica_apply.
  - destruct (decide (kfv_key u = key)) as [->|]; destruct (kfv_operation u);
      rewrite ?lookup_insert_eq, ?lookup_delete_eq, ?lookup_insert_ne, ?lookup_delete_ne by done; done.
  - assert (kfv_key u ≠ key) by naive_solver.
    destruct (kfv_operation u); by rewrite ?lookup_insert_ne, ?lookup_delete_ne.
Qed.

(** * The producer bridge *)

Section Producer.
Context {V Tab : Type} `{!Wire V} `{!Codec V KeyOpFieldValues} `{!ProducerTable Tab}.

(** What a payload asks for. *)
Definition update_of_payload (payload : list Z) : result KeyOpFieldValues string :=
  match from_slice (V:=V) payload with
  | Ok msg => match from_value (msg_data msg) with
              | Ok kfv => Ok kfv
              | Err e => Err ("Invalid KeyOpFieldValues: " +:+ e)
              end
  | Err e => Err ("Invalid ActorMessage: " +:+ e)
  end.

(** The updates in a queue, and their effect on the table. *)
Definition writes (q : list SwbusMessage) : list KeyOpFieldValues :=
  omap (λ m, '(_, _, p) ← data_request m; match update_of_payload p with Ok kfv => Some kfv | Err _ => None end) q.
Fixpoint apply_all (us : list KeyOpFieldValues) (t : Tab) : result Tab string :=
  match us with
  | [] => Ok t
  | u :: us' => match apply_kfv u t with Ok t' => apply_all us' t' | Err e => Err e end
  end.

(** The answer a message gets: receiver, id of the request, code and text. *)
Definition reply (m : SwbusMessage) : option (ServicePath * Z * SwbusErrorCode * string) :=
  match data_request m, infra_request m with
  | Some (i, s, p), _ => Some match update_of_payload p with
                              | Ok _ => (s, i, CodeOk, "")
                              | Err e => (s, i, InvalidPayload, e)
                              end
  | None, Some (i, s, _) => Some (s, i, CodeOk, "")
  | None, None => None
  end.
Definition reply_in (m : SwbusMessage) : option (ServicePath * Z * SwbusErrorCode * string) :=
  match header m, body m with
  | Some h, Some (Response r) =>
      dst ← destination h; code ← error_code_of_i32 (error_code r);
      Some (dst, request_id r, code, error_message r)
  | _, _ => None
  end.

Lemma reply_in_response c dst rid code msg :
  reply_in (response_from c dst rid code msg) = Some (dst, rid, code, msg).
Proof.
  unfold reply_in, response_from. cbn -[error_code_of_i32 error_code_i32]. by rewrite error_code_round_trip.
Qed.
Lemma reply_in_answer c src dst i : reply_in (answer c src dst (response_ok i)) = Some (dst, i, CodeOk, "").
Proof. reflexivity. Qed.

(** One request handled: the update is applied and answered, or refused. *)
Lemma producer_handle_run inc p t t' c :
  in_body inc = BodyRequest p → receiver_open (router c) = true →
  match update_of_payload p with Ok kfv => apply_kfv kfv t = Ok t' | Err _ => t' = t end →
  producer_handle (V:=V) inc (mkProducerSt t c) =
    Done (Ok tt, mkProducerSt t' (client_sent (match update_of_payload p with
      | Ok _ => response_from c (in_source inc) (in_id inc) CodeOk ""
      | Err e => response_from c (in_source inc) (in_id inc) InvalidPayload e
      end) c)).
Proof.
  intros Hb Ho Happ. unfold producer_handle. rewrite Hb. unfold update_of_payload in *.
  destruct (from_slice p) as [msg|e]; [destruct (from_value (msg_data msg)) as [kfv|e]|].
  all: unfold unwrap_result, bind, attempt, lift_producer, get_state, put_state, ret; cbn [producer_table producer_client].
  - rewrite Happ. cbn [of_result ret producer_client producer_table fst snd].
    unfold ret. cbn [producer_client producer_table]. by rewrite client_send_response.
  - subst t'. cbn [fst snd]. by rewrite client_send_response.
  - subst t'. cbn [fst snd]. by rewrite client_send_response.
Qed.

(** A round of the loop with [q] waiting. *)
Definition producer_from (q : list SwbusMessage) (fuel : nat) : M (ProducerSt Tab) SwbusError unit :=
  bind (lift_producer (recv_loop q)) (λ m,
    match m with None => ret tt | Some msg => producer_handle (V:=V) msg;;; producer_loop (V:=V) fuel end).
Lemma producer_loop_from fuel t c :
  producer_loop (V:=V) (S fuel) (mkProducerSt t c) = producer_from (handler_rx c) fuel (mkProducerSt t c).
Proof. done. Qed.
Lemma producer_from_step q q' fuel t c c' :
  recv_loop q c = recv_loop q' c' → producer_from q fuel (mkProducerSt t c) = producer_from q' fuel (mkProducerSt t c').
Proof. intros Hq. unfold producer_from, bind, lift_producer. cbn [producer_client producer_table]. by rewrite Hq. Qed.

Lemma producer_from_run q fuel t t' c :
  length q ≤ fuel → client_sink c = false → receiver_open (router c) = true →
  Forall (λ m, well_addressed m = true) q → apply_all (writes q) t = Ok t' →
  ∃ c' rs, producer_from q fuel (mkProducerSt t c) = Done (Ok tt, mkProducerSt t' c') ∧
    handler_rx c' = [] ∧ delivered (router c') = delivered (router c) ++ rs ∧
    reply_in <$> rs = Some <$> omap reply q.
Proof.
  intros Hfuel Hsink Ho Hq. revert fuel t c Hfuel Hsink Ho.
  induction Hq as [|m q Hm Hq IH]; intros fuel t c Hfuel Hsink Ho Happ.
  - injection Happ as <-. exists (set_rx [] c), []. split_and!; [done..|by rewrite app_nil_r|done].
  - cbn [length] in Hfuel. unfold writes in Happ. cbn [omap list_omap] in Happ. cbn [omap list_omap].
    destruct (recv_one m q c Hsink Ho Hm) as [i s d Hi Hd Hrun|Hi Hd Hrun|inc Hi Hrun Hinc].
    + rewrite (producer_from_step _ _ _ _ _ _ Hrun). rewrite Hd in Happ. unfold reply at 1. rewrite Hd, Hi.
      destruct (IH fuel t (after_answer (set_rx q c) (answer c d s (response_ok i)))) as (c' & rs & ? & ? & Hdel & Hrs);
        [lia|done..|]. exists c', (answer c d s (response_ok i) :: rs).
      split_and!; [done..| |by cbn; rewrite Hrs]. rewrite Hdel. cbn. by rewrite <- app_assoc.
    + rewrite (producer_from_step _ _ _ _ _ _ Hrun). rewrite Hd in Happ. unfold reply at 1. rewrite Hd, Hi.
      apply (IH fuel t (set_rx q c)); [lia|done..].
    + destruct fuel as [|fuel]; [lia|]. unfold producer_from.
      erewrite bind_done by (unfold lift_producer; cbn [producer_client]; rewrite Hrun; reflexivity).
      cbn [producer_table]. unfold reply at 1. destruct (data_request m) as [[[i s] p]|].
      * destruct Hinc as (<- & <- & Hb). cbn in Happ.
        set (r := match update_of_payload p with
          | Ok _ => response_from (set_rx q c) (in_source inc) (in_id inc) CodeOk ""
          | Err e => response_from (set_rx q c) (in_source inc) (in_id inc) InvalidPayload e
          end).
        assert (∃ t1, (match update_of_payload p with Ok kfv => apply_kfv kfv t = Ok t1 | Err _ => t1 = t end) ∧
          apply_all (writes q) t1 = Ok t') as (t1 & Ht1 & Happ1).
        { destruct (update_of_payload p); [|by exists t]. cbn in Happ.
          destruct (apply_kfv a t) as [t1|]; [by exists t1|done]. }
        rewrite (bind_done _ _ _ _ _ (producer_handle_run inc p t t1 (set_rx q c) Hb Ho Ht1)). fold r.
        rewrite producer_loop_from. cbn [client_sent handler_rx set_rx].
        destruct (IH fuel t1 (client_sent r (set_rx q c))) as (c' & rs & ? & ? & Hdel & Hrs); [lia|done..|].
        exists c', (r :: rs). split_and!; [done..| |].
        { rewrite Hdel. cbn. by rewrite <- app_assoc. }
        cbn [fmap list_fmap]. rewrite Hrs. f_equal. subst r. by destruct (update_of_payload p); rewrite reply_in_response.
      * rewrite Hi. unfold producer_handle at 1.
        assert (∀ k, (match in_body inc with BodyRequest payload => k payload | _ => ret tt end) =
          ret (S:=ProducerSt Tab) (E:=SwbusError) tt) as Hnone.
        { intros k. destruct (in_body inc) as [p| |]; [by destruct (Hinc p)|done..]. }
        rewrite Hnone, bind_ret, producer_loop_from. cbn [set_rx handler_rx].
        apply (IH fuel t (set_rx q c)); [lia|done..].
Qed.

End Producer.

(** swss-common's write of a row: if it does not throw, its fields are merged
    into the row, or a delete removes the row; [table_view] is what a reader of
    the table sees. *)
Class ProducerTableLaws (Tab : Type) `{ProducerTable Tab} := {
  table_view : Tab → TableCache;
  producer_set_view t k f t' : producer_set t k f = Ok t' → table_view t' = table_apply (mkKfv k KopSet f) (table_view t);
  producer_del_view t k t' : producer_del t k = Ok t' → table_view t' = delete k (table_view t);
}.
(** A table whose writes do not throw: a bridge panics when one does. *)
Class ProducerTableWrites (Tab : Type) `{ProducerTable Tab} : Prop :=
  producer_writes t u : ∃ t' : Tab, apply_kfv u t = Ok t'.

Lemma apply_kfv_view {Tab} `{ProducerTableLaws Tab} u (t t' : Tab) :
  apply_kfv u t = Ok t' → table_view t' = table_apply u (table_view t).
Proof. destruct u as [k [|] f]; [apply producer_set_view|apply producer_del_view]. Qed.
Lemma apply_all_view {Tab} `{!ProducerTable Tab} `{!ProducerTableLaws Tab} `{!ProducerTableWrites Tab} us (t : Tab) :
  ∃ t', apply_all us t = Ok t' ∧ table_view t' = table_after us (table_view t).
Proof.
  revert t. induction us as [|u us IH]; intros t; [by exists t|]. cbn [apply_all].
  destruct (producer_writes t u) as [t1 H1]. rewrite H1. destruct (IH t1) as (t' & Hrun & Ht'). exists t'. split; [done|]. by rewrite Ht', (apply_kfv_view u t t1 H1).
Qed.

(** Updates in a queue of addressed messages are the writes it asks for. *)
Lemma writes_updates {V} `{Wire V, Codec V KeyOpFieldValues} q :
  Forall (λ m, well_addressed m = true) q → writes q = snd <$> omap update_in q.
Proof.
  induction 1 as [|m q Hm Hq IH]; [done|]. unfold writes in *. cbn [omap list_omap].
  assert ((('(_, _, p) ← data_request m; match update_of_payload p with Ok kfv => Some kfv | Err _ => None end)
    : option KeyOpFieldValues) = snd <$> update_in m) as ->.
  { unfold data_request, update_in, update_of_payload. unfold well_addressed in Hm.
    destruct (header m) as [h|]; [|by destruct (body m)]. destruct (body m) as [[]|]; try done.
    apply andb_prop in Hm as [[s ->]%bool_decide_eq_true [d ->]%bool_decide_eq_true]. cbn.
    destruct (from_slice payload) as [msg|]; [|done]. by destruct (from_value (msg_data msg)). }
  destruct (update_in m); cbn; by rewrite IH.
Qed.

(** * Properties *)

(** The rows a bridge rehydrates: those of the table, for the tables that can. *)
Definition rehydrated (can_rehydrate : bool) (t : TableCache) (keys : list string) : list KeyOpFieldValues :=
  if can_rehydrate then row_updates t keys else [].

Section Claims.
Context {V : Type} `{!Wire V} `{!WireLaws V} `{!Codec V KeyOpFieldValues} `{!KfvLaws V} (b : ConsumerBridge).

Lemma consumer_run can keys get (t : TableCache) evs s :
  bridge_ready s → table_cache s = ∅ →
  (∀ k, get k = Ok (t !! k)) → (∀ k, k ∈ keys ↔ is_Some (t !! k)) → Forall event_ok evs →
  Forall (λ k, is_Some (br_selector b k)) (snapshots (rehydrated can t keys ++ updates_of evs) ∅) →
  ∃ s', run_consumer_bridge b can (Ok keys) get evs s = Done (Ok (ends evs), s') ∧
    relayed b (rehydrated can t keys ++ updates_of evs) s s' ∧
    table_after (rehydrated can t keys ++ updates_of evs) ∅ = table_after (updates_of evs) (if can then t else ∅).
Proof.
  intros Hr Hc Hget Hkeys Hok Hsel. rewrite <- Hc in Hsel. rewrite snapshots_app in Hsel.
  apply Forall_app in Hsel as [Hsel1 Hsel2].
  destruct (send_all_kfvs_run b _ s Hr Hsel1) as (s1 & Hrun1 & Hs1). pose proof Hs1 as (Hr1 & Hc1 & _).
  rewrite <- Hc1 in Hsel2. destruct (consumer_loop_run b evs s1 Hr1 Hok Hsel2) as (s2 & Hrun2 & Hs2).
  exists s2. split.
  - unfold run_consumer_bridge. rewrite (bind_done _ _ s (rehydrated can t keys) s).
    + by rewrite (bind_done _ _ _ _ _ Hrun1).
    + unfold rehydrate. destruct can; [|done].
      erewrite bind_done by reflexivity. by rewrite (rehydrate_rows_run get keys t s Hget).
  - split; [by apply (relayed_app b _ _ s s1 s2)|]. unfold table_after. rewrite foldl_app. f_equal.
    destruct can; [by apply table_after_rehydration|done].
Qed.

(** C4: A consumer bridge refines the table it subscribes to: after rehydration
    and any sequence of updates, with messages arriving in between, its cache
    is the table, the requests it sent are the selected snapshots of whole rows
    in order, each under the key and to the destination the actor chose, and a
    receiver that keeps the last row of each key agrees with the table on every
    key whose updates are selected. *)
Theorem consumer_replicates_table can keys get (t : TableCache) evs s :
  bridge_ready s → table_cache s = ∅ →
  (∀ k, get k = Ok (t !! k)) → (∀ k, k ∈ keys ↔ is_Some (t !! k)) → Forall event_ok evs →
  let rows := snapshots (rehydrated can t keys ++ updates_of evs) ∅ in
  let now := table_after (updates_of evs) (if can then t else ∅) in
  Forall (λ k, is_Some (br_selector b k)) rows →
  ∃ s', run_consumer_bridge b can (Ok keys) get evs s = Done (Ok (ends evs), s') ∧
    table_cache s' = now ∧
    sent_updates s' = sent_updates s ++ map (addressed b) (filter (λ k, chosen b k = true) rows) ∧
    ∀ key, Forall (λ u, kfv_key u = key → chosen b u = true) rows →
      replica_after (filter (λ k, chosen b k = true) rows) ∅ !! key = now !! key.
Proof.
  intros Hr Hc Hget Hkeys Hok rows now Hsel.
  destruct (consumer_run can keys get t evs s Hr Hc Hget Hkeys Hok Hsel) as (s' & Hrun & (_ & Hcache & Hsent) & Hnow).
  rewrite Hc in Hcache, Hsent. rewrite Hnow in Hcache. exists s'. split_and!; [done..|].
  intros key Hkey. rewrite (replica_filter _ key _ ∅ ∅) by done. unfold rows. by rewrite replica_snapshots, Hnow.
Qed.

(** C20: A producer bridge applies every update queued at it once and in order
    to its table, answers each request to its sender with the request's id -
    [Ok], or [InvalidPayload] with the reason -, answers pings, ignores the
    rest and comes back to wait; the queue's length bounds the rounds. *)
Theorem producer_applies {Tab} `{!ProducerTable Tab} (tab tab' : Tab) c :
  client_sink c = false → receiver_open (router c) = true →
  Forall (λ m, well_addressed m = true) (handler_rx c) →
  apply_all (writes (V:=V) (handler_rx c)) tab = Ok tab' →
  ∃ c' rs, producer_loop (V:=V) (S (length (handler_rx c))) (mkProducerSt tab c) = Done (Ok tt, mkProducerSt tab' c') ∧
    handler_rx c' = [] ∧ delivered (router c') = delivered (router c) ++ rs ∧
    reply_in <$> rs = Some <$> omap (reply (V:=V)) (handler_rx c).
Proof. intros Hsink Ho Hq Happ. rewrite producer_loop_from. by apply producer_from_run. Qed.

(** C19: The two bridges together replicate a table: when the updates of a
    consumer bridge that selects everything reach a producer bridge in order,
    whatever else it receives, the table of the producer, empty at first and
    not throwing on a write, ends up equal to the table of the consumer. *)
Theorem bridges_replicate {Tab} `{!ProducerTable Tab} `{!ProducerTableLaws Tab} `{!ProducerTableWrites Tab} can keys get (t : TableCache) evs s :
  bridge_ready s → table_cache s = ∅ → sent_updates s = [] →
  (∀ k, get k = Ok (t !! k)) → (∀ k, k ∈ keys ↔ is_Some (t !! k)) → Forall event_ok evs →
  (∀ k, br_selector b k = Some true) →
  ∃ s', run_consumer_bridge b can (Ok keys) get evs s = Done (Ok (ends evs), s') ∧ bridge_ready s' ∧
    ∀ (tab : Tab) c, client_sink c = false → receiver_open (router c) = true →
      Forall (λ m, well_addressed m = true) (handler_rx c) → table_view tab = ∅ →
      omap update_in (handler_rx c) = sent_updates s' →
      ∃ tab' c', producer_loop (V:=V) (S (length (handler_rx c))) (mkProducerSt tab c) = Done (Ok tt, mkProducerSt tab' c') ∧
        table_view tab' = table_after (updates_of evs) (if can then t else ∅).
Proof.
  intros Hr Hc Hnone Hget Hkeys Hok Hsel.
  destruct (consumer_run can keys get t evs s Hr Hc Hget Hkeys Hok) as (s' & Hrun & (Hr' & _ & Hsent) & Hnow).
  { apply Forall_forall. intros k _. by rewrite Hsel. }
  exists s'. split; [done|]. split; [done|]. intros tab c Hsink Ho Hq Htab Hreach.
  destruct (apply_all_view (writes (V:=V) (handler_rx c)) tab) as (tab' & Happ & Hview).
  destruct (producer_from_run (handler_rx c) (length (handler_rx c)) tab tab' c) as (c' & rs & Hloop & _); [lia|done..|].
  exists tab', c'. split; [done|]. rewrite Hview, Htab, writes_updates, Hreach, Hsent, Hnone, Hc by done. cbn [app].
  rewrite <- Hnow, <- (table_snapshots (rehydrated can t keys ++ updates_of evs)). f_equal.
  set (rows := snapshots _ ∅). clearbody rows. clear -Hsel.
  induction rows as [|k rows IH]; [done|].
  rewrite filter_cons_True by (unfold chosen; by rewrite Hsel). cbn [map fmap list_fmap]. by rewrite IH.
Qed.

End Claims.
