(* ===== verification/BridgeWitness.v ===== *)
(** Concrete bridges: a DPU table relayed to an actor and to a second table. *)
From S2P Require Import Prelude RustStr Path Proto Mux MuxWitness Edge EdgeTheory Actor Bridge BridgeTheory.

Open Scope stdpp_scope.

(** Messages as numbers, updates as the JSON values themselves. *)
Definition kfv_parts (u : KeyOpFieldValues) : string * bool * FieldValues :=
  (kfv_key u, bool_decide (kfv_operation u = KopSet), kfv_field_values u).
Definition kfv_of_parts (p : string * bool * FieldValues) : KeyOpFieldValues :=
  mkKfv p.1.1 (if p.1.2 then KopSet else KopDel) p.2.

#[export] Instance kfv_countable : Countable KeyOpFieldValues.
Proof. apply (inj_countable' kfv_parts kfv_of_parts). by intros [k [] f]. Defined.

#[export] Instance demo_bridge_wire : Wire KeyOpFieldValues := {
  to_vec m := [Zpos (encode (msg_key m, msg_data m))];
  from_slice l := match l with
                  | [Zpos p] => match decode p with Some x => Ok (mkActorMsg x.1 x.2) | None => Err "not a message" end
                  | _ => Err "not a message"
                  end;
}.
#[export] Instance demo_bridge_wire_laws : WireLaws KeyOpFieldValues.
Proof. split. intros [k d]. unfold from_slice, to_vec, demo_bridge_wire. cbn [msg_key msg_data]. by rewrite decode_encode. Defined.
#[export] Instance demo_kfv_codec : Codec KeyOpFieldValues KeyOpFieldValues := { to_value := Ok; from_value := Ok }.
#[export] Instance demo_kfv_laws : KfvLaws KeyOpFieldValues.
Proof. split. intros kfv. by exists kfv. Defined.

#[export] Instance demo_producer : ProducerTable TableCache := {
  producer_set t k f := Ok (table_apply (mkKfv k KopSet f) t);
  producer_del t k := Ok (delete k t);
}.
#[export] Instance demo_producer_laws : ProducerTableLaws TableCache.
Proof.
  refine {| table_view := λ t, t |}.
  - intros t k f t' [= <-]. reflexivity.
  - intros t k t' [= <-]. reflexivity.
Defined.
#[export] Instance demo_producer_writes : ProducerTableWrites TableCache.
Proof. intros t [k [|] f]; by eexists. Defined.

Definition demo_row : FieldValues := {["oper" := "up"]}.
Definition demo_table : TableCache := {["dpu0" := demo_row]}.
Definition demo_table_get (k : string) : result (option FieldValues) string := Ok (demo_table !! k).
Definition demo_bridge : ConsumerBridge :=
  mkBridge demo_local_svc "DPU_STATE" (λ u, (demo_peer_svc, kfv_key u)) (λ _, Some true).
(** A field changes while a ping arrives, a row appears, the first is deleted. *)
Definition demo_events : list ConsumerEvent :=
  [EvUpdates [mkKfv "dpu0" KopSet {["oper" := "down"]}];
   EvReceive [demo_msg 63 demo_peer_svc demo_local_svc PingRequest];
   EvUpdates [mkKfv "dpu1" KopSet {["oper" := "up"]}; mkKfv "dpu0" KopDel ∅]; EvSwbusDown].
Definition demo_consumer : ConsumerSt :=
  mkConsumerSt ∅ (mkClient demo_local_svc false (mkIdGen 100) [] (mkMsgChan [] true)).

Lemma demo_keys k : k ∈ ["dpu0"] ↔ is_Some (demo_table !! k).
Proof.
  rewrite list_elem_of_singleton. unfold demo_table. split.
  - intros ->. rewrite lookup_singleton_eq. by eexists.
  - intros [r [-> _]%lookup_singleton_Some]. done.
Defined.
Lemma demo_events_ok : Forall event_ok demo_events.
Proof.
  apply List.Forall_cons; [exact I|]. apply List.Forall_cons; [by apply Forall_singleton|].
  apply List.Forall_cons; [exact I|]. apply List.Forall_cons; [exact I|]. constructor.
Defined.
Lemma demo_consumer_ready : bridge_ready demo_consumer.
Proof. split_and!; [done|done|constructor|constructor]. Defined.

Lemma consumer_replicates_table_witness :
  ∃ s', run_consumer_bridge demo_bridge true (Ok ["dpu0"]) demo_table_get demo_events demo_consumer = Done (Ok true, s') ∧
    table_cache s' = table_after (updates_of demo_events) demo_table.
Proof.
  destruct (consumer_replicates_table demo_bridge true ["dpu0"] demo_table_get demo_table demo_events demo_consumer)
    as (s' & Hrun & Hc & _).
  - exact demo_consumer_ready.
  - reflexivity.
  - reflexivity.
  - exact demo_keys.
  - exact demo_events_ok.
  - apply Forall_forall. intros k _. by eexists.
  - exists s'. split; [exact Hrun|exact Hc].
Defined.

Definition demo_update_msg (u : KeyOpFieldValues) : SwbusMessage :=
  data_message 8 demo_local_svc demo_peer_svc (to_vec (mkActorMsg "" u)).
Definition demo_producer_client : SimpleClient :=
  mkClient demo_peer_svc false (mkIdGen 7)
    [demo_update_msg (mkKfv "dpu0" KopSet demo_row); data_message 9 demo_local_svc demo_peer_svc []]
    (mkMsgChan [] true).

Lemma demo_producer_queue : Forall (λ m, well_addressed m = true) (handler_rx demo_producer_client).
Proof. apply List.Forall_cons; [reflexivity|]. by apply Forall_singleton. Defined.

Lemma producer_applies_witness :
  ∃ tab' c' rs, producer_loop (V:=KeyOpFieldValues) 3 (mkProducerSt (∅ : TableCache) demo_producer_client) = Done (Ok tt, mkProducerSt tab' c') ∧
    delivered (router c') = rs ∧ length rs = 2.
Proof.
  destruct (apply_all_view (writes (V:=KeyOpFieldValues) (handler_rx demo_producer_client)) (∅ : TableCache)) as (tab' & Happ & _).
  destruct (producer_applies (V:=KeyOpFieldValues) ∅ tab' demo_producer_client) as (c' & rs & Hrun & _ & Hd & Hr).
  - reflexivity.
  - reflexivity.
  - exact demo_producer_queue.
  - exact Happ.
  - exists tab', c', rs. split; [exact Hrun|]. split; [exact Hd|].
    apply (f_equal length) in Hr. rewrite !length_fmap in Hr. exact Hr.
Defined.

(** The producer that receives what the consumer has sent. *)
Definition relay_client (s : ConsumerSt) : SimpleClient :=
  mkClient demo_peer_svc false (mkIdGen 7) (delivered (router (consumer_client s))) (mkMsgChan [] true).

Lemma bridges_replicate_witness :
  ∃ s' tab' c', run_consumer_bridge demo_bridge true (Ok ["dpu0"]) demo_table_get demo_events demo_consumer = Done (Ok true, s') ∧
    producer_loop (V:=KeyOpFieldValues) (S (length (handler_rx (relay_client s')))) (mkProducerSt (∅ : TableCache) (relay_client s'))
      = Done (Ok tt, mkProducerSt tab' c') ∧
    tab' = table_after (updates_of demo_events) demo_table.
Proof.
  destruct (bridges_replicate (Tab:=TableCache) demo_bridge true ["dpu0"] demo_table_get demo_table demo_events demo_consumer)
    as (s' & Hrun & (_ & _ & _ & Hsent) & Hprod).
  - exact demo_consumer_ready.
  - reflexivity.
  - reflexivity.
  - reflexivity.
  - exact demo_keys.
  - exact demo_events_ok.
  - reflexivity.
  - destruct (Hprod ∅ (relay_client s') eq_refl eq_refl Hsent eq_refl eq_refl) as (tab' & c' & Hloop & Htab).
    exists s', tab', c'. split; [exact Hrun|]. split; [exact Hloop|exact Htab].
Defined.
