(* ===== verification/HaTypes.v ===== *)
(** hamgrd's data: the rows of the SONiC tables it reads and writes and the
    messages its actors exchange. Models crates/hamgrd/src/db_structs.rs and
    ha_actor_messages.rs. The field-value encoding of the rows (swss-serde with
    derived serde code) is the interface [FvCodec], the JSON encoding of the
    messages the interface [Codec] of Actor.v. *)
From S2P Require Import Prelude RustStr Path Proto Actor Bridge.

Open Scope stdpp_scope.

(** [SonicDbTable], as derived from the [sonicdb] attributes. *)
Class SonicDbTable (T : Type) := {
  table_name : string;
  key_separator : string;
  db_name : string;
  is_dpu : bool;
}.
Arguments table_name T {_}. Arguments key_separator T {_}. Arguments db_name T {_}. Arguments is_dpu T {_}.

(** [swss_serde::to_field_values] and [from_field_values]; a missing timestamp
    defaults to the current time. *)
Class FvCodec (T : Type) := {
  to_field_values : T → result FieldValues string;
  from_field_values : Z → FieldValues → result T string;
}.
(** * Rows *)

Record DashHaGlobalConfig : Set := mkGlobalConfig {
  gc_cp_data_channel_port : option Z;
  gc_dp_channel_dst_port : option Z;
  gc_dp_channel_src_port_min : option Z;
  gc_dp_channel_src_port_max : option Z;
  gc_dp_channel_probe_interval_ms : option Z;
  gc_dp_channel_probe_fail_threshold : option Z;
  gc_dpu_bfd_probe_interval_in_ms : option Z;
  gc_dpu_bfd_probe_multiplier : option Z;
  gc_vnet_name : option string;
}.
#[export] Instance global_config_table : SonicDbTable DashHaGlobalConfig :=
  { table_name := "DASH_HA_GLOBAL_CONFIG"; key_separator := "|"; db_name := "CONFIG_DB"; is_dpu := false }.

Record Dpu : Set := mkDpu {
  dpu_state_field : option string;
  dpu_vip_ipv4 : option string;
  dpu_vip_ipv6 : option string;
  dpu_pa_ipv4 : string;
  dpu_pa_ipv6 : option string;
  dpu_dpu_id : Z;
  dpu_vdpu_id : option string;
  dpu_orchagent_zmq_port : Z;
  dpu_swbus_port : Z;
  dpu_midplane_ipv4 : string;
}.
#[export] Instance dpu_table : SonicDbTable Dpu :=
  { table_name := "DPU"; key_separator := "|"; db_name := "CONFIG_DB"; is_dpu := false }.

Record RemoteDpu : Set := mkRemoteDpu {
  rdpu_pa_ipv4 : string;
  rdpu_pa_ipv6 : option string;
  rdpu_npu_ipv4 : string;
  rdpu_npu_ipv6 : option string;
  rdpu_dpu_id : Z;
  rdpu_swbus_port : Z;
}.
#[export] Instance remote_dpu_table : SonicDbTable RemoteDpu :=
  { table_name := "REMOTE_DPU"; key_separator := "|"; db_name := "CONFIG_DB"; is_dpu := false }.

Record VDpu : Set := mkVDpu { main_dpu_ids : list string }.
#[export] Instance vdpu_table : SonicDbTable VDpu :=
  { table_name := "VDPU"; key_separator := "|"; db_name := "CONFIG_DB"; is_dpu := false }.

Record BfdSessionTable : Set := mkBfdSession {
  bfd_tx_interval : option Z;
  bfd_rx_interval : option Z;
  bfd_multiplier : option Z;
  bfd_multihop : bool;
  bfd_shutdown : bool;
  bfd_local_addr : string;
  bfd_session_type : option string;
}.
#[export] Instance bfd_session_table : SonicDbTable BfdSessionTable :=
  { table_name := "BFD_SESSION_TABLE"; key_separator := ":"; db_name := "DPU_APPL_DB"; is_dpu := true }.

Inductive DpuPmonStateType : Set := PmonUp | PmonDown | PmonUnknown.

#[export] Instance pmon_eq_dec : EqDecision DpuPmonStateType.
Proof. solve_decision. Defined.

Record DpuState : Set := mkDpuState {
  dpu_midplane_link_state : DpuPmonStateType;
  dpu_midplane_link_time : Z;
  dpu_control_plane_state : DpuPmonStateType;
  dpu_control_plane_time : Z;
  dpu_data_plane_state : DpuPmonStateType;
  dpu_data_plane_time : Z;
}.
#[export] Instance dpu_state_table : SonicDbTable DpuState :=
  { table_name := "DPU_STATE"; key_separator := "|"; db_name := "CHASSIS_STATE_DB"; is_dpu := false }.

(** [now_in_millis], and the [Default] instances that use it. *)
Definition now_in_millis (now : Z) : Z := (now / 1000000)%Z.
Definition dpu_state_default (now : Z) : DpuState :=
  mkDpuState PmonUnknown (now_in_millis now) PmonUnknown (now_in_millis now) PmonUnknown (now_in_millis now).

Record DashBfdProbeState : Set := mkBfdProbe {
  v4_bfd_up_sessions : list string;
  v4_bfd_up_sessions_timestamp : Z;
  v6_bfd_up_sessions : list string;
  v6_bfd_up_sessions_timestamp : Z;
}.
#[export] Instance bfd_probe_table : SonicDbTable DashBfdProbeState :=
  { table_name := "DASH_BFD_PROBE_STATE"; key_separator := "|"; db_name := "DPU_STATE_DB"; is_dpu := true }.

Definition bfd_probe_default (now : Z) : DashBfdProbeState :=
  mkBfdProbe [] (now_in_millis now) [] (now_in_millis now).

Record DashHaSetConfigTable : Set := mkHaSetConfig {
  hsc_version : string;
  hsc_vip_v4 : string;
  hsc_vip_v6 : option string;
  hsc_owner : option string;
  hsc_scope : option string;
  hsc_vdpu_ids : list string;
  hsc_pinned_vdpu_bfd_probe_states : option string;
  hsc_preferred_vdpu_ids : option (list string);
  hsc_preferred_standalone_vdpu_index : option Z;
}.
#[export] Instance ha_set_config_table : SonicDbTable DashHaSetConfigTable :=
  { table_name := "DASH_HA_SET_CONFIG_TABLE"; key_separator := ":"; db_name := "APPL_DB"; is_dpu := false }.

Record DashHaSetTable : Set := mkHaSet {
  hs_version : string;
  hs_vip_v4 : string;
  hs_vip_v6 : option string;
  hs_owner : option string;
  hs_scope : option string;
  hs_local_npu_ip : string;
  hs_local_ip : string;
  hs_peer_ip : string;
  hs_cp_data_channel_port : option Z;
  hs_dp_channel_dst_port : option Z;
  hs_dp_channel_src_port_min : option Z;
  hs_dp_channel_src_port_max : option Z;
  hs_dp_channel_probe_interval_ms : option Z;
  hs_dp_channel_probe_fail_threshold : option Z;
}.
#[export] Instance ha_set_table : SonicDbTable DashHaSetTable :=
  { table_name := "DASH_HA_SET_TABLE"; key_separator := ":"; db_name := "DPU_APPL_DB"; is_dpu := true }.

Record VnetRouteTunnelTable : Set := mkVnetRoute {
  vr_endpoint : list string;
  vr_endpoint_monitor : option (list string);
  vr_monitoring : option string;
  vr_primary : option (list string);
  vr_rx_monitor_timer : option Z;
  vr_tx_monitor_timer : option Z;
  vr_check_directly_connected : option bool;
}.
#[export] Instance vnet_route_table : SonicDbTable VnetRouteTunnelTable :=
  { table_name := "VNET_ROUTE_TUNNEL_TABLE"; key_separator := ":"; db_name := "APPL_DB"; is_dpu := false }.

Record DashHaScopeConfigTable : Set := mkHaScopeConfig {
  hscc_version : Z;
  hscc_disable : bool;
  hscc_desired_ha_state : string;
  hscc_approved_pending_operation_ids : option (list string);
}.
#[export] Instance ha_scope_config_table : SonicDbTable DashHaScopeConfigTable :=
  { table_name := "DASH_HA_SCOPE_CONFIG_TABLE"; key_separator := ":"; db_name := "APPL_DB"; is_dpu := false }.

Record DashHaScopeTable : Set := mkHaScope {
  hsc_t_version : Z;
  hsc_t_disable : bool;
  hsc_t_ha_role : string;
  hsc_t_flow_reconcile_requested : bool;
  hsc_t_activate_role_requested : bool;
}.
#[export] Instance ha_scope_table : SonicDbTable DashHaScopeTable :=
  { table_name := "DASH_HA_SCOPE_TABLE"; key_separator := ":"; db_name := "DPU_APPL_DB"; is_dpu := true }.

Record DpuDashHaScopeState : Set := mkDpuScopeState {
  dss_last_updated_time : Z;
  dss_ha_role : string;
  dss_ha_role_start_time : Z;
  dss_ha_term : string;
  dss_activate_role_pending : bool;
  dss_flow_reconcile_pending : bool;
  dss_brainsplit_recover_pending : bool;
}.
#[export] Instance dpu_scope_state_table : SonicDbTable DpuDashHaScopeState :=
  { table_name := "DASH_HA_SCOPE_STATE"; key_separator := "|"; db_name := "DPU_STATE_DB"; is_dpu := true }.

Definition dpu_scope_state_default : DpuDashHaScopeState := mkDpuScopeState 0 "" 0 "" false false false.

(** The scope state hamgrd publishes to the SDN controller. *)
Record NpuDashHaScopeState : Set := mkNpuScopeState {
  nss_creation_time_in_ms : Z;
  nss_last_heartbeat_time_in_ms : Z;
  nss_vip_v4 : string;
  nss_vip_v6 : option string;
  nss_local_ip : string;
  nss_peer_ip : string;
  nss_local_ha_state : option string;
  nss_local_ha_state_last_updated_time_in_ms : option Z;
  nss_local_ha_state_last_updated_reason : option string;
  nss_local_target_asic_ha_state : option string;
  nss_local_acked_asic_ha_state : option string;
  nss_local_target_term : option string;
  nss_local_acked_term : option string;
  nss_peer_ha_state : option string;
  nss_peer_term : option string;
  nss_midplane_state : DpuPmonStateType;
  nss_midplane_time : Z;
  nss_control_plane_state : DpuPmonStateType;
  nss_control_plane_time : Z;
  nss_data_plane_state : DpuPmonStateType;
  nss_data_plane_time : Z;
  nss_up_bfd_sessions_v4 : list string;
  nss_up_bfd_sessions_v4_update_time : Z;
  nss_up_bfd_sessions_v6 : list string;
  nss_up_bfd_sessions_v6_update_time : Z;
  nss_pending_operation_ids : option (list string);
  nss_pending_operation_types : option (list string);
  nss_pending_operation_list_last_updated_time_in_ms : option Z;
  nss_switchover_id : option string;
  nss_switchover_state : option string;
  nss_switchover_start_time_in_ms : option Z;
  nss_switchover_end_time_in_ms : option Z;
  nss_switchover_approved_time_in_ms : option Z;
  nss_flow_sync_session_id : option string;
  nss_flow_sync_session_state : option string;
  nss_flow_sync_session_start_time_in_ms : option Z;
  nss_flow_sync_session_target_server : option string;
}.
#[export] Instance npu_scope_state_table : SonicDbTable NpuDashHaScopeState :=
  { table_name := "DASH_HA_SCOPE_STATE"; key_separator := "|"; db_name := "STATE_DB"; is_dpu := false }.

Definition npu_scope_state_default : NpuDashHaScopeState :=
  mkNpuScopeState 0 0 "" None "" "" None None None None None None None None None
    PmonUnknown 0 PmonUnknown 0 PmonUnknown 0 [] 0 [] 0
    None None None None None None None None None None None None.

(** * Messages between actors *)

Record DpuActorState : Set := mkDpuActorState {
  das_remote_dpu : bool;
  das_is_managed : bool;
  das_dpu_name : string;
  das_up : bool;
  das_state : option string;
  das_npu_ipv4 : string;
  das_npu_ipv6 : option string;
  das_vip_ipv4 : option string;
  das_vip_ipv6 : option string;
  das_pa_ipv4 : string;
  das_pa_ipv6 : option string;
  das_dpu_id : Z;
  das_vdpu_id : option string;
  das_orchagent_zmq_port : Z;
  das_swbus_port : Z;
  das_midplane_ipv4 : option string;
  das_dpu_pmon_state : option DpuState;
  das_dpu_bfd_state : option DashBfdProbeState;
}.

Definition from_dpu (name : string) (dpu : Dpu) (is_managed : bool) (npu_ipv4 : string)
    (npu_ipv6 : option string) (pmon_state : option DpuState) (bfd_state : option DashBfdProbeState)
    : DpuActorState :=
  mkDpuActorState false is_managed name false (dpu_state_field dpu) npu_ipv4 npu_ipv6
    (dpu_vip_ipv4 dpu) (dpu_vip_ipv6 dpu) (dpu_pa_ipv4 dpu) (dpu_pa_ipv6 dpu) (dpu_dpu_id dpu)
    (dpu_vdpu_id dpu) (dpu_orchagent_zmq_port dpu) (dpu_swbus_port dpu)
    (Some (dpu_midplane_ipv4 dpu)) pmon_state bfd_state.

Definition from_remote_dpu (name : string) (rdpu : RemoteDpu) : DpuActorState :=
  mkDpuActorState true false name false None (rdpu_npu_ipv4 rdpu) (rdpu_npu_ipv6 rdpu) None None
    (rdpu_pa_ipv4 rdpu) (rdpu_pa_ipv6 rdpu) (rdpu_dpu_id rdpu) None 0 (rdpu_swbus_port rdpu)
    None None None.

(** [dpu_state.up = up] *)
Definition set_up (up : bool) (d : DpuActorState) : DpuActorState :=
  mkDpuActorState (das_remote_dpu d) (das_is_managed d) (das_dpu_name d) up (das_state d)
    (das_npu_ipv4 d) (das_npu_ipv6 d) (das_vip_ipv4 d) (das_vip_ipv6 d) (das_pa_ipv4 d)
    (das_pa_ipv6 d) (das_dpu_id d) (das_vdpu_id d) (das_orchagent_zmq_port d) (das_swbus_port d)
    (das_midplane_ipv4 d) (das_dpu_pmon_state d) (das_dpu_bfd_state d).

Record VDpuActorState : Set := mkVDpuActorState { vds_up : bool; vds_dpu : DpuActorState }.
Record HaSetActorState : Set := mkHaSetActorState { hss_up : bool; hss_ha_set : DashHaSetTable }.
Record ActorRegistration : Set := mkRegistration { reg_active : bool }.
Inductive RegistrationType : Set := RegDPUState | RegVDPUState | RegHaSetState.

(** [msg_key] of each message, and [is_my_msg]. *)
Definition dpu_msg_prefix : string := "DPUStateUpdate|".
Definition dpu_msg_key (my_id : string) : string := dpu_msg_prefix +:+ my_id.
Definition dpu_is_my_msg (k : string) : bool := starts_with k dpu_msg_prefix.
Definition vdpu_msg_prefix : string := "VDPUStateUpdate|".
Definition vdpu_msg_key (my_id : string) : string := vdpu_msg_prefix +:+ my_id.
Definition vdpu_is_my_msg (k : string) : bool := starts_with k vdpu_msg_prefix.
Definition haset_msg_prefix : string := "HaSetStateUpdate|".
Definition haset_msg_key (my_id : string) : string := haset_msg_prefix +:+ my_id.
Definition haset_is_my_msg (k : string) : bool := starts_with k haset_msg_prefix.
Definition reg_prefix (t : RegistrationType) : string :=
  match t with
  | RegDPUState => "DPUStateRegister|"
  | RegVDPUState => "VDPUStateRegister|"
  | RegHaSetState => "HaSetStateRegister|"
  end.
Definition reg_msg_key (t : RegistrationType) (my_id : string) : string := reg_prefix t +:+ my_id.
Definition reg_is_my_msg (k : string) (t : RegistrationType) : bool := starts_with k (reg_prefix t).

(** The JSON encodings hamgrd uses. *)
Class HaCodec (V : Type) := {
  kfv_codec :: Codec V KeyOpFieldValues;
  dpu_state_codec :: Codec V DpuActorState;
  vdpu_state_codec :: Codec V VDpuActorState;
  haset_state_codec :: Codec V HaSetActorState;
  registration_codec :: Codec V ActorRegistration;
}.

(** The field-value encodings hamgrd uses. *)
Class HaFvCodec := {
  fv_global_config :: FvCodec DashHaGlobalConfig;
  fv_dpu :: FvCodec Dpu;
  fv_remote_dpu :: FvCodec RemoteDpu;
  fv_vdpu :: FvCodec VDpu;
  fv_bfd_session :: FvCodec BfdSessionTable;
  fv_dpu_state :: FvCodec DpuState;
  fv_bfd_probe :: FvCodec DashBfdProbeState;
  fv_ha_set_config :: FvCodec DashHaSetConfigTable;
  fv_ha_set :: FvCodec DashHaSetTable;
  fv_vnet_route :: FvCodec VnetRouteTunnelTable;
  fv_ha_scope_config :: FvCodec DashHaScopeConfigTable;
  fv_ha_scope :: FvCodec DashHaScopeTable;
  fv_dpu_scope_state :: FvCodec DpuDashHaScopeState;
  fv_npu_scope_state :: FvCodec NpuDashHaScopeState;
}.

Section HaMessages.
Context {V Db A : Type} `{!HaCodec V}.
Implicit Types (s : ActorSt V Db A).

(** [to_actor_msg] / [new_actor_msg] of the messages. *)
Definition dpu_new_actor_msg {S} (my_id : string) (d : DpuActorState) : M S string (ActorMessage V) :=
  actor_msg_new (dpu_msg_key my_id) d.
Definition vdpu_to_actor_msg {S} (my_id : string) (v : VDpuActorState) : M S string (ActorMessage V) :=
  actor_msg_new (vdpu_msg_key my_id) v.
(** [HaSetActorState::new_actor_msg]: the [up] it is given is not used. *)
Definition haset_new_actor_msg {S} (up : bool) (my_id : string) (h : DashHaSetTable)
    : M S string (ActorMessage V) :=
  actor_msg_new (haset_msg_key my_id) (mkHaSetActorState true h).
Definition reg_new_actor_msg {S} (active : bool) (t : RegistrationType) (my_id : string)
    : M S string (ActorMessage V) :=
  actor_msg_new (reg_msg_key t my_id) (mkRegistration active).

(** [get_registered_actors]: who registered, and is still active. *)
Definition registered_source (e : IncomingTableEntry V) : option ServicePath :=
  match from_value (T:=ActorRegistration) (msg_data (inc_msg e)) with
  | Ok r => if reg_active r then Some (inc_source e) else None
  | Err _ => None
  end.
Definition get_registered_actors (t : RegistrationType) s : list ServicePath :=
  omap registered_source (incoming_get_by_prefix (reg_prefix t) s).

(** A result that is only looked at: [let Ok(x) = .. else] on the incoming table. *)
Definition try_ok {S E E' B} (m : M S E B) : M S E' (option B) :=
  let* r := attempt m in ret (match r with Ok b => Some b | Err _ => None end).

(** Read a row out of the update stored under [k]. *)
Definition incoming_row {T} `{FvCodec T} (now : Z) (k : string) : M (ActorSt V Db A) string T :=
  let* m := incoming_get k in
  let* kfv := deserialize_data (T:=KeyOpFieldValues) m in
  of_result (from_field_values now (kfv_field_values kfv)).

End HaMessages.

(** The environment of hamgrd's actors: [RuntimeData] of the edge runtime, and
    whether opening a table of a database, or subscribing to it, succeeds. *)
Record HaEnv : Type := mkHaEnv {
  env_slot_id : Z;
  env_npu_ipv4 : option string;
  env_npu_ipv6 : option string;
  env_base_sp : ServicePath;
  env_open : string → string → bool → result unit string;
}.

(** [common_bridge_sp::<T>] of main.rs *)
Definition common_bridge_sp (T : Type) `{SonicDbTable T} (env : HaEnv) : ServicePath :=
  let b := env_base_sp env in
  mkPath (region_id b) (cluster_id b) (node_id b) (service_type b) (service_id b)
    "swss-common-bridge" (db_name T +:+ "|" +:+ table_name T).

(** [spawn_consumer_bridge_for_actor_with_selector] *)
Definition spawn_consumer_bridge {S} (T : Type) `{SonicDbTable T} (env : HaEnv) (actor_name : string)
    (actor_id : option string) (single_entry : bool) (selector : KeyOpFieldValues → option bool)
    : M S string ConsumerBridge :=
  let* _ := of_result (env_open env (db_name T) (table_name T) (is_dpu T)) in
  let b := env_base_sp env in
  let msg_key_of kfv := if single_entry then table_name T else table_name T +:+ "|" +:+ kfv_key kfv in
  let sp_of i := mkPath (region_id b) (cluster_id b) (node_id b) (service_type b) (service_id b) actor_name i in
  ret (mkBridge (common_bridge_sp T env) (table_name T)
         (λ kfv, (match actor_id with Some i => sp_of i | None => sp_of (kfv_key kfv) end, msg_key_of kfv))
         selector).
