(* ===== verification/HaRows.v ===== *)
(** The rows of hamgrd's tables as field values: the columns of each struct of
    crates/hamgrd/src/db_structs.rs with their serde attributes, over the
    encoding of SwssSerde.v. chrono's timestamp format is a parameter. *)
From S2P Require Import Prelude RustStr SwssSerde Actor Bridge HaTypes.

Open Scope stdpp_scope.

(** chrono: [DateTime::from_timestamp_millis(ts)?.format(TIMESTAMP_FORMAT)] and
    [NaiveDateTime::parse_from_str], in milliseconds. *)
Class Chrono := {
  format_timestamp : Z → option string;
  parse_timestamp : string → result Z string;
}.

(** A column type: its shape, its conversions, and the Rust values it carries. *)
Record ColumnType (X : Type) : Type := mkColumnType {
  ct_shape : Shape;
  ct_encode : SerdeValue → result SerdeValue string;
  ct_decode : SerdeValue → result SerdeValue string;
  ct_to : X → SerdeValue;
  ct_of : SerdeValue → option X;
}.
Arguments mkColumnType {X}. Arguments ct_shape {X}. Arguments ct_encode {X}. Arguments ct_decode {X}.
Arguments ct_to {X}. Arguments ct_of {X}.

Definition c_bool : ColumnType bool :=
  mkColumnType ShBool Ok Ok SBool (λ v, match v with SBool b => Some b | _ => None end).
Definition c_int (lo hi : Z) : ColumnType Z :=
  mkColumnType (ShInt lo hi) Ok Ok SInt (λ v, match v with SInt z => Some z | _ => None end).
Definition c_u16 : ColumnType Z := c_int 0 (2 ^ 16 - 1).
Definition c_u32 : ColumnType Z := c_int 0 u32_max.
Definition c_i64 : ColumnType Z := c_int (- 2 ^ 63) (2 ^ 63 - 1).
Definition c_str : ColumnType string :=
  mkColumnType ShStr Ok Ok SStr (λ v, match v with SStr s => Some s | _ => None end).

Definition pmon_variants : list string := ["up"; "down"; "unknown"].
Definition pmon_name (p : DpuPmonStateType) : string :=
  match p with PmonUp => "up" | PmonDown => "down" | PmonUnknown => "unknown" end.
Definition pmon_of (v : SerdeValue) : option DpuPmonStateType :=
  match v with
  | SVariant n => if decide (n = "up") then Some PmonUp else if decide (n = "down") then Some PmonDown
                  else if decide (n = "unknown") then Some PmonUnknown else None
  | _ => None
  end.
Definition c_pmon : ColumnType DpuPmonStateType :=
  mkColumnType (ShEnum pmon_variants) Ok Ok (λ p, SVariant (pmon_name p)) pmon_of.

(** [serde_as(StringWithSeparator::<CommaSeparator, String>)] *)
Fixpoint strings_of (l : list SerdeValue) : option (list string) :=
  match l with
  | [] => Some []
  | SStr s :: l' => cons s <$> strings_of l'
  | _ :: _ => None
  end.
Definition join_commas (v : SerdeValue) : result SerdeValue string :=
  match v with
  | SSeq l => match strings_of l with Some ss => Ok (SStr (join_str "," ss)) | None => Err "not strings" end
  | _ => Err "not a list"
  end.
Definition split_commas (v : SerdeValue) : result SerdeValue string :=
  match v with
  | SStr s => Ok (SSeq (SStr <$> (if is_empty s then [] else split ","%char s)))
  | _ => Err "not a string"
  end.
Definition c_sep : ColumnType (list string) :=
  mkColumnType ShStr join_commas split_commas (λ l, SSeq (SStr <$> l))
    (λ v, match v with SSeq l => strings_of l | _ => None end).

(** Conversions under an [Option]. *)
Definition under_option (f : SerdeValue → result SerdeValue string) (v : SerdeValue) : result SerdeValue string :=
  match v with
  | SSome w => match f w with Ok w' => Ok (SSome w') | Err e => Err e end
  | _ => Ok v
  end.
Definition c_opt {X} (c : ColumnType X) : ColumnType (option X) :=
  mkColumnType (ShOpt (ct_shape c)) (under_option (ct_encode c)) (under_option (ct_decode c))
    (λ o, match o with Some x => SSome (ct_to c x) | None => SNone end)
    (λ v, match v with SNone => Some None | SSome w => Some <$> ct_of c w | _ => None end).

Section Rows.
Context `{!Chrono}.

(** [timestamp_serialize] *)
Definition timestamp_serialize (v : SerdeValue) : result SerdeValue string :=
  match v with
  | SInt ts => match format_timestamp ts with Some s => Ok (SStr s) | None => Err "invalid timestamp" end
  | _ => Err "not an integer"
  end.
(** [timestamp_deserialize]: an [Option<String>], none is now. *)
Definition timestamp_deserialize (now : Z) (v : SerdeValue) : result SerdeValue string :=
  match v with
  | SSome (SStr s) => match parse_timestamp s with Ok ts => Ok (SInt ts) | Err e => Err e end
  | SNone => Ok (SInt (now_in_millis now))
  | _ => Err "not a string"
  end.
Definition c_time (now : Z) : ColumnType Z :=
  mkColumnType (ShOpt ShStr) timestamp_serialize (timestamp_deserialize now) SInt
    (λ v, match v with SInt z => Some z | _ => None end).

(** A column of a struct: its field and how it is read from the struct. *)
Record Column (T : Type) : Type := mkColumn { col_field : Field; col_get : T → SerdeValue }.
Arguments mkColumn {T}. Arguments col_field {T}. Arguments col_get {T}.

Definition column {T X} (name : string) (c : ColumnType X) (get : T → X) (skip : bool) : Column T :=
  mkColumn (mkField name (ct_shape c) (ct_encode c) (ct_decode c) None skip) (λ r, ct_to c (get r)).
Definition column_default {T X} (name : string) (c : ColumnType X) (get : T → X) (skip : bool)
    (d : option SerdeValue) : Column T :=
  mkColumn (mkField name (ct_shape c) (ct_encode c) (ct_decode c) d skip) (λ r, ct_to c (get r)).

(** Read the struct back, column by column. *)
Definition take {X R} (c : ColumnType X) (k : X → list SerdeValue → option R) (vs : list SerdeValue) : option R :=
  match vs with
  | v :: vs' => match ct_of c v with Some x => k x vs' | None => None end
  | [] => None
  end.
Definition finish {R} (r : R) (vs : list SerdeValue) : option R := match vs with [] => Some r | _ => None end.

Definition row_codec {T} (cols : Z → list (Column T)) (of_values : Z → list SerdeValue → option T) : FvCodec T := {|
  to_field_values r := struct_to_field_values (col_field <$> cols 0%Z) ((λ c, col_get c r) <$> cols 0%Z);
  from_field_values now fvs :=
    match struct_from_field_values (col_field <$> cols now) fvs with
    | Ok vs => match of_values now vs with Some r => Ok r | None => Err "invalid type" end
    | Err e => Err e
    end;
|}.

Definition global_config_columns (now : Z) : list (Column DashHaGlobalConfig) := [
    column "cp_data_channel_port" (c_opt c_u16) gc_cp_data_channel_port false;
    column "dp_channel_dst_port" (c_opt c_u16) gc_dp_channel_dst_port false;
    column "dp_channel_src_port_min" (c_opt c_u16) gc_dp_channel_src_port_min false;
    column "dp_channel_src_port_max" (c_opt c_u16) gc_dp_channel_src_port_max false;
    column "dp_channel_probe_interval_ms" (c_opt c_u32) gc_dp_channel_probe_interval_ms false;
    column "dp_channel_probe_fail_threshold" (c_opt c_u32) gc_dp_channel_probe_fail_threshold false;
    column "dpu_bfd_probe_interval_in_ms" (c_opt c_u32) gc_dpu_bfd_probe_interval_in_ms false;
    column "dpu_bfd_probe_multiplier" (c_opt c_u32) gc_dpu_bfd_probe_multiplier false;
    column "vnet_name" (c_opt c_str) gc_vnet_name false].
Definition global_config_of_values (now : Z) : list SerdeValue → option DashHaGlobalConfig :=
  take (c_opt c_u16) (λ x0, take (c_opt c_u16) (λ x1, take (c_opt c_u16) (λ x2,
  take (c_opt c_u16) (λ x3, take (c_opt c_u32) (λ x4, take (c_opt c_u32) (λ x5,
  take (c_opt c_u32) (λ x6, take (c_opt c_u32) (λ x7, take (c_opt c_str) (λ x8,
    finish (mkGlobalConfig x0 x1 x2 x3 x4 x5 x6 x7 x8)))))))))).
#[export] Instance global_config_fields : FvCodec DashHaGlobalConfig := row_codec global_config_columns global_config_of_values.

Definition dpu_columns (now : Z) : list (Column Dpu) := [
    column "state" (c_opt c_str) dpu_state_field true;
    column "vip_ipv4" (c_opt c_str) dpu_vip_ipv4 true;
    column "vip_ipv6" (c_opt c_str) dpu_vip_ipv6 true;
    column "pa_ipv4" c_str dpu_pa_ipv4 false;
    column "pa_ipv6" (c_opt c_str) dpu_pa_ipv6 true;
    column "dpu_id" c_u32 dpu_dpu_id false;
    column "vdpu_id" (c_opt c_str) dpu_vdpu_id true;
    column "orchagent_zmq_port" c_u16 dpu_orchagent_zmq_port false;
    column "swbus_port" c_u16 dpu_swbus_port false;
    column "midplane_ipv4" c_str dpu_midplane_ipv4 false].
Definition dpu_of_values (now : Z) : list SerdeValue → option Dpu :=
  take (c_opt c_str) (λ x0, take (c_opt c_str) (λ x1, take (c_opt c_str) (λ x2, take c_str (λ x3,
  take (c_opt c_str) (λ x4, take c_u32 (λ x5, take (c_opt c_str) (λ x6, take c_u16 (λ x7,
  take c_u16 (λ x8, take c_str (λ x9,
    finish (mkDpu x0 x1 x2 x3 x4 x5 x6 x7 x8 x9))))))))))).
#[export] Instance dpu_fields : FvCodec Dpu := row_codec dpu_columns dpu_of_values.

Definition remote_dpu_columns (now : Z) : list (Column RemoteDpu) := [
    column "pa_ipv4" c_str rdpu_pa_ipv4 false;
    column "pa_ipv6" (c_opt c_str) rdpu_pa_ipv6 true;
    column "npu_ipv4" c_str rdpu_npu_ipv4 false;
    column "npu_ipv6" (c_opt c_str) rdpu_npu_ipv6 true;
    column "dpu_id" c_u32 rdpu_dpu_id false;
    column "swbus_port" c_u16 rdpu_swbus_port false].
Definition remote_dpu_of_values (now : Z) : list SerdeValue → option RemoteDpu :=
  take c_str (λ x0, take (c_opt c_str) (λ x1, take c_str (λ x2, take (c_opt c_str) (λ x3,
  take c_u32 (λ x4, take c_u16 (λ x5,
    finish (mkRemoteDpu x0 x1 x2 x3 x4 x5))))))).
#[export] Instance remote_dpu_fields : FvCodec RemoteDpu := row_codec remote_dpu_columns remote_dpu_of_values.

Definition vdpu_columns (now : Z) : list (Column VDpu) := [
    column "main_dpu_ids" c_sep main_dpu_ids false].
Definition vdpu_of_values (now : Z) : list SerdeValue → option VDpu :=
  take c_sep (λ x0,
    finish (mkVDpu x0)).
#[export] Instance vdpu_fields : FvCodec VDpu := row_codec vdpu_columns vdpu_of_values.

Definition bfd_session_columns (now : Z) : list (Column BfdSessionTable) := [
    column "tx_interval" (c_opt c_u32) bfd_tx_interval true;
    column "rx_interval" (c_opt c_u32) bfd_rx_interval true;
    column "multiplier" (c_opt c_u32) bfd_multiplier true;
    column "multihop" c_bool bfd_multihop false;
    column "shutdown" c_bool bfd_shutdown false;
    column "local_addr" c_str bfd_local_addr false;
    column "type" (c_opt c_str) bfd_session_type true].
Definition bfd_session_of_values (now : Z) : list SerdeValue → option BfdSessionTable :=
  take (c_opt c_u32) (λ x0, take (c_opt c_u32) (λ x1, take (c_opt c_u32) (λ x2, take c_bool (λ x3,
  take c_bool (λ x4, take c_str (λ x5, take (c_opt c_str) (λ x6,
    finish (mkBfdSession x0 x1 x2 x3 x4 x5 x6)))))))).
#[export] Instance bfd_session_fields : FvCodec BfdSessionTable := row_codec bfd_session_columns bfd_session_of_values.

Definition dpu_state_columns (now : Z) : list (Column DpuState) := [
    column_default "dpu_midplane_link_state" c_pmon dpu_midplane_link_state false (Some (SVariant "unknown"));
    column_default "dpu_midplane_link_time" (c_time now) dpu_midplane_link_time false (Some (SInt (now_in_millis now)));
    column_default "dpu_control_plane_state" c_pmon dpu_control_plane_state false (Some (SVariant "unknown"));
    column_default "dpu_control_plane_time" (c_time now) dpu_control_plane_time false (Some (SInt (now_in_millis now)));
    column_default "dpu_data_plane_state" c_pmon dpu_data_plane_state false (Some (SVariant "unknown"));
    column_default "dpu_data_plane_time" (c_time now) dpu_data_plane_time false (Some (SInt (now_in_millis now)))].
Definition dpu_state_of_values (now : Z) : list SerdeValue → option DpuState :=
  take c_pmon (λ x0, take (c_time now) (λ x1, take c_pmon (λ x2, take (c_time now) (λ x3,
  take c_pmon (λ x4, take (c_time now) (λ x5,
    finish (mkDpuState x0 x1 x2 x3 x4 x5))))))).
#[export] Instance dpu_state_fields : FvCodec DpuState := row_codec dpu_state_columns dpu_state_of_values.

Definition bfd_probe_columns (now : Z) : list (Column DashBfdProbeState) := [
    column_default "v4_bfd_up_sessions" c_sep v4_bfd_up_sessions false (Some (SSeq []));
    column_default "v4_bfd_up_sessions_timestamp" (c_time now) v4_bfd_up_sessions_timestamp false (Some (SInt (now_in_millis now)));
    column_default "v6_bfd_up_sessions" c_sep v6_bfd_up_sessions false (Some (SSeq []));
    column_default "v6_bfd_up_sessions_timestamp" (c_time now) v6_bfd_up_sessions_timestamp false (Some (SInt (now_in_millis now)))].
Definition bfd_probe_of_values (now : Z) : list SerdeValue → option DashBfdProbeState :=
  take c_sep (λ x0, take (c_time now) (λ x1, take c_sep (λ x2, take (c_time now) (λ x3,
    finish (mkBfdProbe x0 x1 x2 x3))))).
#[export] Instance bfd_probe_fields : FvCodec DashBfdProbeState := row_codec bfd_probe_columns bfd_probe_of_values.

Definition ha_set_config_columns (now : Z) : list (Column DashHaSetConfigTable) := [
    column "version" c_str hsc_version false;
    column "vip_v4" c_str hsc_vip_v4 false;
    column "vip_v6" (c_opt c_str) hsc_vip_v6 true;
    column "owner" (c_opt c_str) hsc_owner true;
    column "scope" (c_opt c_str) hsc_scope true;
    column "vdpu_ids" c_sep hsc_vdpu_ids false;
    column "pinned_vdpu_bfd_probe_states" (c_opt c_str) hsc_pinned_vdpu_bfd_probe_states true;
    column_default "preferred_vdpu_ids" (c_opt c_sep) hsc_preferred_vdpu_ids true (Some SNone);
    column "preferred_standalone_vdpu_index" (c_opt c_u32) hsc_preferred_standalone_vdpu_index true].
Definition ha_set_config_of_values (now : Z) : list SerdeValue → option DashHaSetConfigTable :=
  take c_str (λ x0, take c_str (λ x1, take (c_opt c_str) (λ x2, take (c_opt c_str) (λ x3,
  take (c_opt c_str) (λ x4, take c_sep (λ x5, take (c_opt c_str) (λ x6, take (c_opt c_sep) (λ x7,
  take (c_opt c_u32) (λ x8,
    finish (mkHaSetConfig x0 x1 x2 x3 x4 x5 x6 x7 x8)))))))))).
#[export] Instance ha_set_config_fields : FvCodec DashHaSetConfigTable := row_codec ha_set_config_columns ha_set_config_of_values.

Definition ha_set_columns (now : Z) : list (Column DashHaSetTable) := [
    column "version" c_str hs_version false;
    column "vip_v4" c_str hs_vip_v4 false;
    column "vip_v6" (c_opt c_str) hs_vip_v6 true;
    column "owner" (c_opt c_str) hs_owner true;
    column "scope" (c_opt c_str) hs_scope true;
    column "local_npu_ip" c_str hs_local_npu_ip false;
    column "local_ip" c_str hs_local_ip false;
    column "peer_ip" c_str hs_peer_ip false;
    column "cp_data_channel_port" (c_opt c_u16) hs_cp_data_channel_port true;
    column "dp_channel_dst_port" (c_opt c_u16) hs_dp_channel_dst_port true;
    column "dp_channel_src_port_min" (c_opt c_u16) hs_dp_channel_src_port_min true;
    column "dp_channel_src_port_max" (c_opt c_u16) hs_dp_channel_src_port_max true;
    column "dp_channel_probe_interval_ms" (c_opt c_u32) hs_dp_channel_probe_interval_ms true;
    column "dp_channel_probe_fail_threshold" (c_opt c_u32) hs_dp_channel_probe_fail_threshold true].
Definition ha_set_of_values (now : Z) : list SerdeValue → option DashHaSetTable :=
  take c_str (λ x0, take c_str (λ x1, take (c_opt c_str) (λ x2, take (c_opt c_str) (λ x3,
  take (c_opt c_str) (λ x4, take c_str (λ x5, take c_str (λ x6, take c_str (λ x7,
  take (c_opt c_u16) (λ x8, take (c_opt c_u16) (λ x9, take (c_opt c_u16) (λ x10,
  take (c_opt c_u16) (λ x11, take (c_opt c_u32) (λ x12, take (c_opt c_u32) (λ x13,
    finish (mkHaSet x0 x1 x2 x3 x4 x5 x6 x7 x8 x9 x10 x11 x12 x13))))))))))))))).
#[export] Instance ha_set_fields : FvCodec DashHaSetTable := row_codec ha_set_columns ha_set_of_values.

Definition vnet_route_columns (now : Z) : list (Column VnetRouteTunnelTable) := [
    column "endpoint" c_sep vr_endpoint false;
    column_default "endpoint_monitor" (c_opt c_sep) vr_endpoint_monitor true (Some SNone);
    column "monitoring" (c_opt c_str) vr_monitoring true;
    column_default "primary" (c_opt c_sep) vr_primary true (Some SNone);
    column "rx_monitor_timer" (c_opt c_u32) vr_rx_monitor_timer true;
    column "tx_monitor_timer" (c_opt c_u32) vr_tx_monitor_timer true;
    column "check_directly_connected" (c_opt c_bool) vr_check_directly_connected true].
Definition vnet_route_of_values (now : Z) : list SerdeValue → option VnetRouteTunnelTable :=
  take c_sep (λ x0, take (c_opt c_sep) (λ x1, take (c_opt c_str) (λ x2, take (c_opt c_sep) (λ x3,
  take (c_opt c_u32) (λ x4, take (c_opt c_u32) (λ x5, take (c_opt c_bool) (λ x6,
    finish (mkVnetRoute x0 x1 x2 x3 x4 x5 x6)))))))).
#[export] Instance vnet_route_fields : FvCodec VnetRouteTunnelTable := row_codec vnet_route_columns vnet_route_of_values.

Definition ha_scope_config_columns (now : Z) : list (Column DashHaScopeConfigTable) := [
    column "version" c_u32 hscc_version false;
    column "disable" c_bool hscc_disable false;
    column "desired_ha_state" c_str hscc_desired_ha_state false;
    column_default "approved_pending_operation_ids" (c_opt c_sep) hscc_approved_pending_operation_ids true (Some SNone)].
Definition ha_scope_config_of_values (now : Z) : list SerdeValue → option DashHaScopeConfigTable :=
  take c_u32 (λ x0, take c_bool (λ x1, take c_str (λ x2, take (c_opt c_sep) (λ x3,
    finish (mkHaScopeConfig x0 x1 x2 x3))))).
#[export] Instance ha_scope_config_fields : FvCodec DashHaScopeConfigTable := row_codec ha_scope_config_columns ha_scope_config_of_values.

Definition ha_scope_columns (now : Z) : list (Column DashHaScopeTable) := [
    column "version" c_u32 hsc_t_version false;
    column "disable" c_bool hsc_t_disable false;
    column "ha_role" c_str hsc_t_ha_role false;
    column "flow_reconcile_requested" c_bool hsc_t_flow_reconcile_requested false;
    column "activate_role_requested" c_bool hsc_t_activate_role_requested false].
Definition ha_scope_of_values (now : Z) : list SerdeValue → option DashHaScopeTable :=
  take c_u32 (λ x0, take c_bool (λ x1, take c_str (λ x2, take c_bool (λ x3, take c_bool (λ x4,
    finish (mkHaScope x0 x1 x2 x3 x4)))))).
#[export] Instance ha_scope_fields : FvCodec DashHaScopeTable := row_codec ha_scope_columns ha_scope_of_values.

Definition dpu_scope_state_columns (now : Z) : list (Column DpuDashHaScopeState) := [
    column "last_updated_time" c_i64 dss_last_updated_time false;
    column "ha_role" c_str dss_ha_role false;
    column "ha_role_start_time" c_i64 dss_ha_role_start_time false;
    column "ha_term" c_str dss_ha_term false;
    column "activate_role_pending" c_bool dss_activate_role_pending false;
    column "flow_reconcile_pending" c_bool dss_flow_reconcile_pending false;
    column "brainsplit_recover_pending" c_bool dss_brainsplit_recover_pending false].
Definition dpu_scope_state_of_values (now : Z) : list SerdeValue → option DpuDashHaScopeState :=
  take c_i64 (λ x0, take c_str (λ x1, take c_i64 (λ x2, take c_str (λ x3, take c_bool (λ x4,
  take c_bool (λ x5, take c_bool (λ x6,
    finish (mkDpuScopeState x0 x1 x2 x3 x4 x5 x6)))))))).
#[export] Instance dpu_scope_state_fields : FvCodec DpuDashHaScopeState := row_codec dpu_scope_state_columns dpu_scope_state_of_values.

Definition npu_scope_state_columns (now : Z) : list (Column NpuDashHaScopeState) := [
    column "creation_time_in_ms" c_i64 nss_creation_time_in_ms false;
    column "last_heartbeat_time_in_ms" c_i64 nss_last_heartbeat_time_in_ms false;
    column "vip_v4" c_str nss_vip_v4 false;
    column "vip_v6" (c_opt c_str) nss_vip_v6 true;
    column "local_ip" c_str nss_local_ip false;
    column "peer_ip" c_str nss_peer_ip false;
    column "local_ha_state" (c_opt c_str) nss_local_ha_state true;
    column "local_ha_state_last_updated_time_in_ms" (c_opt c_i64) nss_local_ha_state_last_updated_time_in_ms true;
    column "local_ha_state_last_updated_reason" (c_opt c_str) nss_local_ha_state_last_updated_reason true;
    column "local_target_asic_ha_state" (c_opt c_str) nss_local_target_asic_ha_state true;
    column "local_acked_asic_ha_state" (c_opt c_str) nss_local_acked_asic_ha_state true;
    column "local_target_term" (c_opt c_str) nss_local_target_term true;
    column "local_acked_term" (c_opt c_str) nss_local_acked_term true;
    column "peer_ha_state" (c_opt c_str) nss_peer_ha_state true;
    column "peer_term" (c_opt c_str) nss_peer_term true;
    column "local_vdpu_midplane_state" c_pmon nss_midplane_state false;
    column "local_vdpu_midplane_state_last_updated_time_in_ms" c_i64 nss_midplane_time false;
    column "local_vdpu_control_plane_state" c_pmon nss_control_plane_state false;
    column "local_vdpu_control_plane_state_last_updated_time_in_ms" c_i64 nss_control_plane_time false;
    column "local_vdpu_data_plane_state" c_pmon nss_data_plane_state false;
    column "local_vdpu_data_plane_state_last_updated_time_in_ms" c_i64 nss_data_plane_time false;
    column "local_vdpu_up_bfd_sessions_v4" c_sep nss_up_bfd_sessions_v4 false;
    column "local_vdpu_up_bfd_sessions_v4_update_time_in_ms" c_i64 nss_up_bfd_sessions_v4_update_time false;
    column "local_vdpu_up_bfd_sessions_v6" c_sep nss_up_bfd_sessions_v6 false;
    column "local_vdpu_up_bfd_sessions_v6_update_time_in_ms" c_i64 nss_up_bfd_sessions_v6_update_time false;
    column_default "pending_operation_ids" (c_opt c_sep) nss_pending_operation_ids true (Some SNone);
    column_default "pending_operation_types" (c_opt c_sep) nss_pending_operation_types true (Some SNone);
    column "pending_operation_list_last_updated_time_in_ms" (c_opt c_i64) nss_pending_operation_list_last_updated_time_in_ms true;
    column "switchover_id" (c_opt c_str) nss_switchover_id true;
    column "switchover_state" (c_opt c_str) nss_switchover_state true;
    column "switchover_start_time_in_ms" (c_opt c_i64) nss_switchover_start_time_in_ms true;
    column "switchover_end_time_in_ms" (c_opt c_i64) nss_switchover_end_time_in_ms true;
    column "switchover_approved_time_in_ms" (c_opt c_i64) nss_switchover_approved_time_in_ms true;
    column "flow_sync_session_id" (c_opt c_str) nss_flow_sync_session_id true;
    column "flow_sync_session_state" (c_opt c_str) nss_flow_sync_session_state true;
    column "flow_sync_session_start_time_in_ms" (c_opt c_i64) nss_flow_sync_session_start_time_in_ms true;
    column "flow_sync_session_target_server" (c_opt c_str) nss_flow_sync_session_target_server true].
Definition npu_scope_state_of_values (now : Z) : list SerdeValue → option NpuDashHaScopeState :=
  take c_i64 (λ x0, take c_i64 (λ x1, take c_str (λ x2, take (c_opt c_str) (λ x3, take c_str (λ x4,
  take c_str (λ x5, take (c_opt c_str) (λ x6, take (c_opt c_i64) (λ x7, take (c_opt c_str) (λ x8,
  take (c_opt c_str) (λ x9, take (c_opt c_str) (λ x10, take (c_opt c_str) (λ x11,
  take (c_opt c_str) (λ x12, take (c_opt c_str) (λ x13, take (c_opt c_str) (λ x14,
  take c_pmon (λ x15, take c_i64 (λ x16, take c_pmon (λ x17, take c_i64 (λ x18, take c_pmon (λ x19,
  take c_i64 (λ x20, take c_sep (λ x21, take c_i64 (λ x22, take c_sep (λ x23, take c_i64 (λ x24,
  take (c_opt c_sep) (λ x25, take (c_opt c_sep) (λ x26, take (c_opt c_i64) (λ x27,
  take (c_opt c_str) (λ x28, take (c_opt c_str) (λ x29, take (c_opt c_i64) (λ x30,
  take (c_opt c_i64) (λ x31, take (c_opt c_i64) (λ x32, take (c_opt c_str) (λ x33,
  take (c_opt c_str) (λ x34, take (c_opt c_i64) (λ x35, take (c_opt c_str) (λ x36,
    finish (mkNpuScopeState x0 x1 x2 x3 x4 x5 x6 x7 x8 x9 x10 x11 x12 x13 x14 x15 x16 x17 x18 x19 x20
    x21 x22 x23 x24 x25 x26 x27 x28 x29 x30 x31 x32 x33 x34 x35
    x36)))))))))))))))))))))))))))))))))))))).
#[export] Instance npu_scope_state_fields : FvCodec NpuDashHaScopeState := row_codec npu_scope_state_columns npu_scope_state_of_values.

(** The encodings hamgrd's actors use. *)
#[export] Instance swss_codecs : HaFvCodec.
Proof. split; typeclasses eauto. Defined.

End Rows.
