(* ===== verification/HaRowsTheory.v ===== *)
(** Which rows of hamgrd's tables can always be written: every column type but the
    timestamps has a total encoding, and a row of such columns has one. *)
From S2P Require Import Prelude RustStr SwssSerde Actor Bridge HaTypes HaRows.

Open Scope stdpp_scope.

(** Every value of the type is written. *)
Class ColumnTotal {X} (c : ColumnType X) : Prop :=
  column_total (x : X) : ∃ w s, ct_encode c (ct_to c x) = Ok w ∧ serialize_field_value w = Ok s.
(** Every row of the type is written. *)
Class FvTotal (T : Type) `{!FvCodec T} : Prop := fv_total (x : T) : ∃ f, to_field_values x = Ok f.

#[export] Instance bool_total : ColumnTotal c_bool.
Proof. intros b. by eexists _, _. Qed.
#[export] Instance int_total lo hi : ColumnTotal (c_int lo hi).
Proof. intros z. by eexists _, _. Qed.
#[export] Instance u16_total : ColumnTotal c_u16 := int_total _ _.
#[export] Instance u32_total : ColumnTotal c_u32 := int_total _ _.
#[export] Instance i64_total : ColumnTotal c_i64 := int_total _ _.
#[export] Instance str_total : ColumnTotal c_str.
Proof. intros s. by eexists _, _. Qed.
#[export] Instance pmon_total : ColumnTotal c_pmon.
Proof. intros p. by eexists _, _. Qed.
Lemma strings_of_map l : strings_of (SStr <$> l) = Some l.
Proof. induction l as [|s l IH]; [done|]. cbn. by rewrite IH. Qed.
#[export] Instance sep_total : ColumnTotal c_sep.
Proof. intros l. cbn. rewrite strings_of_map. by eexists _, _. Qed.
#[export] Instance opt_total {X} (c : ColumnType X) : ColumnTotal c → ColumnTotal (c_opt c).
Proof.
  intros Hc [x|]; [|by eexists _, _]. destruct (Hc x) as (w & s & Hw & Hs). cbn. rewrite Hw. by exists (SSome w), s.
Qed.

#[local] Arguments col_field {T}.
#[local] Arguments col_get {T}.

Section Total.
Context {T : Type}.

Definition writes (col : Column T) : Prop := ∀ r, ∃ s, encode_field (col_field col) (col_get col r) = Ok s.

Lemma column_writes {X} name (c : ColumnType X) (get : T → X) skip : ColumnTotal c → writes (column name c get skip).
Proof. intros Hc r. destruct (Hc (get r)) as (w & s & Hw & Hs). exists s. unfold encode_field. cbn. by rewrite Hw. Qed.
Lemma column_default_writes {X} name (c : ColumnType X) (get : T → X) skip d :
  ColumnTotal c → writes (column_default name c get skip d).
Proof. intros Hc r. destruct (Hc (get r)) as (w & s & Hw & Hs). exists s. unfold encode_field. cbn. by rewrite Hw. Qed.

Lemma row_total (cols : list (Column T)) r fvs :
  Forall writes cols → ∃ f, serialize_struct (col_field <$> cols) ((λ c, col_get c r) <$> cols) fvs = Ok f.
Proof.
  intros Hc. revert fvs. induction Hc as [|c cols Hw _ IH]; intros fvs; [by eexists|]. cbn.
  destruct (f_skip_none (col_field c) && is_none (col_get c r)); [apply IH|].
  destruct (Hw r) as [s ->]. apply IH.
Qed.
End Total.

(** The rows of a struct are written if its columns are. *)
Ltac total_row :=
  intros r; apply row_total;
  repeat (apply Forall_cons_2; [first [apply column_writes; apply _|apply column_default_writes; apply _]|]); apply Forall_nil_2.

Section Rows.
Context `{!Chrono}.

#[export] Instance ha_scope_row_total : FvTotal DashHaScopeTable.
Proof. total_row. Qed.
#[export] Instance npu_scope_state_row_total : FvTotal NpuDashHaScopeState.
Proof. total_row. Qed.
End Rows.
