(* ===== verification/HaJson.v ===== *)
(** What the JSON of a DPU's state keeps: the messages between hamgrd's actors
    carry times as text with whole seconds and lists of sessions as text with
    commas (the [serialize_with], [deserialize_with] and [serde_as] attributes of
    crates/hamgrd/src/db_structs.rs). serde_json and chrono are parameters; their
    laws are stated with the conversions of HaRows.v. *)
From S2P Require Import Prelude RustStr SwssSerde Path Proto Actor Bridge HaTypes HaRows.

Open Scope stdpp_scope.

(** A type whose JSON encoding is total and reads back: no times, no lists. *)
Class Faithful (V T : Type) `{!Codec V T} : Prop := to_from_value (x : T) : ∃ v : V, to_value x = Ok v ∧ from_value v = Ok x.

(** * Whole seconds *)

(** The times chrono prints with four digits of a year, from 1970 to 9999, in
    milliseconds. *)
Definition in_era (t : Z) : Prop := (0 ≤ t < 253402300800000)%Z.
Definition whole_seconds (t : Z) : Z := (t / 1000 * 1000)%Z.

Lemma whole_seconds_era t : in_era t → in_era (whole_seconds t).
Proof. unfold in_era, whole_seconds. pose proof (Z.div_mod t 1000). pose proof (Z.mod_pos_bound t 1000). lia. Qed.
Lemma whole_seconds_twice t : whole_seconds (whole_seconds t) = whole_seconds t.
Proof. unfold whole_seconds. by rewrite Z.div_mul. Qed.

(** chrono, for [TIMESTAMP_FORMAT]: a time is printed to the second and parsed back. *)
Class ChronoLaws `{!Chrono} : Prop :=
  chrono_seconds t : in_era t → ∃ s, format_timestamp t = Some s ∧ parse_timestamp s = Ok (whole_seconds t).

(** * Through JSON *)

Section Through.
Context `{!Chrono}.

(** What a field becomes that is encoded with its attribute and decoded again; none
    if one of the two fails. *)
Definition json_time (t : Z) : option Z :=
  match timestamp_serialize (SInt t) with
  | Ok w => match timestamp_deserialize 0 (SSome w) with Ok (SInt t') => Some t' | _ => None end
  | Err _ => None
  end.
Definition json_sessions (l : list string) : option (list string) :=
  match join_commas (SSeq (SStr <$> l)) with
  | Ok w => match split_commas w with Ok (SSeq l') => strings_of l' | _ => None end
  | Err _ => None
  end.

Definition json_pmon (p : DpuState) : option DpuState :=
  t1 ← json_time (dpu_midplane_link_time p); t2 ← json_time (dpu_control_plane_time p); t3 ← json_time (dpu_data_plane_time p);
  Some (mkDpuState (dpu_midplane_link_state p) t1 (dpu_control_plane_state p) t2 (dpu_data_plane_state p) t3).
Definition json_bfd (b : DashBfdProbeState) : option DashBfdProbeState :=
  l4 ← json_sessions (v4_bfd_up_sessions b); t4 ← json_time (v4_bfd_up_sessions_timestamp b);
  l6 ← json_sessions (v6_bfd_up_sessions b); t6 ← json_time (v6_bfd_up_sessions_timestamp b);
  Some (mkBfdProbe l4 t4 l6 t6).
Definition json_opt {T} (f : T → option T) (o : option T) : option (option T) :=
  match o with Some x => Some <$> f x | None => Some None end.

Definition with_rows (p : option DpuState) (b : option DashBfdProbeState) (x : DpuActorState) : DpuActorState :=
  mkDpuActorState (das_remote_dpu x) (das_is_managed x) (das_dpu_name x) (das_up x) (das_state x) (das_npu_ipv4 x) (das_npu_ipv6 x)
    (das_vip_ipv4 x) (das_vip_ipv6 x) (das_pa_ipv4 x) (das_pa_ipv6 x) (das_dpu_id x) (das_vdpu_id x) (das_orchagent_zmq_port x)
    (das_swbus_port x) (das_midplane_ipv4 x) p b.
Definition json_dpu (x : DpuActorState) : option DpuActorState :=
  p ← json_opt json_pmon (das_dpu_pmon_state x); b ← json_opt json_bfd (das_dpu_bfd_state x); Some (with_rows p b x).

(** serde_json: a state is written if its rows can be, and reads back as what its
    fields become; all others are written as they are. *)
Class StateJson (V : Type) `{!HaCodec V} : Prop := {
  dpu_json x y : json_dpu x = Some y → ∃ v : V, to_value x = Ok v ∧ from_value v = Ok y;
  vdpu_json b x y : json_dpu x = Some y → ∃ v : V, to_value (mkVDpuActorState b x) = Ok v ∧ from_value v = Ok (mkVDpuActorState b y);
}.

(** * States that can be written *)

(** Sessions that their text with commas tells apart. *)
Definition plain_sessions (l : list string) : Prop := Forall (λ s, has_char ","%char s = false) l ∧ l ≠ [""].
Definition pmon_timely (p : DpuState) : Prop :=
  in_era (dpu_midplane_link_time p) ∧ in_era (dpu_control_plane_time p) ∧ in_era (dpu_data_plane_time p).
Definition bfd_timely (b : DashBfdProbeState) : Prop :=
  in_era (v4_bfd_up_sessions_timestamp b) ∧ in_era (v6_bfd_up_sessions_timestamp b) ∧
  plain_sessions (v4_bfd_up_sessions b) ∧ plain_sessions (v6_bfd_up_sessions b).
Definition timely (x : DpuActorState) : Prop :=
  (∀ p, das_dpu_pmon_state x = Some p → pmon_timely p) ∧ (∀ b, das_dpu_bfd_state x = Some b → bfd_timely b).

(** The rows with their times in whole seconds. *)
Definition pmon_seconds (p : DpuState) : DpuState :=
  mkDpuState (dpu_midplane_link_state p) (whole_seconds (dpu_midplane_link_time p)) (dpu_control_plane_state p)
    (whole_seconds (dpu_control_plane_time p)) (dpu_data_plane_state p) (whole_seconds (dpu_data_plane_time p)).
Definition bfd_seconds (b : DashBfdProbeState) : DashBfdProbeState :=
  mkBfdProbe (v4_bfd_up_sessions b) (whole_seconds (v4_bfd_up_sessions_timestamp b))
    (v6_bfd_up_sessions b) (whole_seconds (v6_bfd_up_sessions_timestamp b)).
Definition in_seconds (x : DpuActorState) : DpuActorState :=
  with_rows (pmon_seconds <$> das_dpu_pmon_state x) (bfd_seconds <$> das_dpu_bfd_state x) x.

Lemma in_seconds_timely x : timely x → timely (in_seconds x).
Proof.
  intros [Hp Hb]. split; cbn.
  - intros p (p0 & (? & ? & ?)%Hp & ->)%fmap_Some. split_and!; by apply whole_seconds_era.
  - intros b (b0 & (? & ? & ? & ?)%Hb & ->)%fmap_Some. split_and!; try done; by apply whole_seconds_era.
Qed.
Lemma in_seconds_twice x : in_seconds (in_seconds x) = in_seconds x.
Proof.
  unfold in_seconds, pmon_seconds, bfd_seconds. cbn.
  destruct (das_dpu_pmon_state x), (das_dpu_bfd_state x); cbn; by rewrite ?whole_seconds_twice.
Qed.

Lemma strings_of_strs l : strings_of (SStr <$> l) = Some l.
Proof. induction l as [|s l IH]; [done|]. cbn. by rewrite IH. Qed.
Lemma json_sessions_plain l : plain_sessions l → json_sessions l = Some l.
Proof.
  intros [Hc Hne]. unfold json_sessions. cbn. rewrite strings_of_strs. cbn.
  destruct (decide (l = [])) as [->|Hnil]; [done|].
  destruct (is_empty (join_str "," l)) eqn:He; [|by rewrite split_join, strings_of_strs].
  destruct l as [|s [|s' l]]; [done| |by destruct s]. cbn in He. by destruct s.
Qed.

Context `{!ChronoLaws}.

Lemma json_time_seconds t : in_era t → json_time t = Some (whole_seconds t).
Proof. intros Ht. destruct (chrono_seconds t Ht) as (s & Hs & Hp). unfold json_time. cbn. rewrite Hs. cbn. by rewrite Hp. Qed.
Lemma json_dpu_timely x : timely x → json_dpu x = Some (in_seconds x).
Proof.
  intros [Hp Hb]. unfold json_dpu, in_seconds.
  assert (json_opt json_pmon (das_dpu_pmon_state x) = Some (pmon_seconds <$> das_dpu_pmon_state x)) as ->.
  { destruct (das_dpu_pmon_state x) as [p|]; [|done]. destruct (Hp p eq_refl) as (? & ? & ?). cbn. unfold json_pmon.
    by rewrite !json_time_seconds. }
  assert (json_opt json_bfd (das_dpu_bfd_state x) = Some (bfd_seconds <$> das_dpu_bfd_state x)) as ->; [|done].
  destruct (das_dpu_bfd_state x) as [b|]; [|done]. destruct (Hb b eq_refl) as (? & ? & ? & ?). cbn. unfold json_bfd.
  rewrite !json_sessions_plain by done. cbn. by rewrite !json_time_seconds.
Qed.
End Through.
