(* ===== verification/Derive.v ===== *)
(** The derive macro [SonicDb] of crates/sonicdb-derive/src/lib.rs, run on the
    attributes syn parses: what it derives and when, and that on the attributes
    written over the structs of crates/hamgrd/src/db_structs.rs it derives the
    [SonicDbTable] instances of HaTypes.v. *)
From S2P Require Import Prelude RustStr HaTypes.

Open Scope stdpp_scope.

(** * The attributes, as syn parses them *)

(** What follows the [=] of a nested meta. *)
Inductive Literal : Set :=
| LitStr (s : string)
| LitOther.

(** [path = value], or a bare path. *)
Record NestedMeta : Set := mkMeta { meta_path : string; meta_value : option Literal }.

(** [#[path(metas)]], or an attribute without a list. *)
Record Attribute : Set := mkAttr { attr_path : string; attr_metas : option (list NestedMeta) }.

(** * The macro *)

(** The four variables it fills in. *)
Record DeriveSt : Set := mkDerive {
  v_table_name : string;
  v_key_separator : string;
  v_db_name : string;
  v_is_dpu : bool;
}.
Definition derive_init : DeriveSt := mkDerive "" "a" "" false.

(** [meta.value()?] and [value.parse::<LitStr>()?] *)
Definition meta_str {S} (m : NestedMeta) : M S string string :=
  match meta_value m with
  | Some (LitStr s) => ret s
  | Some LitOther => throw "expected string literal"
  | None => throw "expected `=`"
  end.

(** The closure given to [parse_nested_meta]. *)
Definition process_meta (m : NestedMeta) : M DeriveSt string unit :=
  if decide (meta_path m = "table_name") then
    let* s := meta_str m in
    modify (λ v, mkDerive s (v_key_separator v) (v_db_name v) (v_is_dpu v))
  else if decide (meta_path m = "key_separator") then
    let* value_str := meta_str m in
    match chars value_str with
    | [c] => modify (λ v, mkDerive (v_table_name v) c (v_db_name v) (v_is_dpu v))
    | _ => throw "key_separator must be a single character"
    end
  else if decide (meta_path m = "db_name") then
    let* s := meta_str m in
    modify (λ v, mkDerive (v_table_name v) (v_key_separator v) s (v_is_dpu v))
  else if decide (meta_path m = "is_dpu") then
    let* value_str := meta_str m in
    let* b := (if decide (value_str ∈ ["true"; "True"; "1"]) then ret true
               else if decide (value_str ∈ ["false"; "False"; "0"]) then ret false
               else throw "is_dpu must be a boolean (true/false)") in
    modify (λ v, mkDerive (v_table_name v) (v_key_separator v) (v_db_name v) b)
  else throw "unknown attribute".

(** [attr.parse_nested_meta(..)]: the metas in order, up to the first error. *)
Definition parse_nested_meta (a : Attribute) : M DeriveSt string unit :=
  match attr_metas a with
  | Some metas => for_each process_meta metas
  | None => throw "expected attribute arguments in parentheses"
  end.

(** The body of the loop over the attributes of the struct. *)
Definition process_attr (a : Attribute) : M DeriveSt string unit :=
  when (bool_decide (attr_path a = "sonicdb")) (unwrap_result "called unwrap on an Err value" (parse_nested_meta a)).

(** The implementation generated for the struct [T]; a panic fails the build. *)
Definition serde_sonicdb_derive (T : Type) (attrs : list Attribute) : outcome (SonicDbTable T) :=
  match for_each process_attr attrs derive_init with
  | Done (Ok _, v) =>
      if is_empty (v_table_name v) then Panicked "Missing table_name attribute"
      else if is_empty (v_db_name v) then Panicked "Missing db_name attribute"
      else if decide (v_key_separator v = "a") then Panicked "Missing key_separator attribute"
      else Done {| table_name := v_table_name v; key_separator := v_key_separator v;
                   db_name := v_db_name v; is_dpu := v_is_dpu v |}
  | Done (Err e, _) => Panicked e
  | Panicked w => Panicked w
  | OutOfFuel => OutOfFuel
  end.

(** * The attributes of the tables of hamgrd *)

Definition str_meta (name value : string) : NestedMeta := mkMeta name (Some (LitStr value)).

Definition dash_ha_global_config_attrs : list Attribute := [mkAttr "sonicdb" (Some
  [str_meta "table_name" "DASH_HA_GLOBAL_CONFIG"; str_meta "key_separator" "|"; str_meta "db_name" "CONFIG_DB"])].
Definition dpu_attrs : list Attribute := [mkAttr "sonicdb" (Some
  [str_meta "table_name" "DPU"; str_meta "key_separator" "|"; str_meta "db_name" "CONFIG_DB"])].
Definition remote_dpu_attrs : list Attribute := [mkAttr "sonicdb" (Some
  [str_meta "table_name" "REMOTE_DPU"; str_meta "key_separator" "|"; str_meta "db_name" "CONFIG_DB"])].
Definition vdpu_attrs : list Attribute := [mkAttr "sonicdb" (Some
  [str_meta "table_name" "VDPU"; str_meta "key_separator" "|"; str_meta "db_name" "CONFIG_DB"])].
Definition bfd_session_table_attrs : list Attribute := [mkAttr "sonicdb" (Some
  [str_meta "table_name" "BFD_SESSION_TABLE"; str_meta "key_separator" ":"; str_meta "db_name" "DPU_APPL_DB";
   str_meta "is_dpu" "true"])].
Definition dpu_state_attrs : list Attribute := [mkAttr "sonicdb" (Some
  [str_meta "table_name" "DPU_STATE"; str_meta "key_separator" "|"; str_meta "db_name" "CHASSIS_STATE_DB"])].
Definition dash_bfd_probe_state_attrs : list Attribute := [mkAttr "sonicdb" (Some
  [str_meta "table_name" "DASH_BFD_PROBE_STATE"; str_meta "key_separator" "|"; str_meta "db_name" "DPU_STATE_DB";
   str_meta "is_dpu" "true"])].
Definition dash_ha_set_config_table_attrs : list Attribute := [mkAttr "sonicdb" (Some
  [str_meta "table_name" "DASH_HA_SET_CONFIG_TABLE"; str_meta "key_separator" ":"; str_meta "db_name" "APPL_DB"])].
Definition dash_ha_set_table_attrs : list Attribute := [mkAttr "sonicdb" (Some
  [str_meta "table_name" "DASH_HA_SET_TABLE"; str_meta "key_separator" ":"; str_meta "db_name" "DPU_APPL_DB";
   str_meta "is_dpu" "true"])].
Definition vnet_route_tunnel_table_attrs : list Attribute := [mkAttr "sonicdb" (Some
  [str_meta "table_name" "VNET_ROUTE_TUNNEL_TABLE"; str_meta "key_separator" ":"; str_meta "db_name" "APPL_DB"])].
Definition dash_ha_scope_config_table_attrs : list Attribute := [mkAttr "sonicdb" (Some
  [str_meta "table_name" "DASH_HA_SCOPE_CONFIG_TABLE"; str_meta "key_separator" ":"; str_meta "db_name" "APPL_DB"])].
Definition dash_ha_scope_table_attrs : list Attribute := [mkAttr "sonicdb" (Some
  [str_meta "table_name" "DASH_HA_SCOPE_TABLE"; str_meta "key_separator" ":"; str_meta "db_name" "DPU_APPL_DB";
   str_meta "is_dpu" "true"])].
Definition dpu_dash_ha_scope_state_attrs : list Attribute := [mkAttr "sonicdb" (Some
  [str_meta "table_name" "DASH_HA_SCOPE_STATE"; str_meta "key_separator" "|"; str_meta "db_name" "DPU_STATE_DB";
   str_meta "is_dpu" "true"])].
Definition npu_dash_ha_scope_state_attrs : list Attribute := [mkAttr "sonicdb" (Some
  [str_meta "table_name" "DASH_HA_SCOPE_STATE"; str_meta "key_separator" "|"; str_meta "db_name" "STATE_DB"])].

(** * What it means for a struct to be annotated *)

(** The metas of all [sonicdb] attributes, if each of them has a list. *)
Fixpoint sonicdb_metas (attrs : list Attribute) : option (list NestedMeta) :=
  match attrs with
  | [] => Some []
  | a :: attrs' =>
      if decide (attr_path a = "sonicdb") then
        metas ← attr_metas a; rest ← sonicdb_metas attrs'; Some (metas ++ rest)
      else sonicdb_metas attrs'
  end.

Definition bool_of (s : string) : option bool :=
  if decide (s ∈ ["true"; "True"; "1"]) then Some true
  else if decide (s ∈ ["false"; "False"; "0"]) then Some false
  else None.

(** A known name with a string it accepts. *)
Definition good_meta (m : NestedMeta) : Prop :=
  ∃ s, meta_value m = Some (LitStr s) ∧
    (meta_path m = "table_name" ∨ meta_path m = "db_name" ∨
     (meta_path m = "key_separator" ∧ length (chars s) = 1) ∨
     (meta_path m = "is_dpu" ∧ is_Some (bool_of s))).

(** The string given last to [name]. *)
Definition given_to (name : string) (m : NestedMeta) : option string :=
  if decide (meta_path m = name) then match meta_value m with Some (LitStr s) => Some s | _ => None end else None.
Definition last_given (name : string) (metas : list NestedMeta) : option string := last (omap (given_to name) metas).

(** The instance that a list of metas stands for. *)
Definition stands_for {T} (metas : list NestedMeta) (d : SonicDbTable T) : Prop :=
  last_given "table_name" metas = Some (table_name T) ∧ table_name T ≠ "" ∧
  last_given "db_name" metas = Some (db_name T) ∧ db_name T ≠ "" ∧
  last_given "key_separator" metas = Some (key_separator T) ∧ key_separator T ≠ "a" ∧
  default false (last_given "is_dpu" metas ≫= bool_of) = is_dpu T.

(** * Lemmas *)

(** The variables that a list of metas leaves, from [v]. *)
Definition vars_of (v : DeriveSt) (metas : list NestedMeta) : DeriveSt :=
  mkDerive (default (v_table_name v) (last_given "table_name" metas))
           (default (v_key_separator v) (last_given "key_separator" metas))
           (default (v_db_name v) (last_given "db_name" metas))
           (default (v_is_dpu v) (last_given "is_dpu" metas ≫= bool_of)).

Lemma chars_single s c : chars s = [c] → s = c.
Proof. intros Hc. rewrite <- (chars_concat s), Hc. done. Qed.

Lemma process_meta_good m v : good_meta m → process_meta m v = Done (Ok tt, vars_of v [m]).
Proof.
  unfold process_meta, meta_str, vars_of, last_given. cbn [omap list_omap]. unfold given_to.
  intros (s & -> & [Hp|[Hp|[[Hp Hl]|[Hp [b Hb]]]]]); rewrite Hp; repeat (case_decide; try congruence);
    rewrite bind_ret; cbn [last default mbind option_bind].
  - by destruct v.
  - by destruct v.
  - destruct (chars s) as [|c [|? ?]] eqn:Hc; [done| |done]. apply chars_single in Hc as ->. by destruct v.
  - unfold bool_of in *. repeat case_decide; simplify_eq; reflexivity.
Qed.

Lemma process_meta_ok m v v' : process_meta m v = Done (Ok tt, v') → good_meta m.
Proof.
  unfold process_meta, meta_str. intros Hm. repeat case_decide; [..|done];
    (destruct (meta_value m) as [[s|]|] eqn:Hs; [|done..]); exists s; (split; [done|]); rewrite bind_ret in Hm; eauto 6.
  - right; right; left. split; [done|]. by destruct (chars s) as [|? [|? ?]].
  - do 3 right. split; [done|]. unfold bool_of. repeat case_decide; [by eexists..|done].
Qed.
Lemma process_meta_returns m v : ∃ r v', process_meta m v = Done (r, v').
Proof.
  unfold process_meta, meta_str.
  repeat case_decide; [..|by eexists _, _]; (destruct (meta_value m) as [[s|]|]; [|by eexists _, _..]); rewrite bind_ret;
    repeat case_decide; try by eexists _, _.
  destruct (chars s) as [|? [|? ?]]; by eexists _, _.
Qed.

Lemma last_given_cons name m ms : last_given name (m :: ms) = union (last_given name ms) (last_given name [m]).
Proof.
  unfold last_given. generalize (given_to name). intros g. simpl. change (@list_omap) with (@omap list _). destruct (g m) as [s|].
  - rewrite last_cons. by destruct (last (omap g ms)).
  - by destruct (last (omap g ms)) as [x|].
Qed.
Lemma default_union {A} (d : A) (x y : option A) : default (default d y) x = default d (x ∪ y).
Proof. by destruct x, y. Qed.
Lemma last_given_good metas s : Forall good_meta metas → last_given "is_dpu" metas = Some s → is_Some (bool_of s).
Proof.
  intros Hg Hl. apply last_Some_elem_of, list_elem_of_omap in Hl as (m & Hm & Hgt).
  pose proof (proj1 (Forall_forall _ _) Hg _ Hm) as (s' & Hs & Hcase).
  unfold given_to in Hgt. case_decide as Hp; [|done]. rewrite Hs in Hgt. simplify_eq. rewrite Hp in Hcase. naive_solver.
Qed.
Lemma vars_of_cons v m ms : Forall good_meta ms → vars_of (vars_of v [m]) ms = vars_of v (m :: ms).
Proof.
  intros Hg. unfold vars_of. rewrite !(last_given_cons _ m ms). cbn [v_table_name v_key_separator v_db_name v_is_dpu].
  rewrite !default_union. f_equal. destruct (last_given "is_dpu" ms) as [s|] eqn:Hl.
  - destruct (last_given_good _ _ Hg Hl) as [b Hb]. destruct (last_given "is_dpu" [m]) as [s0|]; cbn; rewrite Hb; [by destruct (bool_of s0)|done].
  - destruct (last_given "is_dpu" [m]) as [s0|]; [|done]. cbn. by destruct (bool_of s0).
Qed.

Lemma metas_run metas v :
  (Forall good_meta metas ∧ for_each process_meta metas v = Done (Ok tt, vars_of v metas)) ∨
  (¬ Forall good_meta metas ∧ ∃ e v', for_each process_meta metas v = Done (Err e, v')).
Proof.
  revert v. induction metas as [|m metas IH]; intros v; [left; by destruct v|]. cbn [for_each].
  destruct (process_meta_returns m v) as ([[]|e] & v' & Hm).
  - pose proof (process_meta_ok _ _ _ Hm) as Hg. pose proof (process_meta_good _ v Hg) as Hm'.
    rewrite (bind_done _ _ _ _ _ Hm'). destruct (IH (vars_of v [m])) as [[Hgs ->]|[Hbad Herr]].
    + left. split; [by constructor|]. by rewrite vars_of_cons.
    + right. split; [by intros [_ ?]%Forall_cons|done].
  - right. rewrite (bind_err _ _ _ _ _ Hm). split; [|by eexists _, _].
    intros [Hg _]%Forall_cons. by rewrite (process_meta_good _ v Hg) in Hm.
Qed.
Lemma vars_of_app v metas rest :
  Forall good_meta (metas ++ rest) → vars_of (vars_of v metas) rest = vars_of v (metas ++ rest).
Proof.
  revert v. induction metas as [|m metas IH]; intros v Hg; [by destruct v|].
  cbn [app] in *. apply Forall_cons in Hg as [_ Hg]. pose proof (proj1 (proj1 (Forall_app _ _ _) Hg)) as Hm.
  rewrite <- (vars_of_cons v m metas Hm), <- (vars_of_cons v m (metas ++ rest) Hg). by apply IH.
Qed.

Lemma process_attr_run a v :
  process_attr a v = if decide (attr_path a = "sonicdb")
    then unwrap_result "called unwrap on an Err value" (parse_nested_meta a) v else Done (Ok tt, v).
Proof. unfold process_attr. case_decide; [rewrite bool_decide_true|rewrite bool_decide_false]; done. Qed.

Lemma attrs_run attrs v :
  (∃ metas, sonicdb_metas attrs = Some metas ∧ Forall good_meta metas ∧
    for_each process_attr attrs v = Done (Ok tt, vars_of v metas)) ∨
  ((∀ metas, sonicdb_metas attrs = Some metas → ¬ Forall good_meta metas) ∧ ∃ w, for_each process_attr attrs v = Panicked w).
Proof.
  revert v. induction attrs as [|a attrs IH]; intros v; [left; exists []; split; [done|]; split; [constructor|by destruct v]|].
  cbn [for_each sonicdb_metas]. pose proof (process_attr_run a v) as Ha.
  destruct (decide (attr_path a = "sonicdb")); [|by rewrite (bind_done _ _ _ _ _ Ha)].
  unfold parse_nested_meta in Ha.
  destruct (attr_metas a) as [metas|]; cbn [mbind option_bind]; [|right; split; [done|]; rewrite (bind_panicked _ _ _ _ Ha); by eexists].
  destruct (metas_run metas v) as [[Hg Hrun]|[Hbad (e' & v' & Hrun)]].
  - rewrite (unwrap_result_ok _ _ _ _ _ Hrun) in Ha. rewrite (bind_done _ _ _ _ _ Ha).
    destruct (IH (vars_of v metas)) as [(rest & -> & Hg' & ->)|[Hbad Hw]].
    + left. exists (metas ++ rest). assert (Forall good_meta (metas ++ rest)) by (by apply Forall_app).
      by rewrite vars_of_app.
    + right. split; [|done]. destruct (sonicdb_metas attrs) as [rest|]; [|done]. cbn. intros ? [= <-] [_ Hr]%Forall_app. by eapply Hbad.
  - right. rewrite (unwrap_result_err _ _ _ _ _ Hrun) in Ha. rewrite (bind_panicked _ _ _ _ Ha). split; [|by eexists].
    destruct (sonicdb_metas attrs) as [rest|]; [|done]. cbn. intros ? [= <-] [? _]%Forall_app. by apply Hbad.
Qed.

(** * Theorems *)

(** C30: What the macro derives. It succeeds exactly on attributes whose nested
    metas are all known names with strings they accept and that give a table
    name, a database name and a one-character separator (other than ['a']); each
    function of the derived implementation returns what was given last, and
    [is_dpu] false when it was not given. In every other case it panics, which
    fails the build. *)
Theorem derive_spec T attrs :
  (∀ d : SonicDbTable T, serde_sonicdb_derive T attrs = Done d ↔
    ∃ metas, sonicdb_metas attrs = Some metas ∧ Forall good_meta metas ∧ stands_for metas d) ∧
  ((∃ d, serde_sonicdb_derive T attrs = Done d) ∨ ∃ w, serde_sonicdb_derive T attrs = Panicked w).
Proof.
  unfold serde_sonicdb_derive. destruct (attrs_run attrs derive_init) as [(metas & Hms & Hg & ->)|[Hbad [w ->]]].
  2:{ split; [|right; by eexists]. intros d. split; [done|]. intros (metas & Hm & Hgm & _). by destruct (Hbad _ Hm). }
  unfold vars_of. cbn [v_table_name v_key_separator v_db_name v_is_dpu derive_init]. split.
  - intros d. split.
    + destruct (last_given "table_name" metas) as [[|ta tn]|] eqn:Ht; [done| |done].
      destruct (last_given "db_name" metas) as [[|da dn]|] eqn:Hd; [done| |done].
      destruct (last_given "key_separator" metas) as [k|] eqn:Hk; [|done].
      cbn [default is_empty]. case_decide; [done|]. intros [= <-]. exists metas. by repeat split.
    + intros (metas' & Hms' & _ & Ht & Htn & Hd & Hdn & Hk & Hkn & Hi). simplify_eq.
      rewrite Ht, Hd, Hk, Hi. simpl. apply is_empty_false in Htn, Hdn. rewrite Htn, Hdn, decide_False by done. by destruct d.
  - repeat (case_match; [right; by eexists|]). left. by eexists.
Qed.

(** On the attributes written over the tables of hamgrd the macro derives the
    implementations that the rest of the development uses. *)
Theorem derived_tables :
  serde_sonicdb_derive DashHaGlobalConfig dash_ha_global_config_attrs = Done global_config_table ∧
  serde_sonicdb_derive Dpu dpu_attrs = Done dpu_table ∧
  serde_sonicdb_derive RemoteDpu remote_dpu_attrs = Done remote_dpu_table ∧
  serde_sonicdb_derive VDpu vdpu_attrs = Done vdpu_table ∧
  serde_sonicdb_derive BfdSessionTable bfd_session_table_attrs = Done bfd_session_table ∧
  serde_sonicdb_derive DpuState dpu_state_attrs = Done dpu_state_table ∧
  serde_sonicdb_derive DashBfdProbeState dash_bfd_probe_state_attrs = Done bfd_probe_table ∧
  serde_sonicdb_derive DashHaSetConfigTable dash_ha_set_config_table_attrs = Done ha_set_config_table ∧
  serde_sonicdb_derive DashHaSetTable dash_ha_set_table_attrs = Done ha_set_table ∧
  serde_sonicdb_derive VnetRouteTunnelTable vnet_route_tunnel_table_attrs = Done vnet_route_table ∧
  serde_sonicdb_derive DashHaScopeConfigTable dash_ha_scope_config_table_attrs = Done ha_scope_config_table ∧
  serde_sonicdb_derive DashHaScopeTable dash_ha_scope_table_attrs = Done ha_scope_table ∧
  serde_sonicdb_derive DpuDashHaScopeState dpu_dash_ha_scope_state_attrs = Done dpu_scope_state_table ∧
  serde_sonicdb_derive NpuDashHaScopeState npu_dash_ha_scope_state_attrs = Done npu_scope_state_table.
Proof. by repeat split. Qed.
