(* ===== verification/Log.v ===== *)
(** Logging and the panic hook of crates/sonic-common/src (log.rs, panic.rs): how
    [init] chooses what is logged, what a change of the SONiC log level does, the
    logger of tests, and what a panic does once the hook is installed. *)
From S2P Require Import Prelude RustStr SwssSerde.

Open Scope stdpp_scope.

(** * Levels *)

(** [tracing::Level] and [filter::LevelFilter], without the ones the code never
    names. *)
Inductive Level : Set := LevelError | LevelWarn | LevelInfo | LevelDebug.
Definition level_rank (l : Level) : nat :=
  match l with LevelError => 1 | LevelWarn => 2 | LevelInfo => 3 | LevelDebug => 4 end.

(** [filter::LevelFilter] lets an event of level [e] pass. *)
Definition passes (filter e : Level) : bool := level_rank e <=? level_rank filter.

(** The level of tracing for a level of the SONiC logger. *)
Definition level_of_sonic (level : string) : Level :=
  if decide (level = "ALERT") then LevelWarn
  else if decide (level = "NOTICE") then LevelInfo
  else if decide (level = "INFO") then LevelInfo
  else if decide (level = "DEBUG") then LevelDebug
  else LevelError.

(** [reload::Layer] and its handle: a level that can be replaced while in use. *)
Class Reload (H : Type) := {
  reload_new : Level → H;
  reload_modify : (Level → Level) → H → result H string;
  reload_current : H → option Level;
}.
Class ReloadLaws (H : Type) `{!Reload H} := {
  reload_current_new l : reload_current (reload_new l) = Some l;
  reload_modify_live f h l : reload_current h = Some l → ∃ h', reload_modify f h = Ok h' ∧ reload_current h' = Some (f l);
}.

(** * The handler of the SONiC logger *)

Section Handler.
Context {H : Type} `{!Reload H}.

Definition on_log_level_change (level : string) : M H string unit :=
  let new := level_of_sonic level in
  let* h := get_state in
  let* h' := unwrap_result "called unwrap on an Err value" (of_result (reload_modify (λ _, new) h)) in
  put_state h'.

(** The message logged, if any. *)
Definition on_log_output_change (output : string) : list (Level * string) :=
  if decide (output ≠ "SYSLOG")
  then [(LevelInfo, "Log output change to unsupported destination " +:+ output +:+ ". Setting ignored")]
  else [].
End Handler.

(** * Initialization *)

(** [to_uppercase] of an ASCII name. *)
Definition upper (a : ascii) : ascii :=
  let n := nat_of_ascii a in if (97 <=? n) && (n <=? 122) then ascii_of_nat (n - 32) else a.
Fixpoint to_uppercase (s : string) : string :=
  match s with "" => "" | String a s' => String (upper a) (to_uppercase s') end.

Inductive Writer : Set := WriteSyslog (identity : string) | WriteStdout | WriteStderr.
Inductive FmtSpan : Set := SpanNew | SpanClose.
Inductive FmtOption : Set :=
| WithLineNumber (b : bool) | WithTarget (b : bool) | WithAnsi (b : bool) | WithSpanEvents (l : list FmtSpan)
| WithoutTime | WithLevel (b : bool).

(** What a layer lets pass: a level that can be replaced, a fixed one, or the
    directives of [RUST_LOG]. *)
Inductive Filter (H : Type) : Type :=
| ReloadFilter (h : H)
| FixedFilter (l : Level)
| EnvFilter (directives : string).
Arguments ReloadFilter {H} h. Arguments FixedFilter {H} l. Arguments EnvFilter {H} directives.

(** [fmt::layer()] with the options set on it, in order. *)
Record FmtLayer : Set := mkFmtLayer { layer_writer : Writer; layer_options : list FmtOption }.
Definition with_option (o : FmtOption) (l : FmtLayer) : FmtLayer := mkFmtLayer (layer_writer l) (layer_options l ++ [o]).

(** The registry with its layers, and whether [ErrorLayer] is one of them. *)
Record Subscriber (H : Type) : Type := mkSubscriber { sub_layers : list (Filter H * FmtLayer); sub_errors : bool }.
Arguments mkSubscriber {H}. Arguments sub_layers {H}. Arguments sub_errors {H}.

(** The process the code runs in: syslog, the logger of swss-common, to which it
    gives a program name and the handle of the level, and the global subscriber. *)
Class LogHost (H Sw G : Type) := {
  syslog_new : string → result unit string;
  link_to_swsscommon_logger : string → H → Sw → result unit string * Sw;
  try_init : Subscriber H → G → result G string;
}.

Section Init.
Context {H Sw G : Type} `{!Reload H} `{!LogHost H Sw G}.

Record LogSt : Type := mkLogSt {
  log_env : gmap string string;
  log_linked : Sw;
  log_global : G;
  log_printed : list string;
}.
Definition set_var (k v : string) (s : LogSt) : LogSt :=
  mkLogSt (<[k := v]> (log_env s)) (log_linked s) (log_global s) (log_printed s).
Definition print_line (line : string) (s : LogSt) : LogSt :=
  mkLogSt (log_env s) (log_linked s) (log_global s) (log_printed s ++ [line]).

(** [DEFAULT_LOG_LEVEL] *)
Definition default_log_level (debug_assertions : bool) : string := if debug_assertions then "debug" else "info".

(** [new_file_subscriber], except on Windows; [CString::new] refuses a nul byte. *)
Definition new_file_subscriber (program_name : string) : result FmtLayer string :=
  if has_char "000" program_name then Err ("Unable to create syslog identity: " +:+ program_name)
  else match syslog_new (H:=H) (Sw:=Sw) (G:=G) program_name with
       | Ok _ => Ok (mkFmtLayer (WriteSyslog program_name) [])
       | Err _ => Err "Unable to create syslog writer."
       end.

(** The options that both ways of [init] set. *)
Definition with_file_options (l : FmtLayer) : FmtLayer :=
  with_option (WithSpanEvents [SpanNew; SpanClose]) (with_option (WithAnsi false)
    (with_option (WithTarget false) (with_option (WithLineNumber true) l))).

(** [registry().with(filter.and_then(layer)).with(ErrorLayer::default()).init()] *)
Definition init_registry (f : Filter H) (l : FmtLayer) : M LogSt string unit :=
  let* s := get_state in
  let* g := unwrap_result "failed to set global default subscriber" (of_result (try_init (mkSubscriber [(f, l)] true) (log_global s))) in
  put_state (mkLogSt (log_env s) (log_linked s) g (log_printed s)).

(** The value for [RUST_LOG], and whether the environment gave it. *)
Definition log_setting (debug_assertions : bool) (program_name : string) (env : gmap string string) : string * bool :=
  match env !! "RUST_LOG" with
  | Some v => (v, true)
  | None =>
      match env !! (to_uppercase program_name +:+ "_LOG_LEVEL") with
      | Some v => (v, true)
      | None => (default_log_level debug_assertions, false)
      end
  end.

(** The attempt to connect to the logger of swss-common: the handle if it succeeds. *)
Definition link_logger (program_name : string) : M LogSt string (option H) :=
  let level_reload_handle := reload_new LevelInfo in
  let* s := get_state in
  let '(result, sw) := link_to_swsscommon_logger program_name level_reload_handle (log_linked s) in
  put_state (mkLogSt (log_env s) sw (log_global s) (log_printed s));;;
  match result with
  | Ok _ => modify (print_line "Link to swsscommon logger successfully.");;; ret (Some level_reload_handle)
  | Err e => modify (print_line ("Unable to link to swsscommon logger: " +:+ e));;; ret None
  end.

(** What is installed: the reloadable level, or the filter of [RUST_LOG]. *)
Definition log_setup (linked : option H) (file_subscriber : FmtLayer) : M LogSt string unit :=
  match linked with
  | Some level_layer => init_registry (ReloadFilter level_layer) (with_file_options file_subscriber)
  | None =>
      let* s := get_state in
      init_registry (EnvFilter (default "" (log_env s !! "RUST_LOG"))) (with_file_options file_subscriber)
  end.

Definition log_init (debug_assertions : bool) (program_name : string) (link_swsscommon_logger : bool) : M LogSt string unit :=
  let* s := get_state in
  let '(rust_log, log_env_set) := log_setting debug_assertions program_name (log_env s) in
  modify (set_var "RUST_LOG" rust_log);;;
  let* file_subscriber := (match new_file_subscriber program_name with
                           | Ok l => ret l
                           | Err _ => throw "Unable to create file subscriber."
                           end) in
  let* linked := (if link_swsscommon_logger && negb log_env_set then link_logger program_name else ret None) in
  log_setup linked file_subscriber.

(** * The logger of tests *)

(** [LOG_FOR_TEST_INIT]: whether the logger was initialized, and whether a panic
    while it was locked has poisoned it. *)
Record TestLog : Set := mkTestLog { log_init_done : bool; log_poisoned : bool }.

Definition trace_enabled (env : gmap string string) : bool :=
  match env !! "ENABLE_TRACE" with
  | Some val => bool_decide (val = "1") || bool_decide (to_lowercase val = "true")
  | None => false
  end.

Definition test_subscriber : Subscriber H :=
  mkSubscriber
    [(FixedFilter LevelDebug, mkFmtLayer WriteStdout [WithoutTime; WithTarget false; WithLevel false]);
     (FixedFilter LevelError, mkFmtLayer WriteStderr [WithoutTime; WithTarget false; WithLevel false])] false.

(** The lock and the global subscriber are kept when it panics. *)
Definition init_logger_for_test (env : gmap string string) (t : TestLog) (g : G) : outcome unit * TestLog * G :=
  if negb (trace_enabled env) then (Done tt, t, g)
  else if log_poisoned t then (Panicked "Failed to lock", t, g)
  else if log_init_done t then (Done tt, t, g)
  else match try_init test_subscriber g with
       | Ok g' => (Done tt, mkTestLog true false, g')
       | Err _ => (Panicked "failed to set global default subscriber", mkTestLog true true, g)
       end.
End Init.
Arguments LogSt Sw G : clear implicits.

(** * The panic hook *)

(** color_eyre and human_panic. *)
Class PanicHost (Info E : Type) := {
  eyre_install : E → result E string;
  panic_report : string → Info → string;
  handle_dump : string → Info → option string;
  print_msg : option string → string → result unit string;
}.

(** What the hook does before the process ends. *)
Inductive PanicEffect : Set :=
| PanicLogged (msg : string)
| PanicPrinted (msg : string)
| PanicDumped (file_path : option string).
Inductive PanicEnd : Set := ExitCode (code : Z) | AbortedInHook.

Section Panic.
Context {Info E : Type} `{!PanicHost Info E}.

Record PanicSt : Type := mkPanicSt {
  panic_env : gmap string string;
  panic_eyre : E;
  panic_hook : option (Info → list PanicEffect * PanicEnd);
}.

(** [report_panic_as_dump]; a panic in the hook aborts the process. *)
Definition report_panic_as_dump (program_name : string) (info : Info) : list PanicEffect * bool :=
  let file_path := handle_dump program_name info in
  match print_msg (E:=E) (Info:=Info) file_path program_name with
  | Ok _ => ([PanicDumped file_path], true)
  | Err _ => ([PanicDumped file_path], false)
  end.

Definition run_panic_hook (debug_assertions : bool) (program_name section : string) (info : Info) : list PanicEffect * PanicEnd :=
  let msg := panic_report section info in
  let logged := [PanicLogged ("Error: " +:+ msg)] in
  if debug_assertions then (logged, ExitCode 1)
  else
    let '(dumped, ok) := report_panic_as_dump program_name info in
    (logged ++ PanicPrinted msg :: dumped, if ok then ExitCode 1 else AbortedInHook).

Definition panic_init (debug_assertions : bool) (repository program_name : string) : M PanicSt string unit :=
  modify (λ s, mkPanicSt (<["RUST_BACKTRACE" := "full"]> (panic_env s)) (panic_eyre s) (panic_hook s));;;
  let section := program_name +:+ " crashed. Consider reporting it at " +:+ repository in
  let* s := get_state in
  let* e := (match eyre_install (panic_eyre s) with
             | Ok e => ret e
             | Err _ => throw "Unable to install color-eyre panic hook"
             end) in
  put_state (mkPanicSt (panic_env s) e (Some (run_panic_hook debug_assertions program_name section))).
End Panic.

(** * Theorems *)

Section Levels.
Context {H : Type} `{!Reload H} `{!ReloadLaws H}.

Lemma level_change_run level (h : H) l :
  reload_current h = Some l →
  ∃ h', on_log_level_change level h = Done (Ok tt, h') ∧ reload_current h' = Some (level_of_sonic level).
Proof.
  intros Hl. destruct (reload_modify_live (λ _, level_of_sonic level) h l Hl) as (h' & Hm & Hc). exists h'.
  split; [|done]. unfold on_log_level_change. rewrite bind_get.
  rewrite (bind_done _ _ _ h' h); [done|]. apply unwrap_result_ok. by rewrite Hm.
Qed.

(** What a level of the SONiC logger lets pass: [ALERT], the second most severe,
    lets warnings pass and [WARN] does not, nor do [EMERG], [CRIT] and [ERROR]. *)
Theorem log_level_change_passes level (h : H) l :
  reload_current h = Some l →
  ∃ h' new, on_log_level_change level h = Done (Ok tt, h') ∧ reload_current h' = Some new ∧
    passes new LevelError = true ∧
    (passes new LevelWarn = true ↔ level ∈ ["ALERT"; "NOTICE"; "INFO"; "DEBUG"]) ∧
    (passes new LevelInfo = true ↔ level ∈ ["NOTICE"; "INFO"; "DEBUG"]) ∧
    (passes new LevelDebug = true ↔ level = "DEBUG").
Proof.
  intros Hl. destruct (level_change_run level h l Hl) as (h' & Hrun & Hc). exists h', (level_of_sonic level).
  split; [done|]. split; [done|]. rewrite !elem_of_cons, !elem_of_nil. unfold level_of_sonic. repeat case_decide; subst; cbn; repeat split; auto; intuition congruence.
Qed.
End Levels.

Section Configuration.
Context {H Sw G : Type} `{!Reload H} `{!ReloadLaws H} `{!LogHost H Sw G}.
Implicit Types s : LogSt Sw G.

Lemma init_registry_run f l s s' r :
  init_registry (H:=H) f l s = Done (r, s') →
  r = Ok tt ∧ log_env s' = log_env s ∧ log_linked s' = log_linked s ∧ log_printed s' = log_printed s ∧
  try_init (mkSubscriber [(f, l)] true) (log_global s) = Ok (log_global s').
Proof.
  unfold init_registry. rewrite bind_get. unfold unwrap_result, bind, attempt, of_result.
  destruct (try_init _ _) as [g|e] eqn:Hi; [|done]. by intros [= <- <-].
Qed.

Lemma env_filter_run v l s s' :
  log_env s !! "RUST_LOG" = Some v → log_setup None l s = Done (Ok tt, s') →
  log_env s' = log_env s ∧ log_linked s' = log_linked s ∧
  try_init (mkSubscriber [(EnvFilter (H:=H) v, with_file_options l)] true) (log_global s) = Ok (log_global s').
Proof. intros Hv. unfold log_setup. rewrite bind_get, Hv. by intros (_ & ? & ? & _ & ?)%init_registry_run. Qed.

(** How logging is configured. When [log_init] returns without an error, what it
    installs writes to syslog under the name of the program, and lets pass: what
    [RUST_LOG] says, if it is set; otherwise what [{PROGRAM}_LOG_LEVEL] says, if
    that is set; otherwise, when asked to link to the logger of swss-common and if
    that succeeds, a level that starts at INFO and follows the one of the SONiC
    configuration from then on; otherwise the default. Swss-common is only asked
    when neither variable is set, and [RUST_LOG] holds the choice afterwards. *)
Theorem log_configuration debug program link s s' :
  log_init (H:=H) debug program link s = Done (Ok tt, s') →
  ∃ f layer, layer_writer layer = WriteSyslog program ∧
    try_init (mkSubscriber [(f, layer)] true) (log_global s) = Ok (log_global s') ∧
    let env := log_env s in
    let linking := link_to_swsscommon_logger program (reload_new (H:=H) LevelInfo) (log_linked s) in
    match env !! "RUST_LOG", env !! (to_uppercase program +:+ "_LOG_LEVEL"), link with
    | Some v, _, _ | None, Some v, _ =>
        f = EnvFilter v ∧ log_linked s' = log_linked s ∧ log_env s' = <["RUST_LOG" := v]> env
    | None, None, false =>
        f = EnvFilter (default_log_level debug) ∧ log_linked s' = log_linked s ∧
        log_env s' = <["RUST_LOG" := default_log_level debug]> env
    | None, None, true =>
        log_linked s' = linking.2 ∧ log_env s' = <["RUST_LOG" := default_log_level debug]> env ∧
        match linking.1 with
        | Ok _ => ∃ h, f = ReloadFilter h ∧ reload_current h = Some LevelInfo ∧
            ∀ level, ∃ h', on_log_level_change level h = Done (Ok tt, h') ∧ reload_current h' = Some (level_of_sonic level)
        | Err _ => f = EnvFilter (default_log_level debug)
        end
    end.
Proof.
  unfold log_init. rewrite bind_get. destruct (log_setting debug program (log_env s)) as [v set] eqn:Hset.
  rewrite bind_modify. unfold new_file_subscriber. destruct (has_char _ _); [done|].
  destruct (syslog_new _) as [[]|e]; [|done]. rewrite bind_ret.
  assert (log_env (set_var "RUST_LOG" v s) !! "RUST_LOG" = Some v) as Hv by apply lookup_insert_eq.
  destruct (link && negb set) eqn:Hlink; [|rewrite bind_ret].
  2:{ intros (He & Hk & Hi)%(env_filter_run _ _ _ _ Hv). eexists (EnvFilter v), _.
      split; [|split; [exact Hi|]]; [done|]. cbn zeta. rewrite Hk, He. unfold log_setting in Hset.
      repeat case_match; simplify_eq; done. }
  unfold link_logger. rewrite bind_bind, bind_get. cbn [log_linked set_var].
  assert (log_env s !! "RUST_LOG" = None ∧ log_env s !! (to_uppercase program +:+ "_LOG_LEVEL") = None ∧ v = default_log_level debug ∧ link = true) as (-> & -> & -> & ->).
  { unfold log_setting in Hset. apply andb_prop in Hlink as [-> Hn]. repeat case_match; simplify_eq; done. }
  destruct (link_to_swsscommon_logger _ _ _) as [[[]|e] sw]; rewrite !bind_bind; cbn [bind put_state]; rewrite bind_bind, bind_modify, bind_ret.
  - intros (_ & He & Hk & _ & Hi)%init_registry_run. eexists (ReloadFilter _), _. split; [|split; [exact Hi|]]; [done|].
    rewrite Hk, He. split; [done|]. split; [done|]. eexists. split; [done|]. split; [apply reload_current_new|].
    intros level. apply (level_change_run _ _ LevelInfo), reload_current_new.
  - intros (He & Hk & Hi)%(env_filter_run (default_log_level debug)); [|exact Hv]. eexists (EnvFilter _), _.
    split; [|split; [exact Hi|]]; [done|]. by rewrite Hk, He.
Qed.
End Configuration.

Section Others.
Context {H Sw G : Type} `{!LogHost H Sw G}.

(** The logger of tests is installed at most once: a second call changes nothing,
    and it panics when the first one did. *)
Lemma test_logger_once env t (g : G) o t' g' :
  init_logger_for_test (H:=H) (Sw:=Sw) env t g = (o, t', g') →
  init_logger_for_test (H:=H) (Sw:=Sw) env t' g' =
    (match o with Done _ => Done tt | _ => Panicked "Failed to lock" end, t', g').
Proof.
  unfold init_logger_for_test. destruct t as [done poisoned].
  destruct (trace_enabled env), poisoned, done; cbn; try (by intros [= <- <- <-]).
  destruct (try_init _ g); intros [= <- <- <-]; reflexivity.
Qed.

Context {Info E : Type} `{!PanicHost Info E}.

(** Once the hook is installed, a panic of any task is logged and ends the process
    with status 1, unless the message of the dump cannot be printed. *)
Lemma panic_exits debug repository program s s' (info : Info) :
  panic_init (E:=E) debug repository program s = Done (Ok tt, s') →
  ∃ hook msg rest, panic_hook s' = Some hook ∧ (hook info).1 = PanicLogged ("Error: " +:+ msg) :: rest ∧
    ((hook info).2 = ExitCode 1 ∨
     debug = false ∧ ∃ path e, print_msg (E:=E) (Info:=Info) path program = Err e).
Proof.
  unfold panic_init. rewrite bind_modify, bind_get. destruct (eyre_install _) as [e|]; [|done]. rewrite bind_ret. intros [= <-].
  cbn [panic_hook]. unfold run_panic_hook, report_panic_as_dump. destruct debug.
  - eexists _, _, _. split; [done|]. split; [done|by left].
  - eexists _, _, _. split; [done|]. cbn beta zeta. destruct (print_msg _ _) as [|e'] eqn:Hp; (split; [done|]); [by left|]. right. eauto.
Qed.
End Others.

(** * A concrete process *)

#[export] Instance demo_reload : Reload Level := {
  reload_new l := l; reload_modify f h := Ok (f h); reload_current h := Some h;
}.
#[export] Instance demo_reload_laws : ReloadLaws Level.
Proof. split; [done|]. intros f h l [= <-]. by exists (f h). Defined.
#[export] Instance demo_log_host : LogHost Level (list string) (option (Subscriber Level)) := {
  syslog_new _ := Ok tt;
  link_to_swsscommon_logger program _ linked := (Ok tt, linked ++ [program]);
  try_init sub g := match g with None => Ok (Some sub) | Some _ => Err "already set" end;
}.

Lemma log_configuration_witness :
  ∃ s' : LogSt (list string) (option (Subscriber Level)),
    log_linked s' = ["hamgrd"] ∧
    ∃ h' : Level, on_log_level_change "NOTICE" h' = Done (Ok tt, LevelInfo) ∧ log_global s' ≠ None.
Proof.
  assert (∃ s', log_init (H:=Level) (Sw:=list string) (G:=option (Subscriber Level)) true "hamgrd" true (mkLogSt ∅ [] None []) = Done (Ok tt, s'))
    as [s' Hs'].
  { unfold log_init, log_setting. rewrite bind_get. cbn [log_env]. rewrite !lookup_empty, bind_modify. eexists. reflexivity. }
  destruct (log_configuration true "hamgrd" true _ s' Hs') as (f & layer & _ & Hi & Hk & _ & h & _ & _ & _).
  exists s'. split; [exact Hk|]. exists h. split; [reflexivity|]. intros Hn. rewrite Hn in Hi. discriminate Hi.
Defined.
