(* ===== verification/Config.v ===== *)
(** The configuration of swbusd, and of hamgrd, from CONFIG_DB or a YAML file.
    Models crates/swbus-config/src/lib.rs, get_dpu_config_from_db of
    crates/hamgrd/src/db_structs.rs and crates/swbusd/src/main.rs. The database
    (connections, tables and their keys) and serde_yaml are parameters. *)
From S2P Require Import Prelude RustStr NetAddr SwssSerde Path Proto Mux Conn Bridge HaTypes HaRows.

Open Scope stdpp_scope.

(** [s.replace(pat, with)] for a non-empty [pat]: [skip] characters of a match
    are still to be dropped. *)
Fixpoint replace_from (skip : nat) (pat with_ s : string) : string :=
  match s with
  | "" => ""
  | String a s' =>
      match skip with
      | S skip' => replace_from skip' pat with_ s'
      | O => if starts_with s pat then with_ +:+ replace_from (String.length pat - 1) pat with_ s'
             else String a (replace_from 0 pat with_ s')
      end
  end.
Definition str_replace (pat with_ s : string) : string := replace_from 0 pat with_ s.

(** * The configuration *)

Record SwbusConfig : Type := mkSwbusConfig {
  cfg_endpoint : IpAddr * Z;
  cfg_routes : list RouteConfig;
  cfg_peers : list PeerConfig;
  cfg_npu_ipv4 : option Ipv4Addr;
  cfg_npu_ipv6 : option Ipv6Addr;
}.

Fixpoint cluster_route (l : list RouteConfig) : option ServicePath :=
  match l with
  | [] => None
  | r :: l' => if decide (scope r = ScopeCluster) then Some (route_key_path r) else cluster_route l'
  end.
Definition get_swbusd_service_path (c : SwbusConfig) : option ServicePath := cluster_route (cfg_routes c).

Inductive SwbusConfigError : Type :=
| InvalidConfig (what : string)
| IOError (what : string)
| SWSSError (action original : string)
| SWSSSerdeError (action original : string).

(** * Rows of CONFIG_DB *)

Record ConfigDBDPUEntry : Type := mkDPUEntry {
  de_state : option string;
  de_swbus_port : option Z;
  de_dpu_id : Z;
  de_npu_ipv4 : option Ipv4Addr;
  de_npu_ipv6 : option Ipv6Addr;
}.
Record ConfigDBRemoteDPUEntry : Type := mkRemoteEntry {
  re_dpu_type : option string;
  re_swbus_port : option Z;
  re_dpu_id : Z;
  re_npu_ipv4 : option string;
  re_npu_ipv6 : option string;
}.
Record ConfigDBDeviceMetadataEntry : Type := mkMetadata {
  md_region : option string;
  md_cluster : option string;
  md_device_type : option string;
  md_sub_type : option string;
}.

(** The columns; the addresses of a DPU entry are [serde(skip)]. *)
Definition dpu_entry_columns : list (Column ConfigDBDPUEntry) := [
    column "state" (c_opt c_str) de_state false;
    column "swbus_port" (c_opt c_u16) de_swbus_port false;
    column "dpu_id" c_u32 de_dpu_id false].
Definition dpu_entry_of_values : list SerdeValue → option ConfigDBDPUEntry :=
  take (c_opt c_str) (λ x0, take (c_opt c_u16) (λ x1, take c_u32 (λ x2, finish (mkDPUEntry x0 x1 x2 None None)))).
Definition remote_entry_columns : list (Column ConfigDBRemoteDPUEntry) := [
    column "type" (c_opt c_str) re_dpu_type false;
    column "swbus_port" (c_opt c_u16) re_swbus_port false;
    column "dpu_id" c_u32 re_dpu_id false;
    column "npu_ipv4" (c_opt c_str) re_npu_ipv4 false;
    column "npu_ipv6" (c_opt c_str) re_npu_ipv6 false].
Definition remote_entry_of_values : list SerdeValue → option ConfigDBRemoteDPUEntry :=
  take (c_opt c_str) (λ x0, take (c_opt c_u16) (λ x1, take c_u32 (λ x2, take (c_opt c_str) (λ x3, take (c_opt c_str) (λ x4,
    finish (mkRemoteEntry x0 x1 x2 x3 x4)))))).
Definition metadata_columns : list (Column ConfigDBDeviceMetadataEntry) := [
    column "region" (c_opt c_str) md_region false;
    column "cluster" (c_opt c_str) md_cluster false;
    column "type" (c_opt c_str) md_device_type false;
    column "sub_type" (c_opt c_str) md_sub_type false].
Definition metadata_of_values : list SerdeValue → option ConfigDBDeviceMetadataEntry :=
  take (c_opt c_str) (λ x0, take (c_opt c_str) (λ x1, take (c_opt c_str) (λ x2, take (c_opt c_str) (λ x3,
    finish (mkMetadata x0 x1 x2 x3))))).

(** DPU entries in other slots are considered remote. *)
Definition to_remote_dpu (e : ConfigDBDPUEntry) : ConfigDBRemoteDPUEntry :=
  mkRemoteEntry (Some "cluster") (de_swbus_port e) (de_dpu_id e)
    (ipv4_to_string <$> de_npu_ipv4 e) (ipv6_to_string <$> de_npu_ipv6 e).

(** * Routes and peers of a row *)

Definition node_path (region cluster ip : string) (dpu_id : Z) : ServicePath :=
  with_node region cluster (ip +:+ "-dpu" +:+ int_to_string dpu_id) "" "" "" "".

(** [route_config_from_dpu_entry]: the error of an empty list is built and
    dropped, so the result is always [Ok]. *)
Definition route_config_from_dpu_entry {S} (e : ConfigDBDPUEntry) (region cluster : string)
    : M S SwbusConfigError (list RouteConfig) :=
  let route ip := mkRouteConfig (node_path region cluster ip (de_dpu_id e)) ScopeCluster in
  let routes := match de_npu_ipv4 e with Some ip => [route (ipv4_to_string ip)] | None => [] end in
  let routes := routes ++ match de_npu_ipv6 e with Some ip => [route (ipv6_to_string ip)] | None => [] end in
  ret routes.

Definition peer_of (region cluster ip : string) (dpu_id port : Z) : PeerConfig :=
  mkPeer (node_path region cluster ip dpu_id) (mkAddr ip port) ConnCluster.

Definition peer_config_from_dpu_entry {S} (key : string) (e : ConfigDBRemoteDPUEntry) (region cluster : string)
    : M S SwbusConfigError (list PeerConfig) :=
  match re_dpu_type e with
  | None => throw (InvalidConfig "DPU type not found")
  | Some dpu_type =>
      if negb (bool_decide (dpu_type = "cluster")) then throw (InvalidConfig ("Unsupported DPU type: " +:+ dpu_type))
      else
        match re_swbus_port e with
        | None => throw (InvalidConfig ("swbusd_port is not found in dpu " +:+ key +:+ " is not found"))
        | Some swbusd_port =>
            let* peers4 := match re_npu_ipv4 e with
              | Some text => match ipv4_of_string text with
                             | Some ip => ret [peer_of region cluster (ipv4_to_string ip) (re_dpu_id e) swbusd_port]
                             | None => throw (InvalidConfig ("Invalid IPv4 address: " +:+ text))
                             end
              | None => ret []
              end in
            let* peers6 := match re_npu_ipv6 e with
              | Some text => match ipv6_of_string text with
                             | Some ip => ret [peer_of region cluster (ipv6_to_string ip) (re_dpu_id e) swbusd_port]
                             | None => throw (InvalidConfig ("Invalid IPv6 address: " +:+ text))
                             end
              | None => ret []
              end in
            ret (peers4 ++ peers6)
        end
  end.

(** * Reading the database *)

(** CONFIG_DB: whether the n-th connection succeeds, its tables and their keys. *)
Record ConfigDb (Tab : Type) : Type := mkConfigDb {
  connect_config_db : nat → result unit string;
  open_config_table : string → result Tab string;
  config_keys : Tab → result (list string) string;
}.
Arguments mkConfigDb {Tab}. Arguments connect_config_db {Tab}. Arguments open_config_table {Tab}. Arguments config_keys {Tab}.

Section Read.
Context {Tab : Type} `{!HashTable Tab} (db : ConfigDb Tab).

(** [swss_serde::from_table] *)
Definition from_table {T} (cols : list (Column T)) (of_values : list SerdeValue → option T) (tab : Tab) (key : string) : result T string :=
  match deserialize_from_table (@col_field T <$> cols) key tab with
  | Ok vs => match of_values vs with Some r => Ok r | None => Err "invalid type" end
  | Err e => Err e
  end.

(** [r.map_err(|e| (action, e))?] *)
Definition swss_action {S A} (action : string) (r : result A string) : M S SwbusConfigError A :=
  match r with Ok a => ret a | Err e => throw (SWSSError action e) end.
Definition serde_action {S A} (action : string) (r : result A string) : M S SwbusConfigError A :=
  match r with Ok a => ret a | Err e => throw (SWSSSerdeError action e) end.

Definition get_device_info {S} : M S SwbusConfigError (string * string) :=
  swss_action "connecting to config_db" (connect_config_db db 0);;;
  let* table := swss_action "opening DEVICE_METADATA table" (open_config_table db "DEVICE_METADATA") in
  let* metadata := serde_action "reading DEVICE_METADATA:localhost entry"
                     (from_table metadata_columns metadata_of_values table "localhost") in
  let* region := match md_region metadata with
                 | Some r => ret r
                 | None => throw (InvalidConfig "region not found in DEVICE_METADATA table")
                 end in
  let* cluster := match md_cluster metadata with
                  | Some c => ret c
                  | None => throw (InvalidConfig "cluster not found in DEVICE_METADATA table")
                  end in
  ret (region, cluster).

(** The loop of [get_loopback_address]: the last address of each family. *)
Fixpoint scan_loopback (lb_prefix : string) (keys : list string) (v4 : option Ipv4Addr) (v6 : option Ipv6Addr)
    : option Ipv4Addr * option Ipv6Addr :=
  match keys with
  | [] => (v4, v6)
  | key :: keys' =>
      if negb (starts_with key lb_prefix) then scan_loopback lb_prefix keys' v4 v6
      else
        let addr := hd "" (split "/"%char (str_replace lb_prefix "" key)) in
        match ip_of_string addr with
        | Some (V4 a) => scan_loopback lb_prefix keys' (Some a) v6
        | Some (V6 a) => scan_loopback lb_prefix keys' v4 (Some a)
        | None => scan_loopback lb_prefix keys' v4 v6
        end
  end.
Definition get_loopback_address {S} (lb_index : Z) : M S SwbusConfigError (option Ipv4Addr * option Ipv6Addr) :=
  swss_action "connecting to config_db" (connect_config_db db 1);;;
  let* table := swss_action "opening LOOPBACK_INTERFACE table" (open_config_table db "LOOPBACK_INTERFACE") in
  let* keys := swss_action "Failed to get keys from LOOPBACK_INTERFACE table" (config_keys db table) in
  match scan_loopback ("Loopback" +:+ int_to_string lb_index +:+ "|") keys None None with
  | (None, None) => throw (InvalidConfig "No valid loopback address found")
  | found => ret found
  end.

(** The local variables of [swbus_config_from_db] its loops update. *)
Record ConfigAcc : Type := mkAcc { peers : list PeerConfig; myroutes : option (list RouteConfig); myendpoint : option (IpAddr * Z) }.
Definition push_peers (ps : list PeerConfig) (a : ConfigAcc) : ConfigAcc := mkAcc (peers a ++ ps) (myroutes a) (myendpoint a).

(** The body of the loop over the DPU table. *)
Definition dpu_row (dpu_id : Z) (region cluster : string) (v4 : option Ipv4Addr) (v6 : option Ipv6Addr) (table : Tab) (key : string)
    : M ConfigAcc SwbusConfigError unit :=
  let* dpu := serde_action ("reading DPU entry " +:+ key) (from_table dpu_entry_columns dpu_entry_of_values table key) in
  let dpu := mkDPUEntry (de_state dpu) (de_swbus_port dpu) (de_dpu_id dpu) v4 v6 in
  if (de_dpu_id dpu =? dpu_id)%Z then
    match de_swbus_port dpu with
    | None => throw (InvalidConfig ("swbusd_port is not found in dpu" +:+ int_to_string dpu_id +:+ " is not found"))
    | Some swbusd_port =>
        let* routes := route_config_from_dpu_entry dpu region cluster in
        modify (λ a, mkAcc (peers a) (Some routes) (myendpoint a));;;
        match v4, v6 with
        | Some ip, _ => modify (λ a, mkAcc (peers a) (myroutes a) (Some (V4 ip, swbusd_port)))
        | None, Some ip => modify (λ a, mkAcc (peers a) (myroutes a) (Some (V6 ip, swbusd_port)))
        | None, None => ret tt
        end
    end
  else
    let* peer := peer_config_from_dpu_entry key (to_remote_dpu dpu) region cluster in
    modify (push_peers peer).

(** The body of the loop over the REMOTE_DPU table. *)
Definition remote_row (region cluster : string) (table : Tab) (key : string) : M ConfigAcc SwbusConfigError unit :=
  let* remote_dpu := serde_action ("reading REMOTE_DPU entry " +:+ key)
                       (from_table remote_entry_columns remote_entry_of_values table key) in
  let* peer := peer_config_from_dpu_entry key remote_dpu region cluster in
  modify (push_peers peer).

Definition swbus_config_from_db (dpu_id : Z) : M ConfigAcc SwbusConfigError SwbusConfig :=
  let* info := get_device_info in
  let '(region, cluster) := info in
  let* addrs := get_loopback_address 0 in
  let '(my_ipv4, my_ipv6) := addrs in
  swss_action "connecting config_db" (connect_config_db db 2);;;
  let* table := swss_action "opening DPU table" (open_config_table db "DPU") in
  let* keys := swss_action "Failed to get keys from DPU table" (config_keys db table) in
  for_each (dpu_row dpu_id region cluster my_ipv4 my_ipv6 table) keys;;;
  let* a := get_state in
  match myroutes a with
  | None => throw (InvalidConfig ("DPU at slot " +:+ int_to_string dpu_id +:+ " is not found"))
  | Some _ =>
      unwrap_result "connecting config_db" (of_result (connect_config_db db 3));;;
      let* table := swss_action "opening REMOTE_DPU table" (open_config_table db "REMOTE_DPU") in
      let* keys := swss_action "Failed to get keys from REMOTE_DPU table" (config_keys db table) in
      for_each (remote_row region cluster table) keys;;;
      let* a := get_state in
      let* endpoint := unwrap "myendpoint" (myendpoint a) in
      let* routes := unwrap "myroutes" (myroutes a) in
      ret (mkSwbusConfig endpoint routes (peers a) my_ipv4 my_ipv6)
  end.

(** The call, with the local variables as they start. *)
Definition load_config (dpu_id : Z) : outcome (result SwbusConfig SwbusConfigError) :=
  match swbus_config_from_db dpu_id (mkAcc [] None None) with
  | Done (r, _) => Done r
  | Panicked w => Panicked w
  | OutOfFuel => OutOfFuel
  end.

(** [get_dpu_config_from_db] of hamgrd *)
Fixpoint find_dpu {S} (dpu_id : Z) (table : Tab) (keys : list string) : M S string Dpu :=
  match keys with
  | [] => throw ("DPU entry not found for slot " +:+ int_to_string dpu_id)
  | key :: keys' =>
      let* dpu := match from_table (dpu_columns 0) (dpu_of_values 0) table key with
                  | Ok dpu => ret dpu
                  | Err _ => throw ("reading DPU entry " +:+ key)
                  end in
      if (dpu_dpu_id dpu =? dpu_id)%Z then ret dpu else find_dpu dpu_id table keys'
  end.
Definition anyhow_context {S A} (what : string) (r : result A string) : M S string A :=
  match r with Ok a => ret a | Err _ => throw what end.
Definition get_dpu_config_from_db {S} (dpu_id : Z) : M S string Dpu :=
  anyhow_context "connecting config_db" (connect_config_db db 0);;;
  let* table := anyhow_context "opening DPU table" (open_config_table db "DPU") in
  let* keys := anyhow_context "Failed to get keys from DPU table" (config_keys db table) in
  find_dpu dpu_id table keys.

(** [swbus_config_from_yaml], on what opening the file and parsing it gave. *)
Definition swbus_config_from_yaml (file : result unit string) (parsed : result SwbusConfig string)
    : result SwbusConfig SwbusConfigError :=
  match file with
  | Err e => Err (IOError e)
  | Ok _ =>
      match parsed with
      | Err e => Err (InvalidConfig ("Failed to parse YAML file: " +:+ e))
      | Ok c => Ok match (cfg_endpoint c).1 with
                   | V4 ip => mkSwbusConfig (cfg_endpoint c) (cfg_routes c) (cfg_peers c) (Some ip) (cfg_npu_ipv6 c)
                   | V6 ip => mkSwbusConfig (cfg_endpoint c) (cfg_routes c) (cfg_peers c) (cfg_npu_ipv4 c) (Some ip)
                   end
      end
  end.

(** [main] of swbusd: the configuration of [slot_id], or of the file. *)
Definition swbusd_main {Chan} `{!Mpsc Chan} (slot_id : option Z) (config : option string)
    (yaml : string → result unit string * result SwbusConfig string) : M (NodeState Chan) SwbusError unit :=
  let* cfg := match slot_id with
              | Some slot_id => match load_config slot_id with
                                | Done (Ok cfg) => ret cfg
                                | Done (Err _) => panic "swbus_config_from_db"
                                | Panicked w => panic w
                                | OutOfFuel => out_of_fuel
                                end
              | None =>
                  let* path := unwrap "route_config is required when slot_id is not set" config in
                  match swbus_config_from_yaml (yaml path).1 (yaml path).2 with
                  | Ok cfg => ret cfg
                  | Err _ => panic "swbus_config_from_yaml"
                  end
              end in
  unwrap_result (E:=SwbusError) "server.start" (start (cfg_routes cfg) (cfg_peers cfg)).

End Read.
