(* ===== verification/ConfigTheory.v ===== *)
(** Theorems about the configuration: loading it panics only on the connection
    the code unwraps, and the DPUs of one switch, and of switches that describe
    each other, get configurations whose peers are each other's routes. *)
From S2P Require Import Prelude RustStr NetAddr SwssSerde Path Proto Mux Conn ConnTheory Bridge HaTypes HaRows Config.

Open Scope stdpp_scope.

(** * Specification *)

(** The addresses of a switch, printed. *)
Definition addresses (v4 : option Ipv4Addr) (v6 : option Ipv6Addr) : list string :=
  option_list (ipv4_to_string <$> v4) ++ option_list (ipv6_to_string <$> v6).
(** The routes of the DPU [i] of a switch, and how others see it as a peer. *)
Definition own_routes (region cluster : string) v4 v6 (i : Z) : list RouteConfig :=
  (λ ip, mkRouteConfig (node_path region cluster ip i) ScopeCluster) <$> addresses v4 v6.
Definition own_peers (region cluster : string) v4 v6 (i port : Z) : list PeerConfig :=
  (λ ip, peer_of region cluster ip i port) <$> addresses v4 v6.

(** Each of the routes is the id of a peer that connects to it on [port]. *)
Definition peered (routes : list RouteConfig) (port : Z) (ps : list PeerConfig) : Prop :=
  ∀ r, r ∈ routes → ∃ p, p ∈ ps ∧ peer_id p = route_key_path r ∧ peer_conn_type p = ConnCluster ∧
    Mux.port (peer_endpoint p) = port.

Lemma own_peered region cluster v4 v6 i port : peered (own_routes region cluster v4 v6 i) port (own_peers region cluster v4 v6 i port).
Proof.
  intros r (ip & -> & Hip)%list_elem_of_fmap. exists (peer_of region cluster ip i port).
  split; [by apply (list_elem_of_fmap_2 (λ ip, peer_of region cluster ip i port))|done].
Qed.
Lemma peered_subset routes port ps ps' : ps ⊆ ps' → peered routes port ps → peered routes port ps'.
Proof. intros Hsub Hp r Hr. destruct (Hp r Hr) as (p & Hin & ?). exists p. split; [by apply Hsub|done]. Qed.

(** * A row *)

Lemma route_config_run {S} e region cluster (s : S) :
  route_config_from_dpu_entry e region cluster s =
    Done (Ok (own_routes region cluster (de_npu_ipv4 e) (de_npu_ipv6 e) (de_dpu_id e)), s).
Proof. unfold route_config_from_dpu_entry, own_routes, addresses. by destruct (de_npu_ipv4 e), (de_npu_ipv6 e). Qed.

(** What the text columns of a row denote. *)
Definition denotes (v4 : option Ipv4Addr) (v6 : option Ipv6Addr) (t4 t6 : option string) : Prop :=
  match t4, v4 with Some t, Some a => ipv4_of_string t = Some a | None, None => True | _, _ => False end ∧
  match t6, v6 with Some t, Some a => ipv6_of_string t = Some a | None, None => True | _, _ => False end.

Lemma peer_config_run {S} key e region cluster v4 v6 port (s : S) :
  re_dpu_type e = Some "cluster" → re_swbus_port e = Some port → denotes v4 v6 (re_npu_ipv4 e) (re_npu_ipv6 e) →
  peer_config_from_dpu_entry key e region cluster s =
    Done (Ok (own_peers region cluster v4 v6 (re_dpu_id e) port), s).
Proof.
  intros Ht Hp [H4 H6]. unfold peer_config_from_dpu_entry. rewrite Ht, Hp. rewrite bool_decide_eq_true_2 by done. cbn [negb].
  unfold own_peers, addresses. destruct (re_npu_ipv4 e), v4; try done; destruct (re_npu_ipv6 e), v6; try done;
    rewrite ?H4, ?H6; done.
Qed.

(** It fails or returns, and changes nothing. *)
Lemma peer_config_returns {S} key e region cluster (s : S) :
  ∃ r, peer_config_from_dpu_entry key e region cluster s = Done (r, s).
Proof.
  unfold peer_config_from_dpu_entry. destruct (re_dpu_type e); [|by eexists]. destruct (negb _); [by eexists|].
  destruct (re_swbus_port e); [|by eexists]. unfold bind, ret, throw.
  destruct (re_npu_ipv4 e) as [t|]; [destruct (ipv4_of_string t); [|by eexists]|];
    (destruct (re_npu_ipv6 e) as [t'|]; [destruct (ipv6_of_string t')|]; by eexists).
Qed.

(** Printed addresses of the loopback interface denote themselves. *)
Definition addrs_ok (v4 : option Ipv4Addr) (v6 : option Ipv6Addr) : Prop :=
  (∀ a, v4 = Some a → ipv4_ok a) ∧ (∀ a, v6 = Some a → ipv6_ok a).
Lemma printed_denotes v4 v6 : addrs_ok v4 v6 → denotes v4 v6 (ipv4_to_string <$> v4) (ipv6_to_string <$> v6).
Proof.
  intros [H4 H6]. split; [destruct v4; [apply ipv4_roundtrip|]|destruct v6; [apply ipv6_roundtrip|]]; auto.
  all: exact I.
Qed.

Lemma scan_loopback_ok pre keys v4 v6 v4' v6' :
  addrs_ok v4 v6 → scan_loopback pre keys v4 v6 = (v4', v6') → addrs_ok v4' v6'.
Proof.
  revert v4 v6. induction keys as [|key keys IH]; intros v4 v6 Hok; cbn [scan_loopback]; [by intros [= <- <-]|].
  destruct (negb _); [by apply IH|]. destruct (ip_of_string _) as [[a|a]|] eqn:Ha; [..|by apply IH];
    apply ip_of_string_ok in Ha; apply IH; destruct Hok as [H4 H6]; split; intros b Hb; auto; by injection Hb as <-.
Qed.

Section Theory.
Context {Tab : Type} `{!HashTable Tab} (db : ConfigDb Tab).

(** * The loops *)

(** The list of peers only grows. *)
Definition acc_grows (a a' : ConfigAcc) : Prop := peers a ⊆ peers a'.
#[local] Instance acc_grows_refl : Reflexive acc_grows.
Proof. by intros a x. Qed.
#[local] Instance acc_grows_trans : Transitive acc_grows.
Proof. intros a b c Hab Hbc x Hx. by apply Hbc, Hab. Qed.

Lemma push_peers_grows ps : preserves acc_grows (modify (E:=SwbusConfigError) (push_peers ps)).
Proof. apply preserves_modify. intros a x Hx. cbn. apply elem_of_app. by left. Qed.
Lemma peer_config_frame {S} (R : S → S → Prop) `{!Reflexive R} key e region cluster :
  preserves R (peer_config_from_dpu_entry key e region cluster).
Proof. intros s r s' H. destruct (peer_config_returns key e region cluster s) as [r' Hr]. rewrite Hr in H. by inv_done. Qed.
Lemma serde_action_frame {S A} (R : S → S → Prop) `{!Reflexive R} act (r : result A string) : preserves R (serde_action act r).
Proof. intros s x s'. destruct r; cbn; unfold ret, throw; intros H; by inv_done. Qed.

Lemma remote_row_grows region cluster tab key : preserves acc_grows (remote_row region cluster tab key).
Proof.
  unfold remote_row. apply preserves_bind; [typeclasses eauto|apply serde_action_frame; typeclasses eauto|]. intros e.
  apply preserves_bind; [typeclasses eauto|apply peer_config_frame; typeclasses eauto|]. intros ps. apply push_peers_grows.
Qed.
Lemma dpu_row_grows i region cluster v4 v6 tab key : preserves acc_grows (dpu_row i region cluster v4 v6 tab key).
Proof.
  unfold dpu_row. apply preserves_bind; [typeclasses eauto|apply serde_action_frame; typeclasses eauto|]. intros e. cbn zeta.
  destruct (_ =? _)%Z.
  - destruct (de_swbus_port _); [|apply preserves_throw; typeclasses eauto].
    apply preserves_bind; [typeclasses eauto| |intros rs].
    { intros s r s' H. rewrite route_config_run in H. by inv_done. }
    apply preserves_bind; [typeclasses eauto|apply preserves_modify; by intros ? ?|]. intros _.
    destruct v4, v6; first [apply preserves_modify; by intros ? ?|apply preserves_ret; typeclasses eauto].
  - apply preserves_bind; [typeclasses eauto|apply peer_config_frame; typeclasses eauto|]. intros ps. apply push_peers_grows.
Qed.

(** A loop that returned has run every body, from a state and to a state the
    loop passes through. *)
Lemma for_each_done {S E A} (f : A → M S E unit) (R : S → S → Prop) `{!Reflexive R, !Transitive R} l s s' x :
  (∀ x, preserves R (f x)) → for_each f l s = Done (Ok tt, s') → x ∈ l →
  ∃ s1 s2, R s s1 ∧ f x s1 = Done (Ok tt, s2) ∧ R s2 s'.
Proof.
  intros Hf. revert s. induction l as [|y l IH]; intros s Hrun Hx; [by apply elem_of_nil in Hx|].
  cbn [for_each] in Hrun. unfold bind in Hrun. destruct (f y s) as [[[[]|e] s1]| |] eqn:Hy; try discriminate Hrun.
  assert (R s s1) as Hs1 by by eapply Hf.
  apply elem_of_cons in Hx as [->|Hx].
  - exists s, s1. split; [done|]. split; [done|]. by eapply (preserves_for_each R f l).
  - destruct (IH s1 Hrun Hx) as (s2 & s3 & Hs2 & Hrun2 & Hs3). exists s2, s3. split; [by transitivity s1|done].
Qed.

(** Each remote row has put its peers into the list. *)
Lemma remote_loop_peers region cluster tab keys a a' key e v4 v6 port :
  for_each (remote_row region cluster tab) keys a = Done (Ok tt, a') → key ∈ keys →
  from_table remote_entry_columns remote_entry_of_values tab key = Ok e →
  re_dpu_type e = Some "cluster" → re_swbus_port e = Some port → denotes v4 v6 (re_npu_ipv4 e) (re_npu_ipv6 e) →
  own_peers region cluster v4 v6 (re_dpu_id e) port ⊆ peers a'.
Proof.
  intros Hrun Hkey He Ht Hp Hd.
  destruct (for_each_done _ acc_grows keys a a' key (remote_row_grows region cluster tab) Hrun Hkey) as (a1 & a2 & _ & Hrow & Hgrow).
  unfold remote_row in Hrow. rewrite He in Hrow. cbn [serde_action] in Hrow.
  rewrite bind_ret, (bind_done _ _ _ _ _ (peer_config_run key e region cluster v4 v6 port a1 Ht Hp Hd)) in Hrow.
  unfold modify in Hrow. inv_done. intros p Hin. apply Hgrow. cbn. apply elem_of_app. by right.
Qed.

(** ** The loop over the DPU table *)

Section DpuLoop.
Context (slot : Z) (region cluster : string) (v4 : option Ipv4Addr) (v6 : option Ipv6Addr) (tab : Tab) (keys : list string).
Hypothesis addrs : addrs_ok v4 v6.
Hypothesis some_addr : addresses v4 v6 ≠ [].

Abbreviation dpu_entry key := (from_table dpu_entry_columns dpu_entry_of_values tab key).

(** The address of the endpoint: IPv4 if there is one. *)
Definition endpoint_ip : option IpAddr :=
  match v4, v6 with Some a, _ => Some (V4 a) | None, Some a => Some (V6 a) | None, None => None end.

(** The own row, once a row of the slot was read. *)
Definition own_row_read (a : ConfigAcc) : Prop :=
  ∃ key e port ip, key ∈ keys ∧ dpu_entry key = Ok e ∧ de_dpu_id e = slot ∧ de_swbus_port e = Some port ∧
    endpoint_ip = Some ip ∧ myroutes a = Some (own_routes region cluster v4 v6 slot) ∧ myendpoint a = Some (ip, port).
Definition own_state (a : ConfigAcc) : Prop := (myroutes a = None ∧ myendpoint a = None) ∨ own_row_read a.

(** What a row does: it fails, or it is the own row, or adds its peers. *)
Lemma dpu_row_run key a :
  (∃ x, dpu_row slot region cluster v4 v6 tab key a = Done (Err x, a)) ∨
  ∃ e port, dpu_entry key = Ok e ∧ de_swbus_port e = Some port ∧
    ((de_dpu_id e = slot ∧ ∃ ip, endpoint_ip = Some ip ∧
        dpu_row slot region cluster v4 v6 tab key a =
          Done (Ok tt, mkAcc (peers a) (Some (own_routes region cluster v4 v6 slot)) (Some (ip, port)))) ∨
     (de_dpu_id e ≠ slot ∧ dpu_row slot region cluster v4 v6 tab key a =
        Done (Ok tt, push_peers (own_peers region cluster v4 v6 (de_dpu_id e) port) a))).
Proof.
  unfold dpu_row. destruct (dpu_entry key) as [e|x] eqn:He; [|left; by eexists].
  cbn [serde_action]. rewrite bind_ret. cbn zeta. cbn [de_dpu_id de_swbus_port].
  destruct (Z.eqb_spec (de_dpu_id e) slot) as [Hid|Hid].
  - destruct (de_swbus_port e) as [port|] eqn:Hp; [|left; by eexists]. right. exists e, port. split; [done|]. split; [done|]. left.
    split; [done|]. rewrite (bind_done _ _ _ _ _ (route_config_run _ region cluster a)), bind_modify. cbn [de_npu_ipv4 de_npu_ipv6 de_dpu_id].
    rewrite Hid. unfold endpoint_ip. destruct v4 as [ip|]; [by exists (V4 ip)|]. destruct v6 as [ip|]; [by exists (V6 ip)|].
    by destruct some_addr.
  - destruct (de_swbus_port e) as [port|] eqn:Hp.
    + right. exists e, port. split; [done|]. split; [done|]. right. split; [done|].
      by rewrite (bind_done _ _ _ _ _ (peer_config_run key (to_remote_dpu (mkDPUEntry (de_state e) (Some port) (de_dpu_id e) v4 v6))
        region cluster v4 v6 port a eq_refl eq_refl (printed_denotes v4 v6 addrs))).
    + left. eexists. reflexivity.
Qed.

Lemma dpu_loop_own l a a' :
  l ⊆ keys → own_state a → for_each (dpu_row slot region cluster v4 v6 tab) l a = Done (Ok tt, a') → own_state a'.
Proof.
  revert a. induction l as [|key l IH]; intros a Hl Ha Hrun; cbn [for_each] in Hrun.
  - unfold ret in Hrun. by inv_done.
  - assert (key ∈ keys) as Hkey by (apply Hl; by left). assert (l ⊆ keys) as Hl' by (intros k Hk; apply Hl; by right).
    destruct (dpu_row_run key a) as [[x Hx]|(e & port & He & Hp & [(Hid & ip & Hip & Hx)|(Hid & Hx)])].
    + by rewrite (bind_err _ _ _ _ _ Hx) in Hrun.
    + rewrite (bind_done _ _ _ _ _ Hx) in Hrun. refine (IH _ Hl' _ Hrun). right. exists key, e, port, ip. done.
    + rewrite (bind_done _ _ _ _ _ Hx) in Hrun. refine (IH _ Hl' _ Hrun). exact Ha.
Qed.

Lemma dpu_loop_peers a a' key :
  for_each (dpu_row slot region cluster v4 v6 tab) keys a = Done (Ok tt, a') → key ∈ keys →
  ∃ e port, dpu_entry key = Ok e ∧ de_swbus_port e = Some port ∧
    (de_dpu_id e ≠ slot → own_peers region cluster v4 v6 (de_dpu_id e) port ⊆ peers a').
Proof.
  intros Hrun Hkey.
  destruct (for_each_done _ acc_grows keys a a' key (dpu_row_grows slot region cluster v4 v6 tab) Hrun Hkey)
    as (a1 & a2 & _ & Hrow & Hgrow).
  destruct (dpu_row_run key a1) as [[x Hx]|(e & port & He & Hp & Hcase)]; [by rewrite Hx in Hrow|].
  exists e, port. split; [done|]. split; [done|]. intros Hid. destruct Hcase as [[? _]|[_ Hx]]; [done|].
  rewrite Hx in Hrow. inv_done. intros p Hin. apply Hgrow. cbn. apply elem_of_app. by right.
Qed.

Lemma dpu_loop_returns l a : ∃ r a', for_each (dpu_row slot region cluster v4 v6 tab) l a = Done (r, a').
Proof.
  revert a. induction l as [|key l IH]; intros a; [by eexists _, _|]. cbn [for_each].
  destruct (dpu_row_run key a) as [[x Hx]|(e & port & _ & _ & [(_ & ip & _ & Hx)|(_ & Hx)])].
  - rewrite (bind_err _ _ _ _ _ Hx). by eexists _, _.
  - rewrite (bind_done _ _ _ _ _ Hx). apply IH.
  - rewrite (bind_done _ _ _ _ _ Hx). apply IH.
Qed.
End DpuLoop.

(** ** The loop over the REMOTE_DPU table *)

Definition same_own (a a' : ConfigAcc) : Prop := myroutes a' = myroutes a ∧ myendpoint a' = myendpoint a ∧ peers a ⊆ peers a'.
#[local] Instance same_own_refl : Reflexive same_own.
Proof. by intros a. Qed.
#[local] Instance same_own_trans : Transitive same_own.
Proof. intros a b c (H1 & H2 & H3) (H4 & H5 & H6). split_and!; [congruence..|]. intros x Hx. by apply H6, H3. Qed.

Lemma remote_loop_frame region cluster tab keys : preserves same_own (for_each (remote_row region cluster tab) keys).
Proof.
  apply preserves_for_each; [typeclasses eauto..|]. intros key. unfold remote_row.
  apply preserves_bind; [typeclasses eauto|apply serde_action_frame; typeclasses eauto|]. intros e.
  apply preserves_bind; [typeclasses eauto|apply peer_config_frame; typeclasses eauto|]. intros ps.
  apply preserves_modify. intros a. split_and!; [done..|]. intros x Hx. cbn. apply elem_of_app. by left.
Qed.
Lemma remote_loop_returns region cluster tab keys a : ∃ r a', for_each (remote_row region cluster tab) keys a = Done (r, a').
Proof.
  assert (runs_in (λ _, True) (for_each (remote_row region cluster tab) keys)) as Hruns.
  { apply runs_for_each. intros key. unfold remote_row. apply runs_bind.
    - intros s _. destruct (from_table _ _ _ _); by eexists _, _.
    - intros e. apply runs_bind; [|intros ps; by apply runs_modify]. intros s _.
      destruct (peer_config_returns key e region cluster s) as [r Hr]. by exists r, s. }
  destruct (Hruns a I) as (r & a' & Hr & _). by exists r, a'.
Qed.

(** ** Before the loops *)

Definition acc0 : ConfigAcc := mkAcc [] None None.
(** What the database says about the device and its loopback interface. *)
Definition device_is (region cluster : string) : Prop :=
  get_device_info db acc0 = Done (Ok (region, cluster), acc0).
Definition loopback_is (v4 : option Ipv4Addr) (v6 : option Ipv6Addr) : Prop :=
  get_loopback_address db 0 acc0 = Done (Ok (v4, v6), acc0).
Definition table_is (name : string) (tab : Tab) (keys : list string) : Prop :=
  open_config_table db name = Ok tab ∧ config_keys db tab = Ok keys.

(** A computation that returns without changing the state. *)
Definition reads {S A} (m : M S SwbusConfigError A) : Prop := ∀ s, ∃ r, m s = Done (r, s).
Lemma swss_action_reads {S A} act (r : result A string) : reads (S:=S) (swss_action act r).
Proof. intros s. destruct r; by eexists. Qed.
Lemma serde_action_reads {S A} act (r : result A string) : reads (S:=S) (serde_action act r).
Proof. intros s. destruct r; by eexists. Qed.
Lemma reads_bind {S A B} (m : M S SwbusConfigError A) (f : A → M S SwbusConfigError B) :
  reads m → (∀ a, reads (f a)) → reads (bind m f).
Proof.
  intros Hm Hf s. destruct (Hm s) as [[a|e] Hr].
  - rewrite (bind_done _ _ _ _ _ Hr). apply Hf.
  - rewrite (bind_err _ _ _ _ _ Hr). by eexists.
Qed.
Lemma reads_option {S A} (o : option A) (e : SwbusConfigError) : reads (S:=S) (match o with Some a => ret a | None => throw e end).
Proof. intros s. destruct o; by eexists. Qed.

Lemma device_info_reads {S} : reads (S:=S) (get_device_info db).
Proof.
  unfold get_device_info. apply reads_bind; [apply swss_action_reads|]. intros _.
  apply reads_bind; [apply swss_action_reads|]. intros tab. apply reads_bind; [apply serde_action_reads|]. intros md.
  apply reads_bind; [apply reads_option|]. intros r. apply reads_bind; [apply reads_option|]. intros c s. by eexists.
Qed.
Lemma loopback_reads {S} n : reads (S:=S) (get_loopback_address db n).
Proof.
  unfold get_loopback_address. apply reads_bind; [apply swss_action_reads|]. intros _.
  apply reads_bind; [apply swss_action_reads|]. intros tab. apply reads_bind; [apply swss_action_reads|]. intros keys s.
  destruct (scan_loopback _ _ _ _) as [[a|] [b|]]; by eexists.
Qed.
Lemma loopback_found v4 v6 : loopback_is v4 v6 → addrs_ok v4 v6 ∧ addresses v4 v6 ≠ [].
Proof.
  unfold loopback_is, get_loopback_address, swss_action. intros H.
  destruct (connect_config_db db 1); [|discriminate H]. rewrite bind_ret in H.
  destruct (open_config_table db "LOOPBACK_INTERFACE") as [tab|]; [|discriminate H]. rewrite bind_ret in H.
  destruct (config_keys db tab) as [keys|]; [|discriminate H]. rewrite bind_ret in H.
  destruct (scan_loopback _ keys None None) as [w4 w6] eqn:Hscan. apply scan_loopback_ok in Hscan; [|by split; intros].
  destruct w4, w6; cbn in H; unfold ret, throw in H; inv_done; split; done.
Qed.

(** * Loading *)

(** What a configuration that was loaded says. *)
Record Loaded (slot : Z) (cfg : SwbusConfig) (region cluster : string) (v4 : option Ipv4Addr) (v6 : option Ipv6Addr)
    (tab : Tab) (keys : list string) (rtab : Tab) (rkeys : list string) : Prop := mkLoaded {
  ld_device : device_is region cluster;
  ld_loopback : loopback_is v4 v6;
  ld_table : table_is "DPU" tab keys;
  ld_remote : table_is "REMOTE_DPU" rtab rkeys;
  ld_loops : ∃ a a', for_each (dpu_row slot region cluster v4 v6 tab) keys acc0 = Done (Ok tt, a) ∧
    for_each (remote_row region cluster rtab) rkeys a = Done (Ok tt, a') ∧ cfg_peers cfg = peers a';
  ld_npu : cfg_npu_ipv4 cfg = v4 ∧ cfg_npu_ipv6 cfg = v6;
  ld_own : own_row_read slot region cluster v4 v6 tab keys
             (mkAcc (cfg_peers cfg) (Some (cfg_routes cfg)) (Some (cfg_endpoint cfg)));
  ld_siblings : ∀ key, key ∈ keys →
    ∃ e port, from_table dpu_entry_columns dpu_entry_of_values tab key = Ok e ∧ de_swbus_port e = Some port ∧
      (de_dpu_id e ≠ slot → own_peers region cluster v4 v6 (de_dpu_id e) port ⊆ cfg_peers cfg);
  ld_remotes : ∀ key e w4 w6 port, key ∈ rkeys →
    from_table remote_entry_columns remote_entry_of_values rtab key = Ok e →
    re_dpu_type e = Some "cluster" → re_swbus_port e = Some port → denotes w4 w6 (re_npu_ipv4 e) (re_npu_ipv6 e) →
    own_peers region cluster w4 w6 (re_dpu_id e) port ⊆ cfg_peers cfg;
}.

(** The part after the DPU table was read. *)
Definition after_dpus (slot : Z) (region cluster : string) (v4 : option Ipv4Addr) (v6 : option Ipv6Addr)
    : M ConfigAcc SwbusConfigError SwbusConfig :=
  let* a := get_state in
  match myroutes a with
  | None => throw (InvalidConfig ("DPU at slot " +:+ int_to_string slot +:+ " is not found"))
  | Some _ =>
      unwrap_result "connecting config_db" (of_result (connect_config_db db 3));;;
      let* table := swss_action "opening REMOTE_DPU table" (open_config_table db "REMOTE_DPU") in
      let* keys := swss_action "Failed to get keys from REMOTE_DPU table" (config_keys db table) in
      for_each (remote_row region cluster table) keys;;;
      let* a := get_state in
      let* endpoint := unwrap "myendpoint" (myendpoint a) in
      let* routes := unwrap "myroutes" (myroutes a) in
      ret (mkSwbusConfig endpoint routes (peers a) v4 v6)
  end.

Lemma after_dpus_run slot region cluster v4 v6 tab keys a :
  own_state slot region cluster v4 v6 tab keys a →
  (∃ e a', after_dpus slot region cluster v4 v6 a = Done (Err e, a')) ∨
  (∃ e w, connect_config_db db 3 = Err e ∧ after_dpus slot region cluster v4 v6 a = Panicked w) ∨
  ∃ rtab rkeys a' port routes ip, after_dpus slot region cluster v4 v6 a = Done (Ok (mkSwbusConfig (ip, port) routes (peers a') v4 v6), a') ∧
    table_is "REMOTE_DPU" rtab rkeys ∧ for_each (remote_row region cluster rtab) rkeys a = Done (Ok tt, a') ∧
    myendpoint a' = Some (ip, port) ∧ myroutes a' = Some routes ∧ own_row_read slot region cluster v4 v6 tab keys a'.
Proof.
  intros Hown. unfold after_dpus. rewrite bind_get.
  destruct Hown as [[Hr _]|Hown]; [rewrite Hr; left; by eexists _, _|].
  pose proof Hown as (key & e & port & ip & Hkey & He & Hid & Hp & Hip & Hr & Hep). rewrite Hr.
  destruct (connect_config_db db 3) as [[]|x]; [|right; left; by eexists _, _].
  change (bind (unwrap_result _ (of_result (Ok ()))) ?k a) with (k tt a).
  cbv beta. unfold swss_action.
  destruct (open_config_table db "REMOTE_DPU") as [rtab|] eqn:Hopen; [rewrite bind_ret|left; by eexists _, _].
  destruct (config_keys db rtab) as [rkeys|] eqn:Hkeys; [rewrite bind_ret|left; by eexists _, _].
  destruct (remote_loop_returns region cluster rtab rkeys a) as ([[]|x] & a' & Hloop);
    [rewrite (bind_done _ _ _ _ _ Hloop), bind_get|rewrite (bind_err _ _ _ _ _ Hloop); left; by eexists _, _].
  destruct (remote_loop_frame region cluster rtab rkeys a _ _ Hloop) as (Hr' & Hep' & _).
  right. right. exists rtab, rkeys, a', port, (own_routes region cluster v4 v6 slot), ip. rewrite Hr', Hep', Hr, Hep.
  split; [done|]. split; [done|]. split; [done|]. split; [done|]. split; [done|].
  exists key, e, port, ip. rewrite Hr', Hep'. done.
Qed.

Lemma swbus_config_from_db_eq slot a :
  swbus_config_from_db db slot a =
    bind (get_device_info db) (λ info, bind (get_loopback_address db 0) (λ addrs,
      bind (swss_action "connecting config_db" (connect_config_db db 2)) (λ _,
      bind (swss_action "opening DPU table" (open_config_table db "DPU")) (λ tab,
      bind (swss_action "Failed to get keys from DPU table" (config_keys db tab)) (λ keys,
      bind (for_each (dpu_row slot info.1 info.2 addrs.1 addrs.2 tab) keys) (λ _,
        after_dpus slot info.1 info.2 addrs.1 addrs.2)))))) a.
Proof.
  unfold swbus_config_from_db, after_dpus, bind. destruct (get_device_info db a) as [[[[region cluster]|e] a1]| |]; [|done..].
  by destruct (get_loopback_address db 0 a1) as [[[[v4 v6]|e] a2]| |].
Qed.

Lemma load_config_run slot :
  (∃ e, load_config db slot = Done (Err e)) ∨
  (∃ e w, connect_config_db db 3 = Err e ∧ load_config db slot = Panicked w) ∨
  ∃ cfg region cluster v4 v6 tab keys rtab rkeys,
    load_config db slot = Done (Ok cfg) ∧ Loaded slot cfg region cluster v4 v6 tab keys rtab rkeys.
Proof.
  unfold load_config. fold acc0. rewrite swbus_config_from_db_eq.
  destruct (device_info_reads acc0) as [[[region cluster]|e] Hdev];
    [rewrite (bind_done _ _ _ _ _ Hdev)|rewrite (bind_err _ _ _ _ _ Hdev); left; by eexists].
  destruct (loopback_reads 0 acc0) as [[[v4 v6]|e] Hlb];
    [rewrite (bind_done _ _ _ _ _ Hlb)|rewrite (bind_err _ _ _ _ _ Hlb); left; by eexists].
  destruct (loopback_found _ _ Hlb) as [Haddrs Hsome]. unfold swss_action. cbn [fst snd].
  destruct (connect_config_db db 2) as [[]|]; [rewrite bind_ret|left; by eexists].
  destruct (open_config_table db "DPU") as [tab|] eqn:Hopen; [rewrite bind_ret|left; by eexists].
  destruct (config_keys db tab) as [keys|] eqn:Hkeys; [rewrite bind_ret|left; by eexists].
  destruct (dpu_loop_returns slot region cluster v4 v6 tab Haddrs Hsome keys acc0) as ([[]|x] & a & Hloop);
    [rewrite (bind_done _ _ _ _ _ Hloop)|rewrite (bind_err _ _ _ _ _ Hloop); left; by eexists].
  assert (own_state slot region cluster v4 v6 tab keys a) as Hown
    by (refine (dpu_loop_own _ _ _ _ _ _ _ Haddrs Hsome keys acc0 a _ _ Hloop); [done|by left]).
  destruct (after_dpus_run slot region cluster v4 v6 tab keys a Hown)
    as [(e & a' & Hrun)|[(e & w & He & Hrun)|(rtab & rkeys & a' & port & routes & ip & Hrun & Hrt & Hrloop & Hep & Hr & Hrow)]]; rewrite Hrun; [left; by eexists|right; left; by eexists _, _|].
  right. right. eexists _, region, cluster, v4, v6, tab, keys, rtab, rkeys. split; [reflexivity|].
  destruct (remote_loop_frame region cluster rtab rkeys a _ _ Hrloop) as (_ & _ & Hgrow).
  constructor; try done.
  - by exists a, a'.
  - cbn. destruct a' as [ps r ep]. cbn in Hep, Hr. by subst.
  - intros key Hkey. destruct (dpu_loop_peers _ _ _ _ _ _ _ Haddrs Hsome acc0 a key Hloop Hkey) as (e & p & He & Hp & Hin).
    exists e, p. split; [done|]. split; [done|]. intros Hid q Hq. by apply Hgrow, (Hin Hid).
  - intros key e w4 w6 p Hkey He Ht Hp Hd. cbn. by apply (remote_loop_peers region cluster rtab rkeys a a' key e w4 w6 p).
Qed.

Lemma load_config_loaded slot cfg :
  load_config db slot = Done (Ok cfg) →
  ∃ region cluster v4 v6 tab keys rtab rkeys, Loaded slot cfg region cluster v4 v6 tab keys rtab rkeys.
Proof.
  intros Hload. destruct (load_config_run slot)
    as [[e He]|[(e & w & _ & He)|(cfg' & region & cluster & v4 & v6 & tab & keys & rtab & rkeys & Hrun & Hl)]]; [by rewrite He in Hload..|].
  rewrite Hrun in Hload. injection Hload as <-. by exists region, cluster, v4, v6, tab, keys, rtab, rkeys.
Qed.
End Theory.

(** * Configurations that fit together *)

(** [ci] has a peer for each route of [cj], and one at its endpoint. *)
Definition sees (ci cj : SwbusConfig) : Prop :=
  peered (cfg_routes cj) (cfg_endpoint cj).2 (cfg_peers ci) ∧
  ∃ p, p ∈ cfg_peers ci ∧ peer_endpoint p = mkAddr (ip_to_string (cfg_endpoint cj).1) (cfg_endpoint cj).2.

(** * Values within their types *)

Lemma parse_int_range lo hi t z : (lo ≤ 0 ≤ hi)%Z → parse_int lo hi t = Some z → (lo ≤ z ≤ hi)%Z.
Proof.
  intros Hlo. unfold parse_int. destruct t as [|a t]; [done|]. destruct (decide (a = "+"%char)).
  - destruct (is_empty t); [done|]. intros H%parse_digits_bounds; lia.
  - destruct (decide (a = "-"%char)).
    + destruct (_ || _); [done|]. destruct (parse_digits (- lo) 0 t) as [d|] eqn:Hd; [|done]. intros [= <-].
      apply parse_digits_bounds in Hd; lia.
    + intros H%parse_digits_bounds; lia.
Qed.

Definition is_u16 (z : Z) : Prop := (0 ≤ z ≤ 2 ^ 16 - 1)%Z.
Definition is_u32 (z : Z) : Prop := (0 ≤ z ≤ u32_max)%Z.

(** What a column of integers, and one of optional integers, is decoded to is in range. *)
Lemma int_column_range lo hi name skip data v z :
  (lo ≤ 0 ≤ hi)%Z → decode_field (mkField name (ShInt lo hi) Ok Ok None skip) data = Ok v → ct_of (c_int lo hi) v = Some z → (lo ≤ z ≤ hi)%Z.
Proof.
  intros Hlo. unfold decode_field. cbn. destruct data as [t|]; [|done]. destruct (parse_int lo hi t) as [d|] eqn:Hp; [|done].
  intros [= <-] [= <-]. by apply parse_int_range in Hp.
Qed.
Lemma opt_int_column_range lo hi name skip data v o z :
  (lo ≤ 0 ≤ hi)%Z → decode_field (mkField name (ShOpt (ShInt lo hi)) (under_option Ok) (under_option Ok) None skip) data = Ok v →
  ct_of (c_opt (c_int lo hi)) v = Some o → o = Some z → (lo ≤ z ≤ hi)%Z.
Proof.
  intros Hlo. unfold decode_field. cbn. destruct data as [t|]; [|by intros [= <-] [= <-]].
  destruct (decide (t = "none")); [by intros [= <-] [= <-]|]. destruct (parse_int lo hi t) as [d|] eqn:Hp; [|done].
  intros [= <-] [= <-] [= <-]. by apply parse_int_range in Hp.
Qed.

Section Typed.
Context {Tab : Type} `{!HashTable Tab} (db : ConfigDb Tab).

(** Reading the fields of a row one by one. *)
Lemma from_table_cons (f : Field) fields key (tab : Tab) vs :
  deserialize_from_table (f :: fields) key tab = Ok vs →
  ∃ data v vs', decode_field f data = Ok v ∧ deserialize_from_table fields key tab = Ok vs' ∧ vs = v :: vs'.
Proof.
  cbn. destruct (hget tab key (f_name f)) as [data|]; [|done]. destruct (decode_field f data) as [v|] eqn:Hv; [|done].
  destruct (deserialize_from_table fields key tab) as [vs'|]; [|done]. intros [= <-]. by exists data, v, vs'.
Qed.

Lemma dpu_entry_range (tab : Tab) key e :
  from_table dpu_entry_columns dpu_entry_of_values tab key = Ok e →
  is_u32 (de_dpu_id e) ∧ ∀ p, de_swbus_port e = Some p → is_u16 p.
Proof.
  unfold from_table. cbn [fmap list_fmap dpu_entry_columns].
  destruct (deserialize_from_table _ key tab) as [vs|] eqn:Hvs; [|done].
  apply from_table_cons in Hvs as (d0 & v0 & vs0 & H0 & Hvs & ->). apply from_table_cons in Hvs as (d1 & v1 & vs1 & H1 & Hvs & ->).
  apply from_table_cons in Hvs as (d2 & v2 & vs2 & H2 & [= <-] & ->). unfold dpu_entry_of_values, take.
  destruct (ct_of (c_opt c_str) v0) as [x0|]; [|done]. destruct (ct_of (c_opt c_u16) v1) as [x1|] eqn:Hx1; [|done].
  destruct (ct_of c_u32 v2) as [x2|] eqn:Hx2; [|done]. intros [= <-]. split.
  - by apply (int_column_range 0 u32_max "dpu_id" false d2 v2).
  - intros p Hp. by apply (opt_int_column_range 0 (2 ^ 16 - 1) "swbus_port" false d1 v1 x1 p).
Qed.
Lemma remote_entry_range (tab : Tab) key e :
  from_table remote_entry_columns remote_entry_of_values tab key = Ok e →
  is_u32 (re_dpu_id e) ∧ ∀ p, re_swbus_port e = Some p → is_u16 p.
Proof.
  unfold from_table. cbn [fmap list_fmap remote_entry_columns].
  destruct (deserialize_from_table _ key tab) as [vs|] eqn:Hvs; [|done].
  apply from_table_cons in Hvs as (d0 & v0 & vs0 & H0 & Hvs & ->). apply from_table_cons in Hvs as (d1 & v1 & vs1 & H1 & Hvs & ->).
  apply from_table_cons in Hvs as (d2 & v2 & vs2 & H2 & Hvs & ->). apply from_table_cons in Hvs as (d3 & v3 & vs3 & H3 & Hvs & ->).
  apply from_table_cons in Hvs as (d4 & v4 & vs4 & H4 & [= <-] & ->). unfold remote_entry_of_values, take.
  destruct (ct_of (c_opt c_str) v0) as [x0|]; [|done]. destruct (ct_of (c_opt c_u16) v1) as [x1|] eqn:Hx1; [|done].
  destruct (ct_of c_u32 v2) as [x2|] eqn:Hx2; [|done]. destruct (ct_of (c_opt c_str) v3) as [x3|]; [|done].
  destruct (ct_of (c_opt c_str) v4) as [x4|]; [|done]. intros [= <-]. split.
  - by apply (int_column_range 0 u32_max "dpu_id" false d2 v2).
  - intros p Hp. by apply (opt_int_column_range 0 (2 ^ 16 - 1) "swbus_port" false d1 v1 x1 p).
Qed.

(** A peer as the Rust types have it: an address, a u32 and a u16. *)
Definition peer_typed (region cluster : string) (p : PeerConfig) : Prop :=
  ∃ ip i port, ip_ok ip ∧ is_u32 i ∧ is_u16 port ∧ p = peer_of region cluster (ip_to_string ip) i port.

(** A route likewise, of Cluster scope. *)
Definition route_typed (region cluster : string) (r : RouteConfig) : Prop :=
  ∃ ip i, ip_ok ip ∧ is_u32 i ∧ r = mkRouteConfig (node_path region cluster (ip_to_string ip) i) ScopeCluster.

(** A configuration whose every value is of its type. *)
Record config_typed (region cluster : string) (cfg : SwbusConfig) : Prop := {
  ct_endpoint : ip_ok (cfg_endpoint cfg).1 ∧ is_u16 (cfg_endpoint cfg).2;
  ct_routes : Forall (route_typed region cluster) (cfg_routes cfg);
  ct_peers : Forall (peer_typed region cluster) (cfg_peers cfg);
  ct_npu_ipv4 : ∀ a, cfg_npu_ipv4 cfg = Some a → ipv4_ok a;
  ct_npu_ipv6 : ∀ a, cfg_npu_ipv6 cfg = Some a → ipv6_ok a;
}.

Lemma own_routes_typed region cluster v4 v6 slot :
  addrs_ok v4 v6 → is_u32 slot → Forall (route_typed region cluster) (own_routes region cluster v4 v6 slot).
Proof.
  intros [H4 H6] Hs. unfold own_routes, addresses.
  destruct v4 as [a|], v6 as [b|]; cbn; repeat apply List.Forall_cons; try apply List.Forall_nil;
    [exists (V4 a), slot|exists (V6 b), slot|exists (V4 a), slot|exists (V6 b), slot];
    (split; [first [by apply H4|by apply H6]|done]).
Qed.

Lemma peer_config_typed key e region cluster (s : ConfigAcc) ps s' :
  is_u32 (re_dpu_id e) → (∀ p, re_swbus_port e = Some p → is_u16 p) →
  peer_config_from_dpu_entry key e region cluster s = Done (Ok ps, s') → Forall (peer_typed region cluster) ps.
Proof.
  intros Hi Hp. unfold peer_config_from_dpu_entry. destruct (re_dpu_type e); [|done]. destruct (negb _); [done|].
  destruct (re_swbus_port e) as [port|]; [|done]. specialize (Hp port eq_refl). unfold bind, ret, throw.
  assert (∀ a, ipv4_ok a → peer_typed region cluster (peer_of region cluster (ipv4_to_string a) (re_dpu_id e) port)) as H4
    by (intros a Ha; by exists (V4 a), (re_dpu_id e), port).
  assert (∀ a, ipv6_ok a → peer_typed region cluster (peer_of region cluster (ipv6_to_string a) (re_dpu_id e) port)) as H6
    by (intros a Ha; by exists (V6 a), (re_dpu_id e), port).
  destruct (re_npu_ipv4 e) as [t4|]; [destruct (ipv4_of_string t4) as [a4|] eqn:Ht4; [apply ipv4_of_string_ok in Ht4|done]|];
    (destruct (re_npu_ipv6 e) as [t6|]; [destruct (ipv6_of_string t6) as [a6|] eqn:Ht6; [apply ipv6_of_string_ok in Ht6|done]|]);
    intros [= <- <-]; repeat constructor; auto.
Qed.

(** Peers added by the loops are typed. *)
Definition keeps_typed (region cluster : string) (a a' : ConfigAcc) : Prop :=
  Forall (peer_typed region cluster) (peers a) → Forall (peer_typed region cluster) (peers a').
#[local] Instance keeps_typed_refl region cluster : Reflexive (keeps_typed region cluster).
Proof. intros a H. exact H. Qed.
#[local] Instance keeps_typed_trans region cluster : Transitive (keeps_typed region cluster).
Proof. intros a b c H1 H2 H. by apply H2, H1. Qed.

Lemma push_typed region cluster e key a r a' :
  is_u32 (re_dpu_id e) → (∀ p, re_swbus_port e = Some p → is_u16 p) →
  (let* peer := peer_config_from_dpu_entry key e region cluster in modify (push_peers peer)) a = Done (r, a') →
  keeps_typed region cluster a a'.
Proof.
  intros Hi Hp. destruct (peer_config_returns key e region cluster a) as [[ps|x] Hr];
    [rewrite (bind_done _ _ _ _ _ Hr)|rewrite (bind_err _ _ _ _ _ Hr)]; [|by intros [= <- <-]].
  unfold modify. intros [= <- <-] Ha. cbn. apply Forall_app. split; [done|]. by apply (peer_config_typed key e region cluster a ps a).
Qed.
Lemma remote_row_typed region cluster (tab : Tab) key : preserves (keeps_typed region cluster) (remote_row region cluster tab key).
Proof.
  intros a r a'. unfold remote_row. destruct (from_table _ _ tab key) as [e|] eqn:He; [|by intros [= <- <-]].
  cbn [serde_action]. rewrite bind_ret. apply remote_entry_range in He as [Hi Hp]. by apply push_typed.
Qed.
Lemma dpu_row_typed slot region cluster v4 v6 (tab : Tab) key : preserves (keeps_typed region cluster) (dpu_row slot region cluster v4 v6 tab key).
Proof.
  intros a r a'. unfold dpu_row. destruct (from_table _ _ tab key) as [e|] eqn:He; [|by intros [= <- <-]].
  cbn [serde_action]. rewrite bind_ret. cbn zeta. cbn [de_dpu_id de_swbus_port]. apply dpu_entry_range in He as [Hi Hp].
  destruct (_ =? _)%Z; [|by apply push_typed].
  destruct (de_swbus_port e) as [port|]; [|by intros [= <- <-]].
  rewrite (bind_done _ _ _ _ _ (route_config_run _ region cluster a)), bind_modify.
  destruct v4, v6; unfold modify, ret; intros [= <- <-] H; exact H.
Qed.
Lemma loops_typed slot region cluster v4 v6 (tab : Tab) keys (rtab : Tab) rkeys a0 a a' :
  for_each (dpu_row slot region cluster v4 v6 tab) keys a0 = Done (Ok tt, a) →
  for_each (remote_row region cluster rtab) rkeys a = Done (Ok tt, a') → keeps_typed region cluster a0 a'.
Proof.
  intros Hdpu Hrem. transitivity a.
  - by apply (preserves_for_each _ _ keys (dpu_row_typed slot region cluster v4 v6 tab) _ _ _ Hdpu).
  - by apply (preserves_for_each _ _ rkeys (remote_row_typed region cluster rtab) _ _ _ Hrem).
Qed.
End Typed.

Section Mesh.
Context {Tab : Type} `{!HashTable Tab}.
Implicit Types db : ConfigDb Tab.

(** C22: A loaded configuration is well-typed, whatever text the database holds.
    The endpoint has a well-formed address and a 16-bit port; the loopback
    addresses kept are well-formed; every route is, at Cluster scope, the node
    of a 32-bit DPU id at a well-formed address, of the device's region and
    cluster; every peer is such a node, reached at its address on a 16-bit port
    by a Cluster connection. *)
Theorem config_well_typed db slot cfg :
  load_config db slot = Done (Ok cfg) → ∃ region cluster, device_is db region cluster ∧ config_typed region cluster cfg.
Proof.
  intros Hload. pose proof Hload as (region & cluster & v4 & v6 & tab & keys & rtab & rkeys & Hl)%load_config_loaded.
  exists region, cluster. split; [apply (ld_device _ _ _ _ _ _ _ _ _ _ _ Hl)|].
  destruct (loopback_found _ _ _ (ld_loopback _ _ _ _ _ _ _ _ _ _ _ Hl)) as [Haddrs _].
  destruct (ld_npu _ _ _ _ _ _ _ _ _ _ _ Hl) as [Hn4 Hn6].
  destruct (ld_own _ _ _ _ _ _ _ _ _ _ _ Hl) as (key & e & port & ip & _ & He & Hid & Hp & Hip & Hr & Hep).
  cbn in Hep, Hr. injection Hep as Hep. injection Hr as Hr. apply dpu_entry_range in He as [Hslot Hport]. rewrite Hid in Hslot.
  pose proof Haddrs as [H4 H6]. constructor.
  - rewrite Hep. split; [|by apply Hport]. unfold endpoint_ip in Hip. destruct v4, v6; simplify_eq/=; auto.
  - rewrite Hr. by apply own_routes_typed.
  - destruct (ld_loops _ _ _ _ _ _ _ _ _ _ _ Hl) as (a & a' & Hdpu & Hrem & ->).
    by apply (loops_typed slot region cluster v4 v6 tab keys rtab rkeys acc0 a a').
  - by rewrite Hn4.
  - by rewrite Hn6.
Qed.

Lemma endpoint_address v4 v6 ip : endpoint_ip v4 v6 = Some ip → ip_to_string ip ∈ addresses v4 v6.
Proof. unfold endpoint_ip, addresses. destruct v4, v6; intros [= <-]; cbn; by left. Qed.

Lemma own_row_sees slot region cluster v4 v6 (tab : Tab) keys ci cj :
  own_row_read slot region cluster v4 v6 tab keys (mkAcc (cfg_peers cj) (Some (cfg_routes cj)) (Some (cfg_endpoint cj))) →
  own_peers region cluster v4 v6 slot (cfg_endpoint cj).2 ⊆ cfg_peers ci → sees ci cj.
Proof.
  intros (key & e & port & ip & _ & _ & _ & _ & Hip & Hr & Hep) Hin. cbn in Hr, Hep. injection Hr as Hr. injection Hep as Hep.
  split.
  - rewrite Hr. apply (peered_subset _ _ _ _ Hin). apply own_peered.
  - exists (peer_of region cluster (ip_to_string ip) slot port). rewrite Hep in Hin |- *. split; [|done]. apply Hin.
    apply (list_elem_of_fmap_2 (λ ip, peer_of region cluster ip slot port)). by apply endpoint_address.
Qed.

(** C27: Loading the configuration of a slot from CONFIG_DB never runs forever and
    panics only if the connection for the REMOTE_DPU table, which is unwrapped,
    fails. A configuration it returns has a cluster route, which is the path
    swbusd registers at, and its routes are those of the slot's DPU at the
    addresses of the loopback interface. *)
Theorem config_load_outcome db slot :
  match load_config db slot with
  | Panicked _ => ∃ e, connect_config_db db 3 = Err e
  | OutOfFuel => False
  | Done (Err _) => True
  | Done (Ok cfg) => is_Some (get_swbusd_service_path cfg) ∧
      ∃ region cluster, device_is db region cluster ∧ loopback_is db (cfg_npu_ipv4 cfg) (cfg_npu_ipv6 cfg) ∧
        cfg_routes cfg = own_routes region cluster (cfg_npu_ipv4 cfg) (cfg_npu_ipv6 cfg) slot
  end.
Proof.
  destruct (load_config_run db slot) as [[e ->]|[(e & w & He & ->)|(cfg & region & cluster & v4 & v6 & tab & keys & rtab & rkeys & -> & Hl)]];
    [done|by exists e|].
  destruct (ld_own _ _ _ _ _ _ _ _ _ _ _ Hl) as (_ & _ & _ & _ & _ & _ & _ & _ & _ & Hr & _). cbn in Hr. injection Hr as Hr.
  destruct (ld_npu _ _ _ _ _ _ _ _ _ _ _ Hl) as [-> ->]. split.
  - destruct (loopback_found db v4 v6 (ld_loopback _ _ _ _ _ _ _ _ _ _ _ Hl)) as [_ Hsome].
    unfold get_swbusd_service_path. rewrite Hr. unfold own_routes. destruct (addresses v4 v6); [done|]. by eexists.
  - exists region, cluster. split; [apply (ld_device _ _ _ _ _ _ _ _ _ _ _ Hl)|]. split; [apply (ld_loopback _ _ _ _ _ _ _ _ _ _ _ Hl)|done].
Qed.

(** C21: Two DPUs of one switch find each other: of the configurations loaded for
    two slots from the same database, each has a peer for every route of the
    other, of connection type Cluster and at the port the other listens on,
    and one at the very address the other binds. *)
Theorem config_siblings_peer db i j ci cj :
  i ≠ j → load_config db i = Done (Ok ci) → load_config db j = Done (Ok cj) → sees ci cj ∧ sees cj ci.
Proof.
  enough (∀ i j ci cj, i ≠ j → load_config db i = Done (Ok ci) → load_config db j = Done (Ok cj) → sees ci cj) by eauto.
  clear. intros i j ci cj Hij Hi Hj.
  apply load_config_loaded in Hi as (region & cluster & v4 & v6 & tab & keys & rtab & rkeys & Hi).
  apply load_config_loaded in Hj as (region' & cluster' & v4' & v6' & tab' & keys' & rtab' & rkeys' & Hj).
  pose proof (ld_own _ _ _ _ _ _ _ _ _ _ _ Hj) as Hown.
  destruct Hi as [Hd Hl [Ht Hk] _ _ _ _ Hsib _], Hj as [Hd' Hl' [Ht' Hk'] _ _ _ _ _ _].
  unfold device_is, loopback_is in *. rewrite Hd in Hd'. rewrite Hl in Hl'. rewrite Ht in Ht'. simplify_eq. rewrite Hk in Hk'. simplify_eq.
  apply (own_row_sees _ _ _ _ _ _ _ _ _ Hown).
  destruct Hown as (key & e & port & ip & Hkey & He & Hid & Hp & _ & _ & Hep). cbn in Hep. injection Hep as ->.
  destruct (Hsib key Hkey) as (e' & port' & He' & Hp' & Hin). cbn [snd].
  assert (e' = e) as -> by congruence. assert (port' = port) as -> by congruence. rewrite Hid in Hin. apply Hin. congruence.
Qed.

(** Two switches of one region and cluster: if a REMOTE_DPU row of the first
    describes a DPU of the second - its slot, its port and addresses that
    denote the loopback addresses of that switch - then every DPU of the first
    has peers for the routes of that DPU. *)
Theorem config_mesh db db' i j ci cj region cluster v4 v6 rtab rkeys key e :
  load_config db i = Done (Ok ci) → load_config db' j = Done (Ok cj) →
  device_is db region cluster → device_is db' region cluster → loopback_is db' v4 v6 →
  table_is db "REMOTE_DPU" rtab rkeys → key ∈ rkeys →
  from_table remote_entry_columns remote_entry_of_values rtab key = Ok e →
  re_dpu_type e = Some "cluster" → re_dpu_id e = j → re_swbus_port e = Some (cfg_endpoint cj).2 →
  denotes v4 v6 (re_npu_ipv4 e) (re_npu_ipv6 e) → sees ci cj.
Proof.
  intros Hi Hj Hdev Hdev' Hlb' [Hopen Hkeys] Hkey He Ht Hid Hp Hd.
  apply load_config_loaded in Hi as (region1 & cluster1 & w4 & w6 & tab & keys & rtab' & rkeys' & Hi).
  apply load_config_loaded in Hj as (region' & cluster' & v4' & v6' & tab' & keys' & rtab2 & rkeys2 & Hj).
  destruct Hi as [Hd1 _ _ [Ht1 Hk1] _ _ _ _ Hrem], Hj as [Hd2 Hl2 _ _ _ _ Hown _ _].
  unfold device_is, loopback_is in *. rewrite Hdev in Hd1. rewrite Hdev' in Hd2. rewrite Hlb' in Hl2. rewrite Hopen in Ht1. simplify_eq.
  rewrite Hkeys in Hk1. simplify_eq.
  apply (own_row_sees _ _ _ _ _ _ _ _ _ Hown). by apply (Hrem key e v4' v6' _ Hkey He Ht Hp Hd).
Qed.
End Mesh.
