(* ===== verification/ConfigWitness.v ===== *)
(** Concrete databases: a switch with two DPUs and a neighbour it describes. *)
From S2P Require Import Prelude RustStr NetAddr SwssSerde Path Proto Mux Conn Bridge HaTypes HaRows Config ConfigTheory.

Open Scope stdpp_scope.

(** A table as the list of its cells: key, field, value. *)
Definition Cells : Type := list (string * string * string).
Fixpoint cell_get (t : Cells) (key field : string) : option string :=
  match t with
  | [] => None
  | (k, f, v) :: t' => if (String.eqb k key && String.eqb f field)%bool then Some v else cell_get t' key field
  end.
#[export] Instance demo_cells : HashTable Cells := {
  hget t key field := Ok (cell_get t key field);
  hset t key field v := Ok ((key, field, v) :: t);
}.

Definition demo_metadata : Cells := [("localhost", "region", "region-a"); ("localhost", "cluster", "cluster-a")].
Definition demo_config_db (lo_keys : list string) (dpu : Cells) (dpu_keys : list string) (remote : Cells) (remote_keys : list string)
    : ConfigDb (Cells * list string) :=
  mkConfigDb (λ _, Ok tt)
    (λ name,
       if String.eqb name "DEVICE_METADATA" then Ok (demo_metadata, ["localhost"])
       else if String.eqb name "LOOPBACK_INTERFACE" then Ok ([], lo_keys)
       else if String.eqb name "DPU" then Ok (dpu, dpu_keys)
       else if String.eqb name "REMOTE_DPU" then Ok (remote, remote_keys)
       else Err "no such table")
    (λ t, Ok t.2).
#[export] Instance demo_keyed_cells : HashTable (Cells * list string) := {
  hget t key field := hget t.1 key field;
  hset t key field v := Ok ((key, field, v) :: t.1, t.2);
}.

Definition demo_dpus : Cells :=
  [("dpu0", "swbus_port", "50000"); ("dpu0", "dpu_id", "0"); ("dpu1", "swbus_port", "50001"); ("dpu1", "dpu_id", "1")].
Definition demo_remotes : Cells :=
  [("dpu8", "type", "cluster"); ("dpu8", "swbus_port", "50001"); ("dpu8", "dpu_id", "1"); ("dpu8", "npu_ipv4", "10.0.0.2")].
(** One switch has both address families, the other IPv4 only. *)
Definition demo_db_a := demo_config_db ["Loopback0|10.0.0.1/32"; "Loopback0|fc00:1::32/128"] demo_dpus ["dpu0"; "dpu1"] demo_remotes ["dpu8"].
Definition demo_db_b := demo_config_db ["Loopback0|10.0.0.2/32"] demo_dpus ["dpu0"; "dpu1"] [] [].

Definition demo_cfg (db : ConfigDb (Cells * list string)) (i : Z) : SwbusConfig :=
  match load_config db i with Done (Ok c) => c | _ => mkSwbusConfig (V4 (mkIpv4 0 0 0 0), 0%Z) [] [] None None end.

Example demo_cfg_a1 : cfg_endpoint (demo_cfg demo_db_a 1) = (V4 (mkIpv4 10 0 0 1), 50001%Z) ∧
  (route_key_path <$> cfg_routes (demo_cfg demo_db_a 1)) =
    [mkPath "region-a" "cluster-a" "10.0.0.1-dpu1" "" "" "" ""; mkPath "region-a" "cluster-a" "fc00:1::32-dpu1" "" "" "" ""].
Proof. split; reflexivity. Qed.

Lemma config_well_typed_witness :
  ∃ region cluster, device_is demo_db_a region cluster ∧ config_typed region cluster (demo_cfg demo_db_a 0).
Proof. apply (config_well_typed demo_db_a 0). reflexivity. Defined.

Lemma config_siblings_peer_witness : sees (demo_cfg demo_db_a 0) (demo_cfg demo_db_a 1) ∧ sees (demo_cfg demo_db_a 1) (demo_cfg demo_db_a 0).
Proof. apply (config_siblings_peer demo_db_a 0 1); [discriminate|reflexivity|reflexivity]. Defined.

Lemma config_mesh_witness : sees (demo_cfg demo_db_a 0) (demo_cfg demo_db_b 1).
Proof.
  apply (config_mesh demo_db_a demo_db_b 0 1 _ _ "region-a" "cluster-a" (Some (mkIpv4 10 0 0 2)) None
    (demo_remotes, ["dpu8"]) ["dpu8"] "dpu8" (mkRemoteEntry (Some "cluster") (Some 50001%Z) 1 (Some "10.0.0.2") None)).
  - reflexivity.
  - reflexivity.
  - reflexivity.
  - reflexivity.
  - reflexivity.
  - split; reflexivity.
  - left.
  - reflexivity.
  - reflexivity.
  - reflexivity.
  - reflexivity.
  - split; [reflexivity|exact I].
Defined.
