(* ===== verification/Container.v ===== *)
(** The container tool: starts, stops, kills and waits for the container of a
    feature, and records its owner in Redis. Models crates/container/src. The
    databases, the docker daemon, the clock and the configuration file are
    parameters. *)
From S2P Require Import Prelude RustStr.

Open Scope stdpp_scope.

(** A Redis database, hash by hash: [hgetall] and [hset] of a key. *)
Class Redis (Db : Type) := {
  hgetall : Db → string → result (gmap string string) string;
  redis_hset : Db → string → string → string → result Db string;
}.
(** Documented behaviour: [hset] writes one field of one hash. *)
Class RedisLaws (Db : Type) `{!Redis Db} := {
  redis_hset_same : ∀ d d' k f v, redis_hset d k f v = Ok d' → ∀ h, hgetall d k = Ok h → hgetall d' k = Ok (<[f := v]> h);
  redis_hset_other : ∀ d d' k f v k', redis_hset d k f v = Ok d' → k' ≠ k → hgetall d' k' = hgetall d k';
}.

(** [CxxStr::to_str]: the bytes, if they are UTF-8. *)
Class Utf8 := { valid_utf8 : string → bool }.

Inductive ContainerError : Type :=
| JSONParse (e : string)
| JSONData (e : string)
| DockerError (e : string)
| IO (e : string)
| Swsscommon (e : string)
| UTF8.

(** What is asked of the docker daemon. *)
Inductive DockerCall : Type :=
| DockerConnect
| StartContainer (name : string)
| StopContainer (name : string) (t : option Z)
| KillContainer (name signal : string)
| WaitContainer (name condition : string).

(** The daemon: the answer to a call after those made before, and the environment
    variables [inspect_container] reports, when it has a configuration with one. *)
Record Docker : Type := mkDocker {
  docker_answer : list DockerCall → DockerCall → result unit string;
  docker_env : list DockerCall → result (option (option (list string))) string;
}.
Record StartFlags : Type := mkStartFlags { StartLocal : bool; StartKube : bool }.

Section Container.
Context {Db : Type} `{!Redis Db} `{!Utf8} {Json : Type}.

(** [Container] and its [DbConnections], and what it runs against: [now] is the
    formatted time, [others n] what other processes do to STATE_DB in the n-th sleep. *)
Record Container : Type := mkContainer {
  feature : string;
  config_db : Db;
  remote_ctr_enabled : bool;
  docker : Docker;
  now : string;
  ctr_config : result (result Json string) string;
  as_object : Json → option (gmap string Json);
  as_u64 : Json → option Z;
  others : nat → Db → Db;
}.
Record ContainerSt : Type := mkContainerSt {
  state_db : Db;
  docker_calls : list DockerCall;
  slept : nat;
  printed : list string;
}.
Definition with_db (d : Db) (s : ContainerSt) : ContainerSt := mkContainerSt d (docker_calls s) (slept s) (printed s).

Abbreviation C := (M ContainerSt ContainerError).
Context (c : Container).

Definition to_str (v : string) : C string := if valid_utf8 v then ret v else throw UTF8.

Definition get_config_data (field : string) : C Json :=
  match ctr_config c with
  | Err e => throw (IO e)
  | Ok (Err e) => throw (JSONParse e)
  | Ok (Ok data) =>
      match as_object c data with
      | None => throw (JSONData "config file isn't an object at the top level")
      | Some fields => match fields !! field with
                       | Some v => ret v
                       | None => throw (JSONData ("field " +:+ field +:+ " not found"))
                       end
      end
  end.

(** The loop of [read_data] over the fields and their defaults. *)
Fixpoint read_fields (data : gmap string string) (fields : list (string * string)) : C (gmap string string) :=
  match fields with
  | [] => ret ∅
  | (field, default) :: fields' =>
      let* v := match data !! field with Some value => to_str value | None => ret default end in
      let* rest := read_fields data fields' in
      ret (<[field := v]> rest)
  end.
Definition table_name_of (key : string) : string := if bool_decide (key = "SERVER") then "KUBERNETES_MASTER" else "FEATURE".
Definition read_data (db : Db) (key : string) (fields : gmap string string) : C (gmap string string) :=
  match hgetall db (table_name_of key +:+ "|" +:+ key) with
  | Ok data => read_fields data (map_to_list fields)
  | Err e => throw (Swsscommon e)
  end.

Definition config_defaults : gmap string string :=
  {["set_owner" := "local"; "no_fallback_to_local" := "False"; "state" := "disabled"]}.
Definition state_defaults : gmap string string :=
  {["current_owner" := "local"; "remote_state" := "none"; "container_id" := ""]}.
Definition server_defaults : gmap string string := {["connected" := "false"; "update_time" := ""]}.

Definition read_config : C (gmap string string) := read_data (config_db c) (feature c) config_defaults.
Definition read_state : C (gmap string string) :=
  let* s := get_state in read_data (state_db s) (feature c) state_defaults.
Definition read_server_state : C (gmap string string) :=
  let* s := get_state in read_data (state_db s) "SERVER" server_defaults.
(** [fields.get(field).unwrap()] *)
Definition field_of (fields : gmap string string) (field : string) : C string := unwrap field (fields !! field).

Definition set_label (feature : string) (create : bool) : C unit :=
  if remote_ctr_enabled c then
    let* s := get_state in
    match redis_hset (state_db s) "KUBE_LABELS" ("SET|" +:+ feature +:+ "_enabled") (if create then "true" else "false") with
    | Ok d => modify (with_db d)
    | Err e => throw (Swsscommon e)
    end
  else ret tt.

(** One field of [update_data], whose error is ignored. *)
Definition update_field (kv : string * string) : C unit :=
  let* s := get_state in
  match redis_hset (state_db s) "FEATURE" (feature c +:+ "|" +:+ kv.1) kv.2 with
  | Ok d => modify (with_db d)
  | Err _ => ret tt
  end.
Definition update_data (data : gmap string string) : C unit :=
  if remote_ctr_enabled c then for_each update_field (map_to_list data) else ret tt.

Definition call_docker (call : DockerCall) : C unit :=
  let* s := get_state in
  modify (λ s, mkContainerSt (state_db s) (docker_calls s ++ [call]) (slept s) (printed s));;;
  match docker_answer (docker c) (docker_calls s) call with Ok _ => ret tt | Err e => throw (DockerError e) end.

(** [container_version]: the first IMAGE_VERSION of the environment. *)
Fixpoint image_version (envs : list string) : C (option string) :=
  match envs with
  | [] => ret None
  | env :: envs' => if starts_with env "IMAGE_VERSION=" then let* v := unwrap "index" (split "="%char env !! 1) in ret (Some v)
                    else image_version envs'
  end.
Definition container_version : C (option string) :=
  let* s := get_state in
  let* config := unwrap_result (E:=string) "Error getting the version of container" (of_result (docker_env (docker c) (docker_calls s))) in
  match config with Some (Some envs) => image_version envs | _ => ret None end.

Definition container_id : C string :=
  let* s := get_state in
  let* data := unwrap_result (E:=string) "Unable to get data" (of_result (hgetall (state_db s) ("FEATURE|" +:+ feature c))) in
  let* owner := match data !! "current_owner" with
                | Some value => unwrap_result (E:=ContainerError) "to_str" (to_str value)
                | None => ret ""
                end in
  if bool_decide (owner = "local") then ret (feature c)
  else match data !! "container_id" with
       | Some value => unwrap_result (E:=ContainerError) "to_str" (to_str value)
       | None => ret (feature c)
       end.

Definition container_start : C unit :=
  let* feature_config := read_config in
  let* feature_state := read_state in
  let* server_state := read_server_state in
  let data : gmap string string := {["system_state" := "up"; "update_time" := now c]} in
  let* set_owner := field_of feature_config "set_owner" in
  let* decided :=
    if bool_decide (set_owner = "local") then ret (mkStartFlags true false, data)
    else
      let* no_fallback := field_of feature_config "no_fallback_to_local" in
      let* fall_back :=
        if bool_decide (no_fallback = "False") then
          let* remote_state := field_of feature_state "remote_state" in
          if bool_decide (remote_state = "none") then ret true
          else let* connected := field_of server_state "connected" in ret (bool_decide (connected = "false"))
        else ret false in
      if fall_back : bool then ret (mkStartFlags true true, <["remote_state" := "none"]> data)
      else ret (mkStartFlags false true, data) in
  let start_val := decided.1 in
  let* data :=
    if StartLocal start_val then
      let data := <["container_id" := feature c]> (<["current_owner" := "local"]> decided.2) in
      if negb (StartKube start_val) then set_label (feature c) false;;; ret (<["remote_state" := "none"]> data)
      else ret data
    else ret decided.2 in
  update_data data;;;
  (if StartLocal start_val then call_docker DockerConnect;;; call_docker (StartContainer (feature c)) else ret tt);;;
  (if StartKube start_val then set_label (feature c) true else ret tt).

Definition container_stop (timeout : option Z) : C unit :=
  let* feature_config := read_config in
  let* feature_state := read_state in
  let* docker_id := container_id in
  let* set_owner := field_of feature_config "set_owner" in
  call_docker DockerConnect;;;
  when (negb (bool_decide (set_owner = "local"))) (set_label (feature c) false);;;
  when (negb (is_empty docker_id)) (call_docker (StopContainer (feature c) timeout));;;
  let data : gmap string string :=
    {["current_owner" := "none"; "system_state" := "down"; "container_id" := ""; "update_time" := now c]} in
  let* remote_state := field_of feature_state "remote_state" in
  update_data (if bool_decide (remote_state = "running") then <["remote_state" := "stopped"]> data else data).

Definition container_kill : C unit :=
  let* feature_config := read_config in
  let* feature_state := read_state in
  let* docker_id := container_id in
  let* set_owner := field_of feature_config "set_owner" in
  let* remove_label :=
    if negb (bool_decide (set_owner = "local")) then ret true
    else let* current_owner := field_of feature_state "current_owner" in ret (negb (bool_decide (current_owner = "local"))) in
  when remove_label (set_label (feature c) false);;;
  let* enabled :=
    if bool_decide (set_owner = "local") then
      let* current_state := field_of feature_state "state" in
      ret (bool_decide (current_state = "enabled") || bool_decide (current_state = "always_enabled"))
    else ret true in
  if enabled : bool then
    call_docker DockerConnect;;;
    when (negb (is_empty docker_id)) (call_docker (KillContainer (feature c) "SIGINT"))
  else modify (λ s, mkContainerSt (state_db s) (docker_calls s) (slept s) (printed s ++ [feature c +:+ " is not enabled"])).

(** ** [wait] *)

Definition DEFAULT_PEND_SECS : Z := 5 * 60.
Definition WAIT_POLL_SECS : Z := 2.
(** The seconds to wait for a remote container: [value as u32] of the file's. *)
Definition pend_seconds : C Z :=
  let* r := attempt (get_config_data "revert_to_local_on_wait_seconds") in
  match r with
  | Ok value => match as_u64 c value with Some n => ret (n mod 2 ^ 32)%Z | None => ret DEFAULT_PEND_SECS end
  | Err _ => ret DEFAULT_PEND_SECS
  end.
Definition sleep_poll : C unit :=
  modify (λ s, mkContainerSt (others c (slept s) (state_db s)) (docker_calls s) (S (slept s)) (printed s)).

(** The loop, while the id is empty. *)
Fixpoint wait_loop (fuel : nat) (feature_config : gmap string string) (docker_id : string) (pend : Z) : C unit :=
  if negb (is_empty docker_id) then ret tt
  else
    match fuel with
    | O => out_of_fuel
    | S fuel' =>
        let* no_fallback := field_of feature_config "no_fallback_to_local" in
        let falls_back := bool_decide (no_fallback = "False") in
        if falls_back && (pend <? WAIT_POLL_SECS)%Z then ret tt
        else
          let pend := if falls_back then (pend - WAIT_POLL_SECS)%Z else pend in
          sleep_poll;;;
          let* feature_state := read_state in
          let* docker_id := field_of feature_state "container_id" in
          let* remote_state := field_of feature_state "remote_state" in
          when (bool_decide (remote_state = "pending")) (update_data {["remote_state" := "ready"]});;;
          wait_loop fuel' feature_config docker_id pend
    end.
Definition container_wait (fuel : nat) : C unit :=
  let* feature_config := read_config in
  let* docker_id := container_id in
  call_docker DockerConnect;;;
  (if bool_decide (docker_id = feature c) then
     let* version := container_version in
     match version with Some version => update_data {["container_stable_version" := version]} | None => ret tt end
   else ret tt);;;
  let* pend :=
    if is_empty docker_id then
      let* no_fallback := field_of feature_config "no_fallback_to_local" in
      if bool_decide (no_fallback = "False") then pend_seconds else ret 0%Z
    else ret 0%Z in
  wait_loop fuel feature_config docker_id pend;;;
  call_docker (WaitContainer (feature c) "not-running").

(** [main]: the action asked for; [id] prints the container's. *)
Inductive Action : Type := Start | Stop | Kill | Wait | Id.
Definition container_main (fuel : nat) (action : Action) (timeout : option Z) : C unit :=
  match action with
  | Start => container_start
  | Stop => container_stop timeout
  | Kill => container_kill
  | Wait => container_wait fuel
  | Id => let* id := container_id in
          modify (λ s, mkContainerSt (state_db s) (docker_calls s) (slept s) (printed s ++ [id]))
  end.
End Container.
Arguments Container : clear implicits. Arguments ContainerSt : clear implicits.
