(* ===== verification/ContainerTheory.v ===== *)
(** Theorems about the container tool: what starting decides, that its records
    are never read back, that local containers are never killed, and that
    waiting with a fallback ends; with concrete features. *)
From S2P Require Import Prelude RustStr Container.

Open Scope stdpp_scope.

Section Theory.
Context {Db : Type} `{!Redis Db, !RedisLaws Db} `{!Utf8} {Json : Type}.
Context (c : Container Db Json).
Implicit Types s : ContainerSt Db.

(** * Reading *)

(** It returns without changing the state. *)
Definition looks {A} (m : M (ContainerSt Db) ContainerError A) : Prop := ∀ s, ∃ r, m s = Done (r, s).
Lemma looks_ret {A} (a : A) : looks (ret a).
Proof. intros s. by eexists. Qed.
Lemma looks_bind {A B} (m : M (ContainerSt Db) ContainerError A) (k : A → M (ContainerSt Db) ContainerError B) :
  looks m → (∀ a, looks (k a)) → looks (bind m k).
Proof.
  intros Hm Hk s. destruct (Hm s) as [[a|e] Hr]; [rewrite (bind_done _ _ _ _ _ Hr)|rewrite (bind_err _ _ _ _ _ Hr)]; [apply Hk|by eexists].
Qed.

(** The fields of the defaults are there, and no others. *)
Lemma read_fields_run data (fields : list (string * string)) s :
  (∃ e, read_fields data fields s = Done (Err e, s)) ∨
  ∃ m, read_fields data fields s = Done (Ok m, s) ∧ ∀ f, is_Some (m !! f) ↔ f ∈ fields.*1.
Proof.
  induction fields as [|[f d] fields IH]; cbn [read_fields].
  - right. exists ∅. split; [done|]. intros f. rewrite lookup_empty. split; [by intros [? [=]]|]. by intros ?%elem_of_nil.
  - assert ((∃ e, (match data !! f with Some v => to_str v | None => ret d end) s = Done (Err e, s)) ∨
      ∃ v, (match data !! f with Some v => to_str v | None => ret d end) s = Done (Ok v, s)) as [[e He]|[v Hv]].
    { destruct (data !! f) as [v|]; [|right; by eexists]. unfold to_str. destruct (valid_utf8 v); [right|left]; by eexists. }
    { left. exists e. by rewrite (bind_err _ _ _ _ _ He). }
    rewrite (bind_done _ _ _ _ _ Hv). destruct IH as [[e He]|(m & Hm & Hdom)].
    { left. exists e. by rewrite (bind_err _ _ _ _ _ He). }
    right. exists (<[f := v]> m). rewrite (bind_done _ _ _ _ _ Hm). split; [done|]. intros g. rewrite fmap_cons, elem_of_cons, <- Hdom.
    destruct (decide (g = f)) as [->|Hne].
    + rewrite lookup_insert_eq. split; [by left|by eexists].
    + rewrite lookup_insert_ne by done. split; [by right|]. by intros [?|?].
Qed.

Lemma read_data_run db key fields s :
  (∃ e, read_data db key fields s = Done (Err e, s)) ∨
  ∃ m, read_data db key fields s = Done (Ok m, s) ∧ dom m = dom fields.
Proof.
  unfold read_data. destruct (hgetall db _) as [data|e]; [|left; by eexists].
  destruct (read_fields_run data (map_to_list fields) s) as [?|(m & Hm & Hdom)]; [by left|].
  right. exists m. split; [done|]. apply set_eq. intros f. rewrite !elem_of_dom, Hdom. rewrite list_elem_of_fmap. split.
  - intros ((g & v) & -> & Hin%elem_of_map_to_list). by exists v.
  - intros [v Hv]. exists (f, v). split; [done|]. by apply elem_of_map_to_list.
Qed.

Lemma field_of_run (fields defaults : gmap string string) f s :
  dom fields = dom defaults → is_Some (defaults !! f) → ∃ v, fields !! f = Some v ∧ field_of fields f s = Done (Ok v, s).
Proof.
  intros Hdom Hd. assert (f ∈ dom fields) as [v Hv]%elem_of_dom by (rewrite Hdom; by apply elem_of_dom). exists v. split; [done|]. unfold field_of. by rewrite Hv.
Qed.
Lemma decide_some (a b : string) : bool_decide (Some a = Some b) = bool_decide (a = b).
Proof. apply bool_decide_ext. split; [by intros [= ->]|by intros ->]. Qed.

Abbreviation config_dom := (dom config_defaults).
Abbreviation state_dom := (dom state_defaults).
Abbreviation server_dom := (dom server_defaults).

(** * What writing leaves alone *)

Lemma feature_key_ne x : "FEATURE|" +:+ x ≠ "FEATURE" ∧ "FEATURE|" +:+ x ≠ "KUBE_LABELS".
Proof. split; discriminate. Qed.

(** The hashes of the features are as they were. *)
Definition same_features (s s' : ContainerSt Db) : Prop :=
  ∀ x, hgetall (state_db s') ("FEATURE|" +:+ x) = hgetall (state_db s) ("FEATURE|" +:+ x).
#[local] Instance same_features_refl : Reflexive same_features.
Proof. by intros s x. Qed.
#[local] Instance same_features_trans : Transitive same_features.
Proof. intros s1 s2 s3 H1 H2 x. by rewrite H2. Qed.

Lemma hset_features d k f v s : redis_hset (state_db s) k f v = Ok d → k = "FEATURE" ∨ k = "KUBE_LABELS" →
  same_features s (with_db d s).
Proof.
  intros Hset Hk x. cbn. apply (redis_hset_other _ _ _ _ _ _ Hset). destruct (feature_key_ne x). by destruct Hk as [->| ->].
Qed.

Lemma update_data_run data s :
  ∃ s', update_data c data s = Done (Ok tt, s') ∧ same_features s s' ∧ docker_calls s' = docker_calls s ∧ slept s' = slept s ∧
    hgetall (state_db s') "KUBE_LABELS" = hgetall (state_db s) "KUBE_LABELS".
Proof.
  unfold update_data. destruct (remote_ctr_enabled c); [|by exists s].
  generalize (map_to_list data) as l. intros l. revert s. induction l as [|[k v] l IH]; intros s; [by exists s|]. cbn [for_each].
  unfold update_field at 1. cbn [fst snd]. unfold bind at 1. unfold bind at 1. cbn [get_state].
  destruct (redis_hset _ _ _ _) as [d|e] eqn:Hset; cbn.
  - destruct (IH (with_db d s)) as (s' & Hrun & Hf & Hd & Hs & Hl). exists s'. split; [exact Hrun|].
    split; [by transitivity (with_db d s); [apply (hset_features _ _ _ _ _ Hset); left|]|]. split; [done|]. split; [done|].
    rewrite Hl. cbn. by apply (redis_hset_other _ _ _ _ _ _ Hset).
  - apply IH.
Qed.

Lemma set_label_run f b s :
  (∃ e, set_label c f b s = Done (Err e, s)) ∨
  ∃ s', set_label c f b s = Done (Ok tt, s') ∧ same_features s s' ∧ docker_calls s' = docker_calls s ∧ slept s' = slept s ∧
    (remote_ctr_enabled c = true → ∀ h, hgetall (state_db s) "KUBE_LABELS" = Ok h →
       hgetall (state_db s') "KUBE_LABELS" = Ok (<["SET|" +:+ f +:+ "_enabled" := if b then "true" else "false"]> h)).
Proof.
  unfold set_label. destruct (remote_ctr_enabled c); [|right; by exists s]. rewrite bind_get.
  destruct (redis_hset _ _ _ _) as [d|e] eqn:Hset; [right|left; by eexists]. exists (with_db d s). split; [done|].
  split; [apply (hset_features _ _ _ _ _ Hset); by right|]. split; [done|]. split; [done|]. intros _ h Hh. by apply (redis_hset_same _ _ _ _ _ Hset).
Qed.

Lemma call_docker_run call s :
  ∃ r s', call_docker c call s = Done (r, s') ∧ state_db s' = state_db s ∧ docker_calls s' = docker_calls s ++ [call] ∧ slept s' = slept s.
Proof. unfold call_docker. rewrite bind_get, bind_modify. destruct (docker_answer _ _ _); by eexists _, _. Qed.

(** ** Frames *)

Abbreviation keeps m := (preserves same_features m).
Lemma looks_keeps {A} (m : M (ContainerSt Db) ContainerError A) : looks m → keeps m.
Proof. intros Hm s r s' Hrun. destruct (Hm s) as [r' Hr]. rewrite Hr in Hrun. by inv_done. Qed.
Lemma read_data_looks db key fields : looks (read_data db key fields).
Proof. intros s. destruct (read_data_run db key fields s) as [[e He]|(m & Hm & _)]; by eexists. Qed.
Lemma read_config_keeps : keeps (read_config c).
Proof. apply looks_keeps, read_data_looks. Qed.
Lemma read_state_keeps : keeps (read_state c).
Proof. apply looks_keeps. intros s. apply read_data_looks. Qed.
Lemma read_server_state_keeps : keeps read_server_state.
Proof. apply looks_keeps. intros s. apply read_data_looks. Qed.
Lemma field_of_keeps (m : gmap string string) f : keeps (field_of m f).
Proof. unfold field_of. frame. Qed.
Lemma to_str_keeps v : keeps (to_str v).
Proof. unfold to_str. frame. Qed.
Lemma container_id_keeps : keeps (container_id c).
Proof.
  unfold container_id. apply preserves_bind; [typeclasses eauto|apply preserves_get; typeclasses eauto|]. intros s0.
  apply preserves_bind; [typeclasses eauto| |intros data; frame; apply to_str_keeps].
  frame_step. apply preserves_of_result. typeclasses eauto.
Qed.
Lemma update_data_keeps data : keeps (update_data c data).
Proof. intros s r s' Hr. destruct (update_data_run data s) as (s1 & Hrun & Hf & _). rewrite Hrun in Hr. by inv_done. Qed.
Lemma set_label_keeps f b : keeps (set_label c f b).
Proof.
  intros s r s' Hr. destruct (set_label_run f b s) as [[e He]|(s1 & Hrun & Hf & _)]; [rewrite He in Hr|rewrite Hrun in Hr]; by inv_done.
Qed.
Lemma call_docker_keeps call : keeps (call_docker c call).
Proof.
  intros s r s' Hr x. destruct (call_docker_run call s) as (r1 & s1 & Hrun & Hdb & _). rewrite Hrun in Hr. inv_done. by rewrite Hdb.
Qed.
Lemma print_keeps t : keeps (modify (E:=ContainerError) (λ s, mkContainerSt (state_db s) (docker_calls s) (slept s) (printed s ++ t s))).
Proof. apply preserves_modify. by intros s x. Qed.
#[local] Hint Resolve read_config_keeps read_state_keeps read_server_state_keeps field_of_keeps container_id_keeps
  update_data_keeps set_label_keeps call_docker_keeps print_keeps : frame.

Lemma start_keeps : keeps (container_start c).
Proof. unfold container_start. frame. Qed.
Lemma stop_keeps t : keeps (container_stop c t).
Proof. unfold container_stop. frame. Qed.
Lemma kill_keeps : keeps (container_kill c).
Proof. unfold container_kill. frame. Qed.
(** Who the container of a feature is, is read from the feature's hash. *)
Lemma container_id_same s s' r :
  same_features s s' → container_id c s = Done (r, s) → container_id c s' = Done (r, s').
Proof.
  intros Hf. unfold container_id. rewrite !bind_get, (Hf (feature c)).
  destruct (hgetall (state_db s) ("FEATURE|" +:+ feature c)) as [data|e]; [|done].
  unfold unwrap_result, of_result, attempt, bind, to_str, ret, throw, panic.
  destruct (data !! "current_owner") as [o|]; [destruct (valid_utf8 o); [|done]|];
    (destruct (bool_decide _); [by intros [= <-]|]);
    (destruct (data !! "container_id") as [i|]; [destruct (valid_utf8 i)|]; [by intros [= <-]|done|by intros [= <-]] || by intros [= <-]).
Qed.

(** * Starting *)

(** When [start] starts the container here: its owner is local, or it may fall
    back and is not known to run, or the server is not connected. *)
Definition starts_here (cfg st srv : gmap string string) : bool :=
  bool_decide (cfg !! "set_owner" = Some "local") ||
  (bool_decide (cfg !! "no_fallback_to_local" = Some "False") &&
   (bool_decide (st !! "remote_state" = Some "none") || bool_decide (srv !! "connected" = Some "false"))).

(** The end of [start], once decided. *)
Definition start_rest (here kube : bool) (data0 : gmap string string) : M (ContainerSt Db) ContainerError unit :=
  let* data :=
    if here then
      let data := <["container_id" := feature c]> (<["current_owner" := "local"]> data0) in
      if negb kube then set_label c (feature c) false;;; ret (<["remote_state" := "none"]> data)
      else ret data
    else ret data0 in
  update_data c data;;;
  (if here then call_docker c DockerConnect;;; call_docker c (StartContainer (feature c)) else ret tt);;;
  (if kube then set_label c (feature c) true else ret tt).

Lemma container_start_eq cfg st srv s :
  read_config c s = Done (Ok cfg, s) → read_state c s = Done (Ok st, s) → read_server_state s = Done (Ok srv, s) →
  dom cfg = config_dom → dom st = state_dom → dom srv = server_dom →
  ∃ data0, container_start c s =
    start_rest (starts_here cfg st srv) (negb (bool_decide (cfg !! "set_owner" = Some "local"))) data0 s.
Proof.
  intros Hc Hs Hv Hdc Hds Hdv. unfold container_start.
  rewrite (bind_done _ _ _ _ _ Hc), (bind_done _ _ _ _ _ Hs), (bind_done _ _ _ _ _ Hv). cbn zeta.
  destruct (field_of_run cfg config_defaults "set_owner" s Hdc ltac:(by eexists)) as (owner & Ho & Hor).
  destruct (field_of_run cfg config_defaults "no_fallback_to_local" s Hdc ltac:(by eexists)) as (nofb & Hn & Hnr).
  destruct (field_of_run st state_defaults "remote_state" s Hds ltac:(by eexists)) as (rs & Hr & Hrr).
  destruct (field_of_run srv server_defaults "connected" s Hdv ltac:(by eexists)) as (cn & Hcn & Hcnr).
  unfold starts_here. rewrite Ho, Hn, Hr, Hcn, (bind_done _ _ _ _ _ Hor).
  rewrite !decide_some. destruct (bool_decide (owner = "local")); [by eexists|]. cbn [orb negb].
  destruct (bool_decide (nofb = "False")) eqn:Hnf; cbn [andb].
  - destruct (bool_decide (rs = "none")) eqn:Hrn; cbn [orb].
    + erewrite bind_done by (rewrite (bind_done _ _ _ _ _ Hnr), Hnf, bind_bind, (bind_done _ _ _ _ _ Hrr), Hrn; reflexivity). eexists. reflexivity.
    + destruct (bool_decide (cn = "false")) eqn:Hc0; erewrite bind_done by
        (rewrite (bind_done _ _ _ _ _ Hnr), Hnf, bind_bind, (bind_done _ _ _ _ _ Hrr), Hrn, bind_bind, (bind_done _ _ _ _ _ Hcnr), Hc0;
        reflexivity); eexists; reflexivity.
  - erewrite bind_done by (rewrite (bind_done _ _ _ _ _ Hnr), Hnf; reflexivity). eexists. reflexivity.
Qed.

(** Connecting to the daemon and one call. *)
Lemma docker_once call s :
  ∃ r s', (call_docker c DockerConnect;;; call_docker c call) s = Done (r, s') ∧ state_db s' = state_db s ∧ slept s' = slept s ∧
    (r = Ok tt → docker_calls s' = docker_calls s ++ [DockerConnect; call]).
Proof.
  destruct (call_docker_run DockerConnect s) as ([[]|e] & s1 & H1 & Hdb1 & Hd1 & Hs1).
  - rewrite (bind_done _ _ _ _ _ H1). destruct (call_docker_run call s1) as (r & s2 & H2 & Hdb2 & Hd2 & Hs2).
    exists r, s2. split; [done|]. split; [congruence|]. split; [congruence|]. intros _. by rewrite Hd2, Hd1, <- app_assoc.
  - rewrite (bind_err _ _ _ _ _ H1). by exists (Err e), s1.
Qed.

Definition label_field : string := "SET|" +:+ feature c +:+ "_enabled".
(** The label is written, once there is a hash of labels. *)
Definition labelled (b : bool) s s' : Prop :=
  remote_ctr_enabled c = true → ∀ h, hgetall (state_db s) "KUBE_LABELS" = Ok h →
    ∃ h', hgetall (state_db s') "KUBE_LABELS" = Ok h' ∧ h' !! label_field = Some (if b then "true" else "false").

(** What the end of [start] did when it succeeds. *)
Lemma start_rest_run here kube data0 s :
  here = true ∨ kube = true →
  ∃ r s', start_rest here kube data0 s = Done (r, s') ∧
    (r = Ok tt → docker_calls s' = docker_calls s ++ (if here then [DockerConnect; StartContainer (feature c)] else []) ∧
       labelled kube s s').
Proof.
  intros Hone. unfold start_rest.
  assert (∃ data s1, (if here then
      let data := <["container_id" := feature c]> (<["current_owner" := "local"]> data0) in
      if negb kube then set_label c (feature c) false;;; ret (<["remote_state" := "none"]> data) else ret data
    else ret data0) s = Done (data, s1) ∧ (∀ d, data = Ok d →
      docker_calls s1 = docker_calls s ∧ (kube = false → labelled false s s1) ∧ (kube = true → s1 = s))) as (data & s1 & Hrun & Hs1).
  { destruct here; [|destruct kube; [by exists (Ok data0), s|by destruct Hone]]. destruct kube; cbn [negb]; [by eexists (Ok _), s|].
    destruct (set_label_run (feature c) false s) as [[e He]|(s1 & H1 & _ & Hd & _ & Hl)];
      [rewrite (bind_err _ _ _ _ _ He); by exists (Err e), s|rewrite (bind_done _ _ _ _ _ H1)].
    eexists _, s1. split; [reflexivity|]. intros d _. split; [done|]. split; [|done]. intros _ Hr h Hh.
    eexists. split; [by apply Hl|]. apply lookup_insert_eq. }
  destruct data as [d|e]; [rewrite (bind_done _ _ _ _ _ Hrun)|rewrite (bind_err _ _ _ _ _ Hrun); by exists (Err e), s1].
  destruct (Hs1 d eq_refl) as (Hd1 & Hl1 & Heq). clear Hs1 Hrun.
  destruct (update_data_run d s1) as (s2 & Hrun2 & _ & Hd2 & _ & Hl2). rewrite (bind_done _ _ _ _ _ Hrun2). clear Hrun2.
  assert (∃ r s3, (if here then call_docker c DockerConnect;;; call_docker c (StartContainer (feature c)) else ret tt) s2 = Done (r, s3) ∧
    state_db s3 = state_db s2 ∧ (r = Ok tt → docker_calls s3 = docker_calls s2 ++ (if here then [DockerConnect; StartContainer (feature c)] else [])))
    as (r & s3 & Hrun3 & Hdb3 & Hd3).
  { destruct here; [destruct (docker_once (StartContainer (feature c)) s2) as (r & s3 & ? & ? & _ & ?); by exists r, s3|].
    exists (Ok tt), s2. by rewrite app_nil_r. }
  destruct r as [[]|e]; [rewrite (bind_done _ _ _ _ _ Hrun3)|rewrite (bind_err _ _ _ _ _ Hrun3); by exists (Err e), s3].
  specialize (Hd3 eq_refl). rewrite Hd2, Hd1 in Hd3. clear Hrun3. destruct kube.
  - destruct (set_label_run (feature c) true s3) as [[e He]|(s4 & H4 & _ & Hd4 & _ & Hl4)]; [by exists (Err e), s3|].
    exists (Ok tt), s4. split; [done|]. intros _. split; [by rewrite Hd4|]. intros Hr h Hh. eexists. split.
    + apply (Hl4 Hr h). rewrite Hdb3, Hl2. by rewrite (Heq eq_refl).
    + apply lookup_insert_eq.
  - exists (Ok tt), s3. split; [done|]. intros _. split; [done|]. intros Hr h Hh. rewrite Hdb3, Hl2. by apply (Hl1 eq_refl Hr h).
Qed.

Lemma read_config_run s : (∃ e, read_config c s = Done (Err e, s)) ∨ ∃ m, read_config c s = Done (Ok m, s) ∧ dom m = config_dom.
Proof. apply read_data_run. Qed.
Lemma read_state_run s : (∃ e, read_state c s = Done (Err e, s)) ∨ ∃ m, read_state c s = Done (Ok m, s) ∧ dom m = state_dom.
Proof. apply read_data_run. Qed.
Lemma read_server_run s : (∃ e, read_server_state s = Done (Err e, s)) ∨ ∃ m, read_server_state s = Done (Ok m, s) ∧ dom m = server_dom.
Proof. apply read_data_run. Qed.

Lemma container_id_run s : (∃ w, container_id c s = Panicked w) ∨ ∃ id, container_id c s = Done (Ok id, s).
Proof.
  unfold container_id. rewrite bind_get. destruct (hgetall _ _) as [data|e]; [|left; by eexists].
  unfold unwrap_result, of_result, attempt, bind, to_str, ret, throw, panic.
  destruct (data !! "current_owner") as [o|]; [destruct (valid_utf8 o); [|left; by eexists]|];
    (destruct (bool_decide _); [right; by eexists|]);
    (destruct (data !! "container_id") as [i|]; [destruct (valid_utf8 i)|]); (left; by eexists) || (right; by eexists).
Qed.

(** * Waiting *)

Lemma pend_seconds_run : ∃ p, (0 ≤ p)%Z ∧ ∀ s, pend_seconds c s = Done (Ok p, s).
Proof.
  unfold pend_seconds, get_config_data, attempt, bind. destruct (ctr_config c) as [[data|e]|e];
    [|by exists DEFAULT_PEND_SECS..].
  destruct (as_object c data) as [fields|]; [|by exists DEFAULT_PEND_SECS].
  destruct (fields !! _) as [v|]; [|by exists DEFAULT_PEND_SECS]. unfold ret. destruct (as_u64 c v) as [n|]; [|by exists DEFAULT_PEND_SECS].
  exists (n mod 2 ^ 32)%Z. split; [|done]. by apply Z.mod_pos_bound.
Qed.

(** With a fallback, each poll takes two seconds off. *)
Lemma wait_loop_run cfg fuel : cfg !! "no_fallback_to_local" = Some "False" → ∀ id pend s,
  (0 ≤ pend < 2 * Z.of_nat fuel)%Z →
  ∃ r s', wait_loop c fuel cfg id pend s = Done (r, s') ∧ docker_calls s' = docker_calls s ∧
    (2 * (Z.of_nat (slept s') - Z.of_nat (slept s)) ≤ pend)%Z.
Proof.
  intros Hnf. induction fuel as [|fuel IH]; intros id pend s Hp; [lia|]. cbn [wait_loop].
  destruct (negb (is_empty id)); [exists (Ok tt), s; split; [done|]; split; [done|lia]|].
  unfold field_of at 1. rewrite Hnf. cbn [unwrap]. rewrite bind_ret. cbv zeta. rewrite bool_decide_eq_true_2 by done. cbn [andb].
  destruct (Z.ltb_spec pend WAIT_POLL_SECS) as [Hlt|Hge]; [exists (Ok tt), s; split; [done|]; split; [done|lia]|].
  unfold sleep_poll. rewrite bind_modify.
  set (s1 := mkContainerSt _ _ _ _). unfold WAIT_POLL_SECS in *.
  destruct (read_state_run s1) as [[e He]|(st & Hst & Hdom)].
  { rewrite (bind_err _ _ _ _ _ He). exists (Err e), s1. split; [done|]. split; [done|]. cbn. lia. }
  rewrite (bind_done _ _ _ _ _ Hst).
  destruct (field_of_run st state_defaults "container_id" s1 Hdom ltac:(by eexists)) as (id' & _ & Hid). rewrite (bind_done _ _ _ _ _ Hid).
  destruct (field_of_run st state_defaults "remote_state" s1 Hdom ltac:(by eexists)) as (rs & _ & Hrs). rewrite (bind_done _ _ _ _ _ Hrs).
  assert (∃ s2, when (bool_decide (rs = "pending")) (update_data c {["remote_state" := "ready"]}) s1 = Done (Ok tt, s2) ∧
    docker_calls s2 = docker_calls s ∧ slept s2 = S (slept s)) as (s2 & Hw & Hd2 & Hs2).
  { destruct (bool_decide _); cbn [when]; [|by exists s1].
    destruct (update_data_run {["remote_state" := "ready"]} s1) as (s2 & Hrun & _ & Hd & Hs & _). exists s2. by rewrite Hd, Hs. }
  rewrite (bind_done _ _ _ _ _ Hw).
  destruct (IH id' (pend - 2)%Z s2 ltac:(lia)) as (r & s3 & Hrun & Hd3 & Hs3). exists r, s3. split; [done|]. split; [congruence|lia].
Qed.

Lemma container_version_run s :
  (∃ w, container_version c s = Panicked w) ∨ ∃ v, container_version c s = Done (Ok v, s).
Proof.
  unfold container_version. rewrite bind_get. destruct (docker_env _ _) as [[[envs|]|]|e]; [|right; by eexists..|left; by eexists].
  change (bind (unwrap_result _ (of_result (Ok (Some (Some envs))))) ?k s) with (k (Some (Some envs)) s). cbv beta.
  induction envs as [|env envs IH]; cbn [image_version]; [right; by eexists|]. destruct (starts_with _ _); [|apply IH].
  destruct (split _ env !! 1); [right|left]; by eexists.
Qed.

(** * The actions *)

(** C26: What [start] decides. It never panics; when it succeeds it has read the
    configuration and the state, started the container through the local daemon
    exactly if the owner is local or a fallback is allowed and needed, and left
    the label of the feature at true exactly if the owner is not local. *)
Theorem container_start_decides s :
  ∃ r s', container_start c s = Done (r, s') ∧ (r = Ok tt → ∃ cfg st srv owner,
    read_config c s = Done (Ok cfg, s) ∧ read_state c s = Done (Ok st, s) ∧ read_server_state s = Done (Ok srv, s) ∧
    cfg !! "set_owner" = Some owner ∧
    docker_calls s' = docker_calls s ++ (if starts_here cfg st srv then [DockerConnect; StartContainer (feature c)] else []) ∧
    labelled (negb (bool_decide (owner = "local"))) s s').
Proof.
  unfold container_start at 1.
  destruct (read_config_run s) as [[e He]|(cfg & Hc & Hdc)]; [rewrite (bind_err _ _ _ _ _ He); by exists (Err e), s|].
  destruct (read_state_run s) as [[e He]|(st & Hs & Hds)]; [rewrite (bind_done _ _ _ _ _ Hc), (bind_err _ _ _ _ _ He); by exists (Err e), s|].
  destruct (read_server_run s) as [[e He]|(srv & Hv & Hdv)];
    [rewrite (bind_done _ _ _ _ _ Hc), (bind_done _ _ _ _ _ Hs), (bind_err _ _ _ _ _ He); by exists (Err e), s|].
  destruct (container_start_eq cfg st srv s Hc Hs Hv Hdc Hds Hdv) as [data Hrun]. unfold container_start in Hrun. rewrite Hrun.
  destruct (field_of_run cfg config_defaults "set_owner" s Hdc ltac:(by eexists)) as (owner & Ho & _).
  edestruct (start_rest_run (starts_here cfg st srv) (negb (bool_decide (cfg !! "set_owner" = Some "local"))) data s)
    as (r & s' & Hrest & Hok).
  { unfold starts_here. destruct (bool_decide (cfg !! "set_owner" = _)); [by left|by right]. }
  exists r, s'. split; [exact Hrest|]. intros Hr. exists cfg, st, srv, owner. rewrite Ho, decide_some in Hok.
  destruct (Hok Hr) as [Hd Hl]. done.
Qed.

(** The record the tool keeps is never read back. Starting, stopping and killing
    write the hash FEATURE, while the owner and the id are read from the hash
    FEATURE|name: whatever was done, what is read of any feature is as before. *)
Theorem container_record_unread fuel action timeout s r s' :
  action ≠ Wait → container_main c fuel action timeout s = Done (r, s') →
  same_features s s' ∧ ∀ id, container_id c s = Done (Ok id, s) → container_id c s' = Done (Ok id, s').
Proof.
  intros Hw Hrun. assert (same_features s s') as Hf; [|split; [done|]; intros id; by apply container_id_same].
  destruct action; [by apply (start_keeps s r s')|by apply (stop_keeps timeout s r s')|by apply (kill_keeps s r s')|done|].
  cbn [container_main] in Hrun. revert Hrun. apply preserves_bind; [typeclasses eauto..|apply container_id_keeps|]. intros id. apply print_keeps.
Qed.

(** A container with local owner is never killed. [kill] then asks for a field
    of the state that reading the state does not provide: with the default
    owner it panics, and it never succeeds or calls docker. *)
Theorem container_local_never_killed s cfg :
  read_config c s = Done (Ok cfg, s) → cfg !! "set_owner" = Some "local" →
  (∀ r s', container_kill c s = Done (r, s') → r ≠ Ok tt ∧ docker_calls s' = docker_calls s) ∧
  (∀ st id, read_state c s = Done (Ok st, s) → st !! "current_owner" = Some "local" → container_id c s = Done (Ok id, s) →
     ∃ w, container_kill c s = Panicked w).
Proof.
  intros Hc Ho. unfold container_kill. rewrite (bind_done _ _ _ _ _ Hc).
  assert (field_of cfg "set_owner" s = Done (Ok "local", s)) as Hor by (unfold field_of; by rewrite Ho).
  assert (∀ (st : gmap string string) (k : bool → M (ContainerSt Db) ContainerError unit) s0, dom st = state_dom →
    bind (let* current_state := field_of st "state" in
          ret (bool_decide (current_state = "enabled") || bool_decide (current_state = "always_enabled")))
      k s0 = Panicked "state") as Hnone.
  { intros st k s0 Hdom. rewrite bind_bind. unfold field_of. replace (st !! "state") with (@None string); [done|]. symmetry.
    apply not_elem_of_dom. rewrite Hdom. by apply not_elem_of_dom. }
  destruct (read_state_run s) as [[e He]|(st & Hst & Hds)].
  { rewrite (bind_err _ _ _ _ _ He), He. split; [intros r s' [= <- <-]; done|done]. }
  rewrite (bind_done _ _ _ _ _ Hst), Hst.
  destruct (container_id_run s) as [[w Hid]|[id Hid]].
  { split; [|intros ? ? _ _ Hid'; by rewrite Hid in Hid']. intros r s'. unfold bind. by rewrite Hid. }
  rewrite (bind_done _ _ _ _ _ Hid), (bind_done _ _ _ _ _ Hor), bool_decide_eq_true_2 by done. cbn [negb].
  destruct (field_of_run st state_defaults "current_owner" s Hds ltac:(by eexists)) as (owner & Hcur & Hcr).
  erewrite bind_done by (rewrite (bind_done _ _ _ _ _ Hcr); reflexivity).
  assert ((∃ e, when (negb (bool_decide (owner = "local"))) (set_label c (feature c) false) s = Done (Err e, s) ∧ owner ≠ "local") ∨
    ∃ s1, when (negb (bool_decide (owner = "local"))) (set_label c (feature c) false) s = Done (Ok tt, s1)) as [(e & He & Hne)|[s1 Hl]].
  { case_bool_decide; cbn; [right; by eexists|]. destruct (set_label_run (feature c) false s) as [[e He]|(s1 & Hl & _)]; [left|right]; by eexists. }
  - rewrite (bind_err _ _ _ _ _ He). split; [intros r s' [= <- <-]; done|]. intros st' id' [= <-] Hloc _. congruence.
  - rewrite (bind_done _ _ _ _ _ Hl). rewrite !(Hnone st _ s1 Hds). split; [done|]. intros. by eexists.
Qed.

(** Waiting with a fallback ends: if the feature may fall back to local and the
    container of another place never shows up, [wait] polls for at most the
    configured seconds and then waits for the local container. *)
Theorem container_wait_falls_back s cfg pend fuel :
  read_config c s = Done (Ok cfg, s) → cfg !! "no_fallback_to_local" = Some "False" →
  pend_seconds c s = Done (Ok pend, s) → (pend < 2 * Z.of_nat fuel)%Z →
  match container_wait c fuel s with
  | OutOfFuel => False
  | Panicked _ => True
  | Done (r, s') => (2 * (Z.of_nat (slept s') - Z.of_nat (slept s)) ≤ pend)%Z ∧
      (r = Ok tt → docker_calls s' = docker_calls s ++ [DockerConnect; WaitContainer (feature c) "not-running"])
  end.
Proof.
  intros Hc Hnf Hpend Hfuel. destruct pend_seconds_run as (p & Hp0 & Hp). rewrite Hp in Hpend. injection Hpend as ->.
  unfold container_wait. rewrite (bind_done _ _ _ _ _ Hc).
  destruct (container_id_run s) as [[w Hid]|[id Hid]]; [unfold bind; by rewrite Hid|]. rewrite (bind_done _ _ _ _ _ Hid).
  destruct (call_docker_run DockerConnect s) as ([[]|e] & s1 & H1 & Hdb1 & Hd1 & Hs1);
    [rewrite (bind_done _ _ _ _ _ H1)|rewrite (bind_err _ _ _ _ _ H1); split; [lia|done]].
  match goal with |- context [bind ?m _ s1] => assert ((∃ w, m s1 = Panicked w) ∨
    ∃ s2, m s1 = Done (Ok tt, s2) ∧ docker_calls s2 = docker_calls s1 ∧ slept s2 = slept s1) as [[w Hw]|(s2 & H2 & Hd2 & Hs2)] end.
  { destruct (bool_decide _); [|right; by exists s1].
    destruct (container_version_run s1) as [[w Hw]|[[v|] Hv]].
    - left. exists w. unfold bind. by rewrite Hw.
    - right. rewrite (bind_done _ _ _ _ _ Hv). destruct (update_data_run {["container_stable_version" := v]} s1) as (s2 & ? & _ & ? & ? & _).
      by exists s2.
    - right. rewrite (bind_done _ _ _ _ _ Hv). by exists s1. }
  { unfold bind at 1. by rewrite Hw. }
  rewrite (bind_done _ _ _ _ _ H2).
  match goal with |- context [bind ?m _ s2] => assert (∃ q, m s2 = Done (Ok q, s2) ∧ (0 ≤ q ≤ pend)%Z) as (q & Hq & Hq0) end.
  { destruct (is_empty id); [|exists 0%Z; split; [done|lia]]. unfold field_of. rewrite Hnf. cbn [unwrap]. rewrite bind_ret.
    rewrite bool_decide_eq_true_2 by done. exists pend. split; [apply Hp|lia]. }
  rewrite (bind_done _ _ _ _ _ Hq).
  destruct (wait_loop_run cfg fuel Hnf id q s2 ltac:(lia)) as ([[]|e] & s3 & H3 & Hd3 & Hs3);
    [rewrite (bind_done _ _ _ _ _ H3)|rewrite (bind_err _ _ _ _ _ H3); split; [lia|done]].
  destruct (call_docker_run (WaitContainer (feature c) "not-running") s3) as (r & s4 & H4 & _ & Hd4 & Hs4). rewrite H4.
  split; [lia|]. intros _. rewrite Hd4, Hd3, Hd2, Hd1, <- app_assoc. done.
Qed.

End Theory.

(** * A concrete feature *)

Abbreviation DemoRedis := (gmap string (gmap string string)).
#[export] Instance demo_redis : Redis DemoRedis := {
  hgetall d k := Ok (default ∅ (d !! k));
  redis_hset d k f v := Ok (<[k := <[f := v]> (default ∅ (d !! k))]> d);
}.
#[export] Instance demo_redis_laws : RedisLaws DemoRedis.
Proof.
  split; unfold hgetall, redis_hset, demo_redis.
  - intros d d' k f v Hset h Hh. injection Hset as <-. injection Hh as <-. by rewrite lookup_insert_eq.
  - intros d d' k f v k' Hset Hne. injection Hset as <-. by rewrite lookup_insert_ne.
Defined.
#[export] Instance demo_utf8 : Utf8 := { valid_utf8 _ := true }.
#[export] Instance docker_call_eq_dec : EqDecision DockerCall.
Proof. solve_decision. Defined.
#[export] Instance container_error_eq_dec : EqDecision ContainerError.
Proof. solve_decision. Defined.
#[export] Instance container_st_eq_dec : EqDecision (ContainerSt DemoRedis).
Proof. solve_decision. Defined.
Definition demo_docker : Docker := mkDocker (λ _ _, Ok tt) (λ _, Ok (Some (Some ["IMAGE_VERSION=1.2"]))).
Definition demo_container (config : DemoRedis) : Container DemoRedis Z :=
  mkContainer "snmp" config true demo_docker "2025-01-01 00:00:00" (Err "no such file") (λ _, None) Some (λ _ d, d).
Definition demo_remote_owner : DemoRedis := {["FEATURE|snmp" := {["set_owner" := "kube"]}]}.
Definition demo_empty_id : ContainerSt DemoRedis :=
  mkContainerSt {["FEATURE|snmp" := {["current_owner" := "none"; "container_id" := ""]}]} [] 0 [].

Definition demo_fresh : ContainerSt DemoRedis := mkContainerSt ∅ [] 0 [].
Lemma container_start_decides_witness :
  ∃ r s', container_start (demo_container ∅) demo_fresh = Done (r, s') ∧ (r = Ok tt → ∃ cfg st srv owner,
    read_config (demo_container ∅) demo_fresh = Done (Ok cfg, demo_fresh) ∧ read_state (demo_container ∅) demo_fresh = Done (Ok st, demo_fresh) ∧
    read_server_state demo_fresh = Done (Ok srv, demo_fresh) ∧ cfg !! "set_owner" = Some owner ∧
    docker_calls s' = docker_calls demo_fresh ++
      (if starts_here cfg st srv then [DockerConnect; StartContainer (feature (demo_container ∅))] else []) ∧
    labelled (demo_container ∅) (negb (bool_decide (owner = "local"))) demo_fresh s').
Proof. apply (container_start_decides (demo_container ∅) demo_fresh). Defined.

Definition demo_started : ContainerSt DemoRedis :=
  match container_main (demo_container ∅) 0 Start None demo_fresh with Done (_, s') => s' | _ => demo_fresh end.
(** The container runs here, the label is off, and nobody sees the recorded owner. *)
Lemma container_record_unread_witness : same_features demo_fresh demo_started.
Proof.
  refine (proj1 (container_record_unread (demo_container ∅) 0 Start None demo_fresh (Ok tt) demo_started _ _)); [discriminate|].
  apply (bool_decide_unpack _). vm_compute. exact I.
Defined.
Example demo_started_calls : docker_calls demo_started = [DockerConnect; StartContainer "snmp"].
Proof. vm_compute. reflexivity. Qed.

Lemma demo_reads : read_config (demo_container ∅) demo_fresh = Done (Ok config_defaults, demo_fresh) ∧
  read_state (demo_container ∅) demo_fresh = Done (Ok state_defaults, demo_fresh) ∧
  container_id (demo_container ∅) demo_fresh = Done (Ok "snmp", demo_fresh).
Proof. split_and!; apply (bool_decide_unpack _); vm_compute; exact I. Defined.
Lemma container_local_never_killed_witness : ∃ w, container_kill (demo_container ∅) demo_fresh = Panicked w.
Proof.
  destruct demo_reads as (Hc & Hs & Hid).
  apply (proj2 (container_local_never_killed (demo_container ∅) demo_fresh config_defaults Hc eq_refl) state_defaults "snmp" Hs eq_refl Hid).
Defined.

Lemma demo_waits : read_config (demo_container demo_remote_owner) demo_empty_id = Done (Ok (<["set_owner" := "kube"]> config_defaults), demo_empty_id) ∧
  pend_seconds (demo_container demo_remote_owner) demo_empty_id = Done (Ok 300%Z, demo_empty_id).
Proof. split_and!; apply (bool_decide_unpack _); vm_compute; exact I. Defined.
(** Nobody fills in the id: [wait] polls at most 150 times, for five minutes. *)
Lemma container_wait_falls_back_witness :
  match container_wait (demo_container demo_remote_owner) 151 demo_empty_id with
  | OutOfFuel => False
  | Panicked _ => True
  | Done (r, s') => (2 * (Z.of_nat (slept s') - Z.of_nat (slept demo_empty_id)) ≤ 300)%Z ∧
      (r = Ok tt → docker_calls s' = docker_calls demo_empty_id ++
         [DockerConnect; WaitContainer (feature (demo_container demo_remote_owner)) "not-running"])
  end.
Proof.
  destruct demo_waits as (Hc & Hp).
  apply (container_wait_falls_back (demo_container demo_remote_owner) demo_empty_id _ 300 151 Hc eq_refl Hp).
  lia.
Defined.
