(* ===== verification/Cli.v ===== *)
(** The command line tool of the bus: ping, traceroute and show. Models
    crates/swbus-cli/src. The network (what arrives after a message was sent, and
    when), the configuration, the printing of tables and JSON are parameters;
    what is printed is a list of lines, as data. Times are milliseconds. *)
From S2P Require Import Prelude RustStr NetAddr Path Proto Mux Edge Config.

Open Scope stdpp_scope.

(** [ResponseResult] *)
Record ResponseResult : Type := mkResult {
  rr_error_code : SwbusErrorCode;
  rr_error_message : string;
  rr_msg : option SwbusMessage;
}.
Definition from_code (error_code : Z) (error_message : string) (msg : option SwbusMessage) : ResponseResult :=
  mkResult (default CodeFail (error_code_of_i32 error_code)) error_message msg.

Record RouteDisplay : Type := mkRouteDisplay {
  rd_service_path : string;
  rd_hop_count : Z;
  rd_nh_id : string;
  rd_nh_scope : RouteScope;
  rd_nh_service_path : string;
}.

(** What [info!] is given. *)
Inductive CliLine (Dump : Type) : Type :=
| PingBanner (dest : string)
| PingReply (seq ttl elapsed : Z)
| PingTimeout (seq : Z)
| PingFailed (seq : Z) (src : option string) (code : SwbusErrorCode) (msg : string)
| TraceBanner (dest : string) (max_hop : Z)
| TraceHop (n : Z) (src : string) (elapsed hops : Z)
| TraceTimeout (n : Z)
| TraceFailed (n : Z) (src : string) (code : SwbusErrorCode) (msg : string)
| ShowRoutes (routes : list RouteDisplay)
| ShowActorState (state : Dump)
| ShowUnexpected (response : RequestResponse)
| ShowInvalid
| ShowTimeout
| ShowFailed (code : SwbusErrorCode) (msg : string).
Arguments PingBanner {Dump}. Arguments PingReply {Dump}. Arguments PingTimeout {Dump}. Arguments PingFailed {Dump}.
Arguments TraceBanner {Dump}. Arguments TraceHop {Dump}. Arguments TraceTimeout {Dump}. Arguments TraceFailed {Dump}.
Arguments ShowRoutes {Dump}. Arguments ShowActorState {Dump}. Arguments ShowUnexpected {Dump}. Arguments ShowInvalid {Dump}.
Arguments ShowTimeout {Dump}. Arguments ShowFailed {Dump}.

(** The options of the commands; durations in seconds. *)
Record PingCmd : Type := mkPing { ping_count : Z; ping_timeout : Z; ping_interval : Z; ping_dest : ServicePath }.
Record TraceRouteCmd : Type := mkTrace { trace_timeout : Z; trace_max_hop : Z; trace_dest : ServicePath }.
Inductive ShowSubCmd : Type := ShowRouteCmd | ShowActorCmd (actor_path : ServicePath).
Inductive CliSubCmd : Type := Ping (cmd : PingCmd) | TraceRoute (cmd : TraceRouteCmd) | Show (cmd : ShowSubCmd).

(** The process: its edge, the generator of ids, what is waiting or will arrive in
    the channel of the command (with the time it does), the clock, what was sent
    and what was printed. *)
Record CliSt (Dump : Type) : Type := mkCliSt {
  cli_edge : EdgeState;
  id_generator : MessageIdGenerator;
  inbox : list (Z * SwbusMessage);
  inbox_open : bool;
  clock : Z;
  cli_sent : list SwbusMessage;
  cli_lines : list (CliLine Dump);
}.
Arguments mkCliSt {Dump}. Arguments cli_edge {Dump}. Arguments id_generator {Dump}. Arguments inbox {Dump}.
Arguments inbox_open {Dump}. Arguments clock {Dump}. Arguments cli_sent {Dump}. Arguments cli_lines {Dump}.

Section Cli.
Context {Dump : Type}.
Abbreviation St := (CliSt Dump).
Abbreviation C := (M St SwbusError).

(** The context of a command, and what it runs against: [network] tells, of the
    messages sent so far, what the last one makes arrive and after which delay. *)
Context (sp : ServicePath) (network : list SwbusMessage → list (Z * SwbusMessage)) (parse_dump : string → option Dump).

Definition set_clock (t : Z) (s : St) : St :=
  mkCliSt (cli_edge s) (id_generator s) (inbox s) (inbox_open s) t (cli_sent s) (cli_lines s).
Definition set_inbox (l : list (Z * SwbusMessage)) (s : St) : St :=
  mkCliSt (cli_edge s) (id_generator s) l (inbox_open s) (clock s) (cli_sent s) (cli_lines s).
Definition set_edge (e : EdgeState) (s : St) : St :=
  mkCliSt e (id_generator s) (inbox s) (inbox_open s) (clock s) (cli_sent s) (cli_lines s).
Definition sleep_ms (t : Z) : C unit := modify (λ s, set_clock (clock s + t) s).
Definition info (l : CliLine Dump) : C unit :=
  modify (λ s, mkCliSt (cli_edge s) (id_generator s) (inbox s) (inbox_open s) (clock s) (cli_sent s) (cli_lines s ++ [l])).
Definition generate : C Z :=
  let* s := get_state in
  let '(i, g) := id_generate (id_generator s) in
  modify (λ s, mkCliSt (cli_edge s) g (inbox s) (inbox_open s) (clock s) (cli_sent s) (cli_lines s));;;
  ret i.

(** The channel is first in, first out, in the order of arrival. *)
Fixpoint arrive (a : Z * SwbusMessage) (l : list (Z * SwbusMessage)) : list (Z * SwbusMessage) :=
  match l with
  | [] => [a]
  | b :: l' => if (b.1 <=? a.1)%Z then b :: arrive a l' else a :: l
  end.
(** [runtime.send(msg)], and what the network answers. *)
Definition runtime_send (msg : SwbusMessage) : C unit :=
  let* s := get_state in
  match edge_send msg (cli_edge s) with
  | Done (Ok _, e) =>
      put_state (let sent := cli_sent s ++ [msg] in
        mkCliSt e (id_generator s) (foldl (λ l a, arrive (clock s + a.1, a.2)%Z l) (inbox s) (network sent)) (inbox_open s)
          (clock s) sent (cli_lines s))
  | Done (Err e, _) => throw e
  | Panicked w => panic w
  | OutOfFuel => out_of_fuel
  end.

(** * Waiting for the response *)

(** The loop, over what is in the channel; [timeout(recv())] gives up after
    [timeout] milliseconds of its own. *)
Fixpoint response_loop (start request_id timeout : Z) (queue : list (Z * SwbusMessage)) : C ResponseResult :=
  let* s := get_state in
  if (clock s - start <? timeout)%Z then
    match queue with
    | [] =>
        if inbox_open s then
          sleep_ms timeout;;; ret (from_code (error_code_i32 Timeout) "request timeout" None)
        else ret (from_code (error_code_i32 CodeFail) "channel broken" None)
    | (at_, msg) :: queue' =>
        if (at_ - clock s <? timeout)%Z then
          modify (λ s, set_inbox queue' (set_clock (Z.max (clock s) at_) s));;;
          match body msg with
          | Some (Response response) =>
              if negb (request_id =? Proto.request_id response)%Z then response_loop start request_id timeout queue'
              else ret (from_code (error_code response) (error_message response) (Some msg))
          | _ => response_loop start request_id timeout queue'
          end
        else sleep_ms timeout;;; ret (from_code (error_code_i32 Timeout) "request timeout" None)
    end
  else ret (from_code (error_code_i32 Timeout) "request timeout" None).
Definition wait_for_response (request_id timeout : Z) : C ResponseResult :=
  let* s := get_state in
  response_loop (clock s) request_id (timeout * 1000) (inbox s).

(** * The commands *)

(** The path of the command, registered with a channel of its own. *)
Definition command_sp (name : string) : ServicePath :=
  mkPath (region_id sp) (cluster_id sp) (node_id sp) (service_type sp) (service_id sp) name "0".
Definition register_command (name : string) : C ServicePath :=
  let src_sp := command_sp name in
  let* s := get_state in
  match client_new (E:=SwbusError) src_sp true (cli_edge s) with
  | Done (_, e) => put_state (set_edge e s);;; ret src_sp
  | Panicked w => panic w
  | OutOfFuel => out_of_fuel
  end.

Definition header_of (msg : option SwbusMessage) : C SwbusMessageHeader :=
  let* m := unwrap "SwbusMessage shouldn't be None in success case" msg in unwrap "header" (header m).
Definition source_of (msg : option SwbusMessage) : C ServicePath :=
  let* h := header_of msg in unwrap "source" (source h).

(** One ping, of sequence number [i]. *)
Definition ping_once (cmd : PingCmd) (src_sp : ServicePath) (i : Z) : C unit :=
  let* header_id := generate in
  let ping_msg := mkMessage (Some (header_new src_sp (ping_dest cmd) header_id)) (Some PingRequest) in
  let* s := get_state in
  let start := clock s in
  unwrap_result "send" (runtime_send ping_msg);;;
  let* result := wait_for_response header_id (ping_timeout cmd) in
  (match rr_error_code result with
   | CodeOk =>
       let* s := get_state in
       let elapsed := (clock s - start)%Z in
       let* h := header_of (rr_msg result) in
       info (PingReply i (ttl h) elapsed)
   | Timeout => info (PingTimeout i)
   | code =>
       let* src := match rr_msg result with
                   | Some msg => let* p := source_of (Some msg) in ret (Some (to_longest_path p))
                   | None => ret None
                   end in
       info (PingFailed i src code (rr_error_message result))
   end);;;
  sleep_ms (ping_interval cmd * 1000).
Fixpoint ping_loop (cmd : PingCmd) (src_sp : ServicePath) (n : nat) (i : Z) : C unit :=
  match n with
  | O => ret tt
  | S n' => ping_once cmd src_sp i;;; ping_loop cmd src_sp n' (i + 1)
  end.
Definition ping (cmd : PingCmd) : C unit :=
  let* src_sp := register_command "ping" in
  info (PingBanner (to_longest_path (ping_dest cmd)));;;
  ping_loop cmd src_sp (Z.to_nat (ping_count cmd)) 0.

(** The responses to a traceroute, from number [i] on. *)
Fixpoint trace_loop (cmd : TraceRouteCmd) (start header_id : Z) (n : nat) (i : Z) : C unit :=
  match n with
  | O => ret tt
  | S n' =>
      let* result := wait_for_response header_id (trace_timeout cmd) in
      match rr_error_code result with
      | CodeOk =>
          let* s := get_state in
          let elapsed := (clock s - start)%Z in
          let* source_sp := source_of (rr_msg result) in
          let* h := header_of (rr_msg result) in
          info (TraceHop (i + 1) (to_longest_path source_sp) elapsed (wrap_u32 (64 - ttl h) mod 256));;;
          if bool_decide (source_sp = trace_dest cmd) then ret tt
          else trace_loop cmd start header_id n' (i + 1)
      | Timeout => info (TraceTimeout (i + 1));;; trace_loop cmd start header_id n' (i + 1)
      | code =>
          let* src := match rr_msg result with
                      | Some msg => let* p := source_of (Some msg) in ret (to_longest_path p)
                      | None => ret ""
                      end in
          info (TraceFailed (i + 1) src code (rr_error_message result));;; trace_loop cmd start header_id n' (i + 1)
      end
  end.
Definition trace_route (cmd : TraceRouteCmd) : C unit :=
  let* src_sp := register_command "traceroute" in
  info (TraceBanner (to_longest_path (trace_dest cmd)) (trace_max_hop cmd));;;
  let* header_id := generate in
  let header := header_new src_sp (trace_dest cmd) header_id in
  let header := mkHeader (version header) (id header) (flag header) (trace_max_hop cmd) (source header) (destination header) in
  let* s := get_state in
  unwrap_result "send" (runtime_send (mkMessage (Some header) (Some TraceRouteRequest)));;;
  trace_loop cmd (clock s) header_id (Z.to_nat (trace_max_hop cmd)) 0.

(** ** [show] *)

Definition CMD_TIMEOUT : Z := 10.

Definition create_request (cmd : ShowSubCmd) (src_sp : ServicePath) : C SwbusMessage :=
  let swbusd_sp := to_swbusd_service_path sp in
  let '(kind, dest_sp) := match cmd with
                          | ShowRouteCmd => (0%Z, swbusd_sp)
                          | ShowActorCmd actor_path => (1%Z, join_path swbusd_sp actor_path)
                          end in
  let* i := generate in
  ret (mkMessage (Some (header_new src_sp dest_sp i)) (Some (BodyManagementRequest (mkMgmt kind [])))).

(** [RouteScope::try_from(i32)] *)
Definition scope_of_code (z : Z) : option RouteScope :=
  list_find (λ s, scope_code s = z) [ScopeClient; ScopeLocal; ScopeCluster; ScopeRegion; ScopeGlobal] ≫= λ e, Some e.2.
Definition route_display (entry : RouteQueryResultEntry) : C RouteDisplay :=
  let* sp := unwrap "service_path in RouteQueryResult cannot be None" (entry_service_path entry) in
  let* sc := unwrap "unwrap" (scope_of_code (entry_nh_scope entry)) in
  let* nh := unwrap "nh_service_path in RouteQueryResult cannot be None" (entry_nh_service_path entry) in
  ret (mkRouteDisplay (to_longest_path sp) (entry_hop_count entry) (entry_nh_id entry) sc (to_longest_path nh)).
Definition process_response (cmd : ShowSubCmd) (response : RequestResponse) : C unit :=
  match cmd, response_body response with
  | ShowRouteCmd, Some (RouteQueryResult entries) =>
      let* routes := map_m route_display entries in info (ShowRoutes routes)
  | ShowActorCmd _, Some (ManagementQueryResult result) =>
      let* state := unwrap "from_str" (parse_dump result) in info (ShowActorState state)
  | _, _ => info (ShowUnexpected response)
  end.

Definition show (cmd : ShowSubCmd) : C unit :=
  let* src_sp := register_command "show" in
  let* request_msg := create_request cmd src_sp in
  let* request_id := (let* h := unwrap "header" (header request_msg) in ret (id h)) in
  unwrap_result "send" (runtime_send request_msg);;;
  let* result := wait_for_response request_id CMD_TIMEOUT in
  match rr_error_code result with
  | CodeOk =>
      let* msg := unwrap "msg" (rr_msg result) in
      let* body := unwrap "body" (body msg) in
      match body with
      | Response response => process_response cmd response
      | _ => info ShowInvalid
      end
  | Timeout => info ShowTimeout
  | code => info (ShowFailed code (rr_error_message result))
  end.

Definition run_command (cmd : CliSubCmd) : C unit :=
  match cmd with Ping cmd => ping cmd | Show cmd => show cmd | TraceRoute cmd => trace_route cmd end.
End Cli.

(** * Start-up *)

(** [get_swbus_config]: from the file, or of the slot in the environment variable DEV. *)
Definition get_swbus_config {S} (config_file : option string) (dev : option string)
    (from_yaml : string → result SwbusConfig SwbusConfigError) (from_db : Z → outcome (result SwbusConfig SwbusConfigError))
    : M S string SwbusConfig :=
  match config_file with
  | Some config_file =>
      match from_yaml config_file with
      | Ok config => ret config
      | Err _ => throw ("Failed to read swbusd config from file " +:+ config_file)
      end
  | None =>
      match dev with
      | None => throw "Environment DEV is not found"
      | Some dev =>
          if (String.length dev <? 3)%nat || negb (boundary_at_3 dev) then panic "byte index 3 is out of bounds"
          else match parse_u32 (String.substring 3 (String.length dev - 3) dev) with
               | None => throw "Invalid slot id"
               | Some slot =>
                   match from_db slot with
                   | Done (Ok config) => ret config
                   | Done (Err _) => throw "Failed to get swbusd config from db"
                   | Panicked w => panic w
                   | OutOfFuel => out_of_fuel
                   end
               end
      end
  end.

(** The loop that waits for swbusd: at most ten seconds, in steps of 100 ms;
    [connected t] says whether it is connected after [t] milliseconds. *)
Fixpoint wait_connected (fuel : nat) (connected : Z → bool) (t : Z) : outcome bool :=
  match fuel with
  | O => OutOfFuel
  | S fuel' =>
      if connected t then Done true
      else if (10000 <? t)%Z then Done false
      else wait_connected fuel' connected (t + 100)
  end.

(** [main], with the id of the process: the context of the command and the edge,
    or no command when swbusd could not be reached. *)
Definition cli_main {Dump} (config : outcome (result SwbusConfig string * unit)) (uuid : string) (connected : Z → bool)
    (network : list SwbusMessage → list (Z * SwbusMessage)) (parse_dump : string → option Dump) (startup_nanos : Z) (cmd : CliSubCmd)
    : outcome (option (result unit SwbusError * CliSt Dump)) :=
  match config with
  | Panicked w => Panicked w
  | OutOfFuel => OutOfFuel
  | Done (Err e, _) => Panicked e
  | Done (Ok swbus_config, _) =>
      match get_swbusd_service_path swbus_config with
      | None => Done None
      | Some p =>
          let sp := mkPath (region_id p) (cluster_id p) (node_id p) "swbus-cli" uuid (resource_type p) (resource_id p) in
          match wait_connected 102 connected 0 with
          | Done true =>
              match run_command sp network parse_dump cmd
                (mkCliSt (swbusd_dialled true (edge_new sp)) (id_generator_new startup_nanos) [] true 0 [] []) with
              | Done r => Done (Some r)
              | Panicked w => Panicked w
              | OutOfFuel => OutOfFuel
              end
          | Done false => Done None
          | Panicked w => Panicked w
          | OutOfFuel => OutOfFuel
          end
      end
  end.
