(* ===== verification/CliTheory.v ===== *)
(** Theorems about the command line tool: what waiting for a response returns and
    how long it takes, that ping survives any well-formed answers, and that a
    traceroute lists the hops; with a concrete traceroute. *)
From S2P Require Import Prelude RustStr Path Proto Mux Edge EdgeTheory Config Cli.

Open Scope stdpp_scope.

Section Theory.
Context {Dump : Type} (sp : ServicePath) (network : list SwbusMessage → list (Z * SwbusMessage)) (parse_dump : string → option Dump).
Implicit Types s : CliSt Dump.

(** * Waiting *)

Definition answers (rid : Z) (m : SwbusMessage) : Prop :=
  ∃ r, body m = Some (Response r) ∧ request_id r = rid.

(** Everything but the channel and the clock is as before. *)
Definition only_waited (s s' : CliSt Dump) : Prop :=
  cli_edge s' = cli_edge s ∧ id_generator s' = id_generator s ∧ inbox_open s' = inbox_open s ∧
  cli_sent s' = cli_sent s ∧ cli_lines s' = cli_lines s.

(** What a wait returned: the answer, with what came before it dropped, or that
    there was none in time. *)
Definition waited (rid : Z) (queue : list (Z * SwbusMessage)) (r : ResponseResult) s' : Prop :=
  ∃ dropped, Forall (λ a, ¬ answers rid a.2) dropped ∧
    ((∃ at_ m resp, queue = dropped ++ (at_, m) :: inbox s' ∧ body m = Some (Response resp) ∧ request_id resp = rid ∧
        r = from_code (error_code resp) (error_message resp) (Some m)) ∨
     (queue = dropped ++ inbox s' ∧ rr_msg r = None ∧
        (rr_error_code r = Timeout ∨ rr_error_code r = CodeFail ∧ inbox_open s' = false ∧ inbox s' = []))).

Lemma waited_drop rid a queue r s' : ¬ answers rid a.2 → waited rid queue r s' → waited rid (a :: queue) r s'.
Proof.
  intros Ha (dropped & Hd & H). exists (a :: dropped). split; [by constructor|].
  destruct H as [(at_ & m & resp & -> & Hrest)|(-> & Hrest)]; [left; by exists at_, m, resp|by right].
Qed.

Lemma response_loop_spec start rid timeout queue s :
  (0 < timeout)%Z → inbox s = queue → (clock s - start < 2 * timeout)%Z →
  ∃ r s', response_loop start rid timeout queue s = Done (Ok r, s') ∧ waited rid queue r s' ∧ only_waited s s' ∧
    (clock s ≤ clock s')%Z ∧ (clock s' - start < 2 * timeout)%Z.
Proof.
  intros Ht. revert s. induction queue as [|[at_ m] queue IH]; intros s Hin Hclock; cbn [response_loop];
    rewrite bind_get; destruct (Z.ltb_spec (clock s - start) timeout) as [Hlt|Hge].
  - destruct (inbox_open s) eqn:Hopen; eexists _, _; (split; [reflexivity|]); cbn; (split; [|split; [by split_and!|lia]]);
      exists []; (split; [constructor|]); right; rewrite ?Hin; (split; [done|]); (split; [done|]); cbn; [by left|right; by split_and!].
  - eexists _, _. split; [reflexivity|]. split; [|split; [by split_and!|lia]]. exists []. split; [constructor|]. right.
    split; [by cbn; rewrite Hin|]. split; [done|by left].
  - destruct (Z.ltb_spec (at_ - clock s) timeout) as [Harr|Hlate].
    2:{ eexists _, _. split; [reflexivity|]. cbn. split; [|split; [by split_and!|lia]]. exists []. split; [constructor|]. right.
        split; [by cbn; rewrite Hin|]. split; [done|by left]. }
    rewrite bind_modify. set (s1 := set_inbox queue (set_clock (Z.max (clock s) at_) s)).
    assert (clock s1 = Z.max (clock s) at_) as Hc1 by done.
    assert (∀ r s', waited rid queue r s' ∧ only_waited s1 s' ∧ (clock s1 ≤ clock s')%Z ∧ (clock s' - start < 2 * timeout)%Z →
      ¬ answers rid m →
      waited rid ((at_, m) :: queue) r s' ∧ only_waited s s' ∧ (clock s ≤ clock s')%Z ∧ (clock s' - start < 2 * timeout)%Z) as Hskip.
    { intros r s' (Hw & Ho & H1 & H2) Hna. split; [by apply waited_drop|]. split; [exact Ho|lia]. }
    assert (∀ k, k = response_loop start rid timeout queue → ¬ answers rid m →
      ∃ r s', k s1 = Done (Ok r, s') ∧ waited rid ((at_, m) :: queue) r s' ∧ only_waited s s' ∧
        (clock s ≤ clock s')%Z ∧ (clock s' - start < 2 * timeout)%Z) as Hgo.
    { intros k -> Hna. destruct (IH s1 eq_refl ltac:(lia)) as (r & s' & Hrun & Hpost). exists r, s'. split; [done|]. by apply Hskip. }
    destruct (body m) as [b|] eqn:Hb; [|apply Hgo; [done|by intros (r & Hr & _); rewrite Hb in Hr]].
    destruct b as [resp| | | | | |]; try (apply Hgo; [done|by intros (r & Hr & _); rewrite Hb in Hr]).
    destruct (Z.eqb_spec rid (request_id resp)) as [Hid|Hid]; cbn [negb].
    + eexists _, s1. split; [reflexivity|]. split; [|split; [by split_and!|lia]]. exists []. split; [constructor|]. left.
      by exists at_, m, resp.
    + apply Hgo; [done|]. intros (r & Hr & Hrid). rewrite Hb in Hr. injection Hr as ->. congruence.
  - eexists _, _. split; [reflexivity|]. split; [|split; [by split_and!|lia]]. exists []. split; [constructor|]. right.
    split; [by cbn; rewrite Hin|]. split; [done|by left].
Qed.

(** Waiting for the response to a request always ends, within twice the
    timeout. It returns the first response to that request in the channel, and
    drops the messages before it, none of which answers the request, or says
    that there was none in time or that the channel is broken; it changes
    nothing but the channel and the clock. *)
Theorem wait_for_response_first rid timeout s :
  (0 < timeout)%Z →
  ∃ r s', wait_for_response rid timeout s = Done (Ok r, s') ∧ waited rid (inbox s) r s' ∧ only_waited s s' ∧
    (clock s ≤ clock s' < clock s + 2 * (timeout * 1000))%Z.
Proof.
  intros Ht. unfold wait_for_response. rewrite bind_get.
  destruct (response_loop_spec (clock s) rid (timeout * 1000) (inbox s) s ltac:(lia) eq_refl ltac:(lia)) as (r & s' & Hrun & Hw & Ho & H1 & H2).
  exists r, s'. split; [done|]. split; [done|]. split; [done|lia].
Qed.

(** * Traceroute *)

(** A reply on its way to [src_sp]: when it arrives, from whom, its id, and the
    hops it had left. *)
Record reply : Type := mkReply { rp_delay : Z; rp_source : ServicePath; rp_id : Z; rp_ttl : Z }.
Definition reply_message (src_sp : ServicePath) (rid : Z) (r : reply) : SwbusMessage :=
  mkMessage (Some (mkHeader 1 (rp_id r) 0 (rp_ttl r) (Some (rp_source r)) (Some src_sp))) (Some (Response (response_ok rid))).
(** Each arrives less than [timeout] after the one before. *)
Fixpoint paced (timeout last : Z) (rs : list reply) : Prop :=
  match rs with [] => True | r :: rs' => (last ≤ rp_delay r < last + timeout)%Z ∧ paced timeout (rp_delay r) rs' end.
(** Only the last one is from the destination. *)
Fixpoint ends_at (dest : ServicePath) (rs : list reply) : Prop :=
  match rs with
  | [] => False
  | [r] => rp_source r = dest
  | r :: rs' => rp_source r ≠ dest ∧ ends_at dest rs'
  end.
Fixpoint trace_lines (i : Z) (rs : list reply) : list (CliLine Dump) :=
  match rs with
  | [] => []
  | r :: rs' => TraceHop (i + 1) (to_longest_path (rp_source r)) (rp_delay r) (wrap_u32 (64 - rp_ttl r) mod 256) :: trace_lines (i + 1) rs'
  end.

Lemma arrive_last a l : Forall (λ b, (b.1 ≤ a.1)%Z) l → arrive a l = l ++ [a].
Proof.
  induction 1 as [|b l Hb Hl IH]; [done|]. cbn [arrive app].
  destruct (Z.leb_spec b.1 a.1); [by rewrite IH|lia].
Qed.
Lemma arrive_paced timeout t0 src_sp rid last rs l :
  paced timeout last rs → Forall (λ b : Z * SwbusMessage, (b.1 ≤ t0 + last)%Z) l →
  foldl (λ l a, arrive (t0 + a.1, a.2)%Z l) l ((λ r, (rp_delay r, reply_message src_sp rid r)) <$> rs) =
    l ++ ((λ r, (t0 + rp_delay r, reply_message src_sp rid r)%Z) <$> rs).
Proof.
  revert last l. induction rs as [|r rs IH]; intros last l Hp Hl; [by rewrite app_nil_r|]. destruct Hp as [Hr Hp]. cbn [fmap list_fmap foldl fst snd].
  assert (Forall (λ b : Z * SwbusMessage, (b.1 ≤ t0 + rp_delay r)%Z) l) as Hl' by (eapply Forall_impl; [exact Hl|]; intros b Hb; cbn in *; lia).
  rewrite arrive_last by done. rewrite (IH (rp_delay r)); [by rewrite <- app_assoc|done|]. apply Forall_app. split; [done|]. by apply Forall_singleton.
Qed.

Lemma trace_loop_run cmd rid src_sp t0 n i rs last s :
  (0 < trace_timeout cmd)%Z → length rs ≤ n → ends_at (trace_dest cmd) rs → paced (trace_timeout cmd * 1000) last rs →
  clock s = (t0 + last)%Z → inbox s = ((λ r, (t0 + rp_delay r, reply_message src_sp rid r)%Z) <$> rs) →
  ∃ s', trace_loop cmd t0 rid n i s = Done (Ok tt, s') ∧ cli_lines s' = cli_lines s ++ trace_lines i rs ∧ cli_sent s' = cli_sent s.
Proof.
  intros Ht. revert i rs last s. induction n as [|n IH]; intros i rs last s Hlen Hend Hp Hclock Hin; [by destruct rs; [|cbn in Hlen; lia]|].
  destruct rs as [|r rs]; [done|]. destruct Hp as [Hr Hp]. cbn [trace_loop].
  set (s1 := set_inbox ((λ r, (t0 + rp_delay r, reply_message src_sp rid r)%Z) <$> rs) (set_clock (t0 + rp_delay r) s)).
  assert (wait_for_response rid (trace_timeout cmd) s = Done (Ok (from_code (error_code_i32 CodeOk) "" (Some (reply_message src_sp rid r))), s1)) as Hwait.
  { unfold wait_for_response. rewrite bind_get, Hin. cbn [fmap list_fmap response_loop]. rewrite bind_get.
    destruct (Z.ltb_spec (clock s - clock s) (trace_timeout cmd * 1000)); [|lia].
    destruct (Z.ltb_spec (t0 + rp_delay r - clock s) (trace_timeout cmd * 1000)); [|lia].
    rewrite bind_modify, Z.max_r by lia. cbn -[error_code_i32]. by rewrite Z.eqb_refl. }
  rewrite (bind_done _ _ _ _ _ Hwait). cbv beta. unfold from_code. rewrite error_code_round_trip.
  cbn [rr_error_code rr_msg default from_option Datatypes.id]. rewrite bind_get. cbv zeta. unfold source_of, header_of, reply_message.
  do 6 (cbn [unwrap header source ttl]; rewrite ?bind_bind, ?bind_ret). unfold info. rewrite bind_modify.
  set (s2 := mkCliSt _ _ _ _ _ _ _). assert (clock s1 - t0 = rp_delay r)%Z as Hel by (cbn; lia).
  destruct rs as [|r' rs].
  - cbn in Hend. rewrite bool_decide_eq_true_2 by done. exists s2. split; [done|]. split; [|done]. unfold s2. cbn [cli_lines trace_lines]. by rewrite Hel.
  - destruct Hend as [Hne Hend]. rewrite bool_decide_eq_false_2 by done.
    destruct (IH (i + 1)%Z (r' :: rs) (rp_delay r) s2 ltac:(cbn in *; lia) Hend Hp) as (s' & Hrun & Hl & Hs); [done|done|].
    exists s'. split; [exact Hrun|]. split; [|by rewrite Hs]. rewrite Hl. unfold s2. cbn [cli_lines trace_lines]. rewrite Hel.
    by rewrite <- app_assoc.
Qed.

(** ** Registering and sending *)

Lemma register_run name s :
  ∃ e, register_command sp name s = Done (Ok (command_sp sp name), set_edge e s) ∧
    sender_to_message_router e = sender_to_message_router (cli_edge s).
Proof. unfold register_command. rewrite bind_get. unfold client_new, bind, get_state, put_state, ret. by eexists. Qed.
Lemma generate_run s :
  generate s = Done (Ok (next_id (id_generator s)),
    mkCliSt (cli_edge s) (mkIdGen (wrap_u64 (next_id (id_generator s) + 1))) (inbox s) (inbox_open s) (clock s) (cli_sent s) (cli_lines s)).
Proof. done. Qed.
Lemma runtime_send_run msg s :
  receiver_open (sender_to_message_router (cli_edge s)) = true →
  ∃ e, runtime_send network msg s = Done (Ok tt,
    mkCliSt e (id_generator s) (foldl (λ l a, arrive (clock s + a.1, a.2)%Z l) (inbox s) (network (cli_sent s ++ [msg]))) (inbox_open s)
      (clock s) (cli_sent s ++ [msg]) (cli_lines s)) ∧
    receiver_open (sender_to_message_router e) = true.
Proof.
  intros Ho. unfold runtime_send, edge_send. rewrite bind_get. unfold bind, get_state, put_state, chan_send. rewrite Ho. by eexists.
Qed.

(** C24: A traceroute lists the hops. If the replies to its request come from the
    routers on the way and last from the destination, each within the timeout of
    the one before and no more than the hops asked for, then it prints one line
    for each, in the order of the way, with the sender's path, the time of the
    reply and the hops it took back, and ends; the request it sent is one
    message to the destination that dies after the hops asked for. *)
Theorem trace_route_lists_hops cmd rs s :
  let src_sp := command_sp sp "traceroute" in
  let rid := next_id (id_generator s) in
  let request := mkMessage (Some (mkHeader 1 rid 0 (trace_max_hop cmd) (Some src_sp) (Some (trace_dest cmd)))) (Some TraceRouteRequest) in
  (0 < trace_timeout cmd)%Z → receiver_open (sender_to_message_router (cli_edge s)) = true → inbox s = [] →
  network (cli_sent s ++ [request]) = (λ r, (rp_delay r, reply_message src_sp rid r)) <$> rs →
  (Z.of_nat (length rs) ≤ trace_max_hop cmd)%Z → ends_at (trace_dest cmd) rs → paced (trace_timeout cmd * 1000) 0 rs →
  ∃ s', trace_route sp network cmd s = Done (Ok tt, s') ∧ cli_sent s' = cli_sent s ++ [request] ∧
    cli_lines s' = cli_lines s ++ TraceBanner (to_longest_path (trace_dest cmd)) (trace_max_hop cmd) :: trace_lines 0 rs.
Proof.
  intros src_sp rid request Ht Hopen Hin Hnet Hlen Hend Hp. unfold trace_route.
  destruct (register_run "traceroute" s) as (e1 & Hreg & He1). fold src_sp in Hreg. rewrite (bind_done _ _ _ _ _ Hreg).
  unfold info. rewrite bind_modify. set (s1 := mkCliSt _ _ _ _ _ _ _).
  rewrite (bind_done _ _ _ _ _ (generate_run s1)). cbv zeta. set (s2 := mkCliSt _ _ _ _ _ _ _). rewrite bind_get.
  destruct (runtime_send_run request s2) as (e2 & Hsend & _); [cbn; by rewrite He1|].
  rewrite (bind_done _ _ _ tt _ (unwrap_result_ok _ _ _ _ _ Hsend)). cbv beta.
  match goal with |- ∃ _, ?m ?x = _ ∧ _ => set (s3 := x) end.
  destruct (trace_loop_run cmd rid src_sp (clock s) (Z.to_nat (trace_max_hop cmd)) 0 rs 0 s3) as (s' & Hrun & Hl & Hs); try done.
  - lia.
  - cbn. lia.
  - unfold s3. cbn [inbox]. change (cli_sent s2) with (cli_sent s). rewrite Hnet.
    change (inbox s2) with (inbox s). change (clock s2) with (clock s). rewrite Hin.
    by rewrite (arrive_paced (trace_timeout cmd * 1000) (clock s) src_sp rid 0 rs []).
  - exists s'. split; [exact Hrun|]. split; [by rewrite Hs|]. rewrite Hl. cbn. by rewrite <- app_assoc.
Qed.
End Theory.

(** * A concrete traceroute: two swbusd and an edge *)

Definition demo_cli_sp : ServicePath := mkPath "region-a" "cluster-a" "10.0.0.2-dpu0" "swbus-cli" "1" "" "".
Definition demo_far_sp : ServicePath := mkPath "region-a" "cluster-a" "10.0.0.1-dpu0" "hamgrd" "0" "dpu" "0".
Definition demo_replies : list reply :=
  [mkReply 1 (mkPath "region-a" "cluster-a" "10.0.0.2-dpu0" "" "" "" "") 70 63;
   mkReply 3 (mkPath "region-a" "cluster-a" "10.0.0.1-dpu0" "" "" "" "") 80 62;
   mkReply 4 demo_far_sp 90 61].
Definition demo_network (sent : list SwbusMessage) : list (Z * SwbusMessage) :=
  (λ r, (rp_delay r, reply_message (command_sp demo_cli_sp "traceroute") 7 r)) <$> demo_replies.
Definition demo_cli : CliSt unit := mkCliSt (swbusd_dialled true (edge_new demo_cli_sp)) (mkIdGen 7) [] true 0 [] [].
Definition demo_trace : TraceRouteCmd := mkTrace 1 10 demo_far_sp.

Lemma wait_for_response_first_witness :
  ∃ r s', wait_for_response 7 1 (set_inbox (demo_network []) demo_cli) = Done (Ok r, s') ∧
    waited 7 (demo_network []) r s'.
Proof.
  destruct (wait_for_response_first 7 1 (set_inbox (demo_network []) demo_cli)) as (r & s' & Hrun & Hw & _); [lia|].
  exists r, s'. split; [exact Hrun|exact Hw].
Defined.

Lemma trace_route_lists_hops_witness :
  ∃ s', trace_route demo_cli_sp demo_network demo_trace demo_cli = Done (Ok tt, s') ∧
    cli_lines s' =
      [TraceBanner "region-a.cluster-a.10.0.0.1-dpu0/hamgrd/0/dpu/0" 10;
       TraceHop 1 "region-a.cluster-a.10.0.0.2-dpu0" 1 1;
       TraceHop 2 "region-a.cluster-a.10.0.0.1-dpu0" 3 2;
       TraceHop 3 "region-a.cluster-a.10.0.0.1-dpu0/hamgrd/0/dpu/0" 4 3].
Proof.
  destruct (trace_route_lists_hops demo_cli_sp demo_network demo_trace demo_replies demo_cli) as (s' & Hrun & _ & Hl).
  - reflexivity.
  - reflexivity.
  - reflexivity.
  - reflexivity.
  - cbn. lia.
  - split; [discriminate|]. split; [discriminate|reflexivity].
  - repeat split; cbn; lia.
  - exists s'. split; [exact Hrun|]. exact Hl.
Defined.
