(* ===== verification/CliShow.v ===== *)
(** What `show hamgrd actor` lays out: the rows of the four tables an actor's state
    is printed in, and the way of that state from the actor to the terminal.
    Models crates/swbus-cli/src/show/hamgrd/actor.rs. The rendering of a table as
    text (tabled), of a value as JSON, of a time in the local time zone and of the
    bytes of a field are parameters, as is the derived part of the JSON form of a
    state; what the JSON form loses of a queued message is [normalize_msg]. *)
From S2P Require Import Prelude RustStr SwssSerde Path Proto Json Mux Edge EdgeTheory Actor ActorTheory ActorProps ActorWitness Config Cli CliTheory.

Open Scope stdpp_scope.

Record KeyValue : Type := mkKeyValue { attribute : string; kv_value : string }.
Record IncomingStateDisplay : Type := mkIncomingDisplay { ind_key : string; ind_details : string }.
Record OutgoingUnackedMessageDisplay : Type := mkUnackedDisplay { und_message : string }.
Record OutgoingSentStateDisplay : Type := mkSentDisplay { sed_key : string; sed_details : string }.
Record InternalStateDisplay : Type := mkInternalDisplay { itd_key : string; itd_table_meta : string; itd_fields : string }.

(** The tables printed, in this order; the last only when a message is queued. *)
Record ActorTables : Type := mkActorTables {
  incoming_state_table : list IncomingStateDisplay;
  internal_state_table : list InternalStateDisplay;
  outgoing_sent_state_table : list OutgoingSentStateDisplay;
  outgoing_queued_state_table : option (list OutgoingUnackedMessageDisplay);
}.

(** The libraries: tabled's ASCII table of a list of rows, serde_json's pretty
    printing, chrono's date of a time stamp in the format of the tool, the text of
    a field, and the order in which a [HashMap] is read. *)
Class Rendering (V : Type) := {
  ascii_table : list KeyValue → string;
  value_pretty : V → option string;
  header_pretty : SwbusMessageHeader → option string;
  local_date : Z → option string;
  to_string_lossy : string → string;
  hash_iter {A} : gmap string A → list (string * A);
}.
(** A [HashMap] is read entry by entry, each once. *)
Class RenderingLaws (V : Type) `{!Rendering V} : Prop := {
  hash_iter_perm {A} (m : gmap string A) : Permutation (hash_iter m) (map_to_list m);
}.

Section CliShow.
Context {V : Type} `{!Rendering V}.

(** [as i64] *)
Definition wrap_i64 (z : Z) : Z := (z + 2 ^ 63) mod 2 ^ 64 - 2 ^ 63.
Definition unix_secs_to_string (unix_secs : Z) : string :=
  match local_date (wrap_i64 unix_secs) with
  | Some datetime => datetime
  | None => "INV"
  end.

Definition from_incoming_state (e : string * IncomingTableEntry V) : IncomingStateDisplay :=
  let '(key, state) := e in
  let details :=
    [mkKeyValue "source" (to_longest_path (inc_source state));
     mkKeyValue "request-id" (int_to_string (inc_request_id state));
     mkKeyValue "version" (int_to_string (inc_version state));
     mkKeyValue "message/key" (msg_key (inc_msg state));
     mkKeyValue "message/value" (default "INV" (value_pretty (msg_data (inc_msg state))));
     mkKeyValue "created-time" (unix_secs_to_string (inc_created_time state));
     mkKeyValue "last-updated-time" (unix_secs_to_string (inc_last_updated_time state));
     mkKeyValue "response" (inc_response state);
     mkKeyValue "acked" (bool_string (inc_acked state))] in
  mkIncomingDisplay key (ascii_table details).

(** [OutgoingUnackedMessageDisplay::from_outgoing_state], at the time [now]. *)
Definition from_outgoing_unacked (now : Z) (state : UnackedMessage V) : OutgoingUnackedMessageDisplay :=
  let details :=
    [mkKeyValue "actor-message/key" (msg_key (actor_message state));
     mkKeyValue "actor-message/value" (default "INV" (value_pretty (msg_data (actor_message state))));
     mkKeyValue "swbus-message/header" (match header (swbus_message state) with
                                        | Some header => default "INV" (header_pretty header)
                                        | None => ""
                                        end);
     mkKeyValue "time-elapsed" (int_to_string (get_elapsed_time (time_sent state) now))] in
  mkUnackedDisplay (ascii_table details).

(** [OutgoingSentStateDisplay::from_outgoing_state] *)
Definition from_outgoing_sent (e : string * SentMessageEntry V) : OutgoingSentStateDisplay :=
  let '(key, state) := e in
  let details :=
    [mkKeyValue "response_source" (match sent_response_source state with
                                   | Some response_source => to_longest_path response_source
                                   | None => ""
                                   end);
     mkKeyValue "id" (int_to_string (sent_id state));
     mkKeyValue "version" (int_to_string (sent_version state));
     mkKeyValue "message/key" (msg_key (sent_msg state));
     mkKeyValue "message/value" (default "INV" (value_pretty (msg_data (sent_msg state))));
     mkKeyValue "created-time" (unix_secs_to_string (sent_created state));
     mkKeyValue "last-updated-time" (unix_secs_to_string (sent_last_updated state));
     mkKeyValue "last-sent-time" (unix_secs_to_string (sent_last_sent state));
     mkKeyValue "response" (default "" (sent_response state));
     mkKeyValue "acked" (bool_string (sent_acked state))] in
  mkSentDisplay key (ascii_table details).

Definition from_internal_state (e : string * InternalTableEntry) : InternalStateDisplay :=
  let '(key, state) := e in
  let table_meta :=
    [mkKeyValue "table" (swss_table_name state);
     mkKeyValue "key" (swss_key state);
     mkKeyValue "mutated" (bool_string (mutated state));
     mkKeyValue "last-updated-time" (match int_last_updated state with
                                     | Some last_updated_time => unix_secs_to_string last_updated_time
                                     | None => ""
                                     end)] in
  let committed_fvs := (λ e, mkKeyValue e.1 (to_string_lossy e.2)) <$> hash_iter (backup_fvs state) in
  mkInternalDisplay key (ascii_table table_meta) (ascii_table committed_fvs).

(** What [process_response] prints of the state it read. *)
Definition actor_tables (now : Z) (state : ActorStateDump (V:=V)) : ActorTables :=
  mkActorTables
    (from_incoming_state <$> hash_iter (dump_incoming state))
    (from_internal_state <$> hash_iter (dump_internal state))
    (from_outgoing_sent <$> hash_iter (dump_sent state))
    (match dump_queued state with
     | [] => None
     | queued => Some (from_outgoing_unacked now <$> queued)
     end).

End CliShow.

(** ** What the JSON form of a state loses *)

Section Reread.
Context {V : Type}.

(** The [swbus_message] of a queued message loses the id of its header and has
    its paths in their longest form, as in [normalize_msg]. *)
Definition reread_message (m : SwbusMessage) : option SwbusMessage :=
  match normalize_msg m tt with Done (Ok m', _) => Some m' | _ => None end.
Definition reread_dump (d : ActorStateDump (V:=V)) : option (ActorStateDump (V:=V)) :=
  queued ← mapM (λ u : UnackedMessage V, m ← reread_message (swbus_message u); Some (mkUnacked (actor_message u) m (time_sent u)))
             (dump_queued d);
  Some (mkDump (dump_incoming d) (dump_internal d) queued (dump_sent d)).
End Reread.

(** ** The way of a request to an actor and back *)

Section ActorNode.
Context {V Db A : Type} `{Wire V} `{SwssTable Db} `{!Actor (V:=V) (Db:=Db) (A:=A)}.
Context (dump_to_string : ActorStateDump (V:=V) → string).

(** The driver of an actor in the state [s] handles the last message sent at
    [now]: what it sends arrives after [delay]. *)
Definition actor_node (delay now : Z) (s : ActorSt V Db A) (sent : list SwbusMessage) : list (Z * SwbusMessage) :=
  match last sent with
  | None => []
  | Some request =>
      match recv_loop [request] (swbus_client s) with
      | Done (Ok (Some m), c) =>
          match driver_step dump_to_string (EvMsg now m) (set_client c s) with
          | Done (_, s') =>
              (λ r, (delay, r)) <$> drop (length (delivered (router (swbus_client s)))) (delivered (router (swbus_client s')))
          | _ => []
          end
      | _ => []
      end
  end.
End ActorNode.

(** * Lemmas *)

(** What the rows are to show, column by column. *)
Section RowSpec.
Context {V : Type} `{!Rendering V}.

Definition columns (cs : list (string * string)) : list KeyValue := (λ c, mkKeyValue c.1 c.2) <$> cs.
(** The date of a time stamp in seconds, or "INV" for none of the calendar. *)
Definition date_of (secs : Z) : string := default "INV" (local_date (wrap_i64 secs)).
Definition json_of (v : V) : string := default "INV" (value_pretty v).

(** The last request an actor got under a key, and how it was answered. *)
Definition incoming_row (e : IncomingTableEntry V) (row : IncomingStateDisplay) : Prop :=
  ind_details row = ascii_table (columns
    [("source", to_longest_path (inc_source e)); ("request-id", int_to_string (inc_request_id e));
     ("version", int_to_string (inc_version e));
     ("message/key", msg_key (inc_msg e)); ("message/value", json_of (msg_data (inc_msg e)));
     ("created-time", date_of (inc_created_time e)); ("last-updated-time", date_of (inc_last_updated_time e));
     ("response", inc_response e); ("acked", if inc_acked e then "true" else "false")]).
(** The last message sent under a key, and the answer to it. *)
Definition sent_row (e : SentMessageEntry V) (row : OutgoingSentStateDisplay) : Prop :=
  sed_details row = ascii_table (columns
    [("response_source", from_option to_longest_path "" (sent_response_source e)); ("id", int_to_string (sent_id e));
     ("version", int_to_string (sent_version e));
     ("message/key", msg_key (sent_msg e)); ("message/value", json_of (msg_data (sent_msg e)));
     ("created-time", date_of (sent_created e)); ("last-updated-time", date_of (sent_last_updated e));
     ("last-sent-time", date_of (sent_last_sent e));
     ("response", default "" (sent_response e)); ("acked", if sent_acked e then "true" else "false")]).
(** An entry of an internal table: its meta data, and the fields of the backup,
    each once. *)
Definition internal_row (e : InternalTableEntry) (row : InternalStateDisplay) : Prop :=
  itd_table_meta row = ascii_table (columns
    [("table", swss_table_name e); ("key", swss_key e); ("mutated", if mutated e then "true" else "false");
     ("last-updated-time", from_option date_of "" (int_last_updated e))]) ∧
  ∃ fields, Permutation fields (map_to_list (backup_fvs e)) ∧
    itd_fields row = ascii_table (columns (prod_map Datatypes.id to_string_lossy <$> fields)).
(** A queued message: its header without the id and with the paths as they read
    back, and the seconds since it was sent. *)
Definition queued_row (now : Z) (u : UnackedMessage V) (row : OutgoingUnackedMessageDisplay) : Prop :=
  ∃ h, header (swbus_message u) = Some h ∧
  und_message row = ascii_table (columns
    [("actor-message/key", msg_key (actor_message u)); ("actor-message/value", json_of (msg_data (actor_message u)));
     ("swbus-message/header", default "INV" (header_pretty
        (mkHeader (version h) 0 (flag h) (ttl h) (canon <$> source h) (canon <$> destination h))));
     ("time-elapsed", int_to_string (Z.max 0 ((now - time_sent u) / 1000000000)))]).

(** A table with one row for each key of a map, which shows the entry of that key. *)
Definition rows_of {X B} (key : B → string) (shows : X → B → Prop) (m : gmap string X) (rows : list B) : Prop :=
  Permutation (key <$> rows) (elements (dom m)) ∧ ∀ row, row ∈ rows → ∃ x, m !! key row = Some x ∧ shows x row.

Lemma hash_rows_perm `{!RenderingLaws V} {A B} (f : string * A → B) (key : B → string) (m : gmap string A) :
  (∀ e, key (f e) = e.1) → Permutation (key <$> (f <$> hash_iter m)) (elements (dom m)).
Proof.
  intros Hkey. rewrite hash_iter_perm, <- list_fmap_compose.
  rewrite (list_fmap_ext _ fst _ (λ _ e _, Hkey e)).
  apply NoDup_Permutation; [apply NoDup_fst_map_to_list|apply NoDup_elements|]. intros k.
  rewrite elem_of_elements, elem_of_dom, list_elem_of_fmap. split.
  - intros ([k' x] & -> & Hx%elem_of_map_to_list). by eexists.
  - intros [x Hx]. exists (k, x). split; [done|]. by apply elem_of_map_to_list.
Qed.
Lemma hash_rows `{!RenderingLaws V} {X B} (key : B → string) (shows : X → B → Prop) (f : string * X → B) m :
  (∀ e, key (f e) = e.1) → (∀ e, shows e.2 (f e)) → rows_of key shows m (f <$> hash_iter m).
Proof.
  intros Hkey Hshows. split; [by apply hash_rows_perm|]. intros row ([k x] & -> & Hx)%list_elem_of_fmap.
  rewrite hash_iter_perm, elem_of_map_to_list in Hx. exists x. rewrite Hkey. split; [done|]. apply (Hshows (k, x)).
Qed.

Lemma from_incoming_state_row (e : string * IncomingTableEntry V) : incoming_row e.2 (from_incoming_state e).
Proof. by destruct e. Qed.
Lemma from_outgoing_sent_row (e : string * SentMessageEntry V) : sent_row e.2 (from_outgoing_sent e).
Proof. by destruct e. Qed.
Lemma from_internal_state_row `{!RenderingLaws V} e : internal_row e.2 (from_internal_state e).
Proof.
  destruct e as [k e]. split; [by destruct e as [? ? ? ? ? []]|]. exists (hash_iter (backup_fvs e)).
  split; [apply hash_iter_perm|]. unfold columns. cbn [from_internal_state itd_fields snd]. by rewrite <- list_fmap_compose.
Qed.

(** The tables of a state show the entries of its maps and what is queued. *)
Lemma actor_tables_rows `{!RenderingLaws V} now inc int sent (us us' : list (UnackedMessage V)) :
  Forall2 (queued_row now) us (from_outgoing_unacked now <$> us') → length us' = length us →
  let t := actor_tables now (mkDump inc int us' sent) in
  rows_of ind_key incoming_row inc (incoming_state_table t) ∧
  rows_of itd_key internal_row int (internal_state_table t) ∧
  rows_of sed_key sent_row sent (outgoing_sent_state_table t) ∧
  Forall2 (queued_row now) us (default [] (outgoing_queued_state_table t)) ∧
  (outgoing_queued_state_table t = None ↔ us = []).
Proof.
  intros Hrows Hlen. cbn.
  split; [apply hash_rows; [by intros []|apply from_incoming_state_row]|].
  split; [apply hash_rows; [by intros []|apply from_internal_state_row]|].
  split; [apply hash_rows; [by intros []|apply from_outgoing_sent_row]|].
  destruct us', us; cbn in *; try discriminate; by repeat split.
Qed.

(** A queued message as the driver sends them: a request between two actors. *)
Definition queued_request (u : UnackedMessage V) : Prop :=
  ∃ h payload, swbus_message u = mkMessage (Some h) (Some (DataRequest payload)) ∧
    path_present (source h) ∧ path_present (destination h).
Lemma reread_queued now (us : list (UnackedMessage V)) :
  Forall queued_request us →
  ∃ us', mapM (λ u : UnackedMessage V, m ← reread_message (swbus_message u); Some (mkUnacked (actor_message u) m (time_sent u))) us = Some us' ∧
    Forall2 (queued_row now) us (from_outgoing_unacked now <$> us').
Proof.
  induction 1 as [|u us (h & payload & Hu & Hs & Hd) _ (us' & Hus & Hrows)]; [by exists []|].
  destruct (proj1 (normalize_msg_spec (swbus_message u) h (DataRequest payload) (f_equal header Hu) (f_equal body Hu) I) Hs Hd)
    as (b & Hrun & _).
  assert (reread_message (swbus_message u) = Some (mkMessage
    (Some (mkHeader (version h) 0 (flag h) (ttl h) (canon <$> source h) (canon <$> destination h))) (Some b))) as Hre
    by (unfold reread_message; by rewrite Hrun).
  eexists (_ :: us'). cbn [mapM]. rewrite Hre. cbn [mbind option_bind]. rewrite Hus. split; [reflexivity|].
  constructor; [|done]. exists h. by rewrite Hu.
Qed.
End RowSpec.

Section Theory.
Context {V Db A : Type} `{Wire V} `{SwssTable Db} `{!Actor (V:=V) (Db:=Db) (A:=A)}.
Context (dump_to_string : ActorStateDump (V:=V) → string) (parse_dump : string → option (ActorStateDump (V:=V))).
Context (sp : ServicePath).

Definition state_request (c : CliSt (ActorStateDump (V:=V))) (actor_path : ServicePath) : SwbusMessage :=
  mkMessage (Some (header_new (command_sp sp "show") (join_path (to_swbusd_service_path sp) actor_path) (next_id (id_generator c))))
    (Some (BodyManagementRequest (mkMgmt 1 []))).
Definition state_response (s : ActorSt V Db A) (rid : Z) : SwbusMessage :=
  mkMessage (Some (header_new (client_source (swbus_client s)) (command_sp sp "show") (next_id (client_ids (swbus_client s)))))
    (Some (Response (mkResponse rid (error_code_i32 CodeOk) "" (Some (ManagementQueryResult (dump_to_string (dump_state s))))))).

(** An actor answers the request with its state, once. *)
Lemma actor_node_answers delay now s sent c actor_path :
  receiver_open (router (swbus_client s)) = true →
  client_sink (swbus_client s) = false ∨ client_source (swbus_client s) = join_path (to_swbusd_service_path sp) actor_path →
  actor_node dump_to_string delay now s (sent ++ [state_request c actor_path]) =
    [(delay, state_response s (next_id (id_generator c)))].
Proof.
  intros Ho Hdst. unfold actor_node. rewrite last_snoc.
  assert (∀ x, client_sink (mkClient (client_source (swbus_client s)) (client_sink (swbus_client s)) (client_ids (swbus_client s)) x (router (swbus_client s)))
    && negb (bool_decide (join_path (to_swbusd_service_path sp) actor_path = client_source (swbus_client s))) = false) as Hs.
  { intros x. cbn. destruct Hdst as [->| ->]; [done|]. rewrite bool_decide_eq_true_2 by done. apply andb_false_r. }
  cbn [recv_loop]. rewrite bind_modify. unfold handle_received_message. rewrite bind_bind.
  do 5 (cbn [unwrap header state_request source destination header_new body id tail]; rewrite ?bind_bind, ?bind_ret, ?bind_get).
  cbn [client_source]. rewrite Hs. cbn [mgmt_request]. change (mgmt_type_of_i32 1) with (Some HamgrdGetActorState). cbv beta match. rewrite !bind_ret. unfold ret at 1. cbv beta match.
  cbn [driver_step handle_swbus_message in_body in_id in_source handle_management_request]. unfold handle_swbus_message.
  cbn [driver_step handle_swbus_message in_body in_id in_source handle_management_request].
  rewrite bind_get. unfold driver_send, unwrap_result, bind, attempt, lift_client, client_send, outgoing_message_to_swbus_message,
    client_generate, bind, get_state, ret, client_send_raw, get_state, bind, chan_send.
  cbn -[error_code_i32]. rewrite Ho. cbn -[error_code_i32]. rewrite drop_app_length. reflexivity.
Qed.

Lemma create_request_run actor_path c :
  ∃ c1, create_request sp (ShowActorCmd actor_path) (command_sp sp "show") c = Done (Ok (state_request c actor_path), c1) ∧
    cli_edge c1 = cli_edge c ∧ inbox c1 = inbox c ∧ clock c1 = clock c ∧ cli_sent c1 = cli_sent c ∧ cli_lines c1 = cli_lines c.
Proof. eexists. split; [reflexivity|]. by split_and!. Qed.

(** The answer that arrives in time is what the wait returns. *)
Lemma wait_one rid t d m resp (c : CliSt (ActorStateDump (V:=V))) :
  (0 ≤ d < t * 1000)%Z → inbox c = [((clock c + d)%Z, m)] → body m = Some (Response resp) → request_id resp = rid →
  ∃ c', wait_for_response rid t c = Done (Ok (from_code (error_code resp) (error_message resp) (Some m)), c') ∧ cli_lines c' = cli_lines c.
Proof.
  intros Hd Hin Hb Hrid. unfold wait_for_response. rewrite bind_get, Hin. cbn [response_loop]. rewrite bind_get.
  destruct (Z.ltb_spec (clock c - clock c) (t * 1000)); [|lia].
  destruct (Z.ltb_spec (clock c + d - clock c) (t * 1000)); [|lia].
  rewrite bind_modify, Hb, Hrid, Z.eqb_refl. by eexists.
Qed.

(** C25: What `show hamgrd actor` prints is the state of the actor. If the request
    reaches an actor's driver, its answer comes back within ten seconds and the
    JSON form of the state reads back but for what the code skips of it, the
    command prints the state the driver was in. The incoming, internal and sent
    tables have one row for each key of the actor's tables, with the columns of
    its entry: source or answerer, ids, version, message, times, response and
    whether it was acknowledged. The fields of an internal row are those of the
    backup, not the values written since or committed. The queued messages are
    printed in their order, if any, the ids of their headers left out. *)
Theorem show_prints_actor_state `{!Rendering V} `{!RenderingLaws V} delay now shown s c actor_path :
  receiver_open (sender_to_message_router (cli_edge c)) = true → inbox c = [] →
  receiver_open (router (swbus_client s)) = true →
  client_sink (swbus_client s) = false ∨ client_source (swbus_client s) = join_path (to_swbusd_service_path sp) actor_path →
  Forall queued_request (queued_messages s) →
  parse_dump (dump_to_string (dump_state s)) = reread_dump (dump_state s) → (0 ≤ delay < CMD_TIMEOUT * 1000)%Z →
  ∃ c' state,
    show sp (actor_node dump_to_string delay now s) parse_dump (ShowActorCmd actor_path) c = Done (Ok tt, c') ∧
    cli_lines c' = cli_lines c ++ [ShowActorState state] ∧
    let t := actor_tables shown state in
    rows_of ind_key incoming_row (incoming_table s) (incoming_state_table t) ∧
    rows_of itd_key internal_row (internal_table s) (internal_state_table t) ∧
    rows_of sed_key sent_row (sent_messages s) (outgoing_sent_state_table t) ∧
    Forall2 (queued_row shown) (queued_messages s) (default [] (outgoing_queued_state_table t)) ∧
    (outgoing_queued_state_table t = None ↔ queued_messages s = []).
Proof.
  intros Hopen Hin Ho Hdst Hqueued Hparse Hd.
  destruct (reread_queued shown _ Hqueued) as (queued & Hmap & Hrows).
  unfold reread_dump in Hparse. cbn [dump_state dump_queued dump_incoming dump_internal dump_sent] in Hparse.
  rewrite Hmap in Hparse. cbn [mbind option_bind] in Hparse.
  unfold show.
  destruct (register_run sp "show" c) as (e1 & Hreg & He1). rewrite (bind_done _ _ _ _ _ Hreg). cbv beta.
  destruct (create_request_run actor_path (set_edge e1 c)) as (c1 & Hreq & H1 & H2 & H3 & H4 & H5).
  rewrite (bind_done _ _ _ _ _ Hreq). cbv beta. cbn [unwrap header state_request]. rewrite !bind_bind, !bind_ret.
  destruct (runtime_send_run (actor_node dump_to_string delay now s) (state_request c actor_path) c1) as (e2 & Hsend & _);
    [by rewrite H1; cbn; rewrite He1|].
  match type of Hsend with _ = Done (_, ?x) => set (c2 := x) in Hsend end.
  assert (inbox c2 = [((clock c2 + delay)%Z, state_response s (next_id (id_generator c)))]) as Hin2.
  { unfold c2. cbn [inbox clock]. rewrite actor_node_answers by done. cbn [foldl fst snd]. rewrite H2. cbn [inbox set_edge]. by rewrite Hin. }
  rewrite (bind_done _ _ _ tt _ (unwrap_result_ok _ _ _ _ _ Hsend)). cbv beta.
  destruct (wait_one (next_id (id_generator c)) CMD_TIMEOUT delay _ _ c2 Hd Hin2 eq_refl eq_refl) as (c3 & Hwait & Hl3).
  rewrite (bind_done _ _ _ _ _ Hwait). cbv beta. unfold from_code. cbn [error_code state_response]. rewrite error_code_round_trip.
  cbn [rr_error_code rr_msg default from_option Datatypes.id unwrap body]. rewrite !bind_ret.
  unfold state_response at 1. cbn [body unwrap]. rewrite bind_ret. cbn [process_response response_body].
  rewrite Hparse. cbn [unwrap]. rewrite bind_ret.
  eexists _, _. split; [reflexivity|]. split; [cbn; rewrite Hl3; unfold c2; cbn; by rewrite H5|].
  apply actor_tables_rows; [done|]. symmetry. by eapply Forall2_length, mapM_Some.
Qed.
End Theory.

(** * A concrete state shown *)

#[export] Instance demo_rendering : Rendering string := {
  ascii_table rows := String.concat "," ((λ r, attribute r +:+ "|" +:+ kv_value r) <$> rows);
  value_pretty v := Some v;
  header_pretty _ := Some "header";
  local_date z := Some (int_to_string z);
  to_string_lossy s := s;
  hash_iter X m := map_to_list m;
}.
Lemma demo_rendering_laws : RenderingLaws string.
Proof. split. intros X m. reflexivity. Defined.

Definition demo_show_cli : CliSt (ActorStateDump (V:=string)) :=
  mkCliSt (swbusd_dialled true (edge_new demo_cli_sp)) (mkIdGen 7) [] true 0 [] [].
Definition demo_actor_path : ServicePath := mkPath "" "" "" "hamgrd" "0" "dpu" "0".

(** The state of an actor within a callback: an entry written to, a message queued. *)
Lemma demo_called_requests : Forall queued_request (queued_messages demo_called).
Proof. apply Forall_singleton. eexists _, _. split; [vm_compute; reflexivity|]. split; (eexists; split; [reflexivity|vm_compute; reflexivity]). Defined.

Lemma show_prints_actor_state_witness :
  ∃ c' state row,
    show demo_cli_sp (actor_node (λ _, "dump") 5 0 demo_called) (λ _, reread_dump (dump_state demo_called)) (ShowActorCmd demo_actor_path)
      demo_show_cli = Done (Ok tt, c') ∧
    cli_lines c' = [ShowActorState state] ∧
    row ∈ internal_state_table (actor_tables 0 state) ∧ itd_key row = "T" ∧
    is_Some (outgoing_queued_state_table (actor_tables 0 state)).
Proof.
  destruct (show_prints_actor_state (λ _, "dump") (λ _, reread_dump (dump_state demo_called)) demo_cli_sp (Actor0:=demo_actor)
    (RenderingLaws0:=demo_rendering_laws) 5 0 0 demo_called demo_show_cli demo_actor_path)
    as (c' & state & Hrun & Hlines & _ & [Hkeys _] & _ & _ & Hqueue).
  - reflexivity.
  - reflexivity.
  - vm_compute. reflexivity.
  - left. vm_compute. reflexivity.
  - exact demo_called_requests.
  - reflexivity.
  - unfold CMD_TIMEOUT. lia.
  - assert ("T" ∈ itd_key <$> internal_state_table (actor_tables 0 state)) as (row & Hk & Hrow)%list_elem_of_fmap.
    { rewrite Hkeys, elem_of_elements, elem_of_dom. vm_compute. by eexists. }
    exists c', state, row. split; [exact Hrun|]. split; [exact Hlines|]. split; [exact Hrow|]. split; [by symmetry|].
    destruct (outgoing_queued_state_table (actor_tables 0 state)); [by eexists|].
    pose proof (proj1 Hqueue eq_refl) as Hnil. vm_compute in Hnil. discriminate.
Defined.

(** What a commit writes is not what the table of an actor shows afterwards. *)
Lemma committed_row_is_stale :
  table_get (databases demo_committed) "DEMO_TABLE" "demo" = Ok (Some {["value" := "set"]}) ∧
  from_internal_state <$> map_to_list (internal_table demo_committed) =
    [mkInternalDisplay "T" "table|DEMO_TABLE,key|demo,mutated|false,last-updated-time|0" "value|old"].
Proof. split; vm_compute; reflexivity. Qed.
