(* ===== verification/VDpuActor.v ===== *)
(** The vDPU actor of hamgrd: it registers with its DPU actors and forwards
    their state to whoever registered with it. Models
    crates/hamgrd/src/actors/vdpu.rs. *)
From S2P Require Import Prelude RustStr Path Proto Edge Actor ActorTheory Bridge HaTypes.

Open Scope stdpp_scope.

Record VDpuActor : Type := mkVDpuActor { vdpu_actor_id : string; vdpu_cfg : option VDpu }.

Definition vdpu_actor_new (key : string) : VDpuActor := mkVDpuActor key None.

Section VDpu.
Context {V Db : Type} `{Wire V} `{!SwssTable Db} `{!HaCodec V} `{!HaFvCodec} (env : HaEnv).
Abbreviation St := (ActorSt V Db VDpuActor).

Definition vdpu_register_to_dpu_actor (now : Z) (active : bool) : M St string unit :=
  let* s := get_state in
  match vdpu_cfg (actor s) with
  | None => ret tt
  | Some cfg =>
      let* msg := reg_new_actor_msg active RegDPUState (vdpu_actor_id (actor s)) in
      for_each (λ dpu_id,
        let* s := get_state in outgoing_send now (from_my_sp "dpu" dpu_id s) msg) (main_dpu_ids cfg)
  end.

Definition vdpu_handle_message_of_table (now : Z) (k : string) : M St string unit :=
  let* m := incoming_get k in
  let* dpu_kfv := deserialize_data (T:=KeyOpFieldValues) m in
  if decide (kfv_operation dpu_kfv = KopDel) then
    vdpu_register_to_dpu_actor now false;;;
    modify context_stop
  else
    let* row := of_result (from_field_values now (kfv_field_values dpu_kfv)) in
    modify (λ s, set_actor (mkVDpuActor (vdpu_actor_id (actor s)) (Some row)) s);;;
    vdpu_register_to_dpu_actor now true.

Definition calculate_vdpu_state : M St string (option VDpuActorState) :=
  let* s := get_state in
  let* cfg := unwrap "self.vdpu" (vdpu_cfg (actor s)) in
  match main_dpu_ids cfg with
  | [] => ret None
  | dpu_id :: _ =>
      let* msg := try_ok (incoming_get (dpu_msg_key dpu_id)) in
      match msg with
      | None => ret None
      | Some m =>
          let* d := try_ok (deserialize_data (T:=DpuActorState) m) in
          ret (match d with Some dpu => Some (mkVDpuActorState (das_up dpu) dpu) | None => None end)
      end
  end.

Definition vdpu_handle_dpu_state_update (now : Z) : M St string unit :=
  let* state := calculate_vdpu_state in
  match state with
  | None => ret tt
  | Some vdpu_state =>
      let* s := get_state in
      let* msg := vdpu_to_actor_msg (vdpu_actor_id (actor s)) vdpu_state in
      let* s := get_state in
      for_each (λ actor_sp, outgoing_send now actor_sp msg) (get_registered_actors RegVDPUState s)
  end.

Definition vdpu_handle_state_registration (now : Z) (k : string) : M St string unit :=
  let* entry := incoming_get_entry k in
  let* r := deserialize_data (T:=ActorRegistration) (inc_msg entry) in
  if reg_active r then
    let* state := calculate_vdpu_state in
    match state with
    | None => ret tt
    | Some vdpu_state =>
        let* s := get_state in
        let* msg := vdpu_to_actor_msg (vdpu_actor_id (actor s)) vdpu_state in
        outgoing_send now (inc_source entry) msg
    end
  else ret tt.

Definition vdpu_handle_message (now : Z) (k : string) : M St string unit :=
  if decide (k = table_name VDpu) then vdpu_handle_message_of_table now k
  else
    let* s := get_state in
    match vdpu_cfg (actor s) with
    | None => ret tt
    | Some _ =>
        if dpu_is_my_msg k then vdpu_handle_dpu_state_update now
        else if reg_is_my_msg k RegVDPUState then vdpu_handle_state_registration now k
        else ret tt
    end.

#[export] Instance vdpu_actor : Actor (V:=V) (Db:=Db) (A:=VDpuActor) := {
  actor_init _ := ret tt;
  handle_message := vdpu_handle_message;
}.

End VDpu.
