(* ===== verification/DpuActor.v ===== *)
(** The DPU actor of hamgrd: it merges the configuration, pmon and BFD state of
    a DPU into one state for the registered vDPU actors, and keeps the BFD
    sessions of a managed DPU. Models crates/hamgrd/src/actors/dpu.rs. *)
From S2P Require Import Prelude RustStr Path Proto Edge Actor ActorTheory Bridge HaTypes.

Open Scope stdpp_scope.

Inductive DpuData : Type :=
| LocalDpu (dpu : Dpu) (is_managed : bool) (npu_ipv4 : string) (npu_ipv6 : option string)
| RemoteDpuData (rdpu : RemoteDpu).

Record DpuActor : Type := mkDpuActor {
  dpu_actor_id : string;
  dpu_data : option DpuData;
  dpu_bridges : list ConsumerBridge;
}.

Definition dpu_actor_new (key : string) : DpuActor := mkDpuActor key None [].

(** The string order Rust's [sort] uses: bytes, lexicographically. *)
Fixpoint str_leb (a b : string) : bool :=
  match a, b with
  | "", _ => true
  | _, "" => false
  | String x a', String y b' =>
      let nx := nat_of_ascii x in let ny := nat_of_ascii y in
      if (nx <? ny)%nat then true else if (ny <? nx)%nat then false else str_leb a' b'
  end.
Definition sort_strings : list string → list string := sort_by str_leb.

Section Dpu.
Context {V Db : Type} `{Wire V} `{!SwssTable Db} `{!HaCodec V} `{!HaFvCodec} (env : HaEnv).
Abbreviation St := (ActorSt V Db DpuActor).

Definition set_dpu_data (d : DpuData) (s : St) : St :=
  set_actor (mkDpuActor (dpu_actor_id (actor s)) (Some d) (dpu_bridges (actor s))) s.
Definition push_dpu_bridge (b : ConsumerBridge) (s : St) : St :=
  set_actor (mkDpuActor (dpu_actor_id (actor s)) (dpu_data (actor s)) (dpu_bridges (actor s) ++ [b])) s.

Definition get_dpu_state (now : Z) : M St string DpuState := incoming_row now (table_name DpuState).
Definition get_bfd_probe_state (now : Z) : M St string DashBfdProbeState :=
  incoming_row now (table_name DashBfdProbeState).
Definition get_dash_ha_global_config (now : Z) : M St string DashHaGlobalConfig :=
  incoming_row now (table_name DashHaGlobalConfig).

Definition pmon_up (d : DpuState) : bool :=
  bool_decide (dpu_midplane_link_state d = PmonUp) && bool_decide (dpu_control_plane_state d = PmonUp)
  && bool_decide (dpu_data_plane_state d = PmonUp).
Definition bfd_up (b : DashBfdProbeState) : bool :=
  negb (bool_decide (v4_bfd_up_sessions b = [])) || negb (bool_decide (v6_bfd_up_sessions b = [])).

Definition calculate_dpu_state (now : Z) : M St string (bool * option DpuState * option DashBfdProbeState) :=
  let* s := get_state in
  match dpu_data (actor s) with
  | Some (RemoteDpuData _) => ret (false, None, None)
  | _ =>
      let* dpu_state := try_ok (get_dpu_state now) in
      let* bfd_probe_state := try_ok (get_bfd_probe_state now) in
      let final_state := match dpu_state, bfd_probe_state with
                         | Some d, Some b => pmon_up d && bfd_up b
                         | _, _ => false
                         end in
      ret (final_state, dpu_state, bfd_probe_state)
  end.

Definition update_dpu_state (now : Z) (target_actor : option ServicePath) : M St string unit :=
  let* s := get_state in
  match dpu_data (actor s) with
  | None => ret tt
  | Some data =>
      let* r := calculate_dpu_state now in
      let '(up, dpu_state, bfd_probe_state) := r in
      let base := match data with
                  | LocalDpu dpu is_managed npu_ipv4 npu_ipv6 =>
                      from_dpu (dpu_actor_id (actor s)) dpu is_managed npu_ipv4 npu_ipv6 dpu_state bfd_probe_state
                  | RemoteDpuData rdpu => from_remote_dpu (dpu_actor_id (actor s)) rdpu
                  end in
      let* msg := dpu_new_actor_msg (dpu_actor_id (actor s)) (set_up up base) in
      match target_actor with
      | Some sp => outgoing_send now sp msg
      | None =>
          let* s := get_state in
          for_each (λ actor_sp, outgoing_send now actor_sp msg) (get_registered_actors RegDPUState s)
      end
  end.

(** The selector of the DPU_STATE bridge: [None] when [kfv.key[3..]] panics. *)
Definition dpu_state_selector (dpu_id : Z) (kfv : KeyOpFieldValues) : option bool :=
  if (String.length (kfv_key kfv) <? 3)%nat || negb (boundary_at_3 (kfv_key kfv)) then None
  else match parse_u32 (String.substring 3 (String.length (kfv_key kfv) - 3) (kfv_key kfv)) with
       | Some slot => Some (bool_decide (slot = dpu_id))
       | None => Some false
       end.

Definition select_all (_ : KeyOpFieldValues) : option bool := Some true.

Definition handle_dpu_message (now : Z) (k : string) : M St string unit :=
  let* m := incoming_get k in
  let* dpu_kfv := deserialize_data (T:=KeyOpFieldValues) m in
  if decide (kfv_operation dpu_kfv = KopDel) then modify context_stop
  else
    let* dpu := of_result (from_field_values (T:=Dpu) now (kfv_field_values dpu_kfv)) in
    let* npu_ipv4 := match env_npu_ipv4 env with
                     | Some ip => ret ip
                     | None => throw "npu_ipv4 taken from Loopback0 must be available"
                     end in
    let npu_ipv6 := env_npu_ipv6 env in
    let dpu_id := dpu_dpu_id dpu in
    let is_managed := bool_decide (dpu_dpu_id dpu = env_slot_id env) in
    let* s := get_state in
    let first_time := if dpu_data (actor s) is None then true else false in
    modify (set_dpu_data (LocalDpu dpu is_managed npu_ipv4 npu_ipv6));;;
    when (is_managed && first_time)
      (let aid := Some (dpu_actor_id (actor s)) in
       let* b := spawn_consumer_bridge DashHaGlobalConfig env "dpu" aid true select_all in
       modify (push_dpu_bridge b);;;
       let* b := spawn_consumer_bridge RemoteDpu env "dpu" aid false select_all in
       modify (push_dpu_bridge b);;;
       let* b := spawn_consumer_bridge DashBfdProbeState env "dpu" aid true select_all in
       modify (push_dpu_bridge b);;;
       let* b := spawn_consumer_bridge DpuState env "dpu" aid true (dpu_state_selector dpu_id) in
       modify (push_dpu_bridge b));;;
    update_dpu_state now None.

Definition handle_dpu_state_registration (now : Z) (k : string) : M St string unit :=
  let* entry := incoming_get_entry k in
  let* r := deserialize_data (T:=ActorRegistration) (inc_msg entry) in
  when (reg_active r) (update_dpu_state now (Some (inc_source entry))).

Definition update_bfd_session (now : Z) (peer_ip : string) (global_cfg : DashHaGlobalConfig) : M St string unit :=
  let* s := get_state in
  match dpu_data (actor s) with
  | Some (LocalDpu dpu _ _ _) =>
      let bfd_session := mkBfdSession (gc_dpu_bfd_probe_interval_in_ms global_cfg)
        (gc_dpu_bfd_probe_interval_in_ms global_cfg) (gc_dpu_bfd_probe_multiplier global_cfg) true false
        (dpu_pa_ipv4 dpu) (Some "passive") in
      let* fv := of_result (to_field_values bfd_session) in
      let sep := key_separator BfdSessionTable in
      let kfv := mkKfv ("default" +:+ sep +:+ "default" +:+ sep +:+ peer_ip) KopSet fv in
      let* msg := actor_msg_new (dpu_actor_id (actor s)) kfv in
      let* s := get_state in
      outgoing_send now (outgoing_common_bridge_sp (db_name BfdSessionTable) (table_name BfdSessionTable) s) msg
  | _ => ret tt
  end.

Definition is_local_managed (s : St) : bool :=
  match dpu_data (actor s) with Some (LocalDpu _ is_managed _ _) => is_managed | _ => false end.

(** The NPU address of a stored REMOTE_DPU update, if it decodes. *)
Definition remote_npu (now : Z) (e : IncomingTableEntry V) : option string :=
  match from_value (T:=KeyOpFieldValues) (msg_data (inc_msg e)) with
  | Ok kfv => match from_field_values (T:=RemoteDpu) now (kfv_field_values kfv) with
              | Ok rdpu => Some (rdpu_npu_ipv4 rdpu)
              | Err _ => None
              end
  | Err _ => None
  end.

Definition update_bfd_sessions (now : Z) : M St string unit :=
  let* s := get_state in
  if negb (is_local_managed s) then ret tt
  else
    let* global_cfg := get_dash_ha_global_config now in
    let remote_npus := remove_dups (omap (remote_npu now) (incoming_get_by_prefix (table_name RemoteDpu) s)) in
    match dpu_data (actor s) with
    | Some (LocalDpu _ _ npu_ipv4 _) =>
        for_each (λ npu, update_bfd_session now npu global_cfg) (sort_strings (remote_npus ++ [npu_ipv4]))
    | _ => ret tt
    end.

Definition handle_remote_dpu_message_to_remote_dpu (now : Z) (k : string) : M St string unit :=
  let* m := incoming_get k in
  let* dpu_kfv := deserialize_data (T:=KeyOpFieldValues) m in
  if decide (kfv_operation dpu_kfv = KopDel) then modify context_stop
  else
    let* rdpu := of_result (from_field_values (T:=RemoteDpu) now (kfv_field_values dpu_kfv)) in
    modify (set_dpu_data (RemoteDpuData rdpu));;;
    update_dpu_state now None.

Definition handle_remote_dpu_message_to_local_dpu (now : Z) (k : string) : M St string unit :=
  let* m := incoming_get k in
  let* dpu_kfv := deserialize_data (T:=KeyOpFieldValues) m in
  let* remote_dpu := of_result (from_field_values (T:=RemoteDpu) now (kfv_field_values dpu_kfv)) in
  let* global_cfg := get_dash_ha_global_config now in
  update_bfd_session now (rdpu_npu_ipv4 remote_dpu) global_cfg.

Definition handle_remote_dpu_message (now : Z) (k : string) : M St string unit :=
  let* s := get_state in
  match dpu_data (actor s) with
  | Some (LocalDpu _ _ _ _) => handle_remote_dpu_message_to_local_dpu now k
  | _ => handle_remote_dpu_message_to_remote_dpu now k
  end.

Definition dpu_handle_dash_ha_global_config (now : Z) : M St string unit := update_bfd_sessions now.

Definition dpu_handle_message (now : Z) (k : string) : M St string unit :=
  if decide (k = table_name Dpu) then handle_dpu_message now k
  else if starts_with k (table_name RemoteDpu) then handle_remote_dpu_message now k
  else
    let* s := get_state in
    match dpu_data (actor s) with
    | None => ret tt
    | Some _ =>
        if reg_is_my_msg k RegDPUState then handle_dpu_state_registration now k
        else if negb (is_local_managed s) then ret tt
        else if decide (k = table_name DashHaGlobalConfig) then dpu_handle_dash_ha_global_config now
        else if decide (k = table_name DpuState ∨ k = table_name DashBfdProbeState) then update_dpu_state now None
        else ret tt
    end.

#[export] Instance dpu_actor : Actor (V:=V) (Db:=Db) (A:=DpuActor) := {
  actor_init _ := ret tt;
  handle_message := dpu_handle_message;
}.

End Dpu.
