(* ===== verification/HaSetActor.v ===== *)
(** The HA-set actor of hamgrd: from the HA-set configuration, the global
    configuration and the state of its vDPUs it programs the DPU's HA-set table
    and the VNET route to the set. Models crates/hamgrd/src/actors/ha_set.rs. *)
From S2P Require Import Prelude RustStr Path Proto Edge Actor ActorTheory Bridge HaTypes.

Open Scope stdpp_scope.

Record HaSetActor : Type := mkHaSetActor {
  haset_id : string;
  dash_ha_set_config : option DashHaSetConfigTable;
  haset_bridges : list ConsumerBridge;
}.

Definition haset_actor_new (key : string) : HaSetActor := mkHaSetActor key None [].

Record VDpuStateExt : Set := mkVDpuExt { ext_vdpu : VDpuActorState; ext_is_primary : bool }.

Section HaSet.
Context {V Db : Type} `{Wire V} `{!SwssTable Db} `{!HaCodec V} `{!HaFvCodec} (env : HaEnv).
Abbreviation St := (ActorSt V Db HaSetActor).

Definition haset_get_global_config (now : Z) : M St string (option DashHaGlobalConfig) :=
  try_ok (incoming_row now (table_name DashHaGlobalConfig)).

Definition ext_managed (v : VDpuStateExt) : bool := das_is_managed (vds_dpu (ext_vdpu v)).

(** [vdpus[i]]: panics out of bounds. *)
Definition vdpu_at (vdpus : list VDpuStateExt) (i : nat) : M St string VDpuStateExt :=
  unwrap "index out of bounds" (vdpus !! i).

Definition prepare_dash_ha_set_table_data (now : Z) (vdpus : list VDpuStateExt)
    : M St string (option DashHaSetTable) :=
  let* s := get_state in
  match dash_ha_set_config (actor s) with
  | None => ret None
  | Some cfg =>
      if negb (existsb ext_managed vdpus) then ret None
      else
        let* v0 := vdpu_at vdpus 0 in
        let* v1 := vdpu_at vdpus 1 in
        let pair := match ext_managed v0, ext_managed v1 with
                    | true, _ => Some (v0, v1)
                    | false, true => Some (v1, v0)
                    | false, false => None
                    end in
        match pair with
        | None => ret None
        | Some (local_vdpu, remote_vdpu) =>
            let* global := haset_get_global_config now in
            match global with
            | None => ret None
            | Some g =>
                let l := vds_dpu (ext_vdpu local_vdpu) in
                let r := vds_dpu (ext_vdpu remote_vdpu) in
                ret (Some (mkHaSet (hsc_version cfg) (hsc_vip_v4 cfg) (hsc_vip_v6 cfg) (hsc_owner cfg)
                  (hsc_scope cfg) (das_npu_ipv4 l) (das_pa_ipv4 l) (das_pa_ipv4 r)
                  (gc_cp_data_channel_port g) (gc_dp_channel_dst_port g) (gc_dp_channel_src_port_min g)
                  (gc_dp_channel_src_port_max g) (gc_dp_channel_probe_interval_ms g)
                  (gc_dp_channel_probe_fail_threshold g)))
            end
        end
  end.

Definition update_dash_ha_set_table (now : Z) (vdpus : list VDpuStateExt) : M St string unit :=
  let* data := prepare_dash_ha_set_table_data now vdpus in
  match data with
  | None => ret tt
  | Some dash_ha_set =>
      let* s := get_state in
      let* fv := of_result (to_field_values dash_ha_set) in
      let* msg := actor_msg_new (haset_id (actor s)) (mkKfv (haset_id (actor s)) KopSet fv) in
      outgoing_send now (outgoing_common_bridge_sp (db_name DashHaSetTable) (table_name DashHaSetTable) s) msg;;;
      let* msg := unwrap_result "new_actor_msg" (haset_new_actor_msg true (haset_id (actor s)) dash_ha_set) in
      let* s := get_state in
      for_each (λ actor_sp, outgoing_send now actor_sp msg) (get_registered_actors RegHaSetState s)
  end.

(** The endpoint of a vDPU in the VNET route: its own address when managed
    here, the address of its NPU otherwise. *)
Definition route_endpoint (v : VDpuStateExt) : string :=
  let d := vds_dpu (ext_vdpu v) in
  if das_is_managed d then das_pa_ipv4 d else das_npu_ipv4 d.
Definition bool_to_string (b : bool) : string := if b then "true" else "false".

Definition update_vnet_route_tunnel_table (now : Z) (vdpus : list VDpuStateExt) : M St string unit :=
  let* global := haset_get_global_config now in
  match global with
  | None => ret tt
  | Some g =>
      let* vnet := match gc_vnet_name g with Some n => ret n | None => throw "Missing vnet_name in global config" end in
      let* s := get_state in
      let* cfg := unwrap "dash_ha_set_config" (dash_ha_set_config (actor s)) in
      let swss_key := vnet +:+ ":" +:+ hsc_vip_v4 cfg in
      let T := VnetRouteTunnelTable in
      (if internal_has_entry (table_name T) swss_key s then ret tt
       else
         let* _ := of_result (env_open env (db_name T) (table_name T) (is_dpu T)) in
         internal_add (table_name T) (table_name T) swss_key);;;
      let vnet_route := mkVnetRoute (route_endpoint <$> vdpus)
        (Some ((λ v, das_pa_ipv4 (vds_dpu (ext_vdpu v))) <$> vdpus)) None
        (Some ((λ v, bool_to_string (ext_is_primary v)) <$> vdpus))
        (gc_dpu_bfd_probe_interval_in_ms g) (gc_dpu_bfd_probe_interval_in_ms g)
        (Some (existsb ext_managed vdpus)) in
      let* f := of_result (to_field_values vnet_route) in
      internal_get_mut (table_name T) (λ _, f)
  end.

Definition register_to_vdpu_actor (now : Z) (active : bool) : M St string unit :=
  let* s := get_state in
  match dash_ha_set_config (actor s) with
  | None => ret tt
  | Some cfg =>
      let* msg := reg_new_actor_msg active RegVDPUState (haset_id (actor s)) in
      for_each (λ i, let* s := get_state in outgoing_send now (from_my_sp "vdpu" i s) msg)
        (List.filter (λ x, negb (is_empty x)) (trim <$> hsc_vdpu_ids cfg))
  end.

(** Looking a vDPU up in the incoming table, without its error. *)
Definition haset_get_vdpu (vdpu_id : string) : M St string (option VDpuActorState) :=
  let* m := try_ok (incoming_get (vdpu_msg_key vdpu_id)) in
  match m with
  | None => ret None
  | Some m => try_ok (deserialize_data m)
  end.

Definition get_vdpus : M St string (list (option VDpuStateExt)) :=
  let* s := get_state in
  match dash_ha_set_config (actor s) with
  | None => ret []
  | Some cfg =>
      let preferred := List.filter (λ x, negb (is_empty x)) (default [] (hsc_preferred_vdpu_ids cfg)) in
      let backups := List.filter (λ x, negb (is_empty x) && negb (bool_decide (x ∈ preferred))) (hsc_vdpu_ids cfg) in
      let* ps := map_m (λ i, let* v := haset_get_vdpu i in ret ((λ v, mkVDpuExt v true) <$> v)) preferred in
      let* bs := map_m (λ i, let* v := haset_get_vdpu i in ret ((λ v, mkVDpuExt v false) <$> v)) backups in
      ret (ps ++ bs)
  end.

Definition get_vdpus_if_ready : M St string (option (list VDpuStateExt)) :=
  let* vdpus := get_vdpus in
  ret (mapM (λ v, v) vdpus).

Definition push_haset_bridge (b : ConsumerBridge) (s : St) : St :=
  set_actor (mkHaSetActor (haset_id (actor s)) (dash_ha_set_config (actor s)) (haset_bridges (actor s) ++ [b])) s.

Definition handle_dash_ha_set_config_table_message (now : Z) (k : string) : M St string unit :=
  let* m := incoming_get k in
  let* dpu_kfv := deserialize_data (T:=KeyOpFieldValues) m in
  if decide (kfv_operation dpu_kfv = KopDel) then
    register_to_vdpu_actor now false;;;
    modify context_stop
  else
    let* s := get_state in
    let first_time := if dash_ha_set_config (actor s) is None then true else false in
    let* row := of_result (from_field_values now (kfv_field_values dpu_kfv)) in
    modify (λ s, set_actor (mkHaSetActor (haset_id (actor s)) (Some row) (haset_bridges (actor s))) s);;;
    register_to_vdpu_actor now true;;;
    when first_time
      (let* b := spawn_consumer_bridge DashHaGlobalConfig env "ha-set" (Some (haset_id (actor s))) true (λ _, Some true) in
       modify (push_haset_bridge b));;;
    let* vdpus := get_vdpus_if_ready in
    match vdpus with
    | None => ret tt
    | Some vdpus => update_dash_ha_set_table now vdpus
    end.

(** [handle_dash_ha_global_config] and [handle_vdpu_state_update], which have
    the same body. *)
Definition haset_update_tables (now : Z) : M St string unit :=
  let* vdpus := get_vdpus_if_ready in
  match vdpus with
  | None => ret tt
  | Some vdpus =>
      update_dash_ha_set_table now vdpus;;;
      update_vnet_route_tunnel_table now vdpus
  end.
Definition haset_handle_dash_ha_global_config (now : Z) : M St string unit := haset_update_tables now.
Definition haset_handle_vdpu_state_update (now : Z) : M St string unit := haset_update_tables now.

Definition handle_haset_state_registration (now : Z) (k : string) : M St string unit :=
  let* entry := incoming_get_entry k in
  let* r := deserialize_data (T:=ActorRegistration) (inc_msg entry) in
  if reg_active r then
    let* vdpus := get_vdpus_if_ready in
    match vdpus with
    | None => ret tt
    | Some vdpus =>
        let* data := prepare_dash_ha_set_table_data now vdpus in
        match data with
        | None => ret tt
        | Some dash_ha_set =>
            let* s := get_state in
            let* msg := unwrap_result "new_actor_msg" (haset_new_actor_msg true (haset_id (actor s)) dash_ha_set) in
            outgoing_send now (inc_source entry) msg
        end
    end
  else ret tt.

Definition haset_handle_message (now : Z) (k : string) : M St string unit :=
  if decide (k = table_name DashHaSetConfigTable) then
    let* _ := attempt (E:=string) (handle_dash_ha_set_config_table_message now k) in ret tt
  else
    let* s := get_state in
    match dash_ha_set_config (actor s) with
    | None => ret tt
    | Some _ =>
        if vdpu_is_my_msg k then haset_handle_vdpu_state_update now
        else if decide (k = table_name DashHaGlobalConfig) then haset_handle_dash_ha_global_config now
        else if reg_is_my_msg k RegHaSetState then handle_haset_state_registration now k
        else ret tt
    end.

#[export] Instance haset_actor : Actor (V:=V) (Db:=Db) (A:=HaSetActor) := {
  actor_init _ := ret tt;
  handle_message := haset_handle_message;
}.

End HaSet.
