(* ===== verification/HaScopeActor.v ===== *)
(** The HA-scope actor of hamgrd: it programs the HA scope of a managed vDPU,
    mirrors the DPU's scope state into the NPU table the SDN controller reads,
    and keeps the list of operations that wait for approval. Models
    crates/hamgrd/src/actors/ha_scope.rs. *)
From S2P Require Import Prelude RustStr Path Proto Edge Actor ActorTheory Bridge HaTypes.

Open Scope stdpp_scope.

Record HaScopeActor : Type := mkHaScopeActor {
  hascope_actor_id : string;
  ha_scope_id : string;
  scope_vdpu_id : string;
  dash_ha_scope_config : option DashHaScopeConfigTable;
  hascope_bridges : list ConsumerBridge;
  dpu_ha_scope_state : option DpuDashHaScopeState;
}.

(** [HaScopeActor::new]: the key is [vdpu_id:ha_scope_id]. *)
Definition hascope_actor_new (key : string) : result HaScopeActor string :=
  match split_once ":"%char key with
  | Some (vdpu_id, scope_id) => Ok (mkHaScopeActor key scope_id vdpu_id None [] None)
  | None => Err ("Invalid key format for HA scope actor: " +:+ key)
  end.

(** Operations waiting for approval: id to type. *)
Abbreviation PendingOps := (gmap string string).

Section HaScope.
Context {V Db : Type} `{Wire V} `{!SwssTable Db} `{!HaCodec V} `{!HaFvCodec} (env : HaEnv).
(** [Uuid::new_v4()]: the n-th identifier drawn while handling a message. *)
Context (uuid : Z → nat → string).
Abbreviation St := (ActorSt V Db HaScopeActor).
Abbreviation NPU_TABLE := (table_name NpuDashHaScopeState).

Definition set_scope_config (c : DashHaScopeConfigTable) (s : St) : St :=
  let a := actor s in
  set_actor (mkHaScopeActor (hascope_actor_id a) (ha_scope_id a) (scope_vdpu_id a) (Some c)
    (hascope_bridges a) (dpu_ha_scope_state a)) s.
Definition set_dpu_scope_state (d : DpuDashHaScopeState) (s : St) : St :=
  let a := actor s in
  set_actor (mkHaScopeActor (hascope_actor_id a) (ha_scope_id a) (scope_vdpu_id a) (dash_ha_scope_config a)
    (hascope_bridges a) (Some d)) s.
Definition push_scope_bridge (b : ConsumerBridge) (s : St) : St :=
  let a := actor s in
  set_actor (mkHaScopeActor (hascope_actor_id a) (ha_scope_id a) (scope_vdpu_id a) (dash_ha_scope_config a)
    (hascope_bridges a ++ [b]) (dpu_ha_scope_state a)) s.

(** ** Getters *)

Definition scope_get_vdpu : M St string (option VDpuActorState) :=
  let* s := get_state in
  let* m := try_ok (incoming_get (vdpu_msg_key (scope_vdpu_id (actor s)))) in
  match m with None => ret None | Some m => try_ok (deserialize_data m) end.

Definition scope_get_haset : M St string (option HaSetActorState) :=
  let* s := get_state in
  let* m := try_ok (incoming_get (haset_msg_key (ha_scope_id (actor s)))) in
  match m with None => ret None | Some m => try_ok (deserialize_data m) end.

Definition get_dpu_ha_scope_state (now : Z) : M St string (option DpuDashHaScopeState) :=
  try_ok (incoming_row now (table_name DpuDashHaScopeState)).

Definition get_npu_ha_scope_state (now : Z) : M St string (option NpuDashHaScopeState) :=
  let* s := get_state in
  match dash_ha_scope_config (actor s) with
  | None => ret None
  | Some _ =>
      let* f := internal_get NPU_TABLE in
      if decide (f = ∅) then ret None
      else match from_field_values now f with Ok st => ret (Some st) | Err _ => ret None end
  end.

(** The pending operations in a scope state. *)
Definition operations_of (st : NpuDashHaScopeState) : result PendingOps string :=
  match nss_pending_operation_ids st, nss_pending_operation_types st with
  | Some ids, Some types =>
      if decide (length ids = length types) then Ok (list_to_map (reverse (zip ids types)))
      else Err "pending_operation_ids and pending_operation_types have different lengths"
  | _, _ => Ok ∅
  end.

Definition get_pending_operations (now : Z) (given : option NpuDashHaScopeState) : M St string PendingOps :=
  match given with
  | Some st => of_result (operations_of st)
  | None =>
      let* f := internal_get NPU_TABLE in
      if decide (f = ∅) then ret ∅
      else
        let* st := of_result (from_field_values now f) in
        of_result (operations_of st)
  end.

Definition vdpu_is_managed : M St string bool :=
  let* vdpu := scope_get_vdpu in
  ret (match vdpu with Some v => das_is_managed (vds_dpu v) | None => false end).

(** ** Actions *)

Definition scope_register (now : Z) (active : bool) (t : RegistrationType) (dest : St → ServicePath)
    : M St string unit :=
  let* s := get_state in
  match dash_ha_scope_config (actor s) with
  | None => ret tt
  | Some _ =>
      let* msg := reg_new_actor_msg active t (hascope_actor_id (actor s)) in
      outgoing_send now (dest s) msg
  end.
Definition scope_register_to_vdpu_actor (now : Z) (active : bool) : M St string unit :=
  scope_register now active RegVDPUState (λ s, from_my_sp "vdpu" (scope_vdpu_id (actor s)) s).
Definition register_to_haset_actor (now : Z) (active : bool) : M St string unit :=
  scope_register now active RegHaSetState (λ s, from_my_sp "ha-set" (ha_scope_id (actor s)) s).

(** The approved operations of a type that are still pending. *)
Definition approved (op_type : string) (ops : PendingOps) (ids : list string) : bool :=
  existsb (λ i, bool_decide (ops !! i = Some op_type)) ids.

Definition update_dpu_ha_scope_table (now : Z) : M St string unit :=
  let* s := get_state in
  match dash_ha_scope_config (actor s) with
  | None => ret tt
  | Some cfg =>
      let* requested :=
        match hscc_approved_pending_operation_ids cfg with
        | Some ((_ :: _) as approved_ops) =>
            let* pending := get_pending_operations now None in
            ret (approved "flow_reconcile" pending approved_ops, approved "activate_role" pending approved_ops)
        | _ => ret (false, false)
        end in
      let dash_ha_scope := mkHaScope (hscc_version cfg) (hscc_disable cfg) (hscc_desired_ha_state cfg)
        requested.1 requested.2 in
      let* fv := of_result (to_field_values dash_ha_scope) in
      let* msg := actor_msg_new (ha_scope_id (actor s)) (mkKfv (ha_scope_id (actor s)) KopSet fv) in
      outgoing_send now (outgoing_common_bridge_sp (db_name DashHaScopeTable) (table_name DashHaScopeTable) s) msg
  end.

(** The fields [update_npu_ha_scope_state_base] sets. *)
Definition npu_base (p : DpuState) (b : DashBfdProbeState) (h : DashHaSetTable) (n : NpuDashHaScopeState)
    : NpuDashHaScopeState :=
  mkNpuScopeState 0 0 (hs_vip_v4 h) (hs_vip_v6 h) (hs_local_ip h) (hs_peer_ip h)
    (nss_local_ha_state n) (nss_local_ha_state_last_updated_time_in_ms n)
    (nss_local_ha_state_last_updated_reason n) (nss_local_target_asic_ha_state n)
    (nss_local_acked_asic_ha_state n) (nss_local_target_term n) (nss_local_acked_term n)
    (nss_peer_ha_state n) (nss_peer_term n)
    (dpu_midplane_link_state p) (dpu_midplane_link_time p) (dpu_control_plane_state p)
    (dpu_control_plane_time p) (dpu_data_plane_state p) (dpu_data_plane_time p)
    (v4_bfd_up_sessions b) (v4_bfd_up_sessions_timestamp b)
    (v6_bfd_up_sessions b) (v6_bfd_up_sessions_timestamp b)
    (nss_pending_operation_ids n) (nss_pending_operation_types n)
    (nss_pending_operation_list_last_updated_time_in_ms n) (nss_switchover_id n) (nss_switchover_state n)
    (nss_switchover_start_time_in_ms n) (nss_switchover_end_time_in_ms n)
    (nss_switchover_approved_time_in_ms n) (nss_flow_sync_session_id n) (nss_flow_sync_session_state n)
    (nss_flow_sync_session_start_time_in_ms n) (nss_flow_sync_session_target_server n).

Definition write_npu_state (st : NpuDashHaScopeState) : M St string unit :=
  let* f := of_result (to_field_values st) in
  internal_get_mut NPU_TABLE (λ _, f).

Definition update_npu_ha_scope_state_base (now : Z) : M St string unit :=
  let* s := get_state in
  match dash_ha_scope_config (actor s) with
  | None => ret tt
  | Some _ =>
      let* vdpu := scope_get_vdpu in
      match vdpu with
      | None => ret tt
      | Some v =>
          let d := vds_dpu v in
          if negb (das_is_managed d) then ret tt
          else
            let pmon_state := default (dpu_state_default now) (das_dpu_pmon_state d) in
            let bfd_state := default (bfd_probe_default now) (das_dpu_bfd_state d) in
            let* haset := scope_get_haset in
            match haset with
            | None => ret tt
            | Some h =>
                let* npu := get_npu_ha_scope_state now in
                write_npu_state (npu_base pmon_state bfd_state (hss_ha_set h) (default npu_scope_state_default npu))
            end
      end
  end.

(** The fields [update_npu_ha_scope_state_pending_operations] sets. *)
Definition npu_pending (ops : PendingOps) (now : Z) (n : NpuDashHaScopeState) : NpuDashHaScopeState :=
  mkNpuScopeState (nss_creation_time_in_ms n) (nss_last_heartbeat_time_in_ms n) (nss_vip_v4 n) (nss_vip_v6 n)
    (nss_local_ip n) (nss_peer_ip n) (nss_local_ha_state n) (nss_local_ha_state_last_updated_time_in_ms n)
    (nss_local_ha_state_last_updated_reason n) (nss_local_target_asic_ha_state n)
    (nss_local_acked_asic_ha_state n) (nss_local_target_term n) (nss_local_acked_term n)
    (nss_peer_ha_state n) (nss_peer_term n)
    (nss_midplane_state n) (nss_midplane_time n) (nss_control_plane_state n) (nss_control_plane_time n)
    (nss_data_plane_state n) (nss_data_plane_time n) (nss_up_bfd_sessions_v4 n)
    (nss_up_bfd_sessions_v4_update_time n) (nss_up_bfd_sessions_v6 n) (nss_up_bfd_sessions_v6_update_time n)
    (Some (map_to_list ops).*1) (Some (map_to_list ops).*2) (Some (now_in_millis now))
    (nss_switchover_id n) (nss_switchover_state n)
    (nss_switchover_start_time_in_ms n) (nss_switchover_end_time_in_ms n)
    (nss_switchover_approved_time_in_ms n) (nss_flow_sync_session_id n) (nss_flow_sync_session_state n)
    (nss_flow_sync_session_start_time_in_ms n) (nss_flow_sync_session_target_server n).

(** The pending operations after removing the approved and adding the new. *)
Definition revise_operations (new_operations : list (string * string)) (approved_operations : list string)
    (ops : PendingOps) : PendingOps :=
  foldl (λ m e, <[e.1 := e.2]> m) (foldl (λ m i, delete i m) ops approved_operations) new_operations.

Definition update_npu_ha_scope_state_pending_operations (now : Z) (new_operations : list (string * string))
    (approved_operations : list string) : M St string unit :=
  let* npu := get_npu_ha_scope_state now in
  match npu with
  | None => ret tt
  | Some st =>
      let* old_ops := get_pending_operations now (Some st) in
      let ops := revise_operations new_operations approved_operations old_ops in
      if decide (old_ops = ops) then ret tt else write_npu_state (npu_pending ops now st)
  end.

(** The fields [update_npu_ha_scope_state_ha_state] sets. *)
Definition npu_ha_state (cfg : DashHaScopeConfigTable) (d : DpuDashHaScopeState) (n : NpuDashHaScopeState)
    : NpuDashHaScopeState :=
  mkNpuScopeState (nss_creation_time_in_ms n) (nss_last_heartbeat_time_in_ms n) (nss_vip_v4 n) (nss_vip_v6 n)
    (nss_local_ip n) (nss_peer_ip n)
    (Some (dss_ha_role d)) (Some (dss_ha_role_start_time d)) (Some "dpu initiated")
    (Some (hscc_desired_ha_state cfg)) (Some (dss_ha_role d)) (Some (dss_ha_term d)) (Some (dss_ha_term d))
    (nss_peer_ha_state n) (nss_peer_term n)
    (nss_midplane_state n) (nss_midplane_time n) (nss_control_plane_state n) (nss_control_plane_time n)
    (nss_data_plane_state n) (nss_data_plane_time n) (nss_up_bfd_sessions_v4 n)
    (nss_up_bfd_sessions_v4_update_time n) (nss_up_bfd_sessions_v6 n) (nss_up_bfd_sessions_v6_update_time n)
    (nss_pending_operation_ids n) (nss_pending_operation_types n)
    (nss_pending_operation_list_last_updated_time_in_ms n) (nss_switchover_id n) (nss_switchover_state n)
    (nss_switchover_start_time_in_ms n) (nss_switchover_end_time_in_ms n)
    (nss_switchover_approved_time_in_ms n) (nss_flow_sync_session_id n) (nss_flow_sync_session_state n)
    (nss_flow_sync_session_start_time_in_ms n) (nss_flow_sync_session_target_server n).

Definition update_npu_ha_scope_state_ha_state (now : Z) : M St string unit :=
  let* s := get_state in
  match dash_ha_scope_config (actor s) with
  | None => ret tt
  | Some cfg =>
      let* npu := get_npu_ha_scope_state now in
      match npu with
      | None => ret tt
      | Some st =>
          let* d := get_dpu_ha_scope_state now in
          match d with
          | None => ret tt
          | Some d => write_npu_state (npu_ha_state cfg d st)
          end
      end
  end.

(** ** Handlers *)

Definition handle_dash_ha_scope_config_table_message (now : Z) (k : string) : M St string unit :=
  let* m := incoming_get k in
  let* kfv := deserialize_data (T:=KeyOpFieldValues) m in
  if decide (kfv_operation kfv = KopDel) then
    scope_register_to_vdpu_actor now false;;;
    register_to_haset_actor now false;;;
    modify context_stop
  else
    let* s := get_state in
    let first_time := if dash_ha_scope_config (actor s) is None then true else false in
    let* cfg := of_result (from_field_values now (kfv_field_values kfv)) in
    modify (set_scope_config cfg);;;
    when first_time
      (scope_register_to_vdpu_actor now true;;;
       register_to_haset_actor now true);;;
    let* managed := vdpu_is_managed in
    if negb managed then ret tt
    else
      update_dpu_ha_scope_table now;;;
      update_npu_ha_scope_state_ha_state now;;;
      match default [] (hscc_approved_pending_operation_ids cfg) with
      | [] => ret tt
      | ids => update_npu_ha_scope_state_pending_operations now [] ids
      end.

Definition scope_handle_vdpu_state_update (now : Z) : M St string unit :=
  let* vdpu := scope_get_vdpu in
  match vdpu with
  | None => ret tt
  | Some v =>
      if negb (das_is_managed (vds_dpu v)) then ret tt
      else
        let* s := get_state in
        let a := actor s in
        let T := NpuDashHaScopeState in
        let swss_key := scope_vdpu_id a +:+ key_separator T +:+ ha_scope_id a in
        (if internal_has_entry (table_name T) swss_key s then ret tt
         else
           let* _ := of_result (env_open env (db_name T) (table_name T) (is_dpu T)) in
           internal_add (table_name T) (table_name T) swss_key);;;
        (match hascope_bridges a with
         | [] =>
             let* b := spawn_consumer_bridge DpuDashHaScopeState env "ha-scope" (Some (hascope_actor_id a)) true
                         (λ _, Some true) in
             modify (push_scope_bridge b)
         | _ => ret tt
         end);;;
        update_dpu_ha_scope_table now;;;
        update_npu_ha_scope_state_base now
  end.

Definition handle_haset_state_update (now : Z) : M St string unit := update_npu_ha_scope_state_base now.

(** The operations a new DPU state asks for: each pending flag that was not
    pending before. *)
Definition requested_operations (now : Z) (new old : DpuDashHaScopeState) : list (string * string) :=
  let add (b : bool) (ty : string) (l : list (string * string)) :=
    if b then l ++ [(uuid now (length l), ty)] else l in
  add (dss_flow_reconcile_pending new && negb (dss_flow_reconcile_pending old)) "flow_reconcile"
    (add (dss_brainsplit_recover_pending new && negb (dss_brainsplit_recover_pending old)) "brainsplit_recover"
      (add (dss_activate_role_pending new && negb (dss_activate_role_pending old)) "activate_role" [])).

Definition handle_dpu_ha_scope_state_update (now : Z) : M St string unit :=
  let* new_state := get_dpu_ha_scope_state now in
  match new_state with
  | None => ret tt
  | Some new_state =>
      let* s := get_state in
      let old_state := default dpu_scope_state_default (dpu_ha_scope_state (actor s)) in
      let operations := requested_operations now new_state old_state in
      modify (set_dpu_scope_state new_state);;;
      update_npu_ha_scope_state_ha_state now;;;
      match operations with
      | [] => ret tt
      | _ => update_npu_ha_scope_state_pending_operations now operations []
      end
  end.

Definition hascope_handle_message (now : Z) (k : string) : M St string unit :=
  if decide (k = table_name DashHaScopeConfigTable) then
    let* _ := attempt (E:=string) (handle_dash_ha_scope_config_table_message now k) in ret tt
  else
    let* s := get_state in
    match dash_ha_scope_config (actor s) with
    | None => ret tt
    | Some _ =>
        if vdpu_is_my_msg k then scope_handle_vdpu_state_update now
        else if haset_is_my_msg k then handle_haset_state_update now
        else if starts_with k (table_name DpuDashHaScopeState) then handle_dpu_ha_scope_state_update now
        else ret tt
    end.

#[export] Instance hascope_actor : Actor (V:=V) (Db:=Db) (A:=HaScopeActor) := {
  actor_init _ := ret tt;
  handle_message := hascope_handle_message;
}.

End HaScope.
