(* ===== verification/Hamgrd.v ===== *)
(** The process of hamgrd: the actors it spawns, the actor creators that spawn
    them on the first update of their table, the bridges, and the start-up.
    Models crates/hamgrd/src/actors.rs and main.rs and
    crates/swbus-actor/src/runtime.rs. *)
From S2P Require Import Prelude RustStr Path Proto Edge Actor Bridge HaTypes VDpuActor DpuActor HaSetActor HaScopeActor.

Open Scope stdpp_scope.

(** * The state of the process *)

Inductive HaActor : Type :=
| ADpu (a : DpuActor)
| AVDpu (a : VDpuActor)
| AHaSet (a : HaSetActor)
| AHaScope (a : HaScopeActor).

(** A task of [ActorDriver::run] with the handler of its client, as spawned. *)
Record ActorTask : Type := mkActorTask { task_sp : ServicePath; task_handler : nat; task_actor : HaActor }.

(** [ActorCreator] *)
Record ActorCreator : Type := mkCreator {
  creator_sp : ServicePath;
  creator_handler : nat;
  create_fn : string → result HaActor string;
  creator_ids : MessageIdGenerator;
}.

(** The edge runtime with the tasks that share it. *)
Record HamgrdSt : Type := mkHamgrd {
  hg_edge : EdgeState;
  hg_actors : list ActorTask;
  hg_creators : list ActorCreator;
  hg_consumers : list (ConsumerBridge * nat);
  hg_producers : list (ServicePath * nat);
}.

Definition lift_edge {E A} (m : M EdgeState E A) : M HamgrdSt E A :=
  λ s, match m (hg_edge s) with
       | Done (r, e) => Done (r, mkHamgrd e (hg_actors s) (hg_creators s) (hg_consumers s) (hg_producers s))
       | Panicked w => Panicked w
       | OutOfFuel => OutOfFuel
       end.

(** * Spawning *)

(** [ActorRuntime::spawn] *)
Definition actor_spawn {E} (a : HaActor) (resource_type resource_id : string) : M HamgrdSt E unit :=
  let* s := get_state in
  let sp := new_sp resource_type resource_id (hg_edge s) in
  let* h := lift_edge (client_new sp true) in
  modify (λ s, mkHamgrd (hg_edge s) (hg_actors s ++ [mkActorTask sp h a]) (hg_creators s)
                 (hg_consumers s) (hg_producers s)).

(** [ConsumerBridge::spawn] and [spawn_producer_bridge] *)
Definition consumer_spawn {E} (b : ConsumerBridge) : M HamgrdSt E unit :=
  let* h := lift_edge (client_new (br_addr b) false) in
  modify (λ s, mkHamgrd (hg_edge s) (hg_actors s) (hg_creators s) (hg_consumers s ++ [(b, h)]) (hg_producers s)).
Definition producer_spawn {E} (addr : ServicePath) : M HamgrdSt E unit :=
  let* h := lift_edge (client_new addr false) in
  modify (λ s, mkHamgrd (hg_edge s) (hg_actors s) (hg_creators s) (hg_consumers s) (hg_producers s ++ [(addr, h)])).

(** [ActorCreator::new], at [startup] nanoseconds since the epoch. *)
Definition creator_new {E} (sp : ServicePath) (public : bool) (create : string → result HaActor string)
    (startup : Z) : M HamgrdSt E ActorCreator :=
  let* h := lift_edge (client_new sp public) in
  let c := mkCreator sp h create (id_generator_new startup) in
  modify (λ s, mkHamgrd (hg_edge s) (hg_actors s) (hg_creators s ++ [c]) (hg_consumers s) (hg_producers s));;;
  ret c.

(** * The actor creator *)

(** The task of a creator: itself and the process. *)
Record CreatorSt : Type := mkCreatorSt { creator : ActorCreator; process : HamgrdSt }.

Definition lift_process {E A} (m : M HamgrdSt E A) : M CreatorSt E A :=
  λ s, match m (process s) with
       | Done (r, p) => Done (r, mkCreatorSt (creator s) p)
       | Panicked w => Panicked w
       | OutOfFuel => OutOfFuel
       end.

Definition creator_generate {E} : M CreatorSt E Z :=
  λ s, let c := creator s in
       let '(i, g) := id_generate (creator_ids c) in
       Done (Ok i, mkCreatorSt (mkCreator (creator_sp c) (creator_handler c) (create_fn c) g) (process s)).

Definition error_code_and_text (e : SwbusError) : SwbusErrorCode * string :=
  match e with
  | ConnectionErr code detail | InternalErr code detail | InputErr code detail | RouteErr code detail => (code, detail)
  end.

Definition with_resource_id (i : string) (sp : ServicePath) : ServicePath :=
  mkPath (region_id sp) (cluster_id sp) (node_id sp) (service_type sp) (service_id sp) (resource_type sp) i.

Section Creator.
Context {V : Type} `{Wire V} `{!Codec V KeyOpFieldValues}.

(** [ActorCreator::handle_received_message] *)
Definition creator_handle_received_message (msg : SwbusMessage) : M CreatorSt SwbusError unit :=
  let* h := unwrap "header" (header msg) in
  let* src := unwrap "source" (source h) in
  let* dst := unwrap "destination" (destination h) in
  if negb (bool_decide (resource_type src = "swss-common-bridge")) then
    throw_route NoRoute "actor doesn't exist: not from common-bridge"
  else
    match body msg with
    | Some (DataRequest payload) =>
        match from_slice (V:=V) payload with
        | Ok actor_msg =>
            match from_value (T:=KeyOpFieldValues) (msg_data actor_msg) with
            | Ok kfv =>
                if bool_decide (kfv_operation kfv = KopDel) then
                  throw_input NoRoute "actor doesn't exist: won't create actor for DEL kfv"
                else
                  let* s := get_state in
                  match create_fn (creator s) (kfv_key kfv) with
                  | Ok a => lift_process (actor_spawn a (resource_type dst) (resource_id dst))
                  | Err e =>
                      let sp := with_resource_id (kfv_key kfv) (creator_sp (creator s)) in
                      throw_input CodeFail ("Failed to create actor " +:+ to_string (to_swbusd_service_path sp)
                                            +:+ ". Error: " +:+ e)
                  end
            | Err _ => throw_input InvalidPayload "cannot decode as ActorMessage"
            end
        | Err _ => throw_input InvalidPayload "cannot decode as ActorMessage"
        end
    | _ => ret tt
    end.

(** One round of [ActorCreator::run]. *)
Definition creator_round (msg : SwbusMessage) : M CreatorSt SwbusError unit :=
  let* r := attempt (E:=SwbusError) (creator_handle_received_message msg) in
  let* out :=
    match r with
    | Err e =>
        let '(code, err_msg) := error_code_and_text e in
        let* i := creator_generate in
        let* s := get_state in
        new_response msg (Some (creator_sp (creator s))) code err_msg i None
    | Ok _ => ret msg
    end in
  let* _ := attempt (E:=SwbusError) (lift_process (lift_edge (edge_send out))) in
  ret tt.

(** [ActorCreator::run] over the messages it receives. *)
Definition creator_run (msgs : list SwbusMessage) : M CreatorSt SwbusError unit :=
  for_each creator_round msgs.

End Creator.

(** * Start-up *)

(** [args.slot_id as u8], and the container [db_named] connects to. *)
Definition set_dpu_slot_id (slot_id : Z) : Z := wrap_u8 slot_id.
Definition container_name (slot_id : Z) (is_dpu : bool) : string :=
  if is_dpu then "dpu" +:+ int_to_string (set_dpu_slot_id slot_id) else "".

Section Startup.
Context (env : HaEnv) (startup : Z).

(** The bridge of a creator: every update goes to the actor of its key. *)
Definition creator_bridge (T : Type) `{SonicDbTable T} (actor_name : string) (addr base_addr : ServicePath) : ConsumerBridge :=
  mkBridge addr (table_name T)
    (λ kfv, (mkPath (region_id base_addr) (cluster_id base_addr) (node_id base_addr) (service_type base_addr)
               (service_id base_addr) actor_name (kfv_key kfv), table_name T))
    (λ _, Some true).

Definition open_table (T : Type) `{SonicDbTable T} : M HamgrdSt string unit :=
  of_result (env_open env (db_name T) (table_name T) (is_dpu T)).

Definition start_creator_bridge (T : Type) `{SonicDbTable T} (actor_name : string) : M HamgrdSt string unit :=
  open_table T;;;
  let* s := get_state in
  consumer_spawn (creator_bridge T actor_name (common_bridge_sp T env) (base_sp (hg_edge s))).

(** [DbBasedActor::start_actor_creator] *)
Definition start_actor_creator (T : Type) `{SonicDbTable T} (actor_name : string)
    (create : string → result HaActor string) : M HamgrdSt string unit :=
  let* s := get_state in
  let* _ := creator_new (new_sp actor_name "" (hg_edge s)) false create startup in
  start_creator_bridge T actor_name.

(** [DpuActor::start_actor_creator] *)
Definition dpu_start_actor_creator : M HamgrdSt string unit :=
  let* s := get_state in
  let* _ := creator_new (new_sp "dpu" "" (hg_edge s)) false (λ key, Ok (ADpu (dpu_actor_new key))) startup in
  start_creator_bridge Dpu "dpu";;;
  start_creator_bridge RemoteDpu "dpu".

Definition create_vdpu (key : string) : result HaActor string := Ok (AVDpu (vdpu_actor_new key)).
Definition create_haset (key : string) : result HaActor string := Ok (AHaSet (haset_actor_new key)).
Definition create_hascope (key : string) : result HaActor string :=
  match hascope_actor_new key with Ok a => Ok (AHaScope a) | Err e => Err e end.

(** [start_actor_creators] of main.rs *)
Definition start_actor_creators : M HamgrdSt string unit :=
  dpu_start_actor_creator;;;
  start_actor_creator VDpu "vdpu" create_vdpu;;;
  start_actor_creator DashHaSetConfigTable "ha-set" create_haset;;;
  start_actor_creator DashHaScopeConfigTable "ha-scope" create_hascope.

(** [spawn_zmq_producer_bridge], [zmq] telling whether [ZmqClient::new] works. *)
Definition spawn_zmq_producer_bridge (T : Type) `{SonicDbTable T} (zmq : string → bool) (endpoint : string)
    : M HamgrdSt string unit :=
  if zmq endpoint then
    open_table T;;;
    producer_spawn (common_bridge_sp T env)
  else throw ("Failed to connect to ZMQ server at " +:+ endpoint).

(** [spawn_producer_bridges] of main.rs *)
Definition spawn_producer_bridges (zmq : string → bool) (dpu : Dpu) : M HamgrdSt string unit :=
  let zmq_endpoint := "tcp://" +:+ dpu_midplane_ipv4 dpu +:+ ":" +:+ int_to_string (dpu_orchagent_zmq_port dpu) in
  spawn_zmq_producer_bridge BfdSessionTable zmq zmq_endpoint;;;
  spawn_zmq_producer_bridge DashHaSetTable zmq zmq_endpoint;;;
  spawn_zmq_producer_bridge DashHaScopeTable zmq zmq_endpoint.

(** [main] from the edge runtime on: the producer bridges, the sink at the
    base path, the creators. An error panics the process. *)
Definition hamgrd_main (zmq : string → bool) (dpu : Dpu) : M HamgrdSt string unit :=
  unwrap_result "spawn_producer_bridges" (spawn_producer_bridges zmq dpu);;;
  let* s := get_state in
  let* _ := lift_edge (client_new (base_sp (hg_edge s)) true) in
  unwrap_result (E:=string) "start_actor_creators" start_actor_creators.

End Startup.

(** The process before [main] spawns anything, from the path of its swbusd. *)
Definition hamgrd_sp (swbusd_sp : ServicePath) : ServicePath :=
  mkPath (region_id swbusd_sp) (cluster_id swbusd_sp) (node_id swbusd_sp) "hamgrd" "0"
    (resource_type swbusd_sp) (resource_id swbusd_sp).
Definition hamgrd_initial (sp : ServicePath) : HamgrdSt := mkHamgrd (edge_new sp) [] [] [] [].
