(* ===== verification/HamgrdTheory.v ===== *)
(** Theorems about the process of hamgrd: its start-up, the actors its creators
    spawn, and what becomes of handlers whose route is taken or whose task is
    gone. *)
From S2P Require Import Prelude RustStr Path Proto Edge EdgeTheory Actor Bridge BridgeTheory HaTypes VDpuActor DpuActor HaSetActor HaScopeActor Hamgrd.

Open Scope stdpp_scope.

(** * Registering clients *)

Definition privacy_of (public : bool) : Privacy := if public then Public else Private.

(** The edge after registering a client. *)
Definition registered (src : ServicePath) (public : bool) (e : EdgeState) : EdgeState :=
  add_route (privacy_of public) src (fresh (dom (handlers e)))
    (with_handler (fresh (dom (handlers e))) (mkMsgChan [] true) e).

Lemma client_new_run {E} src public e :
  client_new (E:=E) src public e = Done (Ok (fresh (dom (handlers e))), registered src public e).
Proof. unfold client_new, bind, get_state, put_state. by destruct public. Qed.

Lemma lift_client_new_run {E} src public p :
  lift_edge (client_new (E:=E) src public) p =
    Done (Ok (fresh (dom (handlers (hg_edge p)))),
      mkHamgrd (registered src public (hg_edge p)) (hg_actors p) (hg_creators p) (hg_consumers p) (hg_producers p)).
Proof. unfold lift_edge. by rewrite client_new_run. Qed.

Lemma fresh_handler (e : EdgeState) : handlers e !! fresh (dom (handlers e)) = None.
Proof. apply not_elem_of_dom, is_fresh. Qed.

Lemma registered_route src public e d :
  edge_routes (registered src public e) !! d =
    if decide (d = src) then Some (mkHandler (fresh (dom (handlers e))), privacy_of public) else edge_routes e !! d.
Proof.
  unfold registered, add_route, with_handler, route_map_insert. cbn [edge_routes].
  destruct (decide (d = src)) as [->|]; [apply lookup_insert_eq|by apply lookup_insert_ne].
Qed.
Lemma registered_handler src public e h :
  handlers (registered src public e) !! h =
    if decide (h = fresh (dom (handlers e))) then Some (mkMsgChan [] true) else handlers e !! h.
Proof.
  unfold registered, add_route, with_handler. cbn [handlers].
  destruct (decide (h = _)) as [->|]; [apply lookup_insert_eq|by apply lookup_insert_ne].
Qed.
Lemma registered_wf src public e : wf_edge e → wf_edge (registered src public e).
Proof.
  intros Hwf sp h q. rewrite registered_route, registered_handler.
  destruct (decide (sp = src)); [intros [= <- _]; cbn; by rewrite decide_True|].
  intros Hs%Hwf. destruct (decide _); [by eexists|done].
Qed.

Lemma senders_dropped_spec h e :
  senders_dropped h e = true ↔ ∀ sp hd q, edge_routes e !! sp = Some (hd, q) → tx hd ≠ h.
Proof.
  unfold senders_dropped. rewrite forallb_forall. split.
  - intros Hall sp hd q Hs%elem_of_map_to_list. apply list_elem_of_In, Hall in Hs. cbn in Hs.
    apply negb_true_iff, Nat.eqb_neq in Hs. done.
  - intros Hall [sp [hd q]] Hin%list_elem_of_In. apply elem_of_map_to_list in Hin.
    apply negb_true_iff, Nat.eqb_neq. by eapply Hall.
Qed.

(** A client registered at the path of another takes its only route away. *)
Lemma registered_twice src pub1 pub2 e :
  wf_edge e →
  let h1 := fresh (dom (handlers e)) in
  let e2 := registered src pub2 (registered src pub1 e) in
  let h2 := fresh (dom (handlers (registered src pub1 e))) in
  senders_dropped h1 e2 = true ∧ senders_dropped h2 e2 = false ∧
  edge_routes e2 !! src = Some (mkHandler h2, privacy_of pub2).
Proof.
  intros Hwf h1 e2 h2.
  assert (edge_routes e2 !! src = Some (mkHandler h2, privacy_of pub2)) as Hsrc.
  { unfold e2. rewrite registered_route, decide_True by done. done. }
  assert (h1 ≠ h2) as Hne.
  { pose proof (fresh_handler (registered src pub1 e)) as Hf. fold h2 in Hf. intros <-.
    rewrite registered_handler, decide_True in Hf by done. done. }
  split_and!; [| |done].
  - apply senders_dropped_spec. intros sp hd q. unfold e2. rewrite !registered_route.
    destruct (decide (sp = src)); [intros [= <- _]; cbn; fold h2; by symmetry|].
    intros Hs%Hwf Heq. rewrite Heq in Hs. unfold h1 in Hs. rewrite fresh_handler in Hs. by destruct Hs.
  - destruct (senders_dropped h2 e2) eqn:Hd; [|done]. rewrite senders_dropped_spec in Hd.
    by destruct (Hd _ _ _ Hsrc).
Qed.

(** * Start-up as a list of registrations *)

Definition register_all (l : list (ServicePath * bool)) (e : EdgeState) : EdgeState :=
  foldl (λ e r, registered r.1 r.2 e) e l.

Lemma register_all_wf l e : wf_edge e → wf_edge (register_all l e).
Proof. revert e. induction l as [|r l IH]; intros e He; [done|]. by apply IH, registered_wf. Qed.

(** Other paths keep their routes, other handlers their channels. *)
Lemma register_all_other l e d : d ∉ l.*1 → edge_routes (register_all l e) !! d = edge_routes e !! d.
Proof.
  revert e. induction l as [|r l IH]; intros e Hd; [done|].
  rewrite fmap_cons, not_elem_of_cons in Hd. destruct Hd as [Hr Hd]. cbn. unfold register_all in *.
  rewrite IH by done. rewrite registered_route. by rewrite decide_False.
Qed.
Lemma register_all_handlers l e h : is_Some (handlers e !! h) → handlers (register_all l e) !! h = handlers e !! h.
Proof.
  revert e. induction l as [|r l IH]; intros e [c Hc]; [done|]. cbn. unfold register_all in *.
  assert (handlers (registered r.1 r.2 e) !! h = handlers e !! h) as Hh.
  { rewrite registered_handler. destruct (decide _) as [->|]; [|done]. by rewrite fresh_handler in Hc. }
  rewrite IH; [done|]. rewrite Hh. by eexists.
Qed.

Lemma edge_new_route base d : edge_routes (edge_new base) !! d = None.
Proof. apply (lookup_empty (M:=gmap ServicePath)). Qed.

(** Each registered path leads to an open channel of its own that is empty. *)
Lemma register_all_route l e d public :
  NoDup l.*1 → (d, public) ∈ l →
  ∃ h, edge_routes (register_all l e) !! d = Some (mkHandler h, privacy_of public) ∧
    handlers (register_all l e) !! h = Some (mkMsgChan [] true) ∧ handlers e !! h = None.
Proof.
  revert e. induction l as [|[sp pub] l IH]; intros e Hnd Hin; [by apply elem_of_nil in Hin|].
  cbn in Hnd. apply NoDup_cons in Hnd as [Hsp Hnd]. apply elem_of_cons in Hin as [[= <- <-]|Hin].
  - exists (fresh (dom (handlers e))). cbn. fold (register_all l (registered d public e)).
    rewrite register_all_other by done. rewrite registered_route, decide_True by done.
    assert (handlers (registered d public e) !! fresh (dom (handlers e)) = Some (mkMsgChan [] true)) as Hh.
    { by rewrite registered_handler, decide_True. }
    split; [done|]. split; [|apply fresh_handler]. rewrite register_all_handlers; [done|]. rewrite Hh. by eexists.
  - destruct (IH (registered sp pub e) Hnd Hin) as (h & Hr & Hh & Hnone). exists h. split; [done|]. split; [done|].
    rewrite registered_handler in Hnone. by destruct (decide _).
Qed.

(** ** The process after registering [l] *)

(** The tasks of the process hold the routes they registered. *)
Definition routed (p : HamgrdSt) : Prop :=
  (∀ c, c ∈ hg_creators p → edge_routes (hg_edge p) !! creator_sp c = Some (mkHandler (creator_handler c), Private)) ∧
  (∀ b, b ∈ hg_consumers p → edge_routes (hg_edge p) !! br_addr b.1 = Some (mkHandler b.2, Private)) ∧
  (∀ b, b ∈ hg_producers p → edge_routes (hg_edge p) !! b.1 = Some (mkHandler b.2, Private)).

(** [p'] is [p] with these creators, consumer and producer bridges started. *)
Record started (l : list (ServicePath * bool)) (crs : list (ServicePath * (string → result HaActor string)))
    (bs : list ConsumerBridge) (prods : list ServicePath) (p p' : HamgrdSt) : Prop := {
  started_edge : hg_edge p' = register_all l (hg_edge p);
  started_actors : hg_actors p' = hg_actors p;
  started_creators : map (λ c, (creator_sp c, create_fn c)) (hg_creators p') =
    map (λ c, (creator_sp c, create_fn c)) (hg_creators p) ++ crs;
  started_consumers : map fst (hg_consumers p') = map fst (hg_consumers p) ++ bs;
  started_producers : map fst (hg_producers p') = map fst (hg_producers p) ++ prods;
  started_routed : routed p → NoDup l.*1 → (∀ r, r ∈ l.*1 → edge_routes (hg_edge p) !! r = None) → routed p';
}.

Lemma started_app l1 l2 crs1 crs2 bs1 bs2 ps1 ps2 p p1 p2 :
  started l1 crs1 bs1 ps1 p p1 → started l2 crs2 bs2 ps2 p1 p2 →
  started (l1 ++ l2) (crs1 ++ crs2) (bs1 ++ bs2) (ps1 ++ ps2) p p2.
Proof.
  intros [He1 Ha1 Hc1 Hb1 Hp1 Hr1] [He2 Ha2 Hc2 Hb2 Hp2 Hr2]. split.
  - rewrite He2, He1. unfold register_all. by rewrite foldl_app.
  - congruence.
  - by rewrite Hc2, Hc1, <- app_assoc.
  - by rewrite Hb2, Hb1, <- app_assoc.
  - by rewrite Hp2, Hp1, <- app_assoc.
  - intros Hr Hnd Hfree. rewrite fmap_app in Hnd, Hfree. apply NoDup_app in Hnd as (Hnd1 & Hdisj & Hnd2).
    apply Hr2; [|done|].
    + apply Hr1; [done..|]. intros r Hin. apply Hfree, elem_of_app. by left.
    + intros r Hin. rewrite He1, register_all_other.
      * apply Hfree, elem_of_app. by right.
      * intros Hin1. by apply (Hdisj r).
Qed.

(** One registration keeps the routes at other paths. *)
Lemma registered_keeps src public e d x :
  edge_routes e !! src = None → edge_routes e !! d = Some x → edge_routes (registered src public e) !! d = Some x.
Proof. intros Hs Hd. rewrite registered_route. destruct (decide (d = src)) as [->|]; [congruence|done]. Qed.
Lemma registered_here src public e :
  edge_routes (registered src public e) !! src = Some (mkHandler (fresh (dom (handlers e))), privacy_of public).
Proof. by rewrite registered_route, decide_True. Qed.

(** Split the goal [routed] of one registration. *)
Ltac routed_step :=
  intros (Hc & Hb & Hp) _ Hfree; specialize (Hfree _ (list_elem_of_here _ _));
  split_and!; cbn [hg_creators hg_consumers hg_producers hg_edge];
  intros x Hx; rewrite ?elem_of_app, ?list_elem_of_singleton in Hx;
  first [destruct Hx as [Hx| ->]; [by apply registered_keeps; auto|apply registered_here]
        |by apply registered_keeps; auto].

Lemma consumer_spawn_run {E} b p :
  ∃ p', consumer_spawn (E:=E) b p = Done (Ok tt, p') ∧
    hg_consumers p' = hg_consumers p ++ [(b, fresh (dom (handlers (hg_edge p))))] ∧
    started [(br_addr b, false)] [] [b] [] p p'.
Proof.
  unfold consumer_spawn. rewrite (bind_done _ _ _ _ _ (lift_client_new_run _ _ _)). eexists.
  split; [reflexivity|]. split; [done|]. split; [done|done|by rewrite app_nil_r|cbn [hg_consumers]; by rewrite map_app|by rewrite app_nil_r|].
  routed_step.
Qed.

(** ** Code that only starts things *)

(** From any process at [base], [m] returns and starts exactly these. *)
Definition starts {E A} (base : ServicePath) l crs bs ps (m : M HamgrdSt E A) : Prop :=
  ∀ p, base_sp (hg_edge p) = base → ∃ a p', m p = Done (Ok a, p') ∧ started l crs bs ps p p'.

Lemma started_base l crs bs ps p p' : started l crs bs ps p p' → base_sp (hg_edge p') = base_sp (hg_edge p).
Proof.
  intros [-> _ _ _ _ _]. generalize (hg_edge p). induction l as [|r l IH]; intros e; [done|]. cbn.
  unfold register_all in IH. by rewrite IH.
Qed.

Section Starts.
Context (base : ServicePath).
Lemma starts_bind {E A B} (m : M HamgrdSt E A) (k : A → M HamgrdSt E B) l1 l2 crs1 crs2 bs1 bs2 ps1 ps2 :
  starts base l1 crs1 bs1 ps1 m → (∀ a, starts base l2 crs2 bs2 ps2 (k a)) →
  starts base (l1 ++ l2) (crs1 ++ crs2) (bs1 ++ bs2) (ps1 ++ ps2) (bind m k).
Proof.
  intros Hm Hk p Hp. destruct (Hm p Hp) as (a & p1 & R1 & S1).
  destruct (Hk a p1) as (b & p2 & R2 & S2); [by rewrite (started_base _ _ _ _ _ _ S1)|].
  exists b, p2. split; [by rewrite (bind_done _ _ _ _ _ R1)|by eapply started_app].
Qed.
Lemma starts_get {E B} (k : HamgrdSt → M HamgrdSt E B) l crs bs ps :
  (∀ p, base_sp (hg_edge p) = base → starts base l crs bs ps (k p)) → starts base l crs bs ps (bind get_state k).
Proof. intros Hk p Hp. rewrite bind_get. by apply Hk. Qed.
Lemma starts_unwrap {E E' A} why (m : M HamgrdSt E A) l crs bs ps :
  starts base l crs bs ps m → starts base l crs bs ps (unwrap_result (E':=E') why m).
Proof.
  intros Hm p Hp. destruct (Hm p Hp) as (a & p' & R & S). exists a, p'. split; [|done].
  unfold unwrap_result, bind, attempt. by rewrite R.
Qed.
Lemma starts_ready {E A B} (m : M HamgrdSt E A) (k : A → M HamgrdSt E B) a l crs bs ps :
  (∀ p, m p = Done (Ok a, p)) → starts base l crs bs ps (k a) → starts base l crs bs ps (bind m k).
Proof. intros Hm Hk p Hp. rewrite (bind_done _ _ _ _ _ (Hm p)). by apply Hk. Qed.

Lemma starts_consumer {E} b : starts base [(br_addr b, false)] [] [b] [] (consumer_spawn (E:=E) b).
Proof. intros p _. destruct (consumer_spawn_run (E:=E) b p) as (p' & R & _ & S). by exists tt, p'. Qed.
Lemma starts_producer {E} addr : starts base [(addr, false)] [] [] [addr] (producer_spawn (E:=E) addr).
Proof.
  intros p _. unfold producer_spawn. rewrite (bind_done _ _ _ _ _ (lift_client_new_run _ _ _)). eexists _, _.
  split; [reflexivity|]. split; [done|done|by rewrite app_nil_r|by rewrite app_nil_r|cbn [hg_producers]; by rewrite map_app|].
  routed_step.
Qed.
Lemma starts_creator {E} sp create startup :
  starts base [(sp, false)] [(sp, create)] [] [] (creator_new (E:=E) sp false create startup).
Proof.
  intros p _. unfold creator_new. rewrite (bind_done _ _ _ _ _ (lift_client_new_run _ _ _)). eexists _, _.
  split; [reflexivity|]. split; [done|done|cbn [hg_creators]; by rewrite map_app|by rewrite app_nil_r|by rewrite app_nil_r|].
  routed_step.
Qed.
Lemma starts_sink {E} sp : starts base [(sp, true)] [] [] [] (lift_edge (client_new (E:=E) sp true)).
Proof.
  intros p _. rewrite lift_client_new_run. eexists _, _. split; [reflexivity|].
  split; [done|done|by rewrite app_nil_r|by rewrite app_nil_r|by rewrite app_nil_r|]. routed_step.
Qed.
End Starts.

(** ** The start-up of hamgrd *)

(** A path of the process. *)
Definition local_sp (base : ServicePath) (ty i : string) : ServicePath :=
  mkPath (region_id base) (cluster_id base) (node_id base) (service_type base) (service_id base) ty i.

Lemma local_sp_inj base ty i ty' i' : local_sp base ty i = local_sp base ty' i' → ty = ty' ∧ i = i'.
Proof. by intros [= -> ->]. Qed.

(** What [main] registers, as type and id of a local path. *)
Definition main_clients : list (string * string * bool) :=
  let bridge db t := ("swss-common-bridge", db +:+ "|" +:+ t, false) in
  [bridge "DPU_APPL_DB" "BFD_SESSION_TABLE"; bridge "DPU_APPL_DB" "DASH_HA_SET_TABLE"; bridge "DPU_APPL_DB" "DASH_HA_SCOPE_TABLE";
   ("", "", true);
   ("dpu", "", false); bridge "CONFIG_DB" "DPU"; bridge "CONFIG_DB" "REMOTE_DPU";
   ("vdpu", "", false); bridge "CONFIG_DB" "VDPU";
   ("ha-set", "", false); bridge "APPL_DB" "DASH_HA_SET_CONFIG_TABLE";
   ("ha-scope", "", false); bridge "APPL_DB" "DASH_HA_SCOPE_CONFIG_TABLE"].
Definition main_registrations (base : ServicePath) : list (ServicePath * bool) :=
  map (λ c, (local_sp base c.1.1 c.1.2, c.2)) main_clients.

Lemma main_registrations_fst base : (main_registrations base).*1 = (λ c, local_sp base c.1 c.2) <$> main_clients.*1.
Proof. reflexivity. Qed.
Lemma main_registrations_NoDup base : NoDup (main_registrations base).*1.
Proof.
  rewrite main_registrations_fst. apply NoDup_fmap_2.
  - intros [ty i] [ty' i'] Heq. apply local_sp_inj in Heq as [? ?]. cbn in *. congruence.
  - apply (bool_decide_unpack _). vm_compute. exact I.
Qed.

(** Facts of the list. *)
Lemma actor_unregistered base n key :
  n ∈ ["dpu"; "vdpu"; "ha-set"; "ha-scope"] → key ≠ "" → local_sp base n key ∉ (main_registrations base).*1.
Proof.
  intros Hn Hkey Hin. rewrite main_registrations_fst in Hin.
  apply list_elem_of_fmap in Hin as ([ty i] & [-> ->]%local_sp_inj & Hin). cbn in Hkey, Hn.
  assert (Forall (λ c : string * string, c.1 ∈ ["dpu"; "vdpu"; "ha-set"; "ha-scope"] → c.2 = "") main_clients.*1) as Hall.
  { apply (bool_decide_unpack _). vm_compute. exact I. }
  rewrite Forall_forall in Hall. by apply Hkey, (Hall _ Hin).
Qed.
Lemma creator_registered base n :
  n ∈ ["dpu"; "vdpu"; "ha-set"; "ha-scope"] → (local_sp base n "", false) ∈ main_registrations base.
Proof.
  intros Hn. apply list_elem_of_fmap. exists (n, "", false). split; [done|].
  assert (Forall (λ n, (n, "", false) ∈ main_clients) ["dpu"; "vdpu"; "ha-set"; "ha-scope"]) as Hall.
  { apply (bool_decide_unpack _). vm_compute. exact I. }
  rewrite Forall_forall in Hall. by apply Hall.
Qed.
Lemma public_registration base d :
  (d, true) ∈ main_registrations base → resource_type base = "" → resource_id base = "" → d = base.
Proof.
  intros Hin Hty Hid. apply list_elem_of_fmap in Hin as ([[ty i] pub] & [= -> Hpub] & Hin). cbn in Hpub. subst pub.
  assert (Forall (λ c : string * string * bool, c.2 = true → c.1 = ("", "")) main_clients) as Hall.
  { apply (bool_decide_unpack _). vm_compute. exact I. }
  rewrite Forall_forall in Hall. specialize (Hall _ Hin eq_refl). injection Hall as -> ->.
  unfold local_sp. destruct base; cbn in *; congruence.
Qed.

(** The creators of [main]. *)
Definition main_creators : list (string * (string → result HaActor string)) :=
  [("dpu", λ key, Ok (ADpu (dpu_actor_new key))); ("vdpu", create_vdpu); ("ha-set", create_haset); ("ha-scope", create_hascope)].
(** Its consumer bridges: table and actor type. *)
Definition main_consumers (env : HaEnv) (base : ServicePath) : list ConsumerBridge :=
  let b T `{SonicDbTable T} n := creator_bridge T n (common_bridge_sp T env) base in
  [b Dpu "dpu"; b RemoteDpu "dpu"; b VDpu "vdpu"; b DashHaSetConfigTable "ha-set"; b DashHaScopeConfigTable "ha-scope"].
Definition main_producers (env : HaEnv) : list ServicePath :=
  [common_bridge_sp BfdSessionTable env; common_bridge_sp DashHaSetTable env; common_bridge_sp DashHaScopeTable env].

Section Startup.
Context (env : HaEnv) (startup : Z) (zmq : string → bool).
Hypothesis databases_open : ∀ db table dpu, env_open env db table dpu = Ok tt.
Hypothesis zmq_connects : ∀ endpoint, zmq endpoint = true.

Abbreviation base := (env_base_sp env).

Lemma open_table_run T `{SonicDbTable T} p : open_table env T p = Done (Ok tt, p).
Proof. unfold open_table. by rewrite databases_open. Qed.

Lemma starts_creator_bridge T `{SonicDbTable T} name :
  starts base [(common_bridge_sp T env, false)] [] [creator_bridge T name (common_bridge_sp T env) base] []
    (start_creator_bridge env T name).
Proof.
  apply (starts_ready _ _ _ _ _ _ _ _ (open_table_run T)). apply starts_get. intros p ->. apply starts_consumer.
Qed.

Lemma starts_actor_creator T `{SonicDbTable T} name create :
  starts base [(local_sp base name "", false); (common_bridge_sp T env, false)] [(local_sp base name "", create)]
    [creator_bridge T name (common_bridge_sp T env) base] [] (start_actor_creator env startup T name create).
Proof.
  apply starts_get. intros p Hp. unfold new_sp. rewrite Hp.
  apply (starts_bind _ _ _ [_] [_] [_] [] [] [_] [] []); [apply starts_creator|]. intros _. apply starts_creator_bridge.
Qed.

Lemma starts_producer_bridge T `{SonicDbTable T} endpoint :
  starts base [(common_bridge_sp T env, false)] [] [] [common_bridge_sp T env] (spawn_zmq_producer_bridge env T zmq endpoint).
Proof.
  unfold spawn_zmq_producer_bridge. rewrite zmq_connects.
  apply (starts_ready _ _ _ _ _ _ _ _ (open_table_run T)). apply starts_producer.
Qed.

Lemma starts_main dpu :
  resource_type base = "" → resource_id base = "" →
  starts base (main_registrations base) (map (λ c, (local_sp base c.1 "", c.2)) main_creators)
    (main_consumers env base) (main_producers env) (hamgrd_main env startup zmq dpu).
Proof.
  intros Hty Hid.
  assert (starts base [(local_sp base "" "", true)] [] [] [] (lift_edge (client_new (E:=string) base true))) as Hsink.
  { assert (local_sp base "" "" = base) as ->; [|apply starts_sink]. unfold local_sp. destruct base; cbn in *; congruence. }
  unfold hamgrd_main.
  apply (starts_bind _ _ _ [_; _; _] _ [] _ [] _ [_; _; _] []).
  { apply starts_unwrap. unfold spawn_producer_bridges.
    apply (starts_bind _ _ _ [_] [_; _] [] [] [] [] [_] [_; _]); [apply starts_producer_bridge|intros _].
    apply (starts_bind _ _ _ [_] [_] [] [] [] [] [_] [_]); [apply starts_producer_bridge|intros _; apply starts_producer_bridge]. }
  intros _. apply starts_get. intros p ->.
  apply (starts_bind _ _ _ [_] _ [] _ [] _ [] []).
  { exact Hsink. }
  intros _. apply starts_unwrap. unfold start_actor_creators.
  apply (starts_bind _ _ _ [_; _; _] _ [_] _ [_; _] _ [] []).
  { apply starts_get. intros q Hq. unfold new_sp. rewrite Hq.
    apply (starts_bind _ _ _ [_] [_; _] [_] [] [] [_; _] [] []); [apply starts_creator|intros _].
    apply (starts_bind _ _ _ [_] [_] [] [] [_] [_] [] []); [apply starts_creator_bridge|intros _; apply starts_creator_bridge]. }
  intros _. apply (starts_bind _ _ _ [_; _] _ [_] _ [_] _ [] []); [apply starts_actor_creator|intros _].
  apply (starts_bind _ _ _ [_; _] [_; _] [_] [_] [_] [_] [] []); [apply starts_actor_creator|intros _; apply starts_actor_creator].
Qed.

(** The edge [main] leaves behind. *)
Abbreviation main_edge := (register_all (main_registrations base) (edge_new base)).

Lemma main_creator_reached n hc key msg h :
  n ∈ ["dpu"; "vdpu"; "ha-set"; "ha-scope"] → key ≠ "" →
  edge_routes main_edge !! local_sp base n "" = Some (mkHandler hc, Private) →
  header msg = Some h → destination h = Some (local_sp base n key) →
  edge_route_message msg Private main_edge = Done (Ok tt, with_handler hc (mkMsgChan [msg] true) main_edge).
Proof.
  intros Hn Hkey Hcr Hh Hd.
  destruct (register_all_route (main_registrations base) (edge_new base) (local_sp base n "") false
    (main_registrations_NoDup base) (creator_registered base n Hn)) as (hc' & Hrc & Hhc & _).
  rewrite Hrc in Hcr. injection Hcr as ->.
  assert (route_map_get (local_sp base n key) Private (edge_routes main_edge) = None) as Hmiss.
  { unfold route_map_get. rewrite register_all_other by exact (actor_unregistered base n key Hn Hkey).
    by rewrite edge_new_route. }
  assert (route_map_get (local_sp base n "") Private (edge_routes main_edge) = Some (mkHandler hc)) as Hhit.
  { unfold route_map_get. by rewrite Hrc. }
  revert Hmiss Hhit Hhc. generalize main_edge. intros e Hmiss Hhit Hhc.
  rewrite (edge_route_run _ _ _ _ _ Hh Hd). cbn [candidates find_handler]. rewrite Hmiss.
  change (clear_resource_id (local_sp base n key)) with (local_sp base n ""). rewrite Hhit. cbn [tx]. by rewrite Hhc.
Qed.

Lemma route_map_public rs d h pub hd : (rs : RouteMap) !! d = Some (h, privacy_of pub) → route_map_get d Public rs = Some hd → pub = true.
Proof. unfold route_map_get. intros ->. by destruct pub. Qed.

Lemma main_public_route d hd :
  resource_type base = "" → resource_id base = "" →
  route_map_get d Public (edge_routes main_edge) = Some hd → d = base.
Proof.
  intros Hty Hid Hd. destruct (decide (d ∈ (main_registrations base).*1)) as [Hin|Hout].
  - apply list_elem_of_fmap in Hin as ([d' pub] & -> & Hin). 
    destruct (register_all_route _ (edge_new base) d' pub (main_registrations_NoDup base) Hin) as (h & Hh & _).
    pose proof (route_map_public _ _ _ _ _ Hh Hd) as ->. exact (public_registration base _ Hin Hty Hid).
  - exfalso. assert (route_map_get d Public (edge_routes main_edge) = None) as Hn; [|congruence].
    unfold route_map_get. rewrite register_all_other by done. by rewrite edge_new_route.
Qed.

(** C23: hamgrd starts with the right routes: four creators, one per kind of
    actor, five consumer bridges that address the actor of a row's key under its
    table's name, and three producer bridges; a message of this process to an
    actor that does not exist yet reaches the creator of its kind, and nothing
    but the sink can be reached from outside. *)
Theorem hamgrd_startup dpu :
  resource_type base = "" → resource_id base = "" →
  ∃ p, hamgrd_main env startup zmq dpu (hamgrd_initial base) = Done (Ok tt, p) ∧
    map (λ c, (creator_sp c, create_fn c)) (hg_creators p) = map (λ c, (local_sp base c.1 "", c.2)) main_creators ∧
    map fst (hg_consumers p) = main_consumers env base ∧ map fst (hg_producers p) = main_producers env ∧
    (∀ c key msg h, c ∈ hg_creators p → key ≠ "" →
       header msg = Some h → destination h = Some (with_resource_id key (creator_sp c)) →
       edge_route_message msg Private (hg_edge p) =
         Done (Ok tt, with_handler (creator_handler c) (mkMsgChan [msg] true) (hg_edge p))) ∧
    (∀ d hd, route_map_get d Public (edge_routes (hg_edge p)) = Some hd → d = base).
Proof.
  intros Hty Hid. destruct (starts_main dpu Hty Hid (hamgrd_initial base) eq_refl) as ([] & p & Hrun & [He _ Hc Hb Hp Hr]).
  exists p. split; [exact Hrun|]. split; [exact Hc|]. split; [exact Hb|]. split; [exact Hp|].
  change (hg_edge (hamgrd_initial base)) with (edge_new base) in He.
  change (map (λ c, (creator_sp c, create_fn c)) (hg_creators p) = map (λ c, (local_sp base c.1 "", c.2)) main_creators) in Hc.
  destruct Hr as (Hroute & _ & _); [split_and!; by intros x ?%elem_of_nil|apply main_registrations_NoDup|intros r _; apply edge_new_route|].
  rewrite He in Hroute |- *. split.
  - intros c key msg h Hin Hkey Hh Hd.
    assert ((creator_sp c, create_fn c) ∈ map (λ c, (local_sp base c.1 "", c.2)) main_creators) as Hel.
    { rewrite <- Hc.
      by apply (list_elem_of_fmap_2 (λ c, (creator_sp c, create_fn c))). }
    apply list_elem_of_fmap in Hel as ([n f] & [= Hsp _] & Hel). cbn [fst] in Hsp.
    pose proof (Hroute c Hin) as Hcr. rewrite Hsp in Hcr, Hd. apply (main_creator_reached n _ key msg h); [|done..].
    apply (list_elem_of_fmap_2 fst) in Hel. exact Hel.
  - intros d hd. by apply main_public_route.
Qed.

End Startup.

(** * The actor creators *)

(** The edge with one more message waiting for the router. *)
Definition router_queued (m : SwbusMessage) (e : EdgeState) : EdgeState :=
  mkEdge (base_sp e) (edge_routes e) (handlers e) (mkMsgChan (delivered (sender_to_message_router e) ++ [m]) true) (core_queue e).
Definition with_edge (e : EdgeState) (p : HamgrdSt) : HamgrdSt :=
  mkHamgrd e (hg_actors p) (hg_creators p) (hg_consumers p) (hg_producers p).
Definition router_open (p : HamgrdSt) : Prop := receiver_open (sender_to_message_router (hg_edge p)) = true.

Lemma edge_send_run m e : receiver_open (sender_to_message_router e) = true → edge_send m e = Done (Ok tt, router_queued m e).
Proof. intros Ho. unfold edge_send, bind, get_state, chan_send. by rewrite Ho. Qed.

(** The process after an actor was spawned. *)
Definition spawned (a : HaActor) (sp : ServicePath) (p : HamgrdSt) : HamgrdSt :=
  mkHamgrd (registered sp true (hg_edge p)) (hg_actors p ++ [mkActorTask sp (fresh (dom (handlers (hg_edge p)))) a])
    (hg_creators p) (hg_consumers p) (hg_producers p).

Lemma actor_spawn_run {E} a ty i p :
  actor_spawn (E:=E) a ty i p = Done (Ok tt, spawned a (local_sp (base_sp (hg_edge p)) ty i) p).
Proof. unfold actor_spawn. rewrite bind_get. by rewrite (bind_done _ _ _ _ _ (lift_client_new_run _ _ _)). Qed.

Section Creator.
Context {V : Type} `{!Wire V} `{!Codec V KeyOpFieldValues}.

(** What the creator makes of a message: the actor it is for, spawned from the
    update of a bridge; a refusal; nothing to do; or a broken contract. *)
Inductive verdict : Type :=
| Spawns (a : HaActor)
| Refuses (code : SwbusErrorCode) (text : string)
| Forwards
| Breaks.

Definition creator_verdict (c : ActorCreator) (src : ServicePath) (b : option Body) : verdict :=
  if negb (bool_decide (resource_type src = "swss-common-bridge")) then
    Refuses NoRoute "actor doesn't exist: not from common-bridge"
  else match b with
       | Some (DataRequest payload) =>
           match update_of_payload (V:=V) payload with
           | Err _ => Refuses InvalidPayload "cannot decode as ActorMessage"
           | Ok kfv => match kfv_operation kfv, create_fn c (kfv_key kfv) with
                       | KopSet, Ok a => Spawns a
                       | _, _ => Breaks
                       end
           end
       | _ => Forwards
       end.

Lemma creator_handle_run msg h src dst c p :
  header msg = Some h → source h = Some src → destination h = Some dst →
  match creator_verdict c src (body msg) with
  | Spawns a => creator_handle_received_message (V:=V) msg (mkCreatorSt c p) =
      Done (Ok tt, mkCreatorSt c (spawned a (local_sp (base_sp (hg_edge p)) (resource_type dst) (resource_id dst)) p))
  | Refuses code text => ∃ e, error_code_and_text e = (code, text) ∧
      creator_handle_received_message (V:=V) msg (mkCreatorSt c p) = Done (Err e, mkCreatorSt c p)
  | Forwards => creator_handle_received_message (V:=V) msg (mkCreatorSt c p) = Done (Ok tt, mkCreatorSt c p)
  | Breaks => creator_handle_received_message (V:=V) msg (mkCreatorSt c p) = Panicked "pre-condition violated"
  end.
Proof.
  intros Hh Hs Hd. unfold creator_verdict, creator_handle_received_message, update_of_payload.
  rewrite Hh. cbn [unwrap]. rewrite bind_ret, Hs. cbn [unwrap]. rewrite bind_ret, Hd. cbn [unwrap]. rewrite bind_ret.
  destruct (negb _); [by eexists; split; [|reflexivity]|]. destruct (body msg) as [[]|]; try done.
  destruct (from_slice payload) as [m|]; [|by eexists; split; [|reflexivity]].
  destruct (from_value (msg_data m)) as [kfv|]; [|by eexists; split; [|reflexivity]].
  destruct (kfv_operation kfv); [|done]. cbn [bool_decide]. rewrite bool_decide_eq_false_2 by done. rewrite bind_get. cbn [creator].
  destruct (create_fn c (kfv_key kfv)) as [a|]; [|done].
  unfold lift_process. cbn [process creator]. by rewrite actor_spawn_run.
Qed.

(** The creator after it drew an id. *)
Definition next_creator (c : ActorCreator) : ActorCreator :=
  mkCreator (creator_sp c) (creator_handler c) (create_fn c) (id_generate (creator_ids c)).2.

Lemma creator_round_run msg h src dst c p :
  header msg = Some h → source h = Some src → destination h = Some dst → router_open p →
  creator_round (V:=V) msg (mkCreatorSt c p) =
    match creator_verdict c src (body msg) with
    | Spawns a => let p' := spawned a (local_sp (base_sp (hg_edge p)) (resource_type dst) (resource_id dst)) p in
                  Done (Ok tt, mkCreatorSt c (with_edge (router_queued msg (hg_edge p')) p'))
    | Refuses code text => Done (Ok tt, mkCreatorSt (next_creator c) (with_edge (router_queued
        (response_to h (creator_sp c) src code text (next_id (creator_ids c)) None) (hg_edge p)) p))
    | Forwards => Done (Ok tt, mkCreatorSt c (with_edge (router_queued msg (hg_edge p)) p))
    | Breaks => Panicked "pre-condition violated"
    end.
Proof.
  intros Hh Hs Hd Ho. pose proof (creator_handle_run msg h src dst c p Hh Hs Hd) as Hrun. unfold creator_round.
  assert (∀ m c p, router_open p → (let* _ := attempt (E:=SwbusError) (lift_process (lift_edge (edge_send m))) in ret tt)
    (mkCreatorSt c p) = Done (Ok tt : result unit SwbusError, mkCreatorSt c (with_edge (router_queued m (hg_edge p)) p))) as Hsend.
  { clear. intros m c p Ho. unfold bind, attempt, lift_process, lift_edge. cbn [process]. by rewrite edge_send_run. }
  destruct (creator_verdict c src (body msg)) as [a|code text| |].
  - erewrite bind_done by (unfold attempt; rewrite Hrun; reflexivity); cbv beta iota. rewrite bind_ret. by apply Hsend.
  - destruct Hrun as (e & He & Hrun). erewrite bind_done by (unfold attempt; rewrite Hrun; reflexivity); cbv beta iota.
    rewrite He, bind_bind. erewrite bind_done by (unfold creator_generate; reflexivity). rewrite bind_bind, bind_get.
    destruct msg as [hd b]. cbn in Hh. subst hd. cbn [creator creator_sp].
    rewrite (bind_done _ _ _ _ _ (new_response_run h b (Some (creator_sp c)) code text _ None dst src _ Hd Hs)). by apply Hsend.
  - erewrite bind_done by (unfold attempt; rewrite Hrun; reflexivity); cbv beta iota. rewrite bind_ret. by apply Hsend.
  - unfold bind at 1, attempt. by rewrite Hrun.
Qed.

End Creator.

(** * Properties of the creators *)

(** A SET for [kfv] that a consumer bridge of this process sends to an actor. *)
Record creates {V} `{Wire V, Codec V KeyOpFieldValues} (c : ActorCreator) (p : HamgrdSt) (msg : SwbusMessage)
    (src dst : ServicePath) (a : HaActor) : Prop := {
  creates_header : ∃ h, header msg = Some h ∧ source h = Some src ∧ destination h = Some dst;
  creates_verdict : creator_verdict (V:=V) c src (body msg) = Spawns a;
  creates_local : dst = local_sp (base_sp (hg_edge p)) (resource_type dst) (resource_id dst);
}.

Lemma creates_run {V} `{Wire V, Codec V KeyOpFieldValues} c p msg src dst a :
  creates (V:=V) c p msg src dst a → router_open p →
  creator_round (V:=V) msg (mkCreatorSt c p) =
    Done (Ok tt, mkCreatorSt c (with_edge (router_queued msg (registered dst true (hg_edge p))) (spawned a dst p))).
Proof.
  intros [(h & Hh & Hs & Hd) Hv Hl] Ho. rewrite (creator_round_run msg h src dst c p Hh Hs Hd Ho), Hv.
  cbv zeta. by rewrite <- Hl.
Qed.

(** What an actor route does with a message, whoever sent it. *)
Lemma route_to_actor msg h dst hd ch privacy e :
  header msg = Some h → destination h = Some dst → edge_routes e !! dst = Some (hd, Public) →
  handlers e !! tx hd = Some ch → edge_route_message msg privacy e = Done (Ok tt, deliver_to (tx hd) ch msg e).
Proof.
  intros Hh Hd Hr Hc. rewrite (edge_route_run _ _ _ _ _ Hh Hd). cbn [candidates find_handler].
  unfold route_map_get at 1. rewrite Hr, bool_decide_eq_false_2 by done. cbn [andb]. by rewrite Hc.
Qed.

(** C5: The first update a bridge sends to an actor that does not exist creates
    the actor: the creator spawns it at the destination, where anybody can
    reach it, and sends the update on, which the router then delivers to the
    new actor as its first message. *)
Theorem creator_spawns {V} `{Wire V, Codec V KeyOpFieldValues} c p msg src dst a :
  creates (V:=V) c p msg src dst a → router_open p →
  ∃ p' t, creator_round (V:=V) msg (mkCreatorSt c p) = Done (Ok tt, mkCreatorSt c p') ∧
    hg_actors p' = hg_actors p ++ [t] ∧ task_actor t = a ∧ task_sp t = dst ∧
    handlers (hg_edge p) !! task_handler t = None ∧
    delivered (sender_to_message_router (hg_edge p')) = delivered (sender_to_message_router (hg_edge p)) ++ [msg] ∧
    (∀ privacy, route_map_get dst privacy (edge_routes (hg_edge p')) = Some (mkHandler (task_handler t))) ∧
    ∀ privacy, edge_route_message msg privacy (hg_edge p') =
      Done (Ok tt, with_handler (task_handler t) (mkMsgChan [msg] true) (hg_edge p')).
Proof.
  intros Hc Ho. rewrite (creates_run c p msg src dst a Hc Ho). destruct Hc as [(h & Hh & _ & Hd) _ _].
  set (p' := with_edge (router_queued msg (registered dst true (hg_edge p))) (spawned a dst p)).
  exists p', (mkActorTask dst (fresh (dom (handlers (hg_edge p)))) a).
  pose proof (registered_here dst true (hg_edge p)) as Hr.
  change (edge_routes (registered dst true (hg_edge p))) with (edge_routes (hg_edge p')) in Hr.
  split_and!; [done..|apply fresh_handler|done| |].
  - intros privacy. unfold route_map_get. rewrite Hr. by destruct privacy.
  - intros privacy. rewrite (route_to_actor msg h dst _ (mkMsgChan [] true) privacy _ Hh Hd Hr); [done|].
    cbn [p' with_edge hg_edge router_queued handlers tx]. by rewrite registered_handler, decide_True.
Qed.

(** What a creator does with any other message: one that no bridge sent, or
    whose payload is no update, is refused to its sender under its id, in the
    creator's name; a deletion and a key the actor rejects break the contract
    of [SwbusError::input] and panic the creator; and a bridge's message that
    is no data request is put back in front of the router, which hands it to
    the creator again. *)
Theorem creator_refuses {V} `{Wire V, Codec V KeyOpFieldValues} c p msg h src dst :
  header msg = Some h → source h = Some src → destination h = Some dst → router_open p →
  match creator_verdict (V:=V) c src (body msg) with
  | Spawns _ => True
  | Refuses code text => ∃ p', creator_round (V:=V) msg (mkCreatorSt c p) = Done (Ok tt, mkCreatorSt (next_creator c) p') ∧
      hg_actors p' = hg_actors p ∧ edge_routes (hg_edge p') = edge_routes (hg_edge p) ∧
      delivered (sender_to_message_router (hg_edge p')) = delivered (sender_to_message_router (hg_edge p)) ++
        [response_to h (creator_sp c) src code text (next_id (creator_ids c)) None]
  | Breaks => creator_round (V:=V) msg (mkCreatorSt c p) = Panicked "pre-condition violated"
  | Forwards => ∃ p', creator_round (V:=V) msg (mkCreatorSt c p) = Done (Ok tt, mkCreatorSt c p') ∧
      hg_actors p' = hg_actors p ∧
      delivered (sender_to_message_router (hg_edge p')) = delivered (sender_to_message_router (hg_edge p)) ++ [msg] ∧
      (∀ ch, edge_routes (hg_edge p) !! dst = None →
         edge_routes (hg_edge p) !! clear_resource_id dst = Some (mkHandler (creator_handler c), Private) →
         handlers (hg_edge p) !! creator_handler c = Some ch →
         edge_route_message msg Private (hg_edge p') = Done (Ok tt, deliver_to (creator_handler c) ch msg (hg_edge p')))
  end.
Proof.
  intros Hh Hs Hd Ho. rewrite (creator_round_run msg h src dst c p Hh Hs Hd Ho).
  destruct (creator_verdict c src (body msg)); [done| | |done]; (eexists; split; [reflexivity|]).
  - by split_and!.
  - split_and!; [done..|]. intros ch Hnone Hcr Hch. rewrite (edge_route_run _ _ _ _ _ Hh Hd). cbn [candidates find_handler].
    unfold route_map_get. cbn [with_edge hg_edge router_queued edge_routes handlers]. rewrite Hnone, Hcr, andb_comm, (bool_decide_eq_false_2 (Private = Public)) by done.
    cbn [andb tx]. by rewrite Hch.
Qed.

(** Two updates of a key that wait at the creator together spawn the actor
    twice: the second takes the route of the first, no sender is left to the
    first (its [recv] returns [None] from then on), and both updates go to the
    second. *)
Theorem creator_spawns_twice {V} `{Wire V, Codec V KeyOpFieldValues} c p m1 m2 src dst a1 a2 :
  creates (V:=V) c p m1 src dst a1 → creates (V:=V) c p m2 src dst a2 → router_open p → wf_edge (hg_edge p) →
  ∃ p' t1 t2, creator_run (V:=V) [m1; m2] (mkCreatorSt c p) = Done (Ok tt, mkCreatorSt c p') ∧
    hg_actors p' = hg_actors p ++ [t1; t2] ∧ task_sp t1 = dst ∧ task_sp t2 = dst ∧
    senders_dropped (task_handler t1) (hg_edge p') = true ∧ senders_dropped (task_handler t2) (hg_edge p') = false ∧
    delivered (sender_to_message_router (hg_edge p')) = delivered (sender_to_message_router (hg_edge p)) ++ [m1; m2] ∧
    ∃ e', route_task [(m1, Private); (m2, Private)] (hg_edge p') = Done (Ok tt, e') ∧
      handlers e' !! task_handler t2 = Some (mkMsgChan [m1; m2] true) ∧
      handlers e' !! task_handler t1 = Some (mkMsgChan [] true).
Proof.
  intros Hc1 Hc2 Ho Hwf. destruct (registered_twice dst true true (hg_edge p) Hwf) as (Hd1 & Hd2 & Hr).
  set (p1 := with_edge (router_queued m1 (registered dst true (hg_edge p))) (spawned a1 dst p)).
  assert (creates (V:=V) c p1 m2 src dst a2) as Hc2' by (destruct Hc2 as [? ? Hl]; split; [done..|exact Hl]).
  set (h1 := fresh (dom (handlers (hg_edge p)))) in *. set (h2 := fresh (dom (handlers (registered dst true (hg_edge p))))) in *.
  set (p2 := with_edge (router_queued m2 (registered dst true (hg_edge p1))) (spawned a2 dst p1)).
  exists p2, (mkActorTask dst h1 a1), (mkActorTask dst h2 a2). split.
  { unfold creator_run. cbn [for_each]. rewrite (bind_done _ _ _ _ _ (creates_run c p m1 src dst a1 Hc1 Ho)). fold p1.
    by rewrite (bind_done _ _ _ _ _ (creates_run c p1 m2 src dst a2 Hc2' eq_refl)). }
  destruct Hc1 as [(hd1 & Hh1 & _ & Hdst1) _ _], Hc2 as [(hd2 & Hh2 & _ & Hdst2) _ _].
  split_and!; [cbn; by rewrite <- app_assoc|done|done|done|done|cbn; by rewrite <- app_assoc|].
  assert (h1 ≠ h2) as Hne.
  { pose proof (fresh_handler (registered dst true (hg_edge p))) as Hf. fold h2 in Hf. intros <-.
    rewrite registered_handler, decide_True in Hf by done. done. }
  assert (handlers (hg_edge p2) !! h2 = Some (mkMsgChan [] true)) as Hch.
  { change (handlers (registered dst true (registered dst true (hg_edge p))) !! h2 = Some (mkMsgChan [] true)).
    by rewrite registered_handler, decide_True. }
  assert (handlers (hg_edge p2) !! h1 = Some (mkMsgChan [] true)) as Hch1.
  { change (handlers (registered dst true (registered dst true (hg_edge p))) !! h1 = Some (mkMsgChan [] true)).
    rewrite registered_handler, decide_False by done. by rewrite registered_handler, decide_True. }
  change (edge_routes (hg_edge p2) !! dst = Some (mkHandler h2, privacy_of true)) in Hr.
  exists (with_handler h2 (mkMsgChan [m1; m2] true) (with_handler h2 (mkMsgChan [m1] true) (hg_edge p2))).
  unfold route_task. cbn [for_each fst snd]. split; [|split].
  - rewrite (bind_done _ _ _ _ _ (route_to_actor m1 hd1 dst (mkHandler h2) (mkMsgChan [] true) Private _ Hh1 Hdst1 Hr Hch)).
    by rewrite (bind_done _ _ _ _ _ (route_to_actor m2 hd2 dst (mkHandler h2) (mkMsgChan [m1] true) Private
      (with_handler h2 (mkMsgChan [m1] true) (hg_edge p2)) Hh2 Hdst2 Hr (lookup_insert_eq _ _ _))).
  - cbn. apply lookup_insert_eq.
  - cbn [with_handler handlers]. by rewrite !lookup_insert_ne.
Qed.

(** C39: An actor that stopped (its row was deleted) is never created again: its
    route stays, the router counts a message to its closed channel as
    delivered, and so no later update of the key, wherever it comes from,
    reaches the creator or anybody else. *)
Theorem deleted_actor_never_recreated t e msgs :
  edge_routes e !! task_sp t = Some (mkHandler (task_handler t), Public) → is_Some (handlers e !! task_handler t) →
  Forall (λ m, ∃ h, header m.1 = Some h ∧ destination h = Some (task_sp t)) msgs →
  let e' := receiver_dropped (task_handler t) e in
  route_task msgs e' = Done (Ok tt, e').
Proof.
  intros Hr [ch Hch] Hall e'. assert (edge_routes e' !! task_sp t = Some (mkHandler (task_handler t), Public) ∧
    handlers e' !! task_handler t = Some (mkMsgChan (delivered ch) false)) as [Hr' Hch'].
  { unfold e', receiver_dropped. rewrite Hch. split; [done|]. cbn. apply lookup_insert_eq. }
  clearbody e'. unfold route_task. induction Hall as [|[m privacy] msgs (h & Hh & Hd) Hall IH]; [done|]. cbn [for_each].
  by rewrite (bind_done _ _ _ _ _ (route_to_actor m h _ _ _ privacy _ Hh Hd Hr' Hch')).
Qed.

(** C40: All bridges of a table share one address. When a second one starts
    (the DPU actor and every HA set subscribe to DASH_HA_GLOBAL_CONFIG), it
    takes the route of the first: no sender is left to the first, which takes
    the closed channel for the end of the bus and sends no further update. *)
Theorem second_bridge_ends_first {V T S1 S2} `{Wire V, Codec V KeyOpFieldValues} `{SonicDbTable T} env n1 i1 e1 f1 n2 i2 e2 f2
    b1 b2 (s1 s1' : S1) (s2 s2' : S2) p later (cs : ConsumerSt) :
  spawn_consumer_bridge T env n1 i1 e1 f1 s1 = Done (Ok b1, s1') →
  spawn_consumer_bridge T env n2 i2 e2 f2 s2 = Done (Ok b2, s2') → wf_edge (hg_edge p) →
  ∃ p' h1 h2, (consumer_spawn (E:=string) b1;;; consumer_spawn b2) p = Done (Ok tt, p') ∧
    hg_consumers p' = hg_consumers p ++ [(b1, h1); (b2, h2)] ∧
    senders_dropped h1 (hg_edge p') = true ∧ senders_dropped h2 (hg_edge p') = false ∧
    consumer_loop (V:=V) b1 ((if senders_dropped h1 (hg_edge p') then [EvSwbusDown] else []) ++ later) cs = Done (Ok true, cs).
Proof.
  intros Hb1 Hb2 Hwf.
  assert (∀ S n i e f b (s s' : S), spawn_consumer_bridge T env n i e f s = Done (Ok b, s') → br_addr b = common_bridge_sp T env) as Haddr.
  { intros S n i e f b s s'. unfold spawn_consumer_bridge. destruct (env_open _ _ _ _); [|done]. by intros [= <- _]. }
  apply Haddr in Hb1. apply Haddr in Hb2.
  destruct (registered_twice (br_addr b1) false false (hg_edge p) Hwf) as (Hd1 & Hd2 & _).
  unfold consumer_spawn. rewrite bind_bind, (bind_done _ _ _ _ _ (lift_client_new_run _ _ _)), bind_modify,
    (bind_done _ _ _ _ _ (lift_client_new_run _ _ _)).
  eexists _, _, _. split; [reflexivity|]. cbn [hg_consumers hg_edge]. rewrite Hb2, <- Hb1.
  split; [by rewrite <- app_assoc|]. split; [exact Hd1|]. split; [exact Hd2|]. by rewrite Hd1.
Qed.
