(* ===== verification/HamgrdWitness.v ===== *)
(** hamgrd started on a demo environment, and its creators at work. *)
From S2P Require Import Prelude RustStr Path Proto Mux MuxWitness Edge EdgeTheory Actor Bridge BridgeTheory BridgeWitness HaTypes VDpuActor DpuActor HaSetActor HaScopeActor Hamgrd HamgrdTheory.

Open Scope stdpp_scope.

Definition demo_hamgrd_env : HaEnv := mkHaEnv 1 (Some "10.0.0.1") None demo_edge_base (λ _ _ _, Ok tt).
Definition demo_dpu_row : Dpu := mkDpu None None None "1.1.1.1" None 1 None 8100 23606 "169.254.1.1".

Lemma hamgrd_startup_witness :
  ∃ p, hamgrd_main demo_hamgrd_env 5 (λ _, true) demo_dpu_row (hamgrd_initial demo_edge_base) = Done (Ok tt, p) ∧
    map fst (hg_producers p) = main_producers demo_hamgrd_env.
Proof.
  destruct (hamgrd_startup demo_hamgrd_env 5 (λ _, true) (λ _ _ _, eq_refl) (λ _, eq_refl) demo_dpu_row eq_refl eq_refl)
    as (p & Hrun & _ & _ & Hp & _).
  exists p. split; [exact Hrun|exact Hp].
Defined.

(** A vDPU creator and the updates its bridge sends. *)
Definition demo_creator : ActorCreator :=
  mkCreator (local_sp demo_edge_base "vdpu" "") 0 create_vdpu (id_generator_new 50).
Definition demo_process : HamgrdSt :=
  mkHamgrd (registered (local_sp demo_edge_base "vdpu" "") false (edge_new demo_edge_base)) [] [demo_creator] [] [].
Definition demo_bridge_sp : ServicePath := local_sp demo_edge_base "swss-common-bridge" "CONFIG_DB|VDPU".
Definition demo_vdpu_sp : ServicePath := local_sp demo_edge_base "vdpu" "vdpu1".
Definition demo_set (i : Z) : SwbusMessage :=
  data_message i demo_bridge_sp demo_vdpu_sp (to_vec (mkActorMsg "VDPU" (mkKfv "vdpu1" KopSet {["main_dpu_ids" := "dpu1"]}))).
Definition demo_del : SwbusMessage :=
  data_message 9 demo_bridge_sp demo_vdpu_sp (to_vec (mkActorMsg "VDPU" (mkKfv "vdpu1" KopDel ∅))).

Lemma demo_set_creates i : creates demo_creator demo_process (demo_set i) demo_bridge_sp demo_vdpu_sp (AVDpu (vdpu_actor_new "vdpu1")).
Proof.
  split.
  - by eexists.
  - unfold creator_verdict, demo_set, data_message. cbn [body]. rewrite bool_decide_eq_true_2 by done. cbn [negb].
    unfold update_of_payload. by rewrite from_to_slice.
  - reflexivity.
Defined.
Lemma demo_process_wf : wf_edge (hg_edge demo_process).
Proof. apply registered_wf. intros sp h q Hs. by rewrite edge_new_route in Hs. Defined.

Lemma creator_spawns_witness :
  ∃ p' t, creator_round (demo_set 1) (mkCreatorSt demo_creator demo_process) = Done (Ok tt, mkCreatorSt demo_creator p') ∧
    task_sp t = demo_vdpu_sp.
Proof.
  destruct (creator_spawns demo_creator demo_process (demo_set 1) demo_bridge_sp demo_vdpu_sp _ (demo_set_creates 1) eq_refl)
    as (p' & t & Hrun & _ & _ & Hsp & _).
  exists p', t. split; [exact Hrun|exact Hsp].
Defined.

Lemma creator_refuses_witness :
  creator_round demo_del (mkCreatorSt demo_creator demo_process) = Panicked "pre-condition violated".
Proof.
  pose proof (creator_refuses demo_creator demo_process demo_del (header_new demo_bridge_sp demo_vdpu_sp 9) demo_bridge_sp demo_vdpu_sp
    eq_refl eq_refl eq_refl eq_refl) as Hr.
  assert (creator_verdict demo_creator demo_bridge_sp (body demo_del) = Breaks) as Hv.
  { unfold creator_verdict, demo_del, data_message. cbn [body]. rewrite bool_decide_eq_true_2 by done. cbn [negb].
    unfold update_of_payload. by rewrite from_to_slice. }
  rewrite Hv in Hr. exact Hr.
Defined.

Lemma creator_spawns_twice_witness :
  ∃ p' t1 t2, creator_run [demo_set 1; demo_set 2] (mkCreatorSt demo_creator demo_process) = Done (Ok tt, mkCreatorSt demo_creator p') ∧
    hg_actors p' = [t1; t2] ∧ senders_dropped (task_handler t1) (hg_edge p') = true.
Proof.
  destruct (creator_spawns_twice demo_creator demo_process (demo_set 1) (demo_set 2) demo_bridge_sp demo_vdpu_sp _ _
    (demo_set_creates 1) (demo_set_creates 2) eq_refl demo_process_wf) as (p' & t1 & t2 & Hrun & Ha & _ & _ & Hd & _).
  exists p', t1, t2. split; [exact Hrun|]. split; [exact Ha|exact Hd].
Defined.

(** The vDPU actor, spawned and then stopped. *)
Definition demo_task : ActorTask := mkActorTask demo_vdpu_sp 1 (AVDpu (vdpu_actor_new "vdpu1")).
Definition demo_running : EdgeState := with_handler 1 (mkMsgChan [] true) (add_handler demo_vdpu_sp 1 (hg_edge demo_process)).

Lemma deleted_actor_never_recreated_witness :
  route_task [(demo_set 3, Private); (demo_set 4, Private)] (receiver_dropped 1 demo_running) =
    Done (Ok tt, receiver_dropped 1 demo_running).
Proof.
  apply (deleted_actor_never_recreated demo_task demo_running [(demo_set 3, Private); (demo_set 4, Private)]).
  - apply (lookup_insert_eq (M:=gmap ServicePath)).
  - eexists. apply lookup_insert_eq.
  - apply List.Forall_cons; [by eexists|]. apply List.Forall_cons; [by eexists|constructor].
Defined.

(** The DPU actor's and the HA set's subscription to the global configuration. *)
Definition demo_global_bridge (name i : string) : ConsumerBridge :=
  mkBridge (common_bridge_sp DashHaGlobalConfig demo_hamgrd_env) "DASH_HA_GLOBAL_CONFIG"
    (λ kfv, (local_sp demo_edge_base name i, "DASH_HA_GLOBAL_CONFIG")) (λ _, Some true).

Lemma second_bridge_ends_first_witness :
  ∃ p' h1 h2, (consumer_spawn (E:=string) (demo_global_bridge "dpu" "dpu1");;;
      consumer_spawn (demo_global_bridge "ha-set" "haset1")) demo_process = Done (Ok tt, p') ∧
    senders_dropped h1 (hg_edge p') = true ∧ senders_dropped h2 (hg_edge p') = false.
Proof.
  destruct (second_bridge_ends_first (V:=KeyOpFieldValues) (T:=DashHaGlobalConfig) demo_hamgrd_env "dpu" (Some "dpu1") true (λ _, Some true)
    "ha-set" (Some "haset1") true (λ _, Some true) (demo_global_bridge "dpu" "dpu1") (demo_global_bridge "ha-set" "haset1")
    tt tt tt tt demo_process [] demo_consumer)
    as (p' & h1 & h2 & Hrun & _ & Hd1 & Hd2 & _); [reflexivity|reflexivity|exact demo_process_wf|].
  exists p', h1, h2. split; [exact Hrun|]. split; [exact Hd1|exact Hd2].
Defined.
