(* ===== verification/HaTheory.v ===== *)
(** Theorems about hamgrd's actors: they meet the contract of the actor
    framework, and what their handlers send and write. *)
From S2P Require Import Prelude RustStr Path Proto Edge Actor ActorTheory Bridge HaTypes VDpuActor DpuActor HaSetActor HaScopeActor.

Open Scope stdpp_scope.

(** * The contract *)

Section Contract.
Context {V Db : Type} `{Wire V} `{!SwssTable Db} `{!HaCodec V} `{!HaFvCodec}.

Lemma api_try_ok {A E E' B} (m : M (ActorSt V Db A) E B) : preserves api m → preserves api (try_ok (E':=E') m).
Proof. intros Hm. unfold try_ok. frame. Qed.
Lemma api_incoming_row {A T} `{FvCodec T} now k : preserves api (incoming_row (T:=T) (V:=V) (Db:=Db) (A:=A) now k).
Proof. unfold incoming_row. frame. Qed.
Lemma api_reg_msg {A} act t i : preserves api (reg_new_actor_msg (V:=V) (S:=ActorSt V Db A) act t i).
Proof. unfold reg_new_actor_msg. frame. Qed.
Lemma api_dpu_msg {A} i d : preserves api (dpu_new_actor_msg (V:=V) (S:=ActorSt V Db A) i d).
Proof. unfold dpu_new_actor_msg. frame. Qed.
Lemma api_vdpu_msg {A} i d : preserves api (vdpu_to_actor_msg (V:=V) (S:=ActorSt V Db A) i d).
Proof. unfold vdpu_to_actor_msg. frame. Qed.
Lemma api_haset_msg {A} up i d : preserves api (haset_new_actor_msg (V:=V) (S:=ActorSt V Db A) up i d).
Proof. unfold haset_new_actor_msg. frame. Qed.
Lemma api_spawn {A} T `{SonicDbTable T} env n i b f :
  preserves api (spawn_consumer_bridge (S:=ActorSt V Db A) T env n i b f).
Proof. unfold spawn_consumer_bridge. frame. Qed.

Hint Resolve api_try_ok api_incoming_row api_reg_msg api_dpu_msg api_vdpu_msg api_haset_msg api_spawn : frame.

(** Split a goal about a handler along its code, one called handler at a time. *)
Ltac api_step :=
  first
    [ progress frame_step
    | match goal with |- preserves _ (modify (fun s => set_actor _ s)) => apply api_modify_actor end
    | match goal with |- preserves _ (for_each _ _) => apply preserves_for_each; [typeclasses eauto..|intros ?] end
    | match goal with |- preserves _ (map_m _ _) => apply preserves_map_m; [typeclasses eauto..|intros ?] end ].
Ltac api := repeat (cbn zeta; api_step).

(** ** vDPU *)

Lemma vdpu_api now k : preserves api (vdpu_handle_message (V:=V) (Db:=Db) now k).
Proof.
  assert (∀ b, preserves api (vdpu_register_to_dpu_actor (V:=V) (Db:=Db) now b)) as Hreg
    by (intros; unfold vdpu_register_to_dpu_actor; api).
  assert (preserves api (calculate_vdpu_state (V:=V) (Db:=Db))) as Hcalc
    by (unfold calculate_vdpu_state; api).
  unfold vdpu_handle_message, vdpu_handle_message_of_table, vdpu_handle_dpu_state_update,
    vdpu_handle_state_registration. api.
Qed.

(** ** DPU *)

Lemma api_set_dpu_data d : preserves (E:=string) api (modify (set_dpu_data (V:=V) (Db:=Db) d)).
Proof. apply (api_modify_actor (λ s, mkDpuActor (dpu_actor_id (actor s)) (Some d) (dpu_bridges (actor s)))). Qed.
Lemma api_push_dpu_bridge b : preserves (E:=string) api (modify (push_dpu_bridge (V:=V) (Db:=Db) b)).
Proof.
  apply (api_modify_actor (λ s, mkDpuActor (dpu_actor_id (actor s)) (dpu_data (actor s)) (dpu_bridges (actor s) ++ [b]))).
Qed.
Hint Resolve api_set_dpu_data api_push_dpu_bridge : frame.

Lemma dpu_api env now k : preserves api (dpu_handle_message (V:=V) (Db:=Db) env now k).
Proof.
  assert (preserves api (calculate_dpu_state (V:=V) (Db:=Db) now)) as Hcalc
    by (unfold calculate_dpu_state, get_dpu_state, get_bfd_probe_state; api).
  assert (∀ t, preserves api (update_dpu_state (V:=V) (Db:=Db) now t)) as Hup
    by (intros; unfold update_dpu_state; api).
  assert (∀ ip g, preserves api (update_bfd_session (V:=V) (Db:=Db) now ip g)) as Hbfd
    by (intros; unfold update_bfd_session; api).
  unfold dpu_handle_message, handle_dpu_message, handle_remote_dpu_message,
    handle_remote_dpu_message_to_remote_dpu, handle_remote_dpu_message_to_local_dpu,
    handle_dpu_state_registration, dpu_handle_dash_ha_global_config, update_bfd_sessions,
    get_dash_ha_global_config. api.
Qed.

(** ** HA set *)

Lemma api_push_haset_bridge b : preserves (E:=string) api (modify (push_haset_bridge (V:=V) (Db:=Db) b)).
Proof.
  apply (api_modify_actor (λ s, mkHaSetActor (haset_id (actor s)) (dash_ha_set_config (actor s))
    (haset_bridges (actor s) ++ [b]))).
Qed.
Hint Resolve api_push_haset_bridge : frame.

Lemma api_haset_get_vdpu i : preserves api (haset_get_vdpu (V:=V) (Db:=Db) i).
Proof. unfold haset_get_vdpu. api. Qed.
Hint Resolve api_haset_get_vdpu : frame.

Lemma haset_api env now k : preserves api (haset_handle_message (V:=V) (Db:=Db) env now k).
Proof.
  assert (preserves api (get_vdpus_if_ready (V:=V) (Db:=Db))) as Hready
    by (unfold get_vdpus_if_ready, get_vdpus; api).
  assert (∀ l, preserves api (prepare_dash_ha_set_table_data (V:=V) (Db:=Db) now l)) as Hprep
    by (intros; unfold prepare_dash_ha_set_table_data, vdpu_at, haset_get_global_config; api).
  assert (∀ l, preserves api (update_dash_ha_set_table (V:=V) (Db:=Db) now l)) as Hset
    by (intros; unfold update_dash_ha_set_table; api).
  assert (∀ l, preserves api (update_vnet_route_tunnel_table (V:=V) (Db:=Db) env now l)) as Hvnet
    by (intros; unfold update_vnet_route_tunnel_table, haset_get_global_config; api).
  assert (∀ b, preserves api (register_to_vdpu_actor (V:=V) (Db:=Db) now b)) as Hreg
    by (intros; unfold register_to_vdpu_actor; api).
  unfold haset_handle_message, handle_dash_ha_set_config_table_message, haset_handle_vdpu_state_update,
    haset_handle_dash_ha_global_config, haset_update_tables, handle_haset_state_registration. api.
Qed.

(** ** HA scope *)

Lemma api_set_scope_config c : preserves (E:=string) api (modify (set_scope_config (V:=V) (Db:=Db) c)).
Proof. unfold set_scope_config. apply api_modify_actor. Qed.
Lemma api_set_dpu_scope_state d : preserves (E:=string) api (modify (set_dpu_scope_state (V:=V) (Db:=Db) d)).
Proof. unfold set_dpu_scope_state. apply api_modify_actor. Qed.
Lemma api_push_scope_bridge b : preserves (E:=string) api (modify (push_scope_bridge (V:=V) (Db:=Db) b)).
Proof. unfold push_scope_bridge. apply api_modify_actor. Qed.
Hint Resolve api_set_scope_config api_set_dpu_scope_state api_push_scope_bridge : frame.

Lemma api_scope_get_vdpu : preserves api (scope_get_vdpu (V:=V) (Db:=Db)).
Proof. unfold scope_get_vdpu. api. Qed.
Lemma api_scope_get_haset : preserves api (scope_get_haset (V:=V) (Db:=Db)).
Proof. unfold scope_get_haset. api. Qed.
Lemma api_get_npu now : preserves api (get_npu_ha_scope_state (V:=V) (Db:=Db) now).
Proof. unfold get_npu_ha_scope_state. api. Qed.
Lemma api_get_dpu_scope now : preserves api (get_dpu_ha_scope_state (V:=V) (Db:=Db) now).
Proof. unfold get_dpu_ha_scope_state. api. Qed.
Lemma api_write_npu st : preserves api (write_npu_state (V:=V) (Db:=Db) st).
Proof. unfold write_npu_state. api. Qed.
Hint Resolve api_scope_get_vdpu api_scope_get_haset api_get_npu api_get_dpu_scope api_write_npu : frame.

Lemma api_pending_ops now g : preserves api (get_pending_operations (V:=V) (Db:=Db) now g).
Proof. unfold get_pending_operations. api. Qed.
Hint Resolve api_pending_ops : frame.

Lemma hascope_api env uuid now k : preserves api (hascope_handle_message (V:=V) (Db:=Db) env uuid now k).
Proof.
  assert (∀ b t d, preserves api (scope_register (V:=V) (Db:=Db) now b t d)) as Hreg
    by (intros; unfold scope_register; api).
  assert (preserves api (update_dpu_ha_scope_table (V:=V) (Db:=Db) now)) as Htab
    by (unfold update_dpu_ha_scope_table; api).
  assert (preserves api (update_npu_ha_scope_state_base (V:=V) (Db:=Db) now)) as Hbase
    by (unfold update_npu_ha_scope_state_base; api).
  assert (∀ n a, preserves api (update_npu_ha_scope_state_pending_operations (V:=V) (Db:=Db) now n a)) as Hpend
    by (intros; unfold update_npu_ha_scope_state_pending_operations; api).
  assert (preserves api (update_npu_ha_scope_state_ha_state (V:=V) (Db:=Db) now)) as Hha
    by (unfold update_npu_ha_scope_state_ha_state; api).
  unfold hascope_handle_message, handle_dash_ha_scope_config_table_message, scope_handle_vdpu_state_update,
    handle_haset_state_update, handle_dpu_ha_scope_state_update, vdpu_is_managed,
    scope_register_to_vdpu_actor, register_to_haset_actor. api.
Qed.

#[export] Instance vdpu_contract : ActorContract (vdpu_actor (V:=V) (Db:=Db)).
Proof. split; [intros; apply preserves_ret; typeclasses eauto|apply vdpu_api]. Qed.
#[export] Instance dpu_contract env : ActorContract (dpu_actor (V:=V) (Db:=Db) env).
Proof. split; [intros; apply preserves_ret; typeclasses eauto|apply dpu_api]. Qed.
#[export] Instance haset_contract env : ActorContract (haset_actor (V:=V) (Db:=Db) env).
Proof. split; [intros; apply preserves_ret; typeclasses eauto|apply haset_api]. Qed.
#[export] Instance hascope_contract env uuid : ActorContract (hascope_actor (V:=V) (Db:=Db) env uuid).
Proof. split; [intros; apply preserves_ret; typeclasses eauto|apply hascope_api]. Qed.

End Contract.
