(* ===== verification/HaProps.v ===== *)
(** The properties of hamgrd's actors: what their handlers send to the other
    actors and write to the tables, on the success and failure paths. *)
From S2P Require Import Prelude RustStr Path Proto Edge Actor ActorTheory Bridge HaTypes VDpuActor DpuActor HaSetActor HaScopeActor HaTheory.

Open Scope stdpp_scope.

(** * Running the shared steps *)

Section HaRuns.
Context {V Db A : Type} `{Wire V} `{!SwssTable Db} `{!HaCodec V}.
Implicit Types (s : ActorSt V Db A).

(** A queued message for [sp] carrying [msg], from this actor. *)
Definition queued_for (now : Z) (src : ServicePath) (msg : ActorMessage V) (sp : ServicePath)
    (u : UnackedMessage V) : Prop :=
  actor_message u = msg ∧ time_sent u = now ∧ body (swbus_message u) = Some (DataRequest (to_vec msg)) ∧
  ∃ h, header (swbus_message u) = Some h ∧ source h = Some src ∧ destination h = Some sp.

(** Only the queue grows, by [q]; the client may have taken ids. *)
Record only_queued (q : list (UnackedMessage V)) s s' : Prop := {
  oq_queued : queued_messages s' = queued_messages s ++ q;
  oq_actor : actor s' = actor s;
  oq_incoming : incoming_table s' = incoming_table s;
  oq_internal : internal_table s' = internal_table s;
  oq_source : client_source (swbus_client s') = client_source (swbus_client s);
  oq_databases : databases s' = databases s;
  oq_stopped : stopped s' = stopped s;
}.

Lemma only_queued_refl s : only_queued [] s s.
Proof. split; try done. by rewrite app_nil_r. Qed.
Lemma only_queued_trans q1 q2 s1 s2 s3 :
  only_queued q1 s1 s2 → only_queued q2 s2 s3 → only_queued (q1 ++ q2) s1 s3.
Proof. intros [] []. split; try congruence. rewrite app_assoc. congruence. Qed.

Lemma send_step now sp msg s :
  ∃ u s', outgoing_send now sp msg s = Done (Ok tt, s') ∧ only_queued [u] s s' ∧
    queued_for now (client_source (swbus_client s)) msg sp u.
Proof.
  eexists _, _. split; [apply outgoing_send_run|]. split; [by split|].
  split_and!; try done. eexists. split; done.
Qed.

Lemma send_all_step now msg (sps : list ServicePath) s :
  ∃ q s', for_each (λ sp, outgoing_send now sp msg) sps s = Done (Ok tt, s') ∧ only_queued q s s' ∧
    Forall2 (queued_for now (client_source (swbus_client s)) msg) sps q.
Proof.
  revert s. induction sps as [|sp sps IH]; intros s.
  - exists [], s. split; [done|]. split; [apply only_queued_refl|constructor].
  - destruct (send_step now sp msg s) as (u & s1 & Hrun & Hq & Hu).
    destruct (IH s1) as (q & s2 & Hrun2 & Hq2 & Hall). exists (u :: q), s2. split.
    + cbn [for_each]. by rewrite (bind_done _ _ _ _ _ Hrun).
    + split; [apply (only_queued_trans [u] q _ _ _ Hq Hq2)|]. constructor; [done|].
      by rewrite <- (oq_source _ _ _ Hq).
Qed.

Lemma from_my_sp_source ty i s s' :
  client_source (swbus_client s') = client_source (swbus_client s) → from_my_sp ty i s' = from_my_sp ty i s.
Proof. unfold from_my_sp. by intros ->. Qed.

(** Sending to the actors of a type, by id. *)
Lemma send_ids_step now ty msg (ids : list string) s :
  ∃ q s', for_each (λ i, let* s := get_state in outgoing_send now (from_my_sp ty i s) msg) ids s = Done (Ok tt, s') ∧
    only_queued q s s' ∧
    Forall2 (λ i, queued_for now (client_source (swbus_client s)) msg (from_my_sp ty i s)) ids q.
Proof.
  revert s. induction ids as [|i ids IH]; intros s.
  - exists [], s. split; [done|]. split; [apply only_queued_refl|constructor].
  - destruct (send_step now (from_my_sp ty i s) msg s) as (u & s1 & Hrun & Hq & Hu).
    destruct (IH s1) as (q & s2 & Hrun2 & Hq2 & Hall). exists (u :: q), s2. split.
    + cbn [for_each]. rewrite bind_bind, bind_get. by rewrite (bind_done _ _ _ _ _ Hrun).
    + split; [apply (only_queued_trans [u] q _ _ _ Hq Hq2)|]. constructor; [done|].
      eapply Forall2_impl; [exact Hall|]. intros j u'. cbn beta.
      by rewrite (from_my_sp_source _ _ _ _ (oq_source _ _ _ Hq)), (oq_source _ _ _ Hq).
Qed.

(** Who is registered: the sources of the active registrations. *)
Lemma registered_spec t s sp :
  sp ∈ get_registered_actors t s ↔
  ∃ k e, incoming_table s !! k = Some e ∧ starts_with k (reg_prefix t) = true ∧
    from_value (msg_data (inc_msg e)) = Ok (mkRegistration true) ∧ inc_source e = sp.
Proof.
  unfold get_registered_actors, incoming_get_by_prefix. rewrite list_elem_of_omap. split.
  - intros (e & ([k e'] & -> & [Hp Hk]%list_elem_of_filter)%list_elem_of_fmap & He).
    cbn in He, Hp. apply elem_of_map_to_list in Hk. exists k, e'. split; [done|]. split; [by apply Is_true_true|].
    unfold registered_source in He. destruct (from_value _) as [[[]]|]; by simplify_eq/=.
  - intros (k & e & Hk & Hp & Hv & Hs). exists e. split.
    + apply list_elem_of_fmap. exists (k, e). split; [done|]. apply list_elem_of_filter.
      split; [by apply Is_true_true|by apply elem_of_map_to_list].
    + unfold registered_source. rewrite Hv. cbn. by rewrite Hs.
Qed.

(** Reading a row out of the incoming table. *)
Definition row_of {T} `{FvCodec T} (now : Z) (k : string) s : option T :=
  match incoming_table s !! k with
  | Some e => match from_value (T:=KeyOpFieldValues) (msg_data (inc_msg e)) with
              | Ok kfv => match from_field_values now (kfv_field_values kfv) with
                          | Ok row => Some row
                          | Err _ => None
                          end
              | Err _ => None
              end
  | None => None
  end.

Lemma try_row_run {T} `{FvCodec T} {E} now k s :
  try_ok (E':=E) (incoming_row (T:=T) now k) s = Done (Ok (row_of now k s), s).
Proof.
  unfold try_ok, incoming_row, incoming_get, incoming_get_entry, row_of, deserialize_data.
  unfold bind, attempt, get_state, ret, throw, of_result.
  destruct (incoming_table s !! k) as [e|]; [|done].
  destruct (from_value _) as [kfv|]; [|done]. cbn. by destruct (from_field_values now (kfv_field_values kfv)).
Qed.

Lemma row_of_incoming {T} `{FvCodec T} now k s s' :
  incoming_table s' = incoming_table s → row_of (T:=T) now k s' = row_of now k s.
Proof. unfold row_of. by intros ->. Qed.

Lemma registered_incoming t s s' :
  incoming_table s' = incoming_table s → get_registered_actors t s' = get_registered_actors t s.
Proof. unfold get_registered_actors, incoming_get_by_prefix. by intros ->. Qed.

(** Reading a typed message out of the incoming table. *)
Definition typed_of (T : Type) `{Codec V T} (k : string) s : option T :=
  match incoming_table s !! k with
  | Some e => match from_value (msg_data (inc_msg e)) with Ok x => Some x | Err _ => None end
  | None => None
  end.

Lemma try_incoming_run {E} k s :
  try_ok (E':=E) (incoming_get k) s = Done (Ok (inc_msg <$> incoming_table s !! k), s).
Proof.
  unfold try_ok, incoming_get, incoming_get_entry, bind, attempt, get_state, ret, throw.
  by destruct (incoming_table s !! k).
Qed.

Lemma try_deserialize_run {T} `{Codec V T} {E} (m : ActorMessage V) s :
  try_ok (E':=E) (deserialize_data (T:=T) m) s =
    Done (Ok (match from_value (msg_data m) with Ok x => Some x | Err _ => None end), s).
Proof.
  unfold try_ok, deserialize_data, of_result, bind, attempt, ret, throw. by destruct (from_value _).
Qed.

Lemma actor_msg_run {T} `{Codec V T} k (t : T) v s :
  to_value t = Ok v → actor_msg_new k t s = Done (Ok (mkActorMsg k v), s).
Proof. intros Hv. unfold actor_msg_new. by rewrite Hv. Qed.

(** Opening an entry of the internal table: it is hydrated from the database
    if it is not there yet. *)
Lemma ensure_entry_run (env : HaEnv) T `{SonicDbTable T} sk s hyd :
  env_open env (db_name T) (table_name T) (is_dpu T) = Ok tt →
  table_get (databases s) (table_name T) sk = Ok hyd →
  ∃ e, swss_key e = sk ∧
    (if internal_has_entry (table_name T) sk s then ret tt
     else let* _ := of_result (env_open env (db_name T) (table_name T) (is_dpu T)) in
          internal_add (table_name T) (table_name T) sk) s =
    Done (Ok (E:=string) tt, set_internal (<[table_name T := e]> (internal_table s)) s).
Proof.
  intros Hopen Hget.
  assert (∃ e, swss_key e = sk ∧ internal_add (table_name T) (table_name T) sk s =
    Done (Ok tt, set_internal (<[table_name T := e]> (internal_table s)) s)) as (e0 & He0 & Hadd).
  { unfold internal_add. rewrite bind_get. unfold unwrap_result, of_result. rewrite Hget. eexists. split; [|reflexivity]. done. }
  unfold internal_has_entry. destruct (internal_table s !! table_name T) as [e|] eqn:He.
  - destruct (decide (swss_key e = sk)) as [Heq|Hne].
    + exists e. split; [done|]. rewrite bool_decide_eq_true_2 by done. rewrite insert_id by done. by destruct s.
    + exists e0. split; [done|]. rewrite bool_decide_eq_false_2, Hopen by done. exact Hadd.
  - exists e0. split; [done|]. rewrite Hopen. exact Hadd.
Qed.

End HaRuns.

(** * DPU and vDPU *)

Section DpuProps.
Context {V Db : Type} `{Wire V} `{!SwssTable Db} `{!HaCodec V} `{!HaFvCodec} (env : HaEnv).

(** A managed DPU is up when its pmon row says that all three planes are and its
    BFD row has a session up; down when a row is missing. *)
Definition reported_up (d : option DpuState) (b : option DashBfdProbeState) : bool :=
  match d, b with
  | Some d, Some b =>
      bool_decide (dpu_midplane_link_state d = PmonUp ∧ dpu_control_plane_state d = PmonUp ∧ dpu_data_plane_state d = PmonUp ∧
        ¬ (v4_bfd_up_sessions b = [] ∧ v6_bfd_up_sessions b = []))
  | _, _ => false
  end.
Lemma reported_up_final d b :
  match d, b with Some d, Some b => pmon_up d && bfd_up b | _, _ => false end = reported_up d b.
Proof.
  destruct d as [d|], b as [b|]; [|done..]. unfold pmon_up, bfd_up, reported_up. apply eq_bool_prop_intro.
  rewrite bool_decide_spec, !andb_True, orb_True, !negb_True, !bool_decide_spec.
  destruct (decide (v4_bfd_up_sessions b = [])); tauto.
Qed.

(** What it reports. *)
Definition reported_state (now : Z) (i : string) (dpu : Dpu) (ip : string) (ip6 : option string)
    (s : ActorSt V Db DpuActor) : DpuActorState :=
  let d := row_of (T:=DpuState) now (table_name DpuState) s in
  let b := row_of (T:=DashBfdProbeState) now (table_name DashBfdProbeState) s in
  set_up (reported_up d b) (from_dpu i dpu true ip ip6 d b).

Lemma update_dpu_state_run now target s dpu ip ip6 v :
  let msg := mkActorMsg (dpu_msg_key (dpu_actor_id (actor s))) v in
  dpu_data (actor s) = Some (LocalDpu dpu true ip ip6) →
  to_value (reported_state now (dpu_actor_id (actor s)) dpu ip ip6 s) = Ok v →
  update_dpu_state now target s =
    match target with
    | Some sp => outgoing_send now sp msg s
    | None => for_each (λ sp, outgoing_send now sp msg) (get_registered_actors RegDPUState s) s
    end.
Proof.
  intros msg Hd Hv. unfold update_dpu_state. rewrite bind_get, Hd.
  rewrite (bind_done _ _ _ (let d := row_of now (table_name DpuState) s in
    let b := row_of now (table_name DashBfdProbeState) s in
    (match d, b with Some d, Some b => pmon_up d && bfd_up b | _, _ => false end, d, b)) s).
  2: { unfold calculate_dpu_state. rewrite bind_get, Hd. unfold get_dpu_state, get_bfd_probe_state.
       by rewrite (bind_done _ _ _ _ _ (try_row_run _ _ _)), (bind_done _ _ _ _ _ (try_row_run _ _ _)). }
  cbn zeta beta iota. unfold dpu_new_actor_msg. rewrite reported_up_final.
  rewrite (bind_done _ _ _ _ _ (actor_msg_run (dpu_msg_key (dpu_actor_id (actor s))) _ v s Hv)).
  destruct target; [done|]. by rewrite bind_get.
Qed.

Lemma dpu_state_run now k s dpu ip ip6 v :
  k = table_name DpuState ∨ k = table_name DashBfdProbeState →
  dpu_data (actor s) = Some (LocalDpu dpu true ip ip6) →
  to_value (reported_state now (dpu_actor_id (actor s)) dpu ip ip6 s) = Ok v →
  ∃ q s', dpu_handle_message env now k s = Done (Ok tt, s') ∧ only_queued q s s' ∧
    Forall2 (queued_for now (client_source (swbus_client s)) (mkActorMsg (dpu_msg_key (dpu_actor_id (actor s))) v))
      (get_registered_actors RegDPUState s) q.
Proof.
  intros Hk Hd Hv. set (msg := mkActorMsg (dpu_msg_key (dpu_actor_id (actor s))) v).
  destruct (send_all_step now msg (get_registered_actors RegDPUState s) s) as (q & s' & Hrun & Hq & Hall).
  exists q, s'. split; [|done].
  assert (dpu_handle_message env now k s = update_dpu_state now None s) as ->.
  { unfold dpu_handle_message.
    assert (k ≠ table_name Dpu ∧ starts_with k (table_name RemoteDpu) = false ∧ reg_is_my_msg k RegDPUState = false ∧
      k ≠ table_name DashHaGlobalConfig) as (H1 & H2 & H3 & H4) by (destruct Hk as [-> | ->]; done).
    rewrite decide_False, H2, bind_get, Hd, H3 by done. unfold is_local_managed. rewrite Hd. cbn [negb].
    by rewrite decide_False, decide_True by done. }
  by rewrite (update_dpu_state_run now None s dpu ip ip6 v Hd Hv).
Qed.

(** A managed DPU answers a registration with its state. *)
Lemma dpu_registration_run now k s e dpu ip ip6 v :
  reg_is_my_msg k RegDPUState = true → incoming_table s !! k = Some e →
  from_value (msg_data (inc_msg e)) = Ok (mkRegistration true) →
  dpu_data (actor s) = Some (LocalDpu dpu true ip ip6) →
  to_value (reported_state now (dpu_actor_id (actor s)) dpu ip ip6 s) = Ok v →
  dpu_handle_message env now k s =
    outgoing_send now (inc_source e) (mkActorMsg (dpu_msg_key (dpu_actor_id (actor s))) v) s.
Proof.
  intros Hk He Hr Hd Hv. unfold dpu_handle_message.
  rewrite decide_False by (intros ->; by vm_compute in Hk).
  assert (starts_with k (table_name RemoteDpu) = false) as ->.
  { apply starts_with_inv in Hk as [i ->]. done. }
  rewrite bind_get, Hd, Hk. unfold handle_dpu_state_registration, incoming_get_entry. rewrite bind_bind, bind_get, He, bind_ret.
  unfold deserialize_data. rewrite Hr. cbn [of_result]. rewrite bind_ret. cbn [reg_active when].
  exact (update_dpu_state_run now (Some (inc_source e)) s dpu ip ip6 v Hd Hv).
Qed.

(** C18: a managed DPU whose pmon or BFD state changed tells exactly the actors
    that registered with it, each with the same message: its merged state,
    which is up only when all three pmon planes are up and some BFD session
    is. Nothing else changes. *)
Theorem dpu_state_published now k s dpu ip ip6 v :
  k = table_name DpuState ∨ k = table_name DashBfdProbeState →
  dpu_data (actor s) = Some (LocalDpu dpu true ip ip6) →
  to_value (reported_state now (dpu_actor_id (actor s)) dpu ip ip6 s) = Ok v →
  ∃ q s', dpu_handle_message env now k s = Done (Ok tt, s') ∧ only_queued q s s' ∧
    Forall2 (queued_for now (client_source (swbus_client s)) (mkActorMsg (dpu_msg_key (dpu_actor_id (actor s))) v))
      (get_registered_actors RegDPUState s) q ∧
    ∀ sp, (∃ u, u ∈ q ∧ queued_for now (client_source (swbus_client s))
             (mkActorMsg (dpu_msg_key (dpu_actor_id (actor s))) v) sp u) ↔
      ∃ rk e, incoming_table s !! rk = Some e ∧ starts_with rk (reg_prefix RegDPUState) = true ∧
        from_value (msg_data (inc_msg e)) = Ok (mkRegistration true) ∧ inc_source e = sp.
Proof.
  intros Hk Hd Hv. destruct (dpu_state_run now k s dpu ip ip6 v Hk Hd Hv) as (q & s' & Hrun & Hq & Hall).
  exists q, s'. split; [done|].
  split; [done|]. split; [done|]. intros sp. rewrite <- registered_spec. split.
  + intros (u & Hu & _ & _ & _ & h & Hh & _ & Hdst).
    apply list_elem_of_lookup_1 in Hu as [i Hi].
    destruct (Forall2_lookup_r _ _ _ _ _ Hall Hi) as (sp' & Hsp & _ & _ & _ & h' & Hh' & _ & Hdst').
    rewrite Hh in Hh'. injection Hh' as <-. rewrite Hdst in Hdst'. injection Hdst' as <-.
    by apply list_elem_of_lookup_2 in Hsp.
  + intros [i Hi]%list_elem_of_lookup_1.
    destruct (Forall2_lookup_l _ _ _ _ _ Hall Hi) as (u & Hu & Hqu). exists u.
    split; [by apply list_elem_of_lookup_2 in Hu|done].
Qed.

Lemma calculate_vdpu_run (v : ActorSt V Db VDpuActor) i ds :
  vdpu_cfg (actor v) = Some (mkVDpu (i :: ds)) →
  calculate_vdpu_state v = Done (Ok ((λ dpu, mkVDpuActorState (das_up dpu) dpu) <$> typed_of DpuActorState (dpu_msg_key i) v), v).
Proof.
  intros Hcfg. unfold calculate_vdpu_state, typed_of. rewrite bind_get, Hcfg. cbn [unwrap]. rewrite bind_ret. cbn [main_dpu_ids].
  rewrite (bind_done _ _ _ _ _ (try_incoming_run _ _)).
  destruct (incoming_table v !! dpu_msg_key i) as [e|]; cbn [fmap option_fmap option_map]; [|done].
  rewrite (bind_done _ _ _ _ _ (try_deserialize_run _ _)). by destruct (from_value _).
Qed.

(** A configured vDPU that receives the state of a DPU forwards the state
    of its first DPU, with its own [up] equal to the DPU's, to exactly the
    actors registered with it; while that state is not known it sends nothing. *)
Theorem vdpu_state_forwarded now k s d0 ds :
  dpu_is_my_msg k = true → vdpu_cfg (actor s) = Some (mkVDpu (d0 :: ds)) →
  match typed_of DpuActorState (dpu_msg_key d0) s with
  | None => vdpu_handle_message (V:=V) (Db:=Db) now k s = Done (Ok tt, s)
  | Some dpu => ∀ v, to_value (mkVDpuActorState (das_up dpu) dpu) = Ok v →
      ∃ q s', vdpu_handle_message now k s = Done (Ok tt, s') ∧ only_queued q s s' ∧
        Forall2 (queued_for now (client_source (swbus_client s)) (mkActorMsg (vdpu_msg_key (vdpu_actor_id (actor s))) v))
          (get_registered_actors RegVDPUState s) q
  end.
Proof.
  intros Hk Hcfg.
  assert (vdpu_handle_message now k s = vdpu_handle_dpu_state_update now s) as ->.
  { unfold vdpu_handle_message. rewrite decide_False; [|intros ->; by vm_compute in Hk].
    rewrite bind_get, Hcfg. by rewrite Hk. }
  unfold vdpu_handle_dpu_state_update. rewrite (bind_done _ _ _ _ _ (calculate_vdpu_run s d0 ds Hcfg)).
  destruct (typed_of _ _ s) as [dpu|]; cbn [fmap option_fmap option_map]; [|done].
  intros v Hv. set (msg := mkActorMsg (vdpu_msg_key (vdpu_actor_id (actor s))) v).
  destruct (send_all_step now msg (get_registered_actors RegVDPUState s) s) as (q & s' & Hrun & Hq & Hall).
  exists q, s'. split; [|done]. rewrite bind_get. unfold vdpu_to_actor_msg.
  rewrite (bind_done _ _ _ _ _ (actor_msg_run _ _ _ _ Hv)), bind_get. exact Hrun.
Qed.

(** A vDPU's configuration message stores the row and registers the vDPU
    with each of its DPUs; deleting the configuration unregisters it from the
    DPUs it has and stops the actor. *)
Theorem vdpu_lifecycle now (s : ActorSt V Db VDpuActor) e kfv row v :
  let set := bool_decide (kfv_operation kfv = KopSet) in
  let cfg := if set then Some row else vdpu_cfg (actor s) in
  incoming_table s !! table_name VDpu = Some e → from_value (msg_data (inc_msg e)) = Ok kfv →
  (set = true → from_field_values now (kfv_field_values kfv) = Ok row) →
  to_value (mkRegistration set) = Ok v →
  ∃ q s', vdpu_handle_message now (table_name VDpu) s = Done (Ok tt, s') ∧
    queued_messages s' = queued_messages s ++ q ∧
    Forall2 (λ i, queued_for now (client_source (swbus_client s))
        (mkActorMsg (reg_msg_key RegDPUState (vdpu_actor_id (actor s))) v) (from_my_sp "dpu" i s))
      (match cfg with Some c => main_dpu_ids c | None => [] end) q ∧
    vdpu_cfg (actor s') = cfg ∧ stopped s' = (stopped s || negb set).
Proof.
  intros set cfg He Hkfv Hrow Hv.
  set (msg := mkActorMsg (reg_msg_key RegDPUState (vdpu_actor_id (actor s))) v).
  assert (∀ s1 : ActorSt V Db VDpuActor, actor s1 = mkVDpuActor (vdpu_actor_id (actor s)) cfg → incoming_table s1 = incoming_table s →
    ∃ q s', vdpu_register_to_dpu_actor now set s1 = Done (Ok tt, s') ∧ only_queued q s1 s' ∧
      Forall2 (λ i, queued_for now (client_source (swbus_client s1)) msg (from_my_sp "dpu" i s1))
        (match cfg with Some c => main_dpu_ids c | None => [] end) q) as Hreg.
  { intros s1 Ha _. unfold vdpu_register_to_dpu_actor. rewrite bind_get, Ha. cbn [vdpu_cfg].
    destruct cfg as [c|]; [|exists [], s1; split_and!; [done|apply only_queued_refl|constructor]].
    destruct (send_ids_step now "dpu" msg (main_dpu_ids c) s1) as (q & s' & Hrun & Hq & Hall). exists q, s'.
    split; [|done]. cbn [vdpu_actor_id]. unfold reg_new_actor_msg.
    by rewrite (bind_done _ _ _ _ _ (actor_msg_run _ _ _ _ Hv)). }
  unfold vdpu_handle_message. rewrite decide_True by done. unfold vdpu_handle_message_of_table.
  assert (incoming_get (table_name VDpu) s = Done (Ok (inc_msg e), s)) as Hget
    by (unfold incoming_get, incoming_get_entry, bind, get_state; by rewrite He).
  assert (deserialize_data (T:=KeyOpFieldValues) (inc_msg e) s = Done (Ok kfv, s)) as Hdes
    by (unfold deserialize_data; by rewrite Hkfv).
  rewrite (bind_done _ _ _ _ _ Hget), (bind_done _ _ _ _ _ Hdes).
  unfold set in *. clear set. destruct (kfv_operation kfv).
  - rewrite decide_False by done. cbn in Hrow. rewrite Hrow by done. cbn [of_result]. rewrite bind_ret, bind_modify.
    destruct (Hreg (set_actor (mkVDpuActor (vdpu_actor_id (actor s)) (Some row)) s) eq_refl eq_refl)
      as (q & s' & Hrun & Hq & Hall).
    exists q, s'. split; [exact Hrun|]. split; [exact (oq_queued _ _ _ Hq)|]. split; [exact Hall|].
    rewrite (oq_actor _ _ _ Hq), (oq_stopped _ _ _ Hq). cbn. by rewrite orb_false_r.
  - rewrite decide_True by done.
    destruct (Hreg s) as (q & s' & Hrun & Hq & Hall); [by destruct (actor s)|done|].
    exists q, (context_stop s'). split; [by rewrite (bind_done _ _ _ _ _ Hrun)|].
    split; [exact (oq_queued _ _ _ Hq)|]. split; [exact Hall|].
    cbn. rewrite (oq_actor _ _ _ Hq). by rewrite orb_true_r.
Qed.

End DpuProps.

(** * HA set *)

Section HaSetProps.
Context {V Db : Type} `{Wire V} `{!SwssTable Db} `{!HaCodec V} `{!HaFvCodec} (env : HaEnv).
Implicit Types (s : ActorSt V Db HaSetActor).

Lemma map_m_run {S E B C} (f : B → M S E C) (g : B → C) (l : list B) (st : S) :
  (∀ x, f x st = Done (Ok (g x), st)) → map_m f l st = Done (Ok (g <$> l), st).
Proof.
  intros Hf. induction l as [|x l IH]; [done|]. cbn [map_m].
  by rewrite (bind_done _ _ _ _ _ (Hf x)), (bind_done _ _ _ _ _ IH).
Qed.

(** The vDPUs of a set in the order the code lists them: the preferred ones,
    then the others. *)
Definition ext_of (primary : bool) s (i : string) : option VDpuStateExt :=
  (λ v, mkVDpuExt v primary) <$> typed_of VDpuActorState (vdpu_msg_key i) s.
Definition preferred_ids (cfg : DashHaSetConfigTable) : list string :=
  List.filter (λ x, negb (is_empty x)) (default [] (hsc_preferred_vdpu_ids cfg)).
Definition backup_ids (cfg : DashHaSetConfigTable) : list string :=
  List.filter (λ x, negb (is_empty x) && negb (bool_decide (x ∈ preferred_ids cfg))) (hsc_vdpu_ids cfg).
Definition ready_vdpus (cfg : DashHaSetConfigTable) s : option (list VDpuStateExt) :=
  mapM (λ v, v) ((ext_of true s <$> preferred_ids cfg) ++ (ext_of false s <$> backup_ids cfg)).

Lemma haset_get_vdpu_run i s :
  haset_get_vdpu i s = Done (Ok (typed_of VDpuActorState (vdpu_msg_key i) s), s).
Proof.
  unfold haset_get_vdpu, typed_of. rewrite (bind_done _ _ _ _ _ (try_incoming_run _ _)).
  destruct (incoming_table s !! vdpu_msg_key i) as [e|]; cbn [fmap option_fmap option_map]; [|done].
  apply try_deserialize_run.
Qed.

Lemma ready_run cfg s :
  dash_ha_set_config (actor s) = Some cfg → get_vdpus_if_ready s = Done (Ok (ready_vdpus cfg s), s).
Proof.
  intros Hcfg. unfold get_vdpus_if_ready. erewrite bind_done; [reflexivity|].
  unfold get_vdpus. rewrite bind_get, Hcfg.
  assert (∀ p i, (let* v := haset_get_vdpu i in ret ((λ v, mkVDpuExt v p) <$> v)) s = Done (Ok (E:=string) (ext_of p s i), s)) as Hext.
  { intros p i. by rewrite (bind_done _ _ _ _ _ (haset_get_vdpu_run i s)). }
  rewrite (bind_done _ _ _ _ _ (map_m_run _ _ _ _ (Hext true))).
  by rewrite (bind_done _ _ _ _ _ (map_m_run _ _ _ _ (Hext false))).
Qed.

(** The HA-set row for a local and a remote vDPU. *)
Definition ha_set_row (cfg : DashHaSetConfigTable) (g : DashHaGlobalConfig) (l r : VDpuStateExt) : DashHaSetTable :=
  mkHaSet (hsc_version cfg) (hsc_vip_v4 cfg) (hsc_vip_v6 cfg) (hsc_owner cfg) (hsc_scope cfg)
    (das_npu_ipv4 (vds_dpu (ext_vdpu l))) (das_pa_ipv4 (vds_dpu (ext_vdpu l))) (das_pa_ipv4 (vds_dpu (ext_vdpu r)))
    (gc_cp_data_channel_port g) (gc_dp_channel_dst_port g) (gc_dp_channel_src_port_min g)
    (gc_dp_channel_src_port_max g) (gc_dp_channel_probe_interval_ms g) (gc_dp_channel_probe_fail_threshold g).
(** Of the first two vDPUs, the first managed here is the local one. *)
Definition local_remote (v0 v1 : VDpuStateExt) : VDpuStateExt * VDpuStateExt :=
  if ext_managed v0 then (v0, v1) else (v1, v0).

Lemma prepare_run now s cfg g v0 v1 rest :
  dash_ha_set_config (actor s) = Some cfg → ext_managed v0 || ext_managed v1 = true →
  row_of now (table_name DashHaGlobalConfig) s = Some g →
  prepare_dash_ha_set_table_data now (v0 :: v1 :: rest) s =
    Done (Ok (Some (ha_set_row cfg g (local_remote v0 v1).1 (local_remote v0 v1).2)), s).
Proof.
  intros Hcfg Hm Hg. unfold prepare_dash_ha_set_table_data. rewrite bind_get, Hcfg.
  assert (existsb ext_managed (v0 :: v1 :: rest) = true) as -> by (cbn; rewrite orb_assoc, Hm; done).
  cbn [negb]. unfold vdpu_at. cbn [lookup list_lookup unwrap]. rewrite !bind_ret.
  assert (haset_get_global_config now s = Done (Ok (Some g), s)) as Hgl
    by (unfold haset_get_global_config; rewrite try_row_run; by rewrite Hg).
  unfold local_remote. destruct (ext_managed v0); cbn [orb] in Hm; [|rewrite Hm];
    by rewrite (bind_done _ _ _ _ _ Hgl).
Qed.

Definition vnet_route (g : DashHaGlobalConfig) (vdpus : list VDpuStateExt) : VnetRouteTunnelTable :=
  mkVnetRoute (route_endpoint <$> vdpus) (Some ((λ v, das_pa_ipv4 (vds_dpu (ext_vdpu v))) <$> vdpus)) None
    (Some ((λ v, bool_to_string (ext_is_primary v)) <$> vdpus))
    (gc_dpu_bfd_probe_interval_in_ms g) (gc_dpu_bfd_probe_interval_in_ms g) (Some (existsb ext_managed vdpus)).

Lemma set_table_run now s cfg g v0 v1 rest fv kv hv :
  let row := ha_set_row cfg g (local_remote v0 v1).1 (local_remote v0 v1).2 in
  let i := haset_id (actor s) in
  dash_ha_set_config (actor s) = Some cfg → ext_managed v0 || ext_managed v1 = true →
  row_of now (table_name DashHaGlobalConfig) s = Some g →
  to_field_values row = Ok fv → to_value (mkKfv i KopSet fv) = Ok kv →
  to_value (mkHaSetActorState true row) = Ok hv →
  ∃ u q s', update_dash_ha_set_table now (v0 :: v1 :: rest) s = Done (Ok tt, s') ∧ only_queued (u :: q) s s' ∧
    queued_for now (client_source (swbus_client s)) (mkActorMsg i kv)
      (from_my_sp "swss-common-bridge" "DPU_APPL_DB|DASH_HA_SET_TABLE" s) u ∧
    Forall2 (queued_for now (client_source (swbus_client s)) (mkActorMsg (haset_msg_key i) hv))
      (get_registered_actors RegHaSetState s) q.
Proof.
  intros row i Hcfg Hm Hg Hfv Hkv Hhv.
  set (sp := from_my_sp "swss-common-bridge" "DPU_APPL_DB|DASH_HA_SET_TABLE" s).
  destruct (send_step now sp (mkActorMsg i kv) s) as (u & s1 & Hrun1 & Hq1 & Hu).
  destruct (send_all_step now (mkActorMsg (haset_msg_key i) hv) (get_registered_actors RegHaSetState s) s1)
    as (q & s2 & Hrun2 & Hq2 & Hall).
  exists u, q, s2. split.
  - unfold update_dash_ha_set_table.
    rewrite (bind_done _ _ _ _ _ (prepare_run now s cfg g v0 v1 rest Hcfg Hm Hg)).
    fold row. rewrite bind_get, Hfv. cbn [of_result]. rewrite bind_ret.
    rewrite (bind_done _ _ _ _ _ (actor_msg_run i _ _ _ Hkv)).
    change (outgoing_common_bridge_sp _ _ s) with sp. rewrite (bind_done _ _ _ _ _ Hrun1).
    rewrite (bind_done _ _ _ (mkActorMsg (haset_msg_key i) hv) s1).
    2: { unfold unwrap_result, bind, attempt, haset_new_actor_msg. by rewrite (actor_msg_run _ _ _ _ Hhv). }
    rewrite bind_get, (registered_incoming _ _ _ (oq_incoming _ _ _ Hq1)). exact Hrun2.
  - split; [exact (only_queued_trans [u] q _ _ _ Hq1 Hq2)|]. split; [done|].
    by rewrite <- (oq_source _ _ _ Hq1).
Qed.

Lemma vnet_route_run now s cfg g vn vdpus rf hyd :
  let vkey := vn +:+ ":" +:+ hsc_vip_v4 cfg in
  dash_ha_set_config (actor s) = Some cfg → row_of now (table_name DashHaGlobalConfig) s = Some g →
  gc_vnet_name g = Some vn → to_field_values (vnet_route g vdpus) = Ok rf →
  env_open env "APPL_DB" "VNET_ROUTE_TUNNEL_TABLE" false = Ok tt →
  table_get (databases s) "VNET_ROUTE_TUNNEL_TABLE" vkey = Ok hyd →
  ∃ e, update_vnet_route_tunnel_table env now vdpus s =
      Done (Ok tt, set_internal (<["VNET_ROUTE_TUNNEL_TABLE" := e]> (internal_table s)) s) ∧
    swss_key e = vkey ∧ fvs e = rf ∧ mutated e = true.
Proof.
  intros vkey Hcfg Hg Hvn Hrf Hopen Hget. unfold update_vnet_route_tunnel_table.
  assert (haset_get_global_config now s = Done (Ok (Some g), s)) as Hgl
    by (unfold haset_get_global_config; rewrite try_row_run; by rewrite Hg).
  rewrite (bind_done _ _ _ _ _ Hgl), Hvn, bind_ret, bind_get, Hcfg. cbn [unwrap]. rewrite bind_ret. cbn zeta.
  destruct (@ensure_entry_run _ _ _ _ env VnetRouteTunnelTable vnet_route_table vkey s hyd Hopen Hget) as (e0 & He0 & Hadd).
  exists (fvs_mut (λ _, rf) e0). split; [|by split_and!].
  etrans; [apply (bind_done _ _ _ _ _ Hadd)|]. fold (vnet_route g vdpus). rewrite Hrf.
  cbn [of_result]. rewrite bind_ret. unfold internal_get_mut. rewrite bind_get. cbn [internal_table set_internal].
  rewrite lookup_insert_eq. cbn [unwrap]. rewrite bind_ret. unfold put_state, set_internal. cbn.
  by rewrite insert_insert_eq.
Qed.

(** C14: an HA set that knows the state of all its vDPUs, one of the first two
    managed here, and the global configuration, programs the DPU on every
    vDPU update and configuration change: it queues one update of its
    DASH_HA_SET_TABLE row (the managed vDPU as local, the other as peer), tells
    the registered actors, and leaves the VNET route of all its vDPUs in its
    internal table under the key vnet:vip - hydrating the entry first if it is
    not there. *)
Theorem ha_set_programmed now k s cfg g vn v0 v1 rest fv kv hv rf hyd :
  let row := ha_set_row cfg g (local_remote v0 v1).1 (local_remote v0 v1).2 in
  let i := haset_id (actor s) in
  let vkey := vn +:+ ":" +:+ hsc_vip_v4 cfg in
  vdpu_is_my_msg k = true ∨ k = table_name DashHaGlobalConfig →
  dash_ha_set_config (actor s) = Some cfg → ready_vdpus cfg s = Some (v0 :: v1 :: rest) →
  ext_managed v0 || ext_managed v1 = true →
  row_of now (table_name DashHaGlobalConfig) s = Some g → gc_vnet_name g = Some vn →
  to_field_values row = Ok fv → to_value (mkKfv i KopSet fv) = Ok kv →
  to_value (mkHaSetActorState true row) = Ok hv → to_field_values (vnet_route g (v0 :: v1 :: rest)) = Ok rf →
  env_open env "APPL_DB" "VNET_ROUTE_TUNNEL_TABLE" false = Ok tt →
  table_get (databases s) "VNET_ROUTE_TUNNEL_TABLE" vkey = Ok hyd →
  ∃ u q e s', haset_handle_message env now k s = Done (Ok tt, s') ∧
    queued_messages s' = queued_messages s ++ u :: q ∧
    queued_for now (client_source (swbus_client s)) (mkActorMsg i kv)
      (from_my_sp "swss-common-bridge" "DPU_APPL_DB|DASH_HA_SET_TABLE" s) u ∧
    Forall2 (queued_for now (client_source (swbus_client s)) (mkActorMsg (haset_msg_key i) hv))
      (get_registered_actors RegHaSetState s) q ∧
    internal_table s' = <["VNET_ROUTE_TUNNEL_TABLE" := e]> (internal_table s) ∧
    swss_key e = vkey ∧ fvs e = rf ∧ mutated e = true.
Proof.
  intros row i vkey Hk Hcfg Hready Hm Hg Hvn Hfv Hkv Hhv Hrf Hopen Hget.
  destruct (set_table_run now s cfg g v0 v1 rest fv kv hv Hcfg Hm Hg Hfv Hkv Hhv) as (u & q & s1 & Hrun & Hq & Hu & Hall).
  destruct (vnet_route_run now s1 cfg g vn (v0 :: v1 :: rest) rf hyd) as (e & Hroute & He);
    [by rewrite (oq_actor _ _ _ Hq)|by rewrite (row_of_incoming _ _ _ _ (oq_incoming _ _ _ Hq))|done..|
     by rewrite (oq_databases _ _ _ Hq)|].
  exists u, q, e, (set_internal (<["VNET_ROUTE_TUNNEL_TABLE" := e]> (internal_table s1)) s1). split.
  - assert (haset_handle_message env now k s = haset_update_tables env now s) as ->.
    { unfold haset_handle_message. rewrite decide_False by (destruct Hk as [Hk| ->]; [intros ->; by vm_compute in Hk|done]).
      rewrite bind_get, Hcfg. destruct Hk as [-> | ->]; [done|]. by rewrite decide_True. }
    unfold haset_update_tables. rewrite (bind_done _ _ _ _ _ (ready_run cfg s Hcfg)), Hready.
    by rewrite (bind_done _ _ _ _ _ Hrun).
  - cbn. rewrite (oq_internal _ _ _ Hq), (oq_queued _ _ _ Hq). done.
Qed.

(** An HA set with a single, managed vDPU panics on every vDPU update once
    the state of that vDPU is known. *)
Theorem ha_set_single_vdpu_panics now k s cfg v :
  vdpu_is_my_msg k = true → dash_ha_set_config (actor s) = Some cfg →
  ready_vdpus cfg s = Some [v] → ext_managed v = true →
  haset_handle_message env now k s = Panicked "index out of bounds".
Proof.
  intros Hk Hcfg Hready Hm. unfold haset_handle_message.
  rewrite decide_False by (intros ->; by vm_compute in Hk). rewrite bind_get, Hcfg, Hk.
  unfold haset_handle_vdpu_state_update, haset_update_tables.
  rewrite (bind_done _ _ _ _ _ (ready_run cfg s Hcfg)), Hready.
  unfold update_dash_ha_set_table, prepare_dash_ha_set_table_data. rewrite bind_bind, bind_bind, bind_get, Hcfg.
  cbn [existsb]. by rewrite Hm.
Qed.

End HaSetProps.
