(* ===== verification/HaScopeProps.v ===== *)
(** The HA scope's promises - approval and bookkeeping of the pending
    operations - and the safety of all four actors of hamgrd: what their
    handlers can change, and that they return. *)
From S2P Require Import Prelude RustStr Path Proto Edge EdgeTheory Actor ActorTheory Bridge HaTypes VDpuActor DpuActor HaSetActor HaScopeActor HaTheory HaProps.

Open Scope stdpp_scope.

(** * No panic *)

Section NoPanic.
Context {V Db : Type} `{Wire V} `{!SwssTable Db} `{!HaCodec V} `{!HaFvCodec} (env : HaEnv).

(** The steps every handler uses return from any state and keep the internal
    table, the databases and the actor, on which [P] is any condition. *)
Section Steps.
Context {A : Type} (P : ActorSt V Db A → Prop)
  (P_internal : ∀ s s', internal_table s' = internal_table s → databases s' = databases s →
    actor s' = actor s → P s → P s').

Lemma runs_incoming_get_entry k : runs_in P (incoming_get_entry k).
Proof. unfold incoming_get_entry. runs. Qed.
Lemma runs_incoming_get k : runs_in P (incoming_get k).
Proof. unfold incoming_get, incoming_get_entry. runs. Qed.
Lemma runs_deserialize {T} `{Codec V T} (m : ActorMessage V) : runs_in P (deserialize_data (T:=T) m).
Proof. unfold deserialize_data. runs. Qed.
Lemma runs_actor_msg {T} `{Codec V T} k (t : T) : runs_in P (actor_msg_new k t).
Proof. unfold actor_msg_new. runs. Qed.
Lemma runs_send now sp msg : runs_in P (outgoing_send now sp msg).
Proof. intros s Hs. rewrite outgoing_send_run. eexists _, _. split; [done|]. by apply (P_internal s). Qed.
Lemma runs_try_ok {E E' B} (m : M (ActorSt V Db A) E B) : runs_in P m → runs_in P (try_ok (E':=E') m).
Proof. intros Hm. unfold try_ok. runs. Qed.
Lemma runs_incoming_row {T} `{FvCodec T} now k : runs_in P (incoming_row (T:=T) now k).
Proof. unfold incoming_row, incoming_get, incoming_get_entry, deserialize_data. runs. Qed.
Lemma runs_reg_msg b t i : runs_in P (reg_new_actor_msg b t i).
Proof. unfold reg_new_actor_msg, actor_msg_new. runs. Qed.
Lemma runs_spawn T `{SonicDbTable T} n i b f : runs_in P (spawn_consumer_bridge T env n i b f).
Proof. unfold spawn_consumer_bridge. runs. Qed.
Lemma runs_stop : runs_in P (modify (E:=string) context_stop).
Proof. apply runs_modify. intros s. by apply (P_internal s). Qed.
End Steps.

Hint Resolve runs_incoming_get_entry runs_incoming_get runs_deserialize runs_actor_msg runs_send runs_try_ok
  runs_incoming_row runs_reg_msg runs_spawn runs_stop : runs.

Lemma runs_any_actor {A} (f : ActorSt V Db A → A) :
  runs_in (λ _, True) (modify (E:=string) (λ s, set_actor (f s) s)).
Proof. by apply runs_modify. Qed.
Hint Resolve runs_any_actor : runs.

(** ** vDPU *)

Lemma runs_calculate_vdpu :
  runs_in (λ s, is_Some (vdpu_cfg (actor s))) (calculate_vdpu_state (V:=V) (Db:=Db)).
Proof.
  intros s [cfg Hcfg]. unfold calculate_vdpu_state. rewrite bind_get, Hcfg. cbn [unwrap]. rewrite bind_ret.
  assert (runs_in (λ s, is_Some (vdpu_cfg (actor s))) (match main_dpu_ids cfg with
    | [] => ret None
    | dpu_id :: _ => let* msg := try_ok (incoming_get (V:=V) (Db:=Db) (A:=VDpuActor) (dpu_msg_key dpu_id)) in
        match msg with
        | None => ret None
        | Some m => let* d := try_ok (deserialize_data (T:=DpuActorState) m) in
            ret (E:=string) (match d with Some dpu => Some (mkVDpuActorState (das_up dpu) dpu) | None => None end)
        end
    end)) as Hrest; [runs|].
  apply Hrest. by exists cfg.
Qed.
Hint Resolve runs_calculate_vdpu : runs.

Lemma vdpu_runs now k : runs_in (λ _, True) (vdpu_handle_message (V:=V) (Db:=Db) now k).
Proof.
  assert (∀ P : ActorSt V Db VDpuActor → Prop, (∀ s s', internal_table s' = internal_table s → databases s' = databases s →
    actor s' = actor s → P s → P s') → ∀ b, runs_in P (vdpu_register_to_dpu_actor now b)) as Hreg
    by (intros; unfold vdpu_register_to_dpu_actor; runs).
  assert (runs_in (λ _, True) (vdpu_handle_message_of_table (V:=V) (Db:=Db) now k)) as Htab
    by (unfold vdpu_handle_message_of_table; runs).
  unfold vdpu_handle_message. destruct (decide (k = table_name VDpu)); [exact Htab|].
  intros s _. rewrite bind_get. destruct (vdpu_cfg (actor s)) as [cfg|] eqn:Hcfg; [|by eexists _, _].
  assert (runs_in (λ s, is_Some (vdpu_cfg (actor s))) (if dpu_is_my_msg k then vdpu_handle_dpu_state_update (V:=V) (Db:=Db) now
    else if reg_is_my_msg k RegVDPUState then vdpu_handle_state_registration now k else ret tt)) as Hrest.
  { unfold vdpu_handle_dpu_state_update, vdpu_handle_state_registration, vdpu_to_actor_msg. 
    assert (∀ now sp msg, runs_in (λ s : ActorSt V Db VDpuActor, is_Some (vdpu_cfg (actor s))) (outgoing_send now sp msg)).
    { intros. apply runs_send. by intros s1 s2 _ _ ->. }
    runs. }
  destruct (Hrest s) as (r & s' & Hrun & _); [by exists cfg|]. by exists r, s'.
Qed.

(** ** DPU *)

Lemma dpu_runs now k : runs_in (λ _, True) (dpu_handle_message (V:=V) (Db:=Db) env now k).
Proof.
  assert (∀ d, runs_in (λ _, True) (modify (E:=string) (set_dpu_data (V:=V) (Db:=Db) d))) as Hset
    by (intros; by apply runs_modify).
  assert (∀ b, runs_in (λ _, True) (modify (E:=string) (push_dpu_bridge (V:=V) (Db:=Db) b))) as Hpush
    by (intros; by apply runs_modify).
  assert (∀ t, runs_in (λ _, True) (update_dpu_state (V:=V) (Db:=Db) now t)) as Hup
    by (intros; unfold update_dpu_state, calculate_dpu_state, get_dpu_state, get_bfd_probe_state, dpu_new_actor_msg; runs).
  assert (∀ ip g, runs_in (λ _, True) (update_bfd_session (V:=V) (Db:=Db) now ip g)) as Hbfd
    by (intros; unfold update_bfd_session; runs).
  unfold dpu_handle_message, handle_dpu_message, handle_remote_dpu_message,
    handle_remote_dpu_message_to_remote_dpu, handle_remote_dpu_message_to_local_dpu,
    handle_dpu_state_registration, dpu_handle_dash_ha_global_config, update_bfd_sessions,
    get_dash_ha_global_config. runs.
Qed.

(** ** HA scope *)

(** The scope's entry of the NPU state table is open, and reading the tables
    does not fail. *)
Definition scope_opened (s : ActorSt V Db HaScopeActor) : Prop :=
  is_Some (internal_table s !! table_name NpuDashHaScopeState) ∧
  ∀ n k, ∃ v, table_get (databases s) n k = Ok v.

Lemma scope_opened_same s s' :
  internal_table s' = internal_table s → databases s' = databases s → actor s' = actor s →
  scope_opened s → scope_opened s'.
Proof. unfold scope_opened. by intros -> -> _. Qed.
Lemma runs_scope_actor (f : ActorSt V Db HaScopeActor → HaScopeActor) :
  runs_in scope_opened (modify (E:=string) (λ s, set_actor (f s) s)).
Proof. by apply runs_modify. Qed.

Lemma runs_npu_get : runs_in scope_opened (internal_get (table_name NpuDashHaScopeState)).
Proof.
  intros s [[e He] Hs]. unfold internal_get. rewrite bind_get, He. eexists _, _. split; [done|]. split; [by exists e|done].
Qed.
Lemma runs_npu_write f : runs_in scope_opened (internal_get_mut (table_name NpuDashHaScopeState) f).
Proof.
  intros s [[e He] Hs]. unfold internal_get_mut. rewrite bind_get, He. cbn [unwrap]. rewrite bind_ret.
  eexists _, _. split; [done|]. split; [|done]. eexists. apply lookup_insert_eq.
Qed.
Lemma runs_npu_add sk : runs_in scope_opened
  (internal_add (table_name NpuDashHaScopeState) (table_name NpuDashHaScopeState) sk).
Proof.
  intros s [_ Hs]. unfold internal_add. rewrite bind_get. unfold unwrap_result, of_result.
  destruct (Hs (table_name NpuDashHaScopeState) sk) as [v ->].
  eexists _, _. split; [reflexivity|]. split; [|done]. eexists. apply lookup_insert_eq.
Qed.
Hint Resolve runs_npu_get runs_npu_write runs_npu_add scope_opened_same : runs.

Lemma runs_push_bridge b : runs_in scope_opened (modify (E:=string) (push_scope_bridge b)).
Proof. unfold push_scope_bridge. apply runs_scope_actor. Qed.
Lemma runs_scope_get_vdpu : runs_in scope_opened scope_get_vdpu.
Proof. unfold scope_get_vdpu. runs. Qed.
Lemma runs_scope_get_haset : runs_in scope_opened scope_get_haset.
Proof. unfold scope_get_haset. runs. Qed.
Lemma runs_get_npu now : runs_in scope_opened (get_npu_ha_scope_state now).
Proof. unfold get_npu_ha_scope_state. runs. Qed.
Lemma runs_write_npu st : runs_in scope_opened (write_npu_state st).
Proof. unfold write_npu_state. runs. Qed.
Lemma runs_pending now g : runs_in scope_opened (get_pending_operations now g).
Proof. unfold get_pending_operations. runs. Qed.
Hint Resolve runs_push_bridge runs_scope_get_vdpu runs_scope_get_haset runs_get_npu runs_write_npu runs_pending : runs.

Lemma runs_scope_table now : runs_in scope_opened (update_dpu_ha_scope_table now).
Proof. unfold update_dpu_ha_scope_table. runs. Qed.
Lemma runs_npu_base now : runs_in scope_opened (update_npu_ha_scope_state_base now).
Proof. unfold update_npu_ha_scope_state_base. runs. Qed.
Hint Resolve runs_scope_table runs_npu_base : runs.

Lemma hascope_runs uuid now k : runs_in scope_opened (hascope_handle_message env uuid now k).
Proof.
  assert (∀ c, runs_in scope_opened (modify (E:=string) (set_scope_config c))) as Hcfg
    by (intros; unfold set_scope_config; apply runs_scope_actor).
  assert (∀ d, runs_in scope_opened (modify (E:=string) (set_dpu_scope_state d))) as Hst
    by (intros; unfold set_dpu_scope_state; apply runs_scope_actor).
  assert (∀ b t d, runs_in scope_opened (scope_register now b t d)) as Hreg by (intros; unfold scope_register; runs).
  unfold hascope_handle_message, handle_dash_ha_scope_config_table_message, scope_handle_vdpu_state_update,
    handle_haset_state_update, handle_dpu_ha_scope_state_update, vdpu_is_managed, scope_register_to_vdpu_actor,
    register_to_haset_actor, update_npu_ha_scope_state_pending_operations, update_npu_ha_scope_state_ha_state,
    get_dpu_ha_scope_state. runs.
Qed.

(** The rest of the vDPU handler, once the entry is open. *)
Lemma runs_vdpu_rest now (bs : list ConsumerBridge) i : runs_in scope_opened
  ((match bs with
    | [] => let* b := spawn_consumer_bridge DpuDashHaScopeState env "ha-scope" (Some i) true (λ _, Some true) in
            modify (push_scope_bridge b)
    | _ => ret tt
    end);;;
   update_dpu_ha_scope_table now;;;
   update_npu_ha_scope_state_base now).
Proof. runs. Qed.

End NoPanic.

(** * Pending operations *)

(** The type the last new operation with id [i] has. *)
Definition last_new (new_operations : list (string * string)) (i : string) : option string :=
  (list_to_map (reverse new_operations) : PendingOps) !! i.

Lemma lookup_revise new approved_ops (ops : PendingOps) i :
  revise_operations new approved_ops ops !! i =
    match last_new new i with
    | Some t => Some t
    | None => if decide (i ∈ approved_ops) then None else ops !! i
    end.
Proof.
  unfold revise_operations, last_new.
  assert (∀ m : PendingOps, foldl (λ m i, delete i m) m approved_ops !! i =
    if decide (i ∈ approved_ops) then None else m !! i) as Hdel.
  { induction approved_ops as [|x l IH]; intros m; cbn [foldl]; [done|]. rewrite IH.
    destruct (decide (i ∈ l)) as [Hi|Hi].
    - by rewrite decide_True by (by right).
    - destruct (decide (i = x)) as [->|Hne]; [by rewrite decide_True, lookup_delete_eq by left|].
      rewrite decide_False, lookup_delete_ne by (first [congruence|by intros [|]%elem_of_cons]). done. }
  rewrite <- Hdel. generalize (foldl (λ m i, delete i m) ops approved_ops). clear.
  induction new as [|[k t] new IH] using rev_ind; intros m; [done|].
  rewrite foldl_app, reverse_app. cbn. destruct (decide (i = k)) as [->|Hne].
  - by rewrite !lookup_insert_eq.
  - rewrite !lookup_insert_ne by congruence. apply IH.
Qed.

(** What the pending columns of a scope state say is read back as it was written. *)
Lemma operations_of_pending ops now st : operations_of (npu_pending ops now st) = Ok ops.
Proof.
  unfold operations_of, npu_pending. cbn [nss_pending_operation_ids nss_pending_operation_types].
  rewrite decide_True by (by rewrite !length_fmap). f_equal.
  rewrite zip_fst_snd. rewrite <- (list_to_map_to_list ops) at 2.
  apply list_to_map_proper; [|apply reverse_Permutation].
  rewrite reverse_Permutation. apply NoDup_fst_map_to_list.
Qed.

Section ScopeProps.
Context {V Db : Type} `{Wire V} `{!SwssTable Db} `{!HaCodec V} `{!HaFvCodec}.
Implicit Types (s : ActorSt V Db HaScopeActor).
Abbreviation NPU := (table_name NpuDashHaScopeState).

(** The scope state and the pending operations the NPU entry holds. *)
Lemma npu_state_run now s cfg e st :
  dash_ha_scope_config (actor s) = Some cfg → internal_table s !! NPU = Some e →
  fvs e ≠ ∅ → from_field_values now (fvs e) = Ok st →
  get_npu_ha_scope_state now s = Done (Ok (Some st), s).
Proof.
  intros Hcfg He Hne Hst. unfold get_npu_ha_scope_state. rewrite bind_get, Hcfg.
  unfold internal_get, bind, get_state. rewrite He. cbn. by rewrite decide_False, Hst by done.
Qed.

Lemma write_npu_run st f e s :
  internal_table s !! NPU = Some e → to_field_values st = Ok f →
  write_npu_state st s = Done (Ok tt, set_internal (<[NPU := fvs_mut (λ _, f) e]> (internal_table s)) s).
Proof.
  intros He Hf. unfold write_npu_state. rewrite Hf. cbn [of_result]. rewrite bind_ret.
  unfold internal_get_mut. by rewrite bind_get, He.
Qed.

(** C29: revising the pending operations of a scope: the new ones are added, the
    approved ones removed unless they are new again, the others kept; the state
    written to the NPU table holds exactly the revised operations, and nothing
    is written when nothing changed. *)
Theorem scope_pending_operations now new approved_ops s cfg e st ops f :
  let ops' := revise_operations new approved_ops ops in
  dash_ha_scope_config (actor s) = Some cfg → internal_table s !! NPU = Some e →
  fvs e ≠ ∅ → from_field_values now (fvs e) = Ok st → operations_of st = Ok ops →
  to_field_values (npu_pending ops' now st) = Ok f →
  (∀ i t, ops' !! i = Some t ↔
     last_new new i = Some t ∨ last_new new i = None ∧ i ∉ approved_ops ∧ ops !! i = Some t) ∧
  operations_of (npu_pending ops' now st) = Ok ops' ∧
  update_npu_ha_scope_state_pending_operations now new approved_ops s =
    Done (Ok tt, if decide (ops = ops') then s
                 else set_internal (<[NPU := fvs_mut (λ _, f) e]> (internal_table s)) s).
Proof.
  intros ops' Hcfg He Hne Hst Hops Hf. split; [|split; [apply operations_of_pending|]].
  - intros i t. unfold ops'. rewrite lookup_revise. destruct (last_new new i), (decide (i ∈ approved_ops)) as [Hi|Hi];
      (split; [intros Hl|intros [Hl|(Hn & Ha & Hl)]]); first [by left|by right|done|congruence].
  - unfold update_npu_ha_scope_state_pending_operations.
    rewrite (bind_done _ _ _ _ _ (npu_state_run now s cfg e st Hcfg He Hne Hst)).
    unfold get_pending_operations. rewrite Hops. cbn [of_result]. rewrite bind_ret. fold ops'.
    destruct (decide (ops = ops')); [done|]. by apply write_npu_run.
Qed.

(** The pending operations the NPU entry holds, as [get_pending_operations] reads them. *)
Definition stored_operations (now : Z) (e : InternalTableEntry) : result PendingOps string :=
  if decide (fvs e = ∅) then Ok ∅
  else match from_field_values now (fvs e) with Ok st => operations_of st | Err x => Err x end.

Lemma pending_run now s e :
  internal_table s !! NPU = Some e →
  get_pending_operations now None s =
    match stored_operations now e with Ok ops => Done (Ok ops, s) | Err x => Done (Err x, s) end.
Proof.
  intros He. unfold get_pending_operations, internal_get, bind, get_state, stored_operations. rewrite He. cbn.
  destruct (decide (fvs e = ∅)); [done|]. by destruct (from_field_values now (fvs e)) as [st|];
    cbn; [destruct (operations_of st)|].
Qed.

Lemma approved_spec ty (ops : PendingOps) ids :
  approved ty ops ids = true ↔ ∃ i, i ∈ ids ∧ ops !! i = Some ty.
Proof.
  unfold approved. rewrite existsb_exists. split.
  - intros (i & Hi%list_elem_of_In & Hx%bool_decide_eq_true_1). by exists i.
  - intros (i & Hi%list_elem_of_In & Hx). exists i. split; [done|]. by apply bool_decide_eq_true_2.
Qed.

(** The pending operations an approval is looked up in: those of the NPU entry; without
    approved ids the entry is not read. *)
Definition approvable now s cfg (ops : PendingOps) : Prop :=
  default [] (hscc_approved_pending_operation_ids cfg) = [] ∨
  ∃ e, internal_table s !! NPU = Some e ∧ stored_operations now e = Ok ops.

Lemma scope_table_run now s cfg ops :
  let ids := default [] (hscc_approved_pending_operation_ids cfg) in
  let fr := bool_decide (Exists (λ i, ops !! i = Some "flow_reconcile") ids) in
  let ar := bool_decide (Exists (λ i, ops !! i = Some "activate_role") ids) in
  let row := mkHaScope (hscc_version cfg) (hscc_disable cfg) (hscc_desired_ha_state cfg) fr ar in
  dash_ha_scope_config (actor s) = Some cfg → approvable now s cfg ops →
  (∀ x, to_field_values row = Err x → update_dpu_ha_scope_table now s = Done (Err x, s)) ∧
  ∀ fv kv, to_field_values row = Ok fv → to_value (mkKfv (ha_scope_id (actor s)) KopSet fv) = Ok kv →
    ∃ u s', update_dpu_ha_scope_table now s = Done (Ok tt, s') ∧ only_queued [u] s s' ∧
      queued_for now (client_source (swbus_client s)) (mkActorMsg (ha_scope_id (actor s)) kv)
        (from_my_sp "swss-common-bridge" "DPU_APPL_DB|DASH_HA_SCOPE_TABLE" s) u.
Proof.
  intros ids fr ar row Hcfg Hops.
  assert (∀ ty, approved ty ops ids = bool_decide (Exists (λ i, ops !! i = Some ty) ids)) as Happ.
  { intros ty. apply eq_true_iff_eq. by rewrite approved_spec, bool_decide_eq_true, Exists_exists. }
  assert ((match hscc_approved_pending_operation_ids cfg with
    | Some ((_ :: _) as approved_ops) => let* pending := get_pending_operations now None in
        ret (approved "flow_reconcile" pending approved_ops, approved "activate_role" pending approved_ops)
    | _ => ret (false, false) end) s = Done (Ok (E:=string) (fr, ar), s)) as Hreq.
  { unfold fr, ar. rewrite <- !Happ. unfold ids. unfold approvable in Hops. revert Hops. destruct (hscc_approved_pending_operation_ids cfg) as [[|i l]|]; [done| |done].
    intros [Hno|(e & He & Hops)]; [discriminate Hno|].
    assert (get_pending_operations now None s = Done (Ok ops, s)) as Hp by (by rewrite (pending_run now s e He), Hops).
    by rewrite (bind_done _ _ _ _ _ Hp). }
  assert (∀ x, to_field_values row = x → update_dpu_ha_scope_table now s =
    (let* fv := of_result x in
     let* msg := actor_msg_new (ha_scope_id (actor s)) (mkKfv (ha_scope_id (actor s)) KopSet fv) in
     outgoing_send now (outgoing_common_bridge_sp (db_name DashHaScopeTable) (table_name DashHaScopeTable) s) msg) s) as Hrun.
  { intros x <-. unfold update_dpu_ha_scope_table. rewrite bind_get, Hcfg. by rewrite (bind_done _ _ _ _ _ Hreq). }
  split; [intros x Hx; by rewrite (Hrun _ Hx)|]. intros fv kv Hfv Hkv.
  destruct (send_step now (from_my_sp "swss-common-bridge" "DPU_APPL_DB|DASH_HA_SCOPE_TABLE" s)
    (mkActorMsg (ha_scope_id (actor s)) kv) s) as (u & s' & Hsend & Hq & Hu).
  exists u, s'. split; [|done]. rewrite (Hrun _ Hfv). cbn [of_result]. rewrite bind_ret.
  rewrite (bind_done _ _ _ _ _ (actor_msg_run _ _ _ _ Hkv)). exact Hsend.
Qed.

(** C15: programming the HA scope of a DPU sends one update of its
    DASH_HA_SCOPE_TABLE row: role and disable flag as configured, and a role
    activation (flow reconciliation) requested exactly when the configuration
    approves the id of a pending operation of that type - an approval of an
    unknown id requests nothing, and without approvals the pending operations
    are not even read. *)
Theorem scope_role_requests now s cfg ops :
  let ids := default [] (hscc_approved_pending_operation_ids cfg) in
  let fr := bool_decide (Exists (λ i, ops !! i = Some "flow_reconcile") ids) in
  let ar := bool_decide (Exists (λ i, ops !! i = Some "activate_role") ids) in
  let row := mkHaScope (hscc_version cfg) (hscc_disable cfg) (hscc_desired_ha_state cfg) fr ar in
  dash_ha_scope_config (actor s) = Some cfg → approvable now s cfg ops →
  (∀ x, to_field_values row = Err x → update_dpu_ha_scope_table now s = Done (Err x, s)) ∧
  ∀ fv kv, to_field_values row = Ok fv → to_value (mkKfv (ha_scope_id (actor s)) KopSet fv) = Ok kv →
    ∃ u s', update_dpu_ha_scope_table now s = Done (Ok tt, s') ∧ only_queued [u] s s' ∧
      queued_for now (client_source (swbus_client s)) (mkActorMsg (ha_scope_id (actor s)) kv)
        (from_my_sp "swss-common-bridge" "DPU_APPL_DB|DASH_HA_SCOPE_TABLE" s) u.
Proof. exact (scope_table_run now s cfg ops). Qed.

End ScopeProps.

(** * Safety of the actors *)

Section Safety.
Context {V Db : Type} `{Wire V} `{!SwssTable Db} `{!HaCodec V} `{!HaFvCodec} (env : HaEnv) (uuid : Z → nat → string).

(** The handlers of the vDPU and the DPU actor return - a value or an
    error, never a panic - for every message in every state, and change nothing
    but what the actor interface allows: own fields, internal entries, the
    queue, the stop flag. *)
Theorem dpu_handlers_return now k (sv : ActorSt V Db VDpuActor) (sd : ActorSt V Db DpuActor) :
  (∃ r s', vdpu_handle_message now k sv = Done (r, s') ∧ api sv s') ∧
  (∃ r s', dpu_handle_message env now k sd = Done (r, s') ∧ api sd s').
Proof.
  destruct (vdpu_runs now k sv I) as (rv & sv' & Hv & _), (dpu_runs env now k sd I) as (rd & sd' & Hd & _).
  split; [exists rv, sv'|exists rd, sd']; (split; [done|]).
  - by apply (vdpu_api now k _ _ _ Hv).
  - by apply (dpu_api env now k _ _ _ Hd).
Qed.

(** Once its entry of the NPU state table is open, the HA-scope actor's
    handler returns for every message - never a panic - keeps the entry open
    and stays within the actor interface. *)
Theorem scope_handler_returns now k (s : ActorSt V Db HaScopeActor) :
  scope_opened s →
  ∃ r s', hascope_handle_message env uuid now k s = Done (r, s') ∧ scope_opened s' ∧ api s s'.
Proof.
  intros Hs. destruct (hascope_runs env uuid now k s Hs) as (r & s' & Hrun & Hs'). exists r, s'.
  split; [done|]. split; [done|]. by apply (hascope_api env uuid now k _ _ _ Hrun).
Qed.

Lemma scope_vdpu_run (s : ActorSt V Db HaScopeActor) :
  scope_get_vdpu s = Done (Ok (typed_of VDpuActorState (vdpu_msg_key (scope_vdpu_id (actor s))) s), s).
Proof.
  unfold scope_get_vdpu, typed_of. rewrite bind_get, (bind_done _ _ _ _ _ (try_incoming_run _ _)).
  destruct (incoming_table s !! _) as [e|]; cbn [fmap option_fmap option_map]; [|done]. apply try_deserialize_run.
Qed.

(** The first state of a managed vDPU opens the scope: whatever else the
    handler does, it returns with the scope's entry of the NPU state table in
    place. An unmanaged vDPU changes nothing. *)
Theorem scope_vdpu_update_opens now k (s : ActorSt V Db HaScopeActor) cfg v :
  vdpu_is_my_msg k = true → dash_ha_scope_config (actor s) = Some cfg →
  typed_of VDpuActorState (vdpu_msg_key (scope_vdpu_id (actor s))) s = Some v →
  env_open env "STATE_DB" "DASH_HA_SCOPE_STATE" false = Ok tt →
  (∀ n sk, ∃ x, table_get (databases s) n sk = Ok x) →
  if das_is_managed (vds_dpu v) then
    ∃ r s', hascope_handle_message env uuid now k s = Done (r, s') ∧ scope_opened s'
  else hascope_handle_message env uuid now k s = Done (Ok tt, s).
Proof.
  intros Hk Hcfg Hv Hopen Hget.
  assert (hascope_handle_message env uuid now k s = scope_handle_vdpu_state_update env now s) as ->.
  { unfold hascope_handle_message. rewrite decide_False by (intros ->; by vm_compute in Hk). by rewrite bind_get, Hcfg, Hk. }
  unfold scope_handle_vdpu_state_update. rewrite (bind_done _ _ _ _ _ (scope_vdpu_run s)), Hv.
  destruct (das_is_managed (vds_dpu v)); [|done]. cbn [negb]. rewrite bind_get. cbn zeta.
  destruct (Hget (table_name NpuDashHaScopeState)
    (scope_vdpu_id (actor s) +:+ key_separator NpuDashHaScopeState +:+ ha_scope_id (actor s))) as [hyd Hhyd].
  destruct (@ensure_entry_run V Db HaScopeActor _ env NpuDashHaScopeState npu_scope_state_table _ s hyd Hopen Hhyd)
    as (e0 & He0 & Hadd).
  edestruct (runs_vdpu_rest env now (hascope_bridges (actor s)) (hascope_actor_id (actor s))) as (r & s' & Hrun & Hs').
  2: { exists r, s'. split; [|exact Hs']. etrans; [apply (bind_done _ _ _ _ _ Hadd)|]. exact Hrun. }
  split; [eexists; apply lookup_insert_eq|exact Hget].
Qed.

End Safety.
