(* ===== verification/HaChain.v ===== *)
(** The way of a DPU's state through hamgrd, from the row pmon or BFD writes to the
    row the SDN controller reads: the drivers of the DPU, vDPU and HA-scope actors
    (Actor.v, DpuActor.v, VDpuActor.v, HaScopeActor.v) composed by the messages
    they send each other. *)
From S2P Require Import Prelude RustStr Path Proto Edge EdgeTheory Actor ActorTheory ActorProps Link LinkTheory Bridge HaTypes HaRowsTheory HaJson VDpuActor DpuActor HaScopeActor HaTheory HaProps HaScopeProps.

Open Scope stdpp_scope.

(** * One actor of the chain *)

Section Relay.
Context {V Db A : Type} `{Wire V} `{!WireLaws V} `{!SwssTable Db} `{!SwssTableLaws Db, !SwssTableWrites Db} `{!HaCodec V}.
Context `{!Actor (V:=V) (Db:=Db) (A:=A)} `{!ActorContract Actor0} (dump : ActorStateDump (V:=V) → string).
Implicit Types (s : ActorSt V Db A).

(** An actor between two messages, at [p]. *)
Record idle (p : ServicePath) s : Prop := {
  id_source : client_source (swbus_client s) = p;
  id_sink : client_sink (swbus_client s) = false;
  id_open : router_open s;
  id_queued : queued_messages s = [];
  id_separate : separate s;
}.

(** What a successful callback of such an actor leads to: its queue is sent and its
    entries are written. *)
Lemma handled_commits p now k s s1 :
  idle p s → handle_message now k s = Done (Ok tt, s1) → separate s1 → is_Some (incoming_table s !! k) →
  ∃ s2, handle_actor_message now k s = Done (Ok tt, s2) ∧
    sent_out s2 = sent_out s ++ (swbus_message <$> queued_messages s1) ∧
    (∀ k' e, internal_table s1 !! k' = Some e → reads_back (databases s2) e).
Proof.
  intros [Hsrc _ Ho Hq _] Hrun Hsep [e0 Hk]. pose proof (handle_message_api now k _ _ _ Hrun) as Hapi.
  destruct (api_queued _ _ Hapi) as (q & Hq1 & Hreq). rewrite Hq in Hq1. cbn in Hq1.
  destruct (committed_run now k s s1 e0 Hrun) as (d & s3 & Hdrive & [Hout _ _ _ _ Hdb _ _ _ _] & Hread).
  - unfold router_open. by rewrite (api_router _ _ Hapi).
  - done.
  - by rewrite (api_incoming _ _ Hapi).
  - rewrite Hq1. eapply Forall_impl; [exact Hreq|]. intros u (_ & i & d & Hh). by eexists.
  - eexists. split; [exact Hdrive|]. cbn in Hdb |- *. rewrite Hdb. split; [|exact Hread].
    change (sent_out s3 = sent_out s ++ (swbus_message <$> queued_messages s1)).
    rewrite Hout. unfold sent_out. cbn. by rewrite (api_router _ _ Hapi).
Qed.

(** A message queued for [dst] is among what such an actor gives to the edge. *)
Lemma relays p now k s s1 q dst msg u :
  idle p s → handle_message now k s = Done (Ok tt, s1) → only_queued q s s1 → is_Some (incoming_table s !! k) →
  u ∈ q → queued_for now p msg dst u →
  ∃ s2 l i, handle_actor_message now k s = Done (Ok tt, s2) ∧ sent_out s2 = sent_out s ++ l ∧
    data_message i p dst (to_vec msg) ∈ l.
Proof.
  intros Hi Hrun Hoq Hk Hu (_ & _ & Hb & h & Hh & _ & Hd).
  assert (separate s1) as Hsep by (unfold separate; rewrite (oq_internal _ _ _ Hoq); apply Hi).
  destruct (handled_commits p now k s s1 Hi Hrun Hsep Hk) as (s2 & Hdrive & Hout & _).
  destruct (api_queued _ _ (handle_message_api now k _ _ _ Hrun)) as (q' & Hq' & Hreq).
  assert (q' = q) as -> by (apply (app_inv_head (queued_messages s)); by rewrite <- Hq', (oq_queued _ _ _ Hoq)).
  destruct (proj1 (Forall_forall _ _) Hreq u Hu) as (_ & i & d & Hh'). rewrite Hh in Hh'. injection Hh' as ->.
  cbn in Hd. injection Hd as ->. rewrite (id_source _ _ Hi) in Hh. exists s2, (swbus_message <$> queued_messages s1), i. split; [done|]. split; [exact Hout|].
  rewrite (oq_queued _ _ _ Hoq), (id_queued _ _ Hi). cbn [app].
  apply list_elem_of_fmap. exists u. split; [|done]. unfold data_message. rewrite <- Hh, <- Hb. by destruct (swbus_message u).
Qed.

(** The state in which the callback for [msg] from [src] runs. *)
Definition with_update (now i : Z) (src : ServicePath) (msg : ActorMessage V) s : ActorSt V Db A :=
  request_stored now msg src i (set_client (set_rx [] (swbus_client s)) s).

Lemma with_update_idle p now i src msg s : idle p s → idle p (with_update now i src msg s).
Proof. intros []. split; [done..|]. exact id_separate0. Qed.
Lemma with_update_message now i src msg s :
  ∃ e, incoming_table (with_update now i src msg s) = <[msg_key msg := e]> (incoming_table s) ∧ inc_msg e = msg.
Proof. eexists. split; [reflexivity|]. cbn. by destruct (incoming_table s !! msg_key msg). Qed.

(** A registration is not affected by other messages. *)
Lemma with_update_registered now i src msg s t sp :
  starts_with (msg_key msg) (reg_prefix t) = false → sp ∈ get_registered_actors t s →
  sp ∈ get_registered_actors t (with_update now i src msg s).
Proof.
  intros Hk. rewrite !registered_spec. intros (k & e & He & Hp & Hv & Hs).
  destruct (with_update_message now i src msg s) as (e' & Hin & _). exists k, e. split; [|done].
  rewrite Hin, lookup_insert_ne; [done|]. intros <-. congruence.
Qed.
Lemma with_update_typed {T} `{!Codec V T} now i src msg s x :
  from_value (msg_data msg) = Ok x → typed_of T (msg_key msg) (with_update now i src msg s) = Some x.
Proof.
  intros Hx. destruct (with_update_message now i src msg s) as (e & Hin & He). unfold typed_of.
  by rewrite Hin, lookup_insert_eq, He, Hx.
Qed.
Lemma with_update_other {T} `{!Codec V T} now i src msg s k :
  k ≠ msg_key msg → typed_of T k (with_update now i src msg s) = typed_of T k s.
Proof.
  intros Hk. destruct (with_update_message now i src msg s) as (e & Hin & He). unfold typed_of.
  by rewrite Hin, lookup_insert_ne by done.
Qed.

Lemma receive_with p now i src msg s :
  idle p s → receive_message dump now (data_message i src p (to_vec msg)) s =
    handle_actor_message now (msg_key msg) (with_update now i src msg s).
Proof. intros []. by apply receive_run. Qed.
Lemma with_update_given now i src msg s s2 l m :
  sent_out s2 = sent_out (with_update now i src msg s) ++ l → m ∈ l → m ∈ given s s2.
Proof.
  intros Hout Hm. unfold given. rewrite Hout.
  change (sent_out (with_update now i src msg s)) with
    (sent_out s ++ [answer_message src i (set_client (set_rx [] (swbus_client s)) s)]).
  rewrite <- app_assoc, drop_app_length. by apply list_elem_of_further.
Qed.
End Relay.

(** * The three actors *)

Section Chain.
Context {V Db : Type} `{Wire V} `{!WireLaws V} `{!SwssTable Db} `{!SwssTableLaws Db, !SwssTableWrites Db} `{!HaCodec V} `{!HaFvCodec}.
Context `{!HaRows.Chrono, !ChronoLaws} `{!StateJson V} `{!Faithful V KeyOpFieldValues}.
Context `{!FvTotal DashHaScopeTable} `{!FvTotal NpuDashHaScopeState}.
Context (env : HaEnv) (uuid : Z → nat → string) (dump : ActorStateDump (V:=V) → string).
Implicit Types (d : ActorSt V Db DpuActor) (v : ActorSt V Db VDpuActor) (c : ActorSt V Db HaScopeActor).
#[local] Existing Instances vdpu_actor.
#[local] Instance the_dpu_actor : Actor (V:=V) (Db:=Db) (A:=DpuActor) := dpu_actor env.
#[local] Instance the_scope_actor : Actor (V:=V) (Db:=Db) (A:=HaScopeActor) := hascope_actor env uuid.
#[local] Instance the_dpu_contract : ActorContract the_dpu_actor := dpu_contract env.
#[local] Instance the_scope_contract : ActorContract the_scope_actor := hascope_contract env uuid.

(** The DPU at [p] is local and managed, and holds a row of its state. *)
Record reporting (p vp : ServicePath) (dpu : Dpu) (ip : string) (ip6 : option string) d : Prop := {
  rp_idle : idle p d;
  rp_data : dpu_data (actor d) = Some (LocalDpu dpu true ip ip6);
  rp_registered : vp ∈ get_registered_actors RegDPUState d;
}.
(** The vDPU at [p] is configured with DPU [i] first. *)
Record forwarding (p sp : ServicePath) (i : string) v : Prop := {
  fw_idle : idle p v;
  fw_cfg : ∃ ds, vdpu_cfg (actor v) = Some (mkVDpu (i :: ds));
  fw_registered : sp ∈ get_registered_actors RegVDPUState v;
}.

Lemma dpu_reports now k p vp dpu ip ip6 d :
  k = table_name DpuState ∨ k = table_name DashBfdProbeState → is_Some (incoming_table d !! k) →
  reporting p vp dpu ip ip6 d → timely (reported_state now (dpu_actor_id (actor d)) dpu ip ip6 d) →
  ∃ d' i w, handle_actor_message now k d = Done (Ok tt, d') ∧
    from_value w = Ok (in_seconds (reported_state now (dpu_actor_id (actor d)) dpu ip ip6 d)) ∧
    data_message i p vp (to_vec (mkActorMsg (dpu_msg_key (dpu_actor_id (actor d))) w)) ∈ given d d'.
Proof.
  intros Hk Hin [Hi Hd Hreg] Ht.
  destruct (dpu_json (V:=V) _ _ (json_dpu_timely _ Ht)) as (w & Hw & Hw').
  destruct (dpu_state_run env now k d dpu ip ip6 w Hk Hd Hw) as (q & d1 & Hrun & Hq & Hall).
  apply list_elem_of_lookup in Hreg as [j Hj].
  destruct (Forall2_lookup_l _ _ _ _ _ Hall Hj) as (u & Hu%list_elem_of_lookup_2 & Hqf). rewrite (id_source _ _ Hi) in Hqf.
  destruct (relays (Actor0:=the_dpu_actor) p now k d d1 q vp _ u Hi Hrun Hq Hin Hu Hqf) as (d' & l & i & Hdrive & Hout & Hm).
  exists d', i, w. split; [done|]. split; [done|]. unfold given. by rewrite Hout, drop_app_length.
Qed.

Lemma vdpu_forwards now i src p sp id st w v :
  from_value w = Ok st → timely st → forwarding p sp id v →
  ∃ v' j x, receive_message dump now (data_message i src p (to_vec (mkActorMsg (dpu_msg_key id) w))) v = Done (Ok tt, v') ∧
    from_value x = Ok (mkVDpuActorState (das_up st) (in_seconds st)) ∧
    data_message j p sp (to_vec (mkActorMsg (vdpu_msg_key (vdpu_actor_id (actor v))) x)) ∈ given v v'.
Proof.
  intros Hw Htm [Hi [ds Hcfg] Hreg]. set (msg := mkActorMsg (dpu_msg_key id) w).
  destruct (vdpu_json (V:=V) (das_up st) _ _ (json_dpu_timely _ Htm)) as (x & Hx & Hx').
  set (v0 := with_update now i src msg v).
  pose proof (vdpu_state_forwarded now (dpu_msg_key id) v0 id ds (starts_with_app _ _) Hcfg) as Hfwd.
  assert (typed_of DpuActorState (dpu_msg_key id) v0 = Some st) as Hty by (by apply (with_update_typed now i src msg)).
  rewrite Hty in Hfwd. destruct (Hfwd x Hx) as (q & v1 & Hrun & Hq & Hall).
  assert (sp ∈ get_registered_actors RegVDPUState v0) as Hreg' by (by apply with_update_registered).
  apply list_elem_of_lookup in Hreg' as [n Hn].
  destruct (Forall2_lookup_l _ _ _ _ _ Hall Hn) as (u & Hu%list_elem_of_lookup_2 & Hqf).
  assert (idle p v0) as Hi0 by by apply with_update_idle. rewrite (id_source p v0 Hi0) in Hqf.
  destruct (relays (Actor0:=vdpu_actor) p now (dpu_msg_key id) v0 v1 q sp
    (mkActorMsg (vdpu_msg_key (vdpu_actor_id (actor v))) x) u Hi0 Hrun Hq) as (v' & l & j & Hdrive & Hout & Hm); [|exact Hu|exact Hqf|].
  { destruct (with_update_message now i src msg v) as (e & He & _). fold v0 in He. rewrite He. eexists. apply lookup_insert_eq. }
  exists v', j, x. split; [by rewrite (receive_with dump p)|]. split; [done|]. by eapply with_update_given.
Qed.

(** What the NPU row of the scope says: as before, with the state of the DPU and the
    addresses of the HA set. *)
Definition npu_before (now : Z) (e : InternalTableEntry) : option NpuDashHaScopeState :=
  if decide (fvs e = ∅) then None
  else match from_field_values now (fvs e) with Ok st => Some st | Err _ => None end.
Definition mirrored (now : Z) (st : DpuActorState) (h : HaSetActorState) (e : InternalTableEntry) : NpuDashHaScopeState :=
  npu_base (default (dpu_state_default now) (das_dpu_pmon_state st)) (default (bfd_probe_default now) (das_dpu_bfd_state st))
    (hss_ha_set h) (default npu_scope_state_default (npu_before now e)).

(** The scope has been opened: configured, its NPU row read and its bridge spawned,
    and it knows its HA set. *)
Record opened (now : Z) (id : string) (h : HaSetActorState) (e : InternalTableEntry) c : Prop := {
  op_cfg : is_Some (dash_ha_scope_config (actor c));
  op_vdpu : scope_vdpu_id (actor c) = id;
  op_entry : internal_table c !! table_name NpuDashHaScopeState = Some e;
  op_table : swss_table_name e = table_name NpuDashHaScopeState;
  op_key : swss_key e = id +:+ "|" +:+ ha_scope_id (actor c);
  op_operations cfg : dash_ha_scope_config (actor c) = Some cfg → ∃ ops, approvable now c cfg ops;
  op_bridges : hascope_bridges (actor c) ≠ [];
  op_haset : typed_of HaSetActorState (haset_msg_key (ha_scope_id (actor c))) c = Some h;
}.
Lemma opened_same now id h e c c' :
  actor c' = actor c → internal_table c' = internal_table c →
  typed_of HaSetActorState (haset_msg_key (ha_scope_id (actor c))) c' = typed_of HaSetActorState (haset_msg_key (ha_scope_id (actor c))) c →
  opened now id h e c → opened now id h e c'.
Proof. intros Ha Hi Ht []. by split; unfold approvable; rewrite ?Ha, ?Hi, ?Ht. Qed.

Lemma get_npu_run now e c :
  is_Some (dash_ha_scope_config (actor c)) → internal_table c !! table_name NpuDashHaScopeState = Some e →
  get_npu_ha_scope_state now c = Done (Ok (npu_before now e), c).
Proof.
  intros [cfg Hcfg] He. unfold get_npu_ha_scope_state, npu_before. rewrite bind_get, Hcfg.
  unfold internal_get, bind, get_state. rewrite He. cbn. case_decide; [done|]. by destruct (from_field_values now (fvs e)).
Qed.
Lemma scope_haset_run c :
  scope_get_haset c = Done (Ok (typed_of HaSetActorState (haset_msg_key (ha_scope_id (actor c))) c), c).
Proof.
  unfold scope_get_haset, typed_of. rewrite bind_get, (bind_done _ _ _ _ _ (try_incoming_run _ _)).
  destruct (incoming_table c !! _) as [e|]; cbn [fmap option_fmap option_map]; [|done]. apply try_deserialize_run.
Qed.

Lemma npu_base_run now id h e st b c :
  opened now id h e c → typed_of VDpuActorState (vdpu_msg_key id) c = Some (mkVDpuActorState b st) → das_is_managed st = true →
  ∃ f, to_field_values (mirrored now st h e) = Ok f ∧ update_npu_ha_scope_state_base now c =
    Done (Ok tt, set_internal (<[table_name NpuDashHaScopeState := fvs_mut (λ _, f) e]> (internal_table c)) c).
Proof.
  intros [[cfg Hcfg] Hid He _ _ _ _ Hh] Hv Hm. destruct (fv_total (mirrored now st h e)) as [f Hf]. exists f. split; [done|].
  unfold update_npu_ha_scope_state_base. rewrite bind_get, Hcfg.
  rewrite (bind_done _ _ _ _ _ (scope_vdpu_run c)), Hid, Hv. cbn [vds_dpu]. rewrite Hm. cbn [negb].
  rewrite (bind_done _ _ _ _ _ (scope_haset_run c)), Hh.
  rewrite (bind_done _ _ _ _ _ (get_npu_run now e c (mk_is_Some _ _ Hcfg) He)). by apply write_npu_run.
Qed.

Lemma scope_mirrors_run now id h e st b c :
  opened now id h e c → typed_of VDpuActorState (vdpu_msg_key id) c = Some (mkVDpuActorState b st) → das_is_managed st = true →
  ∃ f c1, to_field_values (mirrored now st h e) = Ok f ∧ hascope_handle_message env uuid now (vdpu_msg_key id) c = Done (Ok tt, c1) ∧
    internal_table c1 = <[table_name NpuDashHaScopeState := fvs_mut (λ _, f) e]> (internal_table c).
Proof.
  intros Hop Hv Hm. pose proof Hop as [[cfg Hcfg] Hid He _ Hkey Hops Hbr Hh].
  destruct (Hops cfg Hcfg) as [ops Hops']. destruct (scope_table_run now c cfg ops Hcfg Hops') as [_ Htab].
  edestruct (fv_total (T:=DashHaScopeTable)) as [fv Hfv]. edestruct (to_from_value (V:=V) (T:=KeyOpFieldValues)) as (kv & Hkv & _).
  destruct (Htab fv kv Hfv Hkv) as (u & c0 & Hrun & Hq & _).
  assert (typed_of VDpuActorState (vdpu_msg_key id) c0 = typed_of VDpuActorState (vdpu_msg_key id) c ∧
    ∀ k, typed_of HaSetActorState k c0 = typed_of HaSetActorState k c) as [Hv0 Hh0]
    by (unfold typed_of; by rewrite (oq_incoming _ _ _ Hq)).
  assert (opened now id h e c0) as Hop0 by (apply (opened_same now id h e c); [apply Hq|apply Hq|apply Hh0|done]).
  rewrite <- Hv0 in Hv. destruct (npu_base_run now id h e st b c0 Hop0 Hv Hm) as (f & Hf & Hbase).
  exists f, (set_internal (<[table_name NpuDashHaScopeState := fvs_mut (λ _, f) e]> (internal_table c0)) c0).
  split; [done|]. split; [|cbn; by rewrite (oq_internal _ _ _ Hq)].
  assert (hascope_handle_message env uuid now (vdpu_msg_key id) c = scope_handle_vdpu_state_update env now c) as ->.
  { unfold hascope_handle_message. rewrite decide_False by done. rewrite bind_get, Hcfg. unfold vdpu_is_my_msg, vdpu_msg_key.
    by rewrite starts_with_app. }
  unfold scope_handle_vdpu_state_update. rewrite (bind_done _ _ _ _ _ (scope_vdpu_run c)), Hid, <- Hv0, Hv. cbn [vds_dpu].
  rewrite Hm. cbn [negb]. rewrite bind_get.
  rewrite (bind_done _ _ _ tt c).
  2:{ unfold internal_has_entry. rewrite He, Hkey, Hid. by rewrite bool_decide_eq_true_2. }
  rewrite (bind_done _ _ _ tt c) by by destruct (hascope_bridges (actor c)).
  by rewrite (bind_done _ _ _ _ _ Hrun).
Qed.

(** The scope at [p] between two messages. *)
Definition mirroring (now : Z) (p : ServicePath) (id : string) (h : HaSetActorState) (e : InternalTableEntry) c : Prop :=
  idle p c ∧ opened now id h e c.

Lemma separate_write {A} (s s' : ActorSt V Db A) k e f :
  internal_table s !! k = Some e → internal_table s' = <[k := fvs_mut f e]> (internal_table s) → separate s → separate s'.
Proof.
  intros He Hs Hsep.
  assert (∀ k1 e1, internal_table s' !! k1 = Some e1 → ∃ e2, internal_table s !! k1 = Some e2 ∧ table_of e1 = table_of e2) as Hback.
  { intros k1 e1. rewrite Hs, lookup_insert. case_decide as Hk; [|eauto]. subst k1. intros [= <-]. by exists e. }
  intros k1 k2 e1 e2 (x1 & Hx1 & T1)%Hback (x2 & Hx2 & T2)%Hback Heq. apply (Hsep k1 k2 x1 x2); congruence.
Qed.

Lemma scope_mirrors now i src p id h e b st x c :
  from_value x = Ok (mkVDpuActorState b st) → das_is_managed st = true → mirroring now p id h e c →
  ∃ c' f g, receive_message dump now (data_message i src p (to_vec (mkActorMsg (vdpu_msg_key id) x))) c = Done (Ok tt, c') ∧
    to_field_values (mirrored now st h e) = Ok f ∧ table_get (databases c') (swss_table_name e) (swss_key e) = Ok g ∧ f ⊆ default ∅ g.
Proof.
  intros Hx Hm [Hi Hop]. set (msg := mkActorMsg (vdpu_msg_key id) x). set (c0 := with_update now i src msg c).
  assert (idle p c0) as Hi0 by by apply with_update_idle.
  assert (typed_of VDpuActorState (vdpu_msg_key id) c0 = Some (mkVDpuActorState b st)) as Hv by by apply (with_update_typed now i src msg).
  assert (opened now id h e c0) as Hop0.
  { apply (opened_same now id h e c); [done..| |done]. apply with_update_other. done. }
  destruct (scope_mirrors_run now id h e st b c0 Hop0 Hv Hm) as (f & c1 & Hf & Hrun & Hint).
  destruct (handled_commits (Actor0:=the_scope_actor) p now (vdpu_msg_key id) c0 c1 Hi0 Hrun) as (c' & Hdrive & _ & Hread).
  - eapply separate_write; [apply Hop0|exact Hint|apply Hi0].
  - destruct (with_update_message now i src msg c) as (e' & He' & _). fold c0 in He'. rewrite He'. eexists. apply lookup_insert_eq.
  - destruct (Hread (table_name NpuDashHaScopeState) (fvs_mut (λ _, f) e)) as (g & Hg & Hsub); [by rewrite Hint, lookup_insert_eq|].
    exists c', f, g. split; [by rewrite (receive_with dump p)|]. by repeat split.
Qed.

(** C6: A change of a managed DPU reaches the controller. When the DPU's actor handles
    a new pmon or BFD row, and its times can be printed and its sessions hold no
    commas, it sends its vDPU a message; when the vDPU's actor receives it, it
    sends the HA scope one; and when the scope's actor receives that and its
    table takes the write, the scope's row of DASH_HA_SCOPE_STATE holds the
    planes and BFD sessions of the rows the DPU has and the addresses of the
    scope's HA set; its pending operations are as before. The times are the DPU's
    cut to whole seconds, which is what the messages carry; those of a row the
    DPU does not have are the scope's own time. *)
Theorem dpu_state_reaches_controller (t1 t2 t3 : Z) k dp vp sp dpu ip ip6 d v c h e :
  k = table_name DpuState ∨ k = table_name DashBfdProbeState → is_Some (incoming_table d !! k) →
  (∀ r, row_of t1 (table_name DpuState) d = Some r → pmon_timely r) →
  (∀ r, row_of t1 (table_name DashBfdProbeState) d = Some r → bfd_timely r) →
  reporting dp vp dpu ip ip6 d → forwarding vp sp (dpu_actor_id (actor d)) v →
  mirroring t3 sp (vdpu_actor_id (actor v)) h e c →
  ∃ d' v' c' i j m1 m2,
    handle_actor_message t1 k d = Done (Ok tt, d') ∧ data_message i dp vp (to_vec m1) ∈ given d d' ∧
    receive_message dump t2 (data_message i dp vp (to_vec m1)) v = Done (Ok tt, v') ∧ data_message j vp sp (to_vec m2) ∈ given v v' ∧
    receive_message dump t3 (data_message j vp sp (to_vec m2)) c = Done (Ok tt, c') ∧
    ∃ st f g, table_get (databases c') "DASH_HA_SCOPE_STATE" (scope_vdpu_id (actor c) +:+ "|" +:+ ha_scope_id (actor c)) = Ok g ∧
      f ⊆ default ∅ g ∧ to_field_values st = Ok f ∧
      match row_of (T:=DpuState) t1 (table_name DpuState) d with
      | Some r =>
          (nss_midplane_state st, nss_midplane_time st) = (dpu_midplane_link_state r, whole_seconds (dpu_midplane_link_time r)) ∧
          (nss_control_plane_state st, nss_control_plane_time st) = (dpu_control_plane_state r, whole_seconds (dpu_control_plane_time r)) ∧
          (nss_data_plane_state st, nss_data_plane_time st) = (dpu_data_plane_state r, whole_seconds (dpu_data_plane_time r))
      | None =>
          (nss_midplane_state st, nss_midplane_time st) = (PmonUnknown, now_in_millis t3) ∧
          (nss_control_plane_state st, nss_control_plane_time st) = (PmonUnknown, now_in_millis t3) ∧
          (nss_data_plane_state st, nss_data_plane_time st) = (PmonUnknown, now_in_millis t3)
      end ∧
      match row_of (T:=DashBfdProbeState) t1 (table_name DashBfdProbeState) d with
      | Some r =>
          (nss_up_bfd_sessions_v4 st, nss_up_bfd_sessions_v4_update_time st) =
            (v4_bfd_up_sessions r, whole_seconds (v4_bfd_up_sessions_timestamp r)) ∧
          (nss_up_bfd_sessions_v6 st, nss_up_bfd_sessions_v6_update_time st) =
            (v6_bfd_up_sessions r, whole_seconds (v6_bfd_up_sessions_timestamp r))
      | None =>
          (nss_up_bfd_sessions_v4 st, nss_up_bfd_sessions_v4_update_time st) = ([], now_in_millis t3) ∧
          (nss_up_bfd_sessions_v6 st, nss_up_bfd_sessions_v6_update_time st) = ([], now_in_millis t3)
      end ∧
      (nss_vip_v4 st, nss_local_ip st, nss_peer_ip st) = (hs_vip_v4 (hss_ha_set h), hs_local_ip (hss_ha_set h), hs_peer_ip (hss_ha_set h)) ∧
      operations_of st = operations_of (default npu_scope_state_default (npu_before t3 e)).
Proof.
  intros Hk Hin Hp Hb Hd Hv [Hi Hop]. set (rep := reported_state t1 (dpu_actor_id (actor d)) dpu ip ip6 d).
  assert (timely rep) as Ht by by split.
  destruct (dpu_reports t1 k dp vp dpu ip ip6 d Hk Hin Hd Ht) as (d' & i & w & Hrun1 & Hw & Hm1).
  destruct (vdpu_forwards t2 i dp vp sp _ _ w v Hw (in_seconds_timely _ Ht) Hv) as (v' & j & x & Hrun2 & Hx & Hm2). rewrite in_seconds_twice in Hx.
  destruct (scope_mirrors t3 j vp sp _ h e _ _ x c Hx eq_refl (conj Hi Hop)) as (c' & f & g & Hrun3 & Hf & Hg & Hsub).
  exists d', v', c', i, j, (mkActorMsg (dpu_msg_key (dpu_actor_id (actor d))) w), (mkActorMsg (vdpu_msg_key (vdpu_actor_id (actor v))) x).
  split; [exact Hrun1|]. split; [exact Hm1|]. split; [exact Hrun2|]. split; [exact Hm2|].
  split; [exact Hrun3|]. exists (mirrored t3 (in_seconds rep) h e), f, g. rewrite (op_table _ _ _ _ _ Hop), (op_key _ _ _ _ _ Hop) in Hg.
  rewrite (op_vdpu _ _ _ _ _ Hop). split; [exact Hg|]. split; [exact Hsub|]. split; [exact Hf|].
  unfold mirrored, rep, reported_state. split; [|split; [|by split]].
  - cbn [in_seconds with_rows das_dpu_pmon_state set_up from_dpu].
    by destruct (row_of t1 (table_name DpuState) d).
  - cbn [in_seconds with_rows das_dpu_bfd_state set_up from_dpu]. by destruct (row_of t1 (table_name DashBfdProbeState) d).
Qed.
End Chain.
