(* ===== verification/HaAssembly.v ===== *)
(** How the chain of HaChain.v comes about: the configuration rows of a vDPU and an
    HA scope make their actors register with each other, with the DPU and with
    the HA set, and the answers open the scope. *)
From S2P Require Import Prelude RustStr Path Proto Edge EdgeTheory Actor ActorTheory ActorProps Link LinkTheory Bridge HaTypes HaRowsTheory HaJson VDpuActor DpuActor HaSetActor HaScopeActor HaTheory HaProps HaScopeProps HaChain.

Open Scope stdpp_scope.

(** * One turn of an actor *)

Section Turn.
Context {V Db A : Type} `{Wire V} `{!WireLaws V} `{!SwssTable Db} `{!SwssTableLaws Db, !SwssTableWrites Db} `{!HaCodec V}.
Context `{!Actor (V:=V) (Db:=Db) (A:=A)} `{!ActorContract Actor0} (dump : ActorStateDump (V:=V) → string).
Implicit Types (s : ActorSt V Db A).

(** The same messages from the same senders. *)
Definition heard s s' : Prop :=
  ∀ k, (λ e, (inc_msg e, inc_source e)) <$> incoming_table s' !! k = (λ e, (inc_msg e, inc_source e)) <$> incoming_table s !! k.
Lemma heard_incoming s s' : incoming_table s' = incoming_table s → heard s s'.
Proof. intros Hi k. by rewrite Hi. Qed.
#[export] Instance heard_trans : Transitive heard.
Proof. intros s1 s2 s3 H1 H2 k. by rewrite H2. Qed.
Lemma heard_typed {T} `{!Codec V T} k s s' : heard s s' → typed_of T k s' = typed_of T k s.
Proof.
  intros Hh. specialize (Hh k). unfold typed_of. destruct (incoming_table s' !! k), (incoming_table s !! k); cbn in Hh; try done.
  injection Hh as Hm _. by rewrite Hm.
Qed.
Lemma heard_registered t sp s s' : heard s s' → sp ∈ get_registered_actors t s → sp ∈ get_registered_actors t s'.
Proof.
  intros Hh. rewrite !registered_spec. intros (k & e & He & Hp & Hv & Hs). specialize (Hh k). rewrite He in Hh.
  destruct (incoming_table s' !! k) as [e'|] eqn:He'; [|done]. cbn in Hh. injection Hh as Hm Hsrc. exists k, e'. by rewrite Hm, Hsrc.
Qed.

Lemma with_update_entry now i src msg s :
  ∃ e, incoming_table (with_update now i src msg s) !! msg_key msg = Some e ∧ inc_msg e = msg ∧ inc_source e = src.
Proof. eexists. split; [apply lookup_insert_eq|]. cbn. by destruct (incoming_table s !! msg_key msg). Qed.
Lemma with_update_registers now i src msg s t :
  starts_with (msg_key msg) (reg_prefix t) = true → from_value (msg_data msg) = Ok (mkRegistration true) →
  src ∈ get_registered_actors t (with_update now i src msg s).
Proof.
  intros Hp Hv. destruct (with_update_entry now i src msg s) as (e & He & Hm & Hs). apply registered_spec.
  exists (msg_key msg), e. by rewrite Hm.
Qed.

(** From [s] to [s'] an actor at [p] handles a message; its callback left [s1]. *)
Record turn (now : Z) (p : ServicePath) s s1 s' : Prop := {
  tn_idle : idle p s';
  tn_actor : actor s' = actor s1;
  tn_heard : heard s1 s';
  tn_internal : internal_table s' = entry_committed now <$> internal_table s1;
  tn_read k e : internal_table s1 !! k = Some e → reads_back (databases s') e;
  tn_sent msg dst u : u ∈ queued_messages s1 → queued_for now p msg dst u →
    ∃ j, data_message j p dst (to_vec msg) ∈ given s s';
}.

Lemma queued_data now p msg dst u s : queued_request p u → queued_for now p msg dst u → ∃ j, swbus_message u = data_message j p dst (to_vec msg).
Proof.
  intros (_ & i & d & Hh) (_ & _ & Hb & h & Hh' & _ & Hd). rewrite Hh in Hh'. injection Hh' as <-. cbn in Hd. injection Hd as ->.
  exists i. unfold data_message. rewrite <- Hh, <- Hb. by destruct (swbus_message u).
Qed.

Lemma turn_run now p i src msg s s1 :
  idle p s → handle_message now (msg_key msg) (with_update now i src msg s) = Done (Ok tt, s1) → separate s1 →
  ∃ s', receive_message dump now (data_message i src p (to_vec msg)) s = Done (Ok tt, s') ∧ turn now p s s1 s'.
Proof.
  intros Hi Hrun Hsep. set (s0 := with_update now i src msg s) in *.
  assert (idle p s0) as Hi0 by by apply with_update_idle.
  pose proof (handle_message_api now _ _ _ _ Hrun) as Hapi.
  destruct (api_queued _ _ Hapi) as (q & Hq1 & Hreq). rewrite (id_queued _ _ Hi0) in Hq1. rewrite (id_source _ _ Hi0) in Hreq. cbn in Hq1.
  destruct (with_update_message now i src msg s) as (e0 & Hin & _). fold s0 in Hin.
  destruct (committed_run now (msg_key msg) s0 s1 e0 Hrun) as (d & s3 & Hdrive & [Hout Hopen Hint Hinc Hqu Hdb _ _ _ Hac] & Hread).
  - unfold router_open. rewrite (api_router _ _ Hapi). apply (id_open _ _ Hi0).
  - done.
  - by rewrite (api_incoming _ _ Hapi), Hin, lookup_insert_eq.
  - rewrite Hq1. eapply Forall_impl; [exact Hreq|]. intros u (_ & j & d & Hh). by eexists.
  - destruct (handled_done now (msg_key msg) s0 _ _ (id_open _ _ Hi0) (id_queued _ _ Hi0) Hdrive) as [Hcl Hqu' _ _].
    eexists. split; [by rewrite (receive_with dump p)|]. cbn in Hint, Hinc, Hdb. split.
    + split; [by rewrite (kc_source _ _ Hcl), (id_source _ _ Hi0)|by rewrite (kc_sink _ _ Hcl), (id_sink _ _ Hi0)|by apply Hcl, (id_open _ _ Hi0)|done|].
      unfold separate. cbn. rewrite Hint. intros k1 k2 x1 x2. rewrite !lookup_fmap, !fmap_Some.
      intros (y1 & H1 & ->) (y2 & H2 & ->). by apply (Hsep k1 k2 y1 y2).
    + exact Hac.
    + intros k. cbn. rewrite lookup_insert. destruct (decide (msg_key msg = k)) as [<-|]; [|by rewrite Hinc].
      rewrite (api_incoming _ _ Hapi), Hin, lookup_insert_eq. unfold update_handled. by destruct (decide _).
    + exact Hint.
    + cbn. rewrite Hdb. exact Hread.
    + intros m dst u Hu Hqf. assert (queued_request p u) as Hr by (apply (proj1 (Forall_forall _ _) Hreq); by rewrite <- Hq1).
      destruct (queued_data now p m dst u s Hr Hqf) as [j Hj]. exists j. eapply (with_update_given now i src msg s).
      * unfold sent_out in *. cbn. rewrite Hout. cbn. by rewrite (api_router _ _ Hapi).
      * rewrite <- Hj. by apply list_elem_of_fmap_2.
Qed.
(** Most callbacks only queue messages and write fields of the actor. *)
Lemma turn_queue now p i src msg q s s1 s2 :
  idle p s → handle_message now (msg_key msg) (with_update now i src msg s) = Done (Ok tt, s2) →
  only_queued q s1 s2 → internal_table s1 = internal_table s →
  ∃ s', receive_message dump now (data_message i src p (to_vec msg)) s = Done (Ok tt, s') ∧ turn now p s s2 s'.
Proof. intros Hi Hrun Hq Hs. apply turn_run; [done..|]. unfold separate. rewrite (oq_internal _ _ _ Hq), Hs. apply Hi. Qed.
Lemma turn_queued_sent now p msg dst q s s1 s2 s' u :
  turn now p s s2 s' → only_queued q s1 s2 → u ∈ q → queued_for now p msg dst u → ∃ j, data_message j p dst (to_vec msg) ∈ given s s'.
Proof. intros Ht Hq Hu. apply (tn_sent _ _ _ _ _ Ht). rewrite (oq_queued _ _ _ Hq), elem_of_app. by right. Qed.
End Turn.

(** * The steps *)

Section Assembly.
Context {V Db : Type} `{Wire V} `{!WireLaws V} `{!SwssTable Db} `{!SwssTableLaws Db, !SwssTableWrites Db} `{!HaCodec V} `{!HaFvCodec}.
Context `{!HaRows.Chrono, !ChronoLaws} `{!StateJson V} `{!Faithful V HaSetActorState} `{!Faithful V ActorRegistration}
  `{!Faithful V KeyOpFieldValues}.
Context `{!FvTotal DashHaScopeTable} `{!FvTotal NpuDashHaScopeState}.
Context (env : HaEnv) (uuid : Z → nat → string) (dump : ActorStateDump (V:=V) → string).
Implicit Types (d : ActorSt V Db DpuActor) (v : ActorSt V Db VDpuActor) (h : ActorSt V Db HaSetActor) (c : ActorSt V Db HaScopeActor).
#[local] Existing Instances vdpu_actor.
#[local] Instance this_dpu_actor : Actor (V:=V) (Db:=Db) (A:=DpuActor) := dpu_actor env.
#[local] Instance this_scope_actor : Actor (V:=V) (Db:=Db) (A:=HaScopeActor) := hascope_actor env uuid.
#[local] Instance this_haset_actor : Actor (V:=V) (Db:=Db) (A:=HaSetActor) := haset_actor env.
#[local] Instance this_dpu_contract : ActorContract this_dpu_actor := dpu_contract env.
#[local] Instance this_scope_contract : ActorContract this_scope_actor := hascope_contract env uuid.
#[local] Instance this_haset_contract : ActorContract this_haset_actor := haset_contract env.

(** A configuration row: an update that sets it to [row]. *)
Definition configures {T} `{!FvCodec T} (now : Z) (w : V) (row : T) : Prop :=
  ∃ key fv, from_value w = Ok (mkKfv key KopSet fv) ∧ from_field_values now fv = Ok row.
Definition registration_msg (t : RegistrationType) (i : string) (w : V) : ActorMessage V := mkActorMsg (reg_msg_key t i) w.

(** ** The vDPU *)

Lemma vdpu_config_run now w row y v e :
  incoming_table v !! table_name VDpu = Some e → msg_data (inc_msg e) = w → configures now w row →
  to_value (mkRegistration true) = Ok y →
  let v1 := set_actor (mkVDpuActor (vdpu_actor_id (actor v)) (Some row)) v in
  ∃ q v2, vdpu_handle_message now (table_name VDpu) v = Done (Ok tt, v2) ∧ only_queued q v1 v2 ∧
    Forall2 (λ i, queued_for now (client_source (swbus_client v)) (registration_msg RegDPUState (vdpu_actor_id (actor v)) y) (from_my_sp "dpu" i v))
      (main_dpu_ids row) q.
Proof.
  intros He Hw (key & fv & Hkfv & Hrow) Hy v1. unfold vdpu_handle_message. rewrite decide_True by done. unfold vdpu_handle_message_of_table.
  rewrite (bind_done _ _ _ (inc_msg e) v) by (unfold incoming_get, incoming_get_entry, bind, get_state; by rewrite He).
  rewrite (bind_done _ _ _ (mkKfv key KopSet fv) v) by (unfold deserialize_data; by rewrite Hw, Hkfv).
  rewrite decide_False by done. cbn [kfv_field_values]. rewrite Hrow. cbn [of_result]. rewrite bind_ret, bind_modify.
  unfold vdpu_register_to_dpu_actor. rewrite bind_get. cbn [vdpu_cfg vdpu_actor_id actor set_actor].
  unfold reg_new_actor_msg. rewrite (bind_done _ _ _ _ _ (actor_msg_run _ _ _ _ Hy)).
  destruct (send_ids_step now "dpu" (registration_msg RegDPUState (vdpu_actor_id (actor v)) y) (main_dpu_ids row) v1) as (q & v2 & Hrun & Hq & Hall).
  by exists q, v2.
Qed.

(** Its configuration registers a vDPU with its DPUs. *)
Lemma vdpu_configured now n bp vp w row v :
  idle vp v → configures now w row →
  ∃ v' y, receive_message dump now (data_message n bp vp (to_vec (mkActorMsg (table_name VDpu) w))) v = Done (Ok tt, v') ∧
    idle vp v' ∧ actor v' = mkVDpuActor (vdpu_actor_id (actor v)) (Some row) ∧ from_value y = Ok (mkRegistration true) ∧
    ∀ i, i ∈ main_dpu_ids row →
      ∃ j, data_message j vp (from_my_sp "dpu" i v) (to_vec (registration_msg RegDPUState (vdpu_actor_id (actor v)) y)) ∈ given v v'.
Proof.
  intros Hi Hw. destruct (to_from_value (V:=V) (mkRegistration true)) as (y & Hy & Hy').
  set (msg := mkActorMsg (table_name VDpu) w). set (v0 := with_update now n bp msg v).
  destruct (with_update_entry now n bp msg v) as (e & He & Hm & _). fold v0 in He.
  destruct (vdpu_config_run now w row y v0 e) as (q & v1 & Hrun & Hq & Hall); [done|by rewrite Hm|done..|].
  destruct (turn_queue (Actor0:=vdpu_actor) dump now vp n bp msg q v _ v1 Hi Hrun Hq eq_refl) as (v' & Hrec & Ht). pose proof Ht as [Hi' Ha _ _ _ _].
  exists v', y. split; [exact Hrec|]. split; [done|]. split; [by rewrite Ha, (oq_actor _ _ _ Hq)|]. split; [done|].
  intros i [k Hk]%list_elem_of_lookup. destruct (Forall2_lookup_l _ _ _ _ _ Hall Hk) as (u & Hu%list_elem_of_lookup_2 & Hqf).
  assert (client_source (swbus_client v0) = vp) as Hsrc by apply Hi. rewrite Hsrc in Hqf. by eapply turn_queued_sent.
Qed.

(** The state of its first DPU is kept. *)
Lemma vdpu_informed now n dp vp i ds w st v :
  idle vp v → vdpu_cfg (actor v) = Some (mkVDpu (i :: ds)) → from_value w = Ok st → timely st →
  ∃ v', receive_message dump now (data_message n dp vp (to_vec (mkActorMsg (dpu_msg_key i) w))) v = Done (Ok tt, v') ∧
    idle vp v' ∧ actor v' = actor v ∧ typed_of DpuActorState (dpu_msg_key i) v' = Some st.
Proof.
  intros Hi Hcfg Hw Htm. destruct (vdpu_json (V:=V) (das_up st) _ _ (json_dpu_timely _ Htm)) as (x & Hx & _).
  set (msg := mkActorMsg (dpu_msg_key i) w). set (v0 := with_update now n dp msg v).
  assert (typed_of DpuActorState (dpu_msg_key i) v0 = Some st) as Hty by by apply (with_update_typed now n dp msg).
  pose proof (vdpu_state_forwarded now (dpu_msg_key i) v0 i ds (starts_with_app _ _) Hcfg) as Hfwd. rewrite Hty in Hfwd.
  destruct (Hfwd x Hx) as (q & v1 & Hrun & Hq & _).
  destruct (turn_queue (Actor0:=vdpu_actor) dump now vp n dp msg q v v0 v1 Hi Hrun Hq eq_refl) as (v' & Hrec & [Hi' Ha Hh _ _ _]).
  exists v'. split; [exact Hrec|]. split; [done|]. split; [by rewrite Ha, (oq_actor _ _ _ Hq)|].
  rewrite (heard_typed _ _ _ Hh). rewrite (heard_typed _ _ _ (heard_incoming _ _ (oq_incoming _ _ _ Hq))). exact Hty.
Qed.

(** A vDPU that knows its state answers a registration with it. *)
Lemma vdpu_accepts now n sp vp a y i ds st v :
  idle vp v → vdpu_cfg (actor v) = Some (mkVDpu (i :: ds)) → typed_of DpuActorState (dpu_msg_key i) v = Some st → timely st →
  from_value y = Ok (mkRegistration true) →
  ∃ v' j x, receive_message dump now (data_message n sp vp (to_vec (registration_msg RegVDPUState a y))) v = Done (Ok tt, v') ∧
    forwarding vp sp i v' ∧ actor v' = actor v ∧ from_value x = Ok (mkVDpuActorState (das_up st) (in_seconds st)) ∧
    data_message j vp sp (to_vec (mkActorMsg (vdpu_msg_key (vdpu_actor_id (actor v))) x)) ∈ given v v'.
Proof.
  intros Hi Hcfg Hty Htm Hy. destruct (vdpu_json (V:=V) (das_up st) _ _ (json_dpu_timely _ Htm)) as (x & Hx & Hx').
  set (msg := registration_msg RegVDPUState a y). set (v0 := with_update now n sp msg v).
  destruct (with_update_entry now n sp msg v) as (e & He & Hm & Hs). fold v0 in He.
  assert (client_source (swbus_client v0) = vp) as Hsrc by apply Hi.
  destruct (send_step now sp (mkActorMsg (vdpu_msg_key (vdpu_actor_id (actor v))) x) v0) as (u & v1 & Hsend & Hq & Hqf).
  rewrite Hsrc in Hqf.
  assert (vdpu_handle_message now (msg_key msg) v0 = Done (Ok tt, v1)) as Hrun.
  { unfold vdpu_handle_message. rewrite decide_False by done. rewrite bind_get. change (actor v0) with (actor v). rewrite Hcfg.
    assert (dpu_is_my_msg (msg_key msg) = false) as -> by done.
    assert (reg_is_my_msg (msg_key msg) RegVDPUState = true) as -> by apply starts_with_app.
    unfold vdpu_handle_state_registration, incoming_get_entry. rewrite bind_bind, bind_get, He, bind_ret.
    unfold deserialize_data. rewrite Hm. cbn [msg registration_msg msg_data]. rewrite Hy. cbn [of_result]. rewrite bind_ret. cbn [reg_active].
    rewrite (bind_done _ _ _ _ _ (calculate_vdpu_run v0 i ds Hcfg)).
    assert (typed_of DpuActorState (dpu_msg_key i) v0 = Some st) as -> by (rewrite <- Hty; by apply with_update_other).
    cbn [fmap option_fmap option_map]. rewrite bind_get. unfold vdpu_to_actor_msg. rewrite (bind_done _ _ _ _ _ (actor_msg_run _ _ _ _ Hx)).
    rewrite Hs. exact Hsend. }
  destruct (turn_queue (Actor0:=vdpu_actor) dump now vp n sp msg [u] v v0 v1 Hi Hrun Hq eq_refl) as (v' & Hrec & Ht). pose proof Ht as [Hi' Ha Hh _ _ _].
  assert (actor v' = actor v) as Hav by by rewrite Ha, (oq_actor _ _ _ Hq).
  destruct (turn_queued_sent now vp _ sp [u] v v0 v1 v' u Ht Hq (list_elem_of_here _ _) Hqf) as [j Hj].
  exists v', j, x. split; [exact Hrec|]. split; [|done]. split; [done|exists ds; by rewrite Hav|].
  apply (heard_registered _ _ v1 v' Hh), (heard_registered _ _ v0 v1 (heard_incoming _ _ (oq_incoming _ _ _ Hq))).
  by apply with_update_registers; [apply starts_with_app|].
Qed.

(** ** The DPU *)

(** A managed DPU answers a registration with its state. *)
Lemma dpu_accepts now n vp dp a y dpu ip ip6 d :
  idle dp d → dpu_data (actor d) = Some (LocalDpu dpu true ip ip6) → from_value y = Ok (mkRegistration true) →
  timely (reported_state now (dpu_actor_id (actor d)) dpu ip ip6 d) →
  ∃ d' j w, receive_message dump now (data_message n vp dp (to_vec (registration_msg RegDPUState a y))) d = Done (Ok tt, d') ∧
    reporting dp vp dpu ip ip6 d' ∧ actor d' = actor d ∧ from_value w = Ok (in_seconds (reported_state now (dpu_actor_id (actor d)) dpu ip ip6 d)) ∧
    data_message j dp vp (to_vec (mkActorMsg (dpu_msg_key (dpu_actor_id (actor d))) w)) ∈ given d d'.
Proof.
  intros Hi Hd Hy Htm. set (msg := registration_msg RegDPUState a y). set (d0 := with_update now n vp msg d).
  assert (reported_state now (dpu_actor_id (actor d)) dpu ip ip6 d0 = reported_state now (dpu_actor_id (actor d)) dpu ip ip6 d) as Hst.
  { destruct (with_update_message now n vp msg d) as (e & Hin & _). fold d0 in Hin. unfold reported_state, row_of. rewrite Hin.
    by rewrite !lookup_insert_ne by done. }
  destruct (dpu_json (V:=V) _ _ (json_dpu_timely _ Htm)) as (w & Hw & Hw').
  destruct (with_update_entry now n vp msg d) as (e & He & Hm & Hs). fold d0 in He.
  destruct (send_step now vp (mkActorMsg (dpu_msg_key (dpu_actor_id (actor d))) w) d0) as (u & d1 & Hsend & Hq & Hqf).
  assert (client_source (swbus_client d0) = dp) as Hsrc by apply Hi. rewrite Hsrc in Hqf.
  assert (dpu_handle_message env now (msg_key msg) d0 = Done (Ok tt, d1)) as Hrun.
  { rewrite (dpu_registration_run env now (msg_key msg) d0 e dpu ip ip6 w (starts_with_app _ _) He).
    - rewrite Hs. exact Hsend.
    - by rewrite Hm.
    - done.
    - change (actor d0) with (actor d). by rewrite Hst. }
  destruct (turn_queue (Actor0:=this_dpu_actor) dump now dp n vp msg [u] d d0 d1 Hi Hrun Hq eq_refl) as (d' & Hrec & Ht). pose proof Ht as [Hi' Ha Hh _ _ _].
  destruct (turn_queued_sent now dp _ vp [u] d d0 d1 d' u Ht Hq (list_elem_of_here _ _) Hqf) as [j Hj].
  assert (actor d' = actor d) as Had by by rewrite Ha, (oq_actor _ _ _ Hq).
  exists d', j, w. split; [exact Hrec|]. split; [|done]. split; [done|by rewrite Had|].
  apply (heard_registered _ _ d1 d' Hh), (heard_registered _ _ d0 d1 (heard_incoming _ _ (oq_incoming _ _ _ Hq))).
  by apply with_update_registers; [apply starts_with_app|].
Qed.

(** ** The HA set *)

(** An HA set that knows its vDPUs and the global configuration answers a
    registration with its row. *)
Record programmed (now : Z) (p : ServicePath) (cfg : DashHaSetConfigTable) (g : DashHaGlobalConfig) (v0 v1 : VDpuStateExt) h : Prop := {
  pg_idle : idle p h;
  pg_cfg : dash_ha_set_config (actor h) = Some cfg;
  pg_ready : ∃ rest, ready_vdpus cfg h = Some (v0 :: v1 :: rest);
  pg_managed : ext_managed v0 || ext_managed v1 = true;
  pg_global : row_of now (table_name DashHaGlobalConfig) h = Some g;
}.
Definition programmed_state (cfg : DashHaSetConfigTable) (g : DashHaGlobalConfig) (v0 v1 : VDpuStateExt) : HaSetActorState :=
  mkHaSetActorState true (ha_set_row cfg g (local_remote v0 v1).1 (local_remote v0 v1).2).

Lemma programmed_with now n src msg p cfg g (v0 v1 : VDpuStateExt) h :
  starts_with (msg_key msg) (reg_prefix RegHaSetState) = true → programmed now p cfg g v0 v1 h →
  programmed now p cfg g v0 v1 (with_update now n src msg h).
Proof.
  intros Hk [Hi Hcfg [rest Hr] Hm Hg]. apply starts_with_inv in Hk as [i Hk]. split; [by apply with_update_idle|done| |done|].
  - exists rest. rewrite <- Hr. unfold ready_vdpus. do 2 f_equal; apply list_fmap_ext; intros j x _; unfold ext_of;
      (rewrite with_update_other; [done|by rewrite Hk]).
  - rewrite <- Hg. unfold row_of. destruct (with_update_message now n src msg h) as (e & -> & _).
    by rewrite lookup_insert_ne by (by rewrite Hk).
Qed.

Lemma haset_accepts now n sp hp a y cfg g (v0 v1 : VDpuStateExt) h :
  programmed now hp cfg g v0 v1 h → from_value y = Ok (mkRegistration true) →
  ∃ h' j x, receive_message dump now (data_message n sp hp (to_vec (registration_msg RegHaSetState a y))) h = Done (Ok tt, h') ∧
    from_value x = Ok (programmed_state cfg g v0 v1) ∧
    data_message j hp sp (to_vec (mkActorMsg (haset_msg_key (haset_id (actor h))) x)) ∈ given h h'.
Proof.
  intros Hp Hy. destruct (to_from_value (V:=V) (programmed_state cfg g v0 v1)) as (x & Hx & Hx').
  set (msg := registration_msg RegHaSetState a y). set (h0 := with_update now n sp msg h).
  assert (programmed now hp cfg g v0 v1 h0) as [Hi Hcfg [rest Hr] Hm Hg] by (apply programmed_with; [apply starts_with_app|done]).
  destruct (with_update_entry now n sp msg h) as (e & He & Hem & Hs). fold h0 in He.
  destruct (send_step now sp (mkActorMsg (haset_msg_key (haset_id (actor h))) x) h0) as (u & h1 & Hsend & Hq & Hqf).
  rewrite (id_source _ _ Hi) in Hqf.
  assert (haset_handle_message env now (msg_key msg) h0 = Done (Ok tt, h1)) as Hrun.
  { unfold haset_handle_message. rewrite decide_False by done. rewrite bind_get, Hcfg.
    assert (vdpu_is_my_msg (msg_key msg) = false) as -> by done. rewrite decide_False by done.
    assert (reg_is_my_msg (msg_key msg) RegHaSetState = true) as -> by apply starts_with_app.
    unfold handle_haset_state_registration, incoming_get_entry. rewrite bind_bind, bind_get, He, bind_ret.
    unfold deserialize_data. rewrite Hem. cbn [msg registration_msg msg_data]. rewrite Hy. cbn [of_result]. rewrite bind_ret. cbn [reg_active].
    rewrite (bind_done _ _ _ _ _ (ready_run cfg h0 Hcfg)), Hr, (bind_done _ _ _ _ _ (prepare_run now h0 cfg g v0 v1 rest Hcfg Hm Hg)).
    rewrite bind_get. rewrite (bind_done _ _ _ (mkActorMsg (haset_msg_key (haset_id (actor h))) x) h0).
    2: { unfold unwrap_result, bind, attempt, haset_new_actor_msg. by rewrite (actor_msg_run _ _ _ _ Hx). }
    rewrite Hs. exact Hsend. }
  destruct (turn_queue (Actor0:=this_haset_actor) dump now hp n sp msg [u] h h0 h1 (pg_idle _ _ _ _ _ _ _ Hp) Hrun Hq eq_refl) as (h' & Hrec & Ht).
  destruct (turn_queued_sent now hp _ sp [u] h h0 h1 h' u Ht Hq (list_elem_of_here _ _) Hqf) as [j Hj].
  exists h', j, x. by split.
Qed.

(** ** The HA scope *)

(** A scope between two messages that waits for its vDPU: configured, but with no
    entry and no bridge yet. *)
Record waiting (p : ServicePath) (vid sid : string) (cfg : option DashHaScopeConfigTable) c : Prop := {
  wt_idle : idle p c;
  wt_vdpu : scope_vdpu_id (actor c) = vid;
  wt_scope : ha_scope_id (actor c) = sid;
  wt_cfg : dash_ha_scope_config (actor c) = cfg;
  wt_entry : internal_table c = ∅;
  wt_bridges : hascope_bridges (actor c) = [];
}.

Lemma scope_register_run now t dest y c :
  is_Some (dash_ha_scope_config (actor c)) → to_value (mkRegistration true) = Ok y →
  scope_register now true t dest c = outgoing_send now (dest c) (registration_msg t (hascope_actor_id (actor c)) y) c.
Proof.
  intros [cfg Hcfg] Hy. unfold scope_register. rewrite bind_get, Hcfg. unfold reg_new_actor_msg.
  by rewrite (bind_done _ _ _ _ _ (actor_msg_run _ _ _ _ Hy)).
Qed.

Lemma waiting_with now n src msg p vid sid cfg c : waiting p vid sid cfg c → waiting p vid sid cfg (with_update now n src msg c).
Proof. intros []. split; try done. by apply with_update_idle. Qed.

(** Its configuration registers a scope with its vDPU and its HA set. *)
Lemma scope_configured now n bp sp w cfg vid sid c :
  waiting sp vid sid None c → typed_of VDpuActorState (vdpu_msg_key vid) c = None → configures now w cfg →
  ∃ c' y, receive_message dump now (data_message n bp sp (to_vec (mkActorMsg (table_name DashHaScopeConfigTable) w))) c = Done (Ok tt, c') ∧
    waiting sp vid sid (Some cfg) c' ∧ typed_of VDpuActorState (vdpu_msg_key vid) c' = None ∧ from_value y = Ok (mkRegistration true) ∧
    (∃ j, data_message j sp (from_my_sp "vdpu" vid c) (to_vec (registration_msg RegVDPUState (hascope_actor_id (actor c)) y)) ∈ given c c') ∧
    (∃ j, data_message j sp (from_my_sp "ha-set" sid c) (to_vec (registration_msg RegHaSetState (hascope_actor_id (actor c)) y)) ∈ given c c').
Proof.
  intros [Hi Hvid Hsid Hcfg Hent Hbr] Hun (key & fv & Hkfv & Hrow). destruct (to_from_value (V:=V) (mkRegistration true)) as (y & Hy & Hy').
  set (msg := mkActorMsg (table_name DashHaScopeConfigTable) w). set (c0 := with_update now n bp msg c).
  destruct (with_update_entry now n bp msg c) as (e & He & Hm & _). fold c0 in He.
  set (c1 := set_scope_config cfg c0).
  destruct (send_step now (from_my_sp "vdpu" vid c) (registration_msg RegVDPUState (hascope_actor_id (actor c)) y) c1) as (u1 & c2 & Hs1 & Hq1 & Hf1).
  destruct (send_step now (from_my_sp "ha-set" sid c) (registration_msg RegHaSetState (hascope_actor_id (actor c)) y) c2) as (u2 & c3 & Hs2 & Hq2 & Hf2).
  rewrite (oq_source _ _ _ Hq1) in Hf2. assert (client_source (swbus_client c1) = sp) as Hsrc by apply Hi. rewrite Hsrc in Hf1, Hf2.
  pose proof (only_queued_trans _ _ _ _ _ Hq1 Hq2) as Hq. cbn [app] in Hq.
  assert (∀ s, heard c0 s → typed_of VDpuActorState (vdpu_msg_key vid) s = None) as Hnone.
  { intros s Hs. rewrite (heard_typed _ _ _ Hs), <- Hun. by apply with_update_other. }
  assert (heard c0 c3) as Hh03 by apply (heard_incoming c1 c3), (oq_incoming _ _ _ Hq).
  assert (hascope_handle_message env uuid now (msg_key msg) c0 = Done (Ok tt, c3)) as Hrun.
  { unfold hascope_handle_message. rewrite decide_True by done. rewrite (bind_done _ _ _ (Ok tt) c3); [done|]. unfold attempt.
    assert (handle_dash_ha_scope_config_table_message now (msg_key msg) c0 = Done (Ok tt, c3)) as ->; [|done].
    unfold handle_dash_ha_scope_config_table_message.
    rewrite (bind_done _ _ _ (inc_msg e) c0) by (unfold incoming_get, incoming_get_entry, bind, get_state; by rewrite He).
    rewrite (bind_done _ _ _ (mkKfv key KopSet fv) c0) by (unfold deserialize_data; rewrite Hm; cbn; by rewrite Hkfv).
    rewrite decide_False by done. rewrite bind_get. cbn [kfv_field_values]. rewrite Hrow. cbn [of_result]. rewrite bind_ret, bind_modify. fold c1.
    change (dash_ha_scope_config (actor c0)) with (dash_ha_scope_config (actor c)). rewrite Hcfg. cbn [when].
    unfold scope_register_to_vdpu_actor, register_to_haset_actor. rewrite bind_bind.
    assert (is_Some (dash_ha_scope_config (actor c1)) ∧ is_Some (dash_ha_scope_config (actor c2))) as [Hc1 Hc2]
      by (rewrite (oq_actor _ _ _ Hq1); split; by exists cfg).
    rewrite (bind_done _ _ _ tt c2).
    2: { rewrite (scope_register_run now _ _ y c1 Hc1 Hy), <- Hs1. cbn. by rewrite Hvid. }
    rewrite (bind_done _ _ _ tt c3).
    2: { rewrite (scope_register_run now _ _ y c2 Hc2 Hy), <- Hs2. rewrite (oq_actor _ _ _ Hq1). cbn.
         rewrite Hsid. by rewrite (from_my_sp_source _ _ c1 c2 (oq_source _ _ _ Hq1)). }
    unfold vdpu_is_managed. rewrite bind_bind, (bind_done _ _ _ _ _ (scope_vdpu_run c3)).
    rewrite (oq_actor _ _ _ Hq). cbn [scope_vdpu_id actor set_scope_config set_actor c1]. change (actor c0) with (actor c).
    rewrite Hvid, (Hnone c3 Hh03). done. }
  destruct (turn_queue (Actor0:=this_scope_actor) dump now sp n bp msg _ c c1 c3 Hi Hrun Hq eq_refl) as (c' & Hrec & Ht). pose proof Ht as [Hi' Ha Hh Hint _ _].
  exists c', y. split; [exact Hrec|]. split; [|split; [apply Hnone; by transitivity c3|split; [done|split]]].
  - rewrite (oq_actor _ _ _ Hq) in Ha. split; [done|by rewrite Ha..| |by rewrite Ha].
    rewrite Hint, (oq_internal _ _ _ Hq). change (internal_table c1) with (internal_table c). by rewrite Hent.
  - eapply turn_queued_sent; [exact Ht|exact Hq|by left|exact Hf1].
  - eapply turn_queued_sent; [exact Ht|exact Hq|by right; left|exact Hf2].
Qed.

(** It keeps what the HA set answers. *)
Lemma scope_hears_haset now n hp sp vid sid cfg x st c :
  waiting sp vid sid (Some cfg) c → typed_of VDpuActorState (vdpu_msg_key vid) c = None → from_value x = Ok st →
  ∃ c', receive_message dump now (data_message n hp sp (to_vec (mkActorMsg (haset_msg_key sid) x))) c = Done (Ok tt, c') ∧
    waiting sp vid sid (Some cfg) c' ∧ typed_of HaSetActorState (haset_msg_key sid) c' = Some st.
Proof.
  intros [Hi Hvid Hsid Hcfg Hent Hbr] Hun Hx. set (msg := mkActorMsg (haset_msg_key sid) x). set (c0 := with_update now n hp msg c).
  assert (typed_of VDpuActorState (vdpu_msg_key vid) c0 = None) as Hnone by (rewrite <- Hun; by apply with_update_other).
  assert (hascope_handle_message env uuid now (msg_key msg) c0 = Done (Ok tt, c0)) as Hrun.
  { unfold hascope_handle_message. rewrite decide_False by done. rewrite bind_get. change (actor c0) with (actor c). rewrite Hcfg.
    assert (vdpu_is_my_msg (msg_key msg) = false) as -> by done.
    assert (haset_is_my_msg (msg_key msg) = true) as -> by apply starts_with_app.
    unfold handle_haset_state_update, update_npu_ha_scope_state_base. rewrite bind_get. change (actor c0) with (actor c). rewrite Hcfg.
    rewrite (bind_done _ _ _ _ _ (scope_vdpu_run c0)). change (actor c0) with (actor c). by rewrite Hvid, Hnone. }
  destruct (turn_queue (Actor0:=this_scope_actor) dump now sp n hp msg [] c c0 c0 Hi Hrun (only_queued_refl _) eq_refl) as (c' & Hrec & [Hi' Ha Hh Hint _ _]).
  change (actor c0) with (actor c) in Ha. change (internal_table c0) with (internal_table c) in Hint.
  exists c'. split; [exact Hrec|]. split; [|by rewrite (heard_typed _ _ _ Hh); apply (with_update_typed now n hp msg)].
  split; rewrite ?Ha; try done. by rewrite Hint, Hent.
Qed.

(** The entry a scope opens for its row: as the database has it. *)
Definition npu_entry_key (vid sid : string) : string := vid +:+ "|" +:+ sid.
Lemma open_npu_run vid sid hyd c :
  scope_vdpu_id (actor c) = vid → ha_scope_id (actor c) = sid → internal_table c = ∅ → hascope_bridges (actor c) = [] →
  env_open env "STATE_DB" "DASH_HA_SCOPE_STATE" false = Ok tt → env_open env "DPU_STATE_DB" "DASH_HA_SCOPE_STATE" true = Ok tt →
  table_get (databases c) "DASH_HA_SCOPE_STATE" (npu_entry_key vid sid) = Ok hyd →
  let v := default ∅ hyd in
  let e := mkIntEntry "DASH_HA_SCOPE_STATE" (npu_entry_key vid sid) v false v None in
  let T := NpuDashHaScopeState in
  let a := actor c in
  let sk := scope_vdpu_id a +:+ key_separator T +:+ ha_scope_id a in
  ∃ b, ∀ {X} (k : M (ActorSt V Db HaScopeActor) string X), ((if internal_has_entry (table_name T) sk c then ret tt
    else let* _ := of_result (env_open env (db_name T) (table_name T) (is_dpu T)) in internal_add (table_name T) (table_name T) sk);;;
   (match hascope_bridges a with
    | [] => let* b := spawn_consumer_bridge DpuDashHaScopeState env "ha-scope" (Some (hascope_actor_id a)) true (λ _, Some true) in
            modify (push_scope_bridge b)
    | _ => ret tt
    end);;; k) c = k (push_scope_bridge b (set_internal {[table_name T := e]} c)).
Proof.
  intros Hvid Hsid Hint Hbr Hopen1 Hopen2 Hhyd v e T a sk. eexists. intros X k.
  rewrite (bind_done _ _ _ tt (set_internal {[table_name T := e]} c)).
  2: { unfold internal_has_entry. rewrite Hint, lookup_empty. change (env_open env (db_name T) (table_name T) (is_dpu T)) with (env_open env "STATE_DB" "DASH_HA_SCOPE_STATE" false).
       rewrite Hopen1. cbn [of_result]. rewrite bind_ret. unfold internal_add. rewrite bind_get.
       assert (sk = npu_entry_key vid sid) as -> by (unfold sk, a; by rewrite Hvid, Hsid).
       change (table_get (databases c) (table_name T) (npu_entry_key vid sid)) with (table_get (databases c) "DASH_HA_SCOPE_STATE" (npu_entry_key vid sid)).
       rewrite Hhyd. cbn [of_result]. unfold unwrap_result. rewrite Hint. reflexivity. }
  unfold a. rewrite Hbr. erewrite bind_done; [reflexivity|].
  unfold spawn_consumer_bridge. rewrite bind_bind.
  change (env_open env (db_name DpuDashHaScopeState) (table_name DpuDashHaScopeState) (is_dpu DpuDashHaScopeState))
    with (env_open env "DPU_STATE_DB" "DASH_HA_SCOPE_STATE" true). rewrite Hopen2. reflexivity.
Qed.

Definition npu_entry_of (vid sid : string) (hyd : option FieldValues) : InternalTableEntry :=
  mkIntEntry "DASH_HA_SCOPE_STATE" (npu_entry_key vid sid) (default ∅ hyd) false (default ∅ hyd) None.

(** What the callback of the first managed state does. *)
Lemma scope_open_run now p vid sid cfg b st hst hyd c :
  waiting p vid sid (Some cfg) c → default [] (hscc_approved_pending_operation_ids cfg) = [] →
  typed_of HaSetActorState (haset_msg_key sid) c = Some hst → typed_of VDpuActorState (vdpu_msg_key vid) c = Some (mkVDpuActorState b st) →
  das_is_managed st = true →
  env_open env "STATE_DB" "DASH_HA_SCOPE_STATE" false = Ok tt → env_open env "DPU_STATE_DB" "DASH_HA_SCOPE_STATE" true = Ok tt →
  table_get (databases c) "DASH_HA_SCOPE_STATE" (npu_entry_key vid sid) = Ok hyd →
  let e := npu_entry_of vid sid hyd in
  ∃ f c1, to_field_values (mirrored now st hst e) = Ok f ∧ hascope_handle_message env uuid now (vdpu_msg_key vid) c = Done (Ok tt, c1) ∧
    internal_table c1 = {[table_name NpuDashHaScopeState := fvs_mut (λ _, f) e]} ∧ incoming_table c1 = incoming_table c ∧
    ∀ t e', internal_table c1 !! table_name NpuDashHaScopeState = Some e' → opened t vid hst e' c1.
Proof.
  intros [_ Hvid Hsid Hcfg Hent Hbr] Hap Hh Hv Hm Hopen1 Hopen2 Hhyd e.
  destruct (open_npu_run vid sid hyd c Hvid Hsid Hent Hbr Hopen1 Hopen2 Hhyd) as [br Hopen].
  set (c1 := push_scope_bridge br (set_internal {[table_name NpuDashHaScopeState := e]} c)) in *.
  assert (approvable now c1 cfg ∅) as Happ by by left.
  destruct (scope_table_run now c1 cfg ∅ Hcfg Happ) as [_ Htab].
  edestruct (fv_total (T:=DashHaScopeTable)) as [fv Hfv]. edestruct (to_from_value (V:=V) (T:=KeyOpFieldValues)) as (kv & Hkv & _).
  destruct (Htab fv kv Hfv Hkv) as (u & c2 & Hrun & Hq & _).
  assert (∀ t e' (s : ActorSt V Db HaScopeActor), actor s = actor c1 → incoming_table s = incoming_table c → internal_table s !! table_name NpuDashHaScopeState = Some e' →
    swss_table_name e' = "DASH_HA_SCOPE_STATE" → swss_key e' = npu_entry_key vid sid → opened t vid hst e' s) as Hop.
  { intros t e' s Ha Hin He Ht Hk. split; rewrite ?Ha; try done; [by rewrite Hk; cbn; rewrite Hsid| | |].
    - intros cfg' Hcfg'. exists ∅. left. change (dash_ha_scope_config (actor c) = Some cfg') in Hcfg'. by rewrite Hcfg in Hcfg'; injection Hcfg' as <-.
    - cbn. rewrite Hbr. done.
    - change (ha_scope_id (actor c1)) with (ha_scope_id (actor c)). rewrite Hsid, <- Hh. unfold typed_of. by rewrite Hin. }
  assert (opened now vid hst e c2) as Hop2.
  { apply Hop; [apply Hq|by rewrite (oq_incoming _ _ _ Hq)| |done..]. rewrite (oq_internal _ _ _ Hq). apply lookup_singleton_eq. }
  assert (typed_of VDpuActorState (vdpu_msg_key vid) c2 = Some (mkVDpuActorState b st)) as Hv2
    by (rewrite <- Hv; unfold typed_of; by rewrite (oq_incoming _ _ _ Hq)).
  destruct (npu_base_run now vid hst e st b c2 Hop2 Hv2 Hm) as (f & Hf & Hbase).
  eexists f, _. split; [exact Hf|]. split.
  - unfold hascope_handle_message. rewrite decide_False by done. rewrite bind_get, Hcfg. unfold vdpu_is_my_msg, vdpu_msg_key. rewrite starts_with_app.
    unfold scope_handle_vdpu_state_update. rewrite (bind_done _ _ _ _ _ (scope_vdpu_run c)), Hvid, Hv. cbn [vds_dpu]. rewrite Hm. cbn [negb].
    rewrite bind_get. etrans; [apply Hopen|]. rewrite (bind_done _ _ _ _ _ Hrun). exact Hbase.
  - cbn. rewrite (oq_internal _ _ _ Hq). split; [change (internal_table c1) with ({[table_name NpuDashHaScopeState := e]} : gmap string InternalTableEntry); by rewrite <- !insert_empty, insert_insert_eq|]. split; [by rewrite (oq_incoming _ _ _ Hq)|].
    intros t e' He'. apply Hop; [apply Hq|apply (oq_incoming _ _ _ Hq)|done|..];
      cbn in He'; rewrite lookup_insert_eq in He'; by injection He' as <-.
Qed.

Lemma scope_opens now n vp sp vid sid cfg x b st hst c :
  waiting sp vid sid (Some cfg) c → default [] (hscc_approved_pending_operation_ids cfg) = [] →
  typed_of HaSetActorState (haset_msg_key sid) c = Some hst → from_value x = Ok (mkVDpuActorState b st) → das_is_managed st = true →
  env_open env "STATE_DB" "DASH_HA_SCOPE_STATE" false = Ok tt → env_open env "DPU_STATE_DB" "DASH_HA_SCOPE_STATE" true = Ok tt →
  (∃ hyd, table_get (databases c) "DASH_HA_SCOPE_STATE" (npu_entry_key vid sid) = Ok hyd) →
  ∃ c' hyd e f g, receive_message dump now (data_message n vp sp (to_vec (mkActorMsg (vdpu_msg_key vid) x))) c = Done (Ok tt, c') ∧
    (∀ t, mirroring t sp vid hst e c') ∧
    table_get (databases c) "DASH_HA_SCOPE_STATE" (npu_entry_key vid sid) = Ok hyd ∧
    to_field_values (mirrored now st hst (npu_entry_of vid sid hyd)) = Ok f ∧
    table_get (databases c') "DASH_HA_SCOPE_STATE" (npu_entry_key vid sid) = Ok g ∧ f ⊆ default ∅ g.
Proof.
  intros Hw Hap Hh Hx Hm Hopen1 Hopen2 [hyd Hhyd]. set (msg := mkActorMsg (vdpu_msg_key vid) x). set (c0 := with_update now n vp msg c).
  destruct (scope_open_run now sp vid sid cfg b st hst hyd c0) as (f & c1 & Hf & Hrun & Hint & Hin & Hop); try done.
  - by apply waiting_with.
  - rewrite <- Hh. by apply with_update_other.
  - by apply (with_update_typed now n vp msg).
  - destruct (turn_run (Actor0:=this_scope_actor) dump now sp n vp msg c c1 (wt_idle _ _ _ _ _ Hw) Hrun) as (c' & Hrec & [Hi' Ha Hhd Hint' Hread _]).
    { intros k1 k2 e1 e2. rewrite Hint. by intros [<- _]%lookup_singleton_Some [<- _]%lookup_singleton_Some. }
    set (e1 := fvs_mut (λ _, f) (npu_entry_of vid sid hyd)) in *.
    assert (internal_table c1 !! table_name NpuDashHaScopeState = Some e1) as He1 by (rewrite Hint; apply lookup_singleton_eq).
    destruct (Hread _ _ He1) as (g & Hg & Hsub). exists c', hyd, (entry_committed now e1), f, g.
    split; [exact Hrec|]. split; [|by split_and!].
    intros t. split; [done|]. destruct (Hop t e1 He1) as [? ? ? ? ? Hops ? ?]. split; rewrite ?Ha; try done.
    + by rewrite Hint', lookup_fmap, He1.
    + intros cfg' Hcfg'. destruct (Hops cfg' Hcfg') as [ops [Hno|(e' & He' & Hst)]]; [exists ∅; by left|].
      exists ops. right. exists (entry_committed now e'). by rewrite Hint', lookup_fmap, He'.
    + by rewrite (heard_typed _ _ _ Hhd).
Qed.

(** ** The whole chain *)

(** C7: The configuration of a vDPU and of an HA scope assembles the chain. A local
    managed DPU and an HA set that knows its vDPUs are there, already configured;
    a vDPU and an HA scope of that vDPU and set get their rows. The vDPU's row
    makes it register with the DPU, which answers with its state (if its times
    and sessions can be printed); the scope's row makes it register with the
    vDPU and the HA set, which answer with theirs; and with the two answers the
    scope opens its row and writes it, with the DPU's times in whole seconds.
    From then on the three actors are as [dpu_state_reaches_controller] needs
    them: every change of the DPU reaches the row. *)
Theorem chain_assembled (t1 t2 t3 t4 t5 t6 t7 t8 n1 n2 : Z) bp1 bp2 w1 w2 i ds dpu ip ip6 vid sid cfg scfg g (x0 x1 : VDpuStateExt) d v h c :
  let sp := client_source (swbus_client c) in
  let vp := from_my_sp "vdpu" vid c in
  let hp := from_my_sp "ha-set" sid c in
  let dp := from_my_sp "dpu" i v in
  idle vp v → vdpu_actor_id (actor v) = vid → configures t1 w1 (mkVDpu (i :: ds)) →
  idle dp d → dpu_actor_id (actor d) = i → dpu_data (actor d) = Some (LocalDpu dpu true ip ip6) →
  timely (reported_state t2 i dpu ip ip6 d) →
  programmed t6 hp scfg g x0 x1 h → haset_id (actor h) = sid →
  waiting sp vid sid None c → typed_of VDpuActorState (vdpu_msg_key vid) c = None →
  configures t4 w2 cfg → default [] (hscc_approved_pending_operation_ids cfg) = [] →
  env_open env "STATE_DB" "DASH_HA_SCOPE_STATE" false = Ok tt → env_open env "DPU_STATE_DB" "DASH_HA_SCOPE_STATE" true = Ok tt →
  (∀ db : Db, ∃ hyd, table_get db "DASH_HA_SCOPE_STATE" (npu_entry_key vid sid) = Ok hyd) →
  let hears {A} `{!Actor (V:=V) (Db:=Db) (A:=A)} (t : Z) m (s s' : ActorSt V Db A) := receive_message dump t m s = Done (Ok tt, s') in
  ∃ d1 v1 v2 v3 h1 c1 c2 c3 m1 m2 m3 m4 m5 m6,
    hears t1 (data_message n1 bp1 vp (to_vec (mkActorMsg "VDPU" w1))) v v1 ∧ m1 ∈ given v v1 ∧
    hears t2 m1 d d1 ∧ m2 ∈ given d d1 ∧
    hears t3 m2 v1 v2 ∧
    hears t4 (data_message n2 bp2 sp (to_vec (mkActorMsg "DASH_HA_SCOPE_CONFIG_TABLE" w2))) c c1 ∧ m3 ∈ given c c1 ∧ m4 ∈ given c c1 ∧
    hears t5 m3 v2 v3 ∧ m5 ∈ given v2 v3 ∧
    hears t6 m4 h h1 ∧ m6 ∈ given h h1 ∧
    hears t7 m6 c1 c2 ∧ hears t8 m5 c2 c3 ∧
    reporting dp vp dpu ip ip6 d1 ∧ forwarding vp sp i v3 ∧
    (∃ e, ∀ t, mirroring t sp vid (programmed_state scfg g x0 x1) e c3) ∧
    ∃ hyd f row, to_field_values (mirrored t8 (in_seconds (reported_state t2 i dpu ip ip6 d)) (programmed_state scfg g x0 x1) (npu_entry_of vid sid hyd)) = Ok f ∧
      table_get (databases c3) "DASH_HA_SCOPE_STATE" (vid +:+ "|" +:+ sid) = Ok row ∧ f ⊆ default ∅ row.
Proof.
  intros sp vp hp dp Hiv Hvid Hw1 Hid Hi Hdata Htm Hph Hsid Hwc Hun Hw2 Hap Hopen1 Hopen2 Hget hears.
  destruct (vdpu_configured t1 n1 bp1 vp w1 _ v Hiv Hw1) as (vA & y1 & Hr1 & HiA & HaA & Hy1 & Hm1).
  destruct (Hm1 i (list_elem_of_here _ _)) as [j1 Hj1].
  destruct (dpu_accepts t2 j1 vp dp (vdpu_actor_id (actor v)) y1 dpu ip ip6 d Hid Hdata Hy1 ltac:(by rewrite Hi)) as (d1 & j2 & w & Hr2 & Hrep & _ & Hw & Hj2).
  rewrite Hi in Hw. pose proof (in_seconds_timely _ Htm) as Hts.
  destruct (vdpu_informed t3 j2 dp vp i ds w _ vA HiA ltac:(by rewrite HaA) Hw Hts) as (vB & Hr3 & HiB & HaB & HtB).
  destruct (scope_configured t4 n2 bp2 sp w2 cfg vid sid c Hwc Hun Hw2) as (cA & y2 & Hr4 & HwA & HunA & Hy2 & [j3 Hj3] & [j4 Hj4]).
  destruct (vdpu_accepts t5 j3 sp vp (hascope_actor_id (actor c)) y2 i ds _ vB HiB ltac:(by rewrite HaB, HaA) HtB Hts Hy2) as (vC & j5 & x & Hr5 & Hfw & _ & Hx & Hj5).
  rewrite in_seconds_twice in Hx.
  destruct (haset_accepts t6 j4 sp hp (hascope_actor_id (actor c)) y2 scfg g x0 x1 h Hph Hy2) as (h1 & j6 & z & Hr6 & Hz & Hj6).
  destruct (scope_hears_haset t7 j6 hp sp vid sid cfg z _ cA HwA HunA Hz) as (cB & Hr7 & HwB & HtB').
  destruct (scope_opens t8 j5 vp sp vid sid cfg x _ _ _ cB HwB Hap HtB' Hx eq_refl Hopen1 Hopen2 (Hget _))
    as (cC & hyd & e & f & row & Hr8 & Hmir & _ & Hf & Hrow & Hsub).
  rewrite Hi in *. rewrite Hsid in Hj6.
  assert (vdpu_actor_id (actor vB) = vid) as HvB by by rewrite HaB, HaA. rewrite HvB in Hj5.
  eexists d1, vA, vB, vC, h1, cA, cB, cC, _, _, _, _, _, _.
  split; [exact Hr1|]. split; [exact Hj1|]. split; [exact Hr2|]. split; [exact Hj2|]. split; [exact Hr3|]. split; [exact Hr4|].
  split; [exact Hj3|]. split; [exact Hj4|]. split; [exact Hr5|]. split; [exact Hj5|]. split; [exact Hr6|]. split; [exact Hj6|].
  split; [exact Hr7|]. split; [exact Hr8|]. split; [exact Hrep|]. split; [exact Hfw|]. split; [by exists e|].
  exists hyd, f, row. split; [exact Hf|]. by split.
Qed.
End Assembly.
