(* ===== verification/HaValue.v ===== *)
(** The JSON value of a message between hamgrd's actors, for concrete runs: tagged
    by its kind, and written as the bytes of a tree of its fields. As in the code
    the times of a DPU's state are cut to whole seconds. *)
From S2P Require Import Prelude RustStr Path Proto Actor Bridge HaTypes HaRows HaJson.

Open Scope stdpp_scope.

(** The JSON value of each kind of message. *)
Inductive HaValue : Type :=
| HvKfv (x : KeyOpFieldValues)
| HvDpu (x : DpuActorState)
| HvVDpu (x : VDpuActorState)
| HvHaSet (x : HaSetActorState)
| HvReg (x : ActorRegistration).

Definition wrong_type {A} : result A string := Err "invalid type".

(** Times as decimal seconds. *)
#[export] Instance demo_chrono : Chrono := {|
  format_timestamp z := if bool_decide (0 ≤ z < 253402300800000)%Z then Some (int_to_string (z / 1000)) else None;
  parse_timestamp s := match parse_int 0 253402300800 s with Some z => Ok (z * 1000)%Z | None => Err "invalid timestamp" end;
|}.
#[export] Instance demo_chrono_laws : ChronoLaws.
Proof.
  intros t Ht. unfold in_era in Ht. exists (int_to_string (t / 1000)). unfold format_timestamp, parse_timestamp, demo_chrono.
  rewrite bool_decide_eq_true_2 by done. split; [done|]. rewrite parse_int_to_string; [done|].
  pose proof (Z.div_mod t 1000). pose proof (Z.mod_pos_bound t 1000). lia.
Qed.

Definition json_or_error (x : DpuActorState) (k : DpuActorState → HaValue) : result HaValue string :=
  match json_dpu x with Some y => Ok (k y) | None => Err "invalid timestamp" end.

#[export] Instance demo_ha_codec : HaCodec HaValue := {|
  kfv_codec := {| to_value x := Ok (HvKfv x); from_value v := match v with HvKfv x => Ok x | _ => wrong_type end |};
  dpu_state_codec := {| to_value x := json_or_error x HvDpu; from_value v := match v with HvDpu x => Ok x | _ => wrong_type end |};
  vdpu_state_codec := {| to_value x := json_or_error (vds_dpu x) (λ y, HvVDpu (mkVDpuActorState (vds_up x) y)); from_value v := match v with HvVDpu x => Ok x | _ => wrong_type end |};
  haset_state_codec := {| to_value x := Ok (HvHaSet x); from_value v := match v with HvHaSet x => Ok x | _ => wrong_type end |};
  registration_codec := {| to_value x := Ok (HvReg x); from_value v := match v with HvReg x => Ok x | _ => wrong_type end |};
|}.

#[export] Instance demo_state_json : StateJson HaValue.
Proof.
  split; [intros x y Hy; exists (HvDpu y)|intros b x y Hy; exists (HvVDpu (mkVDpuActorState b y))]; cbn; unfold json_or_error; cbn;
    by rewrite Hy.
Qed.

(** * The bytes of a value *)

(** A value as a tree of numbers and strings. *)
Inductive Tree : Set := TNum (z : Z) | TStr (s : string) | TList (l : list Tree).

Class TreeOf (T : Type) := { tree : T → Tree; untree : Tree → option T; untree_tree x : untree (tree x) = Some x }.

#[export] Instance num_tree : TreeOf Z.
Proof. refine {| tree := TNum; untree t := match t with TNum z => Some z | _ => None end |}. done. Defined.
#[export] Instance bool_tree : TreeOf bool.
Proof. refine {| tree b := TNum (if b : bool then 1 else 0); untree t := match t with TNum 1 => Some true | TNum 0 => Some false | _ => None end |}. by intros []. Defined.
#[export] Instance string_tree : TreeOf string.
Proof. refine {| tree := TStr; untree t := match t with TStr s => Some s | _ => None end |}. done. Defined.
#[export] Instance option_tree {T} `{!TreeOf T} : TreeOf (option T).
Proof.
  refine {| tree x := TList (match x with Some y => [tree y] | None => [] end);
            untree t := match t with TList [] => Some None | TList [y] => Some <$> untree y | _ => None end |}.
  intros [y|]; [|done]. by rewrite untree_tree.
Defined.
#[export] Instance list_tree {T} `{!TreeOf T} : TreeOf (list T).
Proof.
  refine {| tree l := TList (tree <$> l); untree t := match t with TList l => mapM untree l | _ => None end |}.
  intros l. induction l as [|x l IH]; [done|]. cbn. rewrite untree_tree. cbn. cbn in IH. by rewrite IH.
Defined.
#[export] Instance pmon_tree : TreeOf DpuPmonStateType.
Proof.
  refine {| tree x := TNum (match x with PmonUp => 0 | PmonDown => 1 | PmonUnknown => 2 end);
            untree t := match t with TNum 0 => Some PmonUp | TNum 1 => Some PmonDown | TNum 2 => Some PmonUnknown | _ => None end |}.
  by intros [].
Defined.

(** A record is the list of its fields. *)
Ltac tree_record := intros []; cbn -[tree untree]; rewrite ?untree_tree; reflexivity.

#[export] Instance dpu_state_row_tree : TreeOf DpuState.
Proof.
  refine {| tree x := TList [tree (dpu_midplane_link_state x); tree (dpu_midplane_link_time x); tree (dpu_control_plane_state x);
              tree (dpu_control_plane_time x); tree (dpu_data_plane_state x); tree (dpu_data_plane_time x)];
            untree t := match t with
              | TList [a; b; c; d; e; f] => a ← untree a; b ← untree b; c ← untree c; d ← untree d; e ← untree e; f ← untree f;
                  Some (mkDpuState a b c d e f)
              | _ => None end |}.
  tree_record.
Defined.
#[export] Instance bfd_probe_row_tree : TreeOf DashBfdProbeState.
Proof.
  refine {| tree x := TList [tree (v4_bfd_up_sessions x); tree (v4_bfd_up_sessions_timestamp x); tree (v6_bfd_up_sessions x);
              tree (v6_bfd_up_sessions_timestamp x)];
            untree t := match t with
              | TList [a; b; c; d] => a ← untree a; b ← untree b; c ← untree c; d ← untree d; Some (mkBfdProbe a b c d)
              | _ => None end |}.
  tree_record.
Defined.
#[export] Instance ha_set_row_tree : TreeOf DashHaSetTable.
Proof.
  refine {| tree x := TList [tree (hs_version x); tree (hs_vip_v4 x); tree (hs_vip_v6 x); tree (hs_owner x); tree (hs_scope x);
              tree (hs_local_npu_ip x); tree (hs_local_ip x); tree (hs_peer_ip x); tree (hs_cp_data_channel_port x);
              tree (hs_dp_channel_dst_port x); tree (hs_dp_channel_src_port_min x); tree (hs_dp_channel_src_port_max x);
              tree (hs_dp_channel_probe_interval_ms x); tree (hs_dp_channel_probe_fail_threshold x)];
            untree t := match t with
              | TList [a; b; c; d; e; f; g; h; i; j; k; l; m; n] =>
                  a ← untree a; b ← untree b; c ← untree c; d ← untree d; e ← untree e; f ← untree f; g ← untree g;
                  h ← untree h; i ← untree i; j ← untree j; k ← untree k; l ← untree l; m ← untree m; n ← untree n;
                  Some (mkHaSet a b c d e f g h i j k l m n)
              | _ => None end |}.
  tree_record.
Defined.
#[export] Instance dpu_actor_state_tree : TreeOf DpuActorState.
Proof.
  refine {| tree x := TList [tree (das_remote_dpu x); tree (das_is_managed x); tree (das_dpu_name x); tree (das_up x); tree (das_state x);
              tree (das_npu_ipv4 x); tree (das_npu_ipv6 x); tree (das_vip_ipv4 x); tree (das_vip_ipv6 x); tree (das_pa_ipv4 x);
              tree (das_pa_ipv6 x); tree (das_dpu_id x); tree (das_vdpu_id x); tree (das_orchagent_zmq_port x); tree (das_swbus_port x);
              tree (das_midplane_ipv4 x); tree (das_dpu_pmon_state x); tree (das_dpu_bfd_state x)];
            untree t := match t with
              | TList [a; b; c; d; e; f; g; h; i; j; k; l; m; n; o; p; q; r] =>
                  a ← untree a; b ← untree b; c ← untree c; d ← untree d; e ← untree e; f ← untree f; g ← untree g;
                  h ← untree h; i ← untree i; j ← untree j; k ← untree k; l ← untree l; m ← untree m; n ← untree n;
                  o ← untree o; p ← untree p; q ← untree q; r ← untree r;
                  Some (mkDpuActorState a b c d e f g h i j k l m n o p q r)
              | _ => None end |}.
  tree_record.
Defined.
Definition pair_tree (e : string * string) : Tree := TList [TStr e.1; TStr e.2].
Definition untree_pair (t : Tree) : option (string * string) := match t with TList [TStr a; TStr b] => Some (a, b) | _ => None end.
Lemma untree_pairs l : mapM untree_pair (pair_tree <$> l) = Some l.
Proof. induction l as [|[a b] l IH]; [done|]. cbn. cbn in IH. by rewrite IH. Qed.
#[export] Instance kfv_tree : TreeOf KeyOpFieldValues.
Proof.
  refine {| tree x := TList [TStr (kfv_key x); tree (bool_decide (kfv_operation x = KopSet)); TList (pair_tree <$> map_to_list (kfv_field_values x))];
            untree t := match t with
              | TList [TStr k; o; TList l] => o ← untree o; l ← mapM untree_pair l;
                  Some (mkKfv k (if o : bool then KopSet else KopDel) (list_to_map l))
              | _ => None end |}.
  intros [k o f]. cbn -[map_to_list list_to_map tree untree mapM fmap]. rewrite untree_tree. cbn -[map_to_list list_to_map mapM fmap].
  rewrite untree_pairs. cbn -[map_to_list list_to_map]. rewrite list_to_map_to_list. by destruct o.
Defined.
#[export] Instance ha_value_tree : TreeOf HaValue.
Proof.
  refine {| tree v := match v with
              | HvKfv x => TList [TNum 0; tree x]
              | HvDpu x => TList [TNum 1; tree x]
              | HvVDpu x => TList [TNum 2; tree (vds_up x); tree (vds_dpu x)]
              | HvHaSet x => TList [TNum 3; tree (hss_up x); tree (hss_ha_set x)]
              | HvReg x => TList [TNum 4; tree (reg_active x)]
              end;
            untree t := match t with
              | TList [TNum 0; x] => HvKfv <$> untree x
              | TList [TNum 1; x] => HvDpu <$> untree x
              | TList [TNum 2; a; b] => a ← untree a; b ← untree b; Some (HvVDpu (mkVDpuActorState a b))
              | TList [TNum 3; a; b] => a ← untree a; b ← untree b; Some (HvHaSet (mkHaSetActorState a b))
              | TList [TNum 4; a] => a ← untree a; Some (HvReg (mkRegistration a))
              | _ => None end |}.
  intros [x|x|[]|[]|[]]; cbn -[tree untree]; by rewrite ?untree_tree.
Defined.

(** A tree as bytes: a tag, and the lengths of strings and lists. *)
Fixpoint string_chars (s : string) : list Z :=
  match s with EmptyString => [] | String a s => Z.of_N (N_of_ascii a) :: string_chars s end.
Fixpoint chars_string (l : list Z) : string :=
  match l with [] => EmptyString | z :: l => String (ascii_of_N (Z.to_N z)) (chars_string l) end.
Fixpoint tree_bytes (t : Tree) : list Z :=
  match t with
  | TNum z => [0; z]
  | TStr s => 1 :: Z.of_nat (String.length s) :: string_chars s
  | TList l => 2 :: Z.of_nat (length l) :: concat (map tree_bytes l)
  end%Z.

Fixpoint parse_times (p : list Z → option (Tree * list Z)) (n : nat) (l : list Z) : option (list Tree * list Z) :=
  match n with
  | O => Some ([], l)
  | S n => '(t, l) ← p l; '(ts, l) ← parse_times p n l; Some (t :: ts, l)
  end.
Fixpoint parse_tree (fuel : nat) (l : list Z) : option (Tree * list Z) :=
  match fuel, l with
  | S f, tag :: x :: l =>
      match tag with
      | 0 => Some (TNum x, l)
      | 1 => Some (TStr (chars_string (firstn (Z.to_nat x) l)), skipn (Z.to_nat x) l)
      | 2 => '(ts, l) ← parse_times (parse_tree f) (Z.to_nat x) l; Some (TList ts, l)
      | _ => None
      end
  | _, _ => None
  end%Z.

Fixpoint tree_depth (t : Tree) : nat :=
  match t with TList l => S (foldr (λ t n, Nat.max (tree_depth t) n) 0 l) | _ => 1 end.

Lemma chars_string_chars s : chars_string (string_chars s) = s.
Proof. induction s as [|a s IH]; [done|]. cbn. by rewrite N2Z.id, ascii_N_embedding, IH. Qed.
Lemma length_string_chars s : length (string_chars s) = String.length s.
Proof. induction s; cbn; auto. Qed.

Lemma parse_tree_bytes fuel t r : tree_depth t ≤ fuel → parse_tree fuel (tree_bytes t ++ r) = Some (t, r).
Proof.
  revert t r. induction fuel as [|f IH]; intros t r Hd; [destruct t; cbn in Hd; lia|]. destruct t as [z|s|l]; [done| |]; cbn.
  - rewrite Nat2Z.id. rewrite take_app_length', drop_app_length' by (symmetry; apply length_string_chars). by rewrite chars_string_chars.
  - rewrite Nat2Z.id. cbn in Hd. assert (foldr (λ t n, Nat.max (tree_depth t) n) 0 l ≤ f) as Hl by lia. clear Hd.
    assert (parse_times (parse_tree f) (length l) (concat (map tree_bytes l) ++ r) = Some (l, r)) as ->; [|done].
    induction l as [|t l IHl]; [done|]. cbn in Hl |- *. rewrite <- app_assoc, IH by lia. cbn. by rewrite IHl by lia.
Qed.
Lemma tree_depth_bytes t : tree_depth t ≤ length (tree_bytes t).
Proof.
  revert t. fix IH 1. intros [z|s|l]; cbn; [lia..|]. apply le_n_S, le_S.
  induction l as [|t l IHl]; [done|]. cbn. rewrite length_app. pose proof (IH t). lia.
Qed.

#[export] Instance demo_ha_wire : Wire HaValue := {|
  to_vec m := tree_bytes (TList [TStr (msg_key m); tree (msg_data m)]);
  from_slice l := match parse_tree (length l) l with
                  | Some (TList [TStr k; t], []) => match untree t with Some v => Ok (mkActorMsg k v) | None => Err "invalid message" end
                  | _ => Err "invalid message"
                  end;
|}.
#[export] Instance demo_ha_wire_laws : WireLaws HaValue.
Proof.
  split. intros [k v]. unfold from_slice, to_vec, demo_ha_wire. cbn [msg_key msg_data]. set (t := TList _).
  rewrite <- (app_nil_r (tree_bytes t)) at 2. rewrite parse_tree_bytes by apply tree_depth_bytes. unfold t. by rewrite untree_tree.
Qed.
