(* ===== verification/HaWitness.v ===== *)
(** Concrete runs of hamgrd's actors: messages as tagged values, rows in their
    swss-serde encoding, tables as maps. *)
From S2P Require Import Prelude RustStr SwssSerde Path Proto Mux MuxWitness Edge EdgeTheory Actor ActorTheory ActorWitness Bridge HaTypes HaRows HaJson HaValue VDpuActor DpuActor HaSetActor HaScopeActor HaTheory HaProps HaScopeProps.

Open Scope stdpp_scope.

(** A closed equation, by evaluation of both sides. *)
Ltac by_vm := match goal with |- _ = ?r => vm_cast_no_check (eq_refl r) end.

Definition demo_env : HaEnv := mkHaEnv 1 (Some "10.0.0.1") None demo_local_svc (λ _ _ _, Ok tt).

Definition ha_incoming (k : string) (v : HaValue) (from : ServicePath) : IncomingTableEntry HaValue :=
  inc_new 0 (mkActorMsg k v) from 1.
Definition ha_state {A} (a : A) (internal : gmap string InternalTableEntry)
    (incoming : gmap string (IncomingTableEntry HaValue)) : ActorSt HaValue DemoDb A :=
  mkActorSt a internal incoming ∅ [] ∅ demo_client ∅ false.

(** * DPU and vDPU *)

Definition demo_dpu : Dpu := mkDpu None None None "1.1.1.1" None 1 None 8100 23606 "169.254.1.1".
Definition demo_dpu_st : ActorSt HaValue DemoDb DpuActor :=
  ha_state (mkDpuActor "dpu1" (Some (LocalDpu demo_dpu true "10.0.0.1" None)) []) ∅
    {["DPUStateRegister|vdpu1" := ha_incoming "DPUStateRegister|vdpu1" (HvReg (mkRegistration true)) demo_peer_svc]}.

Lemma dpu_state_published_witness :
  ∃ q s', dpu_handle_message demo_env 0 "DPU_STATE" demo_dpu_st = Done (Ok tt, s') ∧ only_queued q demo_dpu_st s'.
Proof.
  destruct (dpu_state_published demo_env 0 "DPU_STATE" demo_dpu_st demo_dpu "10.0.0.1" None
    (HvDpu (reported_state 0 "dpu1" demo_dpu "10.0.0.1" None demo_dpu_st))) as (q & s' & Hrun & Hq & _).
  - by left.
  - reflexivity.
  - reflexivity.
  - exists q, s'. split; [exact Hrun|exact Hq].
Defined.

Definition demo_das : DpuActorState := set_up true (from_dpu "dpu1" demo_dpu true "10.0.0.1" None None None).
Definition demo_vdpu_st : ActorSt HaValue DemoDb VDpuActor :=
  ha_state (mkVDpuActor "vdpu1" (Some (mkVDpu ["dpu1"]))) ∅
    {["DPUStateUpdate|dpu1" := ha_incoming "DPUStateUpdate|dpu1" (HvDpu demo_das) demo_peer_svc]}.

Lemma vdpu_state_forwarded_witness :
  ∃ q s', vdpu_handle_message 0 "DPUStateUpdate|dpu1" demo_vdpu_st = Done (Ok tt, s') ∧ only_queued q demo_vdpu_st s'.
Proof.
  pose proof (vdpu_state_forwarded 0 "DPUStateUpdate|dpu1" demo_vdpu_st "dpu1" [] eq_refl eq_refl) as Hfwd.
  assert (typed_of DpuActorState (dpu_msg_key "dpu1") demo_vdpu_st = Some demo_das) as Hd by reflexivity.
  rewrite Hd in Hfwd.
  destruct (Hfwd (HvVDpu (mkVDpuActorState true demo_das)) eq_refl) as (q & s' & Hrun & Hq & _).
  exists q, s'. split; [exact Hrun|exact Hq].
Defined.

Definition demo_vdpu_row : FieldValues := {["main_dpu_ids" := "dpu1,dpu2"]}.
Definition demo_vdpu_cfg_st : ActorSt HaValue DemoDb VDpuActor :=
  ha_state (vdpu_actor_new "vdpu1") ∅
    {["VDPU" := ha_incoming "VDPU" (HvKfv (mkKfv "vdpu1" KopSet demo_vdpu_row)) demo_peer_svc]}.

Lemma vdpu_lifecycle_witness :
  ∃ s', vdpu_handle_message 0 "VDPU" demo_vdpu_cfg_st = Done (Ok tt, s') ∧
    vdpu_cfg (actor s') = Some (mkVDpu ["dpu1"; "dpu2"]).
Proof.
  destruct (vdpu_lifecycle 0 demo_vdpu_cfg_st (ha_incoming "VDPU" (HvKfv (mkKfv "vdpu1" KopSet demo_vdpu_row)) demo_peer_svc)
    (mkKfv "vdpu1" KopSet demo_vdpu_row) (mkVDpu ["dpu1"; "dpu2"]) (HvReg (mkRegistration true)))
    as (q & s' & Hrun & _ & _ & Hcfg & _).
  - reflexivity.
  - reflexivity.
  - intros _. vm_compute. reflexivity.
  - reflexivity.
  - exists s'. split; [exact Hrun|exact Hcfg].
Defined.

(** * HA set *)

Definition demo_remote_das : DpuActorState :=
  from_remote_dpu "dpu2" (mkRemoteDpu "2.2.2.2" None "10.0.0.2" None 2 23606).
Definition demo_ha_cfg (ids : list string) : DashHaSetConfigTable :=
  mkHaSetConfig "1" "3.2.1.0" None None None ids None (Some ["vdpu1"]) None.
Definition demo_global_row : FieldValues := {["vnet_name" := "Vnet_55"; "cp_data_channel_port" := "6000"]}.
Definition demo_global : DashHaGlobalConfig :=
  mkGlobalConfig (Some 6000%Z) None None None None None None None (Some "Vnet_55").
Definition demo_v0 : VDpuStateExt := mkVDpuExt (mkVDpuActorState true demo_das) true.
Definition demo_v1 : VDpuStateExt := mkVDpuExt (mkVDpuActorState true demo_remote_das) false.
Definition demo_haset_st (ids : list string) : ActorSt HaValue DemoDb HaSetActor :=
  ha_state (mkHaSetActor "haset1" (Some (demo_ha_cfg ids)) []) ∅
    {["VDPUStateUpdate|vdpu1" := ha_incoming "VDPUStateUpdate|vdpu1" (HvVDpu (ext_vdpu demo_v0)) demo_peer_svc;
      "VDPUStateUpdate|vdpu2" := ha_incoming "VDPUStateUpdate|vdpu2" (HvVDpu (ext_vdpu demo_v1)) demo_peer_svc;
      "DASH_HA_GLOBAL_CONFIG" := ha_incoming "DASH_HA_GLOBAL_CONFIG" (HvKfv (mkKfv "GLOBAL" KopSet demo_global_row)) demo_peer_svc]}.
Definition ok_or {X} (d : X) (r : result X string) : X := match r with Ok x => x | Err _ => d end.
Definition demo_row_fv : FieldValues := ok_or ∅ (to_field_values (ha_set_row (demo_ha_cfg ["vdpu1"; "vdpu2"]) demo_global demo_v0 demo_v1)).
Definition demo_route_fv : FieldValues := ok_or ∅ (to_field_values (vnet_route demo_global [demo_v0; demo_v1])).

Lemma ha_set_programmed_witness :
  ∃ s', haset_handle_message demo_env 0 "VDPUStateUpdate|vdpu2" (demo_haset_st ["vdpu1"; "vdpu2"]) = Done (Ok tt, s') ∧
    is_Some (internal_table s' !! "VNET_ROUTE_TUNNEL_TABLE").
Proof.
  destruct (ha_set_programmed demo_env 0 "VDPUStateUpdate|vdpu2" (demo_haset_st ["vdpu1"; "vdpu2"])
    (demo_ha_cfg ["vdpu1"; "vdpu2"]) demo_global "Vnet_55" demo_v0 demo_v1 [] demo_row_fv
    (HvKfv (mkKfv "haset1" KopSet demo_row_fv))
    (HvHaSet (mkHaSetActorState true (ha_set_row (demo_ha_cfg ["vdpu1"; "vdpu2"]) demo_global demo_v0 demo_v1)))
    demo_route_fv None) as (u & q & e & s' & Hrun & _ & _ & _ & Hint & _);
    [by left|by_vm..|].
  exists s'. split; [exact Hrun|]. rewrite Hint. exists e. apply lookup_insert_eq.
Defined.

Lemma ha_set_single_vdpu_panics_witness :
  haset_handle_message demo_env 0 "VDPUStateUpdate|vdpu1" (demo_haset_st ["vdpu1"]) = Panicked "index out of bounds".
Proof.
  apply (ha_set_single_vdpu_panics demo_env 0 "VDPUStateUpdate|vdpu1" (demo_haset_st ["vdpu1"]) (demo_ha_cfg ["vdpu1"]) demo_v0);
    vm_compute; reflexivity.
Defined.

(** * HA scope *)

Definition demo_npu : NpuDashHaScopeState :=
  npu_pending {["op1" := "activate_role"; "op2" := "flow_reconcile"]} 0 npu_scope_state_default.
Definition demo_npu_fv : FieldValues := ok_or ∅ (to_field_values demo_npu).
Definition demo_npu_entry : InternalTableEntry :=
  mkIntEntry "DASH_HA_SCOPE_STATE" "vdpu1|haset1" demo_npu_fv false demo_npu_fv None.
Definition demo_scope_cfg : DashHaScopeConfigTable := mkHaScopeConfig 1 false "active" (Some ["op1"; "op9"]).
Definition demo_scope_st : ActorSt HaValue DemoDb HaScopeActor :=
  ha_state (mkHaScopeActor "vdpu1:haset1" "haset1" "vdpu1" (Some demo_scope_cfg) [] None)
    {["DASH_HA_SCOPE_STATE" := demo_npu_entry]}
    {["VDPUStateUpdate|vdpu1" := ha_incoming "VDPUStateUpdate|vdpu1" (HvVDpu (ext_vdpu demo_v0)) demo_peer_svc]}.
Definition demo_ops : PendingOps := {["op1" := "activate_role"; "op2" := "flow_reconcile"]}.

Lemma scope_pending_operations_witness :
  ∃ s', update_npu_ha_scope_state_pending_operations 0 [("op3", "brainsplit_recover")] ["op1"] demo_scope_st = Done (Ok tt, s').
Proof.
  destruct (scope_pending_operations 0 [("op3", "brainsplit_recover")] ["op1"] demo_scope_st demo_scope_cfg demo_npu_entry
    demo_npu demo_ops
    (ok_or ∅ (to_field_values (npu_pending (revise_operations [("op3", "brainsplit_recover")] ["op1"] demo_ops) 0 demo_npu))))
    as (_ & _ & Hrun).
  - reflexivity.
  - reflexivity.
  - intros Heq%(f_equal (lookup "vip_v4")). vm_compute in Heq. discriminate Heq.
  - by_vm.
  - by_vm.
  - by_vm.
  - eexists. exact Hrun.
Defined.

Definition demo_scope_fv : FieldValues := ok_or ∅ (to_field_values (mkHaScope 1 false "active" false true)).

Lemma scope_role_requests_witness :
  ∃ u s', update_dpu_ha_scope_table 0 demo_scope_st = Done (Ok tt, s') ∧ only_queued [u] demo_scope_st s'.
Proof.
  destruct (scope_role_requests 0 demo_scope_st demo_scope_cfg demo_ops eq_refl) as [_ Hreq].
  { right. exists demo_npu_entry. split; [reflexivity|by_vm]. }
  destruct (Hreq demo_scope_fv (HvKfv (mkKfv "haset1" KopSet demo_scope_fv)) ltac:(by_vm) eq_refl)
    as (u & s' & Hrun & Hq & _).
  exists u, s'. split; [exact Hrun|exact Hq].
Defined.

Lemma scope_handler_returns_witness :
  ∃ r s', hascope_handle_message demo_env (λ _ _, "id") 0 "VDPUStateUpdate|vdpu1" demo_scope_st = Done (r, s').
Proof.
  destruct (scope_handler_returns demo_env (λ _ _, "id") 0 "VDPUStateUpdate|vdpu1" demo_scope_st) as (r & s' & Hrun & _).
  - split; [by eexists|]. intros n k. by eexists.
  - exists r, s'. exact Hrun.
Defined.

Lemma scope_vdpu_update_opens_witness :
  ∃ r s', hascope_handle_message demo_env (λ _ _, "id") 0 "VDPUStateUpdate|vdpu1" demo_scope_st = Done (r, s') ∧ scope_opened s'.
Proof.
  apply (scope_vdpu_update_opens demo_env (λ _ _, "id") 0 "VDPUStateUpdate|vdpu1" demo_scope_st demo_scope_cfg (ext_vdpu demo_v0)).
  - reflexivity.
  - reflexivity.
  - reflexivity.
  - reflexivity.
  - intros n k. by eexists.
Defined.
