(* ===== verification/HaChainWitness.v ===== *)
(** A concrete DPU, vDPU, HA set and HA scope: the way of a pmon row through them, and
    how they register with each other from their configuration rows on. *)
From S2P Require Import Prelude RustStr SwssSerde Path Proto Mux MuxWitness Edge EdgeTheory Actor ActorTheory ActorProps ActorWitness Link LinkTheory Bridge HaTypes HaRows HaRowsTheory HaJson VDpuActor DpuActor HaSetActor HaScopeActor HaTheory HaProps HaScopeProps HaChain HaAssembly HaValue HaWitness.

Open Scope stdpp_scope.

#[export] Instance demo_kfv_faithful : Faithful HaValue KeyOpFieldValues.
Proof. intros x. by exists (HvKfv x). Defined.

(** Where the actors are. *)
Definition actor_at (ty i : string) : ServicePath := mkPath "region" "cluster" "node" "hamgrd" "dpu0" ty i.
Definition chain_client (p : ServicePath) : SimpleClient := mkClient p false (mkIdGen 100) [] (mkMsgChan [] true).
Definition chain_state {A} (a : A) (p : ServicePath) (internal : gmap string InternalTableEntry)
    (incoming : gmap string (IncomingTableEntry HaValue)) : ActorSt HaValue DemoDb A :=
  mkActorSt a internal incoming ∅ [] ∅ (chain_client p) ∅ false.

(** A row with one time, in seconds; the others are the time it is read at, which
    is no whole second. *)
Definition pmon_row : FieldValues :=
  {["dpu_midplane_link_state" := "up"; "dpu_midplane_link_time" := "1718053000"; "dpu_control_plane_state" := "down";
    "dpu_data_plane_state" := "down"]}.
Definition chain_t1 : Z := 1718053542123456789.
Definition chain_t3 : Z := 1718053549876543210.
Definition pmon_read : DpuState := mkDpuState PmonUp 1718053000000 PmonDown 1718053542123 PmonDown 1718053542123.
Definition chain_dpu : ActorSt HaValue DemoDb DpuActor :=
  chain_state (mkDpuActor "dpu1" (Some (LocalDpu demo_dpu true "10.0.0.1" None)) []) (actor_at "dpu" "dpu1") ∅
    {["DPUStateRegister|vdpu1" := ha_incoming "DPUStateRegister|vdpu1" (HvReg (mkRegistration true)) (actor_at "vdpu" "vdpu1");
      "DPU_STATE" := ha_incoming "DPU_STATE" (HvKfv (mkKfv "DPU0" KopSet pmon_row)) demo_peer_svc]}.
Definition chain_vdpu : ActorSt HaValue DemoDb VDpuActor :=
  chain_state (mkVDpuActor "vdpu1" (Some (mkVDpu ["dpu1"]))) (actor_at "vdpu" "vdpu1") ∅
    {["VDPUStateRegister|vdpu1:set1" := ha_incoming "VDPUStateRegister|vdpu1:set1" (HvReg (mkRegistration true)) (actor_at "ha-scope" "vdpu1:set1")]}.
Definition chain_haset : HaSetActorState :=
  mkHaSetActorState true (mkHaSet "1" "3.2.1.0" None None None "10.0.0.1" "1.1.1.1" "2.2.2.2" None None None None None None).
Definition chain_entry : InternalTableEntry := mkIntEntry "DASH_HA_SCOPE_STATE" "vdpu1|set1" ∅ false ∅ None.
Definition chain_scope : ActorSt HaValue DemoDb HaScopeActor :=
  chain_state (mkHaScopeActor "vdpu1:set1" "set1" "vdpu1" (Some demo_scope_cfg)
      [mkBridge demo_local_svc "DASH_HA_SCOPE_STATE" (λ _, (demo_local_svc, "")) (λ _, Some true)] None)
    (actor_at "ha-scope" "vdpu1:set1") {["DASH_HA_SCOPE_STATE" := chain_entry]}
    {["HaSetStateUpdate|set1" := ha_incoming "HaSetStateUpdate|set1" (HvHaSet chain_haset) demo_peer_svc]}.

Lemma chain_idle {A} (a : A) p internal incoming :
  (∀ k1 k2 e1 e2, internal !! k1 = Some e1 → internal !! k2 = Some e2 → k1 = k2) → idle p (chain_state a p internal incoming).
Proof. intros Hone. split; [done..|]. intros k1 k2 e1 e2 H1 H2 _. by eapply Hone. Qed.
Lemma chain_registered {A} (a : A) p internal incoming t k e sp :
  incoming !! k = Some e → starts_with k (reg_prefix t) = true → from_value (msg_data (inc_msg e)) = Ok (mkRegistration true) →
  inc_source e = sp → sp ∈ get_registered_actors t (chain_state a p internal incoming).
Proof. intros. apply registered_spec. by exists k, e. Qed.

Lemma chain_reporting : reporting (actor_at "dpu" "dpu1") (actor_at "vdpu" "vdpu1") demo_dpu "10.0.0.1" None chain_dpu.
Proof.
  split; [|done|].
  - apply chain_idle. intros k1 k2 e1 e2 H1. by rewrite lookup_empty in H1.
  - eapply (chain_registered _ _ _ _ _ "DPUStateRegister|vdpu1"); [apply lookup_insert_eq|done..].
Qed.
Lemma chain_forwarding : forwarding (actor_at "vdpu" "vdpu1") (actor_at "ha-scope" "vdpu1:set1") "dpu1" chain_vdpu.
Proof.
  split; [|by exists []|].
  - apply chain_idle. intros k1 k2 e1 e2 H1. by rewrite lookup_empty in H1.
  - eapply (chain_registered _ _ _ _ _ "VDPUStateRegister|vdpu1:set1"); [apply lookup_insert_eq|done..].
Qed.
Lemma chain_mirroring : mirroring chain_t3 (actor_at "ha-scope" "vdpu1:set1") "vdpu1" chain_haset chain_entry chain_scope.
Proof.
  split.
  - apply chain_idle. intros k1 k2 e1 e2 [<- _]%lookup_singleton_Some [<- _]%lookup_singleton_Some. done.
  - split; try done.
    intros cfg [= <-]. exists ∅. right. exists chain_entry. by split.
Qed.

Lemma chain_pmon : row_of (T:=DpuState) chain_t1 "DPU_STATE" chain_dpu = Some pmon_read.
Proof. by_vm. Qed.
Lemma chain_bfd : row_of (T:=DashBfdProbeState) chain_t1 "DASH_BFD_PROBE_STATE" chain_dpu = None.
Proof. by_vm. Qed.

(** The times arrive cut to whole seconds; those of the missing BFD row are the
    scope's own, which are not. *)
Lemma dpu_state_reaches_controller_witness :
  ∃ (c' : ActorSt HaValue DemoDb HaScopeActor) st f g, table_get (databases c') "DASH_HA_SCOPE_STATE" "vdpu1|set1" = Ok g ∧
    f ⊆ default ∅ g ∧ to_field_values st = Ok f ∧ nss_midplane_time st = 1718053000000%Z ∧ nss_control_plane_time st = 1718053542000%Z ∧
    nss_up_bfd_sessions_v4_update_time st = 1718053549876%Z ∧ nss_peer_ip st = "2.2.2.2".
Proof.
  destruct (dpu_state_reaches_controller demo_env (λ _ _, "id") (λ _, "dump") chain_t1 1718053545000000000 chain_t3 "DPU_STATE"
    (actor_at "dpu" "dpu1") (actor_at "vdpu" "vdpu1") (actor_at "ha-scope" "vdpu1:set1") demo_dpu "10.0.0.1" None
    chain_dpu chain_vdpu chain_scope chain_haset chain_entry)
    as (d' & v' & c' & i & j & m1 & m2 & _ & _ & _ & _ & _ & st & f & g & Hg & Hsub & Hf & Hp & Hb & Ha & _).
  - by left.
  - eexists. unfold chain_dpu. cbn [incoming_table chain_state]. rewrite lookup_insert_ne by done. apply lookup_insert_eq.
  - intros r Hr. pose proof (eq_trans (eq_sym chain_pmon) Hr) as Hpr. injection Hpr as <-.
    repeat split; vm_compute; congruence.
  - intros r Hr. discriminate (eq_trans (eq_sym chain_bfd) Hr).
  - exact chain_reporting.
  - exact chain_forwarding.
  - exact chain_mirroring.
  - exists c', st, f, g. split; [exact Hg|]. split; [exact Hsub|]. split; [exact Hf|].
    match type of Hp with match ?x with _ => _ end => assert (x = Some pmon_read) as Hpx by exact chain_pmon end.
    match type of Hb with match ?x with _ => _ end => assert (x = None) as Hbx by exact chain_bfd end.
    rewrite Hpx in Hp. rewrite Hbx in Hb. destruct Hp as (Hm & Hc & _), Hb as [H4 _].
    split; [exact (f_equal snd Hm)|]. split; [exact (f_equal snd Hc)|]. split; [exact (f_equal snd H4)|]. exact (f_equal snd Ha).
Defined.

(** * From the configuration rows *)

#[export] Instance demo_haset_faithful : Faithful HaValue HaSetActorState.
Proof. intros x. by exists (HvHaSet x). Defined.
#[export] Instance demo_reg_faithful : Faithful HaValue ActorRegistration.
Proof. intros x. by exists (HvReg x). Defined.

Definition new_vdpu : ActorSt HaValue DemoDb VDpuActor := chain_state (vdpu_actor_new "vdpu1") (actor_at "vdpu" "vdpu1") ∅ ∅.
Definition new_vdpu_row : HaValue := HvKfv (mkKfv "vdpu1" KopSet {["main_dpu_ids" := "dpu1"]}).
Definition ready_dpu : ActorSt HaValue DemoDb DpuActor :=
  chain_state (mkDpuActor "dpu1" (Some (LocalDpu demo_dpu true "10.0.0.1" None)) []) (actor_at "dpu" "dpu1") ∅
    {["DPU_STATE" := ha_incoming "DPU_STATE" (HvKfv (mkKfv "DPU0" KopSet pmon_row)) demo_peer_svc]}.
Definition new_scope : ActorSt HaValue DemoDb HaScopeActor :=
  chain_state (mkHaScopeActor "vdpu1:haset1" "haset1" "vdpu1" None [] None) (actor_at "ha-scope" "vdpu1:haset1") ∅ ∅.
Definition new_scope_row : HaValue :=
  HvKfv (mkKfv "vdpu1:haset1" KopSet {["version" := "1"; "disable" := "false"; "desired_ha_state" := "active"]}).
Definition ready_haset : ActorSt HaValue DemoDb HaSetActor :=
  chain_state (mkHaSetActor "haset1" (Some (demo_ha_cfg ["vdpu1"; "vdpu2"])) []) (actor_at "ha-set" "haset1") ∅
    (incoming_table (demo_haset_st ["vdpu1"; "vdpu2"])).

Lemma no_entries_idle {A} (a : A) p incoming : idle p (chain_state a p ∅ incoming).
Proof. apply chain_idle. intros k1 k2 e1 e2 H1. by rewrite lookup_empty in H1. Qed.

Lemma ready_haset_programmed :
  programmed 0 (actor_at "ha-set" "haset1") (demo_ha_cfg ["vdpu1"; "vdpu2"]) demo_global demo_v0 demo_v1 ready_haset.
Proof. split; [apply no_entries_idle|done|exists []; by_vm|done|by_vm]. Qed.

Lemma ready_pmon : row_of (T:=DpuState) chain_t1 "DPU_STATE" ready_dpu = Some pmon_read.
Proof. by_vm. Qed.
Lemma ready_bfd : row_of (T:=DashBfdProbeState) chain_t1 "DASH_BFD_PROBE_STATE" ready_dpu = None.
Proof. by_vm. Qed.

Lemma chain_assembled_witness :
  ∃ d1 v3 c3, reporting (V:=HaValue) (Db:=DemoDb) (actor_at "dpu" "dpu1") (actor_at "vdpu" "vdpu1") demo_dpu "10.0.0.1" None d1 ∧
    forwarding (V:=HaValue) (Db:=DemoDb) (actor_at "vdpu" "vdpu1") (actor_at "ha-scope" "vdpu1:haset1") "dpu1" v3 ∧
    (∃ e, mirroring (V:=HaValue) (Db:=DemoDb) 0 (actor_at "ha-scope" "vdpu1:haset1") "vdpu1"
      (programmed_state (demo_ha_cfg ["vdpu1"; "vdpu2"]) demo_global demo_v0 demo_v1) e c3).
Proof.
  destruct (chain_assembled demo_env (λ _ _, "id") (λ _, "dump") 0 chain_t1 0 0 0 0 0 chain_t3 1 1 demo_peer_svc demo_peer_svc
    new_vdpu_row new_scope_row "dpu1" [] demo_dpu "10.0.0.1" None "vdpu1" "haset1" (mkHaScopeConfig 1 false "active" None)
    (demo_ha_cfg ["vdpu1"; "vdpu2"]) demo_global demo_v0 demo_v1 ready_dpu new_vdpu ready_haset new_scope)
    as (d1 & v1 & v2 & v3 & h1 & c1 & c2 & c3 & m1 & m2 & m3 & m4 & m5 & m6 &
        _ & _ & _ & _ & _ & _ & _ & _ & _ & _ & _ & _ & _ & _ & Hd & Hv & (e & Hc) & _).
  - apply no_entries_idle.
  - reflexivity.
  - eexists _, _. split; [reflexivity|by_vm].
  - apply no_entries_idle.
  - reflexivity.
  - reflexivity.
  - split; intros r Hr; cbn in Hr.
    + pose proof (eq_trans (eq_sym ready_pmon) Hr) as Hpr. injection Hpr as <-. repeat split; vm_compute; congruence.
    + discriminate (eq_trans (eq_sym ready_bfd) Hr).
  - exact ready_haset_programmed.
  - reflexivity.
  - split; [apply no_entries_idle|reflexivity..].
  - reflexivity.
  - eexists _, _. split; [reflexivity|by_vm].
  - reflexivity.
  - reflexivity.
  - reflexivity.
  - intros db. eexists. reflexivity.
  - exists d1, v3, c3. split; [exact Hd|]. split; [exact Hv|]. exists e. exact (Hc 0%Z).
Defined.
