(* ===== verification/HaActorTests.v ===== *)
(** The tests of hamgrd's actors, run against the models: the helpers of
    crates/hamgrd/src/actors/test.rs and the scenarios of the [test] modules of
    vdpu.rs, dpu.rs, ha_set.rs and ha_scope.rs, each evaluated to its end. *)
From S2P Require Import Prelude RustStr NetAddr SwssSerde Path Proto Mux MuxWitness Edge EdgeTheory Actor ActorTheory ActorWitness Bridge HaTypes HaRows HaValue VDpuActor DpuActor HaSetActor HaScopeActor HaTheory HaProps HaScopeProps HaWitness.

Open Scope stdpp_scope.

#[export] Instance test_dpu_state_row_eq_dec : EqDecision DpuState.
Proof. solve_decision. Defined.
#[export] Instance test_bfd_probe_row_eq_dec : EqDecision DashBfdProbeState.
Proof. solve_decision. Defined.
#[export] Instance test_ha_set_row_eq_dec : EqDecision DashHaSetTable.
Proof. solve_decision. Defined.
#[export] Instance test_dpu_actor_state_eq_dec : EqDecision DpuActorState.
Proof. solve_decision. Defined.
#[export] Instance test_vdpu_actor_state_eq_dec : EqDecision VDpuActorState.
Proof. solve_decision. Defined.
#[export] Instance test_haset_actor_state_eq_dec : EqDecision HaSetActorState.
Proof. solve_decision. Defined.
#[export] Instance test_registration_eq_dec : EqDecision ActorRegistration.
Proof. solve_decision. Defined.
#[export] Instance test_value_eq_dec : EqDecision HaValue.
Proof. solve_decision. Defined.

(** * The harness *)

(** [Command] *)
Inductive Command : Type :=
| Send (key : string) (data : HaValue) (addr : ServicePath) (fail : bool)
| Recv (key : string) (data : HaValue) (addr : ServicePath)
| ChkDb (db : string) (is_dpu : bool) (table : string) (key : string) (data : FieldValues) (exclude : string).

Definition send_cmd (key : string) (data : HaValue) (addr : ServicePath) : Command := Send key data addr false.
Definition test_client : ServicePath := mkPath "unknown" "unknown" "unknown" "hamgrd" "0" "test" "test".
Definition chkdb_cmd (T : Type) `{SonicDbTable T} (key : string) (data : FieldValues) (exclude : string) : Command :=
  ChkDb (db_name T) (is_dpu T) (table_name T) key data exclude.

(** The time of the tests. *)
Definition test_now : Z := 1700000000000000000.

Section Harness.
Context {A : Type} `{!Actor (V:=HaValue) (Db:=DemoDb) (A:=A)}.

(** The actor under test; the messages it sent that no client has read; the next id
    of the clients; the time. *)
Record Harness : Type := mkHarness {
  h_actor : ActorSt HaValue DemoDb A;
  h_unread : list SwbusMessage;
  h_next : Z;
  h_now : Z;
}.

(** The driver of the actor handles a message from [addr]. *)
Definition drive (addr aut : ServicePath) (body : MessageBody) : M Harness string Z :=
  let* h := get_state in
  if stopped (h_actor h) then throw "the actor has terminated"
  else
    match driver_step (λ _, "") (EvMsg (h_now h) (mkIncoming (h_next h) addr aut body)) (h_actor h) with
    | Done (Ok _, s) =>
        put_state (mkHarness s (h_unread h ++ drop (length (sent_out (h_actor h))) (sent_out s)) (h_next h + 1) (h_now h));;;
        ret (h_next h)
    | _ => throw "the driver failed"
    end.

(** [client.recv()]: the first unread message for [addr]. *)
Fixpoint take_first (addr : ServicePath) (l : list SwbusMessage) : option (SwbusMessage * list SwbusMessage) :=
  match l with
  | [] => None
  | m :: l =>
      if decide ((header m ≫= destination) = Some addr) then Some (m, l)
      else '(x, l) ← take_first addr l; Some (x, m :: l)
  end.
Definition client_recv (addr : ServicePath) : M Harness string SwbusMessage :=
  let* h := get_state in
  match take_first addr (h_unread h) with
  | Some (m, l) => put_state (mkHarness (h_actor h) l (h_next h) (h_now h));;; ret m
  | None => throw "Timed out"
  end.

Definition check (b : bool) (msg : string) : M Harness string unit := if b then ret tt else throw msg.

Definition test_command (aut : ServicePath) (cmd : Command) : M Harness string unit :=
  match cmd with
  | Send key data addr fail =>
      let* sent_id := drive addr aut (BodyRequest (to_vec (mkActorMsg key data))) in
      let* m := client_recv addr in
      match body m with
      | Some (Response r) =>
          check (bool_decide (request_id r = sent_id ∧ response_body r = None)) "Some other message received";;;
          check (bool_decide (error_code r = error_code_i32 (if fail then CodeFail else CodeOk))) "Got unexpected response"
      | _ => throw "Some other message received"
      end
  | Recv key data addr =>
      let* m := client_recv addr in
      match header m, body m with
      | Some hd, Some (DataRequest payload) =>
          match from_slice payload with
          | Ok am =>
              check (bool_decide (msg_key am = key ∧ msg_data am = data)) "assertion failed";;;
              let* _ := drive addr aut (BodyResponse (id hd) CodeOk "" None) in
              ret tt
          | Err e => throw e
          end
      | _, _ => throw "Some other message received"
      end
  | ChkDb _ _ table key data exclude =>
      let* h := get_state in
      let excluded := List.filter (λ x, negb (is_empty x)) (trim <$> split ","%char exclude) in
      match table_get (databases (h_actor h)) table key with
      | Ok (Some actual_data) =>
          check (bool_decide (foldr delete actual_data excluded = foldr delete data excluded)) "Data mismatch"
      | Ok None => throw "Key not found"
      | Err e => throw e
      end
  end.
Definition run_commands (aut : ServicePath) (commands : list Command) : M Harness string unit := for_each (test_command aut) commands.

(** The actor [a] is spawned at [aut]. *)
Definition spawn_test (a : A) (aut : ServicePath) (now : Z) : Harness :=
  mkHarness (mkActorSt a ∅ ∅ ∅ [] ∅ (mkClient aut false (mkIdGen 1000) [] (mkMsgChan [] true)) ∅ false) [] 1 now.

(** A test passes: its commands run to their end, and the actor terminates. *)
Definition test_passes (a : A) (aut : ServicePath) (test : M Harness string unit) : bool :=
  match test (spawn_test a aut test_now) with
  | Done (Ok _, h) => stopped (h_actor h)
  | _ => false
  end.
End Harness.

(** [runtime.sp], [create_actor_runtime] *)
Definition runtime_sp (ty i : string) : ServicePath := mkPath "unknown" "unknown" "unknown" "hamgrd" "0" ty i.
Definition create_actor_runtime (slot : Z) (npu_ipv4 npu_ipv6 : string) : HaEnv :=
  mkHaEnv slot (Some npu_ipv4) (Some npu_ipv6) (runtime_sp "" "") (λ _ _ _, Ok tt).
Definition bridge_of (T : Type) `{SonicDbTable T} : ServicePath := common_bridge_sp T (create_actor_runtime 0 "" "").

(** * Test data *)

Definition num (z : Z) : string := int_to_string z.
Definition normalize_ipv6 (s : string) : string := match ipv6_of_string s with Some a => ipv6_to_string a | None => s end.
Definition fvs_of {T} `{FvCodec T} (x : T) : FieldValues := ok_or ∅ (to_field_values x).
Definition set_kfv (key : string) (f : FieldValues) : HaValue := HvKfv (mkKfv key KopSet f).
Definition del_kfv (key : string) (f : FieldValues) : HaValue := HvKfv (mkKfv key KopDel f).
Definition registration : HaValue := HvReg (mkRegistration true).

Definition make_dash_ha_global_config : DashHaGlobalConfig :=
  (mkGlobalConfig (Some 12345) (Some 23456) (Some 34567) (Some 45678) (Some 1000) (Some 3) (Some 1000) (Some 3))%Z (Some "vnet0").
Definition make_dpu_object (switch dpu : Z) : Dpu :=
  let switch_pair_id := (switch / 2)%Z in
  mkDpu (Some "up") (Some ("3.2." +:+ num switch_pair_id +:+ "." +:+ num dpu))
    (Some (normalize_ipv6 ("3:2:" +:+ num switch_pair_id +:+ "::" +:+ num dpu))) ("18.0." +:+ num switch +:+ "." +:+ num dpu)
    (Some (normalize_ipv6 ("18:0:" +:+ num switch +:+ "::" +:+ num dpu))) dpu (Some ("vdpu" +:+ num (switch * 8 + dpu)%Z)) 8100 (23606 + dpu)%Z
    ("169.254.1." +:+ num dpu).
Definition make_remote_dpu_object (switch dpu : Z) : RemoteDpu :=
  mkRemoteDpu ("18.0." +:+ num switch +:+ "." +:+ num dpu) (Some (normalize_ipv6 ("18:0:" +:+ num switch +:+ "::" +:+ num dpu)))
    ("10.0." +:+ num switch +:+ "." +:+ num dpu) (Some (normalize_ipv6 ("10:0:" +:+ num switch +:+ "::" +:+ num dpu))) dpu (23606 + dpu)%Z.
Definition make_dpu_pmon_state (all_up : bool) : DpuState :=
  let state := if all_up then PmonUp else PmonDown in
  mkDpuState state 1718053542000 state 1718096215000 state 1718231130000.
Definition make_dpu_bfd_state (v4 v6 : list string) : DashBfdProbeState := mkBfdProbe v4 1718053542000 v6 1718053542000.
Definition dpu_name (switch dpu : Z) : string := "switch" +:+ num switch +:+ "_dpu" +:+ num dpu.
Definition make_local_dpu_actor_state (switch dpu : Z) (is_managed : bool) (pmon : option DpuState) (bfd : option DashBfdProbeState) : DpuActorState :=
  from_dpu (dpu_name switch dpu) (make_dpu_object switch dpu) is_managed ("10.0." +:+ num switch +:+ "." +:+ num dpu)
    (Some (normalize_ipv6 ("10:0:" +:+ num switch +:+ "::" +:+ num dpu))) pmon bfd.
Definition make_remote_dpu_actor_state (switch dpu : Z) : DpuActorState := from_remote_dpu (dpu_name switch dpu) (make_remote_dpu_object switch dpu).
Definition to_local_dpu (d : DpuActorState) : Dpu :=
  mkDpu (das_state d) (das_vip_ipv4 d) (das_vip_ipv6 d) (das_pa_ipv4 d) (das_pa_ipv6 d) (das_dpu_id d) (das_vdpu_id d)
    (das_orchagent_zmq_port d) (das_swbus_port d) (default "" (das_midplane_ipv4 d)).
Definition set_states (up : bool) (pmon : option DpuState) (bfd : option DashBfdProbeState) (d : DpuActorState) : DpuActorState :=
  mkDpuActorState (das_remote_dpu d) (das_is_managed d) (das_dpu_name d) up (das_state d)
    (das_npu_ipv4 d) (das_npu_ipv6 d) (das_vip_ipv4 d) (das_vip_ipv6 d) (das_pa_ipv4 d)
    (das_pa_ipv6 d) (das_dpu_id d) (das_vdpu_id d) (das_orchagent_zmq_port d) (das_swbus_port d)
    (das_midplane_ipv4 d) pmon bfd.

(** * vdpu.rs *)

Definition vdpu_actor_test : bool :=
  let dpu_actor_down_state := make_remote_dpu_actor_state 1 0 in
  let dpu_actor_up_state := set_up true dpu_actor_down_state in
  let aut := runtime_sp "vdpu" "test-vdpu" in
  test_passes (vdpu_actor_new "test-vdpu") aut (run_commands aut
    [send_cmd "VDPU" (set_kfv "VDPU" {["main_dpu_ids" := "switch1_dpu0"]}) (bridge_of VDpu);
     Recv (reg_msg_key RegDPUState "test-vdpu") registration (runtime_sp "dpu" "switch1_dpu0");
     send_cmd (reg_msg_key RegVDPUState "test-ha-set") registration (runtime_sp "ha-set" "test-ha-set");
     send_cmd (dpu_msg_key "switch1_dpu0") (HvDpu dpu_actor_up_state) (runtime_sp "dpu" "switch1_dpu0");
     Recv (vdpu_msg_key "test-vdpu") (HvVDpu (mkVDpuActorState true dpu_actor_up_state)) (runtime_sp "ha-set" "test-ha-set");
     send_cmd (dpu_msg_key "switch1_dpu0") (HvDpu dpu_actor_down_state) (runtime_sp "dpu" "switch1_dpu0");
     Recv (vdpu_msg_key "test-vdpu") (HvVDpu (mkVDpuActorState false dpu_actor_down_state)) (runtime_sp "ha-set" "test-ha-set");
     send_cmd "VDPU" (del_kfv "VDPU" {["main_dpu_ids" := "switch1_dpu0"]}) (bridge_of VDpu)]).

Lemma vdpu_actor_passes : vdpu_actor_test = true.
Proof. vm_compute. reflexivity. Qed.

(** * dpu.rs *)

Definition dpu_actor_test : bool :=
  let env := create_actor_runtime 0 "10.0.0.0" (normalize_ipv6 "10::") in
  let pmon_up := make_dpu_pmon_state true in
  let pmon_down := make_dpu_pmon_state false in
  let bfd_up := make_dpu_bfd_state ["10.0.0.0"; "10.0.1.0"; "10.0.2.0"; "10.0.3.0"] [] in
  let bfd_down := make_dpu_bfd_state [] [] in
  let state_wo_bfd := make_local_dpu_actor_state 0 0 true (Some pmon_up) None in
  let global := make_dash_ha_global_config in
  let up_state := set_states true (Some pmon_up) (Some bfd_up) state_wo_bfd in
  let pmon_down_state := set_states false (Some pmon_down) (Some bfd_up) state_wo_bfd in
  let bfd_down_state := set_states false (Some pmon_up) (Some bfd_down) state_wo_bfd in
  let dpu_fvs := fvs_of (to_local_dpu state_wo_bfd) in
  let bfd := mkBfdSession (gc_dpu_bfd_probe_interval_in_ms global) (gc_dpu_bfd_probe_interval_in_ms global)
    (gc_dpu_bfd_probe_multiplier global) true false (das_pa_ipv4 state_wo_bfd) (Some "passive") in
  let remote switch := send_cmd ("REMOTE_DPU|" +:+ dpu_name switch 0)
    (set_kfv ("REMOTE_DPU|" +:+ dpu_name switch 0) (fvs_of (make_remote_dpu_object switch 0))) test_client in
  let bfd_session ip := Recv "switch0_dpu0" (set_kfv ("default:default:" +:+ ip) (fvs_of bfd)) (bridge_of BfdSessionTable) in
  let vdpu := runtime_sp "vdpu" "test-vdpu" in
  let update st := Recv "DPUStateUpdate|switch0_dpu0" (HvDpu st) vdpu in
  let pmon st := send_cmd "DPU_STATE" (set_kfv "DPU1" (fvs_of st)) test_client in
  let probe st := send_cmd "DASH_BFD_PROBE_STATE" (set_kfv "" (fvs_of st)) test_client in
  let aut := runtime_sp "dpu" "switch0_dpu0" in
  test_passes (dpu_actor_new (das_dpu_name state_wo_bfd)) aut (run_commands (Actor0:=dpu_actor env) aut
    [pmon pmon_up;
     send_cmd "DPU" (set_kfv "switch0_dpu0" dpu_fvs) (bridge_of Dpu);
     remote 1%Z;
     send_cmd "DASH_HA_GLOBAL_CONFIG" (set_kfv "DASH_HA_GLOBAL_CONFIG" (fvs_of global)) test_client;
     bfd_session "10.0.0.0";
     bfd_session "10.0.1.0";
     send_cmd "DPUStateRegister|vdpu/test-vdpu" registration vdpu;
     update state_wo_bfd;
     remote 2%Z;
     bfd_session "10.0.2.0";
     remote 3%Z;
     bfd_session "10.0.3.0";
     probe bfd_up;
     update up_state;
     pmon pmon_down;
     update pmon_down_state;
     pmon pmon_up;
     update up_state;
     probe bfd_down;
     update bfd_down_state;
     send_cmd "DPU" (del_kfv "DPU" dpu_fvs) (bridge_of Dpu)]).

Lemma dpu_actor_passes : dpu_actor_test = true.
Proof. vm_compute. reflexivity. Qed.

Definition remote_dpu_actor_test : bool :=
  let env := create_actor_runtime 1 "10.0.0.0" (normalize_ipv6 "10::") in
  let rdpu := make_remote_dpu_object 1 1 in
  let aut := runtime_sp "dpu" "test-rdpu" in
  test_passes (dpu_actor_new "test-rdpu") aut (run_commands (Actor0:=dpu_actor env) aut
    [send_cmd "REMOTE_DPU" (set_kfv "test-rdpu" (fvs_of rdpu)) (bridge_of RemoteDpu);
     send_cmd "DPUStateRegister|vdpu/test-vdpu" registration (runtime_sp "vdpu" "test-vdpu");
     Recv "DPUStateUpdate|test-rdpu" (HvDpu (from_remote_dpu "test-rdpu" rdpu)) (runtime_sp "vdpu" "test-vdpu");
     send_cmd "REMOTE_DPU" (del_kfv "REMOTE_DPU" (fvs_of rdpu)) (bridge_of RemoteDpu)]).

Lemma remote_dpu_actor_passes : remote_dpu_actor_test = true.
Proof. vm_compute. reflexivity. Qed.

(** * Test data of the HA set and the HA scope *)

(** [make_vdpu_actor_state]: the vDPU id from the numbers in the name of the DPU. *)
Fixpoint split_letters (letters : list ascii) (s : string) : list string :=
  match s with
  | EmptyString => [""]
  | String a s =>
      if bool_decide (a ∈ letters) then "" :: split_letters letters s
      else match split_letters letters s with w :: ws => String a w :: ws | [] => [String a ""] end
  end.
Definition make_vdpu_actor_state (up : bool) (d : DpuActorState) : string * VDpuActorState :=
  let parts := List.filter (λ p, negb (is_empty p))
    (split_letters ["s"; "w"; "i"; "t"; "c"; "h"; "_"; "d"; "p"; "u"]%char (das_dpu_name d)) in
  (match parts with [a; b] => "vdpu" +:+ a +:+ "-" +:+ b | _ => "" end, mkVDpuActorState up d).

Definition make_dpu_scope_ha_set_config (switch dpu : Z) : string * DashHaSetConfigTable :=
  let pair := (switch / 2)%Z in
  let vdpu0_id := "vdpu" +:+ num (pair * 2)%Z +:+ "-" +:+ num dpu in
  let vdpu1_id := "vdpu" +:+ num (pair * 2 + 1)%Z +:+ "-" +:+ num dpu in
  ("haset" +:+ num pair +:+ "-" +:+ num dpu,
   mkHaSetConfig "1" ("3.2." +:+ num pair +:+ "." +:+ num dpu) (Some (normalize_ipv6 ("3:2:" +:+ num pair +:+ "::" +:+ num dpu)))
     (Some "dpu") (Some "dpu") [vdpu0_id; vdpu1_id] None (Some [vdpu0_id]) (Some 0%Z)).

Definition make_dpu_scope_ha_set_obj (switch dpu : Z) : string * DashHaSetTable :=
  let pair := (switch / 2)%Z in
  let cfg := (make_dpu_scope_ha_set_config switch dpu).2 in
  let g := make_dash_ha_global_config in
  ("haset" +:+ num pair +:+ "-" +:+ num dpu,
   mkHaSet "1" (hsc_vip_v4 cfg) (hsc_vip_v6 cfg) (hsc_owner cfg) (hsc_scope cfg)
     ("10.0." +:+ num switch +:+ "." +:+ num dpu) ("18.0." +:+ num switch +:+ "." +:+ num dpu)
     ("18.0." +:+ num (pair * 2 + 1)%Z +:+ "." +:+ num dpu)
     (gc_cp_data_channel_port g) (gc_dp_channel_dst_port g) (gc_dp_channel_src_port_min g) (gc_dp_channel_src_port_max g)
     (gc_dp_channel_probe_interval_ms g) (gc_dp_channel_probe_fail_threshold g)).

Definition update_npu_ha_scope_state_by_vdpu (v : VDpuActorState) (n : NpuDashHaScopeState) : NpuDashHaScopeState :=
  let p := default (dpu_state_default test_now) (das_dpu_pmon_state (vds_dpu v)) in
  let b := default (bfd_probe_default test_now) (das_dpu_bfd_state (vds_dpu v)) in
  mkNpuScopeState (nss_creation_time_in_ms n) (nss_last_heartbeat_time_in_ms n) (nss_vip_v4 n) (nss_vip_v6 n) (nss_local_ip n)
    (nss_peer_ip n) (nss_local_ha_state n) (nss_local_ha_state_last_updated_time_in_ms n) (nss_local_ha_state_last_updated_reason n)
    (nss_local_target_asic_ha_state n) (nss_local_acked_asic_ha_state n) (nss_local_target_term n) (nss_local_acked_term n)
    (nss_peer_ha_state n) (nss_peer_term n) (dpu_midplane_link_state p) (dpu_midplane_link_time p) (dpu_control_plane_state p)
    (dpu_control_plane_time p) (dpu_data_plane_state p) (dpu_data_plane_time p) (v4_bfd_up_sessions b) (v4_bfd_up_sessions_timestamp b)
    (v6_bfd_up_sessions b) (v6_bfd_up_sessions_timestamp b) (nss_pending_operation_ids n) (nss_pending_operation_types n)
    (nss_pending_operation_list_last_updated_time_in_ms n) (nss_switchover_id n) (nss_switchover_state n)
    (nss_switchover_start_time_in_ms n) (nss_switchover_end_time_in_ms n) (nss_switchover_approved_time_in_ms n)
    (nss_flow_sync_session_id n) (nss_flow_sync_session_state n) (nss_flow_sync_session_start_time_in_ms n)
    (nss_flow_sync_session_target_server n).
Definition make_npu_ha_scope_state (v : VDpuActorState) (h : DashHaSetTable) : NpuDashHaScopeState :=
  let n := update_npu_ha_scope_state_by_vdpu v npu_scope_state_default in
  mkNpuScopeState (nss_creation_time_in_ms n) (nss_last_heartbeat_time_in_ms n) (hs_vip_v4 h) (hs_vip_v6 h) (hs_local_ip h)
    (hs_peer_ip h) (nss_local_ha_state n) (nss_local_ha_state_last_updated_time_in_ms n) (nss_local_ha_state_last_updated_reason n)
    (nss_local_target_asic_ha_state n) (nss_local_acked_asic_ha_state n) (nss_local_target_term n) (nss_local_acked_term n)
    (nss_peer_ha_state n) (nss_peer_term n) (nss_midplane_state n) (nss_midplane_time n) (nss_control_plane_state n)
    (nss_control_plane_time n) (nss_data_plane_state n) (nss_data_plane_time n) (nss_up_bfd_sessions_v4 n)
    (nss_up_bfd_sessions_v4_update_time n) (nss_up_bfd_sessions_v6 n) (nss_up_bfd_sessions_v6_update_time n)
    (nss_pending_operation_ids n) (nss_pending_operation_types n) (nss_pending_operation_list_last_updated_time_in_ms n)
    (nss_switchover_id n) (nss_switchover_state n) (nss_switchover_start_time_in_ms n) (nss_switchover_end_time_in_ms n)
    (nss_switchover_approved_time_in_ms n) (nss_flow_sync_session_id n) (nss_flow_sync_session_state n)
    (nss_flow_sync_session_start_time_in_ms n) (nss_flow_sync_session_target_server n).
Definition update_npu_ha_scope_state_by_dpu_scope_state (d : DpuDashHaScopeState) (target : string) (n : NpuDashHaScopeState)
    : NpuDashHaScopeState :=
  mkNpuScopeState (nss_creation_time_in_ms n) (nss_last_heartbeat_time_in_ms n) (nss_vip_v4 n) (nss_vip_v6 n) (nss_local_ip n)
    (nss_peer_ip n) (Some (dss_ha_role d)) (Some (dss_ha_role_start_time d)) (Some "dpu initiated") (Some target) (Some (dss_ha_role d))
    (Some (dss_ha_term d)) (Some (dss_ha_term d)) (nss_peer_ha_state n) (nss_peer_term n) (nss_midplane_state n) (nss_midplane_time n)
    (nss_control_plane_state n) (nss_control_plane_time n) (nss_data_plane_state n) (nss_data_plane_time n) (nss_up_bfd_sessions_v4 n)
    (nss_up_bfd_sessions_v4_update_time n) (nss_up_bfd_sessions_v6 n) (nss_up_bfd_sessions_v6_update_time n)
    (nss_pending_operation_ids n) (nss_pending_operation_types n) (nss_pending_operation_list_last_updated_time_in_ms n)
    (nss_switchover_id n) (nss_switchover_state n) (nss_switchover_start_time_in_ms n) (nss_switchover_end_time_in_ms n)
    (nss_switchover_approved_time_in_ms n) (nss_flow_sync_session_id n) (nss_flow_sync_session_state n)
    (nss_flow_sync_session_start_time_in_ms n) (nss_flow_sync_session_target_server n).
Definition update_npu_ha_scope_state_pending_ops (ops : list (string * string)) (n : NpuDashHaScopeState) : NpuDashHaScopeState :=
  mkNpuScopeState (nss_creation_time_in_ms n) (nss_last_heartbeat_time_in_ms n) (nss_vip_v4 n) (nss_vip_v6 n) (nss_local_ip n)
    (nss_peer_ip n) (nss_local_ha_state n) (nss_local_ha_state_last_updated_time_in_ms n) (nss_local_ha_state_last_updated_reason n)
    (nss_local_target_asic_ha_state n) (nss_local_acked_asic_ha_state n) (nss_local_target_term n) (nss_local_acked_term n)
    (nss_peer_ha_state n) (nss_peer_term n) (nss_midplane_state n) (nss_midplane_time n) (nss_control_plane_state n)
    (nss_control_plane_time n) (nss_data_plane_state n) (nss_data_plane_time n) (nss_up_bfd_sessions_v4 n)
    (nss_up_bfd_sessions_v4_update_time n) (nss_up_bfd_sessions_v6 n) (nss_up_bfd_sessions_v6_update_time n) (Some ops.*1) (Some ops.*2)
    (Some (now_in_millis test_now)) (nss_switchover_id n) (nss_switchover_state n) (nss_switchover_start_time_in_ms n)
    (nss_switchover_end_time_in_ms n) (nss_switchover_approved_time_in_ms n) (nss_flow_sync_session_id n)
    (nss_flow_sync_session_state n) (nss_flow_sync_session_start_time_in_ms n) (nss_flow_sync_session_target_server n).
Definition set_target_state (target : string) (n : NpuDashHaScopeState) : NpuDashHaScopeState :=
  mkNpuScopeState (nss_creation_time_in_ms n) (nss_last_heartbeat_time_in_ms n) (nss_vip_v4 n) (nss_vip_v6 n) (nss_local_ip n)
    (nss_peer_ip n) (nss_local_ha_state n) (nss_local_ha_state_last_updated_time_in_ms n) (nss_local_ha_state_last_updated_reason n)
    (Some target) (nss_local_acked_asic_ha_state n) (nss_local_target_term n) (nss_local_acked_term n) (nss_peer_ha_state n)
    (nss_peer_term n) (nss_midplane_state n) (nss_midplane_time n) (nss_control_plane_state n) (nss_control_plane_time n)
    (nss_data_plane_state n) (nss_data_plane_time n) (nss_up_bfd_sessions_v4 n) (nss_up_bfd_sessions_v4_update_time n)
    (nss_up_bfd_sessions_v6 n) (nss_up_bfd_sessions_v6_update_time n) (nss_pending_operation_ids n) (nss_pending_operation_types n)
    (nss_pending_operation_list_last_updated_time_in_ms n) (nss_switchover_id n) (nss_switchover_state n)
    (nss_switchover_start_time_in_ms n) (nss_switchover_end_time_in_ms n) (nss_switchover_approved_time_in_ms n)
    (nss_flow_sync_session_id n) (nss_flow_sync_session_state n) (nss_flow_sync_session_start_time_in_ms n)
    (nss_flow_sync_session_target_server n).
Definition make_dpu_ha_scope_state (role : string) : DpuDashHaScopeState :=
  mkDpuScopeState (now_in_millis test_now) role (now_in_millis test_now) "1" false false false.

(** * ha_set.rs *)

Definition vnet_route_of (endpoint monitor : list string) (managed : bool) : VnetRouteTunnelTable :=
  let g := make_dash_ha_global_config in
  mkVnetRoute endpoint (Some monitor) None (Some ["true"; "false"]) (gc_dpu_bfd_probe_interval_in_ms g)
    (gc_dpu_bfd_probe_interval_in_ms g) (Some managed).

Definition ha_set_actor_test : bool :=
  let env := create_actor_runtime 0 "10.0.0.0" (normalize_ipv6 "10::") in
  let global_fvs := fvs_of make_dash_ha_global_config in
  let '(ha_set_id, cfg) := make_dpu_scope_ha_set_config 0 0 in
  let cfg_fvs := fvs_of cfg in
  let dpu0 := make_local_dpu_actor_state 0 0 true None None in
  let dpu1 := make_remote_dpu_actor_state 1 0 in
  let '(vdpu0_id, vdpu0) := make_vdpu_actor_state true dpu0 in
  let '(vdpu1_id, vdpu1) := make_vdpu_actor_state true dpu1 in
  let ha_set_obj := (make_dpu_scope_ha_set_obj 0 0).2 in
  let route := vnet_route_of [das_pa_ipv4 dpu0; das_npu_ipv4 dpu1] [das_pa_ipv4 dpu0; das_pa_ipv4 dpu1] true in
  let scope := runtime_sp "ha-scope" ("vdpu0:" +:+ ha_set_id) in
  let table := "DASH_HA_SET_CONFIG_TABLE" in
  let aut := runtime_sp "ha-set" ha_set_id in
  test_passes (mkHaSetActor ha_set_id None []) aut (run_commands (Actor0:=haset_actor env) aut
    [send_cmd table (set_kfv table cfg_fvs) (bridge_of DashHaSetConfigTable);
     Recv (reg_msg_key RegVDPUState ha_set_id) registration (runtime_sp "vdpu" vdpu0_id);
     Recv (reg_msg_key RegVDPUState ha_set_id) registration (runtime_sp "vdpu" vdpu1_id);
     send_cmd (reg_msg_key RegHaSetState ("vdpu0:" +:+ ha_set_id)) registration scope;
     send_cmd "DASH_HA_GLOBAL_CONFIG" (set_kfv "DASH_HA_GLOBAL_CONFIG" global_fvs) test_client;
     send_cmd (vdpu_msg_key vdpu0_id) (HvVDpu vdpu0) (runtime_sp "vdpu" vdpu0_id);
     send_cmd (vdpu_msg_key vdpu1_id) (HvVDpu vdpu1) (runtime_sp "vdpu" vdpu1_id);
     Recv ha_set_id (set_kfv ha_set_id (fvs_of ha_set_obj)) (bridge_of DashHaSetTable);
     Recv (haset_msg_key ha_set_id) (HvHaSet (mkHaSetActorState true ha_set_obj)) scope;
     chkdb_cmd VnetRouteTunnelTable ("vnet0:" +:+ hsc_vip_v4 cfg) (fvs_of route) "";
     send_cmd table (del_kfv table cfg_fvs) (bridge_of DashHaSetConfigTable)]).

Lemma ha_set_actor_passes : ha_set_actor_test = true.
Proof. vm_compute. reflexivity. Qed.

Definition remote_ha_set_actor_test : bool :=
  let env := create_actor_runtime 0 "10.0.0.0" (normalize_ipv6 "10::") in
  let global_fvs := fvs_of make_dash_ha_global_config in
  let '(ha_set_id, cfg) := make_dpu_scope_ha_set_config 2 0 in
  let cfg_fvs := fvs_of cfg in
  let dpu0 := make_remote_dpu_actor_state 2 0 in
  let dpu1 := make_remote_dpu_actor_state 3 0 in
  let '(vdpu0_id, vdpu0) := make_vdpu_actor_state true dpu0 in
  let '(vdpu1_id, vdpu1) := make_vdpu_actor_state true dpu1 in
  let route := vnet_route_of [das_npu_ipv4 dpu0; das_npu_ipv4 dpu1] [das_pa_ipv4 dpu0; das_pa_ipv4 dpu1] false in
  let table := "DASH_HA_SET_CONFIG_TABLE" in
  let aut := runtime_sp "ha-set" ha_set_id in
  test_passes (mkHaSetActor ha_set_id None []) aut (run_commands (Actor0:=haset_actor env) aut
    [send_cmd table (set_kfv table cfg_fvs) (bridge_of DashHaSetConfigTable);
     Recv (reg_msg_key RegVDPUState ha_set_id) registration (runtime_sp "vdpu" vdpu0_id);
     Recv (reg_msg_key RegVDPUState ha_set_id) registration (runtime_sp "vdpu" vdpu1_id);
     send_cmd "DASH_HA_GLOBAL_CONFIG" (set_kfv "DASH_HA_GLOBAL_CONFIG" global_fvs) test_client;
     send_cmd (vdpu_msg_key vdpu0_id) (HvVDpu vdpu0) (runtime_sp "vdpu" vdpu0_id);
     send_cmd (vdpu_msg_key vdpu1_id) (HvVDpu vdpu1) (runtime_sp "vdpu" vdpu1_id);
     chkdb_cmd VnetRouteTunnelTable ("vnet0:" +:+ hsc_vip_v4 cfg) (fvs_of route) "";
     send_cmd table (del_kfv table cfg_fvs) (bridge_of DashHaSetConfigTable)]).

Lemma remote_ha_set_actor_passes : remote_ha_set_actor_test = true.
Proof. vm_compute. reflexivity. Qed.

(** * ha_scope.rs *)

Definition scope_row (version disable desired approved : string) : FieldValues :=
  {["version" := version; "disable" := disable; "desired_ha_state" := desired; "approved_pending_operation_ids" := approved]}.
Definition dpu_scope_row (version disable activate : string) : FieldValues :=
  {["version" := version; "ha_role" := "active"; "disable" := disable; "activate_role_requested" := activate;
    "flow_reconcile_requested" := "false"]}.

(** [swss_serde::from_table] of the row of the scope, for the id of its pending operation. *)
Definition read_op_id {A} (key : string) : M (Harness (A:=A)) string string :=
  let* h := get_state in
  match table_get (databases (h_actor h)) (table_name NpuDashHaScopeState) key with
  | Ok (Some f) =>
      let* st := of_result (from_field_values (T:=NpuDashHaScopeState) (h_now h) f) in
      match nss_pending_operation_ids st ≫= last with Some i => ret i | None => throw "unwrap" end
  | _ => throw "unwrap"
  end.

Definition ha_scope_planned_up_then_down_test : bool :=
  let env := create_actor_runtime 0 "10.0.0.0" (normalize_ipv6 "10::") in
  let '(ha_set_id, ha_set_obj) := make_dpu_scope_ha_set_obj 0 0 in
  let dpu_mon := make_dpu_pmon_state true in
  let dpu0 := make_local_dpu_actor_state 0 0 true (Some dpu_mon) (Some (make_dpu_bfd_state [] [])) in
  let '(vdpu0_id, vdpu0) := make_vdpu_actor_state true dpu0 in
  let npu1 := make_npu_ha_scope_state vdpu0 ha_set_obj in
  let dpu_st2 := make_dpu_ha_scope_state "dead" in
  let npu2 := update_npu_ha_scope_state_by_dpu_scope_state dpu_st2 "active" npu1 in
  let dpu_st3 := mkDpuScopeState (now_in_millis test_now) (dss_ha_role dpu_st2) (dss_ha_role_start_time dpu_st2) (dss_ha_term dpu_st2) true false false in
  let npu3 := update_npu_ha_scope_state_pending_ops [("1", "activate_role")]
    (update_npu_ha_scope_state_by_dpu_scope_state dpu_st3 "active" npu2) in
  let npu4 := update_npu_ha_scope_state_pending_ops [] npu3 in
  let dpu_st5 := mkDpuScopeState (now_in_millis test_now) "active" (now_in_millis test_now) "2" false false false in
  let npu5 := update_npu_ha_scope_state_by_dpu_scope_state dpu_st5 "active" npu4 in
  let vdpu0' := mkVDpuActorState true
    (make_local_dpu_actor_state 0 0 true (Some dpu_mon) (Some (make_dpu_bfd_state ["10.0.0.0"; "10.0.1.0"] []))) in
  let npu6 := update_npu_ha_scope_state_by_vdpu vdpu0' npu5 in
  let npu7 := set_target_state "dead" npu6 in
  let scope_id := vdpu0_id +:+ ":" +:+ ha_set_id in
  let state_key := vdpu0_id +:+ "|" +:+ ha_set_id in
  let aut := runtime_sp "ha-scope" scope_id in
  let config version disable desired approved := send_cmd "DASH_HA_SCOPE_CONFIG_TABLE"
    (set_kfv scope_id (scope_row version disable desired approved)) (bridge_of DashHaScopeConfigTable) in
  let programmed version disable activate := Recv ha_set_id (set_kfv ha_set_id (dpu_scope_row version disable activate)) (bridge_of DashHaScopeTable) in
  let npu_state n exclude := chkdb_cmd NpuDashHaScopeState state_key (fvs_of n) exclude in
  let dpu_state d := send_cmd "DASH_HA_SCOPE_STATE" (set_kfv "DASH_HA_SCOPE_STATE" (fvs_of d)) test_client in
  let vdpu_state v := send_cmd (vdpu_msg_key vdpu0_id) (HvVDpu v) (runtime_sp "vdpu" vdpu0_id) in
  let updated := "pending_operation_list_last_updated_time_in_ms" in
  let run := run_commands (Actor0:=hascope_actor env (λ _ n, "operation" +:+ num (Z.of_nat n))) aut in
  match hascope_actor_new scope_id with
  | Err _ => false
  | Ok a =>
      test_passes a aut
        (run [config "1" "true" "active" "";
              Recv (reg_msg_key RegVDPUState scope_id) registration (runtime_sp "vdpu" vdpu0_id);
              Recv (reg_msg_key RegHaSetState scope_id) registration (runtime_sp "ha-set" ha_set_id);
              send_cmd (haset_msg_key ha_set_id) (HvHaSet (mkHaSetActorState true ha_set_obj)) (runtime_sp "ha-set" ha_set_id);
              vdpu_state vdpu0;
              programmed "1" "true" "false";
              npu_state npu1 "";
              dpu_state dpu_st2;
              npu_state npu2 "";
              config "2" "false" "active" "";
              programmed "2" "false" "false";
              npu_state npu2 "";
              dpu_state dpu_st3;
              npu_state npu3 ("pending_operation_ids," +:+ updated)];;;
         let* op_id := read_op_id state_key in
         run [config "3" "false" "active" op_id;
              programmed "3" "false" "true";
              npu_state npu4 updated;
              dpu_state dpu_st5;
              npu_state npu5 updated;
              vdpu_state vdpu0';
              npu_state npu6 updated];;;
         run [config "2" "false" "dead" "";
              npu_state npu7 updated;
              send_cmd "DASH_HA_SCOPE_CONFIG_TABLE" (del_kfv scope_id (scope_row "2" "false" "dead" "")) (bridge_of DashHaScopeConfigTable)])
  end.

Lemma ha_scope_planned_up_then_down_passes : ha_scope_planned_up_then_down_test = true.
Proof. vm_compute. reflexivity. Qed.
