(* ===== verification/BusTests.v ===== *)
(** The unit tests of the message bus, run against the models: the [tests] modules
    of swbus-proto (swbus.rs, result.rs), of swbus-core/src/mux (conn_info,
    conn_proxy, nexthop, multiplexer, conn_store, conn_worker) and of swbus-edge
    (edge_runtime.rs). A test is a boolean, with an assertion for each of the
    source's; it is evaluated to its end. *)
From S2P Require Import Prelude RustStr Path Proto Json Mux MuxWitness Conn Edge CoreClient Actor.

Open Scope stdpp_scope.

(** * Assertions *)

(** [assert!], [assert_eq!]: a test that fails panics. *)
Definition assert_true {S E} (b : bool) : M S E unit := if b then ret tt else panic "assertion failed".
Definition assert_eq {S E A} `{EqDecision A} (x y : A) : M S E unit := assert_true (bool_decide (x = y)).
(** The test, run from [s], ends without a panic and without an error. *)
Definition test_ends {S E A} (test : M S E A) (s : S) : bool := match test s with Done (Ok _, _) => true | _ => false end.

(** [ServicePath::from_string(s).unwrap()], which never fails. *)
Definition parsed_sp (s : string) : ServicePath := match from_string (E:=unit) s with Ok p => p | Err _ => mkPath "" "" "" "" "" "" "" end.

#[export] Instance test_conn_proxy_eq_dec : EqDecision SwbusConnProxy.
Proof. solve_decision. Defined.
#[export] Instance test_next_hop_eq_dec : EqDecision SwbusNextHop.
Proof. solve_decision. Defined.

(** * swbus-proto *)

Definition mock_path (cluster node resource : string) : ServicePath :=
  mkPath "region" cluster node "service_type" "service_id" "resource_type" resource.

Definition service_path_can_be_converted_to_string : bool :=
  bool_decide (to_string (mock_path "cluster" "node" "resource_id") =
    "region.cluster.node/service_type/service_id/resource_type/resource_id") &&
  bool_decide (to_string (mock_path "cluster" "" "resource_id") =
    "region.cluster/service_type/service_id/resource_type/resource_id") &&
  bool_decide (to_string (mock_path "" "" "resource_id") = "region/service_type/service_id/resource_type/resource_id").

Definition service_path_join : bool :=
  let joins base other expected := bool_decide (join_path (parsed_sp base) (parsed_sp other) = parsed_sp expected) in
  joins "region.cluster.node/stype/sid/rtype/rid" "other-region.cluster.node/stype/sid/rtype/rid"
    "other-region.cluster.node/stype/sid/rtype/rid" &&
  joins "region.cluster.node/stype/sid/rtype/rid" "/other-stype/sid" "region.cluster.node/other-stype/sid" &&
  joins "region.cluster.node/stype/sid/rtype/rid" "" "region.cluster.node/stype/sid/rtype/rid".

Definition test_service_path_to_and_from_string : bool :=
  let round_trip p s := bool_decide (to_longest_path p = s) && bool_decide (parsed_sp s = p) in
  round_trip (mkPath "region-a" "cluster-a" "1.1.1.1-dpu0" "" "" "" "") "region-a.cluster-a.1.1.1.1-dpu0" &&
  round_trip (mkPath "" "" "" "hamgrd" "0" "" "") "/hamgrd/0".

Definition test_to_swbusd_service_path : bool :=
  bool_decide (to_swbusd_service_path (mkPath "region-a" "cluster-a" "1.1.1.1-dpu0" "cli" "0" "ping" "0") =
    mkPath "region-a" "cluster-a" "1.1.1.1-dpu0" "" "" "" "").

Section ProtoTests.
(** The time at which the tests start. *)
Context (start : Z).

Definition create_mock_service_path : ServicePath := mock_path "cluster" "node" "resource_id".
Definition create_mock_message_id : Z := (id_generate (id_generator_new start)).1.
Definition create_mock_swbus_message_header : SwbusMessageHeader :=
  header_new (mock_path "cluster" "node" "source_resource_id") (mock_path "cluster" "node" "destination_resource_id")
    create_mock_message_id.
Definition test_packing_with_swbus_message (b : Body) : bool :=
  bool_decide (is_Some (body (mkMessage (Some create_mock_swbus_message_header) (Some b)))).
Definition request_response_can_be_created : bool :=
  test_packing_with_swbus_message (Response (response_ok create_mock_message_id)) &&
  test_packing_with_swbus_message (Response (infra_error create_mock_message_id NoRoute "No route is found.")).

Definition test_swbus_message_new_response : bool :=
  let request := message_new create_mock_swbus_message_header PingRequest in
  test_ends (S:=unit) (E:=unit) (
    let* hd := unwrap "header" (header request) in
    let* response := new_response request None CodeOk "" create_mock_message_id None in
    let* rh := unwrap "header" (header response) in
    assert_eq (version rh) 1%Z;;; assert_eq (flag rh) 0%Z;;; assert_eq (ttl rh) 64%Z;;;
    assert_eq (source rh) (destination hd);;;
    assert_eq (destination rh) (source hd);;;
    match body response with
    | Some (Response r) => assert_eq (request_id r) (id hd)
    | _ => panic "Invalid response body. Expected Response body type"
    end) tt.
End ProtoTests.

(** [Display] of [SwbusError]. *)
Definition swbus_error_text (e : SwbusError) : string :=
  let text kind code detail := kind +:+ ":" +:+ error_code_debug code +:+ " - " +:+ detail in
  match e with
  | ConnectionErr code detail => text "Connection" code detail
  | InputErr code detail => text "Input" code detail
  | RouteErr code detail => text "Route" code detail
  | InternalErr code detail => text "Internal" code detail
  end.
Definition swbus_error_can_be_displayed : bool :=
  test_ends (S:=unit) (E:=unit) (
    let* error := connection ConnectionError "Connection error" in
    assert_eq (swbus_error_text error) "Connection:ConnectionError - Connection error";;;
    let* error := input InvalidArgs "Input error" in
    assert_eq (swbus_error_text error) "Input:InvalidArgs - Input error";;;
    let* error := route NoRoute "Route error" in
    assert_eq (swbus_error_text error) "Route:NoRoute - Route error";;;
    let* error := internal CodeFail "Internal error" in
    assert_eq (swbus_error_text error) "Internal:Fail - Internal error") tt.

(** * Connections and next hops *)

Definition local_8080 : SocketAddr := mkAddr "127.0.0.1" 8080.
Definition home_path : ServicePath := parsed_sp "region-a.cluster-a.10.0.0.2-dpu0".
Definition peer_path : ServicePath := parsed_sp "region-a.cluster-a.10.0.0.1-dpu0".
Definition far_path : ServicePath := parsed_sp "region-a.cluster-a.10.0.0.3-dpu0".
Definition test_conn_info : SwbusConnInfo :=
  new_client ConnCluster local_8080 (parsed_sp "regiona.clustera.10.0.0.2-dpu0") (parsed_sp "regiona.clustera.10.0.0.1-dpu0").

Definition new_client_conn_info_should_succeed : bool :=
  bool_decide (new_client ConnCluster local_8080 peer_path home_path =
    mkConnInfo "swbs-to://127.0.0.1:8080" ModeClient local_8080 ConnCluster (Some home_path) peer_path).
Definition new_server_conn_info_should_succeed : bool :=
  bool_decide (new_server ConnRegion local_8080 peer_path =
    mkConnInfo "swbs-from://127.0.0.1:8080" ModeServer local_8080 ConnRegion None peer_path).

Abbreviation TestMux := (MuxState BoundedChan).
Definition mux_test {A} (test : M TestMux SwbusError A) : bool := test_ends test (mux_new 0).

(** [mpsc::channel(n)]; its receiver may have been dropped. *)
Definition new_channel (q capacity : nat) (dropped : bool) : M TestMux SwbusError unit :=
  modify (with_queue q (mkChan capacity [] dropped)).
(** [rx.recv()], which would wait on an empty channel. *)
Definition channel_recv (q : nat) : M TestMux SwbusError SwbusMessage :=
  let* m := get_state in
  let* c := unwrap "channel" (send_queues m !! q) in
  match chan_queue c with
  | msg :: l => modify (with_queue q (mkChan (chan_capacity c) l (chan_closed c)));;; ret msg
  | [] => panic "No message received"
  end.

Definition default_message : SwbusMessage := mkMessage None None.
Definition conn_proxy_can_queue_message : bool :=
  mux_test (new_channel 0 1 false;;;
            unwrap_result "try_queue" (try_queue (mkProxy 0) default_message);;;
            let* received := channel_recv 0 in
            assert_eq received default_message).
Definition conn_proxy_should_fail_when_queue_full : bool :=
  mux_test (new_channel 0 1 false;;;
            unwrap_result "try_queue" (try_queue (mkProxy 0) default_message);;;
            let* result := attempt (try_queue (mkProxy 0) default_message) in
            match result with
            | Err (RouteErr code _) => assert_eq code QueueFull
            | _ => panic "Expected RouteError"
            end).

Definition test_new_remote : bool :=
  bool_decide (new_remote test_conn_info (mkProxy 0) 5 = mkNextHop HopRemote (Some test_conn_info) (Some (mkProxy 0)) 5).
Definition test_new_local : bool := bool_decide (new_local = mkNextHop HopLocal None None 0).

(** A ping, as the tests write it. *)
Definition test_ping (t : Z) (src dst : string) : SwbusMessage :=
  mkMessage (Some (mkHeader 1 0 0 t (Some (parsed_sp src)) (Some (parsed_sp dst)))) (Some PingRequest).
Definition home_route : RouteConfig := mkRouteConfig home_path ScopeCluster.

Definition test_queue_message_drop : bool :=
  mux_test (let* result := unwrap_result "queue_message" (queue_message new_local
                             (mkMessage (Some (header_new peer_path home_path 1)) None)) in
            assert_eq (E:=SwbusError) result None).
Definition test_queue_message_local_ping : bool :=
  mux_test (modify (set_my_routes [home_route]);;;
            let* result := unwrap_result "queue_message" (queue_message new_local
              (test_ping 63 "region-a.cluster-a.10.0.0.1-dpu0/testsvc/0/ping/0" "region-a.cluster-a.10.0.0.2-dpu0/local-mgmt/0")) in
            let* response := unwrap (E:=SwbusError) "response" result in
            assert_eq (header response ≫= destination) (Some (parsed_sp "region-a.cluster-a.10.0.0.1-dpu0/testsvc/0/ping/0"))).
Definition test_queue_message_remote_ttl_expired : bool :=
  mux_test (new_channel 0 16 true;;;
            modify (set_my_routes [home_route]);;;
            let* result := unwrap_result "queue_message" (queue_message (new_remote test_conn_info (mkProxy 0) 5)
              (test_ping 1 "region-a.cluster-a.10.0.0.1-dpu0/testsvc/0/ping/0" "region-a.cluster-a.10.0.0.3-dpu0/local-mgmt/0")) in
            let* response := unwrap (E:=SwbusError) "response" result in
            match body response with
            | Some (Response r) =>
                assert_eq (error_code r) (error_code_i32 Unreachable);;; assert_eq (error_message r) "TTL expired"
            | _ => panic "Expected response message"
            end).

(** * multiplexer.rs *)

Definition test_set_my_routes : bool :=
  let route_config := mkRouteConfig peer_path ScopeCluster in
  mux_test (modify (set_my_routes [route_config]);;;
            let* m := get_state in
            assert_true (bool_decide (route_config ∈ my_routes m));;;
            let* nh := unwrap (E:=SwbusError) "route" (routes m !! to_node_prefix (route_key_path route_config)) in
            assert_eq (nh_type nh) HopLocal).

(** [add_route]: the channel of the next hop is [q]; [let _ = add_route(..)] drops
    its receiver. *)
Definition mux_add_route (q : nat) (dropped : bool) (key : string) (hops : Z) (nh_sp : string) (ct : ConnectionType)
    : M TestMux SwbusError unit :=
  let ci := new_client ct local_8080 (parsed_sp nh_sp) (parsed_sp "regiona.clustera.10.0.0.1-dpu0") in
  new_channel q 16 dropped;;;
  modify (update_route key (new_remote ci (mkProxy q) hops)).

(** The nested answers of the tests are at most two deep. *)
Definition test_fuel : nat := 4.

(** [normalize_msg], inside a test. *)
Definition normalized (msg : SwbusMessage) : M TestMux SwbusError SwbusMessage :=
  match normalize_msg msg tt with Done (Ok m, _) => ret m | _ => panic "normalize_msg" end.
Definition route_message_and_compare (q : nat) (request expected : SwbusMessage) : M TestMux SwbusError unit :=
  let* result := attempt (E':=SwbusError) (route_message test_fuel request) in
  assert_eq result (Ok tt);;;
  let* msg := channel_recv q in
  let* normalized_msg := normalized msg in
  assert_eq normalized_msg expected.

(** An answer, as the tests write it. *)
Definition test_answer (src dst : string) (code : Z) (text : string) : SwbusMessage :=
  mkMessage (Some (mkHeader 1 0 0 63 (Some (parsed_sp src)) (Some (parsed_sp dst)))) (Some (Response (mkResponse 0 code text None))).
Definition add_node (q : nat) (dropped : bool) (sp : string) : M TestMux SwbusError unit :=
  mux_add_route q dropped sp 1 sp ConnCluster.
Definition node1 : string := "region-a.cluster-a.10.0.0.1-dpu0".
Definition node2 : string := "region-a.cluster-a.10.0.0.2-dpu0".
Definition node3 : string := "region-a.cluster-a.10.0.0.3-dpu0".

Definition test_route_message : bool :=
  mux_test (modify (set_my_routes [home_route]);;;
            add_node 0 true node1;;; add_node 1 false node3;;;
            route_message_and_compare 1
              (test_ping 63 (node1 +:+ "/testsvc/0/ping/0") (node3 +:+ "/local-mgmt/0"))
              (test_ping 62 (node1 +:+ "/testsvc/0/ping/0") (node3 +:+ "/local-mgmt/0"))).
Definition test_route_message_unreachable : bool :=
  mux_test (modify (set_my_routes [home_route]);;;
            add_node 0 false node1;;; add_node 1 true node3;;;
            route_message_and_compare 0
              (test_ping 1 (node1 +:+ "/testsvc/0/ping/0") (node3 +:+ "/local-mgmt/0"))
              (test_answer node2 (node1 +:+ "/testsvc/0/ping/0") 303 "TTL expired")).
Definition test_route_message_noroute : bool :=
  mux_test (modify (set_my_routes [home_route]);;;
            add_node 0 false node1;;;
            route_message_and_compare 0
              (test_ping 63 (node1 +:+ "/testsvc/0/ping/0") (node3 +:+ "/local-mgmt/0"))
              (test_answer node2 (node1 +:+ "/testsvc/0/ping/0") 301 "Route not found")).
Definition test_route_message_isolated : bool :=
  mux_test (modify (set_my_routes [home_route]);;;
            let* result := attempt (E':=SwbusError)
              (route_message test_fuel (test_ping 63 (node1 +:+ "/testsvc/0/ping/0") (node3 +:+ "/local-mgmt/0"))) in
            assert_eq result (Ok tt)).

(** [serde_json::to_string] and back. *)
Definition reread_routes (l : list RouteQueryResultEntry) : M TestMux SwbusError (list RouteQueryResultEntry) :=
  match map_m deserialize_entry (sorted_vec_serializer l) tt with Done (Ok es, _) => ret es | _ => panic "from_str" end.
Definition test_export_routes : bool :=
  let entry1 := mkRouteEntry (Some (parsed_sp node1)) "" (Some (parsed_sp node1)) (scope_code ScopeCluster) 1 in
  let entry2 := mkRouteEntry (Some (parsed_sp "region-a.cluster-b")) "" (Some (parsed_sp "region-a.cluster-b.10.0.0.1-dpu0"))
                  (scope_code ScopeRegion) 1 in
  mux_test (modify (set_my_routes [home_route]);;;
            add_node 0 false node1;;;
            mux_add_route 1 false "region-a.cluster-b" 1 "region-a.cluster-b.10.0.0.1-dpu0" ConnRegion;;;
            let* rs := export_routes (Some ScopeCluster) in
            let* rs := reread_routes rs in
            assert_eq rs [entry1; entry2];;;
            let* rs := export_routes (Some ScopeRegion) in
            let* rs := reread_routes rs in
            assert_eq rs [entry2]).

(** * conn_store.rs and conn_worker.rs *)

Abbreviation TestNode := (NodeState BoundedChan).
Definition test_node : TestNode := mkNode (mux_new 0) ∅ [] ∅ ∅ 0.
Definition node_test {A} (test : M TestNode SwbusError A) : bool := test_ends test test_node.
Definition own_route : RouteConfig := mkRouteConfig peer_path ScopeCluster.
Definition is_task (t : ConnTracker) : bool := match t with TrackTask _ => true | TrackConn _ => false end.
(** [connections.iter().any(..)] *)
Definition tracks (i : string) (p : ConnTracker → bool) (n : TestNode) : bool :=
  existsb (λ e : SwbusConnInfo * ConnTracker, bool_decide (conn_id e.1 = i) && p e.2) (map_to_list (connections n)).

Definition test_add_peer : bool :=
  node_test (modify (add_my_route own_route);;;
             add_peer (mkPeer home_path local_8080 ConnLocal);;;
             let* n := get_state in
             assert_true (E:=SwbusError) (tracks "swbs-to://127.0.0.1:8080" is_task n)).
Definition test_add_my_route : bool :=
  node_test (modify (add_my_route own_route);;;
             let* n := get_state in
             assert_true (E:=SwbusError) (bool_decide (own_route ∈ store_routes n))).
Definition test_conn_lost : bool :=
  node_test (modify (add_my_route own_route);;;
             modify (conn_lost test_conn_info);;;
             let* n := get_state in
             assert_true (E:=SwbusError) (tracks "swbs-to://127.0.0.1:8080" is_task n)).
Definition test_conn_established : bool :=
  node_test (modify (add_my_route own_route);;;
             modify (with_mux (with_queue 0 (mkChan 16 [] true)));;;
             let* conn := conn_new test_conn_info 0 in
             modify (conn_established conn);;;
             let* n := get_state in
             assert_true (E:=SwbusError) (tracks (conn_id test_conn_info) (λ t, negb (is_task t)) n)).

(** [worker_task.await] is [Ok]: the task of the worker ends without a panic, in
    whatever order [select!] sees what is ready. *)
Definition worker_joins (setup : TestNode → TestNode) (orders : list (list WorkerEvent)) : bool :=
  forallb (λ evs, match run false test_fuel test_conn_info evs (setup test_node) with Done _ => true | _ => false end) orders.
Definition conn_worker_can_be_shutdown : bool :=
  worker_joins (λ n, n) [[EvShutdown]; [EvStreamClosed]].
Definition conn_worker_can_process_data_message : bool :=
  let ping_msg := mkMessage (Some (header_new peer_path home_path 1)) (Some PingRequest) in
  worker_joins (with_mux (set_my_routes [own_route]))
    [[EvMessage ping_msg; EvStreamClosed]; [EvMessage ping_msg; EvShutdown]; [EvShutdown]].

Definition test_worker_invalid_message : bool :=
  let sp1 := Some (parsed_sp "regiona.clustera.10.0.0.1-dpu0") in
  let sp2 := Some (parsed_sp "regiona.clustera.10.0.0.2-dpu0") in
  let rejected (message : SwbusMessage) : M TestNode SwbusError unit :=
    let* r := attempt (E':=SwbusError) (validate_message_common message) in
    match r with Ok _ => panic "accepted" | Err _ => ret tt end in
  node_test (
    rejected (mkMessage None (Some TraceRouteRequest));;;
    rejected (mkMessage (Some (mkHeader 0 1 0 64 sp1 sp2)) (Some TraceRouteRequest));;;
    rejected (mkMessage (Some (mkHeader 1 1 0 64 None sp2)) (Some TraceRouteRequest));;;
    rejected (mkMessage (Some (mkHeader 1 1 0 64 sp2 None)) (Some TraceRouteRequest));;;
    rejected (mkMessage (Some (mkHeader 1 1 0 64 sp1 sp2)) None)).

(** * edge_runtime.rs *)

(** [make_a_handler] and [add_handler]: the handler of the [h]-th path. *)
Definition make_a_handler (h : nat) (sp : string) : M EdgeState SwbusError (ServicePath * nat) :=
  modify (with_handler h (mkMsgChan [] true));;;
  modify (add_handler (parsed_sp sp) h);;;
  ret (parsed_sp sp, h).
(** The router runs until its queue is empty. *)
Definition router_runs : M EdgeState SwbusError unit :=
  let* s := get_state in
  let msgs := delivered (sender_to_message_router s) in
  put_state (mkEdge (base_sp s) (edge_routes s) (handlers s) (mkMsgChan [] true) (core_queue s));;;
  route_task ((λ m, (m, Private)) <$> msgs).
Definition handler_recv (h : nat) : M EdgeState SwbusError SwbusMessage :=
  let* s := get_state in
  let* c := unwrap "handler" (handlers s !! h) in
  match delivered c with
  | m :: l => modify (with_handler h (mkMsgChan l (receiver_open c)));;; ret m
  | [] => panic "timeout"
  end.
Definition test_routing_to_handler : bool :=
  let key := parsed_sp "region-a.cluster-a.10.0.1.0-dpu0" in
  let sp := mkPath (region_id key) (cluster_id key) (node_id key) "swbus-edge" "test" "" "" in
  let base_sp := to_longest_path (to_swbusd_service_path key) in
  test_ends (
    let* hs := map_m (λ e : nat * string, make_a_handler e.1 (base_sp +:+ e.2))
      (zip (seq 0 5) ["/swbus-edge/test/r/1"; "/swbus-edge/test/r"; "/swbus-edge/test"; "/swbus-edge"; ""]) in
    for_each (λ e : ServicePath * nat,
      unwrap_result "send" (edge_send (mkMessage (Some (mkHeader 0 0 0 0 (Some e.1) (Some e.1))) None));;;
      router_runs;;;
      let* recv_msg := handler_recv e.2 in
      assert_eq (header recv_msg ≫= destination) (Some e.1)) hs) (edge_new sp).

(** The core client against a swbusd that is started, shut down and started again:
    its dial succeeds, the stream ends, a dial fails, the next succeeds. *)
Definition test_swbusd_reconnect : bool :=
  let sp := mkPath "region-a" "cluster-a" "10.0.1.0-dpu0" "swbus-edge" "test" "" "" in
  let dials (l : list (option (list StreamItem))) := foldl (λ s d, connect_round d s) (edge_new sp, mkChan 16 [] false) l in
  swbusd_connected (dials [Some []]).1 &&
  negb (swbusd_connected (dials [Some [StreamClosed]]).1) &&
  negb (swbusd_connected (dials [Some [StreamClosed]; None]).1) &&
  swbusd_connected (dials [Some [StreamClosed]; None; Some []]).1.

(** * The tests pass *)

Definition bus_tests : list bool := [
    service_path_can_be_converted_to_string; service_path_join; test_service_path_to_and_from_string;
    test_to_swbusd_service_path; request_response_can_be_created 0; test_swbus_message_new_response 0;
    swbus_error_can_be_displayed; new_client_conn_info_should_succeed; new_server_conn_info_should_succeed;
    conn_proxy_can_queue_message; conn_proxy_should_fail_when_queue_full; test_new_remote; test_new_local;
    test_queue_message_drop; test_queue_message_local_ping; test_queue_message_remote_ttl_expired;
    test_set_my_routes; test_route_message; test_route_message_unreachable; test_route_message_noroute;
    test_route_message_isolated; test_export_routes; test_add_peer; test_add_my_route; test_conn_lost;
    test_conn_established; conn_worker_can_be_shutdown; conn_worker_can_process_data_message;
    test_worker_invalid_message; test_swbusd_reconnect; test_routing_to_handler].

Lemma bus_tests_pass : Forall (λ t, t = true) bus_tests.
Proof. repeat constructor; vm_compute; reflexivity. Qed.
