(* ===== verification/ActorTests.v ===== *)
(** The tests of swbus-actor, run against the models: tests/echo.rs,
    tests/kvstore.rs, tests/test_executor.rs with its JSON specifications, and
    the [test] module of state/incoming.rs. The actors of a test run on one edge
    runtime: their messages go through its router ([edge_route_message]) to the
    handler of the destination, whose client receives them for the driver
    ([receive_message]). *)
From S2P Require Import Prelude RustStr Path Proto Edge Actor ActorWitness Link HaValue BusTests.

Open Scope stdpp_scope.

(** * JSON values *)

Inductive JsonValue : Type := JNum (z : Z) | JStr (s : string) | JObj (l : list (string * JsonValue)).

Fixpoint json_tree (j : JsonValue) : Tree :=
  match j with
  | JNum z => TNum z
  | JStr s => TStr s
  | JObj l => TList (map (λ e, TList [TStr e.1; json_tree e.2]) l)
  end.
Fixpoint json_of_tree (t : Tree) : option JsonValue :=
  match t with
  | TNum z => Some (JNum z)
  | TStr s => Some (JStr s)
  | TList l =>
      JObj <$> (fix fields (l : list Tree) : option (list (string * JsonValue)) :=
        match l with
        | [] => Some []
        | TList [TStr k; v] :: l' => v ← json_of_tree v; r ← fields l'; Some ((k, v) :: r)
        | _ => None
        end) l
  end.
#[export] Instance json_wire : Wire JsonValue := {|
  to_vec m := tree_bytes (TList [TStr (msg_key m); json_tree (msg_data m)]);
  from_slice l := match parse_tree (length l) l with
                  | Some (TList [TStr k; t], []) =>
                      match json_of_tree t with Some v => Ok (mkActorMsg k v) | None => Err "invalid message" end
                  | _ => Err "invalid message"
                  end;
|}.
Definition json_field (k : string) (l : list (string * JsonValue)) : option JsonValue :=
  snd <$> List.find (λ e, bool_decide (e.1 = k)) l.
Definition json_string (v : option JsonValue) : option string := match v with Some (JStr s) => Some s | _ => None end.
Definition json_typed {A} (o : option A) : result A string := match o with Some a => Ok a | None => Err "invalid type" end.

#[export] Instance json_u32 : Codec JsonValue Z := {
  to_value z := Ok (JNum z);
  from_value v := match v with JNum z => if ((0 <=? z) && (z <=? u32_max))%Z then Ok z else Err "invalid value" | _ => Err "invalid type" end;
}.
#[export] Instance json_str : Codec JsonValue string := {
  to_value s := Ok (JStr s);
  from_value v := json_typed (json_string (Some v));
}.

(** * Actors on one edge runtime *)

Section ActorNet.
Context {A : Type} `{!Actor (V:=JsonValue) (Db:=DemoDb) (A:=A)}.
Abbreviation TestActorSt := (ActorSt JsonValue DemoDb A).

(** The runtime, its actors with their handlers, and the time. *)
Record ActorNet : Type := mkActorNet {
  net_edge : EdgeState;
  net_actors : gmap nat TestActorSt;
  net_now : Z;
}.
Abbreviation Net := (M ActorNet string).
(** A dump is compared as it is: serde_json reads back what it writes. *)
Definition no_dump (d : ActorStateDump (V:=JsonValue)) : string := "".

Definition net_lift_edge {B} (m : M EdgeState SwbusError B) : Net B := λ n,
  match m (net_edge n) with
  | Done (Ok b, e) => Done (Ok b, mkActorNet e (net_actors n) (net_now n))
  | Done (Err _, _) => Panicked "edge"
  | Panicked w => Panicked w
  | OutOfFuel => OutOfFuel
  end.

(** What the client of actor [i] has sent is in the queue of the router. *)
Definition net_give (i : nat) (s : TestActorSt) : Net unit :=
  let c := swbus_client s in
  let* n := get_state in
  let e := net_edge n in
  put_state (mkActorNet
    (mkEdge (base_sp e) (edge_routes e) (handlers e)
       (mkMsgChan (delivered (sender_to_message_router e) ++ delivered (router c)) true) (core_queue e))
    (<[i := set_client (mkClient (client_source c) (client_sink c) (client_ids c) (handler_rx c) (mkMsgChan [] true)) s]>
       (net_actors n)) (net_now n)).
Definition net_drive (i : nat) (m : M TestActorSt string unit) (s : TestActorSt) : Net unit :=
  match m s with
  | Done (_, s') => net_give i s'
  | Panicked w => panic w
  | OutOfFuel => out_of_fuel
  end.

(** [swbus_actor::spawn]: the client is registered, the driver's task starts. *)
Definition net_spawn (a : A) (ty i : string) : Net nat :=
  let* n := get_state in
  let sp := new_sp ty i (net_edge n) in
  let* h := net_lift_edge (client_new sp true) in
  net_drive h (driver_run no_dump (net_now n) [];;; ret tt)
    (mkActorSt a ∅ ∅ ∅ [] ∅ (mkClient sp false (mkIdGen 1000) [] (mkMsgChan [] true)) ∅ false);;;
  ret h.

(** Every task runs once: the router, then each actor that has a message. *)
Definition net_turn (i : nat) : Net unit :=
  let* n := get_state in
  match net_actors n !! i, handlers (net_edge n) !! i with
  | Some s, Some c =>
      match delivered c with
      | [] => ret tt
      | m :: l =>
          net_lift_edge (modify (with_handler i (mkMsgChan l (receiver_open c))));;;
          net_drive i (receive_message no_dump (net_now n) m) s
      end
  | _, _ => ret tt
  end.
Definition net_round : Net unit :=
  net_lift_edge router_runs;;;
  let* n := get_state in
  for_each net_turn (map_to_list (net_actors n)).*1.
(** Until [stop], or the time is over. *)
Fixpoint net_until (fuel : nat) (stop : ActorNet → bool) : Net unit :=
  let* n := get_state in
  if stop n then ret tt
  else match fuel with
       | O => panic "timeout"
       | S fuel' => net_round;;; net_until fuel' stop
       end.

Definition net_start (base : ServicePath) : ActorNet := mkActorNet (edge_new base) ∅ 1700000000000000000.
Definition some_actor (p : A → bool) (n : ActorNet) : bool :=
  existsb (λ e : nat * TestActorSt, p (actor e.2)) (map_to_list (net_actors n)).
End ActorNet.
Arguments ActorNet : clear implicits.

(** [sp] of the tests. *)
Definition test_sp (name : string) : ServicePath := parsed_sp ("test.test.test/test/test/test/" +:+ name).

(** [notify_done]: its receiver takes one signal. *)
Definition signal (done : bool) : result bool string := if done then Err "send" else Ok true.

(** * echo.rs *)

Section Echo.
(** The count at which the client is done: 1000 in the source. *)
Context (limit : Z).

Inductive EchoActor : Type := EchoServer | EchoClient (notified : bool).
Abbreviation EchoSt := (ActorSt JsonValue DemoDb EchoActor).

Definition notify_done {S} (done : bool) : M S string unit :=
  let* _ := unwrap_result "send" (E:=string) (of_result (signal done)) in ret tt.
(** The assertions on the messages cached so far, [0..=count]. *)
Definition check_cached (count : Z) : M EchoSt string unit :=
  for_each (λ i : nat,
    let* m := incoming_get (int_to_string (Z.of_nat i)) in
    let* n := deserialize_data m in
    assert_eq n (Z.of_nat i)) (seq 0 (Z.to_nat (count + 1))).
#[export] Instance echo_test_actor : Actor (V:=JsonValue) (Db:=DemoDb) (A:=EchoActor) := {
  actor_init now :=
    let* s := get_state in
    match actor s with
    | EchoServer => ret tt
    | EchoClient _ =>
        let* m := actor_msg_new "0" 0%Z in
        outgoing_send now (from_my_sp "test" "echo" s) m
    end;
  handle_message now key :=
    let* s := get_state in
    match actor s with
    | EchoServer =>
        let* entry := unwrap_result "get_entry" (incoming_get_entry key) in
        outgoing_send now (inc_source entry) (inc_msg entry)
    | EchoClient notified =>
        let* count := unwrap "parse" (parse_u32 key) in
        check_cached count;;;
        if (count =? limit)%Z then
          notify_done notified;;; modify (set_actor (EchoClient true))
        else
          let* m := actor_msg_new (int_to_string (count + 1)) (count + 1)%Z in
          outgoing_send now (test_sp "echo") m
    end;
}.
Definition echo_done (a : EchoActor) : bool := match a with EchoClient notified => notified | EchoServer => false end.
Definition echo : bool :=
  test_ends (
    net_spawn EchoServer "test" "echo";;;
    net_spawn (EchoClient false) "test" "client";;;
    net_until (8 * Z.to_nat (limit + 1)) (some_actor echo_done)) (net_start (test_sp "none")).
End Echo.

Lemma echo_passes : echo 50 = true.
Proof. vm_compute. reflexivity. Qed.

(** * kvstore.rs *)

Inductive KVMessage : Type := KVGet (key : string) | KVSet (key val : string).
Record KVGetResult : Type := mkKVGetResult { kv_key : string; kv_val : string }.

#[export] Instance kv_message_codec : Codec JsonValue KVMessage := {
  to_value m := Ok (match m with
                    | KVGet k => JObj [("Get", JObj [("key", JStr k)])]
                    | KVSet k v => JObj [("Set", JObj [("key", JStr k); ("val", JStr v)])]
                    end);
  from_value v := match v with
                  | JObj [("Get", JObj l)] => json_typed (k ← json_string (json_field "key" l); Some (KVGet k))
                  | JObj [("Set", JObj l)] =>
                      json_typed (k ← json_string (json_field "key" l); v ← json_string (json_field "val" l); Some (KVSet k v))
                  | _ => Err "invalid type"
                  end;
}.
#[export] Instance kv_result_codec : Codec JsonValue KVGetResult := {
  to_value r := Ok (JObj [("key", JStr (kv_key r)); ("val", JStr (kv_val r))]);
  from_value v := match v with
                  | JObj l => json_typed (k ← json_string (json_field "key" l); v ← json_string (json_field "val" l); Some (mkKVGetResult k v))
                  | _ => Err "invalid type"
                  end;
}.

(** The comparisons of the dumped entries, which skip their ids and times. *)
Definition incoming_entry_eq (a b : IncomingTableEntry JsonValue) : Prop :=
  inc_source a = inc_source b ∧ inc_version a = inc_version b ∧ inc_msg a = inc_msg b ∧
  inc_response a = inc_response b ∧ inc_acked a = inc_acked b.
Definition internal_data_eq (a b : InternalTableEntry) : Prop :=
  swss_table_name a = swss_table_name b ∧ swss_key a = swss_key b ∧ fvs a = fvs b ∧
  backup_fvs a = backup_fvs b ∧ mutated a = mutated b.
(** The derived comparison, after the test has reset the id and the times. *)
Definition sent_reset (e : SentMessageEntry JsonValue) : SentMessageEntry JsonValue :=
  mkSent (sent_msg e) 0 0 0 0 (sent_version e) (sent_acked e) (sent_response e) (sent_response_source e).

Fixpoint json_eqb (a b : JsonValue) : bool :=
  match a, b with
  | JNum x, JNum y => (x =? y)%Z
  | JStr s, JStr t => String.eqb s t
  | JObj l, JObj m =>
      (fix all l m := match l, m with
                      | [], [] => true
                      | (k, x) :: l', (j, y) :: m' => String.eqb k j && json_eqb x y && all l' m'
                      | _, _ => false
                      end) l m
  | _, _ => false
  end.
Lemma json_eqb_eq a b : json_eqb a b = true ↔ a = b.
Proof.
  revert a b. fix IH 1. intros [x|s|l] [y|t|m]; cbn; try (split; congruence).
  - rewrite Z.eqb_eq. split; congruence.
  - rewrite String.eqb_eq. split; congruence.
  - assert (∀ m, (fix all l m := match l, m with
                   | [], [] => true
                   | (k, x) :: l', (j, y) :: m' => String.eqb k j && json_eqb x y && all l' m'
                   | _, _ => false
                   end) l m = true ↔ l = m) as Hl; [|rewrite Hl; split; congruence].
    clear m. induction l as [|[k x] l IHl]; intros [|[j y] m]; [done|clear; split; congruence|clear; split; congruence|].
    pose proof (IH x y) as Hx. clear IH. rewrite !andb_true_iff, String.eqb_eq, Hx, (IHl m). clear. naive_solver.
Qed.
#[export] Instance json_eq_dec : EqDecision JsonValue.
Proof. intros a b. destruct (json_eqb a b) eqn:E; [left|right]; rewrite <- json_eqb_eq; congruence. Defined.
#[export] Instance json_msg_eq_dec : EqDecision (ActorMessage JsonValue).
Proof. solve_decision. Defined.
#[export] Instance json_sent_eq_dec : EqDecision (SentMessageEntry JsonValue).
Proof. solve_decision. Defined.
#[export] Instance json_unacked_eq_dec : EqDecision (UnackedMessage JsonValue).
Proof. solve_decision. Defined.
#[export] Instance incoming_entry_eq_dec : RelDecision incoming_entry_eq.
Proof. intros a b. unfold incoming_entry_eq. exact _. Defined.
#[export] Instance internal_data_eq_dec : RelDecision internal_data_eq.
Proof. intros a b. unfold internal_data_eq. exact _. Defined.
(** Maps with the same keys, and equal entries. *)
Definition map_eqb {B} (R : B → B → Prop) `{!RelDecision R} (m1 m2 : gmap string B) : bool :=
  bool_decide (dom m1 = dom m2) &&
  forallb (λ e : string * B, if m2 !! e.1 is Some y then bool_decide (R e.2 y) else false) (map_to_list m1).

Section KVStore.
(** The number the client counts to: 1000 in the source. *)
Context (limit : Z).

Inductive KVActor : Type := KVStore | KVClient (notified : bool).
Abbreviation KVSt := (ActorSt JsonValue DemoDb KVActor).

Definition kv_client_handle (now : Z) (key : string) (notified : bool) : M KVSt string unit :=
  assert_eq key "kv-get";;;
  let* m := incoming_get key in
  let* r := deserialize_data m in
  if negb (bool_decide (kv_key r = "count")) then panic "unreachable"
  else
    let* n := if is_empty (kv_val r) then ret 0%Z
              else match parse_u32 (kv_val r) with Some n => ret n | None => throw "invalid digit found in string" end in
    if (n =? limit)%Z then
      notify_done notified;;; modify (set_actor (KVClient true))
    else
      let* m := actor_msg_new "" (KVSet "count" (int_to_string (wrap_u32 (n + 1)))) in
      outgoing_send now (test_sp "kv") m;;;
      let* m := actor_msg_new "" (KVGet "count") in
      outgoing_send now (test_sp "kv") m.
Definition kv_store_handle (now : Z) (key : string) : M KVSt string unit :=
  let* entry := unwrap_result "get_entry" (incoming_get_entry key) in
  let* m := deserialize_data (inc_msg entry) in
  match m with
  | KVGet k =>
      let* data := internal_get "data" in
      let val := default "" (data !! k) in
      let* m := actor_msg_new "kv-get" (mkKVGetResult k val) in
      outgoing_send now (inc_source entry) m
  | KVSet k val => internal_get_mut "data" <[k := val]>
  end.
#[export] Instance kv_actor : Actor (V:=JsonValue) (Db:=DemoDb) (A:=KVActor) := {
  actor_init now :=
    let* s := get_state in
    match actor s with
    | KVStore => internal_add "data" "kv-actor-data" "kv-actor-data"
    | KVClient _ => let* m := actor_msg_new "" (KVGet "count") in outgoing_send now (test_sp "kv") m
    end;
  handle_message now key :=
    let* s := get_state in
    match actor s with
    | KVStore => kv_store_handle now key
    | KVClient notified => kv_client_handle now key notified
    end;
}.
Definition kv_done (a : KVActor) : bool := match a with KVClient notified => notified | KVStore => false end.

(** The dump the store has to answer with, of a client that counts to [limit]. *)
Definition kv_expected : ActorStateDump (V:=JsonValue) :=
  mkDump
    {["" := mkIncEntry (mkActorMsg "" (JObj [("Get", JObj [("key", JStr "count")])])) (test_sp "client") 0 (2 * limit + 1) 0 0 "Ok" true]}
    {["data" := mkIntEntry "kv-actor-data" "kv-actor-data" {["count" := int_to_string limit]} false
                  {["count" := int_to_string (limit - 1)]} (Some 0%Z)]}
    []
    {["kv-get" := mkSent (mkActorMsg "kv-get" (JObj [("key", JStr "count"); ("val", JStr (int_to_string limit))])) 0 0 0 0
                    (limit + 1) true (Some "Ok") (Some (test_sp "client"))]}.
Definition dump_eqb (a b : ActorStateDump (V:=JsonValue)) : bool :=
  map_eqb incoming_entry_eq (dump_incoming a) (dump_incoming b) && map_eqb internal_data_eq (dump_internal a) (dump_internal b) &&
  bool_decide (dump_queued a = dump_queued b) && map_eqb eq (dump_sent a) (dump_sent b).

Definition verify_actor_state (kv mgmt_resp : nat) : M (ActorNet KVActor) string unit :=
  net_lift_edge (edge_send (mkMessage (Some (header_new (test_sp "mgmt_resp") (test_sp "kv") 1))
    (Some (BodyManagementRequest (mkMgmt 1 [])))));;;
  let answered (n : ActorNet KVActor) : bool :=
    if handlers (net_edge n) !! mgmt_resp is Some c then bool_decide (delivered c ≠ []) else false in
  net_until 9 answered;;;
  let* msg := net_lift_edge (handler_recv mgmt_resp) in
  match body msg with
  | Some (Response r) =>
      assert_eq (request_id r) 1%Z;;;
      assert_eq (error_code r) (error_code_i32 CodeOk);;;
      match response_body r with
      | Some (ManagementQueryResult _) =>
          let* n := get_state in
          let* s := unwrap "kv" (net_actors n !! kv) in
          let d := dump_state s in
          let* _ := unwrap "kv-get" (dump_sent d !! "kv-get") in
          assert_true (dump_eqb (mkDump (dump_incoming d) (dump_internal d) (dump_queued d) (alter sent_reset "kv-get" (dump_sent d)))
                         kv_expected)
      | _ => panic "message body is not a ManagementQueryResult"
      end
  | _ => panic "message body is not a Response"
  end.
Definition kvstore : bool :=
  test_ends (
    net_lift_edge (make_a_handler 0 "test.test.test/test/test/test/mgmt_resp");;;
    let* kv := net_spawn KVStore "test" "kv" in
    net_spawn (KVClient false) "test" "client";;;
    net_until (12 * Z.to_nat (limit + 1)) (some_actor kv_done);;;
    verify_actor_state kv 0) (net_start (test_sp "none")).
End KVStore.

Lemma kvstore_passes : kvstore 200 = true.
Proof. vm_compute. reflexivity. Qed.

(** * test_executor.rs *)

Inductive TestAction : Type :=
| AddInternalTable (key : string)
| AssertEq (a b : string)
| PrintExpr (expr : string)
| ReadField (key field var : string)
| WriteField (key field val : string)
| SendTo (to key val : string)
| Finish
| IfEq (a b : string) (then_ : list TestAction).
Record TestActorSpec : Type := mkTestActorSpec { ta_init : list TestAction; ta_handle_message : gmap string (list TestAction) }.
Record TestSpec : Type := mkTestSpec { ts_spawn : list string; ts_actors : gmap string TestActorSpec }.

Definition Environment : Type := gmap string string.
Definition parse_i64 (s : string) : option Z := parse_int (- 2 ^ 63) (2 ^ 63 - 1) s.
(** The loop of [eval]: [name] is the variable being read, [out] what is written so
    far. The sum of two i64 is checked, as in a debug build. *)
Fixpoint eval_chars {S} (env : Environment) (name : option string) (out s : string) : M S string string :=
  let var (n : string) : M S string string := unwrap "no entry found for key" (env !! n) in
  match s with
  | "" => match name with Some n => let* v := var n in ret (out +:+ v) | None => ret out end
  | String c s' =>
      match name with
      | Some n =>
          if decide (c = ">"%char) then let* v := var n in eval_chars env None (out +:+ v) s'
          else eval_chars env (Some (n +:+ String c "")) out s'
      | None =>
          if decide (c = "<"%char) then eval_chars env (Some "") out s'
          else if decide (c = "+"%char) then
            let* lhs := unwrap "Expr not a number" (parse_i64 out) in
            let* r := eval_chars env None "" s' in
            let* rhs := unwrap "Expr not a number" (parse_i64 r) in
            if decide (- 2 ^ 63 ≤ lhs + rhs < 2 ^ 63)%Z then ret (int_to_string (lhs + rhs))
            else panic "attempt to add with overflow"
          else if Ascii.is_space c then eval_chars env None out s'
          else eval_chars env None (out +:+ String c "") s'
      end
  end.
Definition env_eval {S} (env : Environment) (expr : string) : M S string string := eval_chars env None "" expr.

Definition environment : bool :=
  let env : Environment := {["a" := "5"; "b" := "10"; "c" := "15"]} in
  test_ends (S:=unit) (
    let* x := env_eval env "<a> + <b> + <c> + 1" in assert_eq x "31";;;
    let* y := env_eval env "<a>aaa" in assert_eq y "5aaa") tt.

(** [TestActor]; the database and the channel of [notify_done] are the harness. *)
Record TestActor : Type := mkTestActor { ta_name : string; ta_spec : TestActorSpec; ta_env : Environment }.
Abbreviation ExecSt := (ActorSt JsonValue DemoDb TestActor).
Definition set_spec (spec : TestActorSpec) (a : TestActor) : TestActor := mkTestActor (ta_name a) spec (ta_env a).
Definition set_env (env : Environment) (a : TestActor) : TestActor := mkTestActor (ta_name a) (ta_spec a) env.

Section Executor.
(** [random_string], for the tables of an actor. *)
Context (random_string : string).

Definition eval_now (expr : string) : M ExecSt string string :=
  let* s := get_state in env_eval (ta_env (actor s)) expr.
(** [Finish] signals the end of the test and never returns. *)
Fixpoint run_action (now : Z) (action : TestAction) : M ExecSt string unit :=
  match action with
  | AddInternalTable key => internal_add key random_string "swss_key"
  | AssertEq a b =>
      let* a := eval_now a in
      let* b := eval_now b in
      assert_eq a b
  | PrintExpr expr => let* _ := eval_now expr in ret tt
  | ReadField key field var =>
      let* key := eval_now key in
      let* field := eval_now field in
      let* var := eval_now var in
      let* f := internal_get key in
      let* v := unwrap "no entry found for key" (f !! field) in
      modify (λ s, set_actor (set_env (<[var := v]> (ta_env (actor s))) (actor s)) s)
  | WriteField key field val =>
      let* key := eval_now key in
      let* field := eval_now field in
      let* val := eval_now val in
      internal_get_mut key <[field := val]>
  | SendTo to key val =>
      let* to := eval_now to in
      let* key := eval_now key in
      let* val := eval_now val in
      let* m := actor_msg_new key val in
      outgoing_send now (test_sp to) m
  | Finish => out_of_fuel
  | IfEq a b then_ =>
      let* a := eval_now a in
      let* b := eval_now b in
      when (bool_decide (a = b))
        ((fix all (l : list TestAction) : M ExecSt string unit :=
            match l with [] => ret tt | x :: l' => run_action now x;;; all l' end) then_)
  end.
Definition take_init : M ExecSt string (list TestAction) :=
  let* s := get_state in
  modify (set_actor (set_spec (mkTestActorSpec [] (ta_handle_message (ta_spec (actor s)))) (actor s)));;;
  ret (ta_init (ta_spec (actor s))).
(** [mem::take] of the handlers, and putting them back: an action that fails leaves
    the actor without. *)
Definition take_handlers : M ExecSt string (gmap string (list TestAction)) :=
  let* s := get_state in
  modify (set_actor (set_spec (mkTestActorSpec (ta_init (ta_spec (actor s))) ∅) (actor s)));;;
  ret (ta_handle_message (ta_spec (actor s))).
#[export] Instance test_executor : Actor (V:=JsonValue) (Db:=DemoDb) (A:=TestActor) := {
  actor_init now :=
    let* actions := take_init in
    for_each (run_action now) actions;
  handle_message now key :=
    let* entry := unwrap_result "get_entry" (incoming_get_entry key) in
    modify (λ s, set_actor (set_env {["source" := resource_id (inc_source entry); "key" := key]} (actor s)) s);;;
    let* val := deserialize_data (inc_msg entry) in
    modify (λ s, set_actor (set_env (<["val" := val]> (ta_env (actor s))) (actor s)) s);;;
    let* handle_message_map := take_handlers in
    (match handle_message_map !! key, handle_message_map !! "*" with
     | Some actions, _ | None, Some actions => for_each (run_action now) actions
     | None, None => ret tt
     end);;;
    modify (λ s, set_actor (set_spec (mkTestActorSpec (ta_init (ta_spec (actor s))) handle_message_map) (actor s)) s);
}.

(** [run_test]: the actors are spawned; the test is over when one finishes, which
    its task never returns from, or else when the time is. *)
Definition run_test (rounds : nat) (t : TestSpec) : bool :=
  match (for_each (λ name : string,
           let* spec := unwrap "No actor in test json" (ts_actors t !! name) in
           net_spawn (mkTestActor name spec ∅) "test" name;;; ret tt) (ts_spawn t);;;
         net_until rounds (λ _, false)) (net_start (parsed_sp "test.test.test/test/test")) with
  | OutOfFuel => true
  | _ => false
  end.
End Executor.

(** The specifications; the two that count do so up to 1000 in the source. *)
Definition count_to_1000 (limit : Z) : TestSpec :=
  mkTestSpec ["a"] {["a" := mkTestActorSpec
    [AssertEq "1" "1"; SendTo "a" "count" "0"]
    {["count" := [AssertEq "<source>" "a"; PrintExpr "<val>"; IfEq "<val>" (int_to_string limit) [Finish];
                  SendTo "a" "count" "<val> + 1"]]}]}.
Definition count_to_1000_internal_table (limit : Z) : TestSpec :=
  mkTestSpec ["a"] {["a" := mkTestActorSpec
    [AddInternalTable "mytable"; WriteField "mytable" "myfield" "0"; SendTo "a" "loop" ""]
    {["loop" := [AssertEq "<source>" "a"; AssertEq "<val>" ""; ReadField "mytable" "myfield" "myfield-val";
                 PrintExpr "<myfield-val>"; IfEq "<myfield-val>" (int_to_string limit) [Finish];
                 SendTo "a" "loop" ""; WriteField "mytable" "myfield" "<myfield-val> + 1"]]}]}.
Definition echo_spec : TestSpec :=
  mkTestSpec ["echo"; "client"]
    {["echo" := mkTestActorSpec [] {["*" := [SendTo "<source>" "<key>" "<val>"]]};
      "client" := mkTestActorSpec [SendTo "echo" "a-key" "a-val"]
        {["a-key" := [AssertEq "<val>" "a-val"; SendTo "echo" "b-key" "b-val"];
          "b-key" := [AssertEq "<val>" "b-val"; SendTo "echo" "c-key" "c-val"];
          "c-key" := [AssertEq "<val>" "c-val"; SendTo "echo" "d-key" "d-val"];
          "d-key" := [Finish]]}]}.
Definition json_tests (limit : Z) : bool :=
  forallb (run_test "table" (8 * Z.to_nat (limit + 1))) [count_to_1000 limit; count_to_1000_internal_table limit] &&
  run_test "table" 40 echo_spec.

Lemma test_executor_passes : environment = true ∧ json_tests 50 = true.
Proof. split; vm_compute; reflexivity. Qed.

(** * state/incoming.rs *)

Definition test_incoming_table : bool :=
  let key0 := "actor_registration-source/0" in
  let key1 := "actor_registration-source/1" in
  let source := parsed_sp "unknown.unknown.unknown/hamgrd/0/source/0" in
  test_ends (
    let* msg1 := actor_msg_new key0 1%Z in
    let* msg2 := actor_msg_new key1 2%Z in
    modify (incoming_insert 0 msg1 source 0);;;
    modify (incoming_insert 0 msg2 source 1);;;
    let* m := incoming_get key0 in assert_eq m msg1;;;
    let* m := incoming_get key1 in assert_eq m msg2;;;
    let* e := incoming_get_entry key0 in assert_eq (inc_msg e) msg1;;;
    let* e := incoming_get_entry key1 in assert_eq (inc_msg e) msg2;;;
    let* s := get_state in
    assert_eq (length (incoming_get_by_prefix "actor_registration-" s)) 2)
    (mkActorSt (V:=JsonValue) (Db:=DemoDb) tt ∅ ∅ ∅ [] ∅
       (mkClient (parsed_sp "unknown.unknown.unknown/hamgrd/0/test/0") false (mkIdGen 1) [] (mkMsgChan [] true)) ∅ false).
Lemma incoming_table_passes : test_incoming_table = true.
Proof. vm_compute. reflexivity. Qed.
