(* ===== verification/RowTests.v ===== *)
(** The tests of rows and configuration, run against the models: swss-serde's
    src/test.rs, the [test] module of hamgrd's db_structs.rs, the [tests] modules of
    swbus-config's lib.rs (with its [test_utils]) and of swbus-cli's main.rs, and
    sonicdb-derive's tests/basic.rs. The database is a list of cells, random strings
    are an argument. *)
From S2P Require Import Prelude RustStr NetAddr SwssSerde Path Proto Json Mux Conn Edge Actor Bridge HaTypes HaRows HaJson Derive Config ConfigWitness Cli BusTests.

Open Scope stdpp_scope.

(** [a.unwrap() == b.unwrap()] and the like: the result is that value. *)
Definition is_ok_eq {A} `{EqDecision A} (r : result A string) (x : A) : bool :=
  match r with Ok y => bool_decide (y = x) | Err _ => false end.

(** * swss-serde *)

Inductive EnumE : Set := VariantA | VariantB.
Record StructS : Set := mkS { s_a : Z; s_b : string; s_c : list EnumE; s_d : option Z; s_e : option Z }.
Record StructD : Set := mkD { d_x : Z; d_y : string; d_z : list EnumE }.
#[export] Instance test_e_eq_dec : EqDecision EnumE.
Proof. solve_decision. Defined.
#[export] Instance test_s_eq_dec : EqDecision StructS.
Proof. solve_decision. Defined.
#[export] Instance test_d_eq_dec : EqDecision StructD.
Proof. solve_decision. Defined.

Definition e_name (e : EnumE) : string := match e with VariantA => "VariantA" | VariantB => "VariantB" end.
Definition c_e : ColumnType EnumE :=
  mkColumnType (ShEnum ["VariantA"; "VariantB"]) Ok Ok (λ e, SVariant (e_name e))
    (λ v, match v with SVariant "VariantA" => Some VariantA | SVariant "VariantB" => Some VariantB | _ => None end).
Definition c_i32 : ColumnType Z := c_int (- 2 ^ 31) (2 ^ 31 - 1).
(** A list of plain elements. *)
Definition c_vec {X} (c : ColumnType X) : ColumnType (list X) :=
  mkColumnType (ShSeq (ct_shape c)) Ok Ok (λ l, SSeq (ct_to c <$> l)) (λ v, match v with SSeq l => mapM (ct_of c) l | _ => None end).

Definition s_columns : list (Column StructS) := [
    column "a" c_i32 s_a false; column "b" c_str s_b false; column "c" (c_vec c_e) s_c false;
    column "d" (c_opt c_i32) s_d false; column "e" (c_opt c_i32) s_e false].
Definition s_of_values : list SerdeValue → option StructS :=
  take c_i32 (λ a, take c_str (λ b, take (c_vec c_e) (λ c, take (c_opt c_i32) (λ d, take (c_opt c_i32) (λ e, finish (mkS a b c d e)))))).
Definition d_columns : list (Column StructD) := [
    column_default "x" c_i32 d_x false (Some (SInt 0)); column_default "y" c_str d_y false (Some (SStr ""));
    column_default "z" (c_vec c_e) d_z false (Some (SSeq []))].
Definition d_of_values : list SerdeValue → option StructD :=
  take c_i32 (λ x, take c_str (λ y, take (c_vec c_e) (λ z, finish (mkD x y z)))).
#[export] Instance s_codec : FvCodec StructS := row_codec (λ _, s_columns) (λ _, s_of_values).
#[export] Instance d_codec : FvCodec StructD := row_codec (λ _, d_columns) (λ _, d_of_values).

(** [from_field_values::<T>(&fvs).unwrap() == x] *)
Definition row_reads {T} `{!FvCodec T} `{EqDecision T} (f : FieldValues) (x : T) : bool := is_ok_eq (from_field_values 0 f) x.
Definition row_fvs {T} `{!FvCodec T} (x : T) : FieldValues := match to_field_values x with Ok f => f | Err _ => ∅ end.

(** [to_table] of a struct, by its columns. *)
Definition to_table {T} (cols : list (Column T)) (x : T) (tab : Cells) (key : string) : result Cells string :=
  match serialize_to_table (@col_field T <$> cols) ((λ c, @col_get T c x) <$> cols) key tab with
  | (Ok _, t) => Ok t
  | (Err e, _) => Err e
  end.
Definition put_row {T} (cols : list (Column T)) (key : string) (x : T) (tab : Cells) : Cells :=
  match to_table cols x tab key with Ok t => t | Err _ => [] end.

(** The three fields of a [struct] without [Default]s. *)
Definition xyz_columns : list (Column (option Z * option Z * option Z)) := [
    column "x" (c_opt c_i32) (λ r, r.1.1) false; column "y" (c_opt c_i32) (λ r, r.1.2) false; column "z" (c_opt c_i32) (λ r, r.2) false].
Definition xyz_of_values : list SerdeValue → option (option Z * option Z * option Z) :=
  take (c_opt c_i32) (λ x, take (c_opt c_i32) (λ y, take (c_opt c_i32) (λ z, finish (x, y, z)))).
#[export] Instance xyz_codec : FvCodec (option Z * option Z * option Z) := row_codec (λ _, xyz_columns) (λ _, xyz_of_values).

(** One value through its field value, and from one. *)
Definition fv_round_trip {X} (c : ColumnType X) `{EqDecision X} (x : X) : bool :=
  match serialize_field_value (ct_to c x) with
  | Ok s => match deserialize_field_value (ct_shape c) (Some s) with Ok v => bool_decide (ct_of c v = Some x) | Err _ => false end
  | Err _ => false
  end.
Definition fv_reads {X} (c : ColumnType X) `{EqDecision X} (data : option string) (x : X) : bool :=
  match deserialize_field_value (ct_shape c) data with Ok v => bool_decide (ct_of c v = Some x) | Err _ => false end.
Definition fv_writes {X} (c : ColumnType X) (x : X) (s : string) : bool := is_ok_eq (serialize_field_value (ct_to c x)) s.

Section SerdeTests.
Context (random_string : string).
Definition i32_max : Z := 2 ^ 31 - 1.
Definition i32_min : Z := - 2 ^ 31.
Definition test_s : StructS := mkS 5 random_string [VariantA; VariantB; VariantA] (Some 32131%Z) None.

Definition field_values_with_default : bool := row_reads ∅ (mkD 0 "" []).
Definition field_values_union : bool :=
  let d := mkD 5 random_string [VariantA; VariantB; VariantA] in
  let f := row_fvs d ∪ row_fvs test_s in
  row_reads f test_s && row_reads f d.
Definition field_values_subset : bool := row_reads (<["f" := "123"]> (<["g" := "VariantA"]> (row_fvs test_s))) test_s.
Definition field_values : bool :=
  let round_trip (s : StructS) := row_reads (row_fvs s) s in
  round_trip test_s && round_trip (mkS i32_max "" [] None (Some i32_min)).
Definition table : bool :=
  let s := mkS i32_max random_string [VariantA; VariantA; VariantB; VariantA] (Some i32_min) None in
  is_ok_eq (from_table s_columns s_of_values (put_row s_columns "mykey" s []) "mykey") s.
Definition field_value : bool :=
  fv_round_trip c_i32 123456789%Z && fv_round_trip c_i64 (2 ^ 63 - 1)%Z && fv_round_trip c_i64 (- 2 ^ 63)%Z &&
  fv_round_trip c_str "hello!" && fv_round_trip c_e VariantA && fv_round_trip c_e VariantB &&
  fv_round_trip (c_vec c_e) [] && fv_round_trip (c_vec c_e) [VariantA; VariantA; VariantB] &&
  fv_round_trip (c_opt c_i32) (Some 123%Z) && fv_round_trip (c_opt c_i32) (Some i32_min) &&
  fv_round_trip (c_opt c_i32) (Some i32_max) && fv_round_trip (c_opt c_i32) None.
Definition missing_field_is_none : bool :=
  fv_reads (c_opt c_i32) None None && row_reads ∅ (None : option Z, None : option Z, None : option Z) &&
  is_ok_eq (from_table xyz_columns xyz_of_values ([] : Cells) "emptykey") (None, None, None).
Definition option_values : bool :=
  fv_writes (c_opt c_i32) (Some 123%Z) "123" && fv_writes (c_opt c_i32) None "none" &&
  fv_reads (c_opt c_i32) (Some "123") (Some 123%Z) && fv_reads (c_opt c_i32) (Some "none") None && fv_reads (c_opt c_i32) None None.
Definition enums_are_case_insensitive : bool :=
  fv_writes c_e VariantA "varianta" && fv_writes c_e VariantB "variantb" && fv_reads c_e (Some "VARIANTA") VariantA &&
  fv_reads c_e (Some "VARIANTB") VariantB && fv_reads c_e (Some "VaRiAnTb") VariantB.
Definition serde_tests : list bool := [
    field_values_with_default; field_values_union; field_values_subset; field_values; table; field_value;
    missing_field_is_none; option_values; enums_are_case_insensitive].
End SerdeTests.

Lemma serde_tests_pass : Forall (λ t, t = true) (serde_tests "qLx4 ,Zp").
Proof. repeat constructor; vm_compute; reflexivity. Qed.

(** * The rows of hamgrd *)

(** ** A calendar: chrono's format, for dates of the proleptic Gregorian calendar *)

Definition days : list string := ["Sun"; "Mon"; "Tue"; "Wed"; "Thu"; "Fri"; "Sat"].
Definition months : list string := ["Jan"; "Feb"; "Mar"; "Apr"; "May"; "Jun"; "Jul"; "Aug"; "Sep"; "Oct"; "Nov"; "Dec"].

(** The date of a day since the epoch, counting years from March, and back. *)
Definition civil_of_days (n : Z) : Z * Z * Z :=
  (let z := n + 719468 in
   let era := z / 146097 in
   let doe := z mod 146097 in
   let yoe := (doe - doe / 1460 + doe / 36524 - doe / 146096) / 365 in
   let doy := doe - (365 * yoe + yoe / 4 - yoe / 100) in
   let mp := (5 * doy + 2) / 153 in
   let m := if mp <? 10 then mp + 3 else mp - 9 in
   (yoe + era * 400 + (if m <=? 2 then 1 else 0), m, doy - (153 * mp + 2) / 5 + 1))%Z.
Definition days_of_civil (y m d : Z) : Z :=
  (let y := if m <=? 2 then y - 1 else y in
   let yoe := y mod 400 in
   let doy := (153 * (if 2 <? m then m - 3 else m + 9) + 2) / 5 + d - 1 in
   y / 400 * 146097 + (yoe * 365 + yoe / 4 - yoe / 100 + doy) - 719468)%Z.
Definition weekday (n : Z) : string := nth (Z.to_nat ((n + 4) mod 7)) days "".
Definition two_digits (z : Z) : string := (if (z <? 10)%Z then "0" else "") +:+ int_to_string z.
Definition calendar_format (millis : Z) : string :=
  let secs := (millis / 1000)%Z in
  let day := (secs / 86400)%Z in
  let '(y, m, d) := civil_of_days day in
  let h := (secs mod 86400 / 3600)%Z in
  join_str " " [weekday day; nth (Z.to_nat (m - 1)) months ""; two_digits d;
    join_str ":" [two_digits ((h + 11) mod 12 + 1); two_digits (secs mod 3600 / 60); two_digits (secs mod 60)];
    (if (h <? 12)%Z then "AM" else "PM"); "UTC"; int_to_string y].
Definition number (lo hi : Z) (s : string) : option Z := parse_int lo hi s.
Definition month_number (s : string) : option Z := (λ e, (Z.of_nat e.1 + 1)%Z) <$> list_find (λ x, x = s) months.
Definition calendar_parse (s : string) : option Z :=
  match split " "%char s with
  | [wd; mo; d; t; ap; utc; y] =>
      match split ":"%char t with
      | [h; mi; se] =>
          m ← month_number mo; d ← number 1 31 d; y ← number 0 262142 y;
          h ← number 1 12 h; mi ← number 0 59 mi; se ← number 0 59 se;
          half ← (if decide (ap = "AM") then Some 0 else if decide (ap = "PM") then Some 12 else None);
          let n := days_of_civil y m d in
          if decide (civil_of_days n = (y, m, d) ∧ weekday n = wd ∧ utc = "UTC")
          then Some ((n * 86400 + (h mod 12 + half) * 3600 + mi * 60 + se) * 1000)%Z else None
      | _ => None
      end
  | _ => None
  end%Z.
#[export] Instance calendar : Chrono := {|
  format_timestamp z := Some (calendar_format z);
  parse_timestamp s := match calendar_parse s with Some z => Ok z | None => Err "input contains invalid characters" end;
|}.
(** The timestamps of the tests, which are not the dates of their comments; and
    dates, a leap day among them, that are read and written as they were. *)
Example calendar_dates :
  calendar_format 1718053542000 = "Mon Jun 10 09:05:42 PM UTC 2024" ∧
  calendar_format 1718096215000 = "Tue Jun 11 08:56:55 AM UTC 2024" ∧
  calendar_format 1718231130000 = "Wed Jun 12 10:25:30 PM UTC 2024" ∧
  Forall (λ s, calendar_format <$> calendar_parse s = Some s)
    ["Mon Jun 10 03:15:42 PM UTC 2024"; "Tue Jun 11 09:30:15 AM UTC 2024"; "Wed Jun 12 11:45:30 PM UTC 2024";
     "Thu Feb 29 12:00:00 AM UTC 2024"; "Tue Jun 04 09:00:00 PM UTC 2024"].
Proof. do 3 (split; [vm_compute; reflexivity|]). repeat constructor; vm_compute; reflexivity. Qed.
(** The law of HaJson.v on the calendar: milliseconds are lost, seconds kept; at
    the ends of the era and around it. *)
Example calendar_seconds :
  Forall (λ t, calendar_parse (calendar_format t) = Some (whole_seconds t))
    [0; 999; 86399999; 951782400001; 1718053542123; 1709164800999; 4102444799999; 253402300799999]%Z.
Proof. repeat constructor; vm_compute; reflexivity. Qed.

(** ** The tests *)

(** [from_field_values(..).unwrap()], and an assertion on the row. *)
Definition row_with {T} `{!FvCodec T} (now : Z) (f : FieldValues) (p : T → bool) : bool :=
  match from_field_values now f with Ok r => p r | Err _ => false end.
(** The time of the tests, and what is less than a second from it. *)
Definition rows_now : Z := 1718300000000000000.
Definition about_now (t : Z) : bool := (Z.abs (t - now_in_millis rows_now) <? 1000)%Z.

Definition test_deserialize_dpu : bool :=
  row_with rows_now {["pa_ipv4" := "1.2.3.4"; "dpu_id" := "1"; "orchagent_zmq_port" := "8100"; "swbus_port" := "23606"; "midplane_ipv4" := "127.0.0.1"]}
    (λ dpu : Dpu, bool_decide (dpu_pa_ipv4 dpu = "1.2.3.4" ∧ dpu_dpu_id dpu = 1%Z)).
Definition test_serde_vnet_route_tunnel : bool :=
  row_with rows_now {["endpoint" := "1.2.3.4,2.2.3.4"; "endpoint_monitor" := "1.2.3.5,2.2.3.5"]}
    (λ vnet : VnetRouteTunnelTable,
       bool_decide (vr_endpoint vnet = ["1.2.3.4"; "2.2.3.4"]) &&
       bool_decide (vr_endpoint_monitor vnet = Some ["1.2.3.5"; "2.2.3.5"]) &&
       bool_decide (vr_monitoring vnet = None) &&
       match to_field_values vnet with
       | Ok f => bool_decide (f !! "endpoint" = Some "1.2.3.4,2.2.3.4" ∧ f !! "endpoint_monitor" = Some "1.2.3.5,2.2.3.5" ∧
                              f !! "monitoring" = None)
       | Err _ => false
       end).

(** The DPU table of the test: its cells, and their keys as the keys of the table. *)
Definition cell_keys (t : Cells) : list string := remove_dups (reverse ((λ c : string * string * string, c.1.1) <$> t)).
Definition populate_dpus : Cells :=
  foldl (λ t d, foldl (λ t c, ((int_to_string d, c.1), c.2) :: t) t
    [("pa_ipv4", "1.2.3." +:+ int_to_string d); ("vip_ipv4", "4.5.6." +:+ int_to_string d); ("dpu_id", int_to_string d);
     ("orchagent_zmq_port", "8100"); ("swbus_port", int_to_string (23606 + d)); ("midplane_ipv4", "169.254.1." +:+ int_to_string d);
     ("vdpu_id", "vpdu" +:+ int_to_string d)]) [] [6; 7]%Z.
(** CONFIG_DB with these tables. *)
Definition test_config_db (tables : string → option Cells) : ConfigDb Cells :=
  mkConfigDb (λ _, Ok tt) (λ name, match tables name with Some t => Ok t | None => Ok [] end) (λ t, Ok (cell_keys t)).
#[export] Instance test_dpu_row_eq_dec : EqDecision Dpu.
Proof. solve_decision. Defined.
Definition test_get_dpu_config_from_db : bool :=
  match get_dpu_config_from_db (test_config_db (λ name, if decide (name = "DPU") then Some populate_dpus else None)) 6 tt with
  | Done (Ok config, _) =>
      bool_decide (config = mkDpu None (Some "4.5.6.6") None "1.2.3.6" None 6 (Some "vpdu6") 8100 23612 "169.254.1.6")
  | _ => false
  end.

Definition test_deserialize_dpu_state : bool :=
  row_with rows_now
    {["dpu_midplane_link_state" := "up"; "dpu_midplane_link_time" := "Mon Jun 10 03:15:42 PM UTC 2024";
      "dpu_control_plane_state" := "down"; "dpu_control_plane_time" := "Tue Jun 11 09:30:15 AM UTC 2024";
      "dpu_data_plane_state" := "unknown"; "dpu_data_plane_time" := "Wed Jun 12 11:45:30 PM UTC 2024"]}
    (λ d : DpuState,
       bool_decide (dpu_midplane_link_state d = PmonUp ∧ dpu_control_plane_state d = PmonDown ∧ dpu_data_plane_state d = PmonUnknown) &&
       bool_decide (0 < dpu_midplane_link_time d ∧ 0 < dpu_control_plane_time d ∧ 0 < dpu_data_plane_time d)%Z).
Definition test_dpu_state_default_values : bool :=
  row_with rows_now {["dpu_midplane_link_state" := "up"; "dpu_midplane_link_time" := "Mon Jun 10 03:15:42 PM UTC 2024"]}
    (λ d : DpuState,
       bool_decide (dpu_midplane_link_state d = PmonUp ∧ dpu_control_plane_state d = PmonUnknown ∧ dpu_data_plane_state d = PmonUnknown) &&
       bool_decide (0 < dpu_midplane_link_time d)%Z && about_now (dpu_control_plane_time d) && about_now (dpu_data_plane_time d)).
Definition test_deserialize_dash_bfd_probe_state : bool :=
  row_with rows_now
    {["v4_bfd_up_sessions" := "10.0.1.1,10.0.1.2,10.0.1.3"; "v4_bfd_up_sessions_timestamp" := "Mon Jun 10 03:15:42 PM UTC 2024";
      "v6_bfd_up_sessions" := "2001:db8::1,2001:db8::2"; "v6_bfd_up_sessions_timestamp" := "Tue Jun 11 09:30:15 AM UTC 2024"]}
    (λ b : DashBfdProbeState,
       bool_decide (v4_bfd_up_sessions b = ["10.0.1.1"; "10.0.1.2"; "10.0.1.3"]) &&
       bool_decide (v6_bfd_up_sessions b = ["2001:db8::1"; "2001:db8::2"]) &&
       bool_decide (0 < v4_bfd_up_sessions_timestamp b ∧ 0 < v6_bfd_up_sessions_timestamp b)%Z).
Definition test_dash_bfd_probe_state_empty_sessions : bool :=
  row_with rows_now {["v4_bfd_up_sessions" := ""; "v6_bfd_up_sessions" := ""]}
    (λ b : DashBfdProbeState,
       bool_decide (v4_bfd_up_sessions b = [] ∧ v6_bfd_up_sessions b = []) &&
       about_now (v4_bfd_up_sessions_timestamp b) && about_now (v6_bfd_up_sessions_timestamp b)).
Definition test_dash_bfd_probe_state_partial_data : bool :=
  row_with rows_now {["v4_bfd_up_sessions" := "10.1.1.1,10.1.1.2"; "v4_bfd_up_sessions_timestamp" := "Mon Jun 10 03:15:42 PM UTC 2024"]}
    (λ b : DashBfdProbeState,
       bool_decide (v4_bfd_up_sessions b = ["10.1.1.1"; "10.1.1.2"] ∧ v6_bfd_up_sessions b = []) &&
       bool_decide (0 < v4_bfd_up_sessions_timestamp b)%Z && about_now (v6_bfd_up_sessions_timestamp b)).

(** [serde_json::to_string] of a row whose fields are all written as strings, by its
    columns; and [contains]. *)
Definition quoted (s : string) : string := let q := String (ascii_of_nat 34) "" in q +:+ s +:+ q.
Definition json_row {T} (cols : list (Column T)) (x : T) : string :=
  "{" +:+ join_str "," ((λ c : Column T,
    quoted (f_name (@col_field T c)) +:+ ":" +:+
    quoted (match encode_field (@col_field T c) (@col_get T c x) with Ok s => s | Err _ => "" end)) <$> cols) +:+ "}".
Fixpoint str_contains (s pat : string) : bool :=
  starts_with s pat || match s with "" => false | String _ s' => str_contains s' pat end.
Definition test_serialize_dpu_state : bool :=
  let serialized := json_row (dpu_state_columns rows_now) (mkDpuState PmonUp 1718053542000 PmonDown 1718096215000 PmonUnknown 1718231130000) in
  forallb (str_contains serialized) ["Mon Jun 10"; "PM UTC 2024";
    quoted "dpu_midplane_link_state" +:+ ":" +:+ quoted "up";
    quoted "dpu_control_plane_state" +:+ ":" +:+ quoted "down";
    quoted "dpu_data_plane_state" +:+ ":" +:+ quoted "unknown"].
Definition test_serialize_dash_bfd_probe_state : bool :=
  let serialized := json_row (bfd_probe_columns rows_now) (mkBfdProbe ["10.0.1.1"; "10.0.1.2"] 1718053542000 ["2001:db8::1"] 1718096215000) in
  forallb (str_contains serialized) ["10.0.1.1,10.0.1.2"; "2001:db8::1"; "Mon Jun 10"; "Tue Jun 11"; "PM UTC 2024"; "AM UTC 2024"].
Definition test_timestamp_roundtrip : bool :=
  match format_timestamp 1718053542000 with
  | Some formatted => is_ok_eq (parse_timestamp formatted) 1718053542000%Z
  | None => false
  end.
Definition row_tests : list bool := [
    test_deserialize_dpu; test_serde_vnet_route_tunnel; test_serialize_dpu_state; test_serialize_dash_bfd_probe_state;
    test_timestamp_roundtrip; test_get_dpu_config_from_db; test_deserialize_dpu_state;
    test_dpu_state_default_values; test_deserialize_dash_bfd_probe_state; test_dash_bfd_probe_state_empty_sessions;
    test_dash_bfd_probe_state_partial_data].

Lemma row_tests_pass : Forall (λ t, t = true) row_tests.
Proof. repeat constructor; vm_compute; reflexivity. Qed.

(** * swbus-config and swbus-cli *)

(** [populate_configdb_for_test] *)
Definition populate_metadata : Cells :=
  put_row metadata_columns "localhost" (mkMetadata (Some "region-a") (Some "cluster-a") (Some "SpineRouter") (Some "SmartSwitch")) [].
Definition populate_loopback : Cells :=
  foldl (λ t key, (key, "NULL", "NULL") :: t) []
    ["Loopback0|10.0.1.0/32"; "Loopback0|2001:db8:1::/128"; "Loopback1|11.0.1.0/32"; "Loopback1|2001:dd8:1::/128"].
Definition populate_local : Cells :=
  foldl (λ t d, put_row dpu_entry_columns ("dpu" +:+ int_to_string d) (mkDPUEntry (Some "active") (Some (23606 + d)%Z) d None None) t) [] [0; 1]%Z.
Definition populate_remote : Cells :=
  foldl (λ (t : Cells) (sd : Z * Z),
    put_row remote_entry_columns ("dpu" +:+ int_to_string sd.1 +:+ "_" +:+ int_to_string sd.2)
      (mkRemoteEntry (Some "cluster") (Some (23606 + sd.2)%Z) sd.2 (Some ("10.0.1." +:+ int_to_string sd.1))
         (Some ("2001:db8:1::" +:+ int_to_string sd.1))) t) [] [(1, 0); (1, 1); (2, 0); (2, 1)]%Z.
Definition populate_configdb_for_test : ConfigDb Cells :=
  test_config_db (λ name,
    if decide (name = "DEVICE_METADATA") then Some populate_metadata
    else if decide (name = "LOOPBACK_INTERFACE") then Some populate_loopback
    else if decide (name = "DPU") then Some populate_local
    else if decide (name = "REMOTE_DPU") then Some populate_remote
    else None).

(** A route and a peer, as the YAML of the tests has them. *)
Definition yaml_route (key : string) : RouteConfig := mkRouteConfig (parsed_sp key) ScopeCluster.
Definition yaml_peer (id ip : string) (port : Z) : PeerConfig := mkPeer (parsed_sp id) (mkAddr ip port) ConnCluster.
Definition test_yaml : SwbusConfig :=
  let node (ip : string) (d : Z) := "region-a.cluster-a." +:+ ip +:+ "-dpu" +:+ int_to_string d in
  let both (n : string) (d port : Z) :=
    [yaml_peer (node ("10.0.1." +:+ (if decide (n = "") then "0" else n)) d) ("10.0.1." +:+ (if decide (n = "") then "0" else n)) port;
     yaml_peer (node ("2001:db8:1::" +:+ n) d) ("2001:db8:1::" +:+ n) port] in
  mkSwbusConfig (V4 (mkIpv4 10 0 1 0), 23606%Z) [yaml_route (node "10.0.1.0" 0%Z); yaml_route (node "2001:db8:1::" 0%Z)]
    (both "" 1 23607 ++ both "1" 0 23606 ++ both "1" 1 23607 ++ both "2" 0 23606 ++ both "2" 1 23607)%Z None None.

#[export] Instance test_peer_eq_dec : EqDecision PeerConfig.
Proof. solve_decision. Defined.
Definition path_le (a b : ServicePath) : bool := match compare_path a b with Gt => false | _ => true end.
(** The comparison of the tests: the routes and the peers in the order of their paths. *)
Definition same_config (a b : SwbusConfig) : bool :=
  let routes c := sort_by (λ x y, path_le (route_key_path x) (route_key_path y)) (cfg_routes c) in
  let peers c := sort_by (λ x y, path_le (peer_id x) (peer_id y)) (cfg_peers c) in
  bool_decide (cfg_endpoint a = cfg_endpoint b) && bool_decide (routes a = routes b) && bool_decide (peers a = peers b) &&
  bool_decide (cfg_npu_ipv4 a = cfg_npu_ipv4 b) && bool_decide (cfg_npu_ipv6 a = cfg_npu_ipv6 b).
Definition with_npu (v4 : option Ipv4Addr) (v6 : option Ipv6Addr) (c : SwbusConfig) : SwbusConfig :=
  mkSwbusConfig (cfg_endpoint c) (cfg_routes c) (cfg_peers c) v4 v6.

Definition test_load_from_configdb : bool :=
  match load_config populate_configdb_for_test 0, swbus_config_from_yaml (Ok tt) (Ok test_yaml) with
  | Done (Ok config_fromdb), Ok expected =>
      bool_decide (length (cfg_routes config_fromdb) = 2 ∧ length (cfg_peers config_fromdb) = 10) &&
      same_config config_fromdb (with_npu (ipv4_of_string "10.0.1.0") (ipv6_of_string "2001:db8:1::") expected)
  | _, _ => false
  end.

Definition test_load_from_yaml : bool :=
  let parsed := mkSwbusConfig (V4 (mkIpv4 10 0 0 1), 8000%Z) [yaml_route "region-a.cluster-a.10.0.0.1-dpu0"]
    [yaml_peer "region-a.cluster-a.10.0.0.2-dpu0" "10.0.0.2" 8000; yaml_peer "region-a.cluster-a.10.0.0.3-dpu0" "10.0.0.3" 8000] None None in
  match swbus_config_from_yaml (Ok tt) (Ok parsed) with
  | Ok config =>
      bool_decide (cfg_routes config = [mkRouteConfig (mkPath "region-a" "cluster-a" "10.0.0.1-dpu0" "" "" "" "") ScopeCluster]) &&
      bool_decide (cfg_peers config =
        [mkPeer (mkPath "region-a" "cluster-a" "10.0.0.2-dpu0" "" "" "" "") (mkAddr "10.0.0.2" 8000) ConnCluster;
         mkPeer (mkPath "region-a" "cluster-a" "10.0.0.3-dpu0" "" "" "" "") (mkAddr "10.0.0.3" 8000) ConnCluster])
  | Err _ => false
  end.

(** The response the tests of swbus-cli wait for. *)
Definition cli_response : SwbusMessage := mkMessage None (Some (Response (response_ok 1))).
Definition test_response_result_from_code : bool :=
  let result := from_code (error_code_i32 CodeOk) "Success" (Some cli_response) in
  bool_decide (rr_error_code result = CodeOk) && bool_decide (rr_msg result = Some cli_response).
(** [wait_for_response] on a channel with these messages; [tx] is still there, or
    has been dropped. *)
Definition cli_wait (queue : list SwbusMessage) (tx_alive : bool) (request_id timeout : Z) (p : ResponseResult → bool) : bool :=
  match wait_for_response (Dump:=unit) request_id timeout
          (mkCliSt (edge_new (parsed_sp "")) (mkIdGen 1) ((λ m, (0%Z, m)) <$> queue) tx_alive 0 [] []) with
  | Done (Ok r, _) => p r
  | _ => false
  end.
Definition test_wait_for_response_success : bool :=
  cli_wait [cli_response] true 1 5 (λ r, bool_decide (rr_error_code r = CodeOk)).
Definition test_wait_for_response_timeout : bool :=
  cli_wait [cli_response] true 1000 1 (λ r, bool_decide (rr_error_code r = Timeout ∧ rr_error_message r = "request timeout")).
Definition test_wait_for_response_channel_broken : bool :=
  cli_wait [] false 1 5 (λ r, bool_decide (rr_error_code r = CodeFail ∧ rr_error_message r = "channel broken")).
Definition test_get_swbus_config : bool :=
  match get_swbus_config None (Some "dpu1") (λ _, Err (IOError "")) (load_config populate_configdb_for_test) tt with
  | Done (Ok config, _) =>
      bool_decide (cfg_endpoint config = (V4 (mkIpv4 10 0 1 0), (23606 + 1)%Z)) &&
      existsb (λ r, bool_decide (r = mkRouteConfig (with_node "region-a" "cluster-a" "10.0.1.0-dpu1" "" "" "" "") ScopeCluster)) (cfg_routes config)
  | _ => false
  end.
Definition config_tests : list bool := [
    test_load_from_configdb; test_load_from_yaml; test_response_result_from_code; test_wait_for_response_success;
    test_wait_for_response_timeout; test_wait_for_response_channel_broken; test_get_swbus_config].

Lemma config_tests_pass : Forall (λ t, t = true) config_tests.
Proof. repeat constructor; vm_compute; reflexivity. Qed.

(** * sonicdb-derive *)

Definition my_struct_attrs : list Attribute := [mkAttr "sonicdb" (Some
    [str_meta "table_name" "MY_STRUCT"; str_meta "key_separator" ":"; str_meta "db_name" "db1"])].
Definition test_attributes : bool :=
  match serde_sonicdb_derive unit my_struct_attrs with
  | Done t => bool_decide (@key_separator unit t = ":" ∧ @table_name unit t = "MY_STRUCT" ∧ @db_name unit t = "db1")
  | _ => false
  end.
Lemma derive_test_passes : test_attributes = true.
Proof. vm_compute. reflexivity. Qed.
