(* ===== verification/BridgeTests.v ===== *)
(** The tests of swss-common-bridge, run against the models: the [test] modules of
    consumer.rs and producer.rs. A bridge and the client that talks to it share
    one edge runtime; the SONiC table between the bridge and the test is the list
    of the updates made to it. The random updates of the tests are an argument. *)
From S2P Require Import Prelude RustStr Path Proto Edge Actor Bridge HaTypes HaValue BusTests.

Open Scope stdpp_scope.

(** [sp] of the tests. *)
Definition bridge_test_sp (s : string) : ServicePath := parsed_sp ("test.test.test/test/test/test/" +:+ s).
(** [SimpleSwbusEdgeClient::new]: the client and its handler. *)
Definition test_client_new (addr : ServicePath) : M EdgeState SwbusError (nat * SimpleClient) :=
  let* h := client_new addr true in
  ret (h, mkClient addr false (mkIdGen 1000) [] (mkMsgChan [] true)).
(** What client [c] has sent reaches the handlers. *)
Definition route_sent (c : SimpleClient) : M EdgeState SwbusError unit :=
  for_each edge_send (delivered (router c));;; router_runs.
(** The client with what its handler [h] was given. *)
Definition client_given (h : nat) (c : SimpleClient) : M EdgeState SwbusError SimpleClient :=
  let* s := get_state in
  let* ch := unwrap "handler" (handlers s !! h) in
  modify (with_handler h (mkMsgChan [] (receiver_open ch)));;;
  ret (mkClient (client_source c) (client_sink c) (client_ids c) (handler_rx c ++ delivered ch) (router c)).

(** A computation of another part of the process, which must succeed. *)
Definition run_part {S T E A} (m : M T E A) (t : T) : M S SwbusError (A * T) :=
  match m t with
  | Done (Ok a, t') => ret (a, t')
  | Done (Err _, _) => panic "unwrap"
  | Panicked w => panic w
  | OutOfFuel => out_of_fuel
  end.

Definition decode_kfv (payload : list Z) : option KeyOpFieldValues :=
  match from_slice (V:=HaValue) payload with
  | Ok m => match from_value (msg_data m) with Ok kfv => Some kfv | Err _ => None end
  | Err _ => None
  end.
Definition encode_kfv (kfv : KeyOpFieldValues) : list Z :=
  match to_value (V:=HaValue) kfv with Ok v => to_vec (mkActorMsg "" v) | Err _ => [] end.

(** [n] times [swbus.recv()]. *)
Fixpoint receive_n_messages (n : nat) : M SimpleClient SwbusError (list KeyOpFieldValues) :=
  match n with
  | O => ret []
  | S n' =>
      let* msg := recv in
      match msg with
      | Some (mkIncoming _ _ _ (BodyRequest payload)) =>
          let* kfv := unwrap "deserialize" (decode_kfv payload) in
          let* received := receive_n_messages n' in
          ret (kfv :: received)
      | Some _ => panic "Did not receive proper message from bridge"
      | None => panic "timeout"
      end
  end.

Section Tests.
Context (random_kfvs : list KeyOpFieldValues).

(** The table after the updates, and its keys. *)
Definition final_table : TableCache := foldl (λ t kfv, (merge_kfv kfv t).2) ∅ random_kfvs.
Definition final_keys : list string := (map_to_list final_table).*1.

(** A bridge on the table, as spawned: it rehydrates if it can, then sees the
    updates. Its client is registered again each time. *)
Definition test_bridge : ConsumerBridge :=
  mkBridge (bridge_test_sp "mytable-bridge") "mytable" (λ _, (bridge_test_sp "receiver", "")) (λ _, Some true).
Definition spawn_and_run (can_rehydrate : bool) (keys : list string) (evs : list ConsumerEvent) : M EdgeState SwbusError unit :=
  let* b := test_client_new (br_addr test_bridge) in
  let* r := run_part (run_consumer_bridge (V:=HaValue) test_bridge can_rehydrate (Ok keys) (λ k, Ok (final_table !! k)) evs)
              (mkConsumerSt ∅ b.2) in
  route_sent (consumer_client r.2).

(** [rehydrates]: whether the tables of the test can be read back, as those of Redis. *)
Definition run_consumer_test (rehydrates : bool) : M EdgeState SwbusError unit :=
  let* swbus := test_client_new (bridge_test_sp "receiver") in
  spawn_and_run rehydrates [] [EvUpdates random_kfvs];;;
  let* c := client_given swbus.1 swbus.2 in
  let* received := run_part (receive_n_messages (length random_kfvs)) c in
  assert_eq received.1 random_kfvs;;;
  when rehydrates (
    spawn_and_run true final_keys [];;;
    let* c := client_given swbus.1 received.2 in
    let n_set_kfvs := length (filter (λ kfv, kfv_operation kfv = KopSet) random_kfvs) in
    let* received := run_part (receive_n_messages n_set_kfvs) c in
    assert_true (forallb (λ kfv, bool_decide (kfv ∈ random_kfvs)) received.1)).
Definition consumer_state_table_bridge : bool := test_ends (run_consumer_test true) (edge_new (bridge_test_sp "edge")).
Definition zmq_consumer_state_table_bridge : bool := test_ends (run_consumer_test false) (edge_new (bridge_test_sp "edge")).

#[local] Instance logged_table : ProducerTable (list KeyOpFieldValues) := {
  producer_set t k f := Ok (t ++ [mkKfv k KopSet f]);
  producer_del t k := Ok (t ++ [mkKfv k KopDel ∅]);
}.
(** [swbus.send(msg)], for each update. *)
Definition send_updates : M SimpleClient SwbusError unit :=
  for_each (λ kfv, let* _ := client_send (mkOutgoing (bridge_test_sp "mytable-bridge") (BodyRequest (encode_kfv kfv))) in ret tt)
    random_kfvs.
Definition run_producer_test : M EdgeState SwbusError unit :=
  let* swbus := test_client_new (bridge_test_sp "receiver") in
  let* bridge := test_client_new (bridge_test_sp "mytable-bridge") in
  let* sent := run_part send_updates swbus.2 in
  route_sent sent.2;;;
  let* c := client_given bridge.1 bridge.2 in
  let* r := run_part (producer_loop (V:=HaValue) (length random_kfvs + 1)) (mkProducerSt [] c) in
  assert_eq (producer_table r.2) random_kfvs.
Definition producer_state_table_bridge : bool := test_ends run_producer_test (edge_new (bridge_test_sp "edge")).
End Tests.

(** Updates of rows of their own. *)
Definition some_kfvs : list KeyOpFieldValues :=
  [mkKfv "k1" KopSet {["a" := "1"; "b" := "2"]}; mkKfv "k2" KopDel ∅; mkKfv "k3" KopSet {["f" := ""]}; mkKfv "k4" KopSet ∅;
   mkKfv "k5" KopDel ∅].
Lemma bridge_tests_pass :
  consumer_state_table_bridge some_kfvs = true ∧ zmq_consumer_state_table_bridge some_kfvs = true ∧
  producer_state_table_bridge some_kfvs = true.
Proof. split_and!; vm_compute; reflexivity. Qed.
