(* ===== verification/TopoTests.v ===== *)
(** The integration tests of swbusd, run against the models: the executor of
    swbus-core/tests/common/test_executor.rs with the topology and the test cases of
    swbus-core/tests/data. A topology is the state of each swbusd, and the gRPC
    streams between them and to the clients: what waits in a send queue is read by
    the worker, or the client, at the other end. The tests start when every dial
    has succeeded. *)
From S2P Require Import Prelude RustStr NetAddr Path Proto Json Mux MuxWitness Conn Edge Config BusTests.

Open Scope stdpp_scope.

(** * Data of the tests *)

Record MessageClientPair : Type := mkPair { mc_client : string; mc_message : SwbusMessage }.
Record TestStepData : Type := mkStep { st_requests : list MessageClientPair; st_responses : list MessageClientPair }.
Record TestCaseData : Type := mkCase { tc_name : string; tc_topo : option string; tc_steps : list TestStepData }.
Record SwbusClientConfig : Type := mkClientConfig { cc_swbusd : string; cc_client_sp : string }.
Record TopoData : Type := mkTopoData {
  td_servers : list (string * (SocketAddr * list RouteConfig * list PeerConfig));
  td_clients : list (string * SwbusClientConfig);
}.

(** * Topologies *)

(** Who reads a send queue. *)
Inductive StreamSink : Type := ToServer (name : string) | ToClient (name : string).

Record TopoRuntime : Type := mkTopo {
  topo_name : string;
  topo_servers : gmap string TestNode;
  topo_streams : list (string * nat * StreamSink);
  topo_receivers : gmap string (list SwbusMessage);
  topo_attached : gmap string string;
}.
Abbreviation Topo := (M TopoRuntime SwbusError).

Definition topo_new (name : string) : TopoRuntime := mkTopo name ∅ [] ∅ ∅.
(** An operation of one swbusd. *)
Definition at_server {A} (name : string) (m : M TestNode SwbusError A) : Topo A :=
  let* t := get_state in
  let* n := unwrap "server" (topo_servers t !! name) in
  let put n := put_state (mkTopo (topo_name t) (<[name := n]> (topo_servers t)) (topo_streams t) (topo_receivers t) (topo_attached t)) in
  match m n with
  | Done (Ok a, n') => put n';;; ret a
  | Done (Err e, n') => put n';;; throw e
  | Panicked w => panic w
  | OutOfFuel => out_of_fuel
  end.
Definition add_stream (server : string) (q : nat) (sink : StreamSink) : Topo unit :=
  modify (λ t, mkTopo (topo_name t) (topo_servers t) (topo_streams t ++ [(server, q, sink)]) (topo_receivers t) (topo_attached t)).
Definition new_queue {E} : M TestNode E nat :=
  let* n := get_state in ret (size (send_queues (mux n))).
(** [mpsc::channel(16)] of a connection. *)
Definition connection_channel : BoundedChan := mkChan 16 [] false.

(** [stream_messages] of the swbusd [name]: the queue it answers on. *)
Definition accept_at (name : string) (addr : SocketAddr) (meta : string * string) : Topo nat :=
  let* q := at_server name new_queue in
  let* r := attempt (E:=SwbusError) (at_server name (λ n,
    match stream_messages addr (Some meta.1) (Some meta.2) q connection_channel n with
    | Done (Ok c, n') => Done (Ok c, n')
    | Done (Err e, n') => Done (Err (ConnectionErr ConnectionError e), n')
    | Panicked w => Panicked w
    | OutOfFuel => OutOfFuel
    end)) in
  match r with Ok _ => ret q | Err e => throw e end.

Definition start_server (name : string) (cfg_routes : list RouteConfig) (cfg_peers : list PeerConfig) : Topo unit :=
  modify (λ t, mkTopo (topo_name t) (<[name := test_node]> (topo_servers t)) (topo_streams t) (topo_receivers t) (topo_attached t));;;
  at_server name (start cfg_routes cfg_peers).

(** One connection task of [name] dials the swbusd that listens at its address. *)
Definition dial_peer (servers : list (string * (SocketAddr * list RouteConfig * list PeerConfig))) (name : string)
    (token : nat) (task : ConnectTask) : Topo unit :=
  let ci := task_info task in
  match List.find (λ s : string * (SocketAddr * list RouteConfig * list PeerConfig), bool_decide (s.2.1.1 = remote_addr ci)) servers with
  | None => panic "nobody listens"
  | Some peer =>
      let* q := at_server name new_queue in
      let* meta := at_server name (client_metadata ci) in
      let* q' := accept_at peer.1 (mkAddr "127.0.0.1" (40000 + Z.of_nat q)) meta in
      let* conn := at_server name (connect ci (Ok tt) (Ok tt) (λ _, Ok tt) q connection_channel) in
      at_server name (modify (connect_task_round token (Some conn)));;;
      add_stream name q (ToServer peer.1);;;
      add_stream peer.1 q' (ToServer name)
  end.
Definition dial_peers (servers : list (string * (SocketAddr * list RouteConfig * list PeerConfig))) (name : string) : Topo unit :=
  let* ts := at_server name (let* n := get_state in ret (map_to_list (tasks n))) in
  for_each (λ e : nat * ConnectTask, dial_peer servers name e.1 e.2) ts.

(** [SwbusCoreClient::connect], on behalf of the client [name]. *)
Definition start_client (name : string) (client : SwbusClientConfig) : Topo unit :=
  let* meta := match connect_metadata (edge_new (parsed_sp (cc_client_sp client))) with
               | Done (Ok meta, _) => ret meta
               | Done (Err e, _) => throw e
               | Panicked w => panic w
               | OutOfFuel => out_of_fuel
               end in
  let* q := accept_at (cc_swbusd client) (mkAddr "127.0.0.1" 50000) meta in
  add_stream (cc_swbusd client) q (ToClient name);;;
  modify (λ t, mkTopo (topo_name t) (topo_servers t) (topo_streams t) (<[name := []]> (topo_receivers t))
                 (<[name := cc_swbusd client]> (topo_attached t))).

Definition bring_up (topo_cfgs : string → option TopoData) : Topo unit :=
  let* t := get_state in
  let* topo_cfg := unwrap "Failed to find topo" (topo_cfgs (topo_name t)) in
  for_each (λ s : string * (SocketAddr * list RouteConfig * list PeerConfig), start_server s.1 s.2.1.2 s.2.2) (td_servers topo_cfg);;;
  for_each (λ s : string * (SocketAddr * list RouteConfig * list PeerConfig), dial_peers (td_servers topo_cfg) s.1) (td_servers topo_cfg);;;
  for_each (λ c : string * SwbusClientConfig, start_client c.1 c.2) (td_clients topo_cfg).

(** * Messages on their way *)

(** The worker of swbusd [name] reads a message; an error is logged. *)
Definition server_reads (name : string) (m : SwbusMessage) : Topo unit :=
  let* _ := attempt (E:=SwbusError) (at_server name (process_data_message false test_fuel m)) in ret tt.
(** The first message of a send queue goes to the other end. *)
Definition stream_turn (stream : string * nat * StreamSink) : Topo unit :=
  let '(name, q, sink) := stream in
  let* c := at_server name (let* n := get_state in unwrap "queue" (send_queues (mux n) !! q)) in
  match chan_queue c with
  | [] => ret tt
  | m :: l =>
      at_server name (modify (with_mux (with_queue q (mkChan (chan_capacity c) l (chan_closed c)))));;;
      match sink with
      | ToServer peer => server_reads peer m
      | ToClient client =>
          modify (λ t, mkTopo (topo_name t) (topo_servers t) (topo_streams t)
                         (alter (λ l, l ++ [m]) client (topo_receivers t)) (topo_attached t))
      end
  end.
Fixpoint streams_run (rounds : nat) : Topo unit :=
  match rounds with
  | O => ret tt
  | S rounds' => (let* t := get_state in for_each stream_turn (topo_streams t));;; streams_run rounds'
  end.

(** * The executor *)

Definition receive_and_compare (expected_responses : list MessageClientPair) : Topo unit :=
  for_each (λ resp,
    let* t := get_state in
    let* l := unwrap "client" (topo_receivers t !! mc_client resp) in
    match l with
    | msg :: l' =>
        put_state (mkTopo (topo_name t) (topo_servers t) (topo_streams t) (<[mc_client resp := l']> (topo_receivers t)) (topo_attached t));;;
        match normalize_msg msg tt with
        | Done (Ok normalized_msg, _) => assert_eq normalized_msg (mc_message resp)
        | _ => panic "normalize_msg"
        end
    | [] => panic "timeout waiting for response"
    end) expected_responses.
Definition run_step (step : TestStepData) : Topo unit :=
  for_each (λ req,
    let* t := get_state in
    let* server := unwrap "client" (topo_attached t !! mc_client req) in
    server_reads server (mc_message req)) (st_requests step);;;
  streams_run 8;;;
  receive_and_compare (st_responses step).
Definition run_tests (testcases : list TestCaseData) (test_case_name : option string) : Topo unit :=
  for_each (λ test,
    let* t := get_state in
    if match test_case_name with Some tc => negb (bool_decide (tc_name test = tc)) | None => false end then ret tt
    else if match tc_topo test with Some tp => negb (bool_decide (tp = topo_name t)) | None => false end then ret tt
    else for_each run_step (tc_steps test)) testcases.

(** * The data *)

Definition swbusd_of (node peer : string) (port peer_port : Z) : SocketAddr * list RouteConfig * list PeerConfig :=
  (mkAddr "127.0.0.1" port, [mkRouteConfig (parsed_sp node) ScopeCluster],
   [mkPeer (parsed_sp peer) (mkAddr "127.0.0.1" peer_port) ConnCluster]).
Definition topos (name : string) : option TopoData :=
  if decide (name = "2-swbusd") then
    Some (mkTopoData [("swbusd1", swbusd_of node1 node2 60001 60002); ("swbusd2", swbusd_of node2 node1 60002 60001)]
            [("swbusd1-client", mkClientConfig "swbusd1" "region-a.cluster-a.10.0.0.1-dpu0/testsvc/0")])
  else None.

Definition test_source : string := "region-a.cluster-a.10.0.0.1-dpu0/testsvc/0/ping/0".
Definition from_client (t : Z) (dst : string) (b : Body) : MessageClientPair :=
  mkPair "swbusd1-client" (mkMessage (Some (mkHeader 1 0 0 t (Some (parsed_sp test_source)) (Some (parsed_sp dst)))) (Some b)).
Definition to_client (t : Z) (src : string) (code : Z) (text : string) (rb : option ResponseBody) : MessageClientPair :=
  mkPair "swbusd1-client" (mkMessage (Some (mkHeader 1 0 0 t (Some (parsed_sp src)) (Some (parsed_sp test_source))))
    (Some (Response (mkResponse 0 code text rb)))).
Definition test_case (name : string) (requests responses : list MessageClientPair) : TestCaseData :=
  mkCase name (Some "2-swbusd") [mkStep requests responses].

Definition test_ping_cases : list TestCaseData := [
    test_case "ping_request" [from_client 64 node2 PingRequest] [to_client 62 node2 1 "" None];
    test_case "ping_ttl_expired" [from_client 1 node2 PingRequest] [to_client 63 node1 303 "TTL expired" None];
    test_case "ping_no_route" [from_client 64 "region-a.cluster-a.nonexist-dpu0" PingRequest]
      [to_client 63 node1 301 "Route not found" None]].
Definition test_show_route_cases : list TestCaseData := [
    test_case "show_route" [from_client 1 node1 (BodyManagementRequest (mkMgmt 0 []))]
      [to_client 63 node1 1 "" (Some (RouteQueryResult
         (let client := Some (parsed_sp "region-a.cluster-a.10.0.0.1-dpu0/testsvc/0") in
          [mkRouteEntry client "" client 1 1; mkRouteEntry (Some (parsed_sp node2)) "" (Some (parsed_sp node2)) 2 1])))]].
Definition test_trace_route_cases : list TestCaseData := [
    test_case "trace_route_request" [from_client 64 node2 TraceRouteRequest]
      [to_client 63 node1 1 "" None; to_client 62 node2 1 "" None];
    test_case "trace_route_with_ttl_expired" [from_client 1 node2 TraceRouteRequest]
      [to_client 63 node1 1 "" None; to_client 63 node1 303 "TTL expired" None]].

Definition test_all : bool :=
  test_ends (bring_up topos;;;
             run_tests test_ping_cases None;;;
             run_tests test_show_route_cases None;;;
             run_tests test_trace_route_cases None) (topo_new "2-swbusd").

Lemma topo_tests_pass : test_all = true.
Proof. vm_compute. reflexivity. Qed.
